(* ===== verification/_CoqProject ===== *)
-Q . S2P
Prelude.v
PyStr.v
PyDict.v
Templates.v
Regex.v
Json.v
JsonText.v
Logging.v
Encoding.v
Listener.v
PromptText.v
PyTime.v
Errors.v
TokenBucket.v
Models.v
World.v
Threads.v
Metrics.v
Samples.v
Kafka.v
Database.v
RecordModels.v
Isolation.v
PyVal.v
AuditLog.v
TenantConfig.v
Auth.v
Issuer.v
HotStore.v
Http.v
RateLimit.v
Validator.v
VssFetch.v
Vehicles.v
Integrity.v
Graph.v
Signing.v
Deployer.v
Repository.v
Feedback.v
Runner.v
Ingest.v
Slm.v
Guards.v
CiGuards.v
Artifacts.v
PiiGuard.v
Webhook.v
FindingSimulator.v
Erasure.v
BreakGlass.v
Query.v
App.v
Settings.v
Layout.v
TenantContext.v
LogSetup.v
Lifespan.v
Boot.v
System.v
Interleave.v
Concurrency.v
ConcurrentIsolation.v
Verdicts.v
Emission.v
Service.v
Migrations.v
