(* ===== verification/Prelude.v ===== *)
(** * CollectMind, verified

    CollectMind receives diagnostic findings about vehicles from many tenants,
    turns each into a data-collection policy with a language model, validates
    the policy, deploys it to the vehicles, evaluates the telemetry that comes
    back, and keeps an audit trail of all of it.  This library translates that
    Python program (under [src/src/collectmind/]) into Rocq functions and proves
    what makes it correct: tenants stay apart, nothing unvalidated is deployed,
    every accepted finding is worked on exactly once and ends on the record, the
    record is only ever added to, rates are bounded, and what is stored, signed
    or printed can be read back.

    ** How the program is modelled

    A program is a function of the monad [prog E S A] (this file): it takes a
    state and returns a result, a value or an exception, with the new state.
    [M] is that monad at the state [World.world] (the Postgres tables, the Redis
    keys, the in-process caches, the scheduled tasks, the metric registry and
    the outbound calls) and the exceptions [Errors.exn].  Exceptions are values,
    [catch] is [try/except], and a transaction restores the tables on an
    exception.  What the source reads from elsewhere (clock, random numbers,
    UUIDs, SHA-256, Ed25519, PyJWT and httpx, Pydantic's coercions, difflib, the
    inference servers, the process environment) is a type class with the laws
    the code relies on in a class of its own; [Samples] and the [*Samples]
    modules instantiate every one of them, and each theorem with a hypothesis is
    applied there to concrete data.

    In [System.step] one request, one background task, one tick of the worker and
    one notification each run as one atomic step.  [Interleave] cuts the posting of
    a finding into phases, and [Concurrency] cuts every operation with more than one
    transaction into a thread ([Threads]) and lets any number of threads take turns
    between any two of their transactions.  A thread that is left alone is its operation
    ([Threads.implements], the [*_thread_ok] lemmas).  Requests of one transaction stay
    atomic, as does a run of the graph, which touches no table, and a look at the tenant's
    configuration; since a transaction is one step, one setting of [app.tenant_id]
    ([w_guc]) stands for that of each connection.

    ** Which file models what

    Language and libraries:
    - [Prelude]: the monad and its laws, [stable] and [keeps] (what a program
      leaves alone and preserves), lists and sorting, the hint databases;
    - [PyStr], [PyDict], [PyVal], [PyTime]: strings, dictionaries, conversions
      and UTC timestamps; [Templates], [Regex]: searching, replacing, and the
      regular expressions of the sources;
    - [Json], [JsonText]: JSON values, [json.dumps], [json.loads] and [repr];
      [Encoding]: base64url and big-endian integers.

    Data and storage:
    - [Errors] ([errors.py]), [Models] (the validated models of [models/],
      [graph/session.py]), [RecordModels] (the record models of [models/]);
    - [World], [Database] ([registry/db.py] and the SQL migrations: roles,
      [app.tenant_id], row-level security, CHECK, uniqueness and foreign-key
      constraints, triggers), [Integrity] (the schema invariant), [Isolation]
      (the two relational properties behind tenant isolation);
    - [AuditLog] ([registry/audit.py]), [Repository] ([registry/repository.py]),
      [TenantConfig] ([registry/tenant_config.py]),
      [Listener] ([ratelimit/config_cache.py]), [Vehicles] ([registry/tenant_vehicles.py],
      [cache/ownership_cache.py]), [HotStore] ([redis/client.py]), [Migrations]
      ([registry/migrations/runner.py]).

    The policy loop:
    - [Ingest] ([ingest/]), [Graph] ([graph/], without the runner), [Slm]
      ([slm/]) over the prompt texts of [PromptText] ([prompts/]), [Validator]
      ([validator/]), [Signing] and [Deployer] ([deployer/]), [Runner]
      ([graph/runner.py]), [Feedback] ([feedback/],
      [simulators/telemetry_generator.py]), [FindingSimulator]
      ([simulators/diagnostic_finding_generator.py]).

    The edge:
    - [Auth] ([auth/]), [TokenBucket] and [RateLimit] ([ratelimit/]), [Query]
      ([query/api.py]), [Erasure] ([erasure/]), [BreakGlass]
      ([audit_admin/api.py]), [Http] and [App] ([app.py]), [TenantContext]
      ([registry/middleware/tenant_context.py]), [Kafka] ([kafka/]), [Logging] and
      [LogSetup] ([observability/logging.py]), [Metrics]
      ([observability/metrics.py], [ratelimit/metrics.py]).

    The process:
    - [Settings] ([config.py], the cached instances of [auth/dependencies.py] and
      [auth/operator_jwt_verifier.py], [observability/otel.py]), [Layout] (where
      [app.py], the prompt renderer and the validators look for their files),
      [Lifespan] (start-up and shutdown in [app.py]), [Boot] (start-up from the
      settings on).

    Around the service:
    - [Issuer] (the two local token issuers of [infra/compose/] and
      [scripts/dev_issue_jwt.py]), [Webhook] ([scripts/local_webhook.py]),
      [VssFetch] ([scripts/fetch_vss_v6.0.py]), [Artifacts]
      ([scripts/build_qwen_gguf.py], [scripts/fetch_qwen2.5_weights.py],
      [scripts/check_secrets.py], and the manifests as the verifier reads them);
    - the checks run on the repository: [Guards] (the runbook check), [CiGuards]
      (model pinning, leftover markers, weight manifest), [PiiGuard]
      ([scripts/check_log_pii.py], [observability/dashboard_provisioner.py]).

    The whole: [System] puts requests, tasks, worker and notifications together
    as one step relation, [Interleave] adds suspended posts to it, [Concurrency]
    suspends every operation at its transactions, [ConcurrentIsolation] and [Verdicts]
    say what the threads keep apart and what they achieve, [Emission] follows the metrics
    through it, and [Service] instantiates it with the clients start-up selects.

    ** How the parts interact

    A request passes [App.app]: the limiter ([RateLimit.dispatch], which asks
    [Auth.verify] for the tenant, [TenantConfig.get_for_tenant] for its limits
    and [TokenBucket.token_bucket_lua] for a token), the metrics middleware and
    the route.  [Ingest.post_finding] stores the finding and schedules
    [Runner.run_async], which runs [Graph.run] (generate, validate, retry,
    deploy) and stores the policy, the deployment and the audit events.
    [Feedback.tick] closes due windows and stores the outcome.  Tenants read
    through [Query], operators through [BreakGlass]; [Erasure] removes or redacts.

    Components meet at interfaces: [PolicyGeneratorClient], [CollectorAIClient]
    and [PayloadSigner] (implemented in [Slm], [Deployer] and [Signing]),
    [QuietGenerator]/[QuietCollector]/[TablesApart]/[IdleClients]/[SilentClients]
    (what the graph and the system need of a client; [Service] discharges the last
    three for every client the program has), [Tenanted] (a table under row-level
    security) and [Preserved] (an invariant the statements keep; the threads of
    [Concurrency] rely on it and guarantee it, see [Concurrency.triple]).

    ** What the theorems show

    - Isolation: [App.app_confined], [ConcurrentIsolation.concurrent_isolation] (the
      same of every transaction of every tenant, interleaved), [Query.query_isolated],
      [Auth.verify_sound].
    - State: [Concurrency.concurrent_consistent] (constraints, keys, references in
      every state that interleaved operations reach; [System.reachable_consistent]
      and [Interleave.interleaved_consistent] are its coarser forms),
      [Service.started_service_consistent] (the same of the process start-up
      assembles), [Concurrency.concurrent_append_only] and
      [System.record_append_only], [TenantConfig.config_cache_invariant].
    - The loop: [Ingest.post_finding_exactly_once], [Interleave.phases_compose],
      [Interleave.late_check_replays],
      [Graph.deploys_only_validated], [Graph.graph_run_terminates],
      [Runner.run_ends_on_record] and, among other threads,
      [Verdicts.concurrent_run_on_record] (a run that ends has its verdict on file, or
      ended with what writing it raised), [Feedback.closed_loop_verdict],
      [Feedback.process_records_outcome], [Feedback.tick_expires_processed];
      with the development client, [Slm.dev_policy_targets_finding] and
      [Slm.dev_run_deploys].
    - Limits: [TokenBucket.exact_admission_bound], [RateLimit.dispatch_gate],
      [RateLimit.default_limits_enforced], [RateLimit.refusal_until_refill],
      [RateLimit.noscript_recovery].
    - Obligations: [Erasure.erasure_completed_sound],
      [BreakGlass.break_glass_audited], [AuditLog.audit_write_recorded],
      [Vehicles.assign_atomic_audit], [Logging.strip_pii_complete],
      [LogSetup.log_lines_redacted].
    - Tokens: [Issuer.issued_token_verifies], [Issuer.foreign_token_refused],
      [Settings.issuers_separate] (tenant credentials do not open the operator
      surface).
    - The process: [Boot.boot_configured], [Settings.one_configuration],
      [Layout.resources_found], [TenantContext.tenant_context_transparent],
      [Lifespan.startup_ready], [Lifespan.lifespan_releases],
      [Listener.reconnect_delays], [Kafka.consumer_commits_handled],
      [Emission.samples_declared].
    - Reference definitions: [Validator.validate_ok_iff],
      [Ingest.idempotency_backends_agree], [Slm.fingerprint_identifies_request],
      [TenantConfig.config_bounded_staleness] (the cached configuration refines
      the table with bounded staleness), [Webhook.webhook_refines] (the buffer is
      the tail of the history), [VssFetch.fetched_vocabulary] (the validator accepts
      the leaves of the published tree), [Guards.runbook_check_exact],
      [CiGuards.pinning_check_exact], [CiGuards.manifest_main_exact].
    - Round trips: [Repository.policy_roundtrip],
      [Repository.deployment_window_roundtrip], [Migrations.rollback_restores],
      [Signing.signature_covers_payload], [JsonText.loads_print],
      [Artifacts.fetched_manifest_verifies] and [Artifacts.built_line_verifies]
      (a manifest verifies just the artifacts it was written for).
    - Errors: [RateLimit.dispatch_fails_closed], [Auth.verify_errors] (every cause of a
      failed verification and its error), [Deployer.scope_check_gates_deploy].

    Theorems that start "The processor does not ...", "is not ..." and the like
    pin down behaviour that differs from what the source says of itself.

    ** Bounds and fuel

    [Graph.attempt_loop] recurses on fuel [Graph.attempts_left], the retry budget
    left; [graph_run_terminates] shows a run never exhausts it.
    [JsonText.loads] uses [2 * length + 1], enough by [loads_enough].  [replace]
    and [sub] use the length of the text, enough because every step consumes a
    character; [Artifacts.sha256_file] reads one chunk per unit of the file's length,
    enough by [Artifacts.sha256_file_whole].  The worker's loop, [Feedback.run_rounds], is
    taken for any number of rounds.  Integers are unbounded as in Python; column widths are constraints
    of the tables and [TokenBucket] shows the Lua script's doubles exact.  Floats
    are the exact rational values of doubles; the development client rounds
    ([Slm.to_double]), other float arithmetic is taken over the rationals.
    Strings are code points below 256.  [PyTime.fromisoformat] reads the shape
    [isoformat] prints.

    ** Not modelled

    The OpenAPI dump prints what FastAPI generates.  The HTTP servers, asyncio's
    event loop below the grain of a transaction, the exporters of OpenTelemetry and
    the Prometheus client (the samples are recorded, not aggregated, and label values kept
    in order without their keywords), structlog (its processors and loggers), PyJWT (its
    cache of key sets included), how pydantic-settings finds its texts and the programs the scripts
    start are third-party code: parameters where the program depends on them, left
    out where it does not.  [ratelimit/defaults.py] repeats the constants of
    [registry/tenant_config.py] and is not imported by the program. *)
From Stdlib Require Export ZArith Lia.
From stdpp Require Export base tactics list strings gmap sorting.

(** * Results and effectful programs

    A Python call either returns a value or raises.  Code that reads or writes
    the process state (database, Redis, clock, metrics) is a program over an
    explicit state: it returns a [result] and the state it leaves behind, also
    when it raises, because Python does not undo side effects on a raise. *)
Inductive result (E A : Type) : Type :=
| Ok (a : A)
| Raise (e : E).
Arguments Ok {E A} a.
Arguments Raise {E A} e.

#[global] Instance result_ret {E} : MRet (result E) := λ A a, Ok a.
#[global] Instance result_bind {E} : MBind (result E) := λ A B k m,
  match m with Ok a => k a | Raise e => Raise e end.

Definition prog (E S A : Type) : Type := S → result E A * S.

Section Combinators.
Context {E S : Type}.

#[global] Instance prog_ret : MRet (prog E S) := λ A a s, (Ok a, s).

#[global] Instance prog_bind : MBind (prog E S) := λ A B k m s,
  match m s with
  | (Ok a, s') => k a s'
  | (Raise e, s') => (Raise e, s')
  end.

Definition raise {A} (e : E) : prog E S A := λ s, (Raise e, s).
Definition get : prog E S S := λ s, (Ok s, s).
Definition gets {A} (f : S → A) : prog E S A := λ s, (Ok (f s), s).
Definition modify (f : S → S) : prog E S unit := λ s, (Ok tt, f s).
Definition lift {A} (r : result E A) : prog E S A := λ s, (r, s).

(** [try: m  except Exception as e: h(e)]. *)
Definition catch {A} (m : prog E S A) (h : E → prog E S A) : prog E S A := λ s,
  match m s with
  | (Ok a, s') => (Ok a, s')
  | (Raise e, s') => h e s'
  end.

(** [for x in l: f(x)]; a raise ends the loop. *)
Fixpoint for_each {A} (l : list A) (f : A → prog E S unit) : prog E S unit :=
  match l with
  | [] => mret tt
  | x :: l' => f x ;; for_each l' f
  end.

Definition when (b : bool) (m : prog E S unit) : prog E S unit :=
  if b then m else mret tt.

End Combinators.

(** A run, from its result. *)
Lemma pair_of_fst {A B} (p : A * B) a : p.1 = a → p = (a, p.2).
Proof. by intros <-; destruct p. Qed.

Section MonadLaws.
Context {E S A B C : Type}.

Lemma bind_ret_l (a : A) (k : A → prog E S B) s : (mret a ≫= k) s = k a s.
Proof. reflexivity. Qed.

Lemma bind_ret_r (m : prog E S A) s : (m ≫= mret) s = m s.
Proof. unfold mbind, prog_bind, mret, prog_ret. by destruct (m s) as [[] ?]. Qed.

Lemma bind_assoc (m : prog E S A) (f : A → prog E S B) (g : B → prog E S C) s :
  ((m ≫= f) ≫= g) s = (m ≫= λ a, f a ≫= g) s.
Proof. unfold mbind, prog_bind. by destruct (m s) as [[] ?]. Qed.

Lemma bind_ok (m : prog E S A) (k : A → prog E S B) s a s' :
  m s = (Ok a, s') → (m ≫= k) s = k a s'.
Proof. unfold mbind, prog_bind. by intros ->. Qed.

Lemma bind_raise (m : prog E S A) (k : A → prog E S B) s e s' :
  m s = (Raise e, s') → (m ≫= k) s = (Raise e, s').
Proof. unfold mbind, prog_bind. by intros ->. Qed.

(** Binds that continue alike are alike. *)
Lemma bind_ext (m : prog E S A) (k k' : A → prog E S B) s :
  (∀ a s', m s = (Ok a, s') → k a s' = k' a s') → (m ≫= k) s = (m ≫= k') s.
Proof. intros Hk. unfold mbind, prog_bind. destruct (m s) as [[a|e] s'] eqn:Em; [by apply Hk|done]. Qed.

Lemma bind_inv_ok (m : prog E S A) (k : A → prog E S B) s b s' :
  (m ≫= k) s = (Ok b, s') → ∃ a s1, m s = (Ok a, s1) ∧ k a s1 = (Ok b, s').
Proof.
  unfold mbind, prog_bind. destruct (m s) as [[a|e] s1]; [by eauto | discriminate].
Qed.
End MonadLaws.

(** * Frame and invariant reasoning

    [stable f m]: program [m] never changes the observation [f] of the state.
    [keeps I m]: program [m] preserves the invariant [I], on every path, raises
    included. *)
Definition stable {E S A B : Type} (f : S → B) (m : prog E S A) : Prop :=
  ∀ s, f (m s).2 = f s.
Definition keeps {E S A : Type} (I : S → Prop) (m : prog E S A) : Prop :=
  ∀ s, I s → I (m s).2.

Create HintDb effects.

Section Frames.
Context {E S : Type}.

Lemma stable_ret {A B} (f : S → B) (a : A) : stable f (mret a : prog E S A).
Proof. done. Qed.
Lemma stable_raise {A B} (f : S → B) (e : E) : stable f (raise e : prog E S A).
Proof. done. Qed.
Lemma stable_gets {A B} (f : S → B) (g : S → A) : stable f (gets g : prog E S A).
Proof. done. Qed.
Lemma stable_get {B} (f : S → B) : stable f (get : prog E S S).
Proof. done. Qed.
Lemma stable_lift {A B} (f : S → B) (r : result E A) : stable f (lift r).
Proof. done. Qed.
Lemma stable_modify {B} (f : S → B) (g : S → S) :
  (∀ s, f (g s) = f s) → stable f (modify g : prog E S unit).
Proof. intros H s. apply H. Qed.

Lemma stable_bind {A B C} (f : S → B) (m : prog E S A) (k : A → prog E S C) :
  stable f m → (∀ a, stable f (k a)) → stable f (m ≫= k).
Proof.
  intros Hm Hk s. unfold mbind, prog_bind. specialize (Hm s).
  destruct (m s) as [[a|e] s'] eqn:Em; simpl in *; [by rewrite Hk | done].
Qed.

Lemma stable_catch {A B} (f : S → B) (m : prog E S A) h :
  stable f m → (∀ e, stable f (h e)) → stable f (catch m h).
Proof.
  intros Hm Hh s. unfold catch. specialize (Hm s).
  destruct (m s) as [[a|e] s'] eqn:Em; simpl in *; [done | by rewrite Hh].
Qed.

Lemma stable_for_each {A B} (f : S → B) (l : list A) (g : A → prog E S unit) :
  (∀ a, stable f (g a)) → stable f (for_each l g).
Proof.
  intros Hg. induction l as [|x l IH]; simpl; [apply stable_ret|].
  apply stable_bind; auto.
Qed.

Lemma stable_when {B} (f : S → B) b (m : prog E S unit) :
  stable f m → stable f (when b m).
Proof. by destruct b. Qed.

(** The continuation only has to be stable for values the program can return. *)
Lemma stable_bind_post {A B C} (f : S → B) (m : prog E S A) (k : A → prog E S C) :
  stable f m → (∀ a s s', m s = (Ok a, s') → stable f (k a)) → stable f (m ≫= k).
Proof.
  intros Hm Hk s. unfold mbind, prog_bind. specialize (Hm s).
  destruct (m s) as [[a|e] s'] eqn:Em; simpl in *; [|done]. by rewrite (Hk a s s' Em).
Qed.
Lemma stable_for_each_in {A B} (f : S → B) (l : list A) (g : A → prog E S unit) :
  (∀ a, a ∈ l → stable f (g a)) → stable f (for_each l g).
Proof.
  induction l as [|x l IH]; intros Hg; simpl; [apply stable_ret|].
  apply stable_bind; [apply Hg; by left|]. intros _. apply IH. intros a Ha. apply Hg. by right.
Qed.
Lemma keeps_stable {A B} (f : S → B) (P : B → Prop) (m : prog E S A) :
  stable f m → keeps (λ s, P (f s)) m.
Proof. intros Hm s. by rewrite (Hm s). Qed.

Lemma mapM_ok_all {A B} (P : A → B → Prop) (f : A → prog E S B) l s ys s' :
  (∀ x s y s', f x s = (Ok y, s') → P x y) → mapM f l s = (Ok ys, s') → Forall2 P l ys.
Proof.
  intros Hf. revert s ys. induction l as [|x l IH]; intros s ys Hm; simpl in Hm;
    [injection Hm as <- _; constructor|].
  apply bind_inv_ok in Hm as (y & s1 & E1 & Hm). apply bind_inv_ok in Hm as (zs & s2 & E2 & Hm).
  injection Hm as <- <-. constructor; eauto.
Qed.
Lemma mapM_ok_length {A B} (f : A → prog E S B) l s ys s' :
  mapM f l s = (Ok ys, s') → length l = length ys.
Proof. intros Hm. eapply Forall2_length, (mapM_ok_all (λ _ _, True)); done. Qed.
Lemma stable_mapM {A B C} (f : S → C) (g : A → prog E S B) (l : list A) :
  (∀ a, stable f (g a)) → stable f (mapM g l).
Proof.
  intros Hg. induction l as [|x l IH]; simpl; [apply stable_ret|].
  apply stable_bind; [done|]. intros y. apply stable_bind; [exact IH|]. intros; apply stable_ret.
Qed.

Lemma keeps_ret {A} (I : S → Prop) (a : A) : keeps I (mret a : prog E S A).
Proof. intros s ?; done. Qed.
Lemma keeps_raise {A} (I : S → Prop) (e : E) : keeps I (raise e : prog E S A).
Proof. intros s ?; done. Qed.
Lemma keeps_gets {A} (I : S → Prop) (g : S → A) : keeps I (gets g : prog E S A).
Proof. intros s ?; done. Qed.
Lemma keeps_lift {A} (I : S → Prop) (r : result E A) : keeps I (lift r).
Proof. intros s ?; done. Qed.
Lemma keeps_modify (I : S → Prop) (g : S → S) :
  (∀ s, I s → I (g s)) → keeps I (modify g : prog E S unit).
Proof. intros H s ?; simpl; auto. Qed.

Lemma keeps_bind {A C} (I : S → Prop) (m : prog E S A) (k : A → prog E S C) :
  keeps I m → (∀ a, keeps I (k a)) → keeps I (m ≫= k).
Proof.
  intros Hm Hk s Hs. unfold mbind, prog_bind. specialize (Hm s Hs).
  destruct (m s) as [[a|e] s'] eqn:Em; simpl in *; [by apply Hk | done].
Qed.

(** What the first half established is available to the second. *)
Lemma keeps_bind_post {A C} (I : S → Prop) (m : prog E S A) (k : A → prog E S C) :
  keeps I m → (∀ a s s', m s = (Ok a, s') → I s' → I (k a s').2) → keeps I (m ≫= k).
Proof.
  intros Hm Hk s Hs. specialize (Hm s Hs). unfold mbind, prog_bind.
  destruct (m s) as [[a|e] s'] eqn:Em; simpl in *; [by eapply Hk | done].
Qed.
Lemma keeps_catch {A} (I : S → Prop) (m : prog E S A) h :
  keeps I m → (∀ e, keeps I (h e)) → keeps I (catch m h).
Proof.
  intros Hm Hh s Hs. unfold catch. specialize (Hm s Hs).
  destruct (m s) as [[a|e] s'] eqn:Em; simpl in *; [done | by apply Hh].
Qed.

Lemma keeps_for_each {A} (I : S → Prop) (l : list A) (g : A → prog E S unit) :
  (∀ a, keeps I (g a)) → keeps I (for_each l g).
Proof.
  intros Hg. induction l as [|x l IH]; simpl; [apply keeps_ret|].
  apply keeps_bind; auto.
Qed.
Lemma keeps_mapM {A B} (I : S → Prop) (f : A → prog E S B) (l : list A) :
  (∀ a, keeps I (f a)) → keeps I (mapM f l).
Proof.
  intros Hf. induction l as [|x l IH]; [apply keeps_ret|].
  apply keeps_bind; [apply Hf|]. intros y. apply keeps_bind; [apply IH|]. intros; apply keeps_ret.
Qed.

(** A program that leaves the whole state alone. *)
Lemma pure_run {A} (m : prog E S A) s a s' : stable (λ s, s) m → m s = (Ok a, s') → s' = s.
Proof. intros Hm Hr. specialize (Hm s). by rewrite Hr in Hm. Qed.
Lemma pure_stable {A B} (f : S → B) (m : prog E S A) : stable (λ s, s) m → stable f m.
Proof. intros Hm s. by rewrite (Hm s). Qed.

(** A loop that ran to its end, item by item. *)
Lemma for_each_ok_all {A} (Q : A → S → Prop) (l : list A) (f : A → prog E S unit) s s' :
  (∀ x s s', f x s = (Ok tt, s') → Q x s') → (∀ x y, keeps (Q x) (f y)) →
  for_each l f s = (Ok tt, s') → ∀ x, x ∈ l → Q x s'.
Proof.
  intros Hf Hk. revert s. induction l as [|y l IH]; intros s Hl x Hx;
    [by apply not_elem_of_nil in Hx|].
  simpl in Hl. apply bind_inv_ok in Hl as ([] & s1 & E1 & Hl).
  apply elem_of_cons in Hx as [->|Hx]; [|by eapply IH].
  pose proof (keeps_for_each (Q y) l f (Hk y) s1 (Hf _ _ _ E1)) as Hq. by rewrite Hl in Hq.
Qed.
End Frames.

#[export] Hint Resolve stable_ret stable_raise stable_gets stable_get stable_lift
  stable_modify stable_bind stable_catch stable_for_each stable_when
  keeps_ret keeps_raise keeps_gets keeps_lift keeps_bind keeps_catch
  keeps_for_each : effects.

(** Decompose a program along its structure and close the leaves with the
    [effects] hints. *)
Ltac effects_step :=
  match goal with
  | |- stable _ (_ ≫= _) => apply stable_bind; [|intros ?]
  | |- keeps _ (_ ≫= _) => apply keeps_bind; [|intros ?]
  | |- stable _ (catch _ _) => apply stable_catch; [|intros ?]
  | |- keeps _ (catch _ _) => apply keeps_catch; [|intros ?]
  | |- stable _ (match ?x with _ => _ end) => destruct x
  | |- keeps _ (match ?x with _ => _ end) => destruct x
  | |- _ => solve [eauto with effects]
  end.
Ltac solve_effects := repeat effects_step.

(** Unfold the monad on a concrete state. *)
Ltac run_prog :=
  unfold mbind, prog_bind, mret, prog_ret, raise, get, gets, modify, lift, catch,
    when in *; simpl in *.

(** Split every [match] or [if] in the goal or the hypotheses, remembering the
    equation. *)
Ltac split_match :=
  match goal with
  | |- context [match ?x with _ => _ end] =>
      lazymatch x with context [match _ with _ => _ end] => fail | _ => destruct x eqn:? end
  | H : context [match ?x with _ => _ end] |- _ =>
      lazymatch x with context [match _ with _ => _ end] => fail | _ => destruct x eqn:? end
  end.

(** * Stable insertion sort on an integer key

    The order [ORDER BY key ASC] gives rows; rows with equal keys keep their
    insertion order (SQL leaves that order open; one choice is fixed here). *)
Section SortBy.
Context {A : Type} (key : A → Z).

Fixpoint insert_by (x : A) (l : list A) : list A :=
  match l with
  | [] => [x]
  | y :: l' => if key x <=? key y then x :: l else y :: insert_by x l'
  end%Z.

Definition sort_by (l : list A) : list A := foldr insert_by [] l.

Lemma insert_by_perm x l : insert_by x l ≡ₚ x :: l.
Proof.
  induction l as [|y l IH]; simpl; [done|].
  destruct (key x <=? key y)%Z; [done|]. rewrite IH. apply Permutation_swap.
Qed.

Lemma sort_by_perm l : sort_by l ≡ₚ l.
Proof. induction l as [|x l IH]; simpl; [done|]. by rewrite insert_by_perm, IH. Qed.

Lemma elem_of_sort_by x l : x ∈ sort_by l ↔ x ∈ l.
Proof. by rewrite sort_by_perm. Qed.

Lemma insert_by_sorted x l :
  StronglySorted (λ a b, key a ≤ key b)%Z l →
  StronglySorted (λ a b, key a ≤ key b)%Z (insert_by x l).
Proof.
  induction 1 as [|y l Hl IH Hy]; simpl; [by repeat constructor|].
  destruct (Z.leb_spec (key x) (key y)).
  - constructor; [by constructor|]. constructor; [done|].
    eapply Forall_impl; [exact Hy|]. simpl. intros. lia.
  - constructor; [done|]. rewrite insert_by_perm. constructor; [lia|done].
Qed.

Lemma sort_by_sorted l : StronglySorted (λ a b, key a ≤ key b)%Z (sort_by l).
Proof. induction l; simpl; [constructor | by apply insert_by_sorted]. Qed.
End SortBy.

(** * Boolean filters *)
Section Lists.
Context {A : Type}.
Lemma filter_andb (p q : A → bool) l :
  List.filter (λ x, p x && q x) l = List.filter q (List.filter p l).
Proof.
  induction l as [|x l IH]; simpl; [done|]. destruct (p x); simpl; [|done]. by rewrite IH.
Qed.
Lemma filter_none (p : A → bool) l : (∀ x, x ∈ l → p x = false) → List.filter p l = [].
Proof.
  induction l as [|x l IH]; intros Hp; simpl; [done|]. rewrite Hp by (by left).
  apply IH. intros y Hy. apply Hp. by right.
Qed.
Lemma filter_ext_bool (p q : A → bool) l :
  (∀ x, p x = q x) → List.filter p l = List.filter q l.
Proof. intros H. apply List.filter_ext. intros. apply H. Qed.
Lemma filter_map_unchanged (p q : A → bool) (f : A → A) l :
  (∀ x, q x = true → p x = false ∧ p (f x) = false) →
  List.filter p ((λ x, if q x then f x else x) <$> l) = List.filter p l.
Proof.
  intros Hf. induction l as [|x l IH]; [done|]. rewrite fmap_cons. simpl.
  destruct (q x) eqn:E; [destruct (Hf x E) as [-> ->]; done|].
  destruct (p x); by rewrite IH.
Qed.
Lemma filter_filter_disjoint (p q : A → bool) l :
  (∀ x, q x = false → p x = false) → List.filter p (List.filter q l) = List.filter p l.
Proof.
  intros Hd. induction l as [|x l IH]; simpl; [done|].
  destruct (q x) eqn:E; simpl; [by rewrite IH|]. by rewrite (Hd x E), IH.
Qed.
End Lists.

(** * Integer facts shared by the components *)
Lemma div_mul_le (a b : Z) : (0 < b)%Z → (b * (a / b) ≤ a)%Z.
Proof. intros. apply Z.mul_div_le. lia. Qed.

Lemma div_exact_divide (a b : Z) : (0 < b)%Z → (b | a)%Z → (b * (a / b) = a)%Z.
Proof. intros Hb [k ->]. rewrite Z.div_mul by lia. lia. Qed.

Lemma ceil_div_le (a b c : Z) : (0 < b)%Z → (a ≤ b * c)%Z → ((a + (b - 1)) / b ≤ c)%Z.
Proof. intros Hb H. apply Z.lt_succ_r, Z.div_lt_upper_bound; lia. Qed.

Lemma ceil_div_ge (a b : Z) : (0 < b)%Z → (a ≤ b * ((a + (b - 1)) / b))%Z.
Proof. intros Hb. pose proof (Z.mod_pos_bound (a + (b-1)) b Hb).
  pose proof (Z.div_mod (a + (b - 1)) b). lia. Qed.

(** Case analysis on every integer comparison in sight. *)
Ltac zcases :=
  repeat match goal with
  | |- context [(?a <=? ?b)%Z] => destruct (Z.leb_spec a b)
  | |- context [(?a <? ?b)%Z] => destruct (Z.ltb_spec a b)
  | |- context [(?a =? ?b)%Z] => destruct (Z.eqb_spec a b)
  | H : context [(?a <=? ?b)%Z] |- _ => destruct (Z.leb_spec a b)
  | H : context [(?a <? ?b)%Z] |- _ => destruct (Z.ltb_spec a b)
  | H : context [(?a =? ?b)%Z] |- _ => destruct (Z.eqb_spec a b)
  end; simpl in *.
