(* ===== verification/PyStr.v ===== *)
(** Python strings.  A [str] is a Rocq [string], a sequence of code points below
    256; the [str] methods the sources use are written out here with the lemmas
    about them that the components share.  Changing case acts on ASCII letters
    only: the program changes the case of HTTP methods, authentication schemes,
    profile names and driver messages. *)
From Stdlib Require Export Ascii.
From stdpp Require Import pretty.
From S2P Require Import Prelude.

(** * Characters *)
Definition code (c : ascii) : nat := nat_of_ascii c.
Definition is_digit (c : ascii) : bool := (48 <=? code c) && (code c <=? 57).
Definition is_upper (c : ascii) : bool := (65 <=? code c) && (code c <=? 90).
Definition is_lower (c : ascii) : bool := (97 <=? code c) && (code c <=? 122).
Definition ascii_eqb (a b : ascii) : bool := Ascii.eqb a b.
Definition to_lower (c : ascii) : ascii :=
  if is_upper c then ascii_of_nat (code c + 32) else c.
Definition to_upper (c : ascii) : ascii :=
  if is_lower c then ascii_of_nat (code c - 32) else c.
Definition newline : ascii := ascii_of_nat 10.
Definition is_space (c : ascii) : bool :=
  ((9 <=? code c) && (code c <=? 13)) || ((28 <=? code c) && (code c <=? 32)) ||
  (code c =? 133) || (code c =? 160).

(** * Traversals *)
Fixpoint smap (f : ascii → ascii) (s : string) : string :=
  match s with "" => "" | String a s' => String (f a) (smap f s') end.
Fixpoint sall (p : ascii → bool) (s : string) : bool :=
  match s with "" => true | String a s' => p a && sall p s' end.
Definition sany (p : ascii → bool) (s : string) : bool := negb (sall (λ a, negb (p a)) s).
Definition has_char (c : ascii) (s : string) : bool := sany (ascii_eqb c) s.

Definition lower (s : string) : string := smap to_lower s.
Definition upper (s : string) : string := smap to_upper s.
Definition startswith (s p : string) : bool := String.prefix p s.
Definition str_eqb (s t : string) : bool := String.eqb s t.
Definition nonempty (s : string) : bool := negb (str_eqb s "").

(** [sub in s]. *)
Fixpoint contains (sub s : string) : bool :=
  String.prefix sub s ||
  match s with "" => false | String _ s' => contains sub s' end.

(** [s[n:]]. *)
Fixpoint drop_str (n : nat) (s : string) : string :=
  match n, s with
  | O, _ => s
  | S n', String _ s' => drop_str n' s'
  | S _, "" => ""
  end.

Fixpoint lstrip (s : string) : string :=
  match s with
  | String a s' => if is_space a then lstrip s' else s
  | "" => ""
  end.
Fixpoint rstrip_by (p : ascii → bool) (s : string) : string :=
  match s with
  | "" => ""
  | String a s' =>
      match rstrip_by p s' with
      | "" => if p a then "" else String a ""
      | t => String a t
      end
  end.
(** [s.strip()] and [s.rstrip(c)]. *)
Definition strip (s : string) : string := rstrip_by is_space (lstrip s).
Definition rstrip_char (c : ascii) (s : string) : string := rstrip_by (ascii_eqb c) s.

(** [s.split(c)]. *)
Fixpoint split_on (c : ascii) (s : string) : list string :=
  match s with
  | "" => [""]
  | String a s' =>
      if ascii_eqb a c then "" :: split_on c s'
      else match split_on c s' with
           | [] => [String a ""]
           | w :: ws => String a w :: ws
           end
  end.
(** [s.split()]: fields between runs of white space. *)
Definition split_ws (s : string) : list string :=
  filter (λ w, nonempty w = true) (split_on " " (smap (λ a, if is_space a then " "%char else a) s)).
(** [sep.join(l)]. *)
Definition join (sep : string) (l : list string) : string := String.concat sep l.

(** * Regular expressions with [re.match] and a final [$]

    Python's [$] also matches before one trailing newline, so a pattern
    [^body$] accepts [w] and [w + "\n"] for every [w] the body accepts. *)
Fixpoint drop_final_newline (s : string) : string :=
  match s with
  | "" => ""
  | String a "" => if ascii_eqb a newline then "" else String a ""
  | String a s' => String a (drop_final_newline s')
  end.
(** [^[class]{lo,hi}$]. *)
Definition match_class (p : ascii → bool) (lo hi : nat) (s : string) : bool :=
  let w := drop_final_newline s in
  sall p w && (lo <=? String.length w) && (String.length w <=? hi).

(** [[A-Za-z0-9_\-.]], the identifier class of the HTTP layer. *)
Definition id_class (c : ascii) : bool :=
  is_upper c || is_lower c || is_digit c || ascii_eqb c "_" || ascii_eqb c "-" || ascii_eqb c ".".

(** [int(s)] on a string of decimal digits. *)
Fixpoint digits_val_acc (acc : Z) (s : string) : Z :=
  match s with
  | "" => acc
  | String a s' => digits_val_acc (acc * 10 + (Z.of_nat (code a) - 48)) s'
  end%Z.
Definition digits_val (s : string) : Z := digits_val_acc 0 s.
Definition all_digits (s : string) : bool := nonempty s && sall is_digit s.

(** [str(n)] for an int. *)
Definition str_of_Z (z : Z) : string := pretty z.

(** * Lemmas *)
Lemma ascii_eqb_eq a b : ascii_eqb a b = true ↔ a = b.
Proof. apply Ascii.eqb_eq. Qed.
Lemma ascii_eqb_neq a b : ascii_eqb a b = false ↔ a ≠ b.
Proof. apply Ascii.eqb_neq. Qed.
Lemma str_eqb_eq s t : str_eqb s t = true ↔ s = t.
Proof. apply String.eqb_eq. Qed.
Lemma str_eqb_neq s t : str_eqb s t = false ↔ s ≠ t.
Proof. apply String.eqb_neq. Qed.
Lemma str_eqb_refl s : str_eqb s s = true.
Proof. by apply str_eqb_eq. Qed.
Lemma str_eqb_sym s t : str_eqb s t = str_eqb t s.
Proof. apply String.eqb_sym. Qed.

Lemma nonempty_true s : nonempty s = true ↔ s ≠ "".
Proof. unfold nonempty. rewrite negb_true_iff. apply str_eqb_neq. Qed.

Lemma str_app_cons a s t : String a s +:+ t = String a (s +:+ t).
Proof. reflexivity. Qed.
Lemma str_app_nil_l t : "" +:+ t = t.
Proof. reflexivity. Qed.
Ltac sapp := rewrite ?str_app_cons, ?str_app_nil_l in *.

Lemma str_app_assoc s t u : (s +:+ t) +:+ u = s +:+ (t +:+ u).
Proof. induction s as [|a s IH]; [done|]. sapp. by f_equal. Qed.

Lemma str_app_nil_r s : s +:+ "" = s.
Proof. induction s as [|a s IH]; [done|]. sapp. by f_equal. Qed.

Lemma startswith_spec s p : startswith s p = true ↔ ∃ t, s = p +:+ t.
Proof.
  unfold startswith. revert s. induction p as [|a p IH]; intros s; simpl.
  - destruct s; (split; [eauto|reflexivity]).
  - destruct s as [|b s]; simpl; [split; [done|]; intros [t Ht]; sapp; discriminate|].
    destruct (ascii_dec a b) as [->|Hab].
    + rewrite IH. split; intros [t Ht]; exists t; sapp; [by f_equal|].
      by injection Ht.
    + split; [done|]. intros [t Ht]. sapp. by injection Ht.
Qed.

Lemma startswith_app p t : startswith (p +:+ t) p = true.
Proof. apply startswith_spec. eauto. Qed.

Lemma startswith_trans s p q :
  startswith s p = true → startswith p q = true → startswith s q = true.
Proof.
  rewrite !startswith_spec. intros [t ->] [u ->]. exists (u +:+ t).
  apply str_app_assoc.
Qed.

Lemma sall_app p s t : sall p (s +:+ t) = sall p s && sall p t.
Proof. induction s as [|a s IH]; [done|]. sapp. cbn. rewrite IH. by rewrite andb_assoc. Qed.

Lemma has_char_app c s t : has_char c (s +:+ t) = has_char c s || has_char c t.
Proof. unfold has_char, sany. by rewrite sall_app, negb_andb. Qed.

Lemma has_char_cons c a s : has_char c (String a s) = ascii_eqb c a || has_char c s.
Proof. unfold has_char, sany. simpl. by rewrite negb_andb, negb_involutive. Qed.

Lemma split_on_not_nil c s : split_on c s ≠ [].
Proof. destruct s as [|a s]; simpl; [done|]. by repeat case_match. Qed.

Lemma split_on_no_char c s w : w ∈ split_on c s → has_char c w = false.
Proof.
  revert w. induction s as [|a s IH]; intros w; simpl.
  - intros ->%list_elem_of_singleton. done.
  - destruct (ascii_eqb a c) eqn:Hac.
    + intros [->|Hw]%elem_of_cons; [done|auto].
    + destruct (split_on c s) as [|w' ws] eqn:Es.
      * by apply split_on_not_nil in Es.
      * intros [->|Hw]%elem_of_cons; [|apply IH; by right].
        rewrite has_char_cons, (IH w') by by left.
        rewrite orb_false_r. apply ascii_eqb_neq. apply ascii_eqb_neq in Hac. congruence.
Qed.

Lemma split_on_app_char c s t :
  has_char c s = false → split_on c (s +:+ String c t) = s :: split_on c t.
Proof.
  induction s as [|a s IH]; intros Hs; sapp; cbn.
  - by rewrite (proj2 (ascii_eqb_eq c c)).
  - rewrite has_char_cons in Hs. apply orb_false_iff in Hs as [Ha Hs].
    rewrite (proj2 (ascii_eqb_neq a c)) by (apply ascii_eqb_neq in Ha; congruence).
    by rewrite IH.
Qed.

Lemma split_on_none c s : has_char c s = false → split_on c s = [s].
Proof.
  induction s as [|a s IH]; intros Hs; cbn; [done|].
  rewrite has_char_cons in Hs. apply orb_false_iff in Hs as [Ha Hs].
  rewrite (proj2 (ascii_eqb_neq a c)) by (apply ascii_eqb_neq in Ha; congruence).
  by rewrite IH.
Qed.

Lemma join_cons sep s t l : join sep (s :: t :: l) = s +:+ sep +:+ join sep (t :: l).
Proof. reflexivity. Qed.

(** Splitting undoes joining on pieces free of the separator. *)
Lemma split_join c l :
  l ≠ [] → Forall (λ w, has_char c w = false) l →
  split_on c (join (String c "") l) = l.
Proof.
  intros Hne Hl. induction l as [|s l IH]; [done|].
  inversion Hl as [|?? Hs Hl']; subst. destruct l as [|t l].
  - cbn. by apply split_on_none.
  - rewrite join_cons. sapp. rewrite split_on_app_char by done. f_equal. by apply IH.
Qed.

(** Joining undoes splitting. *)
Lemma join_split c s : join (String c "") (split_on c s) = s.
Proof.
  induction s as [|a s IH]; [done|]. simpl.
  destruct (split_on c s) as [|w ws] eqn:Es; [by apply split_on_not_nil in Es|].
  destruct (ascii_eqb a c) eqn:Hac.
  - apply ascii_eqb_eq in Hac as ->. rewrite join_cons. sapp. by f_equal.
  - destruct ws as [|w' ws]; [simpl in *; by f_equal|].
    rewrite join_cons in *. sapp. by f_equal.
Qed.

(** A separator splits a string in one way only when the left part is free of it. *)
Lemma app_char_inj c s s' t t' :
  has_char c s = false → has_char c s' = false →
  s +:+ String c t = s' +:+ String c t' → s = s' ∧ t = t'.
Proof.
  intros Hs Hs' Heq. apply (f_equal (split_on c)) in Heq as Hsp.
  rewrite !split_on_app_char in Hsp by done. injection Hsp as -> _.
  split; [done|]. apply String.app_inj in Heq. by injection Heq.
Qed.

Lemma str_length_app s t : String.length (s +:+ t) = String.length s + String.length t.
Proof. induction s as [|a s IH]; [done|]. sapp. cbn. by rewrite IH. Qed.

Lemma str_app_inj_r s t u : s +:+ u = t +:+ u → s = t.
Proof.
  revert t. induction s as [|a s IH]; intros [|b t] H; sapp; [done| | |].
  - apply (f_equal String.length) in H. cbn in H. rewrite str_length_app in H. lia.
  - apply (f_equal String.length) in H. cbn in H. rewrite str_length_app in H. lia.
  - injection H as -> H. f_equal. by apply IH.
Qed.


(** The last character. *)
Fixpoint slast (s : string) : option ascii :=
  match s with
  | EmptyString => None
  | String a s' => match s' with EmptyString => Some a | _ => slast s' end
  end.

Lemma slast_app s u : u ≠ "" → slast (s +:+ u) = slast u.
Proof.
  intros Hu. induction s as [|a s IH]; [done|]. sapp. simpl. rewrite IH.
  destruct s as [|b s]; sapp; [|done]. by destruct u.
Qed.

(** * Ordering, replacement *)
Definition str_leb (s t : string) : bool :=
  match String.compare s t with Gt => false | _ => true end.
Fixpoint insert_str (s : string) (l : list string) : list string :=
  match l with
  | [] => [s]
  | t :: l' => if str_leb s t then s :: l else t :: insert_str s l'
  end.
(** [sorted(l)]. *)
Definition sort_strs (l : list string) : list string := foldr insert_str [] l.
(** [sorted(set(l))]. *)
Definition sorted_set (l : list string) : list string := sort_strs (remove_dups l).

Lemma insert_str_perm s l : insert_str s l ≡ₚ s :: l.
Proof.
  induction l as [|t l IH]; simpl; [done|].
  destruct (str_leb s t); [done|]. rewrite IH. apply Permutation_swap.
Qed.
Lemma sort_strs_perm l : sort_strs l ≡ₚ l.
Proof. induction l as [|x l IH]; simpl; [done|]. by rewrite insert_str_perm, IH. Qed.
Lemma elem_of_sort_strs s l : s ∈ sort_strs l ↔ s ∈ l.
Proof. by rewrite sort_strs_perm. Qed.
Lemma elem_of_sorted_set s l : s ∈ sorted_set l ↔ s ∈ l.
Proof. unfold sorted_set. rewrite elem_of_sort_strs. apply elem_of_remove_dups. Qed.

Lemma str_leb_total s t : str_leb s t = false → str_leb t s = true.
Proof. unfold str_leb. rewrite (String.compare_antisym s t). by destruct (String.compare t s). Qed.
Lemma str_compare_cons a b s t : String.compare (String a s) (String b t) =
  match Ascii.compare a b with Eq => String.compare s t | c => c end.
Proof. done. Qed.
Lemma str_leb_trans s t u : str_leb s t = true → str_leb t u = true → str_leb s u = true.
Proof.
  unfold str_leb. revert t u. induction s as [|a s IH]; intros [|b t] [|c u]; try done.
  rewrite !str_compare_cons. unfold Ascii.compare.
  destruct (N.compare_spec (N_of_ascii a) (N_of_ascii b)) as [E1|E1|E1]; [| |done];
    destruct (N.compare_spec (N_of_ascii b) (N_of_ascii c)) as [E2|E2|E2]; try done;
    destruct (N.compare_spec (N_of_ascii a) (N_of_ascii c)) as [E3|E3|E3]; try lia; try done.
  apply IH.
Qed.
Lemma insert_str_sorted s l :
  StronglySorted (λ a b, str_leb a b = true) l → StronglySorted (λ a b, str_leb a b = true) (insert_str s l).
Proof.
  induction 1 as [|t l Hl IH Ht]; simpl; [by repeat constructor|].
  destruct (str_leb s t) eqn:E.
  - constructor; [by constructor|]. constructor; [done|]. eapply Forall_impl; [exact Ht|].
    intros u Hu. by eapply str_leb_trans.
  - constructor; [done|]. rewrite insert_str_perm. constructor; [by apply str_leb_total|done].
Qed.
Lemma sort_strs_sorted l : StronglySorted (λ a b, str_leb a b = true) (sort_strs l).
Proof. induction l; simpl; [constructor | by apply insert_str_sorted]. Qed.

Notation len := String.length.

(** [s.replace(old, new)] for a non-empty [old]: leftmost, non-overlapping. *)
Fixpoint replace_fuel (fuel : nat) (old new s : string) : string :=
  match fuel with
  | O => s
  | S n =>
      match s with
      | EmptyString => EmptyString
      | String a s' =>
          if startswith s old then new +:+ replace_fuel n old new (drop_str (String.length old) s)
          else String a (replace_fuel n old new s')
      end
  end.
Definition replace (old new s : string) : string :=
  if nonempty old then replace_fuel (String.length s) old new s else s.

(** [s.index(sub)]. *)
Fixpoint index_of (sub s : string) : option nat :=
  if startswith s sub then Some 0
  else match s with
       | EmptyString => None
       | String _ s' => S <$> index_of sub s'
       end.
Fixpoint take_str (n : nat) (s : string) : string :=
  match n, s with
  | S n', String a s' => String a (take_str n' s')
  | _, _ => EmptyString
  end.

(** The longest prefix in a class, and the rest. *)
Fixpoint span (p : ascii → bool) (s : string) : string * string :=
  match s with
  | "" => ("", "")
  | String c s' => if p c then let '(a, b) := span p s' in (String c a, b) else ("", s)
  end.
Lemma span_spec p s v rest : span p s = (v, rest) → s = v +:+ rest ∧ sall p v = true.
Proof.
  revert v rest. induction s as [|c s IH]; intros v rest; simpl; [by intros [= <- <-]|].
  destruct (p c) eqn:Ec; [|by intros [= <- <-]].
  destruct (span p s) as [a b] eqn:E. intros [= <- <-]. destruct (IH a b eq_refl) as [-> Ha].
  split; [done|]. simpl. by rewrite Ec.
Qed.
