(* ===== verification/PyDict.v ===== *)
(** Python dictionaries with string keys: association lists in insertion
    order.  Assigning to a present key keeps its position, a new key goes to
    the end, as CPython does. *)
From S2P Require Import Prelude PyStr.

Section Dict.
Context {V : Type}.
Implicit Types d : list (string * V).

(** [d.get(k)]. *)
Fixpoint dget (k : string) d : option V :=
  match d with
  | [] => None
  | (k', v) :: d' => if str_eqb k k' then Some v else dget k d'
  end.
(** [d[k] = v]. *)
Fixpoint dset (k : string) (v : V) d : list (string * V) :=
  match d with
  | [] => [(k, v)]
  | (k', v') :: d' => if str_eqb k k' then (k, v) :: d' else (k', v') :: dset k v d'
  end.
(** [d.pop(k, None)]. *)
Fixpoint dpop (k : string) d : list (string * V) :=
  match d with
  | [] => []
  | (k', v') :: d' => if str_eqb k k' then d' else (k', v') :: dpop k d'
  end.
Definition dkeys d : list string := d.*1.
Definition dmem (k : string) d : bool := bool_decide (is_Some (dget k d)).
(** [d.setdefault(k, v)]. *)
Definition dsetdefault (k : string) (v : V) d : list (string * V) :=
  match dget k d with Some _ => d | None => dset k v d end.

Ltac dict_cases :=
  repeat match goal with
  | |- context [str_eqb ?a ?b] => destruct (str_eqb a b) eqn:?
  | H : str_eqb _ _ = true |- _ => apply str_eqb_eq in H; subst
  | H : str_eqb _ _ = false |- _ => apply str_eqb_neq in H
  end; simpl in *; try congruence.

Lemma dget_dset_eq k v d : dget k (dset k v d) = Some v.
Proof.
  induction d as [|[k' v'] d IH]; simpl; [by rewrite str_eqb_refl|].
  destruct (str_eqb k k') eqn:E; simpl; [by rewrite str_eqb_refl|]. by rewrite E.
Qed.

Lemma dget_dset_ne k k' v d : k ≠ k' → dget k' (dset k v d) = dget k' d.
Proof.
  intros Hne. induction d as [|[k1 v1] d IH]; simpl; [by dict_cases|].
  destruct (str_eqb k k1) eqn:E; simpl; dict_cases.
Qed.

Lemma dget_dpop_ne k k' d : k ≠ k' → dget k' (dpop k d) = dget k' d.
Proof.
  intros Hne. induction d as [|[k1 v1] d IH]; simpl; [done|].
  destruct (str_eqb k k1) eqn:E; simpl; dict_cases.
Qed.

Lemma dget_None k d : dget k d = None ↔ k ∉ dkeys d.
Proof.
  induction d as [|[k1 v1] d IH]; simpl; [set_solver|].
  destruct (str_eqb k k1) eqn:E.
  - apply str_eqb_eq in E as ->. set_solver.
  - apply str_eqb_neq in E. rewrite IH. set_solver.
Qed.

Lemma dget_elem_of k v d : dget k d = Some v → (k, v) ∈ d.
Proof.
  induction d as [|[k1 v1] d IH]; simpl; [done|].
  destruct (str_eqb k k1) eqn:E; [apply str_eqb_eq in E as ->|].
  - intros [= ->]. by left.
  - right. auto.
Qed.

Lemma dpop_subseteq k d x : x ∈ dpop k d → x ∈ d.
Proof.
  induction d as [|[k1 v1] d IH]; simpl; [done|].
  destruct (str_eqb k k1); set_solver.
Qed.

Lemma dset_elem_of k v d x : x ∈ dset k v d → x = (k, v) ∨ x ∈ d.
Proof.
  induction d as [|[k1 v1] d IH]; simpl; [set_solver|].
  destruct (str_eqb k k1); set_solver.
Qed.

Lemma dkeys_dset_elem_of k v d k' : k' ∈ dkeys (dset k v d) ↔ k' = k ∨ k' ∈ dkeys d.
Proof.
  induction d as [|[k1 v1] d IH]; simpl; [set_solver|].
  destruct (str_eqb k k1) eqn:E; simpl; [apply str_eqb_eq in E as ->; set_solver|].
  rewrite !elem_of_cons. unfold dkeys in IH. rewrite IH. set_solver.
Qed.

Lemma NoDup_dset k v d : NoDup (dkeys d) → NoDup (dkeys (dset k v d)).
Proof.
  induction d as [|[k1 v1] d IH]; simpl.
  - intros _. apply NoDup_singleton.
  - intros [Hn Hd]%NoDup_cons. destruct (str_eqb k k1) eqn:E; simpl.
    + apply str_eqb_eq in E as ->. by apply NoDup_cons.
    + apply NoDup_cons. split; [|by apply IH].
      intros [->|]%dkeys_dset_elem_of; [|done]. by rewrite str_eqb_refl in E.
Qed.

Lemma NoDup_dpop k d : NoDup (dkeys d) → NoDup (dkeys (dpop k d)).
Proof.
  induction d as [|[k1 v1] d IH]; simpl; [done|]. intros [Hn Hd]%NoDup_cons.
  destruct (str_eqb k k1); [done|]. simpl. apply NoDup_cons. split; [|by apply IH].
  intros Hin. apply Hn. apply list_elem_of_fmap in Hin as [y [-> Hy]].
  apply list_elem_of_fmap. exists y. split; [done|]. by eapply dpop_subseteq.
Qed.

Lemma dget_dpop_eq k d : NoDup (dkeys d) → dget k (dpop k d) = None.
Proof.
  induction d as [|[k1 v1] d IH]; simpl; [done|]. intros [Hn Hd]%NoDup_cons.
  destruct (str_eqb k k1) eqn:E.
  - apply str_eqb_eq in E as ->. by apply dget_None.
  - simpl. rewrite E. auto.
Qed.

Lemma length_dset k v d :
  length (dset k v d) = if dmem k d then length d else S (length d).
Proof.
  unfold dmem. induction d as [|[k1 v1] d IH]; simpl; [done|].
  destruct (str_eqb k k1); simpl; [done|]. rewrite IH. by case_bool_decide.
Qed.

Lemma length_dpop k d : dmem k d = true → S (length (dpop k d)) = length d.
Proof.
  unfold dmem. induction d as [|[k1 v1] d IH]; simpl; [done|].
  destruct (str_eqb k k1); simpl; [done|]. intros H. by rewrite <- IH.
Qed.
End Dict.
