(* ===== verification/Templates.v ===== *)
(** Searching and replacing in text: the leftmost-occurrence lemmas behind
    [str.replace], [str.index] and [re.search], and templates with named holes. *)
From S2P Require Import Prelude PyStr.

(** [p] and [s] agree as far as both go. *)
Fixpoint compatible (p s : string) : bool :=
  match p, s with
  | String a p', String b s' => ascii_eqb a b && compatible p' s'
  | _, _ => true
  end.
(** No occurrence of [p] starts in [a], whatever follows. *)
Fixpoint passes (p a : string) : bool :=
  match a with "" => true | String _ a' => negb (compatible p a) && passes p a' end.

Lemma compatible_start p a b : compatible p a = false → startswith (a +:+ b) p = false.
Proof.
  intros Hc. apply not_true_iff_false. intros Hs. apply not_true_iff_false in Hc. apply Hc. clear Hc.
  revert a Hs. induction p as [|x p IH]; intros [|y a] Hs; try done. sapp.
  apply startswith_spec in Hs as [t Ht]. sapp. injection Ht as -> Ht. simpl.
  rewrite (proj2 (ascii_eqb_eq x x) eq_refl). simpl. apply IH, startswith_spec. eauto.
Qed.
Lemma compatible_app p a b : compatible p a = false → compatible p (a +:+ b) = false.
Proof.
  revert a. induction p as [|x p IH]; intros [|y a]; try done. sapp. simpl.
  destruct (ascii_eqb x y); [apply IH|done].
Qed.
Lemma compatible_prefix p q a : compatible (p +:+ q) a = true → compatible p a = true.
Proof.
  revert a. induction p as [|x p IH]; intros [|y a]; try done. sapp. simpl.
  destruct (ascii_eqb x y); [apply IH|done].
Qed.
Lemma passes_app p a b : passes p a = true → passes p b = true → passes p (a +:+ b) = true.
Proof.
  induction a as [|c a IH]; intros Ha Hb; [done|]. cbn [passes] in Ha. apply andb_true_iff in Ha as [Hc Ha].
  sapp. cbn [passes]. rewrite IH by done. apply negb_true_iff in Hc.
  apply (compatible_app _ _ b) in Hc. sapp. by rewrite Hc.
Qed.
Lemma passes_prefix p q a : passes p a = true → passes (p +:+ q) a = true.
Proof.
  induction a as [|c a IH]; intros Ha; [done|]. cbn [passes] in *. apply andb_true_iff in Ha as [Hc Ha].
  rewrite IH by done. rewrite andb_true_r. apply negb_true_iff, not_true_iff_false.
  intros H%compatible_prefix. by rewrite H in Hc.
Qed.
(** A text without the first character is passed over. *)
Lemma passes_no_first c p a : has_char c a = false → passes (String c p) a = true.
Proof.
  induction a as [|d a IH]; intros Ha; [done|]. rewrite has_char_cons in Ha.
  apply orb_false_iff in Ha as [Hd Ha]. cbn [passes compatible]. by rewrite Hd, IH.
Qed.

Lemma contains_start p s : startswith s p = true → contains p s = true.
Proof. unfold startswith. intros Hs. by destruct s; simpl in *; rewrite Hs. Qed.
Lemma contains_app p a b : contains p (a +:+ p +:+ b) = true.
Proof.
  induction a as [|c a IH].
  - sapp. apply contains_start, startswith_app.
  - sapp. simpl. by rewrite IH, orb_true_r.
Qed.
Lemma contains_cons p c s : contains p (String c s) = startswith (String c s) p || contains p s.
Proof. done. Qed.
(** A pattern with a character the text lacks does not occur. *)
Lemma contains_no_char c p v : has_char c p = true → has_char c v = false → contains p v = false.
Proof.
  intros Hp. assert (∀ s, has_char c s = false → startswith s p = false) as Hs.
  { intros s Hv. apply not_true_iff_false. intros [t ->]%startswith_spec.
    rewrite has_char_app, Hp in Hv. done. }
  induction v as [|d v IH]; intros Hv; [by specialize (Hs "" Hv); destruct p|].
  rewrite contains_cons, Hs by done. rewrite has_char_cons in Hv. apply orb_false_iff in Hv as [_ Hv]. by apply IH.
Qed.
(** A text the pattern does not occur in, closed by a character it lacks. *)
Lemma passes_stop p c v : has_char c p = false → contains p v = false →
  passes p (v +:+ String c "") = true.
Proof.
  intros Hp. assert (∀ v, startswith v p = false → compatible p (v +:+ String c "") = false) as Hstart.
  { clear v. induction p as [|x p IH]; intros v Hv; [by destruct v|].
    rewrite has_char_cons in Hp. apply orb_false_iff in Hp as [Hx Hp].
    destruct v as [|y v]; sapp; simpl.
    - destruct (ascii_eqb x c) eqn:E; [|done]. apply ascii_eqb_eq in E as ->.
      by rewrite (proj2 (ascii_eqb_eq c c) eq_refl) in Hx.
    - destruct (ascii_eqb x y) eqn:E; [|done]. apply ascii_eqb_eq in E as ->. simpl. apply IH; [done|].
      apply not_true_iff_false. intros [t ->]%startswith_spec. apply not_true_iff_false in Hv. apply Hv.
      apply startswith_spec. exists t. by sapp. }
  induction v as [|d v IH]; intros Hv.
  - sapp. cbn [passes]. assert (startswith "" p = false) as H0 by (by destruct p).
    specialize (Hstart "" H0). sapp. by rewrite Hstart.
  - rewrite contains_cons in Hv. apply orb_false_iff in Hv as [Hs Hv]. sapp. cbn [passes].
    specialize (Hstart _ Hs). sapp. by rewrite Hstart, IH.
Qed.

(** * [str.replace] *)
Lemma drop_str_length n s : (len (drop_str n s) ≤ len s - n)%nat.
Proof. revert s. induction n as [|n IH]; intros [|c s]; simpl; try lia. apply IH. Qed.
Lemma drop_str_app a b : drop_str (len a) (a +:+ b) = b.
Proof. induction a as [|c a IH]; [by destruct b|]. sapp. apply IH. Qed.
Lemma take_str_app a b : take_str (len a) (a +:+ b) = a.
Proof. induction a as [|c a IH]; [by destruct b|]. sapp. simpl. by rewrite IH. Qed.

Lemma replace_fuel_enough n m old new s : nonempty old = true → (len s ≤ n)%nat → (len s ≤ m)%nat →
  replace_fuel n old new s = replace_fuel m old new s.
Proof.
  intros Ho. revert m s. induction n as [|n IH]; intros [|m] [|c s] Hn Hm; cbn [len] in *; try done; try lia.
  cbn [replace_fuel]. destruct (startswith (String c s) old); [|f_equal; apply IH; lia]. f_equal.
  pose proof (drop_str_length (len old) (String c s)) as Hd. destruct old as [|x old]; [done|].
  cbn [len] in Hd |- *. apply IH; lia.
Qed.
Lemma replace_cons old new c s : nonempty old = true → replace old new (String c s) =
  if startswith (String c s) old then new +:+ replace old new (drop_str (len old) (String c s))
  else String c (replace old new s).
Proof.
  intros Ho. unfold replace. rewrite Ho. cbn [len replace_fuel].
  destruct (startswith (String c s) old); [|done]. f_equal. apply replace_fuel_enough; [done| |done].
  pose proof (drop_str_length (len old) (String c s)) as Hd. destruct old; [done|]. simpl in *. lia.
Qed.
Lemma replace_skip old new a b : nonempty old = true → passes old a = true →
  replace old new (a +:+ b) = a +:+ replace old new b.
Proof.
  intros Ho. induction a as [|c a IH]; intros Ha; [done|]. cbn [passes] in Ha.
  apply andb_true_iff in Ha as [Hc Ha]. apply negb_true_iff in Hc. apply (compatible_start _ _ b) in Hc. sapp.
  rewrite replace_cons, Hc by done. by rewrite IH.
Qed.
Lemma replace_hit old new b : nonempty old = true → replace old new (old +:+ b) = new +:+ replace old new b.
Proof.
  intros Ho. destruct old as [|c old]; [done|]. sapp. rewrite replace_cons by done.
  rewrite <- str_app_cons, startswith_app, drop_str_app. done.
Qed.

(** * [str.index] *)
Lemma index_of_skip sub a b : passes sub a = true → index_of sub (a +:+ sub +:+ b) = Some (len a).
Proof.
  induction a as [|c a IH]; intros Ha.
  - sapp. pose proof (startswith_app sub b) as Hs. by destruct (sub +:+ b); cbn [index_of]; rewrite Hs.
  - cbn [passes] in Ha. apply andb_true_iff in Ha as [Hc Ha]. apply negb_true_iff in Hc.
    apply (compatible_start _ _ (sub +:+ b)) in Hc. sapp. cbn [index_of]. by rewrite Hc, IH.
Qed.

(** * [re.search] of a literal followed by a group *)
Fixpoint search (lit : string) (group : string → option string) (s : string) : option string :=
  match (if startswith s lit then group (drop_str (len lit) s) else None) with
  | Some x => Some x
  | None => match s with "" => None | String _ s' => search lit group s' end
  end.
Lemma search_skip lit group a b : passes lit a = true → search lit group (a +:+ b) = search lit group b.
Proof.
  induction a as [|c a IH]; intros Ha; [done|]. cbn [passes] in Ha. apply andb_true_iff in Ha as [Hc Ha].
  apply negb_true_iff in Hc. apply (compatible_start _ _ b) in Hc. sapp. cbn [search]. rewrite Hc. by apply IH.
Qed.
Lemma search_hit lit group b x : group b = Some x → search lit group (lit +:+ b) = Some x.
Proof.
  intros Hx. pose proof (startswith_app lit b) as Hs. pose proof (drop_str_app lit b) as Hd.
  by destruct (lit +:+ b); cbn [search]; rewrite Hs, Hd, Hx.
Qed.

(** * Templates *)
Inductive piece := Lit (s : string) | Hole (name : string).
Definition hole_text (name : string) : string := "{{ " +:+ name +:+ " }}".
Definition piece_text (p : piece) : string := match p with Lit s => s | Hole n => hole_text n end.
Fixpoint text (ps : list piece) : string :=
  match ps with [] => "" | p :: ps' => piece_text p +:+ text ps' end.
Definition fill (n v : string) (ps : list piece) : list piece :=
  List.map (λ p, match p with Hole m => if str_eqb m n then Lit v else p | Lit _ => p end) ps.
(** The hole's text occurs where the holes are, and nowhere else. *)
Definition fits (n : string) (ps : list piece) : bool :=
  forallb (λ p, match p with
                | Lit s => passes (hole_text n) s
                | Hole m => str_eqb m n || passes (hole_text n) (hole_text m)
                end) ps.
Lemma replace_text n v ps : fits n ps = true → replace (hole_text n) v (text ps) = text (fill n v ps).
Proof.
  induction ps as [|[s|m] ps IH]; intros Hf; simpl in Hf; [done| |];
    apply andb_true_iff in Hf as [Hs Hf]; simpl.
  - rewrite replace_skip by done. by rewrite IH.
  - destruct (str_eqb m n) eqn:E.
    + apply str_eqb_eq in E as ->. rewrite replace_hit by done. by rewrite IH.
    + rewrite replace_skip by done. by rewrite IH.
Qed.
Lemma fits_fill n m v ps : fits n ps = true → passes (hole_text n) v = true → fits n (fill m v ps) = true.
Proof.
  intros Hf Hv. induction ps as [|[s|k] ps IH]; simpl in *; [done| |];
    apply andb_true_iff in Hf as [Hs Hf].
  - by rewrite Hs, IH.
  - destruct (str_eqb k m); simpl; [by rewrite Hv, IH|by rewrite Hs, IH].
Qed.

(** Filling several holes one after the other, with values that open no hole. *)
Definition fill_all (vs : list (string * string)) (ps : list piece) : list piece :=
  foldl (λ ps nv, fill nv.1 nv.2 ps) ps vs.
Definition no_brace (nv : string * string) : Prop := has_char "{" nv.2 = false.
Lemma replace_all vs ps : Forall (λ nv, fits nv.1 ps = true) vs → Forall no_brace vs →
  foldl (λ s nv, replace (hole_text nv.1) nv.2 s) (text ps) vs = text (fill_all vs ps).
Proof.
  revert ps. induction vs as [|[n v] vs IH]; intros ps Hf Hv; [done|]. simpl.
  apply Forall_cons in Hf as [Hn Hf], Hv as [Hb Hv]. rewrite replace_text by done.
  apply IH; [|done]. eapply Forall_impl; [exact Hf|]. simpl. intros m Hm.
  apply fits_fill; [done|]. by apply passes_no_first.
Qed.
Lemma text_app a b : text (a ++ b) = text a +:+ text b.
Proof. induction a as [|p a IH]; simpl; [done|]. by rewrite IH, str_app_assoc. Qed.
Lemma fill_all_app vs a b : fill_all vs (a ++ b) = fill_all vs a ++ fill_all vs b.
Proof.
  revert a b. induction vs as [|nv vs IH]; intros a b; [done|].
  change (fill_all vs (fill nv.1 nv.2 (a ++ b)) = fill_all vs (fill nv.1 nv.2 a) ++ fill_all vs (fill nv.1 nv.2 b)).
  rewrite <- IH. unfold fill. by rewrite List.map_app.
Qed.
Definition all_pass (p : string) (ps : list piece) : bool := forallb (λ q, passes p (piece_text q)) ps.
Lemma passes_text p ps : all_pass p ps = true → passes p (text ps) = true.
Proof.
  induction ps as [|q ps IH]; simpl; [done|]. intros [Hq Hp]%andb_true_iff. apply passes_app; auto.
Qed.
Lemma passes_filled c p vs ps : all_pass (String c p) ps = true → Forall (λ nv, has_char c nv.2 = false) vs →
  passes (String c p) (text (fill_all vs ps)) = true.
Proof.
  revert ps. induction vs as [|[n v] vs IH]; intros ps Hp Hv; [by apply passes_text|].
  apply Forall_cons in Hv as [Hb Hv]. apply IH; [|done]. clear IH. unfold all_pass, fill in *. simpl.
  induction ps as [|[x|m] ps IHp]; simpl in *; [done| |]; apply andb_true_iff in Hp as [Hx Hp].
  - by rewrite Hx, IHp.
  - rewrite IHp by done. destruct (str_eqb m n); simpl; [by rewrite passes_no_first|by rewrite Hx].
Qed.
