(* ===== verification/Regex.v ===== *)
(** Regular expressions as the program uses them: sequences of counted character
    classes and word boundaries, matched greedily with backtracking, and [re.sub]
    and [re.search] over them. *)
From S2P Require Import Prelude PyStr Templates.

Inductive item :=
| Rep (cls : ascii → bool) (lo : nat) (hi : option nat)
| Bound.
Definition regex : Type := list item.

(** A class once, optionally, or a given number of times. *)
Definition one (c : ascii → bool) : item := Rep c 1 (Some 1%nat).
Definition maybe (c : ascii → bool) : item := Rep c 0 (Some 1%nat).
Definition many (c : ascii → bool) : item := Rep c 1 None.
Definition chr (c : ascii) : ascii → bool := ascii_eqb c.
Definition chars (s : string) : ascii → bool := λ c, has_char c s.
Definition either (p q : ascii → bool) : ascii → bool := λ c, p c || q c.
Fixpoint word_of (s : string) : regex :=
  match s with "" => [] | String c s' => one (chr c) :: word_of s' end.

(** [\w] below code point 256. *)
Definition is_word_char (c : ascii) : bool :=
  let n := code c in
  is_digit c || is_upper c || is_lower c || ascii_eqb c "_" ||
  existsb (Nat.eqb n) [170; 178; 179; 181; 185; 186]%nat || ((188 <=? n) && (n <=? 190))%nat ||
  ((192 <=? n) && negb (n =? 215) && negb (n =? 247))%nat.
Definition word_at (o : option ascii) : bool := match o with Some c => is_word_char c | None => false end.
Definition boundary (prev next : option ascii) : bool := xorb (word_at prev) (word_at next).

Definition shead (s : string) : option ascii := match s with "" => None | String c _ => Some c end.
(** The character before what follows [a]. *)
Fixpoint prev_after (prev : option ascii) (a : string) : option ascii :=
  match a with "" => prev | String c a' => prev_after (Some c) a' end.
(** How many characters a class can take. *)
Fixpoint run_len (cls : ascii → bool) (hi : nat) (s : string) : nat :=
  match hi, s with
  | S h, String c s' => if cls c then S (run_len cls h s') else 0%nat
  | _, _ => 0%nat
  end.

(** Longest choices first: [n], [n - 1], ... down to [lo]. *)
Fixpoint tries (k : nat → option nat) (lo n : nat) : option nat :=
  if (n <? lo)%nat then None
  else match k n with
       | Some m => Some (n + m)%nat
       | None => match n with O => None | S n' => tries k lo n' end
       end.
(** The length of the match at the start of [s]. *)
Fixpoint rmatch (r : regex) (prev : option ascii) (s : string) : option nat :=
  match r with
  | [] => Some 0%nat
  | Bound :: r' => if boundary prev (shead s) then rmatch r' prev s else None
  | Rep cls lo hi :: r' =>
      tries (λ n, rmatch r' (prev_after prev (take_str n s)) (drop_str n s)) lo
        (run_len cls (default (len s) hi) s)
  end.

(** [pattern.sub(repl, s)] for patterns that match no empty text. *)
Fixpoint sub_fuel (fuel : nat) (r : regex) (repl : string) (prev : option ascii) (s : string) : string :=
  match fuel, s with
  | S n, String c s' =>
      match rmatch r prev s with
      | Some (S k) => repl +:+ sub_fuel n r repl (prev_after prev (take_str (S k) s)) (drop_str (S k) s)
      | _ => String c (sub_fuel n r repl (Some c) s')
      end
  | _, _ => s
  end.
Definition sub (r : regex) (repl s : string) : string := sub_fuel (len s) r repl None s.

(** [pattern.search(s)]: some position matches. *)
Fixpoint found (r : regex) (prev : option ascii) (s : string) : bool :=
  bool_decide (is_Some (rmatch r prev s)) ||
  match s with "" => false | String c s' => found r (Some c) s' end.
Definition search_re (r : regex) (s : string) : bool := found r None s.

(** * What a match is *)
(** [accepts r t]: [r] without boundaries describes [t]. *)
Fixpoint accepts (r : regex) (t : string) : Prop :=
  match r with
  | [] => t = ""
  | Bound :: _ => False
  | Rep cls lo hi :: r' => ∃ a b, t = a +:+ b ∧ sall cls a = true ∧ (lo ≤ len a)%nat ∧
      (∀ h, hi = Some h → (len a ≤ h)%nat) ∧ accepts r' b
  end.
Definition bound_free (r : regex) : bool := forallb (λ i, match i with Bound => false | _ => true end) r.

Lemma run_len_take cls hi s : sall cls (take_str (run_len cls hi s) s) = true ∧
  (run_len cls hi s ≤ hi)%nat ∧ (run_len cls hi s ≤ len s)%nat.
Proof.
  revert s. induction hi as [|h IH]; intros [|c s]; simpl; try (split_and!; [done|lia|lia]).
  destruct (cls c) eqn:E; simpl; [|split_and!; [done|lia|lia]].
  destruct (IH s) as (H1 & H2 & H3). rewrite E. split_and!; [done|lia|lia].
Qed.
Lemma take_prefix_all cls n m s : (n ≤ m)%nat → sall cls (take_str m s) = true → sall cls (take_str n s) = true.
Proof.
  revert m s. induction n as [|n IH]; intros [|m] [|c s] Hn; simpl; try done; [lia|].
  intros [-> Hs]%andb_true_iff. simpl. apply (IH m); [lia|done].
Qed.
Lemma run_len_max cls hi a b : sall cls a = true → (len a ≤ hi)%nat → (len a ≤ run_len cls hi (a +:+ b))%nat.
Proof.
  revert hi. induction a as [|c a IH]; intros [|h] Ha Hl; simpl in *; try lia.
  apply andb_true_iff in Ha as [Hc Ha]. sapp. simpl. rewrite Hc. specialize (IH h Ha). lia.
Qed.
Lemma len_take n s : (n ≤ len s)%nat → len (take_str n s) = n.
Proof. revert s. induction n as [|n IH]; intros [|c s]; simpl; try lia. intros. rewrite IH; lia. Qed.
Lemma take_drop n s : take_str n s +:+ drop_str n s = s.
Proof. revert s. induction n as [|n IH]; intros [|c s]; simpl; try done. sapp. by rewrite IH. Qed.

Lemma tries_some k lo n : is_Some (tries k lo n) ↔ ∃ m, (lo ≤ m ≤ n)%nat ∧ is_Some (k m).
Proof.
  induction n as [|n IH]; cbn [tries];
    [destruct (Nat.ltb_spec 0 lo)|destruct (Nat.ltb_spec (S n) lo)].
  1, 3: split; [by intros [? ?]|intros (m & ? & _); lia].
  - destruct (k 0%nat) eqn:E.
    + split; [intros _; exists 0%nat; by rewrite E|by eexists].
    + split; [by intros [? ?]|]. intros (m & Hm & Hk). replace m with 0%nat in Hk by lia.
      rewrite E in Hk. by destruct Hk.
  - destruct (k (S n)) eqn:E.
    + split; [intros _; exists (S n); by rewrite E|by eexists].
    + rewrite IH. split; intros (m & Hm & Hk); exists m; (split; [|done]); [lia|].
      destruct (decide (m = S n)) as [->|]; [|lia]. rewrite E in Hk. by destruct Hk.
Qed.

Lemma tries_eq k lo n m : tries k lo n = Some m → ∃ i j, (lo ≤ i ≤ n)%nat ∧ k i = Some j ∧ m = (i + j)%nat.
Proof.
  induction n as [|n IH]; cbn [tries].
  - destruct (Nat.ltb_spec 0 lo); [done|]. destruct (k 0%nat) as [j|] eqn:E; [|done].
    intros [= <-]. by exists 0%nat, j.
  - destruct (Nat.ltb_spec (S n) lo); [done|]. destruct (k (S n)) as [j|] eqn:E.
    + intros [= <-]. exists (S n), j. split; [lia|done].
    + intros (i & j & Hi & ? & ?)%IH. exists i, j. split; [lia|done].
Qed.
Lemma take_app_split i j s : take_str (i + j) s = take_str i s +:+ take_str j (drop_str i s).
Proof.
  revert s. induction i as [|i IH]; intros s; [done|]. destruct s as [|c s]; simpl; [by destruct j|].
  sapp. by rewrite IH.
Qed.
Lemma drop_drop_str i j s : drop_str (i + j) s = drop_str j (drop_str i s).
Proof. revert s. induction i as [|i IH]; intros s; [done|]. destruct s; simpl; [by destruct j|]. apply IH. Qed.
Lemma rmatch_sound r prev s n : bound_free r = true → rmatch r prev s = Some n → accepts r (take_str n s).
Proof.
  revert prev s n. induction r as [|[cls lo hi|] r IH]; intros prev s n Hb E; [by simplify_eq/=| |done].
  cbn [rmatch] in E. apply tries_eq in E as (i & j & Hi & E & ->). apply IH in E; [|done].
  destruct (run_len_take cls (default (len s) hi) s) as (Hall & Hhi & Hlen).
  exists (take_str i s), (take_str j (drop_str i s)). rewrite len_take by lia.
  split_and!; [apply take_app_split|eapply take_prefix_all; [|exact Hall]; lia|lia| |done].
  intros h ->. simpl in *. lia.
Qed.

(** A match exists exactly when a prefix is described, for boundary-free patterns. *)
Lemma rmatch_accepts r prev s : bound_free r = true →
  is_Some (rmatch r prev s) ↔ ∃ t b, s = t +:+ b ∧ accepts r t.
Proof.
  revert prev s. induction r as [|[cls lo hi|] r IH]; intros prev s Hb; [|simpl in Hb|done].
  { split; [intros _; by exists "", s|by eexists]. }
  cbn [rmatch]. rewrite tries_some. destruct (run_len_take cls (default (len s) hi) s) as (Hall & Hhi & Hlen).
  set (top := run_len _ _ _) in *. split.
  - intros (n & Hn & Hr). apply IH in Hr as (t & b & Ht & Ha); [|done].
    exists (take_str n s +:+ t), b. split; [by rewrite str_app_assoc, <- Ht, take_drop|].
    exists (take_str n s), t. rewrite len_take by lia.
    split_and!; [done|eapply take_prefix_all; [|exact Hall]; lia|lia| |done]. intros h ->. simpl in Hhi. lia.
  - intros (t & b & -> & a & c & -> & Ha & Hlo & Hmax & Hc). exists (len a). split; [split; [done|]|].
    + unfold top. rewrite str_app_assoc. apply run_len_max; [done|].
      destruct hi as [h|]; simpl; [by apply Hmax|]. rewrite !str_length_app. lia.
    + rewrite str_app_assoc, drop_str_app. apply IH; [done|]. by exists c, b.
Qed.

(** * Text around a character no class contains *)
Definition avoids (c : ascii) (r : regex) : bool :=
  forallb (λ i, match i with Rep cls _ _ => negb (cls c) | Bound => true end) r.
Lemma sall_avoids cls c a : cls c = false → sall cls a = true → has_char c a = false.
Proof.
  intros Hc. induction a as [|d a IH]; [done|]. simpl. intros [Hd Ha]%andb_true_iff.
  rewrite has_char_cons, IH by done. rewrite orb_false_r. apply ascii_eqb_neq. intros <-. congruence.
Qed.
Lemma accepts_avoids c r t : avoids c r = true → accepts r t → has_char c t = false.
Proof.
  revert t. induction r as [|[cls lo hi|] r IH]; intros t; simpl; [by intros _ ->| |done].
  intros [Hc Hr]%andb_true_iff (a & b & -> & Ha & _ & _ & Hb). apply negb_true_iff in Hc.
  by rewrite has_char_app, (sall_avoids cls), IH.
Qed.
Lemma prefix_before c t b u x : t +:+ b = u +:+ String c x → has_char c t = false → ∃ b', u = t +:+ b'.
Proof.
  revert u. induction t as [|d t IH]; intros u E Ht; [by exists u|].
  rewrite has_char_cons in Ht. apply orb_false_iff in Ht as [Hd Ht]. sapp. destruct u as [|e u]; sapp.
  - injection E as -> _. by rewrite (proj2 (ascii_eqb_eq c c) eq_refl) in Hd.
  - injection E as -> E. destruct (IH u E Ht) as [b' ->]. by exists b'.
Qed.

Section Plain.
Context (r : regex) (Hbf : bound_free r = true).

Lemma rmatch_prev p p' s : is_Some (rmatch r p s) ↔ is_Some (rmatch r p' s).
Proof using Hbf. by rewrite !rmatch_accepts. Qed.
Lemma rmatch_more p u y : is_Some (rmatch r p u) → is_Some (rmatch r p (u +:+ y)).
Proof using Hbf.
  rewrite !rmatch_accepts by done. intros (t & b & -> & Ht). exists t, (b +:+ y). by rewrite str_app_assoc.
Qed.
Lemma rmatch_cut p u c x : avoids c r = true →
  is_Some (rmatch r p (u +:+ String c x)) ↔ is_Some (rmatch r p u).
Proof using Hbf.
  intros Hc. split; [|apply rmatch_more]. rewrite !rmatch_accepts by done. intros (t & b & E & Ht).
  symmetry in E. destruct (prefix_before c t b u x E) as [b' ->]; [by eapply accepts_avoids|by exists t, b'].
Qed.
Lemma found_prev p p' s : found r p s = found r p' s.
Proof using Hbf. destruct s as [|c s]; cbn [found]; f_equal; apply bool_decide_ext, rmatch_prev. Qed.
Lemma found_false p c s : found r p (String c s) = false ↔
  ¬ is_Some (rmatch r p (String c s)) ∧ found r (Some c) s = false.
Proof. cbn [found]. by rewrite orb_false_iff, bool_decide_eq_false. Qed.
Lemma found_suffix p u s : found r p (u +:+ s) = false → found r p s = false.
Proof using Hbf.
  revert p. induction u as [|c u IH]; intros p; [done|]. sapp. intros [_ H]%found_false.
  rewrite (found_prev p (Some c)). by apply IH.
Qed.

Context (Hne : rmatch r None "" = None).
Lemma rmatch_empty p : ¬ is_Some (rmatch r p "").
Proof using Hbf Hne. rewrite (rmatch_prev p None), Hne. by intros [? ?]. Qed.
Lemma found_cut p u c x : avoids c r = true →
  found r p (u +:+ String c x) = found r p u || found r p x.
Proof using Hbf Hne.
  intros Hc. revert p. induction u as [|d u IH]; intros p.
  - sapp. cbn [found]. rewrite (found_prev (Some c) p), !bool_decide_eq_false_2; [done| |].
    + apply rmatch_empty.
    + intros Hs. apply (proj1 (rmatch_cut p "" c x Hc)) in Hs. by apply rmatch_empty in Hs.
  - sapp. cbn [found]. rewrite IH, <- orb_assoc, (found_prev (Some d) p x). f_equal.
    apply bool_decide_ext. rewrite <- str_app_cons. by apply rmatch_cut.
Qed.

(** * Replacing by a bracketed word *)
Context (lb rb : ascii) (inner : string) (Hlb : avoids lb r = true) (Hrb : avoids rb r = true)
  (Hinner : found r None inner = false).
Let repl := String lb (inner +:+ String rb "").

Lemma found_repl p x : found r p (repl +:+ x) = found r p x.
Proof using Hbf Hne Hlb Hrb Hinner.
  unfold repl. sapp. rewrite str_app_assoc. sapp. rewrite <- (str_app_nil_l (String lb _)).
  rewrite found_cut by done. rewrite found_cut by done.
  rewrite (found_prev p None inner), Hinner. cbn [found].
  by rewrite bool_decide_eq_false_2 by apply rmatch_empty.
Qed.

(** Up to the first replacement the text is kept. *)
Lemma sub_shape n r2 p s : sub_fuel n r2 repl p s = s ∨
  ∃ u y x, s = u +:+ y ∧ sub_fuel n r2 repl p s = u +:+ String lb x.
Proof.
  revert p s. induction n as [|n IH]; intros p [|c s]; [by left..|]. cbn [sub_fuel].
  destruct (rmatch r2 p (String c s)) as [[|k]|]; [|right; by eexists "", _, _|].
  all: destruct (IH (Some c) s) as [->|(u & y & x & -> & ->)]; [by left|right; by eexists (String c u), y, x].
Qed.
Lemma sub_no_new_match n r2 p q s : is_Some (rmatch r q (sub_fuel n r2 repl p s)) → is_Some (rmatch r q s).
Proof using Hbf Hlb.
  destruct (sub_shape n r2 p s) as [->|(u & y & x & -> & ->)]; [done|].
  rewrite rmatch_cut by done. apply rmatch_more.
Qed.

(** Replacing by any pattern introduces no match... *)
Lemma sub_keeps_clean n r2 p q s : found r q s = false → found r q (sub_fuel n r2 repl p s) = false.
Proof using Hbf Hne Hlb Hrb Hinner.
  revert p q s. induction n as [|n IH]; intros p q [|c s] Hf; try done.
  assert (sub_fuel (S n) r2 repl p (String c s) = String c (sub_fuel n r2 repl (Some c) s) →
    found r q (sub_fuel (S n) r2 repl p (String c s)) = false) as Hkeep.
  { intros E. apply found_false in Hf as [Hm Hf]. rewrite E. apply found_false.
    split; [|by apply IH]. rewrite <- E. intros Hs. by apply Hm, (sub_no_new_match (S n) r2 p). }
  cbn [sub_fuel] in *. destruct (rmatch r2 p (String c s)) as [[|k]|]; [by apply Hkeep| |by apply Hkeep].
  rewrite found_repl. apply IH. apply (found_suffix q (take_str (S k) (String c s))). by rewrite take_drop.
Qed.
(** ... and by the pattern itself leaves none. *)
Lemma sub_clean n p q s : (len s ≤ n)%nat → found r q (sub_fuel n r repl p s) = false.
Proof using Hbf Hne Hlb Hrb Hinner.
  revert p q s. induction n as [|n IH]; intros p q [|c s] Hn; simpl in Hn; try lia.
  1, 2: cbn [sub_fuel found]; by rewrite bool_decide_eq_false_2 by apply rmatch_empty.
  assert (rmatch r p (String c s) ≠ Some 0%nat) as H0.
  { intros E%rmatch_sound; [|done]. simpl in E. apply (rmatch_empty p), rmatch_accepts; [done|]. by exists "", "". }
  cbn [sub_fuel]. destruct (rmatch r p (String c s)) as [[|k]|] eqn:E; [done| |].
  - rewrite found_repl. apply IH. pose proof (drop_str_length (S k) (String c s)). simpl in *. lia.
  - apply found_false. split; [|apply IH; lia]. intros Hs.
    assert (is_Some (rmatch r q (String c s))) as Hq.
    { apply (sub_no_new_match (S n) r p). cbn [sub_fuel]. by rewrite E. }
    apply (rmatch_prev q p) in Hq. rewrite E in Hq. by destruct Hq.
Qed.
End Plain.

(** * Patterns between word boundaries *)
Lemma prev_after_app p a b : prev_after p (a +:+ b) = prev_after (prev_after p a) b.
Proof. revert p. induction a as [|c a IH]; intros p; [done|]. sapp. apply IH. Qed.
Lemma rmatch_bounded body prev s : bound_free body = true →
  is_Some (rmatch (body ++ [Bound]) prev s) ↔
    ∃ t b, s = t +:+ b ∧ accepts body t ∧ boundary (prev_after prev t) (shead b) = true.
Proof.
  revert prev s. induction body as [|[cls lo hi|] body IH]; intros prev s Hb; [|simpl in Hb|done].
  { cbn [app rmatch]. split.
    - destruct (boundary prev (shead s)) eqn:E; [|by intros [? ?]]. intros _. by exists "", s.
    - intros (t & b & -> & -> & E). sapp. simpl in E. rewrite E. by eexists. }
  cbn [app rmatch]. rewrite tries_some.
  destruct (run_len_take cls (default (len s) hi) s) as (Hall & Hhi & Hlen).
  set (top := run_len _ _ _) in *. split.
  - intros (n & Hn & Hr). apply IH in Hr as (t & b & Ht & Ha & Hbd); [|done].
    exists (take_str n s +:+ t), b. split; [by rewrite str_app_assoc, <- Ht, take_drop|].
    split; [|by rewrite prev_after_app]. exists (take_str n s), t. rewrite len_take by lia.
    split_and!; [done|eapply take_prefix_all; [|exact Hall]; lia|lia| |done]. intros h ->. simpl in Hhi. lia.
  - intros (t & b & -> & (a & c & -> & Ha & Hlo & Hmax & Hc) & Hbd). exists (len a). split; [split; [done|]|].
    + unfold top. rewrite str_app_assoc. apply run_len_max; [done|].
      destruct hi as [h|]; simpl; [by apply Hmax|]. rewrite !str_length_app. lia.
    + rewrite str_app_assoc, drop_str_app, take_str_app. apply IH; [done|]. exists c, b.
      by rewrite <- prev_after_app.
Qed.

Section Bounded.
Context (body : regex) (Hbf : bound_free body = true) (Hne : rmatch body None "" = None).
Context (Hword : ∀ p t, accepts body t → word_at (shead t) = true ∧ word_at (prev_after p t) = true).
Context (lb rb : ascii) (inner : string) (Hlb : avoids lb body = true) (Hrb : avoids rb body = true)
  (Hwl : is_word_char lb = false) (Hwr : is_word_char rb = false) (Hinner : found body None inner = false).
Let r := Bound :: body ++ [Bound].
Let repl := String lb (inner +:+ String rb "").

Lemma bounded_match p s : is_Some (rmatch r p s) ↔
  ∃ t b, s = t +:+ b ∧ accepts body t ∧ word_at p = false ∧ word_at (shead b) = false.
Proof using Hbf Hne Hword.
  unfold r. cbn [rmatch]. split.
  - destruct (boundary p (shead s)) eqn:E; [|by intros [? ?]].
    intros (t & b & -> & Ht & Hb)%rmatch_bounded; [|done]. exists t, b. destruct (Hword p t Ht) as [H1 H2].
    unfold boundary in *. rewrite H2 in Hb. destruct t as [|c t]; [done|]. sapp. simpl in H1, E. rewrite H1 in E.
    split_and!; [done|done|by destruct (word_at p)|by destruct (word_at (shead b))].
  - intros (t & b & -> & Ht & Hp & Hb). destruct (Hword p t Ht) as [H1 H2]. destruct t as [|c t]; [done|].
    sapp. simpl in H1. unfold boundary. cbn [shead word_at]. rewrite Hp, H1. simpl xorb. cbv iota.
    rewrite <- str_app_cons. apply rmatch_bounded; [done|]. exists (String c t), b.
    split_and!; [done|done|]. unfold boundary. by rewrite H2, Hb.
Qed.

Lemma bounded_sound p s n : rmatch r p s = Some n →
  accepts body (take_str n s) ∧ word_at (shead (drop_str n s)) = false.
Proof using Hbf Hword.
  assert (∀ b p s n, bound_free b = true → rmatch (b ++ [Bound]) p s = Some n →
    accepts b (take_str n s) ∧ boundary (prev_after p (take_str n s)) (shead (drop_str n s)) = true) as Hgo.
  { clear. induction b as [|[cls lo hi|] b IH]; intros p s n Hb E; [| |done].
    - cbn [app rmatch] in E. destruct (boundary p (shead s)) eqn:Eb; [|done]. by simplify_eq.
    - cbn [app rmatch] in E. apply tries_eq in E as (i & j & Hi & E & ->). apply IH in E as [Ea Eb]; [|done].
      destruct (run_len_take cls (default (len s) hi) s) as (Hall & Hhi & Hlen). split.
      + exists (take_str i s), (take_str j (drop_str i s)). rewrite len_take by lia.
        split_and!; [apply take_app_split|eapply take_prefix_all; [|exact Hall]; lia|lia| |done].
        intros h ->. simpl in *. lia.
      + rewrite take_app_split, prev_after_app, drop_drop_str. done. }
  unfold r. cbn [rmatch]. destruct (boundary p (shead s)) eqn:E; [|done]. intros Hm.
  apply Hgo in Hm as [Ha Hb]; [|done]. split; [done|]. destruct (Hword p _ Ha) as [_ H2].
  unfold boundary in Hb. rewrite H2 in Hb. by destruct (word_at (shead _)).
Qed.
Lemma body_nonempty : ¬ accepts body "".
Proof using Hword. intros Ha. by destruct (Hword None "" Ha). Qed.

Lemma bounded_shape n p s : sub_fuel n r repl p s = s ∨
  ∃ u y x, s = u +:+ y ∧ sub_fuel n r repl p s = u +:+ String lb x ∧ is_Some (rmatch r (prev_after p u) y).
Proof.
  revert p s. induction n as [|n IH]; intros p [|c s]; [by left..|]. cbn [sub_fuel].
  destruct (rmatch r p (String c s)) as [[|k]|] eqn:E; [|right|].
  2: { eexists "", (String c s), _. split_and!; [done|done|]. cbn [prev_after]. rewrite E. by eexists. }
  all: destruct (IH (Some c) s) as [->|(u & y & x & -> & -> & Hm)]; [by left|right; by exists (String c u), y, x].
Qed.
Lemma bounded_no_new n p s : is_Some (rmatch r p (sub_fuel n r repl p s)) → is_Some (rmatch r p s).
Proof using Hbf Hne Hword Hlb.
  destruct (bounded_shape n p s) as [->|(u & y & x & -> & -> & Hm)]; [done|].
  intros (t & b & E & Ht & Hp & Hb)%bounded_match. apply bounded_match. symmetry in E.
  destruct (prefix_before lb t b u x E) as [b' ->]; [by eapply accepts_avoids|].
  destruct (Hword p t Ht) as [_ H2]. destruct b' as [|c b'].
  - rewrite str_app_nil_r in Hm. apply bounded_match in Hm as (? & ? & _ & _ & Hw & _). congruence.
  - exists t, (String c b' +:+ y). rewrite str_app_assoc. split_and!; [done..|].
    rewrite str_app_assoc in E. apply (inj (String.append t)) in E as ->. by sapp.
Qed.
(** Text closed by a character the pattern avoids. *)
Lemma bounded_cut p v c x : avoids c body = true → found body None v = false → found r (Some c) x = false →
  found r p (v +:+ String c x) = false.
Proof using Hbf Hne Hword.
  intros Hc Hv Hx. revert p Hv. induction v as [|d v IH]; intros p Hv; sapp; apply found_false.
  - split; [|done]. intros (t & b & E & Ht & _)%bounded_match. destruct t as [|e t]; [by apply body_nonempty|].
    sapp. injection E as <- _. apply (accepts_avoids c) in Ht; [|done]. rewrite has_char_cons in Ht.
    by rewrite (proj2 (ascii_eqb_eq c c) eq_refl) in Ht.
  - apply found_false in Hv as [Hm Hv]. split; [|apply IH; by rewrite (found_prev body Hbf None (Some d))].
    intros (t & b & E & Ht & _)%bounded_match. apply Hm, rmatch_accepts; [done|]. symmetry in E.
    rewrite <- str_app_cons in E. destruct (prefix_before c t b (String d v) x E) as [b' Hb'];
      [by eapply accepts_avoids|]. by exists t, b'.
Qed.
Lemma bounded_clean n p s : (len s ≤ n)%nat → found r p (sub_fuel n r repl p s) = false.
Proof using Hbf Hne Hword Hlb Hrb Hwl Hwr Hinner.
  revert p s. induction n as [|n IH]; intros p [|c s] Hn; simpl in Hn; try lia.
  1, 2: cbn [sub_fuel found]; rewrite bool_decide_eq_false_2; [done|];
    intros (t & b & E & Ht & _)%bounded_match; destruct t; [by apply body_nonempty|done].
  cbn [sub_fuel]. destruct (rmatch r p (String c s)) as [[|k]|] eqn:E.
  - apply bounded_sound in E as [E _]. by apply body_nonempty in E.
  - apply bounded_sound in E as [_ Ew]. set (rest := drop_str (S k) _) in *.
    set (q := prev_after p _). assert (len rest ≤ n)%nat as Hl.
    { pose proof (drop_str_length (S k) (String c s)). unfold rest. simpl in *. lia. }
    specialize (IH q rest Hl). unfold repl at 1. sapp. rewrite str_app_assoc. sapp.
    assert (word_at (shead (sub_fuel n r repl q rest)) = false) as Hw.
    { destruct (bounded_shape n q rest) as [->|(u & y & x & Er & -> & _)]; [done|].
      destruct u as [|d u]; [done|]. rewrite Er in Ew. done. }
    assert (∀ p', found r p' (sub_fuel n r repl q rest) = false) as Hany.
    { intros p'. destruct (sub_fuel n r repl q rest) as [|d o].
      - cbn [found]. rewrite bool_decide_eq_false_2; [done|].
        intros (t & b & E' & Ht & _)%bounded_match. destruct t; [by apply body_nonempty|done].
      - apply found_false in IH as [_ IH]. apply found_false. split; [|done].
        intros (t & b & E' & Ht & _)%bounded_match. destruct (Hword None t Ht) as [H1 _].
        destruct t; [done|]. sapp. injection E' as <- _. simpl in *. congruence. }
    rewrite <- (str_app_nil_l (String lb _)). apply bounded_cut; [done| |by apply bounded_cut].
    cbn [found]. by rewrite Hne.
  - apply found_false. split; [|apply IH; lia]. intros Hs.
    assert (is_Some (rmatch r p (String c s))) as Hq.
    { apply (bounded_no_new (S n)). cbn [sub_fuel]. by rewrite E. }
    rewrite E in Hq. by destruct Hq.
Qed.
End Bounded.
