(* ===== verification/Json.v ===== *)
(** JSON values, as [json.loads] builds them and as a JSONB column stores them.
    A float is the exact rational value of the double. *)
From Stdlib Require Export QArith.
From S2P Require Import Prelude PyStr PyDict.
Local Close Scope Q_scope.

Inductive json :=
| JNull
| JBool (b : bool)
| JInt (z : Z)
| JFloat (q : Q)
| JStr (s : string)
| JArr (l : list json)
| JObj (kvs : list (string * json)).

#[export] Instance Q_eq_dec : EqDecision Q.
Proof. solve_decision. Defined.

(** Induction through the nested lists. *)
Section JsonInd.
Context (P : json → Prop)
  (Hnull : P JNull) (Hbool : ∀ b, P (JBool b)) (Hint : ∀ z, P (JInt z))
  (Hfloat : ∀ q, P (JFloat q)) (Hstr : ∀ s, P (JStr s))
  (Harr : ∀ l, Forall P l → P (JArr l))
  (Hobj : ∀ kvs, Forall (λ kv, P kv.2) kvs → P (JObj kvs)).

Fixpoint json_ind' (j : json) : P j :=
  match j with
  | JNull => Hnull
  | JBool b => Hbool b
  | JInt z => Hint z
  | JFloat q => Hfloat q
  | JStr s => Hstr s
  | JArr l => Harr l ((fix go l : Forall P l :=
      match l with [] => List.Forall_nil _ | x :: l' => @List.Forall_cons _ P x l' (json_ind' x) (go l') end) l)
  | JObj kvs => Hobj kvs ((fix go l : Forall (λ kv, P kv.2) l :=
      match l with
      | [] => List.Forall_nil _
      | x :: l' => @List.Forall_cons _ (λ kv, P kv.2) x l' (json_ind' x.2) (go l')
      end) kvs)
  end.
End JsonInd.

(** Structural equality. *)
Fixpoint json_eqb (a b : json) : bool :=
  match a, b with
  | JNull, JNull => true
  | JBool x, JBool y => Bool.eqb x y
  | JInt x, JInt y => Z.eqb x y
  | JFloat x, JFloat y => bool_decide (x = y)
  | JStr x, JStr y => str_eqb x y
  | JArr l, JArr l' =>
      (fix go l l' := match l, l' with
       | [], [] => true
       | x :: l, y :: l' => json_eqb x y && go l l'
       | _, _ => false
       end) l l'
  | JObj l, JObj l' =>
      (fix go l l' := match l, l' with
       | [], [] => true
       | (k, x) :: l, (k', y) :: l' => str_eqb k k' && json_eqb x y && go l l'
       | _, _ => false
       end) l l'
  | _, _ => false
  end.

Lemma json_eqb_eq a b : json_eqb a b = true ↔ a = b.
Proof.
  revert b. induction a as [ |x|x|x|x|l IH|l IH] using json_ind'; intros [ |y|y|y|y|l'|l'];
    simpl; try (split; [done|congruence]).
  - rewrite Bool.eqb_true_iff. split; congruence.
  - rewrite Z.eqb_eq. split; congruence.
  - rewrite bool_decide_eq_true. split; congruence.
  - rewrite str_eqb_eq. split; congruence.
  - revert l'. induction IH as [|x l Hx _ IHl]; intros [|y l']; try (split; [done|congruence]).
    rewrite andb_true_iff, Hx, IHl. split; [by intros [-> [= ->]]|by intros [= -> ->]].
  - revert l'. induction IH as [|[k x] l Hx _ IHl]; intros [|[k' y] l'];
      try (split; [done|congruence]).
    simpl in Hx. rewrite !andb_true_iff, str_eqb_eq, Hx, IHl.
    split; [by intros [[-> ->] [= ->]]|by intros [= -> -> ->]].
Qed.

#[export] Instance json_eq_dec : EqDecision json.
Proof.
  intros a b. destruct (json_eqb a b) eqn:E.
  - left. by apply json_eqb_eq.
  - right. intros H%json_eqb_eq. congruence.
Defined.

(** Python truth value. *)
Definition truthy (j : json) : bool :=
  match j with
  | JNull => false
  | JBool b => b
  | JInt z => negb (Z.eqb z 0)
  | JFloat q => negb (Qeq_bool q 0)
  | JStr s => nonempty s
  | JArr l => negb (bool_decide (l = []))
  | JObj l => negb (bool_decide (l = []))
  end.

(** [o or d] for an optional value. *)
Definition or_else (o : option json) (d : json) : json :=
  match o with Some j => if truthy j then j else d | None => d end.

(** The items of a dict; anything else has none. *)
Definition fields (j : json) : list (string * json) :=
  match j with JObj l => l | _ => [] end.
Definition items (j : json) : list json :=
  match j with JArr l => l | _ => [] end.
(** [j.get(k)] on a dict. *)
Definition jget (k : string) (j : json) : option json := dget k (fields j).
(** [j.get(k, d)] on a dict. *)
Definition jget_or (k : string) (d : json) (j : json) : json := default d (jget k j).
Definition as_str (j : json) : option string :=
  match j with JStr s => Some s | _ => None end.

(** JSONB containment [j @> {k: v}] and [j @> [v]] for a string [v], and
    [j ->> k = v]. *)
Definition jsonb_has (k v : string) (j : json) : bool :=
  match jget k j with Some (JStr s) => str_eqb s v | _ => false end.
Definition jsonb_elem (v : string) (j : json) : bool :=
  existsb (json_eqb (JStr v)) (items j).

Definition jstrs (l : list string) : json := JArr (JStr <$> l).

Lemma jget_obj k l : jget k (JObj l) = dget k l.
Proof. reflexivity. Qed.

Lemma jsonb_elem_true v l : jsonb_elem v (JArr l) = true ↔ JStr v ∈ l.
Proof.
  unfold jsonb_elem, items. rewrite existsb_exists. split.
  - intros (x & Hx & E). apply json_eqb_eq in E as <-. by apply list_elem_of_In.
  - intros Hx. exists (JStr v). split; [by apply list_elem_of_In|]. by apply json_eqb_eq.
Qed.
