(* ===== verification/JsonText.v ===== *)
(** [json.dumps] and [json.loads]: the text of a JSON value under the options the
    program passes, and the parser, with the round trip between them.

    A string is a sequence of code points below 256; the text of a float is the
    interpreter's [repr], a parameter. [NaN], the infinities and code points from
    256 on have no value here, so the parser rejects them. *)
From Stdlib Require Import Sorted.
From stdpp Require Import pretty.
From S2P Require Import Prelude PyStr PyDict Json.

(** [repr(x)] and [float(s)] of finite floats. *)
Class PyFloat := { float_repr : Q → string; float_text : string → option Q }.
(** * Printing *)
Record dump_opts := {
  sort_keys : bool;
  item_separator : string;
  key_separator : string;
  indent : option nat }.
Definition default_opts : dump_opts :=
  {| sort_keys := false; item_separator := ", "; key_separator := ": "; indent := None |}.
(** [sort_keys=True, separators=(",", ":")]. *)
Definition canonical_opts : dump_opts :=
  {| sort_keys := true; item_separator := ","; key_separator := ":"; indent := None |}.
(** [indent=2]. *)
Definition indent2_opts : dump_opts :=
  {| sort_keys := false; item_separator := ","; key_separator := ": "; indent := Some 2%nat |}.

Definition dquote : ascii := ascii_of_nat 34.
Definition backslash : ascii := ascii_of_nat 92.
Definition hex_char (n : nat) : ascii := ascii_of_nat (if (n <? 10)%nat then 48 + n else 87 + n).
(** [ensure_ascii]: everything outside the printable range is escaped. *)
Definition escape_char (c : ascii) : string :=
  if ascii_eqb c dquote then String backslash (String dquote "")
  else if ascii_eqb c backslash then String backslash (String backslash "")
  else let n := code c in
  if (n =? 10)%nat then String backslash "n"
  else if (n =? 13)%nat then String backslash "r"
  else if (n =? 9)%nat then String backslash "t"
  else if (n =? 12)%nat then String backslash "f"
  else if (n =? 8)%nat then String backslash "b"
  else if ((32 <=? n) && (n <=? 126))%nat then String c ""
  else String backslash (String "u" (String "0" (String "0"
         (String (hex_char (n / 16)) (String (hex_char (n mod 16)) ""))))).
Fixpoint escape (s : string) : string :=
  match s with "" => "" | String c s' => escape_char c +:+ escape s' end.
Definition quote (s : string) : string := String dquote (escape s +:+ String dquote "").

(** * [repr] and [str] *)
(** [str.isprintable] below code point 256. *)
Definition printable (c : ascii) : bool :=
  let n := code c in ((32 <=? n) && negb ((127 <=? n) && (n <=? 160)) && negb (n =? 173))%nat.
(** A character inside a literal with quote [q]. *)
Definition repr_char (q c : ascii) : string :=
  let n := code c in
  if ascii_eqb c q || ascii_eqb c backslash then String backslash (String c "")
  else if (n =? 10)%nat then String backslash "n"
  else if (n =? 13)%nat then String backslash "r"
  else if (n =? 9)%nat then String backslash "t"
  else if printable c then String c ""
  else String backslash (String "x" (String (hex_char (n / 16)) (String (hex_char (n mod 16)) ""))).
Fixpoint repr_chars (q : ascii) (s : string) : string :=
  match s with "" => "" | String c s' => repr_char q c +:+ repr_chars q s' end.
(** Single quotes, unless the text has some and no double quotes. *)
Definition str_repr (s : string) : string :=
  let q := if has_char "'" s && negb (has_char dquote s) then dquote else "'"%char in
  String q (repr_chars q s +:+ String q "").
Fixpoint py_repr `{PyFloat} (j : json) : string :=
  match j with
  | JNull => "None"
  | JBool b => if b then "True" else "False"
  | JInt z => str_of_Z z
  | JFloat q => float_repr q
  | JStr s => str_repr s
  | JArr l => "[" +:+ join ", " ((fix go l := match l with [] => [] | x :: l' => py_repr x :: go l' end) l) +:+ "]"
  | JObj o => "{" +:+ join ", " ((fix go l := match l with
      | [] => []
      | kv :: l' => (str_repr kv.1 +:+ ": " +:+ py_repr kv.2) :: go l'
      end) o) +:+ "}"
  end.
Definition py_str `{PyFloat} (j : json) : string := match j with JStr s => s | _ => py_repr j end.

Fixpoint spaces (n : nat) : string := match n with O => "" | S n' => String " " (spaces n') end.
Definition line_break (o : dump_opts) (level : nat) : string :=
  match indent o with None => "" | Some n => String newline (spaces (n * level)) end.

(** Members in the order of their keys. *)
Fixpoint insert_member {V} (x : string * V) (l : list (string * V)) : list (string * V) :=
  match l with
  | [] => [x]
  | y :: l' => if str_leb x.1 y.1 then x :: l else y :: insert_member x l'
  end.
Definition sort_members {V} (l : list (string * V)) : list (string * V) := foldr insert_member [] l.
Fixpoint sort_json (j : json) : json :=
  match j with
  | JArr l => JArr (List.map sort_json l)
  | JObj kvs => JObj (sort_members (List.map (λ kv, (kv.1, sort_json kv.2)) kvs))
  | _ => j
  end.

Section Text.
Context `{PyFloat}.

Definition block (o : dump_opts) (level : nat) (open close : string) (l : list string) : string :=
  open +:+ line_break o (S level) +:+
  join (item_separator o +:+ line_break o (S level)) l +:+ line_break o level +:+ close.
Definition member (o : dump_opts) (k text : string) : string := quote k +:+ key_separator o +:+ text.
Fixpoint print_json (o : dump_opts) (level : nat) (j : json) : string :=
  match j with
  | JNull => "null"
  | JBool b => if b then "true" else "false"
  | JInt z => str_of_Z z
  | JFloat q => float_repr q
  | JStr s => quote s
  | JArr [] => "[]"
  | JArr l => block o level "[" "]" (List.map (print_json o (S level)) l)
  | JObj [] => "{}"
  | JObj kvs => block o level "{" "}"
      (List.map (λ kv, member o kv.1 (print_json o (S level) kv.2)) kvs)
  end.
(** [json.dumps(j, **o)]. *)
Definition dumps_with (o : dump_opts) (j : json) : string :=
  print_json o 0 (if sort_keys o then sort_json j else j).
Definition dumps : json → string := dumps_with default_opts.
Definition canonical : json → string := dumps_with canonical_opts.

(** * Parsing *)
Definition eat (c : ascii) (s : string) : option string :=
  match s with String d r => if ascii_eqb d c then Some r else None | "" => None end.
Fixpoint eat_word (w s : string) : option string :=
  match w with "" => Some s | String c w' => eat c s ≫= eat_word w' end.
Definition is_ws (c : ascii) : bool :=
  ascii_eqb c " " || ascii_eqb c newline ||
  ascii_eqb c (ascii_of_nat 9) || ascii_eqb c (ascii_of_nat 13).
Definition skip_ws (s : string) : string := (span is_ws s).2.

Definition hex_val (c : ascii) : option nat :=
  let n := code c in
  if is_digit c then Some (n - 48)%nat
  else if ((97 <=? n) && (n <=? 102))%nat then Some (n - 87)%nat
  else if ((65 <=? n) && (n <=? 70))%nat then Some (n - 55)%nat
  else None.
Definition unescape (c : ascii) : option ascii :=
  if ascii_eqb c dquote || ascii_eqb c backslash || ascii_eqb c "/" then Some c
  else if ascii_eqb c "n" then Some newline
  else if ascii_eqb c "r" then Some (ascii_of_nat 13)
  else if ascii_eqb c "t" then Some (ascii_of_nat 9)
  else if ascii_eqb c "f" then Some (ascii_of_nat 12)
  else if ascii_eqb c "b" then Some (ascii_of_nat 8)
  else None.
(** [scanstring], after the opening quote, strict. *)
Fixpoint scan_string (s : string) : option (string * string) :=
  match s with
  | "" => None
  | String c s1 =>
      if ascii_eqb c dquote then Some ("", s1)
      else if ascii_eqb c backslash then
        match s1 with
        | String e s2 =>
            if ascii_eqb e "u" then
              match s2 with
              | String h3 (String h2 (String h1 (String h0 s3))) =>
                  a ← hex_val h3; b ← hex_val h2; u ← hex_val h1; v ← hex_val h0;
                  let n := (((a * 16 + b) * 16 + u) * 16 + v)%nat in
                  if (n <? 256)%nat then
                    r ← scan_string s3; Some (String (ascii_of_nat n) r.1, r.2)
                  else None
              | _ => None
              end
            else x ← unescape e; r ← scan_string s2; Some (String x r.1, r.2)
        | "" => None
        end
      else if (code c <? 32)%nat then None
      else r ← scan_string s1; Some (String c r.1, r.2)
  end.

(** [NUMBER_RE]: the integer, fraction and exponent parts. *)
Definition scan_sign (s : string) : string * string :=
  match eat "-" s with Some r => ("-", r) | None => ("", s) end.
Definition scan_int (s : string) : option (string * string) :=
  match s with
  | "" => None
  | String c r =>
      if ascii_eqb c "0" then Some ("0", r)
      else if is_digit c then let '(ds, r') := span is_digit r in Some (String c ds, r')
      else None
  end.
Definition scan_frac (s : string) : string * string :=
  match eat "." s with
  | Some r => let '(ds, r') := span is_digit r in if nonempty ds then ("." +:+ ds, r') else ("", s)
  | None => ("", s)
  end.
Definition scan_exp (s : string) : string * string :=
  match s with
  | String c r =>
      if ascii_eqb c "e" || ascii_eqb c "E" then
        let '(sg, r1) := match r with
          | String d r' => if ascii_eqb d "+" || ascii_eqb d "-" then (String d "", r') else ("", r)
          | "" => ("", r)
          end in
        let '(ds, r2) := span is_digit r1 in
        if nonempty ds then (String c (sg +:+ ds), r2) else ("", s)
      else ("", s)
  | "" => ("", s)
  end.
Definition scan_number (s : string) : option (json * string) :=
  let '(sg, s1) := scan_sign s in
  '(ip, s2) ← scan_int s1;
  let '(fr, s3) := scan_frac s2 in
  let '(ex, s4) := scan_exp s3 in
  if nonempty fr || nonempty ex then
    q ← float_text (sg +:+ ip +:+ fr +:+ ex); Some (JFloat q, s4)
  else Some (JInt (if nonempty sg then - digits_val ip else digits_val ip)%Z, s4).

Definition scan_word (s : string) : option (json * string) :=
  match eat_word "null" s, eat_word "true" s, eat_word "false" s with
  | Some r, _, _ => Some (JNull, r)
  | _, Some r, _ => Some (JBool true, r)
  | _, _, Some r => Some (JBool false, r)
  | _, _, _ => scan_number s
  end.

(** [scan_once], [JSONArray] and [JSONObject]; the fuel bounds the calls. *)
Fixpoint scan_value (n : nat) (s : string) {struct n} : option (json * string) :=
  match n with
  | O => None
  | S n' =>
      match eat dquote s, eat "[" s, eat "{" s with
      | Some r, _, _ => x ← scan_string r; Some (JStr x.1, x.2)
      | _, Some r, _ =>
          match eat "]" (skip_ws r) with
          | Some r' => Some (JArr [], r')
          | None => x ← scan_items n' (skip_ws r); Some (JArr x.1, x.2)
          end
      | _, _, Some r =>
          match eat "}" (skip_ws r) with
          | Some r' => Some (JObj [], r')
          | None => x ← scan_members n' [] (skip_ws r); Some (JObj x.1, x.2)
          end
      | _, _, _ => scan_word s
      end
  end
with scan_items (n : nat) (s : string) {struct n} : option (list json * string) :=
  match n with
  | O => None
  | S n' =>
      x ← scan_value n' s;
      match eat "]" (skip_ws x.2), eat "," (skip_ws x.2) with
      | Some r, _ => Some ([x.1], r)
      | None, Some r => y ← scan_items n' (skip_ws r); Some (x.1 :: y.1, y.2)
      | None, None => None
      end
  end
with scan_members (n : nat) (acc : list (string * json)) (s : string) {struct n}
    : option (list (string * json) * string) :=
  match n with
  | O => None
  | S n' =>
      q ← eat dquote s;
      k ← scan_string q;
      r ← eat ":" (skip_ws k.2);
      x ← scan_value n' (skip_ws r);
      match eat "}" (skip_ws x.2), eat "," (skip_ws x.2) with
      | Some r, _ => Some (dset k.1 x.1 acc, r)
      | None, Some r => scan_members n' (dset k.1 x.1 acc) (skip_ws r)
      | None, None => None
      end
  end.

(** [json.loads(s)]; [None] is a [JSONDecodeError]. *)
Definition loads_fuel (n : nat) (s : string) : option json :=
  x ← scan_value n (skip_ws s);
  if nonempty (skip_ws x.2) then None else Some x.1.
Definition loads (s : string) : option json := loads_fuel (2 * String.length s + 1) s.
End Text.

(** * The parser consumes its input, so the fuel is enough *)
Lemma span_length p s : (len (span p s).2 ≤ len s)%nat.
Proof.
  induction s as [|c s IH]; simpl; [done|]. destruct (p c); [|done].
  destruct (span p s) as [a b]. simpl in *. lia.
Qed.
Lemma skip_ws_length s : (len (skip_ws s) ≤ len s)%nat.
Proof. apply span_length. Qed.
Lemma eat_length c s r : eat c s = Some r → len s = S (len r).
Proof. destruct s; simpl; [done|]. destruct (ascii_eqb _ _); [|done]. by intros [= ->]. Qed.
Lemma eat_word_length w s r : eat_word w s = Some r → len s = (len w + len r)%nat.
Proof.
  revert s. induction w as [|c w IH]; intros s; simpl; [by intros [= ->]|].
  destruct (eat c s) as [t|] eqn:E; [|done]. simpl. intros Hr%IH. apply eat_length in E. lia.
Qed.
Lemma scan_string_length s x r : scan_string s = Some (x, r) → (len r < len s)%nat.
Proof.
  remember (len s) as n eqn:Hn. assert (len s ≤ n)%nat as Hle by lia. clear Hn.
  revert s x r Hle. induction n as [|n IH]; intros [|c s] x r Hle Hs; simpl in *; try done; [lia|].
  repeat (case_match || simplify_option_eq); simplify_eq; try done; try lia;
    match goal with H : scan_string ?t = Some ?p |- _ =>
      destruct p as [y r']; apply IH in H; simpl in *; lia end.
Qed.

Section Fuel.
Context `{PyFloat}.

Lemma scan_sign_length s : (len (scan_sign s).2 ≤ len s)%nat.
Proof.
  unfold scan_sign. destruct (eat "-" s) eqn:E; simpl; [|done]. apply eat_length in E. lia.
Qed.
Lemma scan_frac_length s : (len (scan_frac s).2 ≤ len s)%nat.
Proof.
  unfold scan_frac. destruct (eat "." s) as [r|] eqn:E; simpl; [|done]. apply eat_length in E.
  pose proof (span_length is_digit r). destruct (span is_digit r). simpl in *.
  destruct (nonempty _); simpl; lia.
Qed.
Lemma scan_exp_length s : (len (scan_exp s).2 ≤ len s)%nat.
Proof.
  destruct s as [|c r]; [done|]. unfold scan_exp. destruct (_ || _); [|done].
  destruct (match r with "" => _ | _ => _ end) as [sg r1] eqn:E.
  assert (len r1 ≤ len r)%nat as Hr.
  { destruct r as [|d r']; [by simplify_eq|]. destruct (_ || _); simplify_eq; simpl; lia. }
  pose proof (span_length is_digit r1). destruct (span is_digit r1). simpl in *.
  destruct (nonempty _); simpl; lia.
Qed.
Lemma scan_number_length s v r : scan_number s = Some (v, r) → (len r < len s)%nat.
Proof.
  unfold scan_number. pose proof (scan_sign_length s). destruct (scan_sign s) as [sg s1]. simpl in *.
  destruct (scan_int s1) as [[ip s2]|] eqn:Ei; [|done]. simpl.
  assert (len s2 < len s1)%nat.
  { destruct s1 as [|c s1]; [done|]. simpl in *. destruct (ascii_eqb c "0"); [simplify_eq; lia|].
    destruct (is_digit c); [|done]. pose proof (span_length is_digit s1).
    destruct (span is_digit s1). simplify_eq. simpl in *. lia. }
  pose proof (scan_frac_length s2). destruct (scan_frac s2) as [fr s3]. simpl in *.
  pose proof (scan_exp_length s3). destruct (scan_exp s3) as [ex s4]. simpl in *.
  intros Hr. assert (r = s4) as ->; [|lia].
  destruct (_ || _); [|by simplify_eq]. by simplify_option_eq.
Qed.
Lemma scan_word_length s v r : scan_word s = Some (v, r) → (len r < len s)%nat.
Proof.
  unfold scan_word.
  destruct (eat_word "null" s) eqn:E1; [apply eat_word_length in E1; intros; simplify_eq; simpl in *; lia|].
  destruct (eat_word "true" s) eqn:E2; [apply eat_word_length in E2; intros; simplify_eq; simpl in *; lia|].
  destruct (eat_word "false" s) eqn:E3; [apply eat_word_length in E3; intros; simplify_eq; simpl in *; lia|].
  apply scan_number_length.
Qed.

(** Lengths of what the primitives leave, for [lia]. *)
Ltac lengths :=
  repeat match goal with
  | H : eat _ _ = Some _ |- _ => apply eat_length in H
  | H : scan_string _ = Some (_, _) |- _ => apply scan_string_length in H
  | H : scan_string _ = Some ?p |- _ => destruct p
  | H : scan_word _ = Some (_, _) |- _ => apply scan_word_length in H
  end;
  repeat match goal with
  | H : context [len (skip_ws ?s)] |- _ =>
      lazymatch goal with _ : (len (skip_ws s) ≤ len s)%nat |- _ => fail | _ => pose proof (skip_ws_length s) end
  | |- context [len (skip_ws ?s)] =>
      lazymatch goal with _ : (len (skip_ws s) ≤ len s)%nat |- _ => fail | _ => pose proof (skip_ws_length s) end
  end; simpl in *; try lia.

Lemma scan_consumes n :
  (∀ s v r, scan_value n s = Some (v, r) → (len r < len s)%nat) ∧
  (∀ s l r, scan_items n s = Some (l, r) → (len r < len s)%nat) ∧
  (∀ acc s l r, scan_members n acc s = Some (l, r) → (len r < len s)%nat).
Proof.
  induction n as [|n (IHv & IHi & IHm)]; [done|]. split_and!.
  - intros s v r. simpl. destruct (eat dquote s) eqn:E1; [|destruct (eat "[" s) eqn:E2;
      [|destruct (eat "{" s) eqn:E3; [|by intros; lengths]]].
    + intros Hs. simplify_option_eq. lengths.
    + destruct (eat "]" _) eqn:E; [intros; simplify_eq; lengths|].
      destruct (scan_items n _) as [[l r']|] eqn:Ei; [|done]. intros [= <- <-].
      apply IHi in Ei. lengths.
    + destruct (eat "}" _) eqn:E; [intros; simplify_eq; lengths|].
      destruct (scan_members n _ _) as [[l r']|] eqn:Ei; [|done]. intros [= <- <-].
      apply IHm in Ei. lengths.
  - intros s l r. simpl. destruct (scan_value n s) as [[x s1]|] eqn:Ev; [|done]. simpl. apply IHv in Ev.
    destruct (eat "]" _) eqn:E; [intros; simplify_eq; lengths|].
    destruct (eat "," _) eqn:E'; [|done].
    destruct (scan_items n _) as [[l' r']|] eqn:Ei; [|done]. intros [= <- <-].
    apply IHi in Ei. lengths.
  - intros acc s l r. simpl. destruct (eat dquote s) as [s0|] eqn:E0; [|done]. simpl.
    destruct (scan_string s0) as [[k s1]|] eqn:Ek; [|done]. simpl.
    destruct (eat ":" _) as [s2|] eqn:E1; [|done]. simpl.
    destruct (scan_value n _) as [[x s3]|] eqn:Ev; [|done]. simpl. apply IHv in Ev.
    destruct (eat "}" _) eqn:E; [intros; simplify_eq; lengths|].
    destruct (eat "," _) eqn:E'; [|done]. intros Hm. apply IHm in Hm. lengths.
Qed.

Lemma scan_enough n :
  (∀ m s, (2 * len s + 1 ≤ n)%nat → (n ≤ m)%nat → scan_value m s = scan_value n s) ∧
  (∀ m s, (2 * len s + 2 ≤ n)%nat → (n ≤ m)%nat → scan_items m s = scan_items n s) ∧
  (∀ m acc s, (2 * len s + 2 ≤ n)%nat → (n ≤ m)%nat → scan_members m acc s = scan_members n acc s).
Proof.
  induction n as [|n (IHv & IHi & IHm)]; [split_and!; intros; lia|].
  split_and!; (intros [|m]; intros; [lia|]); simpl.
  - destruct (eat dquote s) eqn:E1; [done|]. destruct (eat "[" s) eqn:E2; [|destruct (eat "{" s) eqn:E3; [|done]].
    + destruct (eat "]" _) eqn:E; [done|]. rewrite (IHi m); [done|lengths|lia].
    + destruct (eat "}" _) eqn:E; [done|]. rewrite (IHm m); [done|lengths|lia].
  - rewrite (IHv m) by lia. destruct (scan_value n s) as [[x s1]|] eqn:Ev; [|done]. simpl.
    apply (proj1 (scan_consumes n)) in Ev. destruct (eat "]" _) eqn:E; [done|].
    destruct (eat "," _) eqn:E'; [|done]. rewrite (IHi m); [done|lengths|lia].
  - destruct (eat dquote s) as [s0|] eqn:E0; [|done]. simpl.
    destruct (scan_string s0) as [[k s1]|] eqn:Ek; [|done]. simpl.
    destruct (eat ":" _) as [s2|] eqn:E1; [|done]. simpl.
    rewrite (IHv m); [|lengths|lia]. destruct (scan_value n _) as [[x s3]|] eqn:Ev; [|done]. simpl.
    apply (proj1 (scan_consumes n)) in Ev. destruct (eat "}" _) eqn:E; [done|].
    destruct (eat "," _) eqn:E'; [|done]. rewrite (IHm m); [done|lengths|lia].
Qed.

(** [loads] decides: more fuel never changes its answer. *)
Lemma loads_enough n s : (2 * len s + 1 ≤ n)%nat → loads_fuel n s = loads s.
Proof.
  intros Hn. unfold loads, loads_fuel. pose proof (skip_ws_length s).
  by rewrite (proj1 (scan_enough (2 * len s + 1)) n) by lia.
Qed.
End Fuel.

(** * What is printed is read back *)
Lemma span_app p a s : sall p a = true → span p (a +:+ s) = (a +:+ (span p s).1, (span p s).2).
Proof.
  induction a as [|c a IH]; intros Ha; [change (span p s = ((span p s).1, (span p s).2)); by destruct (span p s)|].
  simpl in Ha. apply andb_true_iff in Ha as [Hc Ha]. sapp. simpl. by rewrite Hc, IH.
Qed.
Lemma span_stop p c s : p c = false → span p (String c s) = ("", String c s).
Proof. simpl. by intros ->. Qed.
Lemma span_app_rest p s rest : (∀ c r, rest = String c r → p c = false) →
  span p (s +:+ rest) = ((span p s).1, (span p s).2 +:+ rest).
Proof.
  intros Hr. induction s as [|c s IH]; simpl.
  - rewrite str_app_nil_l. destruct rest as [|c r]; [done|]. simpl. by rewrite (Hr c r eq_refl).
  - sapp. simpl. destruct (p c); [|done]. rewrite IH. by destruct (span p s).
Qed.
Lemma skip_ws_app a s : sall is_ws a = true → skip_ws (a +:+ s) = skip_ws s.
Proof. intros Ha. unfold skip_ws. by rewrite span_app. Qed.
Lemma skip_ws_solid c s : is_ws c = false → skip_ws (String c s) = String c s.
Proof. intros Hc. unfold skip_ws. by rewrite span_stop. Qed.
Lemma spaces_ws n : sall is_ws (spaces n) = true.
Proof. by induction n. Qed.
Lemma line_break_ws o level : sall is_ws (line_break o level) = true.
Proof. unfold line_break. destruct (indent o); [|done]. simpl. apply spaces_ws. Qed.

(** The separators are their sign and blanks. *)
Definition opts_ok (o : dump_opts) : Prop :=
  (∃ a, item_separator o = String "," a ∧ sall is_ws a = true) ∧
  (∃ b, key_separator o = String ":" b ∧ sall is_ws b = true).
Lemma opts_ok_used : opts_ok default_opts ∧ opts_ok canonical_opts ∧ opts_ok indent2_opts.
Proof. split_and!; split; eexists; by split. Qed.

(** ** Strings *)
Lemma scan_escape_char c t : scan_string (escape_char c +:+ t) =
  (r ← scan_string t; Some (String c r.1, r.2)).
Proof. by destruct c as [[][][][][][][][]]. Qed.
Lemma scan_escape s rest : scan_string (escape s +:+ String dquote rest) = Some (s, rest).
Proof.
  induction s as [|c s IH]; [done|]. simpl. by rewrite str_app_assoc, scan_escape_char, IH.
Qed.
Lemma quote_app s rest : quote s +:+ rest = String dquote (escape s +:+ String dquote rest).
Proof. unfold quote. sapp. by rewrite str_app_assoc. Qed.

(** ** Numbers *)
Definition number_head (c : ascii) : bool := is_digit c || ascii_eqb c "-".
(** What may follow a value in printed text. *)
Definition delim (s : string) : bool :=
  match s with
  | "" => true
  | String c _ => is_ws c || ascii_eqb c "," || ascii_eqb c "]" || ascii_eqb c "}"
  end.
Lemma number_head_not c d : number_head c = true → number_head d = false → ascii_eqb c d = false.
Proof. intros Hc Hd. apply ascii_eqb_neq. intros ->. congruence. Qed.
Lemma delim_stop c r : delim (String c r) = true →
  is_digit c = false ∧ ascii_eqb c "." = false ∧ ascii_eqb c "e" = false ∧ ascii_eqb c "E" = false ∧
  ascii_eqb c "+" = false ∧ ascii_eqb c "-" = false.
Proof. by destruct c as [[][][][][][][][]]. Qed.

Section Numbers.
Context `{PyFloat} (rest : string) (Hrest : delim rest = true).

Lemma span_digits_rest s : span is_digit (s +:+ rest) = ((span is_digit s).1, (span is_digit s).2 +:+ rest).
Proof. apply span_app_rest. intros c r ->. by apply delim_stop in Hrest as [? _]. Qed.
Lemma eat_rest c s : ascii_eqb c "." || ascii_eqb c "-" = true →
  eat c (s +:+ rest) = (λ r, r +:+ rest) <$> eat c s.
Proof using Hrest.
  intros Hc. destruct s as [|d s]; simpl.
  - destruct rest as [|d r]; [done|]. apply delim_stop in Hrest as (_ & H1 & _ & _ & _ & H2). simpl.
    apply ascii_eqb_neq in H1, H2. apply orb_true_iff in Hc as [Hc|Hc]; apply ascii_eqb_eq in Hc as ->;
      by apply ascii_eqb_neq in H1, H2; rewrite ?H1, ?H2.
  - sapp. simpl. by destruct (ascii_eqb d c).
Qed.
Lemma scan_frac_rest s : scan_frac (s +:+ rest) = ((scan_frac s).1, (scan_frac s).2 +:+ rest).
Proof using Hrest.
  unfold scan_frac. rewrite eat_rest by done. destruct (eat "." s) as [r|]; simpl; [|done].
  rewrite span_digits_rest. destruct (span is_digit r) as [ds r']. simpl. by destruct (nonempty ds).
Qed.
Lemma scan_exp_rest s : scan_exp (s +:+ rest) = ((scan_exp s).1, (scan_exp s).2 +:+ rest).
Proof using Hrest.
  destruct s as [|c s]; simpl.
  { destruct rest as [|d r]; [done|]. apply delim_stop in Hrest as (_ & _ & H1 & H2 & _). simpl.
    by rewrite H1, H2. }
  sapp. simpl. destruct (ascii_eqb c "e" || ascii_eqb c "E"); [|done].
  assert (∀ sg t, (let '(ds, r2) := span is_digit (t +:+ rest) in
      if nonempty ds then (String c (sg +:+ ds), r2) else ("", String c (s +:+ rest))) =
    ((let '(ds, r2) := span is_digit t in
      if nonempty ds then (String c (sg +:+ ds), r2) else ("", String c s)).1,
     (let '(ds, r2) := span is_digit t in
      if nonempty ds then (String c (sg +:+ ds), r2) else ("", String c s)).2 +:+ rest)) as Hd.
  { intros sg t. rewrite span_digits_rest. destruct (span is_digit t) as [ds r']. simpl.
    by destruct (nonempty ds). }
  destruct s as [|d s]; simpl.
  - specialize (Hd "" ""). sapp. destruct rest as [|d r]; [done|].
    apply delim_stop in Hrest as (_ & _ & _ & _ & H1 & H2). sapp. simpl. rewrite H1, H2. exact Hd.
  - sapp. simpl. destruct (ascii_eqb d "+" || ascii_eqb d "-").
    + by apply (Hd (String d "") s).
    + apply (Hd "" (String d s)).
Qed.
Lemma scan_number_rest s v r : scan_number s = Some (v, r) → scan_number (s +:+ rest) = Some (v, r +:+ rest).
Proof using Hrest.
  unfold scan_number, scan_sign. rewrite eat_rest by done.
  assert (∀ sg s1, ('(ip, s2) ← scan_int s1;
      let '(fr, s3) := scan_frac s2 in let '(ex, s4) := scan_exp s3 in
      if nonempty fr || nonempty ex then q ← float_text (sg +:+ ip +:+ fr +:+ ex); Some (JFloat q, s4)
      else Some (JInt (if nonempty sg then - digits_val ip else digits_val ip)%Z, s4)) = Some (v, r) →
    ('(ip, s2) ← scan_int (s1 +:+ rest);
      let '(fr, s3) := scan_frac s2 in let '(ex, s4) := scan_exp s3 in
      if nonempty fr || nonempty ex then q ← float_text (sg +:+ ip +:+ fr +:+ ex); Some (JFloat q, s4)
      else Some (JInt (if nonempty sg then - digits_val ip else digits_val ip)%Z, s4)) =
    Some (v, r +:+ rest)) as Hgo.
  { intros sg s1 Hs. destruct (scan_int s1) as [[ip s2]|] eqn:Ei; [|done]. simpl in Hs.
    assert (scan_int (s1 +:+ rest) = Some (ip, s2 +:+ rest)) as ->.
    { destruct s1 as [|c s1]; [done|]. sapp. simpl in *.
      destruct (ascii_eqb c "0"); [by simplify_eq|]. destruct (is_digit c); [|done].
      rewrite span_digits_rest. destruct (span is_digit s1). by simplify_eq. }
    simpl. rewrite scan_frac_rest. destruct (scan_frac s2) as [fr s3]. simpl. rewrite scan_exp_rest.
    destruct (scan_exp s3) as [ex s4]. simpl. destruct (_ || _); [|by simplify_eq].
    by destruct (float_text _); simplify_eq/=. }
  destruct (eat "-" s) as [s1|]; simpl; [apply (Hgo "-" s1)|apply (Hgo "" s)].
Qed.
End Numbers.
Lemma scan_number_head `{PyFloat} s x : scan_number s = Some x → ∃ c r, s = String c r ∧ number_head c = true.
Proof.
  unfold scan_number, scan_sign, number_head. destruct s as [|c s]; [done|]. simpl.
  destruct (ascii_eqb c "-") eqn:E; [intros; exists c, s; by rewrite E, orb_true_r|]. simpl.
  intros Hx. exists c, s. split; [done|]. destruct (ascii_eqb c "0") eqn:E0.
  - by apply ascii_eqb_eq in E0 as ->.
  - by destruct (is_digit c).
Qed.
(** A number, whatever follows. *)
Lemma scan_value_number `{PyFloat} n s v rest : scan_number s = Some (v, "") → delim rest = true →
  scan_value (S n) (s +:+ rest) = Some (v, rest).
Proof.
  intros Hs Hr. destruct (scan_number_head s _ Hs) as (c & r & -> & Hc).
  simpl. unfold scan_word. simpl. rewrite !(number_head_not c) by done. simpl.
  by rewrite (scan_number_rest rest Hr _ _ _ Hs).
Qed.

(** ** Decimal integers *)
Lemma digits_val_app acc s t : digits_val_acc acc (s +:+ t) = digits_val_acc (digits_val_acc acc s) t.
Proof. revert acc. induction s as [|c s IH]; intros acc; [done|]. sapp. simpl. apply IH. Qed.
Lemma pretty_char_digit n : (n < 10)%N →
  is_digit (pretty_N_char n) = true ∧ Z.of_nat (code (pretty_N_char n)) = (48 + Z.of_N n)%Z ∧
  (ascii_eqb (pretty_N_char n) "0" = true → n = 0%N).
Proof.
  intros Hn. assert (n = 0 ∨ n = 1 ∨ n = 2 ∨ n = 3 ∨ n = 4 ∨ n = 5 ∨ n = 6 ∨ n = 7 ∨ n = 8 ∨ n = 9)%N
    as Hc by lia. naive_solver.
Qed.
Lemma pretty_go_digits n s : (0 < n)%N → ∃ c ds, pretty_N_go n s = String c ds +:+ s ∧
  is_digit c = true ∧ ascii_eqb c "0" = false ∧ sall is_digit ds = true ∧
  digits_val (String c ds) = Z.of_N n.
Proof.
  revert s. induction (N.lt_wf_0 n) as [n _ IH]. intros s Hn. rewrite pretty_N_go_step by done.
  assert (n mod 10 < 10)%N as Hm by (by apply N.mod_lt).
  destruct (pretty_char_digit _ Hm) as (Hd & Hv & H0).
  pose proof (N.div_mod n 10 ltac:(done)) as Hdiv.
  destruct (decide (n / 10 = 0)%N) as [E|E].
  - rewrite E in Hdiv |- *. rewrite pretty_N_go_0. exists (pretty_N_char (n mod 10)), "".
    split_and!; [done|done| |done|].
    + destruct (ascii_eqb _ _) eqn:E0; [|done]. specialize (H0 eq_refl). lia.
    + unfold digits_val. simpl. lia.
  - destruct (IH (n / 10)%N ltac:(by apply N.div_lt) (String (pretty_N_char (n mod 10)) s) ltac:(lia))
      as (c & ds & -> & Hc & Hc0 & Hds & Hval).
    exists c, (ds +:+ String (pretty_N_char (n mod 10)) ""). split_and!; [|done|done| |].
    + sapp. f_equal. rewrite str_app_assoc. by sapp.
    + rewrite sall_app, Hds. simpl. by rewrite Hd.
    + rewrite <- str_app_cons. unfold digits_val in *. rewrite digits_val_app, Hval. simpl. lia.
Qed.
Lemma scan_pretty `{PyFloat} p sg : (sg = "" ∨ sg = "-") →
  scan_number (sg +:+ pretty (N.pos p)) =
    Some (JInt (if nonempty sg then Zneg p else Zpos p), "").
Proof.
  intros Hsg. unfold pretty, pretty_N. rewrite decide_False by done.
  destruct (pretty_go_digits (N.pos p) "" ltac:(done)) as (c & ds & -> & Hc & Hc0 & Hds & Hval).
  rewrite str_app_nil_r.
  assert (span is_digit ds = (ds, "")) as Hspan.
  { rewrite <- (str_app_nil_r ds) at 1. rewrite span_app by done. simpl. by rewrite str_app_nil_r. }
  assert (ascii_eqb c "-" = false) as Hm by (apply ascii_eqb_neq; by intros ->).
  destruct Hsg as [-> | ->]; sapp; unfold scan_number, scan_sign; simpl; rewrite ?Hm; simpl;
    rewrite ?Hc0, ?Hc, Hspan; simpl; by rewrite Hval.
Qed.
Lemma scan_str_of_Z `{PyFloat} z : scan_number (str_of_Z z) = Some (JInt z, "").
Proof.
  unfold str_of_Z. destruct z as [|p|p]; [done| |].
  - exact (scan_pretty p "" (or_introl eq_refl)).
  - exact (scan_pretty p "-" (or_intror eq_refl)).
Qed.

(** [int(str(n)) == n]. *)
Lemma str_of_nat_digits n : ∃ c ds, str_of_Z (Z.of_nat n) = String c ds ∧ is_digit c = true ∧
  sall is_digit ds = true ∧ digits_val (String c ds) = Z.of_nat n.
Proof.
  unfold str_of_Z. destruct n as [|n]; [by exists "0"%char, ""|].
  simpl Z.of_nat. set (p := Pos.of_succ_nat n).
  destruct (pretty_go_digits (N.pos p) "" ltac:(done)) as (c & ds & E & Hc & _ & Hds & Hv).
  exists c, ds. split_and!; try done. change (pretty (Z.pos p)) with (pretty (N.pos p)).
  rewrite str_app_nil_r in E. exact E.
Qed.

(** ** Values *)
Lemma dset_fresh {V} k (v : V) d : k ∉ dkeys d → dset k v d = d ++ [(k, v)].
Proof.
  induction d as [|[k' v'] d IH]; [done|]. intros Hk. simpl in *. apply not_elem_of_cons in Hk as [Hne Hk].
  rewrite (proj2 (str_eqb_neq k k')) by done. by rewrite IH.
Qed.

Section RoundTrip.
Context `{PyFloat}.

(** The keys of every object are unique, as in a dict, and every float's text
    reads back to it. *)
Fixpoint readable (j : json) : Prop :=
  match j with
  | JFloat q => scan_number (float_repr q) = Some (JFloat q, "")
  | JArr l => (fix go l := match l with [] => True | x :: l' => readable x ∧ go l' end) l
  | JObj kvs => NoDup (dkeys kvs) ∧
      (fix go l := match l with [] => True | kv :: l' => readable kv.2 ∧ go l' end) kvs
  | _ => True
  end.
Lemma readable_arr l : readable (JArr l) ↔ Forall readable l.
Proof. induction l as [|x l IH]; simpl in *; [done|]. rewrite Forall_cons. by rewrite IH. Qed.
Lemma readable_obj kvs : readable (JObj kvs) ↔ NoDup (dkeys kvs) ∧ Forall (λ kv, readable kv.2) kvs.
Proof.
  simpl. apply and_iff_compat_l. induction kvs as [|x l IH]; [done|]. rewrite Forall_cons. by rewrite IH.
Qed.

Context (o : dump_opts) (Ho : opts_ok o).

(** A printed value starts with a character that is no blank and closes nothing. *)
Definition value_head (s : string) : Prop :=
  ∃ c r, s = String c r ∧ is_ws c = false ∧ ascii_eqb c "]" = false.
Lemma number_value_head s x : scan_number s = Some x → value_head s.
Proof.
  intros (c & r & -> & Hc)%scan_number_head. exists c, r. split; [done|]. revert Hc.
  by destruct c as [[][][][][][][][]].
Qed.
Lemma print_head level j : readable j → value_head (print_json o level j).
Proof.
  destruct j as [ |[]|z|q|s|[|x l]|[|kv l]]; intros Hj; try (eexists _, _; split; [reflexivity|done]).
  - eapply number_value_head, scan_str_of_Z.
  - by eapply number_value_head.
Qed.
Lemma value_head_app s t : value_head s → value_head (s +:+ t).
Proof. intros (c & r & -> & Hc). exists c, (r +:+ t). by sapp. Qed.
Lemma value_head_skip s : value_head s → skip_ws s = s.
Proof. intros (c & r & -> & Hc & _). by apply skip_ws_solid. Qed.
Lemma value_head_eat s : value_head s → eat "]" s = None.
Proof. intros (c & r & -> & _ & Hc). simpl. by rewrite Hc. Qed.

(** Enough fuel reads the value back and leaves the rest. *)
Definition scans (level : nat) (j : json) : Prop :=
  ∃ n, ∀ m rest, (n ≤ m)%nat → delim rest = true →
    scan_value m (print_json o level j +:+ rest) = Some (j, rest).

(** The text between two entries. *)
Lemma separator_scan level rest : ∃ t,
  (item_separator o +:+ line_break o level) +:+ rest = String "," (t +:+ rest) ∧ sall is_ws t = true.
Proof.
  destruct Ho as [(a & -> & Ha) _]. exists (a +:+ line_break o level).
  split; [by sapp|]. by rewrite sall_app, Ha, line_break_ws.
Qed.
Lemma close_delim a c rest : sall is_ws a = true → (c = "]"%char ∨ c = "}"%char) →
  delim (a +:+ String c rest) = true ∧ skip_ws (a +:+ String c rest) = String c rest.
Proof.
  intros Ha Hc. rewrite skip_ws_app by done. split.
  - destruct a as [|d a]; [by destruct Hc as [-> | ->]|]. sapp. simpl in *.
    by apply andb_true_iff in Ha as [-> _].
  - by destruct Hc as [-> | ->].
Qed.

Lemma scan_items_print level tail l : l ≠ [] → sall is_ws tail = true →
  Forall readable l → Forall (scans level) l →
  ∃ n, ∀ m rest, (n ≤ m)%nat →
    scan_items m (join (item_separator o +:+ line_break o level) (List.map (print_json o level) l) +:+
      tail +:+ String "]" rest) = Some (l, rest).
Proof.
  intros Hl Htail. induction l as [|x l IH]; [done|]. rewrite !Forall_cons. intros [Rx Rl] [[n Hx] Sl].
  destruct l as [|y l].
  - exists (S n). intros [|m] rest Hm; [lia|]. simpl.
    destruct (close_delim tail "]" rest Htail (or_introl eq_refl)) as [Hd Hs].
    rewrite Hx by (done || lia). simpl. by rewrite Hs.
  - destruct (IH ltac:(done) Rl Sl) as [n' Hrest]. exists (S (n + n')).
    intros [|m] rest Hm; [lia|]. cbn [List.map]. rewrite join_cons. cbn [scan_items].
    rewrite !str_app_assoc. set (more := join _ _ +:+ _).
    assert (value_head more) as Hh.
    { apply value_head_app. apply Forall_cons in Rl as [Ry _]. cbn [List.map].
      destruct (List.map (print_json o level) l); [by apply print_head|].
      rewrite join_cons. by apply value_head_app, print_head. }
    destruct (separator_scan level more) as (t & Et & Ht).
    rewrite <- (str_app_assoc (item_separator o)), Et. rewrite Hx by (done || lia). simpl.
    rewrite skip_ws_app, value_head_skip by done.
    change (skip_ws (String "," (t +:+ more))) with (String "," (t +:+ more)). simpl.
    unfold more. cbn [List.map] in Hrest. rewrite Hrest by lia. done.
Qed.

Lemma scan_member m acc k text rest x : value_head text → scan_value m (text +:+ rest) = Some (x, rest) →
  scan_members (S m) acc (member o k text +:+ rest) =
    match eat "}" (skip_ws rest), eat "," (skip_ws rest) with
    | Some r, _ => Some (dset k x acc, r)
    | None, Some r => scan_members m (dset k x acc) (skip_ws r)
    | None, None => None
    end.
Proof using Ho.
  intros Ht Hx. destruct Ho as [_ (b & Hkey & Hb)]. unfold member.
  rewrite !str_app_assoc, quote_app. simpl. rewrite scan_escape. simpl. rewrite Hkey. sapp. simpl.
  rewrite skip_ws_app, value_head_skip by (done || by apply value_head_app). by rewrite Hx.
Qed.
Lemma member_head k text : value_head (member o k text).
Proof. eexists _, _. split; [reflexivity|done]. Qed.

Lemma scan_members_print level tail kvs acc : kvs ≠ [] → sall is_ws tail = true →
  NoDup (dkeys (acc ++ kvs)) →
  Forall (λ kv, readable kv.2) kvs → Forall (λ kv, scans level kv.2) kvs →
  ∃ n, ∀ m rest, (n ≤ m)%nat →
    scan_members m acc (join (item_separator o +:+ line_break o level)
        (List.map (λ kv, member o kv.1 (print_json o level kv.2)) kvs) +:+
      tail +:+ String "}" rest) = Some (acc ++ kvs, rest).
Proof.
  intros Hl Htail. revert acc. induction kvs as [|[k x] l IH]; [done|].
  intros acc Hnd. rewrite !Forall_cons. intros [Rx Rl] [[n Hx] Sl]. simpl in Rx, Hx.
  assert (dset k x acc = acc ++ [(k, x)]) as Hset.
  { apply dset_fresh. unfold dkeys in *. rewrite fmap_app, NoDup_app in Hnd.
    destruct Hnd as (_ & Hd & _). intros Hk. apply (Hd k Hk). by left. }
  replace (acc ++ (k, x) :: l) with ((acc ++ [(k, x)]) ++ l) in * by (by rewrite <- app_assoc).
  destruct l as [|[k' y] l].
  - exists (S n). intros [|m] rest Hm; [lia|]. cbn [List.map join String.concat fst snd].
    destruct (close_delim tail "}" rest Htail (or_intror eq_refl)) as [Hd Hs].
    rewrite (scan_member _ _ _ _ _ x) by (by apply print_head || (apply Hx; [lia|done])).
    by rewrite Hs, Hset, app_nil_r.
  - destruct (IH ltac:(done) _ Hnd Rl Sl) as [n' Hrest]. exists (S (n + n')).
    intros [|m] rest Hm; [lia|]. cbn [List.map fst snd]. rewrite join_cons, !str_app_assoc.
    set (more := join _ _ +:+ _).
    assert (value_head more) as Hh.
    { apply value_head_app. cbn [List.map fst snd].
      destruct (List.map _ l); [by apply member_head|]. rewrite join_cons. by apply value_head_app, member_head. }
    destruct (separator_scan level more) as (t & Et & Ht).
    rewrite <- (str_app_assoc (item_separator o)), Et.
    rewrite (scan_member _ _ _ _ _ x) by (by apply print_head || (apply Hx; [lia|done])).
    change (skip_ws (String "," (t +:+ more))) with (String "," (t +:+ more)). simpl.
    rewrite skip_ws_app, value_head_skip by done.
    unfold more. cbn [List.map fst snd] in Hrest. rewrite Hset, Hrest by lia. done.
Qed.

Lemma block_app level a b l rest : block o level a b l +:+ rest =
  a +:+ line_break o (S level) +:+ join (item_separator o +:+ line_break o (S level)) l +:+
  line_break o level +:+ b +:+ rest.
Proof. unfold block. by rewrite !str_app_assoc. Qed.

Lemma print_scans j : readable j → ∀ level, scans level j.
Proof.
  induction j as [ |b|z|q|s|l IH|kvs IH] using json_ind'; intros Hj level.
  - exists 1%nat. intros [|m] rest Hm Hd; [lia|]. done.
  - exists 1%nat. intros [|m] rest Hm Hd; [lia|]. by destruct b.
  - exists 1%nat. intros [|m] rest Hm Hd; [lia|]. by apply scan_value_number; [apply scan_str_of_Z|].
  - exists 1%nat. intros [|m] rest Hm Hd; [lia|]. by apply scan_value_number.
  - exists 1%nat. intros [|m] rest Hm Hd; [lia|]. cbn [print_json]. rewrite quote_app. simpl. by rewrite scan_escape.
  - destruct l as [|x l]; [exists 1%nat; by intros [|m] rest Hm Hd; [lia|]|].
    apply readable_arr in Hj.
    assert (Forall (scans (S level)) (x :: l)) as Hs.
    { eapply Forall_impl; [exact (proj2 (Forall_and _ _) (conj IH Hj))|]. simpl. intros y [Hy Ry]. by apply Hy. }
    destruct (scan_items_print (S level) (line_break o level) (x :: l)) as [n Hn];
      [done|apply line_break_ws|done|done|].
    exists (S n). intros [|m] rest Hm Hd; [lia|]. cbn [print_json]. rewrite block_app.
    specialize (Hn m rest ltac:(lia)). sapp. set (more := join _ _ +:+ _) in *.
    assert (value_head more) as Hh.
    { apply value_head_app. apply Forall_cons in Hj as [Rx _]. cbn [List.map].
      destruct (List.map (print_json o (S level)) l); [by apply print_head|].
      rewrite join_cons. by apply value_head_app, print_head. }
    clearbody more. simpl. rewrite skip_ws_app by apply line_break_ws.
    rewrite value_head_skip, value_head_eat by done. by rewrite Hn.
  - destruct kvs as [|[k x] l]; [exists 1%nat; by intros [|m] rest Hm Hd; [lia|]|].
    apply readable_obj in Hj as [Hnd Hj].
    assert (Forall (λ kv, scans (S level) kv.2) ((k, x) :: l)) as Hs.
    { eapply Forall_impl; [exact (proj2 (Forall_and _ _) (conj IH Hj))|]. simpl. intros y [Hy Ry]. by apply Hy. }
    destruct (scan_members_print (S level) (line_break o level) ((k, x) :: l) []) as [n Hn];
      [done|apply line_break_ws|done|done|done|].
    exists (S n). intros [|m] rest Hm Hd; [lia|]. cbn [print_json]. rewrite block_app.
    specialize (Hn m rest ltac:(lia)). sapp. set (more := join _ _ +:+ _) in *.
    assert (value_head more ∧ eat "}" more = None) as [Hh He].
    { assert (∃ t, more = member o k (print_json o (S level) x) +:+ t) as [t ->].
      { unfold more. cbn [List.map fst snd]. destruct (List.map _ l); [by eexists|].
        rewrite join_cons, str_app_assoc. by eexists. }
      split; [by apply value_head_app, member_head|]. unfold member. by rewrite str_app_assoc, quote_app. }
    clearbody more. simpl. rewrite skip_ws_app by apply line_break_ws.
    rewrite value_head_skip, He by done. by rewrite Hn.
Qed.
End RoundTrip.

(** [json.loads] inverts the printer, under all the options the program uses. *)
Lemma loads_print `{PyFloat} o j : opts_ok o → readable j → loads (print_json o 0 j) = Some j.
Proof.
  intros Ho Hj. destruct (print_scans o Ho j Hj 0) as [n Hn].
  rewrite <- (loads_enough (n + (2 * len (print_json o 0 j) + 1))) by lia. unfold loads_fuel.
  rewrite (value_head_skip _ (print_head o 0 j Hj)).
  rewrite <- (str_app_nil_r (print_json o 0 j)) at 2. rewrite Hn by (done || lia). done.
Qed.

(** * The canonical text *)
(** Equality of values as Python compares dicts and lists: the order of the keys
    does not matter. *)
Fixpoint same_json (a b : json) {struct a} : bool :=
  match a, b with
  | JArr l, JArr l' =>
      (fix go l l' := match l, l' with
       | [], [] => true
       | x :: l, y :: l' => same_json x y && go l l'
       | _, _ => false
       end) l l'
  | JObj l, JObj l' =>
      (length l =? length l')%nat &&
      (fix go l := match l with
       | [] => true
       | (k, x) :: l => match dget k l' with Some y => same_json x y | None => false end && go l
       end) l
  | _, _ => json_eqb a b
  end.

Lemma insert_member_perm {V} (x : string * V) l : insert_member x l ≡ₚ x :: l.
Proof.
  induction l as [|y l IH]; simpl; [done|]. destruct (str_leb _ _); [done|].
  rewrite IH. apply Permutation_swap.
Qed.
Lemma sort_members_perm {V} (l : list (string * V)) : sort_members l ≡ₚ l.
Proof. induction l as [|x l IH]; simpl; [done|]. by rewrite insert_member_perm, IH. Qed.
Lemma sort_members_sorted {V} (l : list (string * V)) :
  StronglySorted (λ a b, str_leb a.1 b.1 = true) (sort_members l).
Proof.
  induction l as [|x l IH]; simpl; [constructor|]. revert IH. generalize (sort_members l). clear l.
  intros l. induction 1 as [|y l Hs IH Hy]; simpl; [by repeat constructor|].
  destruct (str_leb x.1 y.1) eqn:E.
  - constructor; [by constructor|]. constructor; [done|]. eapply Forall_impl; [exact Hy|]. simpl.
    intros z Hz. by eapply str_leb_trans.
  - constructor; [done|]. rewrite insert_member_perm. constructor; [by apply str_leb_total|done].
Qed.
Lemma str_leb_antisym s t : str_leb s t = true → str_leb t s = true → s = t.
Proof.
  unfold str_leb. rewrite (String.compare_antisym s t).
  destruct (String.compare t s) eqn:E; simpl; try done. intros _ _. symmetry. by apply String.compare_eq_iff.
Qed.
Lemma key_unique {V} (l : list (string * V)) a b : NoDup (dkeys l) → a ∈ l → b ∈ l → a.1 = b.1 → a = b.
Proof.
  unfold dkeys. induction l as [|x l IH]; [by intros _ ?%not_elem_of_nil|].
  rewrite fmap_cons, NoDup_cons, !elem_of_cons. intros [Hx Hl] [->|Ha] [->|Hb] He; eauto; exfalso; apply Hx.
  - rewrite He. by apply list_elem_of_fmap_2.
  - rewrite <- He. by apply list_elem_of_fmap_2.
Qed.
Lemma sort_members_unique {V} (l l' : list (string * V)) : NoDup (dkeys l) → l ≡ₚ l' →
  sort_members l = sort_members l'.
Proof.
  intros Hn Hp. apply (StronglySorted_unique_strong (λ a b, str_leb a.1 b.1 = true)).
  - intros a b. rewrite !sort_members_perm, <- Hp. intros Ha Hb H1 H2.
    eapply key_unique; eauto. by apply str_leb_antisym.
  - apply sort_members_sorted.
  - apply sort_members_sorted.
  - by rewrite !sort_members_perm.
Qed.

Definition sort_value (kv : string * json) : string * json := (kv.1, sort_json kv.2).
Lemma sort_values_keys l : dkeys (List.map sort_value l) = dkeys l.
Proof. unfold dkeys. induction l as [|x l IH]; simpl; [done|]. by f_equal. Qed.
Lemma sort_json_obj l : sort_json (JObj l) = JObj (sort_members (List.map sort_value l)).
Proof. done. Qed.
Lemma same_arr l l' : same_json (JArr l) (JArr l') = true ↔ Forall2 (λ a b, same_json a b = true) l l'.
Proof.
  simpl. revert l'. induction l as [|x l IH]; intros [|y l'].
  1: by split; [intros _; constructor|].
  1-2: split; [done|by inversion 1].
  rewrite andb_true_iff, IH. split; [by intros [? ?]; constructor|by inversion 1].
Qed.
Lemma same_obj l l' : same_json (JObj l) (JObj l') = true ↔
  length l = length l' ∧ Forall (λ kv, ∃ y, dget kv.1 l' = Some y ∧ same_json kv.2 y = true) l.
Proof.
  simpl. rewrite andb_true_iff, Nat.eqb_eq. apply and_iff_compat_l.
  induction l as [|[k x] l IH]; [done|]. rewrite Forall_cons, andb_true_iff, IH. simpl.
  apply and_iff_compat_r. destruct (dget k l') as [y|]; naive_solver.
Qed.

Section Canonical.
Context `{PyFloat}.

Lemma readable_sort j : readable j → readable (sort_json j).
Proof.
  induction j as [ | | | | |l IH|l IH] using json_ind'; try done.
  - rewrite !readable_arr. intros Hl. simpl. apply readable_arr, Forall_map.
    eapply Forall_impl; [exact (proj2 (Forall_and _ _) (conj IH Hl))|]. simpl. naive_solver.
  - rewrite sort_json_obj, !readable_obj. intros [Hn Hl]. split.
    + unfold dkeys. rewrite sort_members_perm. change (NoDup (dkeys (List.map sort_value l))). by rewrite sort_values_keys.
    + rewrite sort_members_perm. apply Forall_map.
      eapply Forall_impl; [exact (proj2 (Forall_and _ _) (conj IH Hl))|]. simpl. naive_solver.
Qed.

Lemma sorted_same j j' : readable j → readable j' → sort_json j = sort_json j' → same_json j j' = true.
Proof.
  revert j'. induction j as [ | | | | |l IH|l IH] using json_ind'; intros j' Hj Hj' E.
  1-5: destruct j'; try done; injection E as ->; exact (proj2 (json_eqb_eq _ _) eq_refl).
  - destruct j' as [ | | | | |l'|]; try done. apply same_arr. rewrite readable_arr in Hj, Hj'.
    injection E as E. revert l' Hj' E. induction IH as [|x l Hx _ IHl]; intros [|y l'] Hj' E; try done.
    rewrite !Forall_cons in *. destruct Hj, Hj'. simplify_eq/=. constructor; [by apply Hx|by apply IHl].
  - destruct j' as [ | | | | | |l']; try done. rewrite !sort_json_obj in E. injection E as E.
    rewrite readable_obj in Hj, Hj'. destruct Hj as [Hn Hj], Hj' as [Hn' Hj'].
    assert (List.map sort_value l ≡ₚ List.map sort_value l') as Hp.
    { by rewrite <- (sort_members_perm (List.map sort_value l)), E, sort_members_perm. }
    apply same_obj. split; [by apply Permutation_length in Hp; rewrite !List.length_map in Hp|].
    rewrite !Forall_forall in *. intros [k v] Hv. simpl.
    assert ((k, sort_json v) ∈ List.map sort_value l') as Hin.
    { rewrite <- Hp. apply list_elem_of_In, in_map_iff. exists (k, v). by rewrite <- list_elem_of_In. }
    apply list_elem_of_In, in_map_iff in Hin as ([k' v'] & Hk & Hv'%list_elem_of_In). unfold sort_value in Hk. simpl in Hk.
    injection Hk as -> Hk.
    exists v'. split; [|by apply (IH (k, v) Hv v' (Hj _ Hv) (Hj' _ Hv'))].
    destruct (dget k l') as [y|] eqn:Ey.
    + apply dget_elem_of in Ey. pose proof (key_unique l' _ _ Hn' Hv' Ey eq_refl). by simplify_eq.
    + apply dget_None in Ey. exfalso. apply Ey. by apply (list_elem_of_fmap_2 fst _ (k, v')).
Qed.

Lemma same_sorted j j' : readable j → readable j' → same_json j j' = true → sort_json j = sort_json j'.
Proof.
  revert j'. induction j as [ | | | | |l IH|l IH] using json_ind'; intros j' Hj Hj' E.
  1-5: by destruct j'; try done; apply json_eqb_eq in E as ->.
  - destruct j' as [ | | | | |l'|]; try done. apply same_arr in E. rewrite readable_arr in Hj, Hj'.
    simpl. f_equal. revert Hj Hj' IH. induction E as [|x y l l' Hxy _ IHl]; [done|].
    rewrite !Forall_cons. intros [Rx Rl] [Ry Rl'] [Hx Hl]. simpl. f_equal; [by apply Hx|by apply IHl].
  - destruct j' as [ | | | | | |l']; try done. apply same_obj in E as [Hlen E]. rewrite !sort_json_obj.
    rewrite readable_obj in Hj, Hj'. destruct Hj as [Hn Hj], Hj' as [Hn' Hj']. f_equal.
    assert (NoDup (List.map sort_value l)) as Hnd.
    { rewrite <- sort_values_keys in Hn. by eapply NoDup_fmap_1. }
    apply sort_members_unique; [by rewrite sort_values_keys|].
    apply submseteq_length_Permutation; [|by rewrite !List.length_map, Hlen].
    apply NoDup_submseteq; [done|]. intros x Hx.
    apply list_elem_of_In, in_map_iff in Hx as ([k v] & <- & Hv%list_elem_of_In).
    rewrite Forall_forall in *. destruct (E _ Hv) as (y & Hy & Hs). simpl in Hy, Hs.
    apply dget_elem_of in Hy as Hin. apply list_elem_of_In, in_map_iff. exists (k, y).
    split; [|by apply list_elem_of_In]. unfold sort_value. simpl. f_equal. symmetry.
    eapply (IH _ Hv); [exact (Hj _ Hv)|exact (Hj' _ Hin)|exact Hs].
Qed.

(** The canonical text tells values apart exactly up to the order of keys. *)
Lemma canonical_same j j' : readable j → readable j' → canonical j = canonical j' ↔ same_json j j' = true.
Proof.
  intros Hj Hj'. unfold canonical, dumps_with. simpl. split.
  - intros E. apply sorted_same; [done..|]. destruct opts_ok_used as (_ & Ho & _).
    apply (f_equal loads) in E. rewrite !loads_print in E by (done || by apply readable_sort). by simplify_eq.
  - intros E. by rewrite (same_sorted j j').
Qed.
End Canonical.

(** * Lists of strings *)
Lemma escape_char_plain c d : c = "]"%char ∨ c = "{"%char → has_char c (escape_char d) = ascii_eqb c d.
Proof. by intros [-> | ->]; destruct d as [[][][][][][][][]]. Qed.
Lemma quote_plain c s : c = "]"%char ∨ c = "{"%char → has_char c (quote s) = has_char c s.
Proof.
  intros Hc. unfold quote. rewrite has_char_cons, has_char_app.
  assert (has_char c (escape s) = has_char c s) as ->.
  { induction s as [|d s IH]; [done|]. cbn [escape]. by rewrite has_char_app, has_char_cons, escape_char_plain, IH. }
  destruct Hc as [-> | ->]; simpl; by rewrite orb_false_r.
Qed.
(** A list of strings prints as brackets around a text without the brackets and
    braces the strings lack. *)
Lemma dumps_jstrs `{PyFloat} l : ∃ inner, dumps (jstrs l) = String "[" (inner +:+ "]") ∧
  ∀ c, c = "]"%char ∨ c = "{"%char → Forall (λ s, has_char c s = false) l → has_char c inner = false.
Proof.
  exists (join ", " (quote <$> l)). split.
  - unfold dumps, dumps_with, jstrs. destruct l as [|x l]; [done|]. simpl.
    assert (List.map (print_json default_opts 1) (JStr <$> l) = quote <$> l) as E
      by (clear; induction l as [|y l IH]; [done|simpl; by f_equal]).
    change (List.map (print_json default_opts 1) (list_fmap string json JStr l)) with
      (List.map (print_json default_opts 1) (JStr <$> l)).
    change (list_fmap string string quote l) with (quote <$> l). by rewrite E.
  - intros c Hc. induction 1 as [|x l Hx _ IH]; [done|]. rewrite fmap_cons.
    destruct (quote <$> l) as [|y l'] eqn:E; [simpl; by rewrite quote_plain|].
    rewrite join_cons, !has_char_app, quote_plain, Hx, IH by done. by destruct Hc as [-> | ->].
Qed.
Lemma readable_jstrs `{PyFloat} l : readable (jstrs l).
Proof. apply readable_arr. apply Forall_fmap. by apply Forall_forall. Qed.
Lemma loads_dumps_jstrs `{PyFloat} l : loads (dumps (jstrs l)) = Some (jstrs l).
Proof. apply loads_print; [apply opts_ok_used|apply readable_jstrs]. Qed.
