(* ===== verification/Logging.v ===== *)
(** [observability/logging.py]: the PII patterns, their removal from a string and
    the structlog processor. *)
From S2P Require Import Prelude PyStr PyDict Templates Json Regex.

Definition letter (c : ascii) : bool := is_upper c || is_lower c.
Definition sep (c : ascii) : bool := ascii_eqb c "-" || ascii_eqb c "." || is_space c.
Definition digits (lo : nat) (hi : option nat) : item := Rep is_digit lo hi.

(** [-?\d{1,3}\.\d{4,}\s*,\s*-?\d{1,3}\.\d{4,}]. *)
Definition coordinate : regex := [maybe (chr "-"); digits 1 (Some 3%nat); one (chr "."); digits 4 None].
Definition GEO : regex :=
  coordinate ++ [Rep is_space 0 None; one (chr ","); Rep is_space 0 None] ++ coordinate.
(** [\+?\d{1,3}[-.\s]?\(?\d{1,4}\)?[-.\s]?\d{3,4}[-.\s]?\d{4}]. *)
Definition PHONE : regex :=
  [maybe (chr "+"); digits 1 (Some 3%nat); maybe sep; maybe (chr "("); digits 1 (Some 4%nat);
   maybe (chr ")"); maybe sep; digits 3 (Some 4%nat); maybe sep; digits 4 (Some 4%nat)].
(** [[A-Za-z0-9._%+-]+@[A-Za-z0-9.-]+\.[A-Za-z]{2,}]. *)
Definition EMAIL : regex :=
  [many (λ c, letter c || is_digit c || chars "._%+-" c); one (chr "@");
   many (λ c, letter c || is_digit c || chars ".-" c); one (chr "."); Rep letter 2 None].
(** [\b\d{3}-\d{2}-\d{4}\b]. *)
Definition ssn_body : regex :=
  [digits 3 (Some 3%nat); one (chr "-"); digits 2 (Some 2%nat); one (chr "-"); digits 4 (Some 4%nat)].
Definition SSN : regex := Bound :: ssn_body ++ [Bound].
Definition PII_PATTERNS : list regex := [GEO; PHONE; EMAIL; SSN].

Definition REDACTED : string := "[redacted]".
(** [_strip_pii] on a string, and on any value. *)
Definition strip_pii (s : string) : string := foldl (λ s r, sub r REDACTED s) s PII_PATTERNS.
Definition strip_value (j : json) : json :=
  match j with JStr s => JStr (strip_pii s) | _ => j end.
(** [_pii_processor]. *)
Definition process_value (v : json) : json :=
  match v with
  | JStr s => JStr (strip_pii s)
  | JObj o => JObj ((λ kv, (kv.1, strip_value kv.2)) <$> o)
  | _ => v
  end.
Definition pii_processor (event : list (string * json)) : list (string * json) :=
  (λ kv, (kv.1, process_value kv.2)) <$> event.

(** * What is stripped *)
Definition pii_free (s : string) : Prop := Forall (λ r, search_re r s = false) PII_PATTERNS.

Definition plain_patterns : list regex := [GEO; PHONE; EMAIL].
Lemma plain_ok : Forall (λ r, bound_free r = true ∧ rmatch r None "" = None ∧ avoids "[" r = true ∧
  avoids "]" r = true ∧ found r None "redacted" = false) plain_patterns.
Proof. repeat (apply Forall_cons_2; [by vm_compute|]). by apply Forall_nil_2. Qed.
Lemma ssn_words p t : accepts ssn_body t → word_at (shead t) = true ∧ word_at (prev_after p t) = true.
Proof.
  assert (∀ a q, sall is_digit a = true → a ≠ "" → word_at (shead a) = true ∧ word_at (prev_after q a) = true)
    as Hd.
  { intros a q Ha Hne. destruct a as [|c a]; [done|]. clear Hne. simpl in Ha. apply andb_true_iff in Ha as [Hc Ha].
    assert (∀ c, is_digit c = true → is_word_char c = true) as Hw by (unfold is_word_char; by intros ? ->).
    split; [by apply Hw|]. cbn [prev_after]. revert c Hc. induction a as [|d a IH]; intros c Hc; [by apply Hw|].
    simpl in Ha. apply andb_true_iff in Ha as [Hdd Ha]. cbn [prev_after]. by apply IH. }
  intros (a1 & b1 & -> & H1 & L1 & _ & a2 & b2 & -> & _ & _ & _ & a3 & b3 & -> & _ & _ & _ &
    a4 & b4 & -> & _ & _ & _ & a5 & b5 & -> & H5 & L5 & _ & ->).
  split.
  - destruct (Hd a1 p H1) as [Hh _]; [by intros ->; simpl in L1; lia|]. destruct a1; [done|]. by sapp.
  - rewrite !prev_after_app. simpl. apply Hd; [done|]. intros ->. simpl in L5. lia.
Qed.

Lemma sub_keeps r r2 s : r ∈ plain_patterns → search_re r s = false → search_re r (sub r2 REDACTED s) = false.
Proof.
  intros Hr. pose proof plain_ok as Hok. rewrite Forall_forall in Hok.
  destruct (Hok r Hr) as (H1 & H2 & H3 & H4 & H5).
  by apply (sub_keeps_clean r H1 H2 "[" "]" "redacted" H3 H4 H5).
Qed.
Lemma sub_strips r s : r ∈ plain_patterns → search_re r (sub r REDACTED s) = false.
Proof.
  intros Hr. pose proof plain_ok as Hok. rewrite Forall_forall in Hok.
  destruct (Hok r Hr) as (H1 & H2 & H3 & H4 & H5).
  by apply (sub_clean r H1 H2 "[" "]" "redacted" H3 H4 H5).
Qed.
Lemma sub_strips_ssn s : search_re SSN (sub SSN REDACTED s) = false.
Proof. by apply (bounded_clean ssn_body eq_refl eq_refl ssn_words "[" "]" "redacted"). Qed.
Lemma strip_pii_free s : pii_free (strip_pii s).
Proof.
  unfold strip_pii, PII_PATTERNS. cbn [foldl].
  repeat apply Forall_cons_2; [..|apply sub_strips_ssn|apply Forall_nil_2];
    repeat (first [apply sub_strips|apply sub_keeps]); unfold plain_patterns; rewrite ?elem_of_cons; tauto.
Qed.
(** Text without a match is left alone. *)
Lemma sub_identity n r repl p s : found r p s = false → sub_fuel n r repl p s = s.
Proof.
  revert p s. induction n as [|n IH]; intros p [|c s] Hf; try done. apply found_false in Hf as [Hm Hf].
  cbn [sub_fuel]. destruct (rmatch r p (String c s)); [by destruct Hm|]. by rewrite IH.
Qed.
Lemma strip_pii_id s : pii_free s → strip_pii s = s.
Proof.
  unfold pii_free, strip_pii. generalize PII_PATTERNS. induction 1 as [|r l Hr _ IH]; [done|]. simpl.
  unfold sub at 2. rewrite sub_identity by done. exact IH.
Qed.

(** C19. Redaction is complete and stable: the redacted text of any string contains
    no coordinate pair, phone number, e-mail address or social security number in
    the sense of the four patterns, redacting it again changes nothing, and a text
    without any of them is left as it is. *)
Theorem strip_pii_complete (s : string) :
  pii_free (strip_pii s) ∧ strip_pii (strip_pii s) = strip_pii s ∧ (pii_free s → strip_pii s = s).
Proof. split_and!; [apply strip_pii_free|apply strip_pii_id, strip_pii_free|apply strip_pii_id]. Qed.

(** The log processor strips every string it reaches: in a processed event
    every top-level string and every string directly inside a top-level dict is
    free of PII, keys and other values are unchanged. *)
Theorem pii_processor_strips (event : list (string * json)) (k : string) (v : json) :
  (k, v) ∈ pii_processor event →
  match v with
  | JStr s => pii_free s
  | JObj o => ∀ k' s, (k', JStr s) ∈ o → pii_free s
  | _ => (k, v) ∈ event
  end.
Proof.
  intros ([k0 v0] & E & Hin)%list_elem_of_fmap. injection E as -> ->. destruct v0; simpl; try done.
  - apply strip_pii_free.
  - intros k' s ([k1 v1] & E & _)%list_elem_of_fmap. injection E as -> E.
    destruct v1; simpl in E; try done. injection E as ->. apply strip_pii_free.
Qed.

Lemma pii_processor_strips_witness :
  pii_free "contact [redacted]" ∧
  ("value", JStr "contact [redacted]") ∈ pii_processor [("value", JStr "contact support@example.com")].
Proof.
  split.
  - apply (pii_processor_strips [("value", JStr "contact support@example.com")] "value"
      (JStr "contact [redacted]")).
    vm_compute. left.
  - vm_compute. left.
Defined.

(** The processor does not look inside lists or below the first level. *)
Example pii_processor_misses_nested :
  pii_processor [("errors", JArr [JStr "support@example.com"])] =
    [("errors", JArr [JStr "support@example.com"])] ∧
  search_re EMAIL "support@example.com" = true.
Proof. by vm_compute. Qed.

(** The fixtures of [scripts/check_log_pii.py]. *)
Example pii_fixtures :
  strip_pii "contact: support@example.com please respond" = "contact: [redacted] please respond" ∧
  strip_pii "call us at +1 202 555 0100 today" = "call us at [redacted] today" ∧
  strip_pii "coords 47.6062, -122.3321 captured" = "coords [redacted] captured" ∧
  strip_pii "ssn 123-45-6789 on file" = "ssn [redacted] on file" ∧
  strip_pii "policy-2026-05-11-001" = "policy-2026-05-11-001" ∧
  strip_pii "VIN-1HGCM82633A123456" = "VIN-1HGCM82633A123456".
Proof. by vm_compute. Qed.
(** A numeric identifier of nine digits is taken for a phone number. *)
Example numeric_id_redacted : strip_pii "vehicle 123456789" = "vehicle [redacted]".
Proof. by vm_compute. Qed.
