(* ===== verification/Encoding.v ===== *)
(** Bytes as text: [int.to_bytes] and [int.bit_length], and
    [base64.urlsafe_b64encode], with the readers of RFC 7515 and RFC 7518 (padding
    left off) they are inverse to.  A byte string is a [string]. *)
From S2P Require Import Prelude PyStr.
Local Open Scope Z_scope.

Definition byte (n : Z) : ascii := ascii_of_nat (Z.to_nat (n mod 256)).
Definition ord (c : ascii) : Z := Z.of_nat (code c).

(** * Big-endian integers *)
(** [n.bit_length()], of a non-negative integer. *)
Definition bit_length (n : Z) : Z := if n =? 0 then 0 else Z.log2 n + 1.
(** [n.to_bytes(len, "big")], of an integer that fits. *)
Fixpoint to_bytes (len : nat) (n : Z) : string :=
  match len with
  | O => ""
  | S k => to_bytes k (n / 256) +:+ String (byte n) ""
  end.
(** [int.from_bytes(s, "big")]. *)
Fixpoint from_bytes_acc (acc : Z) (s : string) : Z :=
  match s with "" => acc | String c s' => from_bytes_acc (256 * acc + ord c) s' end.
Definition from_bytes (s : string) : Z := from_bytes_acc 0 s.

(** * Base64 with the URL-safe alphabet *)
Definition alphabet : string :=
  "ABCDEFGHIJKLMNOPQRSTUVWXYZabcdefghijklmnopqrstuvwxyz0123456789-_".
Definition sextet (n : Z) : ascii := default "="%char (String.get (Z.to_nat (n mod 64)) alphabet).
Fixpoint index_of (c : ascii) (s : string) (i : Z) : option Z :=
  match s with "" => None | String d s' => if ascii_eqb c d then Some i else index_of c s' (i + 1) end.
Definition sextet_value (c : ascii) : option Z := index_of c alphabet 0.

(** [base64.urlsafe_b64encode]. *)
Fixpoint urlsafe_b64encode (s : string) : string :=
  match s with
  | "" => ""
  | String a "" => let v := ord a * 65536 in
      String (sextet (v / 262144)) (String (sextet (v / 4096)) "==")
  | String a (String b "") => let v := ord a * 65536 + ord b * 256 in
      String (sextet (v / 262144)) (String (sextet (v / 4096)) (String (sextet (v / 64)) "="))
  | String a (String b (String c s')) => let v := ord a * 65536 + ord b * 256 + ord c in
      String (sextet (v / 262144)) (String (sextet (v / 4096)) (String (sextet (v / 64))
        (String (sextet v) (urlsafe_b64encode s'))))
  end.
(** Reading unpadded text back. *)
Fixpoint b64url_decode (s : string) : option string :=
  match s with
  | "" => Some ""
  | String a (String b "") =>
      x ← sextet_value a; y ← sextet_value b;
      Some (String (byte ((x * 262144 + y * 4096) / 65536)) "")
  | String a (String b (String c "")) =>
      x ← sextet_value a; y ← sextet_value b; z ← sextet_value c;
      let v := x * 262144 + y * 4096 + z * 64 in
      Some (String (byte (v / 65536)) (String (byte (v / 256)) ""))
  | String a (String b (String c (String d s'))) =>
      x ← sextet_value a; y ← sextet_value b; z ← sextet_value c; t ← sextet_value d;
      let v := x * 262144 + y * 4096 + z * 64 + t in
      rest ← b64url_decode s';
      Some (String (byte (v / 65536)) (String (byte (v / 256)) (String (byte v) rest)))
  | _ => None
  end.

(** * Facts *)
Lemma ord_range c : 0 ≤ ord c < 256.
Proof. unfold ord, code. pose proof (nat_ascii_bounded c). lia. Qed.
Lemma ord_byte n : ord (byte n) = n mod 256.
Proof.
  unfold ord, code, byte. pose proof (Z.mod_pos_bound n 256 ltac:(lia)).
  rewrite nat_ascii_embedding by lia. lia.
Qed.
Lemma byte_ord c : byte (ord c) = c.
Proof.
  unfold byte. pose proof (ord_range c). rewrite Z.mod_small by done. unfold ord, code.
  by rewrite Nat2Z.id, ascii_nat_embedding.
Qed.
Lemma byte_eq n c : n mod 256 = ord c → byte n = c.
Proof. intros E. rewrite <- (byte_ord c). unfold byte. by rewrite E, (Z.mod_small (ord c)) by apply ord_range. Qed.

Lemma sextets_ok : forallb (λ n, match sextet_value (sextet (Z.of_nat n)) with
  | Some m => (m =? Z.of_nat n) && negb (ascii_eqb (sextet (Z.of_nat n)) "=")
  | None => false end) (seq 0 64) = true.
Proof. vm_compute. reflexivity. Qed.
Lemma sextet_mod n : sextet n = sextet (Z.of_nat (Z.to_nat (n mod 64))).
Proof.
  pose proof (Z.mod_pos_bound n 64 ltac:(lia)). rewrite Z2Nat.id by lia. unfold sextet. by rewrite Z.mod_mod.
Qed.
Lemma sextet_ok n : sextet_value (sextet n) = Some (n mod 64) ∧ sextet n ≠ "="%char.
Proof.
  pose proof (Z.mod_pos_bound n 64 ltac:(lia)) as Hn. pose proof sextets_ok as Hok.
  rewrite forallb_forall in Hok. specialize (Hok (Z.to_nat (n mod 64))).
  rewrite in_seq in Hok. specialize (Hok ltac:(lia)). rewrite <- sextet_mod in Hok.
  destruct (sextet_value (sextet n)) as [m|]; [|done]. apply andb_true_iff in Hok as [Hm Hc].
  apply Z.eqb_eq in Hm. split; [f_equal; lia|]. intros E. by rewrite E in Hc.
Qed.
Lemma sextet_read n : sextet_value (sextet n) = Some (n mod 64).
Proof. apply sextet_ok. Qed.
Lemma sextet_no_pad n : sextet n ≠ "="%char.
Proof. apply sextet_ok. Qed.

Lemma rstrip_other c a s : a ≠ c → rstrip_char c (String a s) = String a (rstrip_char c s).
Proof.
  intros Hne. unfold rstrip_char. cbn [rstrip_by].
  destruct (ascii_eqb c a) eqn:E; [apply Ascii.eqb_eq in E; congruence|].
  by destruct (rstrip_by (ascii_eqb c) s).
Qed.

(** What one group of four characters stands for. *)
Lemma group_bytes a b c : 0 ≤ a < 256 → 0 ≤ b < 256 → 0 ≤ c < 256 →
  let v := a * 65536 + b * 256 + c in
  (v / 262144) mod 64 * 262144 + (v / 4096) mod 64 * 4096 + (v / 64) mod 64 * 64 + v mod 64 = v.
Proof. intros. subst v. Z.to_euclidean_division_equations; lia. Qed.

(** Text encoded and stripped of its padding decodes to the bytes it was made of. *)
Lemma b64url_roundtrip s : b64url_decode (rstrip_char "=" (urlsafe_b64encode s)) = Some s.
Proof.
  remember (String.length s) as n eqn:Hn. revert s Hn.
  induction (lt_wf n) as [n _ IH]. intros [|a [|b [|c s]]] ->; [reflexivity|..];
    cbn [urlsafe_b64encode]; rewrite !rstrip_other by apply sextet_no_pad.
  - change (rstrip_char "=" "==") with "". cbn [b64url_decode]. rewrite !sextet_read. simpl.
    pose proof (ord_range a) as Ha. pose proof (group_bytes (ord a) 0 0) as G.
    do 2 f_equal. apply byte_eq. Z.to_euclidean_division_equations; lia.
  - change (rstrip_char "=" "=") with "". cbn [b64url_decode]. rewrite !sextet_read. simpl.
    pose proof (ord_range a) as Ha. pose proof (ord_range b) as Hb.
    pose proof (group_bytes (ord a) (ord b) 0 Ha Hb ltac:(lia)) as G. cbv zeta in G.
    replace ((ord a * 65536 + ord b * 256 + 0) mod 64) with 0 in G
      by (Z.to_euclidean_division_equations; lia).
    rewrite !Z.add_0_r in G. rewrite G.
    f_equal. f_equal; [|f_equal]; apply byte_eq; clear; pose proof (ord_range a); pose proof (ord_range b);
      Z.to_euclidean_division_equations; lia.
  - specialize (IH (String.length s) ltac:(simpl; lia) s eq_refl).
    cbn [b64url_decode]. rewrite !sextet_read. simpl. rewrite IH. simpl.
    pose proof (ord_range a) as Ha. pose proof (ord_range b) as Hb. pose proof (ord_range c) as Hc.
    pose proof (group_bytes (ord a) (ord b) (ord c) Ha Hb Hc) as G. cbv zeta in G. rewrite G.
    f_equal. f_equal; [|f_equal; [|f_equal]]; apply byte_eq; clear -Ha Hb Hc;
      Z.to_euclidean_division_equations; lia.
Qed.

Lemma from_bytes_acc_app acc s t : from_bytes_acc acc (s +:+ t) = from_bytes_acc (from_bytes_acc acc s) t.
Proof. revert acc. induction s as [|c s IH]; intros acc; [done|]. simpl. apply IH. Qed.
Lemma from_to_bytes len n : 0 ≤ n < 256 ^ Z.of_nat len → from_bytes (to_bytes len n) = n.
Proof.
  revert n. induction len as [|k IH]; intros n Hn; [change (Z.of_nat 0) with 0 in Hn; change (from_bytes (to_bytes 0 n)) with 0; lia|].
  cbn [to_bytes]. unfold from_bytes in *. rewrite from_bytes_acc_app. simpl. rewrite ord_byte.
  rewrite Nat2Z.inj_succ, Z.pow_succ_r in Hn by lia.
  rewrite IH; [Z.to_euclidean_division_equations; lia|].
  split; [apply Z.div_pos; lia|]. apply Z.div_lt_upper_bound; lia.
Qed.
(** [n.to_bytes((n.bit_length() + 7) // 8, "big")] is read back as [n]. *)
Definition int_bytes (n : Z) : string := to_bytes (Z.to_nat ((bit_length n + 7) / 8)) n.
Lemma int_bytes_roundtrip n : 0 ≤ n → from_bytes (int_bytes n) = n.
Proof.
  intros Hn. apply from_to_bytes. split; [done|]. unfold bit_length. destruct (Z.eqb_spec n 0) as [->|Hne].
  { simpl. lia. }
  pose proof (Z.log2_spec n ltac:(lia)) as [_ Hlt]. pose proof (Z.log2_nonneg n).
  change 256 with (2 ^ 8). rewrite <- Z.pow_mul_r by lia. eapply Z.lt_le_trans; [exact Hlt|].
  apply Z.pow_le_mono_r; [lia|]. rewrite Z2Nat.id by (apply Z.div_pos; lia).
  Z.to_euclidean_division_equations; lia.
Qed.
