(* ===== verification/Listener.v ===== *)
(** [ratelimit/config_cache.py]: the life cycle of [TenantConfigCacheConsumer], the
    task that listens for configuration changes, with its reconnection loop.  The
    notification handler is [TenantConfig.on_notify].

    The task is a state machine between its suspension points; an event is what
    the server or the clock does to it there. *)
From S2P Require Import Prelude PyStr.
Local Open Scope Z_scope.

(** Where the coroutine [_run_forever] is suspended, with its local [backoff] in
    seconds. *)
Inductive phase := Connecting (backoff : Z) | Parked (backoff : Z) | Sleeping (backoff : Z).

(** [cs_conn] is [self._conn]: whether the connection object is still open. *)
Record consumer := Consumer { cs_stopping : bool; cs_conn : option bool; cs_task : option phase }.
Definition new_consumer : consumer := Consumer false None None.

Inductive event :=
| ConnectOk                              (** connected and listening *)
| ConnectFail                            (** [asyncpg.connect] raises *)
| ListenFail (closed : bool)             (** [add_listener] raises; whether the connection is gone *)
| WakeUp                                 (** the sleep is over *)
| Drop                                   (** the server closes the connection *)
| Notify (payload : string).             (** a notification on the channel *)

(** What the task does: connections opened and closed (or lost to the server),
    seconds slept, cache entries invalidated. *)
Inductive action := Opened | Closed | Lost | Slept (seconds : Z) | Invalidated (tenant_id : string).

(** The [except Exception] branch, up to its [sleep]. *)
Definition on_error (c : consumer) (backoff : Z) : consumer * list action :=
  match cs_conn c with
  | Some true => (Consumer (cs_stopping c) None (Some (Sleeping backoff)), [Closed; Slept backoff])
  | _ => (Consumer (cs_stopping c) (cs_conn c) (Some (Sleeping backoff)), [Slept backoff])
  end.

(** One resumption of the task; [None] if the event cannot happen in this state. *)
Definition react (c : consumer) (e : event) : option (consumer * list action) :=
  match cs_task c, e with
  | Some (Connecting _), ConnectOk =>
      Some (Consumer (cs_stopping c) (Some true) (Some (Parked 1)), [Opened])
  | Some (Connecting b), ConnectFail => Some (on_error c b)
  | Some (Connecting b), ListenFail closed =>
      let '(c', acts) := on_error (Consumer (cs_stopping c) (Some (negb closed)) (cs_task c)) b in
      Some (c', Opened :: (if closed then [Lost] else []) ++ acts)
  | Some (Sleeping b), WakeUp =>
      Some (Consumer (cs_stopping c) (cs_conn c)
        (if cs_stopping c then None else Some (Connecting (Z.min (b * 2) 30))), [])
  | Some (Parked b), Drop =>
      match cs_conn c with
      | Some true => Some (Consumer (cs_stopping c) (Some false) (Some (Parked b)), [Lost])
      | _ => None
      end
  | Some (Parked _), Notify payload =>
      match cs_conn c with
      | Some true => Some (c, if nonempty payload then [Invalidated payload] else [])
      | _ => None
      end
  | _, _ => None
  end.

(** [start]. *)
Definition start (c : consumer) : consumer :=
  match cs_task c with
  | Some _ => c
  | None => Consumer false (cs_conn c) (Some (Connecting 1))
  end.
(** [stop]: cancels the task wherever it is suspended and closes the connection. *)
Definition stop (c : consumer) : consumer * list action :=
  match cs_conn c with
  | Some true => (Consumer true None None, [Closed])
  | conn => (Consumer true conn None, [])
  end.

(** Calls of the application and events, in sequence. *)
Inductive op := Start | Stop | Event (e : event).
Definition apply_op (c : consumer) (o : op) : option (consumer * list action) :=
  match o with Start => Some (start c, []) | Stop => Some (stop c) | Event e => react c e end.
Fixpoint runs (c : consumer) (os : list op) : option (consumer * list action) :=
  match os with
  | [] => Some (c, [])
  | o :: os' => '(c1, a1) ← apply_op c o; '(c2, a2) ← runs c1 os'; Some (c2, a1 ++ a2)
  end.

(** * The reconnection delays *)
Definition sleeps (acts : list action) : list Z :=
  omap (λ a, match a with Slept s => Some s | _ => None end) acts.
Definition failed (e : event) : bool := match e with ConnectFail | ListenFail _ => true | _ => false end.
Definition failures (es : list event) : nat := length (List.filter failed es).
(** The delay after the [k]-th failure, from 0: two to the [k], 30 seconds at most. *)
Definition delay (k : nat) : Z := Z.min (2 ^ Z.of_nat k) 30.

(** [k] failures so far. *)
Definition waits (k : nat) (c : consumer) : Prop :=
  match cs_task c with
  | Some (Connecting b) => b = delay k
  | Some (Sleeping b) => ∃ j, k = S j ∧ b = delay j
  | _ => True
  end.
Lemma double_delay k : Z.min (delay k * 2) 30 = delay (S k).
Proof. unfold delay. rewrite Nat2Z.inj_succ, Z.pow_succ_r by lia. lia. Qed.
Lemma sleeps_app a b : sleeps (a ++ b) = sleeps a ++ sleeps b.
Proof. apply omap_app. Qed.

(** One resumption: a failure sleeps once, nothing else sleeps. *)
Lemma react_delays k c e c' acts : waits k c → react c e = Some (c', acts) →
  waits (k + failures [e]) c' ∧ sleeps acts = delay <$> seq k (failures [e]).
Proof.
  unfold waits, react, on_error, failures. destruct c as [st conn [[b|b|b]|]]; destruct e as [ | |closed| | |payload];
    simpl; intros Hk E; try done; rewrite ?Nat.add_0_r, ?Nat.add_1_r.
  - by simplify_eq.
  - destruct conn as [[]|]; simplify_eq/=; (split; [by exists k|done]).
  - destruct closed; simplify_eq/=; (split; [by exists k|done]).
  - by destruct conn as [[]|]; simplify_eq/=.
  - destruct conn as [[]|]; simplify_eq/=. by destruct (nonempty payload).
  - destruct Hk as (j & -> & ->). simplify_eq/=. split; [|done]. destruct st; simpl; [done|]. apply double_delay.
Qed.
Lemma runs_cons c e es c' acts : runs c (Event <$> e :: es) = Some (c', acts) →
  ∃ c1 a1 a2, react c e = Some (c1, a1) ∧ runs c1 (Event <$> es) = Some (c', a2) ∧ acts = a1 ++ a2.
Proof.
  rewrite fmap_cons. cbn [runs apply_op]. destruct (react c e) as [[c1 a1]|] eqn:Er; [|done]. simpl.
  destruct (runs c1 (Event <$> es)) as [[c2 a2]|] eqn:E2; [|done]. simpl. intros [= <- <-].
  by exists c1, a1, a2.
Qed.
Lemma runs_delays k c es c' acts : waits k c → runs c (Event <$> es) = Some (c', acts) →
  sleeps acts = delay <$> seq k (failures es).
Proof.
  revert k c acts. induction es as [|e es IH]; intros k c acts Hk E; [by simplify_eq/=|].
  apply runs_cons in E as (c1 & a1 & a2 & Er & E2 & ->).
  destruct (react_delays _ _ _ _ _ Hk Er) as (Hk' & Hd). rewrite sleeps_app, Hd, (IH _ _ _ Hk' E2).
  rewrite <- fmap_app, <- seq_app. by destruct (failed e) eqn:He; unfold failures; simpl; rewrite He.
Qed.

(** A parked task stays parked. *)
Lemma parked_runs b c es c' acts : cs_task c = Some (Parked b) → runs c (Event <$> es) = Some (c', acts) →
  cs_task c' = Some (Parked b) ∧ Forall (λ e, e = Drop ∨ ∃ p, e = Notify p) es ∧
  List.filter (λ a, match a with Opened | Slept _ => true | _ => false end) acts = [].
Proof.
  revert c acts. induction es as [|e es IH]; intros c acts Hc E; [by simplify_eq/=|].
  apply runs_cons in E as (c1 & a1 & a2 & Er & E2 & ->).
  assert (cs_task c1 = Some (Parked b) ∧ (e = Drop ∨ ∃ p, e = Notify p) ∧
    List.filter (λ a, match a with Opened | Slept _ => true | _ => false end) a1 = []) as (H1 & He & Ha).
  { unfold react in Er. rewrite Hc in Er. destruct c as [st conn task]. simpl in *. subst task.
    destruct e; try done; destruct conn as [[]|]; simplify_eq/=; try (split_and!; eauto; done).
    split_and!; eauto. by destruct (nonempty payload). }
  destruct (IH _ _ H1 E2) as (? & ? & Ha2). rewrite List.filter_app, Ha, Ha2. split_and!; [done| |done].
  by constructor.
Qed.
Lemma runs_split c pre post c' acts : runs c (Event <$> pre ++ post) = Some (c', acts) →
  ∃ c1 a1 a2, runs c (Event <$> pre) = Some (c1, a1) ∧ runs c1 (Event <$> post) = Some (c', a2) ∧ acts = a1 ++ a2.
Proof.
  revert c acts. induction pre as [|e pre IH]; intros c acts E; [by exists c, [], acts|].
  apply runs_cons in E as (c1 & a1 & a2 & Er & E2 & ->). apply IH in E2 as (c2 & a3 & a4 & E3 & E4 & ->).
  exists c2, (a1 ++ a3), a4. rewrite app_assoc. split_and!; [|done..].
  rewrite fmap_cons. cbn [runs apply_op]. rewrite Er. simpl. by rewrite E3.
Qed.

(** C28. The life of the listener task, from its start and until it is stopped.  While it has
    no connection, each failure to connect or to listen is followed by one sleep,
    and the sleeps are 1, 2, 4, ... seconds, doubling, 30 at most; nothing else sleeps.  Once it listens, its backoff is back at 1 second and it stays
    parked for good: whatever follows is a notification or the loss of the connection, and
    the task neither sleeps nor opens a connection again; in particular it does not
    reconnect after a loss. *)
Theorem reconnect_delays (es : list event) (c : consumer) (acts : list action) :
  runs (start new_consumer) (Event <$> es) = Some (c, acts) →
  sleeps acts = delay <$> seq 0 (failures es) ∧ Forall (λ s, 1 ≤ s ≤ 30) (sleeps acts) ∧
  ∀ pre post, es = pre ++ ConnectOk :: post →
    cs_task c = Some (Parked 1) ∧ Forall (λ e, e = Drop ∨ ∃ p, e = Notify p) post ∧
    ∃ c0 acts0 acts1, runs (start new_consumer) (Event <$> pre ++ [ConnectOk]) = Some (c0, acts0) ∧
      acts = acts0 ++ acts1 ∧
      List.filter (λ a, match a with Opened | Slept _ => true | _ => false end) acts1 = [].
Proof.
  intros E. assert (sleeps acts = delay <$> seq 0 (failures es)) as Hs
    by exact (runs_delays 0 (start new_consumer) es c acts eq_refl E).
  split_and!; [done| |].
  - rewrite Hs. apply Forall_fmap, Forall_true. intros k. simpl. unfold delay.
    pose proof (Z.pow_pos_nonneg 2 (Z.of_nat k) ltac:(lia) ltac:(lia)). lia.
  - intros pre post ->. replace (pre ++ ConnectOk :: post) with ((pre ++ [ConnectOk]) ++ post) in E
      by (by rewrite <- app_assoc).
    apply runs_split in E as (c0 & a0 & a1 & E0 & E1 & ->).
    assert (cs_task c0 = Some (Parked 1)) as Hp.
    { pose proof E0 as E0'. apply runs_split in E0' as (c2 & a2 & a3 & _ & E3 & _).
      apply runs_cons in E3 as (c3 & a4 & a5 & Er & [= <- <-] & _). unfold react in Er.
      destruct c2 as [st conn [[]|]]; by simplify_eq/=. }
    destruct (parked_runs 1 c0 post c a1 Hp E1) as (? & ? & ?). split_and!; [done..|]. by exists c0, a0, a1.
Qed.

Lemma reconnect_delays_witness :
  sleeps (Slept 1 :: Slept 2 :: Opened :: Closed :: Slept 4 :: Opened :: []) = [1; 2; 4] ∧
  Forall (λ s, 1 ≤ s ≤ 30) [1; 2; 4].
Proof.
  destruct (reconnect_delays [ConnectFail; WakeUp; ConnectFail; WakeUp; ListenFail false; WakeUp; ConnectOk]
    (Consumer false (Some true) (Some (Parked 1))) [Slept 1; Slept 2; Opened; Closed; Slept 4; Opened]) as (A & B & _).
  - vm_compute. reflexivity.
  - split; [exact A|exact B].
Defined.

(** * Connections *)
Definition count_actions (p : action → bool) (acts : list action) : nat := length (List.filter p acts).
Definition is_opened (a : action) : bool := match a with Opened => true | _ => false end.
Definition is_gone (a : action) : bool := match a with Closed | Lost => true | _ => false end.
Definition held (c : consumer) : nat := match cs_conn c with Some true => 1 | _ => 0 end.

(** An open connection is held by a parked task or by a stopped one's caller. *)
Definition holding_ok (c : consumer) : Prop := cs_conn c = Some true → ∃ b, cs_task c = Some (Parked b).

Lemma op_connections c o c' acts : holding_ok c → apply_op c o = Some (c', acts) →
  holding_ok c' ∧ (held c + count_actions is_opened acts = held c' + count_actions is_gone acts)%nat.
Proof.
  unfold holding_ok, held, apply_op, start, stop, react, on_error, count_actions.
  destruct c as [st conn task]; simpl. intros Hc E.
  destruct o as [| |[ | |closed| | |payload]]; destruct task as [[b|b|b]|]; destruct conn as [[]|];
    try destruct closed; try destruct (nonempty payload); try destruct st; simplify_eq/=; try done;
    first [by destruct (Hc eq_refl) | eauto].
Qed.
Lemma count_app p a b : count_actions p (a ++ b) = (count_actions p a + count_actions p b)%nat.
Proof. unfold count_actions. by rewrite List.filter_app, length_app. Qed.
Lemma runs_connections c os c' acts : holding_ok c → runs c os = Some (c', acts) →
  holding_ok c' ∧ (held c + count_actions is_opened acts = held c' + count_actions is_gone acts)%nat.
Proof.
  revert c acts. induction os as [|o os IH]; intros c acts Hc E; [by simplify_eq/=|].
  cbn [runs] in E. destruct (apply_op c o) as [[c1 a1]|] eqn:E1; [|done]. simpl in E.
  destruct (runs c1 os) as [[c2 a2]|] eqn:E2; [|done]. simplify_eq/=.
  destruct (op_connections _ _ _ _ Hc E1) as [Hc1 H1]. destruct (IH _ _ Hc1 E2) as [Hc2 H2].
  split; [done|]. rewrite !count_app. lia.
Qed.

(** No connection leaks: over any sequence of starts, stops and events, every
    connection opened was closed or lost except at most one, which the consumer
    still holds while its task is parked on it; after a stop none is left. *)
Theorem listener_connections (os : list op) (c : consumer) (acts : list action) :
  runs new_consumer os = Some (c, acts) →
  (count_actions is_opened acts = count_actions is_gone acts + held c)%nat ∧ (held c ≤ 1)%nat ∧
  (held c = 1%nat → ∃ b, cs_task c = Some (Parked b)) ∧
  (held (stop c).1 = 0%nat).
Proof.
  intros E. destruct (runs_connections new_consumer os c acts) as [Hc H]; [done|done|].
  unfold held in *. simpl in H. split_and!; [lia|repeat case_match; lia| |].
  - intros Hh. apply Hc. by repeat case_match.
  - unfold stop. by repeat case_match.
Qed.

Lemma listener_connections_witness :
  let c := Consumer false (Some true) (Some (Parked 1)) in
  runs new_consumer [Start; Event (ListenFail false); Event WakeUp; Event ConnectOk] =
    Some (c, [Opened; Closed; Slept 1; Opened]) ∧ (held (stop c).1 = 0%nat).
Proof.
  split; [vm_compute; reflexivity|].
  apply (listener_connections [Start; Event (ListenFail false); Event WakeUp; Event ConnectOk]
    (Consumer false (Some true) (Some (Parked 1))) [Opened; Closed; Slept 1; Opened]).
  vm_compute. reflexivity.
Defined.

(** * A dropped connection goes unnoticed *)
(** The parked task waits for an event nobody sets: once the server has dropped the
    connection nothing resumes it, no notification arrives and a second [start]
    does nothing; only [stop] followed by [start] listens again. *)
Theorem dropped_listener_deaf (c c' : consumer) (acts : list action) :
  react c Drop = Some (c', acts) → (∀ e, react c' e = None) ∧ start c' = c'.
Proof.
  unfold react. destruct c as [st conn [[]|]]; simpl; try done. destruct conn as [[]|]; simpl; try done.
  intros E. simplify_eq. by split; [intros []|].
Qed.
