(* ===== verification/PromptText.v ===== *)
(** The two prompt templates under [prompts/policy_generator/v1.0.0/], as texts
    and as templates with holes. *)
From S2P Require Import Prelude PyStr Templates JsonText.

Definition system_text : string :=
"You are CollectMind's Policy Generator. Your job is to produce a typed `CollectionPolicySpec` JSON object that, when deployed by Sonatus Collector AI, gathers exactly the telemetry needed to confirm or rule out the diagnostic hypothesis you are given.

## Hard rules

1. Output MUST be a single JSON object that conforms to the `CollectionPolicySpec` JSON Schema provided in the request. The constrained decoder will refuse any token that would produce a non-conforming output. You do not need to format JSON yourself; the decoder handles that.
2. Every `signals[].vss_name` MUST be a valid COVESA VSS v6.0 leaf signal name. Choose names from the VSS examples below or others you know to exist in the v6.0 catalog. Hallucinated signal names are caught by the validator and waste a retry budget.
3. The `collection_window_hours` field is bounded `[1, 168]`. Choose a window that is long enough to capture the hypothesized phenomenon but no longer than necessary.
4. The `vehicle_scope` is the set of vehicle identifiers in the originating finding. Do not narrow or broaden it.
5. The `originating_finding` field is `{tenant_id, finding_id}` from the diagnostic input verbatim. Do not invent identifiers.
6. The `data_governance_flags.has_pii_signal` field MUST be `true` if any selected signal is PII-adjacent (precise geolocation, driver biometrics, personal usage patterns). When `has_pii_signal` is `true`, `pii_consent` MUST also be `true`. The validator rejects mismatches.
7. `confidence_threshold` is the minimum confidence at which auto-deployment is acceptable. Default to the upstream `confidence` minus 0.1 unless the hypothesis is safety-adjacent, in which case use the upstream `confidence`.

## VSS examples for brake-wear hypotheses

- `Vehicle.Chassis.Brake.PadWear`
- `Vehicle.Chassis.Brake.IsBrakesWorn`
- `Vehicle.Chassis.Brake.IsFluidLevelLow`
- `Vehicle.Chassis.Axle.Row1.Wheel.Left.Tire.Pressure`
- `Vehicle.Chassis.Axle.Row1.Wheel.Left.Tire.Temperature`
- `Vehicle.Powertrain.CombustionEngine.EngineOilTemperature`
- `Vehicle.Speed`

## Sampling rate guidance

- Boolean state signals (e.g., `IsBrakesWorn`): 1 Hz is generous; 0.1 Hz is fine.
- Slow continuous signals (temperatures, pressures): 1-5 Hz captures most diagnostic patterns.
- Fast continuous signals (speed, RPM): 10-20 Hz; do not request 100+ Hz unless the hypothesis demands it.

## Trigger guidance

- For wear hypotheses, time-window triggers are usually appropriate: collect for the full window.
- For event hypotheses, threshold triggers (e.g., brake pedal applied above N kPa) target the relevant subset.
".

Definition quote_mark : string := String dquote "".
Definition if_tag : string := "{% if retry_context %}".
Definition endif_tag : string := "{% endif %}".
(** [user.md] up to the retry block, and the block. *)
Definition user_pieces : list piece :=
  [ Lit "# Diagnostic finding

Tenant: ";
    Hole "tenant_id";
    Lit "
Finding: ";
    Hole "finding_id";
    Lit "
Anomaly type: ";
    Hole "anomaly_type";
    Lit "
Hypothesis class: ";
    Hole "hypothesis_class";
    Lit "
Hypothesis: ";
    Hole "hypothesis_statement";
    Lit "
Vehicle scope: ";
    Hole "vehicle_scope_json";
    Lit "
Upstream confidence: ";
    Hole "upstream_confidence";
    Lit "
Candidate signals (optional hints): ";
    Hole "candidate_signals_json";
    Lit ("

# Task

Produce a `CollectionPolicySpec` JSON object that:

1. Selects the minimum set of VSS v6.0 signals needed to confirm or rule out the hypothesis above.
2. Sets sampling rates per the system-prompt guidance.
3. Sets `policy_id` to `" +:+ quote_mark +:+ "policy-");
    Hole "finding_id";
    Lit (quote_mark +:+ "` and `version` to `" +:+ quote_mark +:+ "1.0.0" +:+ quote_mark +:+ "`.
4. Sets `generated_from_session_id` to `" +:+ quote_mark);
    Hole "session_id";
    Lit (quote_mark +:+ "`.
5. Sets `originating_finding` to `{" +:+ quote_mark +:+ "tenant_id" +:+ quote_mark +:+ ": " +:+ quote_mark);
    Hole "tenant_id";
    Lit (quote_mark +:+ ", " +:+ quote_mark +:+ "finding_id" +:+ quote_mark +:+ ": " +:+ quote_mark);
    Hole "finding_id";
    Lit (quote_mark +:+ "}`.
6. Sets `vehicle_scope` to the list above verbatim.
7. Selects a window that fits the hypothesis: brake-wear early-stage usually wants 24-72 hours.
8. Sets `data_governance_flags` correctly per the PII rules.
9. Sets `confidence_threshold` per the system-prompt guidance.
") ].
Definition retry_pieces : list piece :=
  [ Lit if_tag;
    Lit "

# Retry context

The previous generation failed validation. Address the errors below and try again.

";
    Hole "retry_context_json";
    Lit "
";
    Lit endif_tag;
    Lit "
" ].
Definition user_text : string := text (user_pieces ++ retry_pieces).
