(* ===== verification/PyTime.v ===== *)
(** [datetime] in UTC: an instant is its number of microseconds since the epoch.
    [isoformat] prints it the way [datetime.isoformat] prints an aware UTC
    value, [fromisoformat] reads that shape back (date, [T], time, optional six
    digit fraction, numeric offset); the civil calendar is computed from the day
    number over 400-year eras. *)
From S2P Require Import Prelude PyStr.
Local Open Scope Z_scope.

(** * The proleptic Gregorian calendar *)
Definition era_days : Z := 146097.
(** Year and day within an era whose day 0 is a first of March. *)
Definition yoe_of (doe : Z) : Z := (doe - doe / 1460 + doe / 36524 - doe / 146096) / 365.
Definition doy_of (doe : Z) : Z :=
  doe - (365 * yoe_of doe + yoe_of doe / 4 - yoe_of doe / 100).
Definition month_of (doy : Z) : Z :=
  let mp := (5 * doy + 2) / 153 in if mp <? 10 then mp + 3 else mp - 9.
Definition day_of (doy : Z) : Z := doy - (153 * ((5 * doy + 2) / 153) + 2) / 5 + 1.
Definition civil_of_doe (doe : Z) : Z * Z * Z :=
  let m := month_of (doy_of doe) in
  ((if m <=? 2 then yoe_of doe + 1 else yoe_of doe), m, day_of (doy_of doe)).
Definition doe_of_civil (yoe m d : Z) : Z :=
  let doy := (153 * (if 2 <? m then m - 3 else m + 9) + 2) / 5 + d - 1 in
  yoe * 365 + yoe / 4 - yoe / 100 + doy.

Definition civil_of_days (days : Z) : Z * Z * Z :=
  let z := days + 719468 in
  let '(y, m, d) := civil_of_doe (z mod era_days) in
  (y + 400 * (z / era_days), m, d).
Definition days_of_civil (y m d : Z) : Z :=
  let y' := if m <=? 2 then y - 1 else y in
  (y' / 400) * era_days + doe_of_civil (y' mod 400) m d - 719468.

(** * Decimal fields of fixed width *)
Definition digit (n : Z) : ascii := ascii_of_nat (Z.to_nat (48 + n mod 10)).
Fixpoint pad (width : nat) (n : Z) : string :=
  match width with
  | O => ""
  | S w => pad w (n / 10) +:+ String (digit n) ""
  end.

(** [YYYY-MM-DDTHH:MM:SS[.ffffff]+00:00]. *)
Definition isoformat (t : Z) : string :=
  let us := t mod 1000000 in
  let secs := t / 1000000 in
  let sod := secs mod 86400 in
  let '(y, m, d) := civil_of_days (secs / 86400) in
  pad 4 y +:+ "-" +:+ pad 2 m +:+ "-" +:+ pad 2 d +:+ "T" +:+
  pad 2 (sod / 3600) +:+ ":" +:+ pad 2 (sod / 60 mod 60) +:+ ":" +:+ pad 2 (sod mod 60) +:+
  (if us =? 0 then "" else "." +:+ pad 6 us) +:+ "+00:00".

(** Read [width] digits from the front. *)
Fixpoint take_digits (width : nat) (acc : Z) (s : string) : option (Z * string) :=
  match width, s with
  | O, _ => Some (acc, s)
  | S w, String c s' =>
      if is_digit c then take_digits w (10 * acc + (Z.of_nat (code c) - 48)) s' else None
  | S _, EmptyString => None
  end.
Definition expect (c : ascii) (s : string) : option string :=
  match s with String c' s' => if ascii_eqb c c' then Some s' else None | EmptyString => None end.

Definition days_in_month (y m : Z) : Z :=
  if m =? 2 then
    if ((y mod 4 =? 0) && negb (y mod 100 =? 0)) || (y mod 400 =? 0) then 29 else 28
  else if (m =? 4) || (m =? 6) || (m =? 9) || (m =? 11) then 30 else 31.

Definition valid_datetime (y mo d h mi s : Z) : bool :=
  (1 <=? y) && (1 <=? mo) && (mo <=? 12) && (1 <=? d) && (d <=? days_in_month y mo) &&
  (h <=? 23) && (mi <=? 59) && (s <=? 59).

Definition fromisoformat (str : string) : option Z :=
  '(y, s) ← take_digits 4 0 str; s ← expect "-" s;
  '(mo, s) ← take_digits 2 0 s; s ← expect "-" s;
  '(d, s) ← take_digits 2 0 s; s ← expect "T" s;
  '(h, s) ← take_digits 2 0 s; s ← expect ":" s;
  '(mi, s) ← take_digits 2 0 s; s ← expect ":" s;
  '(sec, s) ← take_digits 2 0 s;
  '(us, s) ← match expect "." s with
             | Some s' => take_digits 6 0 s'
             | None => Some (0, s)
             end;
  '(sign, s) ← match s with
               | String "+" s' => Some (1, s')
               | String "-" s' => Some (-1, s')
               | _ => None
               end;
  '(oh, s) ← take_digits 2 0 s; s ← expect ":" s;
  '(om, s) ← take_digits 2 0 s;
  if str_eqb s "" && valid_datetime y mo d h mi sec && (oh <=? 23) && (om <=? 59) then
    Some ((days_of_civil y mo d * 86400 + h * 3600 + mi * 60 + sec
           - sign * (oh * 3600 + om * 60)) * 1000000 + us)
  else None.

(** The instants of years 1 to 9999, which [datetime] can hold. *)
Definition datetime_min : Z := days_of_civil 1 1 1 * 86400000000.
Definition datetime_max : Z := days_of_civil 10000 1 1 * 86400000000.
Definition representable (t : Z) : bool := (datetime_min <=? t) && (t <? datetime_max).

(** * Facts *)
Ltac div_lia := Z.to_euclidean_division_equations; lia.

Lemma yoe_bounds doe : 0 ≤ doe < era_days → 0 ≤ yoe_of doe < 400.
Proof. unfold yoe_of, era_days. intros. div_lia. Qed.

(** The two correction terms take few values. *)
Lemma doe_corrections doe : 0 ≤ doe < era_days →
  (doe / 36524 = 0 ∨ doe / 36524 = 1 ∨ doe / 36524 = 2 ∨ doe / 36524 = 3 ∨ doe / 36524 = 4) ∧
  (doe / 146096 = 0 ∨ doe / 146096 = 1).
Proof. unfold era_days. intros. split; div_lia. Qed.

Ltac doe_cases H :=
  destruct (doe_corrections _ H) as [[?|[?|[?|[?|?]]]] [?|?]]; unfold era_days in *; div_lia.

Lemma doy_bounds doe : 0 ≤ doe < era_days → 0 ≤ doy_of doe ≤ 365.
Proof. intros H. unfold doy_of, yoe_of. doe_cases H. Qed.

Lemma doy_leap doe : 0 ≤ doe < era_days → doy_of doe = 365 →
  days_in_month (yoe_of doe + 1) 2 = 29.
Proof.
  intros H Hd.
  assert (yoe_of doe mod 4 = 3 ∧ (yoe_of doe mod 100 ≠ 99 ∨ yoe_of doe mod 400 = 399)) as Hy.
  { unfold doy_of, yoe_of in *. doe_cases H. }
  pose proof (yoe_bounds doe H). unfold days_in_month. simpl.
  generalize dependent (yoe_of doe). intros y ? ?.
  destruct (Z.eqb_spec ((y + 1) mod 4) 0), (Z.eqb_spec ((y + 1) mod 100) 0),
    (Z.eqb_spec ((y + 1) mod 400) 0); simpl; try reflexivity; div_lia.
Qed.

Lemma days_in_month_era y k m : days_in_month (y + 400 * k) m = days_in_month y m.
Proof.
  unfold days_in_month.
  replace ((y + 400 * k) mod 4) with (y mod 4) by div_lia.
  replace ((y + 400 * k) mod 100) with (y mod 100) by div_lia.
  by replace ((y + 400 * k) mod 400) with (y mod 400) by div_lia.
Qed.

(** The month table, checked day by day. *)
Definition month_row_ok (doy : Z) : bool :=
  let m := month_of doy in let d := day_of doy in
  (1 <=? m) && (m <=? 12) && (1 <=? d) &&
  ((153 * (if 2 <? m then m - 3 else m + 9) + 2) / 5 + d - 1 =? doy) &&
  ((d <=? days_in_month 1 m) || ((doy =? 365) && (m =? 2) && (d =? 29))).

Lemma month_table doy : 0 ≤ doy ≤ 365 → month_row_ok doy = true.
Proof.
  intros H. assert (forallb month_row_ok (seqZ 0 366) = true) as Hall by (vm_compute; reflexivity).
  rewrite forallb_forall in Hall. apply Hall. apply list_elem_of_In, elem_of_seqZ. lia.
Qed.

Lemma days_in_month_1 y m : days_in_month 1 m ≤ days_in_month y m.
Proof. unfold days_in_month. simpl. repeat case_match; lia. Qed.

Lemma civil_of_doe_ok doe y m d : 0 ≤ doe < era_days → civil_of_doe doe = (y, m, d) →
  1 ≤ m ≤ 12 ∧ 1 ≤ d ≤ days_in_month y m ∧
  0 ≤ (if m <=? 2 then y - 1 else y) < 400 ∧
  doe_of_civil (if m <=? 2 then y - 1 else y) m d = doe.
Proof.
  intros H. unfold civil_of_doe. intros [= <- <- <-].
  pose proof (yoe_bounds doe H) as Hy. pose proof (doy_bounds doe H) as Hd.
  pose proof (doy_leap doe H) as Hl. pose proof (month_table _ Hd) as Ht.
  unfold month_row_ok in Ht. rewrite !andb_true_iff, orb_true_iff in Ht.
  destruct Ht as [[[[Hm1 Hm2] Hd1] Heq] Hlen].
  apply Z.leb_le in Hm1, Hm2, Hd1. apply Z.eqb_eq in Heq.
  replace (if month_of (doy_of doe) <=? 2
           then (if month_of (doy_of doe) <=? 2 then yoe_of doe + 1 else yoe_of doe) - 1
           else (if month_of (doy_of doe) <=? 2 then yoe_of doe + 1 else yoe_of doe))
    with (yoe_of doe) by (destruct (month_of (doy_of doe) <=? 2); lia).
  split_and!; try lia.
  - destruct Hlen as [Hlen%Z.leb_le|Hlen].
    + etrans; [exact Hlen|apply days_in_month_1].
    + rewrite !andb_true_iff, !Z.eqb_eq in Hlen. destruct Hlen as [[H1 H2] H3].
      rewrite H2, H3. simpl. by rewrite (Hl H1).
  - unfold doe_of_civil. rewrite Heq. unfold doy_of. lia.
Qed.

Lemma civil_days days y m d : civil_of_days days = (y, m, d) →
  1 ≤ m ≤ 12 ∧ 1 ≤ d ≤ days_in_month y m ∧ days_of_civil y m d = days.
Proof.
  unfold civil_of_days. set (z := days + 719468).
  assert (0 ≤ z mod era_days < era_days) as Hz by (apply Z.mod_pos_bound; done).
  destruct (civil_of_doe (z mod era_days)) as [[y0 m0] d0] eqn:E. intros [= <- <- <-].
  destruct (civil_of_doe_ok _ _ _ _ Hz E) as (Hm & Hd & Hy & Hdoe).
  split; [done|]. rewrite days_in_month_era. split; [done|].
  unfold days_of_civil.
  set (k := z / era_days) in *.
  replace (if m0 <=? 2 then y0 + 400 * k - 1 else y0 + 400 * k)
    with ((if m0 <=? 2 then y0 - 1 else y0) + k * 400) by (destruct (m0 <=? 2); lia).
  rewrite Z.div_add, Z.mod_add by lia.
  rewrite (Z.div_small _ 400), (Z.mod_small _ 400) by lia. rewrite Hdoe.
  pose proof (Z.div_mod z era_days). subst k. unfold z in *. lia.
Qed.

Lemma year_bounds days y m d :
  days_of_civil 1 1 1 ≤ days < days_of_civil 10000 1 1 →
  civil_of_days days = (y, m, d) → 1 ≤ y ≤ 9999.
Proof.
  intros H E. destruct (civil_days _ _ _ _ E) as (Hm & Hd & Hdays).
  change (days_of_civil 1 1 1) with (-719162) in H.
  change (days_of_civil 10000 1 1) with 2932897 in H.
  assert (days_in_month y m ≤ 31) by (unfold days_in_month; repeat case_match; lia).
  unfold days_of_civil, doe_of_civil, era_days in Hdays.
  destruct (Z.leb_spec m 2), (Z.ltb_spec 2 m); try lia; div_lia.
Qed.

Lemma is_digit_digit n : is_digit (digit n) = true ∧ Z.of_nat (code (digit n)) - 48 = n mod 10.
Proof.
  unfold digit, is_digit, code. pose proof (Z.mod_pos_bound n 10 ltac:(lia)).
  rewrite Ascii.nat_ascii_embedding by lia. rewrite andb_true_iff, !Nat.leb_le. lia.
Qed.

Lemma take_digits_pad w k n acc s : 0 ≤ n < 10 ^ Z.of_nat w →
  take_digits (w + k) acc (pad w n +:+ s) = take_digits k (acc * 10 ^ Z.of_nat w + n) s.
Proof.
  revert k n acc s. induction w as [|w IH]; intros k n acc s Hn.
  - simpl in *. sapp. f_equal. lia.
  - simpl pad. rewrite str_app_assoc.
    rewrite Nat2Z.inj_succ, Z.pow_succ_r in Hn by lia.
    replace (S w + k)%nat with (w + S k)%nat by lia.
    rewrite IH by (split; [apply Z.div_pos; lia | apply Z.div_lt_upper_bound; lia]).
    sapp. cbn [take_digits]. destruct (is_digit_digit n) as [-> ->]. f_equal.
    rewrite Nat2Z.inj_succ, Z.pow_succ_r by lia. pose proof (Z.div_mod n 10). lia.
Qed.

Lemma take_pad w n s : 0 ≤ n < 10 ^ Z.of_nat w → take_digits w 0 (pad w n +:+ s) = Some (n, s).
Proof.
  intros Hn. rewrite <- (Nat.add_0_r w) at 1. by rewrite take_digits_pad.
Qed.

Arguments valid_datetime : simpl never.
Arguments days_of_civil : simpl never.
Arguments pad : simpl never.
Arguments take_digits : simpl never.

(** Timestamps written with [isoformat] (the deployer's [deployed_at] and
    [expires_at]) are read back as the same instant, for every instant of the
    years 1 to 9999. *)
Lemma isoformat_roundtrip (t : Z) :
  representable t = true → fromisoformat (isoformat t) = Some t.
Proof.
  unfold representable, datetime_min, datetime_max. rewrite andb_true_iff, Z.leb_le, Z.ltb_lt.
  intros Ht. unfold isoformat.
  set (us := t mod 1000000). set (secs := t / 1000000). set (sod := secs mod 86400).
  assert (days_of_civil 1 1 1 ≤ secs / 86400 < days_of_civil 10000 1 1) as Hdays.
  { change (days_of_civil 1 1 1) with (-719162) in *.
    change (days_of_civil 10000 1 1) with 2932897 in *. unfold secs. div_lia. }
  destruct (civil_of_days (secs / 86400)) as [[y m] d] eqn:E.
  pose proof (year_bounds _ _ _ _ Hdays E) as Hy.
  destruct (civil_days _ _ _ _ E) as (Hm & Hd & Hback).
  assert (days_in_month y m ≤ 31) by (unfold days_in_month; repeat case_match; lia).
  assert (0 ≤ us < 1000000) by (apply Z.mod_pos_bound; lia).
  assert (0 ≤ sod < 86400) by (apply Z.mod_pos_bound; lia).
  assert (0 ≤ sod / 3600 < 24 ∧ 0 ≤ sod / 60 mod 60 < 60 ∧ 0 ≤ sod mod 60 < 60 ∧
          sod / 3600 * 3600 + sod / 60 mod 60 * 60 + sod mod 60 = sod) as (Hh & Hmi & Hs & Hsod)
    by div_lia.
  assert (t = (secs / 86400 * 86400 + sod) * 1000000 + us) as Ht'
    by (unfold sod, us, secs; div_lia).
  unfold fromisoformat.
  repeat (rewrite take_pad by (simpl; lia); sapp; simpl).
  assert (valid_datetime y m d (sod / 3600) (sod / 60 mod 60) (sod mod 60) = true) as Hv.
  { unfold valid_datetime. rewrite !andb_true_iff, !Z.leb_le. lia. }
  destruct (Z.eqb_spec us 0) as [Hus|Hus]; sapp; simpl.
  - rewrite Hv, Hback. simpl. f_equal. change (Z.of_nat (code "0")) with 48. lia.
  - rewrite take_pad by (simpl; lia). sapp. simpl. rewrite Hv, Hback. simpl. f_equal. change (Z.of_nat (code "0")) with 48. lia.
Qed.

Lemma pad_no_char c w n : is_digit c = false → has_char c (pad w n) = false.
Proof.
  intros Hc. revert n. induction w as [|w IH]; intros n; [done|].
  unfold pad; fold pad. rewrite has_char_app, IH, has_char_cons. simpl.
  rewrite orb_false_r. apply not_true_is_false. intros ->%Ascii.eqb_eq.
  unfold is_digit, digit, code in Hc.
  rewrite nat_ascii_embedding in Hc by (pose proof (Z.mod_pos_bound n 10); lia).
  apply andb_false_iff in Hc as [Hc|Hc]; apply Nat.leb_gt in Hc;
    pose proof (Z.mod_pos_bound n 10); lia.
Qed.
(** The only letter [isoformat] writes is [T]. *)
Lemma isoformat_no_Z t : has_char "Z" (isoformat t) = false.
Proof.
  unfold isoformat. destruct (civil_of_days _) as [[y m] d].
  repeat (rewrite has_char_app || rewrite pad_no_char by done).
  by case_match; rewrite ?has_char_app, ?pad_no_char by done.
Qed.
