(* ===== verification/Errors.v ===== *)
(** The structured error model of [errors.py], and the exceptions of the
    language and its drivers that the modelled code raises or catches. *)
From S2P Require Import Prelude PyStr PyDict Json JsonText.

(** The concrete exception classes under [CollectMindError]. *)
Inductive cm_class :=
| CAuthInvalidToken | CAuthExpired | CAuthTenantMissing
| CSchemaValidationFailed | CSchemaVersionUnsupported | CNotFound
| CDependencyUnavailable | CTenantVehicleMismatch | CCollectMindError.

(** The three families the classes derive from. *)
Inductive err_family := Recoverable | Validation | Fatal | BaseFamily.

Definition family (c : cm_class) : err_family :=
  match c with
  | CAuthInvalidToken | CAuthExpired | CAuthTenantMissing
  | CSchemaValidationFailed | CSchemaVersionUnsupported | CNotFound => Validation
  | CDependencyUnavailable => Recoverable
  | CTenantVehicleMismatch => Fatal
  | CCollectMindError => BaseFamily
  end.

Record cm_error := CmError {
  e_class : cm_class;
  e_code : string;
  e_status : Z;
  e_reason : string;
  e_details : option json }.

Definition opt_json (o : option json) : json := default JNull o.

(** [to_response().model_dump()]. *)
Definition to_response (e : cm_error) : json :=
  JObj [("code", JStr (e_code e)); ("status", JInt (e_status e));
        ("reason", JStr (e_reason e)); ("details", opt_json (e_details e))].

Definition AuthInvalidToken : cm_error :=
  CmError CAuthInvalidToken "AUTH_INVALID_TOKEN" 401
    "Authentication failed: invalid or unsigned token." None.
Definition AuthExpired : cm_error :=
  CmError CAuthExpired "AUTH_EXPIRED" 401 "Authentication failed: token expired." None.
Definition AuthTenantMissing : cm_error :=
  CmError CAuthTenantMissing "AUTH_TENANT_MISSING" 401
    "Authentication failed: tenant_id claim missing or empty." None.
Definition SchemaValidationFailed (field message : string) : cm_error :=
  CmError CSchemaValidationFailed "SCHEMA_VALIDATION_FAILED" 400
    "Inbound payload does not conform to the documented schema."
    (Some (JObj [("field", JStr field); ("message", JStr message)])).
Definition SchemaVersionUnsupported (requested : json) (supported_major : string) : cm_error :=
  CmError CSchemaVersionUnsupported "SCHEMA_VERSION_UNSUPPORTED" 422
    "Inbound schema_version major is not supported."
    (Some (JObj [("requested", requested); ("supported_major", JStr supported_major)])).
Definition NotFound (resource identifier : string) : cm_error :=
  CmError CNotFound "NOT_FOUND" 404 (resource +:+ " not found.")
    (Some (JObj [("identifier", JStr identifier)])).
Definition DependencyUnavailable (dependency : string) : cm_error :=
  CmError CDependencyUnavailable "DEPENDENCY_UNAVAILABLE" 503
    ("Internal dependency unavailable: " +:+ dependency +:+ ".")
    (Some (JObj [("dependency", JStr dependency)])).

(** Postgres error conditions, as asyncpg raises them. *)
Inductive pg_error :=
| UniqueViolation (constraint : string)
| ForeignKeyViolation (constraint : string)
| CheckViolation (column : string)
| NotNullViolation (column : string)
| RowSecurityViolation (table : string)
| RaiseException (message : string)
| NumericOutOfRange (column : string)
| DataError (column : string)
| SqlError (message : string).

(** The exceptions PyJWT raises, by class: those the verifier names in its [except]
    clauses (each for itself and the subclasses the verifier does not name), and the
    other subclasses of [PyJWTError]. *)
Inductive jwt_error :=
| ExpiredSignatureError | InvalidAudienceError | InvalidIssuerError
| InvalidSignatureError | DecodeError | InvalidTokenError | PyJWKClientError
| OtherPyJWTError.

Inductive exn :=
| ECollectMind (e : cm_error)
| EHTTP (status : Z) (detail : json)
| EValueError (msg : string)
| ERuntimeError (msg : string)
| ELegacyKeyShape (msg : string)
| EKeyError (key : string)
| ETypeError (msg : string)
| EAttributeError (msg : string)
| ENotImplemented (msg : string)
| EJSONDecode (msg : string)
| EPg (e : pg_error)
| EJwt (e : jwt_error)
| ERedis (msg : string)
| EHttpx (msg : string)       (* httpx.HTTPError *)
| EOther (msg : string).

(** What the program takes from its environment: readings of the clocks and of
    the random sources (the n-th reading is the n-th element of a stream), and
    the texts that drivers and the interpreter print. *)
Class Env := {
  clock : nat → Z;            (* datetime.now / time.time, in microseconds *)
  monotonic : nat → Z;        (* time.monotonic, in microseconds *)
  fresh : nat → string;       (* ulid.new, uuid.uuid4, gen_random_bytes *)
  urandom : nat → Q;          (* random.Random.random *)
  redis_clock : nat → Z;      (* the Redis server's clock, in milliseconds *)
  redis_fault : nat → option string;  (* the n-th Redis command fails with this text *)
  float_conv :: PyFloat;      (* repr(x) and float(s) *)
  pg_text : pg_error → string;
  jwt_text : jwt_error → string }.

(** Identifiers are non-empty and never drawn twice. *)
Class EnvLaws `{Env} := {
  fresh_nonempty : ∀ n, fresh n ≠ "";
  fresh_inj : ∀ n m, fresh n = fresh m → n = m }.

(** [str(exc)]. *)
Definition str_exn `{Env} (e : exn) : string :=
  match e with
  | ECollectMind e => e_reason e
  | EHTTP s _ => str_of_Z s
  | EKeyError k => "'" +:+ k +:+ "'"
  | EPg e => pg_text e
  | EJwt e => jwt_text e
  | EValueError m | ERuntimeError m | ELegacyKeyShape m | ETypeError m | EAttributeError m
  | ENotImplemented m | EJSONDecode m | ERedis m | EHttpx m | EOther m => m
  end.

(** The HTTP status a raised exception becomes at the FastAPI boundary:
    [collectmind_error_handler] for a [CollectMindError], FastAPI's handler for
    an [HTTPException], 500 for anything else. *)
Definition http_status (e : exn) : Z :=
  match e with
  | ECollectMind e => e_status e
  | EHTTP s _ => s
  | _ => 500
  end.

(** An [HTTPException] whose detail is the error's response body. *)
Definition to_http_exception (e : cm_error) : exn := EHTTP (e_status e) (to_response e).
