(* ===== verification/TokenBucket.v ===== *)
(** The token bucket of [ratelimit/token_bucket.lua].

    Lua numbers are IEEE doubles.  Every number the script handles is an
    integer and its three divisions are floored at once; where dividend plus
    divisor stay below 2^53 the floored double quotient is the integer quotient,
    so the model computes in [Z] with [Z.div].  [bucket_state_bounds] shows the
    dividends stay in that range.

    A bucket is the Redis hash under one key: the two fields the script writes
    and the expiry [PEXPIRE] leaves on the key. *)
From S2P Require Import Prelude.
Local Open Scope Z_scope.

(** * The script *)
Record entry := mkEntry { tokens : Z; last_refill_ms : Z; expire_at : option Z }.

(** The three-element array the script returns. *)
Record reply := mkReply { decision : Z; remaining : Z; retry_after_ms : Z }.

(** What [HMGET key tokens last_refill_ms] gives after [tonumber]. *)
Definition hmget (e : option entry) : option Z * option Z :=
  match e with
  | Some e => (Some (tokens e), Some (last_refill_ms e))
  | None => (None, None)
  end.

(** Redis answers an expired key as missing. *)
Definition live (redis_now : Z) (e : option entry) : option entry :=
  match e with
  | Some e' =>
      match expire_at e' with
      | Some x => if x <? redis_now then None else e
      | None => e
      end
  | None => None
  end.

(** [HSET]: writes the two fields and keeps the key's expiry. *)
Definition hset (e : option entry) (t l : Z) : entry :=
  mkEntry t l (match e with Some e' => expire_at e' | None => None end).
(** [PEXPIRE]: a non-positive delay deletes the key. *)
Definition pexpire (redis_now ttl_ms : Z) (e : entry) : option entry :=
  if ttl_ms <=? 0 then None
  else Some (mkEntry (tokens e) (last_refill_ms e) (Some (redis_now + ttl_ms))).

Definition refill_of (elapsed_ms sustained_rps : Z) : Z := elapsed_ms * sustained_rps / 1000.
Definition advance_of (refill sustained_rps : Z) : Z := refill * 1000 / sustained_rps.
Definition ttl_of (burst_capacity sustained_rps : Z) : Z :=
  burst_capacity * 1000 * 2 / sustained_rps.

(** The script body after the argument check, on a live hash. *)
Definition token_bucket_body (redis_now now_ms sustained_rps burst_capacity : Z)
    (e : option entry) : reply * option entry :=
  let '(tok, last) :=
    match hmget e with
    | (Some t, Some l) => (t, l)
    | _ => (burst_capacity, now_ms)
    end in
  let elapsed_ms := now_ms - last in
  let elapsed_ms := if elapsed_ms <? 0 then 0 else elapsed_ms in
  let refill := refill_of elapsed_ms sustained_rps in
  let '(tok, last) :=
    if 0 <? refill
    then (Z.min burst_capacity (tok + refill), last + advance_of refill sustained_rps)
    else (tok, last) in
  if 1 <=? tok then
    let tok := tok - 1 in
    (mkReply 1 tok 0,
     pexpire redis_now (ttl_of burst_capacity sustained_rps) (hset e tok last))
  else
    let ms_per_token := 1000 / sustained_rps in
    let ms_per_token := if ms_per_token <? 1 then 1 else ms_per_token in
    (mkReply 0 0 ms_per_token, Some (hset e tok last)).

(** [EVALSHA sha 1 key now_ms sustained_rps burst_capacity]; an argument that
    [tonumber] cannot read is [None]. *)
Definition token_bucket_lua (redis_now : Z) (argv : option Z * option Z * option Z)
    (e : option entry) : result string reply * option entry :=
  match argv with
  | (Some now_ms, Some rps, Some burst) =>
      let '(r, e') := token_bucket_body redis_now now_ms rps burst (live redis_now e) in
      (Ok r, e')
  | _ => (Raise "token_bucket.lua: invalid arguments", e)
  end.

(** * Sequences of calls on one bucket, the caller's clock being Redis's *)
Definition call (r b : Z) (e : option entry) (now : Z) : reply * option entry :=
  token_bucket_body now now r b (live now e).

Fixpoint run_calls (r b : Z) (e : option entry) (ts : list Z) : list reply * option entry :=
  match ts with
  | [] => ([], e)
  | t :: ts' =>
      let '(rep, e1) := call r b e t in
      let '(reps, e2) := run_calls r b e1 ts' in
      (rep :: reps, e2)
  end.

Definition allowed (rep : reply) : bool := decision rep =? 1.
Definition admitted (r b : Z) (e : option entry) (ts : list Z) : Z :=
  Z.of_nat (length (List.filter allowed (run_calls r b e ts).1)).

(** Rates at which whole tokens correspond to whole milliseconds. *)
Definition exact_rate (r : Z) : Prop := (r | 1000) ∨ (1000 | r).

(** * Facts about one call *)
Lemma refill_nonneg e r : 0 ≤ e → 0 < r → 0 ≤ refill_of e r.
Proof. intros. apply Z.div_pos; nia. Qed.

Lemma advance_nonneg f r : 0 ≤ f → 0 < r → 0 ≤ advance_of f r.
Proof. intros. apply Z.div_pos; nia. Qed.

(** A fresh bucket has no elapsed time and hence no refill. *)
Lemma fresh_refill now r :
  refill_of (if now - now <? 0 then 0 else now - now) r = 0.
Proof. by rewrite Z.sub_diag. Qed.

(** The timestamp never moves past the caller's clock. *)
Lemma advance_le_elapsed e r : 0 ≤ e → 0 < r → advance_of (refill_of e r) r ≤ e.
Proof.
  intros. unfold advance_of, refill_of. apply Z.div_le_upper_bound; [done|].
  pose proof (div_mul_le (e * r) 1000). lia.
Qed.

Lemma exact_advance e r :
  0 < r → exact_rate r → r * advance_of (refill_of e r) r = 1000 * refill_of e r.
Proof.
  intros Hr [Hd|[k ->]]; unfold advance_of, refill_of.
  - rewrite div_exact_divide; [lia|done|]. by apply Z.divide_mul_r.
  - rewrite div_exact_divide; [lia|done|].
    replace (e * (k * 1000)) with (e * k * 1000) by lia.
    rewrite Z.div_mul by lia. exists e. lia.
Qed.

Lemma slow_advance e r :
  0 ≤ e → 0 < r → 1000 / r * refill_of e r ≤ advance_of (refill_of e r) r.
Proof.
  intros. unfold advance_of. apply Z.div_le_lower_bound; [done|].
  pose proof (div_mul_le 1000 r). pose proof (refill_nonneg e r). nia.
Qed.

(** * The bucket invariant *)
Definition bucket_ok (b now : Z) (e : option entry) : Prop :=
  match e with
  | Some e' => 0 ≤ tokens e' ≤ b ∧ last_refill_ms e' ≤ now
  | None => True
  end.

Lemma live_ok b now t e : bucket_ok b now e → bucket_ok b now (live t e).
Proof. unfold live. by repeat case_match. Qed.

Lemma bucket_ok_mono b now now' e : now ≤ now' → bucket_ok b now e → bucket_ok b now' e.
Proof. destruct e; simpl; [lia|done]. Qed.

Ltac body_cases :=
  unfold call, token_bucket_body, pexpire, hset in *; simpl in *;
  repeat (case_match; simpl in *; simplify_eq); simpl in *.

(** One call keeps the bucket between empty and full, whatever the clock did. *)
Lemma call_ok r b e now :
  0 < r → 1 ≤ b → bucket_ok b now e → bucket_ok b now (call r b e now).2.
Proof.
  intros Hr Hb Hok. apply (live_ok _ _ now) in Hok. unfold call.
  destruct (live now e) as [[t l x]|]; unfold token_bucket_body; simpl in *.
  - destruct (Z.ltb_spec (now - l) 0) as [|He]; [lia|].
    pose proof (refill_nonneg (now - l) r He Hr).
    pose proof (advance_le_elapsed (now - l) r He Hr).
    set (f := refill_of (now - l) r) in *. set (a := advance_of f r) in *.
    unfold pexpire. zcases; lia.
  - rewrite fresh_refill. unfold pexpire. zcases; lia.
Qed.

(** A denied call found the bucket empty and no refill due, whatever the clock did, and
    leaves the timestamp alone. *)
Definition stocked (e : option entry) : Prop :=
  match e with Some e' => 0 ≤ tokens e' | None => True end.
Lemma bucket_stocked b now e : bucket_ok b now e → stocked e.
Proof. by destruct e; [intros [[? _] _]|]. Qed.
Lemma denied_state r b e now :
  0 < r → 1 ≤ b → stocked e → allowed (call r b e now).1 = false →
  ∃ l x, live now e = Some (mkEntry 0 l x) ∧ refill_of (Z.max 0 (now - l)) r = 0 ∧
    (call r b e now).2 = Some (mkEntry 0 l x) ∧
    retry_after_ms (call r b e now).1 = Z.max 1 (1000 / r).
Proof.
  intros Hr Hb Hok Hdeny. assert (stocked (live now e)) as Hok' by (unfold live; by repeat case_match).
  clear Hok. unfold call in *.
  destruct (live now e) as [[t l x]|]; unfold token_bucket_body in *; simpl in *.
  - assert ((if now - l <? 0 then 0 else now - l) = Z.max 0 (now - l)) as He by (zcases; lia).
    rewrite He in *. pose proof (refill_nonneg (Z.max 0 (now - l)) r ltac:(lia) Hr).
    set (f := refill_of (Z.max 0 (now - l)) r) in *. exists l, x.
    zcases; try done; try lia; (assert (t = 0) as -> by lia); repeat split; lia.
  - rewrite fresh_refill in Hdeny. simpl in Hdeny.
    destruct (Z.leb_spec 1 b); [done|lia].
Qed.

(** When an empty bucket is served again: the key has expired, or a token's worth of time
    has passed since the last refill. *)
Definition refilled (r now : Z) (e : entry) : bool :=
  match expire_at e with Some x => x <? now | None => false end ||
  (1000 <=? (now - last_refill_ms e) * r).
Lemma empty_call r b l x now : 0 < r → 1 ≤ b →
  allowed (call r b (Some (mkEntry 0 l x)) now).1 = refilled r now (mkEntry 0 l x).
Proof.
  intros Hr Hb. unfold call, refilled, live. cbn [expire_at last_refill_ms].
  assert (∀ e', allowed (token_bucket_body now now r b (Some (mkEntry 0 l e'))).1 =
    (1000 <=? (now - l) * r)) as Hbody.
  { intros e'. unfold token_bucket_body. cbn [hmget tokens last_refill_ms].
    assert ((if now - l <? 0 then 0 else now - l) = Z.max 0 (now - l)) as -> by (zcases; lia).
    pose proof (refill_nonneg (Z.max 0 (now - l)) r ltac:(lia) Hr) as Hf.
    assert (1 ≤ refill_of (Z.max 0 (now - l)) r ↔ 1000 ≤ (now - l) * r) as Hiff.
    { unfold refill_of in *. split; intros Hx.
      - pose proof (div_mul_le (Z.max 0 (now - l) * r) 1000). nia.
      - apply Z.div_le_lower_bound; nia. }
    set (f := refill_of (Z.max 0 (now - l)) r) in *.
    destruct (Z.leb_spec 1000 ((now - l) * r)); zcases; try done; lia. }
  destruct x as [x|]; [destruct (x <? now) eqn:Ex|]; simpl; [|apply Hbody..].
  unfold token_bucket_body. simpl. rewrite fresh_refill. simpl. by destruct (Z.leb_spec 1 b); [|lia].
Qed.

(** * The admission bound

    [ct] is a price per token and [cr] a price per millisecond such that time
    pays for every refill, and such that an idle key has expired only after a
    whole burst was paid for.  Under those two conditions no sequence of calls
    admits more than the burst plus what the elapsed time pays for. *)
Section Admission.
Context (r b ct cr : Z).
Hypothesis Hr : 0 < r.
Hypothesis Hb : 1 ≤ b.
Hypothesis Hct : 0 ≤ ct.
Hypothesis Hcr : 0 ≤ cr.
Hypothesis Hpay : ∀ e, 0 ≤ e → ct * refill_of e r ≤ cr * advance_of (refill_of e r) r.
Hypothesis Hidle : ct * b ≤ cr * ttl_of b r.

(** [t0]: the time of the first call; [n]: calls admitted so far. *)
Definition paid (t0 n now : Z) (e : option entry) : Prop :=
  bucket_ok b now e ∧
  match e with
  | Some e' =>
      ct * (n + tokens e') - cr * last_refill_ms e' ≤ ct * b - cr * t0 ∧
      match expire_at e' with
      | Some x => ct * b ≤ cr * (x - last_refill_ms e')
      | None => True
      end
  | None => ct * n ≤ cr * (now - t0)
  end.

Lemma paid_later t0 n now now' e : now ≤ now' → paid t0 n now e → paid t0 n now' e.
Proof.
  intros Hle [Hok Hp]. split; [by eapply bucket_ok_mono|].
  destruct e; [done|]. nia.
Qed.

Lemma paid_live t0 n now e : paid t0 n now e → paid t0 n now (live now e).
Proof.
  intros [Hok Hp]. split; [by apply live_ok|].
  unfold live. destruct e as [[t l [x|]]|]; simpl in *; try done.
  destruct (Z.ltb_spec x now); [|done]. nia.
Qed.

Lemma ttl_pos : 0 < ct → 0 < ttl_of b r.
Proof.
  intros. assert (0 ≤ ttl_of b r) by (apply Z.div_pos; nia).
  destruct (Z.eq_dec (ttl_of b r) 0) as [E|]; [|lia]. rewrite E in Hidle. nia.
Qed.

Lemma paid_call t0 n now e :
  0 < ct → paid t0 n now e →
  paid t0 (n + if allowed (call r b e now).1 then 1 else 0) now (call r b e now).2.
Proof.
  intros Hct' Hp. pose proof (ttl_pos Hct') as Httl.
  split; [apply call_ok; [done..|apply Hp]|].
  apply paid_live in Hp. unfold call. destruct Hp as [Hok Hp].
  destruct (live now e) as [[t l x]|]; unfold token_bucket_body; simpl in *.
  - destruct Hp as [Hp Hx]. destruct (Z.ltb_spec (now - l) 0) as [|He]; [lia|].
    pose proof (refill_nonneg (now - l) r He Hr) as Hf.
    pose proof (advance_le_elapsed (now - l) r He Hr) as Ha.
    pose proof (advance_nonneg _ r Hf Hr) as Ha0.
    specialize (Hpay (now - l) He).
    set (f := refill_of (now - l) r) in *. set (a := advance_of f r) in *.
    unfold pexpire. zcases; try lia; (split; [nia|]); (nia || done).
  - rewrite fresh_refill. unfold pexpire. zcases; try lia; split; nia.
Qed.

Lemma last_cons_default (ts : list Z) t now :
  match ts with [] => t | _ :: _ => List.last ts now end = List.last ts t.
Proof. revert t. induction ts as [|x [|y ts] IH]; intros t; [done..|]. apply (IH t). Qed.

Lemma paid_run t0 n now e ts :
  0 < ct → paid t0 n now e → StronglySorted Z.le (now :: ts) →
  ct * (n + admitted r b e ts) ≤ ct * b + cr * (List.last ts now - t0).
Proof.
  intros Hct'. revert n now e. induction ts as [|t ts IH]; intros n now e Hp Hs.
  - unfold admitted. simpl. destruct Hp as [Hok Hp].
    destruct e as [[tk l x]|]; simpl in *; [|nia]. destruct Hp as [Hp _]. nia.
  - inversion Hs as [|?? Hs' Hle]; subst. inversion Hle; subst.
    apply (paid_later _ _ _ t) in Hp; [|done].
    pose proof (paid_call t0 n t e Hct' Hp) as Hp'.
    specialize (IH _ _ _ Hp' Hs').
    unfold admitted in *. simpl.
    destruct (call r b e t) as [rep e1]. simpl in *.
    destruct (run_calls r b e1 ts) as [reps e2]. simpl in *.
    rewrite (last_cons_default ts t now).
    destruct (allowed rep); simpl; lia.
Qed.
End Admission.

Lemma admission r b ct cr t0 ts :
  0 < r → 1 ≤ b → 0 < ct → 0 ≤ cr →
  (∀ e, 0 ≤ e → ct * refill_of e r ≤ cr * advance_of (refill_of e r) r) →
  ct * b ≤ cr * ttl_of b r → StronglySorted Z.le (t0 :: ts) →
  ct * admitted r b None (t0 :: ts) ≤ ct * b + cr * (List.last ts t0 - t0).
Proof.
  intros Hr Hb Hct Hcr Hpay Hidle Hs.
  assert (StronglySorted Z.le (t0 :: t0 :: ts)) as Hs2.
  { constructor; [done|]. inversion Hs; subst. constructor; [lia|done]. }
  pose proof (paid_run r b ct cr Hr Hb ltac:(lia) Hcr Hpay Hidle t0 0 t0 None (t0 :: ts)
    Hct ltac:(split; simpl; [done|lia]) Hs2) as H.
  simpl List.last in H. rewrite last_cons_default in H. lia.
Qed.

(** * Width of the intermediates *)

(** What remains un-refilled after a call is worth less than one token and one
    millisecond. *)
Definition in_window (r b : Z) (e : option entry) : Prop :=
  match e with
  | Some (mkEntry _ l (Some x)) => (x - l) * r ≤ 2000 * b + 1000 + r
  | Some (mkEntry _ _ None) => False
  | None => True
  end.

Lemma residual_small e r :
  0 ≤ e → 0 < r → (e - advance_of (refill_of e r) r) * r ≤ 1000 + r.
Proof.
  intros He Hr. unfold advance_of, refill_of.
  pose proof (Z.mod_pos_bound (e * r / 1000 * 1000) r Hr).
  pose proof (Z.div_mod (e * r / 1000 * 1000) r).
  pose proof (Z.mod_pos_bound (e * r) 1000). pose proof (Z.div_mod (e * r) 1000). nia.
Qed.

Lemma call_in_window r b e now :
  0 < r → 1 ≤ b → r ≤ 2000 * b → bucket_ok b now e → in_window r b e →
  in_window r b (call r b e now).2.
Proof.
  intros Hr Hb Hrb Hok Hw. destruct (allowed (call r b e now).1) eqn:Hall.
  - assert (in_window r b (live now e) ∧ bucket_ok b now (live now e)) as [Hw' Hok'].
    { split; [|by apply live_ok]. unfold live. by repeat case_match. }
    assert (ttl_of b r * r ≤ 2000 * b) as Httl.
    { unfold ttl_of. pose proof (div_mul_le (b * 1000 * 2) r Hr). lia. }
    clear Hw Hok. unfold call in *.
    destruct (live now e) as [[t l x]|]; unfold token_bucket_body in *; simpl in *.
    + destruct (Z.ltb_spec (now - l) 0) as [|He]; [lia|].
      pose proof (residual_small (now - l) r He Hr) as Hres.
      pose proof (refill_nonneg (now - l) r He Hr) as Hf.
      set (f := refill_of (now - l) r) in *. unfold pexpire, hset.
      zcases; try done; simpl; try nia.
      assert (f = 0) as Hf0 by lia. unfold f, refill_of in Hf0.
      apply Z.div_small_iff in Hf0; nia.
    + rewrite fresh_refill in *. unfold pexpire, hset. zcases; try done. nia.
  - destruct (denied_state _ _ _ _ Hr Hb (bucket_stocked _ _ _ Hok) Hall) as (l & x & Hlive & _ & -> & _).
    unfold live in Hlive. destruct e as [[te le [xe|]]|]; simpl in *; try done.
    + destruct (xe <? now); by simplify_eq.
Qed.

Lemma run_window r b e now ts :
  0 < r → 1 ≤ b → r ≤ 2000 * b → StronglySorted Z.le (now :: ts) →
  bucket_ok b now e → in_window r b e →
  bucket_ok b (List.last ts now) (run_calls r b e ts).2 ∧
  in_window r b (run_calls r b e ts).2.
Proof.
  intros Hr Hb Hrb. revert now e. induction ts as [|t ts IH]; intros now e Hs Hok Hw; [done|].
  inversion Hs as [|?? Hs' Hle]; subst. inversion Hle; subst.
  apply (bucket_ok_mono _ _ t) in Hok; [|done].
  pose proof (call_ok r b e t Hr Hb Hok) as Hok1.
  pose proof (call_in_window r b e t Hr Hb Hrb Hok Hw) as Hw1.
  specialize (IH _ _ Hs' Hok1 Hw1). simpl. rewrite last_cons_default.
  destruct (call r b e t) as [rep e1]. simpl in *.
  by destruct (run_calls r b e1 ts).
Qed.

(** * Properties *)

(** C10. Rate-limit soundness.  At a rate that divides 1000 or is a multiple of
    1000 (both defaults are), a bucket that starts fresh at [t0] admits, over
    any sequence of calls at non-decreasing times, at most the burst capacity
    plus the sustained rate times the elapsed time, key expiry included. *)
Theorem exact_admission_bound (r b t0 : Z) (ts : list Z) :
  0 < r → exact_rate r → 1 ≤ b → r ≤ 1000 * b → StronglySorted Z.le (t0 :: ts) →
  1000 * admitted r b None (t0 :: ts) ≤ 1000 * b + r * (List.last ts t0 - t0).
Proof.
  intros Hr Hx Hb Hrb Hs. apply (admission r b 1000 r); try lia; try done.
  - intros e _. rewrite exact_advance by done. lia.
  - unfold ttl_of. pose proof (Z.mod_pos_bound (b * 1000 * 2) r Hr).
    pose proof (Z.div_mod (b * 1000 * 2) r). lia.
Qed.

Lemma exact_admission_bound_witness :
  1000 * admitted 200 2 None [0; 0; 1; 6] ≤ 1000 * 2 + 200 * (6 - 0) ∧
  admitted 200 2 None [0; 0; 1; 6] = 3.
Proof.
  split; [|reflexivity].
  apply (exact_admission_bound 200 2 0 [0; 1; 6]); [lia| |lia|lia|].
  - left. by exists 5.
  - repeat constructor; lia.
Defined.

(** At any rate up to 1000 requests per second the limiter admits at most
    the burst plus one request per [1000 / rate] whole milliseconds: the floored
    price, which is what the script really charges. *)
Theorem slow_admission_bound (r b t0 : Z) (ts : list Z) :
  0 < r → 1 ≤ b → StronglySorted Z.le (t0 :: ts) → r ≤ 1000 →
  1000 / r * admitted r b None (t0 :: ts) ≤ 1000 / r * b + (List.last ts t0 - t0).
Proof.
  intros Hr Hb Hs Hslow.
  assert (0 < 1000 / r) by (apply Z.div_str_pos; lia).
  rewrite <- (Z.mul_1_l (List.last ts t0 - t0)).
  apply (admission r b (1000 / r) 1); try lia; try done.
  - intros e He. rewrite Z.mul_1_l. by apply slow_advance.
  - unfold ttl_of. rewrite Z.mul_1_l. apply Z.div_le_lower_bound; [done|].
    pose proof (div_mul_le 1000 r Hr). nia.
Qed.

Lemma slow_admission_bound_witness :
  1000 / 300 * admitted 300 1 None [0; 4; 7; 10] ≤ 1000 / 300 * 1 + (10 - 0) ∧
  admitted 300 1 None [0; 4; 7; 10] = 4.
Proof.
  split; [|reflexivity].
  apply (slow_admission_bound 300 1 0 [4; 7; 10]); [lia|lia| |lia].
  repeat constructor; lia.
Defined.

(** Between 1000 and 2000 requests per second (exclusive) the limiter does
    not limit: one millisecond after the first call a token is refilled on
    every call while the refill timestamp advances by zero, so any number of
    calls in that same millisecond is admitted. *)
Theorem fractional_rate_unlimited (r b t0 : Z) (n : nat) :
  1000 < r < 2000 → 2 ≤ b →
  admitted r b None (t0 :: replicate n (t0 + 1)) = Z.of_nat n + 1.
Proof.
  intros Hr Hb.
  assert (refill_of 1 r = 1 ∧ advance_of 1 r = 0) as [Hf Ha].
  { unfold refill_of, advance_of. split; [|apply Z.div_small; lia].
    symmetry. apply (Z.div_unique _ _ _ (r - 1000)); lia. }
  assert (0 < ttl_of b r) as Httl by (apply Z.div_str_pos; lia).
  assert (∀ x, t0 + 1 ≤ x →
    call r b (Some (mkEntry (b - 1) t0 (Some x))) (t0 + 1)
    = (mkReply 1 (b - 1) 0, Some (mkEntry (b - 1) t0 (Some (t0 + 1 + ttl_of b r))))) as Hstep.
  { intros x Hx. unfold call, live. cbn [expire_at].
    rewrite (proj2 (Z.ltb_ge x (t0 + 1))) by done.
    unfold token_bucket_body, hmget. cbn [tokens last_refill_ms].
    replace (t0 + 1 - t0) with 1 by lia. change (1 <? 0) with false. cbv iota.
    rewrite Hf. change (0 <? 1) with true. cbv iota. rewrite Ha.
    rewrite Z.min_l, Z.add_0_r by lia. unfold pexpire, hset.
    zcases; try lia; done. }
  assert (∀ x, t0 + 1 ≤ x → admitted r b (Some (mkEntry (b - 1) t0 (Some x)))
    (replicate n (t0 + 1)) = Z.of_nat n) as Hn.
  { induction n as [|n IH]; intros x Hx; [done|].
    specialize (IH (t0 + 1 + ttl_of b r) ltac:(lia)). unfold admitted in *.
    simpl replicate. cbn [run_calls]. rewrite Hstep by done.
    destruct (run_calls r b _ (replicate n (t0 + 1))). simpl in *. lia. }
  specialize (Hn (t0 + ttl_of b r) ltac:(lia)). unfold admitted in *. cbn [run_calls].
  unfold call at 1, live, token_bucket_body, hmget. rewrite fresh_refill.
  change (0 <? 0) with false. cbv iota. rewrite (proj2 (Z.leb_le 1 b)) by lia.
  unfold pexpire, hset. rewrite (proj2 (Z.leb_gt _ 0)) by done. cbn [tokens last_refill_ms].
  destruct (run_calls r b _ _). simpl in *. lia.
Qed.

Lemma fractional_rate_unlimited_witness :
  admitted 1500 1500 None (0 :: replicate 5000 1) = 5001.
Proof. apply (fractional_rate_unlimited 1500 1500 0 5000); lia. Defined.

(** No lost or minted tokens inside one bucket: from a fresh key, after any
    sequence of calls at non-decreasing times, the stored token count is
    between zero and the burst capacity, the refill timestamp is not ahead of
    the clock, and the two products of the next call stay below 2^53 when rate
    and burst are 32-bit column values, so double arithmetic is exact. *)
Theorem bucket_state_bounds (r b t0 now : Z) (ts : list Z) (e : entry) :
  0 < r < 2 ^ 31 → r ≤ b < 2 ^ 31 → StronglySorted Z.le (t0 :: ts) →
  List.last ts t0 ≤ now →
  live now (run_calls r b None (t0 :: ts)).2 = Some e →
  0 ≤ tokens e ≤ b ∧ last_refill_ms e ≤ now ∧
  (now - last_refill_ms e) * r < 2 ^ 53 ∧
  refill_of (now - last_refill_ms e) r * 1000 < 2 ^ 53.
Proof.
  intros Hr Hb Hs Hnow Hlive.
  assert (StronglySorted Z.le (t0 :: t0 :: ts)) as Hs2.
  { constructor; [done|]. inversion Hs; subst. constructor; [lia|done]. }
  destruct (run_window r b None t0 (t0 :: ts) ltac:(lia) ltac:(lia) ltac:(lia) Hs2 I I)
    as [Hok Hw].
  simpl List.last in Hok. rewrite last_cons_default in Hok.
  apply (bucket_ok_mono _ _ now) in Hok; [|done].
  destruct (run_calls r b None (t0 :: ts)).2 as [[t l [x|]]|]; simpl in *; try done.
  destruct (Z.ltb_spec x now); simplify_eq. simpl in *.
  assert ((now - l) * r ≤ 2000 * b + 1000 + r) by nia.
  split; [lia|]. split; [lia|]. split; [lia|].
  unfold refill_of. pose proof (div_mul_le ((now - l) * r) 1000). lia.
Qed.

Lemma bucket_state_bounds_witness :
  let e := mkEntry 1998 5 (Some 20006) in
  live 9 (run_calls 200 2000 None [0; 0; 6]).2 = Some e ∧
  refill_of (9 - last_refill_ms e) 200 * 1000 < 2 ^ 53.
Proof.
  split; [reflexivity|].
  apply (bucket_state_bounds 200 2000 0 9 [0; 6] (mkEntry 1998 5 (Some 20006)));
    [lia|lia|repeat constructor; lia|simpl; lia|reflexivity].
Defined.
