(* ===== verification/Models.v ===== *)
(** The boundary models of [models/], the session of [graph/session.py] and the
    small data classes the components exchange.  Pydantic itself is third-party:
    how it coerces a scalar and words an error are parameters; which field is
    checked for what, in which order, is read off the source. *)
From S2P Require Import Prelude PyStr PyDict Json JsonText Errors.
Local Open Scope Z_scope.

Class Pydantic := {
  lax_int : json → option Z;
  lax_float : json → option Q;
  lax_bool : json → option bool;
  lax_datetime : json → option Z;
  pyd_msg : string → string;
  pyd_str : list (list string * string) → string;
  policy_json_schema : json }.  (* CollectionPolicySpec.model_json_schema() *)

(** Documented coercions: a value that already has the declared type is kept,
    an integer is accepted where a float is declared. *)
Class PydanticLaws `{Pydantic} := {
  lax_int_int : ∀ z, lax_int (JInt z) = Some z;
  lax_float_float : ∀ q, lax_float (JFloat q) = Some q;
  lax_float_int : ∀ z, lax_float (JInt z) = Some (inject_Z z);
  lax_bool_bool : ∀ b, lax_bool (JBool b) = Some b }.

(** * Validation with accumulated errors *)
Definition verr : Type := list string * string.
Definition V (A : Type) : Type := result (list verr) A.

(** Apply, collecting the errors of both sides in order. *)
Definition vap {A B} (f : V (A → B)) (a : V A) : V B :=
  match f, a with
  | Ok g, Ok x => Ok (g x)
  | Raise e, Ok _ => Raise e
  | Ok _, Raise e => Raise e
  | Raise e, Raise e' => Raise (e ++ e')
  end.
Notation "f ⊛ a" := (vap f a) (at level 61, left associativity).
Definition vfail {A} (ty : string) : V A := Raise [([], ty)].
Definition at_loc {A} (l : string) (v : V A) : V A :=
  match v with Ok a => Ok a | Raise es => Raise ((λ e, (l :: e.1, e.2)) <$> es) end.
Definition and_then {A B} (v : V A) (k : A → V B) : V B :=
  match v with Ok a => k a | Raise es => Raise es end.

Section Checks.
Context `{Pydantic}.

Definition c_str (j : json) : V string :=
  match j with JStr s => Ok s | _ => vfail "string_type" end.
(** [StringConstraints(min_length, max_length, pattern)]. *)
Definition c_str_len (lo : nat) (hi : option nat) (j : json) : V string :=
  and_then (c_str j) (λ s,
    if (String.length s <? lo)%nat then vfail "string_too_short"
    else match hi with
         | Some h => if (h <? String.length s)%nat then vfail "string_too_long" else Ok s
         | None => Ok s
         end).
Definition c_pattern (p : string → bool) (v : V string) : V string :=
  and_then v (λ s, if p s then Ok s else vfail "string_pattern_mismatch").
Definition NonEmptyStr : json → V string := c_str_len 1 None.

(** [^\d+\.\d+\.\d+$] with pydantic's engine, whose [$] is the end of the text. *)
Definition semver_shape (s : string) : bool :=
  match split_on "."%char s with
  | [a; b; c] => all_digits a && all_digits b && all_digits c
  | _ => false
  end.
Definition SemverStr (j : json) : V string := c_pattern semver_shape (c_str_len 5 None j).
Definition is_hex (c : ascii) : bool :=
  is_digit c || ((97 <=? code c)%nat && (code c <=? 102)%nat).
Definition Sha40 (j : json) : V string := c_pattern (sall is_hex) (c_str_len 40 (Some 40%nat) j).

Definition c_bool (j : json) : V bool :=
  match lax_bool j with Some b => Ok b | None => vfail "bool_parsing" end.
Definition c_int (j : json) : V Z :=
  match lax_int j with Some z => Ok z | None => vfail "int_parsing" end.
Definition c_float (j : json) : V Q :=
  match lax_float j with Some q => Ok q | None => vfail "float_parsing" end.
Definition c_int_range (lo hi : Z) (j : json) : V Z :=
  and_then (c_int j) (λ z,
    if hi <? z then vfail "less_than_equal"
    else if z <? lo then vfail "greater_than_equal" else Ok z).
Definition c_unit_float (j : json) : V Q :=
  and_then (c_float j) (λ q,
    if Qle_bool q 1 then if Qle_bool 0 q then Ok q else vfail "greater_than_equal"
    else vfail "less_than_equal").
Definition c_positive_float (j : json) : V Q :=
  and_then (c_float j) (λ q, if Qle_bool q 0 then vfail "greater_than" else Ok q).
Definition c_datetime (j : json) : V Z :=
  match lax_datetime j with Some t => Ok t | None => vfail "datetime_parsing" end.
Definition c_literal (opts : list string) (j : json) : V string :=
  match j with
  | JStr s => if bool_decide (s ∈ opts) then Ok s else vfail "literal_error"
  | _ => vfail "literal_error"
  end.
Definition c_dict (j : json) : V json :=
  match j with JObj _ => Ok j | _ => vfail "dict_type" end.
Definition c_optional {A} (c : json → V A) (j : json) : V (option A) :=
  match j with
  | JNull => Ok None
  | _ => match c j with Ok a => Ok (Some a) | Raise es => Raise es end
  end.

Fixpoint c_items {A} (c : json → V A) (i : Z) (l : list json) : V (list A) :=
  match l with
  | [] => Ok []
  | j :: l' => Ok cons ⊛ at_loc (str_of_Z i) (c j) ⊛ c_items c (i + 1) l'
  end.
Definition c_list {A} (c : json → V A) (min_length : nat) (j : json) : V (list A) :=
  match j with
  | JArr l => and_then (c_items c 0 l) (λ xs,
      if (length xs <? min_length)%nat then vfail "too_short" else Ok xs)
  | _ => vfail "list_type"
  end.

Definition field {A} (obj : list (string * json)) (name : string) (c : json → V A) : V A :=
  match dget name obj with
  | Some j => at_loc name (c j)
  | None => at_loc name (vfail "missing")
  end.
Definition field_default {A} (obj : list (string * json)) (name : string) (d : A)
    (c : json → V A) : V A :=
  match dget name obj with Some j => at_loc name (c j) | None => Ok d end.
(** [extra="forbid"], reported after the declared fields. *)
Definition no_extra {A} (names : list string) (obj : list (string * json)) (v : V A) : V A :=
  Ok (λ a (_ : unit), a) ⊛ v ⊛
  match filter (λ k, k ∉ names) (dkeys obj) with
  | [] => Ok tt
  | ks => Raise ((λ k, ([k], "extra_forbidden")) <$> ks)
  end.
Definition model {A} (names : list string) (build : list (string * json) → V A) (j : json) : V A :=
  match j with
  | JObj obj => no_extra names obj (build obj)
  | _ => vfail "model_type"
  end.

(** * [models/finding.py] *)
Record DiagnosticFinding := {
  f_schema_version : string;
  f_finding_id : string;
  f_anomaly_type : string;
  f_hypothesis_class : string;
  f_hypothesis_statement : string;
  f_candidate_signals : list string;
  f_vehicle_scope : list string;
  f_upstream_confidence : Q }.

Definition validate_finding : json → V DiagnosticFinding :=
  model ["schema_version"; "finding_id"; "anomaly_type"; "hypothesis_class";
         "hypothesis_statement"; "candidate_signals"; "vehicle_scope"; "upstream_confidence"]
    (λ o, Ok Build_DiagnosticFinding
      ⊛ field o "schema_version" SemverStr
      ⊛ field o "finding_id" (c_str_len 1 (Some 256%nat))
      ⊛ field o "anomaly_type" NonEmptyStr
      ⊛ field o "hypothesis_class" NonEmptyStr
      ⊛ field o "hypothesis_statement" (c_str_len 1 (Some 4096%nat))
      ⊛ field o "candidate_signals" (c_list NonEmptyStr 1)
      ⊛ field o "vehicle_scope" (c_list NonEmptyStr 1)
      ⊛ field o "upstream_confidence" c_unit_float).

(** * [models/policy.py] *)
Record SignalCollectionSpec := {
  vss_name : string; sample_rate_hz : Q; priority : Z }.
Definition validate_signal_spec : json → V SignalCollectionSpec :=
  model ["vss_name"; "sample_rate_hz"; "priority"]
    (λ o, Ok Build_SignalCollectionSpec
      ⊛ field o "vss_name" NonEmptyStr
      ⊛ field o "sample_rate_hz" c_positive_float
      ⊛ field o "priority" (c_int_range 0 10)).

Record TriggerSpec := { t_kind : string; t_params : json }.
Definition validate_trigger : json → V TriggerSpec :=
  model ["kind"; "params"]
    (λ o, Ok Build_TriggerSpec
      ⊛ field o "kind" (c_literal ["threshold"; "time_window"; "geofence"; "scheduled"])
      ⊛ field o "params" c_dict).

Record DataGovernanceFlags := { pii_consent : bool; has_pii_signal : bool }.
(** [_consent_required_when_pii]. *)
Definition consent_required_when_pii (g : DataGovernanceFlags) : V DataGovernanceFlags :=
  if has_pii_signal g && negb (pii_consent g) then vfail "value_error" else Ok g.
Definition validate_flags (j : json) : V DataGovernanceFlags :=
  and_then
    (model ["pii_consent"; "has_pii_signal"]
      (λ o, Ok Build_DataGovernanceFlags
        ⊛ field o "pii_consent" c_bool
        ⊛ field o "has_pii_signal" c_bool) j)
    consent_required_when_pii.

Record OriginatingFinding := { of_tenant_id : string; of_finding_id : string }.
Definition validate_originating : json → V OriginatingFinding :=
  model ["tenant_id"; "finding_id"]
    (λ o, Ok Build_OriginatingFinding
      ⊛ field o "tenant_id" NonEmptyStr
      ⊛ field o "finding_id" NonEmptyStr).

Record CollectionPolicySpec := {
  p_policy_id : string;
  p_version : string;
  p_signals : list SignalCollectionSpec;
  p_trigger_conditions : list TriggerSpec;
  p_window_hours : Z;
  p_hypothesis : string;
  p_vehicle_scope : list string;
  p_flags : DataGovernanceFlags;
  p_confidence_threshold : Q;
  p_session_id : string;
  p_originating_finding : OriginatingFinding;
  p_prompt_template_version : option string;
  p_slm_repo : option string;
  p_slm_revision_sha : option string;
  p_slm_runtime : option string;
  p_slm_runtime_version : option string;
  p_slm_quantization : option string;
  p_slm_decoding_seed : option Z;
  p_created_at : option Z }.

Definition policy_fields : list string :=
  ["policy_id"; "version"; "signals"; "trigger_conditions"; "collection_window_hours";
   "hypothesis"; "vehicle_scope"; "data_governance_flags"; "confidence_threshold";
   "generated_from_session_id"; "originating_finding"; "prompt_template_version"; "slm_repo";
   "slm_revision_sha"; "slm_runtime"; "slm_runtime_version"; "slm_quantization";
   "slm_decoding_seed"; "created_at"].

Definition validate_policy : json → V CollectionPolicySpec :=
  model policy_fields
    (λ o, Ok Build_CollectionPolicySpec
      ⊛ field o "policy_id" NonEmptyStr
      ⊛ field o "version" SemverStr
      ⊛ field o "signals" (c_list validate_signal_spec 1)
      ⊛ field_default o "trigger_conditions" [] (c_list validate_trigger 0)
      ⊛ field o "collection_window_hours" (c_int_range 1 168)
      ⊛ field o "hypothesis" NonEmptyStr
      ⊛ field o "vehicle_scope" (c_list NonEmptyStr 1)
      ⊛ field o "data_governance_flags" validate_flags
      ⊛ field o "confidence_threshold" c_unit_float
      ⊛ field o "generated_from_session_id" NonEmptyStr
      ⊛ field o "originating_finding" validate_originating
      ⊛ field_default o "prompt_template_version" None (c_optional SemverStr)
      ⊛ field_default o "slm_repo" None (c_optional c_str)
      ⊛ field_default o "slm_revision_sha" None (c_optional Sha40)
      ⊛ field_default o "slm_runtime" None (c_optional (c_literal ["vllm"; "llama_cpp"; "stub"]))
      ⊛ field_default o "slm_runtime_version" None (c_optional c_str)
      ⊛ field_default o "slm_quantization" None (c_optional (c_literal ["bf16"; "gguf-q4_k_m"; "none"]))
      ⊛ field_default o "slm_decoding_seed" None (c_optional c_int)
      ⊛ field_default o "created_at" None (c_optional c_datetime)).

(** * [models/erasure.py] *)
Record ErasureRequest := { subject_kind : string; subject_identifier : string; er_mode : string }.
Definition validate_erasure : json → V ErasureRequest :=
  model ["subject_kind"; "subject_identifier"; "mode"]
    (λ o, Ok Build_ErasureRequest
      ⊛ field o "subject_kind" (c_literal ["vehicle"; "finding"; "principal"])
      ⊛ field o "subject_identifier" NonEmptyStr
      ⊛ field_default o "mode" "erased" (c_literal ["erased"; "redacted"])).
End Checks.

(** ** What a validated model guarantees *)
Section Validated.
Context `{Pydantic}.

Lemma vap_ok {A B} (f : V (A → B)) (a : V A) b :
  f ⊛ a = Ok b → ∃ g x, f = Ok g ∧ a = Ok x ∧ b = g x.
Proof. destruct f, a; simpl; intros; simplify_eq; eauto. Qed.
Lemma at_loc_ok {A} l (v : V A) a : at_loc l v = Ok a → v = Ok a.
Proof. by destruct v. Qed.
Lemma field_ok {A} o name (c : json → V A) a :
  field o name c = Ok a → ∃ j, dget name o = Some j ∧ c j = Ok a.
Proof. unfold field. destruct (dget name o) as [j|]; [|done]. intros E%at_loc_ok. eauto. Qed.
Lemma model_ok {A} names (build : list (string * json) → V A) j a :
  model names build j = Ok a →
  ∃ o, j = JObj o ∧ build o = Ok a ∧ ∀ k, k ∈ dkeys o → k ∈ names.
Proof.
  destruct j as [ | | | | | |o]; try done. simpl. unfold no_extra.
  intros (g & u & E & Ex & ->)%vap_ok. apply vap_ok in E as (g' & b & [= <-] & Eb & ->).
  exists o. split_and!; [done..|]. intros k Hk. destruct (decide (k ∈ names)) as [|Hn]; [done|].
  assert (k ∈ filter (λ k, k ∉ names) (dkeys o)) as Hf by (by apply list_elem_of_filter).
  destruct (filter _ (dkeys o)); [by apply not_elem_of_nil in Hf | done].
Qed.
Lemma vap_raise {A B} (f : V (A → B)) es : ∃ es', f ⊛ Raise es = Raise (es' ++ es).
Proof. destruct f as [g|e]; [by exists []|by exists e]. Qed.
(** A key outside the declared fields is reported. *)
Lemma model_extra {A} names (build : list (string * json) → V A) o k :
  k ∈ dkeys o → k ∉ names → ∃ es, model names build (JObj o) = Raise es ∧ ([k], "extra_forbidden") ∈ es.
Proof.
  intros Hk Hn. simpl. unfold no_extra.
  assert (k ∈ filter (λ k, k ∉ names) (dkeys o)) as Hf by (by apply list_elem_of_filter).
  destruct (filter _ (dkeys o)) as [|k0 ks]; [by apply not_elem_of_nil in Hf|].
  match goal with |- context [?f ⊛ Raise ?l] => destruct (vap_raise f l) as [es E]; exists (es ++ l) end.
  split; [exact E|]. apply elem_of_app. right.
  apply (list_elem_of_fmap_2 (λ k, ([k], "extra_forbidden"))), Hf.
Qed.
(** A key outside the declared fields is absent. *)
Lemma model_closed {A} names (build : list (string * json) → V A) j a k :
  model names build j = Ok a → k ∉ names → jget k j = None.
Proof.
  intros (o & -> & _ & Hk)%model_ok Hn. rewrite jget_obj. apply dget_None. auto.
Qed.
Lemma str_len_ok lo hi j s : c_str_len lo hi j = Ok s →
  j = JStr s ∧ (lo ≤ String.length s)%nat ∧ ∀ h, hi = Some h → (String.length s ≤ h)%nat.
Proof.
  unfold c_str_len. destruct j as [ | | | |x| |]; try done. simpl.
  destruct (Nat.ltb_spec (String.length x) lo); [done|].
  destruct hi as [h|]; [destruct (Nat.ltb_spec h (String.length x)); [done|]|];
    intros [= <-]; split_and!; try done; by intros ? [= <-].
Qed.
Lemma int_range_ok lo hi j z : c_int_range lo hi j = Ok z → lo ≤ z ≤ hi.
Proof.
  unfold c_int_range, c_int, and_then. destruct (lax_int j) as [y|]; [|done].
  destruct (Z.ltb_spec hi y); [done|]. destruct (Z.ltb_spec y lo); [done|].
  intros [= <-]. lia.
Qed.
Lemma list_ok {A} (c : json → V A) min j xs : c_list c min j = Ok xs →
  ∃ l, j = JArr l ∧ Forall2 (λ v x, c v = Ok x) l xs ∧ (min ≤ length xs)%nat.
Proof.
  unfold c_list. destruct j as [ | | | | |l|]; try done.
  destruct (c_items c 0 l) as [ys|] eqn:E; simpl; [|done].
  destruct (Nat.ltb_spec (length ys) min) as [|Hmin]; [done|]. intros [= <-].
  exists l. split_and!; [done| |done]. clear Hmin. revert ys E. generalize 0 as i.
  induction l as [|v l IH]; intros i ys E; cbn [c_items] in E; [by simplify_eq; constructor|].
  apply vap_ok in E as (g & zs & E & Ez & ->). apply vap_ok in E as (g' & x & [= <-] & Ex & ->).
  constructor; [by apply at_loc_ok in Ex | by eapply IH].
Qed.
End Validated.

(** * [graph/session.py] *)
Record session := Session {
  s_session_id : string;
  s_tenant_id : string;
  s_correlation_id : string;
  s_originating_finding : json;
  s_execution_plan : list string;
  s_retry_count : Z;
  s_retry_budget : Z;
  s_validation_errors : list json;
  s_generated_policy : option json;
  s_deployment_record : option json;
  s_outcome_record : option json;
  s_started_at : Z;
  s_last_runtime_info : option json;
  s_last_decoding_seed : option Z;
  s_prompt_template_version : string }.

(** The constructor call with the field defaults. *)
Definition new_session (sid tid cid : string) (finding : json) (started : Z) : session :=
  Session sid tid cid finding ["generate"; "validate"; "deploy"] 0 3 [] None None None started
    None None "1.0.0".

Definition retry_budget_exhausted (s : session) : bool := s_retry_budget s <=? s_retry_count s.

(** * [deployer/client.py] *)
Record DeployResponse := {
  dr_deployment_id : string;
  dr_status : string;
  dr_downstream : option json;
  dr_accepted_at : option string;
  dr_expires_at : option string }.

(** The keyword arguments of one [CollectorAIClient.deploy] call. *)
Record deploy_call := DeployCall {
  dc_tenant_id : string;
  dc_policy_id : json;
  dc_version : json;
  dc_vehicle_scope : list json;
  dc_payload : json;
  dc_signature : string;
  dc_key_id : string }.

(** * [registry/tenant_config.py] data classes *)
Record RateLimitBucket := { sustained_rps : Z; burst_capacity : Z }.
Record TenantConfig := {
  tc_tenant_id : string;
  tc_inbound : RateLimitBucket;
  tc_query : RateLimitBucket;
  tc_source : string;
  tc_updated_at : option string }.

(** * [auth/jwt_verifier.py] data classes *)
Record Principal := {
  pr_tenant_id : string; pr_subject : string; pr_scopes : list string; pr_token_id : string }.

(** A verifier instance: its configuration, the resolved JWKS address and the
    JWKS client (by the number of the call that built it), both filled lazily. *)
Record verifier := Verifier {
  v_issuer_url : string;
  v_audience : string;
  v_cache_ttl : Z;
  v_clock_skew : Z;
  v_jwks_uri : option string;
  v_jwks_client : option nat;
  v_calls : nat }.

#[export] Instance RateLimitBucket_eq_dec : EqDecision RateLimitBucket.
Proof. solve_decision. Defined.
#[export] Instance TenantConfig_eq_dec : EqDecision TenantConfig.
Proof. solve_decision. Defined.
#[export] Instance Principal_eq_dec : EqDecision Principal.
Proof. solve_decision. Defined.
