(* ===== verification/World.v ===== *)
(** The state the process acts on: the Postgres tables of the migrations, the
    Redis server, the in-process caches, the background tasks, the metric
    registry and the outbound calls made, in one record, with a functional
    update per field. *)
From S2P Require Import Prelude PyStr PyDict Json JsonText Errors TokenBucket Models.

(** * Table rows, as the migrations declare them (JSONB columns hold [json],
    TIMESTAMPTZ columns microseconds, NUMERIC columns rationals) *)
Record finding_row := FindingRow {
  fi_tenant_id : string;
  fi_finding_id : string;
  fi_schema_version : string;
  fi_anomaly_type : string;
  fi_hypothesis_class : string;
  fi_hypothesis_statement : string;
  fi_candidate_signals : json;
  fi_vehicle_scope : json;
  fi_upstream_confidence : Q;
  fi_received_at : Z;
  fi_received_payload_sha256 : string }.
Record policy_row := PolicyRow {
  po_tenant_id : string;
  po_policy_id : string;
  po_version : string;
  po_signal_spec : json;
  po_trigger_conditions : json;
  po_collection_window_hours_logical : Z;
  po_vehicle_scope : json;
  po_hypothesis_statement : string;
  po_data_governance_flags : json;
  po_confidence_threshold : Q;
  po_generated_from_session_id : string;
  po_originating_finding : json;
  po_prompt_template_version : string;
  po_slm_repo : string;
  po_slm_revision_sha : string;
  po_slm_runtime : string;
  po_slm_runtime_version : string;
  po_slm_quantization : string;
  po_slm_decoding_seed : Z;
  po_payload_signature : string;
  po_signature_key_id : string;
  po_created_at : Z }.
Record deployment_row := DeploymentRow {
  dp_deployment_id : string;
  dp_tenant_id : string;
  dp_policy_id : string;
  dp_version : string;
  dp_environment : string;
  dp_vehicle_scope : json;
  dp_status : string;
  dp_downstream_response : option json;
  dp_requested_at : Z;
  dp_accepted_at : option Z;
  dp_expires_at : option Z }.
Record outcome_row := OutcomeRow {
  oc_outcome_id : string;
  oc_tenant_id : string;
  oc_originating_finding : json;
  oc_policy_id : string;
  oc_version : string;
  oc_hypothesis_state : string;
  oc_evaluated_at : Z;
  oc_evidence_summary : json;
  oc_signals_collected_count : Z;
  oc_data_quality_score : Q }.
Record audit_row := AuditRow {
  au_event_id : string;
  au_tenant_id : string;
  au_kind : string;
  au_originating_finding : option json;
  au_policy_ref : option json;
  au_deployment_ref : option json;
  au_outcome_ref : option json;
  au_slm_repo : option string;
  au_slm_revision_sha : option string;
  au_slm_runtime : option string;
  au_slm_runtime_version : option string;
  au_slm_quantization : option string;
  au_slm_decoding_seed : option Z;
  au_prompt_template_version : option string;
  au_inbound_schema_version : option string;
  au_time_acceleration_factor : option Q;
  au_principal_subject : string;
  au_correlation_id : string;
  au_occurred_at : Z }.
Record telemetry_row := TelemetryRow {
  te_tenant_id : string;
  te_vehicle_id : string;
  te_signal_name : string;
  te_value : Q;
  te_observed_at : Z;
  te_policy_ref : option json;
  te_source : string }.
Record erasure_row := ErasureRow {
  er_request_id : string;
  er_tenant_id : string;
  er_subject_kind : string;
  er_subject_identifier : string;
  er_requested_by : string;
  er_requested_at : Z;
  er_target_completion_at : Z;
  er_status : string;
  er_per_store_status : json;
  er_mode : string;
  er_completed_at : option Z }.
Record config_row := ConfigRow {
  cf_tenant_id : string;
  cf_inbound_sustained_rps : Z;
  cf_inbound_burst_capacity : Z;
  cf_query_sustained_rps : Z;
  cf_query_burst_capacity : Z;
  cf_updated_at : Z;
  cf_updated_by_subject : string }.
Record vehicle_row := VehicleRow {
  ve_vehicle_id : string;
  ve_tenant_id : string;
  ve_assigned_at : Z;
  ve_assigned_by_subject : string;
  ve_reason_code : string }.
Record history_row := HistoryRow {
  hi_history_id : Z;
  hi_vehicle_id : string;
  hi_prev_tenant_id : option string;
  hi_new_tenant_id : string;
  hi_operator_subject : string;
  hi_reason_code : string;
  hi_transition_at : Z;
  hi_correlation_id : string }.

Record db := Db {
  db_tenants : list string;
  db_diagnostic_findings : list finding_row;
  db_collection_policies : list policy_row;
  db_deployment_targets : list deployment_row;
  db_policy_outcomes : list outcome_row;
  db_audit_events : list audit_row;
  db_telemetry_observations : list telemetry_row;
  db_erasure_requests : list erasure_row;
  db_tenant_config : list config_row;
  db_tenant_vehicles : list vehicle_row;
  db_tenant_vehicles_history : list history_row }.
Definition upd_tenants (f : list string → list string) (d : db) : db :=
  Db (f (db_tenants d)) (db_diagnostic_findings d) (db_collection_policies d) (db_deployment_targets d) (db_policy_outcomes d) (db_audit_events d) (db_telemetry_observations d) (db_erasure_requests d) (db_tenant_config d) (db_tenant_vehicles d) (db_tenant_vehicles_history d).
Definition upd_diagnostic_findings (f : list finding_row → list finding_row) (d : db) : db :=
  Db (db_tenants d) (f (db_diagnostic_findings d)) (db_collection_policies d) (db_deployment_targets d) (db_policy_outcomes d) (db_audit_events d) (db_telemetry_observations d) (db_erasure_requests d) (db_tenant_config d) (db_tenant_vehicles d) (db_tenant_vehicles_history d).
Definition upd_collection_policies (f : list policy_row → list policy_row) (d : db) : db :=
  Db (db_tenants d) (db_diagnostic_findings d) (f (db_collection_policies d)) (db_deployment_targets d) (db_policy_outcomes d) (db_audit_events d) (db_telemetry_observations d) (db_erasure_requests d) (db_tenant_config d) (db_tenant_vehicles d) (db_tenant_vehicles_history d).
Definition upd_deployment_targets (f : list deployment_row → list deployment_row) (d : db) : db :=
  Db (db_tenants d) (db_diagnostic_findings d) (db_collection_policies d) (f (db_deployment_targets d)) (db_policy_outcomes d) (db_audit_events d) (db_telemetry_observations d) (db_erasure_requests d) (db_tenant_config d) (db_tenant_vehicles d) (db_tenant_vehicles_history d).
Definition upd_policy_outcomes (f : list outcome_row → list outcome_row) (d : db) : db :=
  Db (db_tenants d) (db_diagnostic_findings d) (db_collection_policies d) (db_deployment_targets d) (f (db_policy_outcomes d)) (db_audit_events d) (db_telemetry_observations d) (db_erasure_requests d) (db_tenant_config d) (db_tenant_vehicles d) (db_tenant_vehicles_history d).
Definition upd_audit_events (f : list audit_row → list audit_row) (d : db) : db :=
  Db (db_tenants d) (db_diagnostic_findings d) (db_collection_policies d) (db_deployment_targets d) (db_policy_outcomes d) (f (db_audit_events d)) (db_telemetry_observations d) (db_erasure_requests d) (db_tenant_config d) (db_tenant_vehicles d) (db_tenant_vehicles_history d).
Definition upd_telemetry_observations (f : list telemetry_row → list telemetry_row) (d : db) : db :=
  Db (db_tenants d) (db_diagnostic_findings d) (db_collection_policies d) (db_deployment_targets d) (db_policy_outcomes d) (db_audit_events d) (f (db_telemetry_observations d)) (db_erasure_requests d) (db_tenant_config d) (db_tenant_vehicles d) (db_tenant_vehicles_history d).
Definition upd_erasure_requests (f : list erasure_row → list erasure_row) (d : db) : db :=
  Db (db_tenants d) (db_diagnostic_findings d) (db_collection_policies d) (db_deployment_targets d) (db_policy_outcomes d) (db_audit_events d) (db_telemetry_observations d) (f (db_erasure_requests d)) (db_tenant_config d) (db_tenant_vehicles d) (db_tenant_vehicles_history d).
Definition upd_tenant_config (f : list config_row → list config_row) (d : db) : db :=
  Db (db_tenants d) (db_diagnostic_findings d) (db_collection_policies d) (db_deployment_targets d) (db_policy_outcomes d) (db_audit_events d) (db_telemetry_observations d) (db_erasure_requests d) (f (db_tenant_config d)) (db_tenant_vehicles d) (db_tenant_vehicles_history d).
Definition upd_tenant_vehicles (f : list vehicle_row → list vehicle_row) (d : db) : db :=
  Db (db_tenants d) (db_diagnostic_findings d) (db_collection_policies d) (db_deployment_targets d) (db_policy_outcomes d) (db_audit_events d) (db_telemetry_observations d) (db_erasure_requests d) (db_tenant_config d) (f (db_tenant_vehicles d)) (db_tenant_vehicles_history d).
Definition upd_tenant_vehicles_history (f : list history_row → list history_row) (d : db) : db :=
  Db (db_tenants d) (db_diagnostic_findings d) (db_collection_policies d) (db_deployment_targets d) (db_policy_outcomes d) (db_audit_events d) (db_telemetry_observations d) (db_erasure_requests d) (db_tenant_config d) (db_tenant_vehicles d) (f (db_tenant_vehicles_history d)).

(** * Redis: keys with string or bucket values, and the script cache *)
Inductive rval := RStr (s : string) (expire_at_ms : option Z) | RHash (e : entry).
Record redis := Redis { r_scripts : bool; r_data : gmap string rval }.
Definition upd_scripts (f : bool → bool) (r : redis) : redis := Redis (f (r_scripts r)) (r_data r).
Definition upd_data (f : gmap string rval → gmap string rval) (r : redis) : redis :=
  Redis (r_scripts r) (f (r_data r)).

(** * Background tasks ([asyncio.create_task]) *)
Inductive task :=
| TGraph (s : session) (sim_directive accel_header : option string)
| TErase (tenant_id request_id : string) (payload : ErasureRequest).

(** * Operations on Prometheus metrics, in order *)
Inductive metric :=
| MInc (name : string) (labels : list string)
| MSet (name : string) (labels : list string) (v : Q)
| MObserve (name : string) (labels : list string) (v : Q).

Record world := World {
  w_pool : bool;
  w_db : db;
  w_guc : option string;     (* app.tenant_id of the connection in use: a transaction is one step *)
  w_redis_client : bool;
  w_redis : redis;
  w_cfg_cache : list (string * (Z * TenantConfig));
  w_lua_sha : option string;
  w_verifier : verifier;
  w_op_verifier : verifier;
  w_tasks : list task;
  w_metrics : list metric;
  w_sent : list deploy_call;
  w_inflight : list (string * DeployResponse);
  w_clock_n : nat;
  w_mono_n : nat;
  w_ids_n : nat;
  w_rand_n : nat;
  w_redis_n : nat }.
Definition upd_pool (f : bool → bool) (w : world) : world :=
  World (f (w_pool w)) (w_db w) (w_guc w) (w_redis_client w) (w_redis w) (w_cfg_cache w) (w_lua_sha w) (w_verifier w) (w_op_verifier w) (w_tasks w) (w_metrics w) (w_sent w) (w_inflight w) (w_clock_n w) (w_mono_n w) (w_ids_n w) (w_rand_n w) (w_redis_n w).
Definition upd_db (f : db → db) (w : world) : world :=
  World (w_pool w) (f (w_db w)) (w_guc w) (w_redis_client w) (w_redis w) (w_cfg_cache w) (w_lua_sha w) (w_verifier w) (w_op_verifier w) (w_tasks w) (w_metrics w) (w_sent w) (w_inflight w) (w_clock_n w) (w_mono_n w) (w_ids_n w) (w_rand_n w) (w_redis_n w).
Definition upd_guc (f : option string → option string) (w : world) : world :=
  World (w_pool w) (w_db w) (f (w_guc w)) (w_redis_client w) (w_redis w) (w_cfg_cache w) (w_lua_sha w) (w_verifier w) (w_op_verifier w) (w_tasks w) (w_metrics w) (w_sent w) (w_inflight w) (w_clock_n w) (w_mono_n w) (w_ids_n w) (w_rand_n w) (w_redis_n w).
Definition upd_redis_client (f : bool → bool) (w : world) : world :=
  World (w_pool w) (w_db w) (w_guc w) (f (w_redis_client w)) (w_redis w) (w_cfg_cache w) (w_lua_sha w) (w_verifier w) (w_op_verifier w) (w_tasks w) (w_metrics w) (w_sent w) (w_inflight w) (w_clock_n w) (w_mono_n w) (w_ids_n w) (w_rand_n w) (w_redis_n w).
Definition upd_redis (f : redis → redis) (w : world) : world :=
  World (w_pool w) (w_db w) (w_guc w) (w_redis_client w) (f (w_redis w)) (w_cfg_cache w) (w_lua_sha w) (w_verifier w) (w_op_verifier w) (w_tasks w) (w_metrics w) (w_sent w) (w_inflight w) (w_clock_n w) (w_mono_n w) (w_ids_n w) (w_rand_n w) (w_redis_n w).
Definition upd_cfg_cache (f : list (string * (Z * TenantConfig)) → list (string * (Z * TenantConfig))) (w : world) : world :=
  World (w_pool w) (w_db w) (w_guc w) (w_redis_client w) (w_redis w) (f (w_cfg_cache w)) (w_lua_sha w) (w_verifier w) (w_op_verifier w) (w_tasks w) (w_metrics w) (w_sent w) (w_inflight w) (w_clock_n w) (w_mono_n w) (w_ids_n w) (w_rand_n w) (w_redis_n w).
Definition upd_lua_sha (f : option string → option string) (w : world) : world :=
  World (w_pool w) (w_db w) (w_guc w) (w_redis_client w) (w_redis w) (w_cfg_cache w) (f (w_lua_sha w)) (w_verifier w) (w_op_verifier w) (w_tasks w) (w_metrics w) (w_sent w) (w_inflight w) (w_clock_n w) (w_mono_n w) (w_ids_n w) (w_rand_n w) (w_redis_n w).
Definition upd_verifier (f : verifier → verifier) (w : world) : world :=
  World (w_pool w) (w_db w) (w_guc w) (w_redis_client w) (w_redis w) (w_cfg_cache w) (w_lua_sha w) (f (w_verifier w)) (w_op_verifier w) (w_tasks w) (w_metrics w) (w_sent w) (w_inflight w) (w_clock_n w) (w_mono_n w) (w_ids_n w) (w_rand_n w) (w_redis_n w).
Definition upd_op_verifier (f : verifier → verifier) (w : world) : world :=
  World (w_pool w) (w_db w) (w_guc w) (w_redis_client w) (w_redis w) (w_cfg_cache w) (w_lua_sha w) (w_verifier w) (f (w_op_verifier w)) (w_tasks w) (w_metrics w) (w_sent w) (w_inflight w) (w_clock_n w) (w_mono_n w) (w_ids_n w) (w_rand_n w) (w_redis_n w).
Definition upd_tasks (f : list task → list task) (w : world) : world :=
  World (w_pool w) (w_db w) (w_guc w) (w_redis_client w) (w_redis w) (w_cfg_cache w) (w_lua_sha w) (w_verifier w) (w_op_verifier w) (f (w_tasks w)) (w_metrics w) (w_sent w) (w_inflight w) (w_clock_n w) (w_mono_n w) (w_ids_n w) (w_rand_n w) (w_redis_n w).
Definition upd_metrics (f : list metric → list metric) (w : world) : world :=
  World (w_pool w) (w_db w) (w_guc w) (w_redis_client w) (w_redis w) (w_cfg_cache w) (w_lua_sha w) (w_verifier w) (w_op_verifier w) (w_tasks w) (f (w_metrics w)) (w_sent w) (w_inflight w) (w_clock_n w) (w_mono_n w) (w_ids_n w) (w_rand_n w) (w_redis_n w).
Definition upd_sent (f : list deploy_call → list deploy_call) (w : world) : world :=
  World (w_pool w) (w_db w) (w_guc w) (w_redis_client w) (w_redis w) (w_cfg_cache w) (w_lua_sha w) (w_verifier w) (w_op_verifier w) (w_tasks w) (w_metrics w) (f (w_sent w)) (w_inflight w) (w_clock_n w) (w_mono_n w) (w_ids_n w) (w_rand_n w) (w_redis_n w).
Definition upd_inflight (f : list (string * DeployResponse) → list (string * DeployResponse)) (w : world) : world :=
  World (w_pool w) (w_db w) (w_guc w) (w_redis_client w) (w_redis w) (w_cfg_cache w) (w_lua_sha w) (w_verifier w) (w_op_verifier w) (w_tasks w) (w_metrics w) (w_sent w) (f (w_inflight w)) (w_clock_n w) (w_mono_n w) (w_ids_n w) (w_rand_n w) (w_redis_n w).
Definition upd_clock_n (f : nat → nat) (w : world) : world :=
  World (w_pool w) (w_db w) (w_guc w) (w_redis_client w) (w_redis w) (w_cfg_cache w) (w_lua_sha w) (w_verifier w) (w_op_verifier w) (w_tasks w) (w_metrics w) (w_sent w) (w_inflight w) (f (w_clock_n w)) (w_mono_n w) (w_ids_n w) (w_rand_n w) (w_redis_n w).
Definition upd_mono_n (f : nat → nat) (w : world) : world :=
  World (w_pool w) (w_db w) (w_guc w) (w_redis_client w) (w_redis w) (w_cfg_cache w) (w_lua_sha w) (w_verifier w) (w_op_verifier w) (w_tasks w) (w_metrics w) (w_sent w) (w_inflight w) (w_clock_n w) (f (w_mono_n w)) (w_ids_n w) (w_rand_n w) (w_redis_n w).
Definition upd_ids_n (f : nat → nat) (w : world) : world :=
  World (w_pool w) (w_db w) (w_guc w) (w_redis_client w) (w_redis w) (w_cfg_cache w) (w_lua_sha w) (w_verifier w) (w_op_verifier w) (w_tasks w) (w_metrics w) (w_sent w) (w_inflight w) (w_clock_n w) (w_mono_n w) (f (w_ids_n w)) (w_rand_n w) (w_redis_n w).
Definition upd_rand_n (f : nat → nat) (w : world) : world :=
  World (w_pool w) (w_db w) (w_guc w) (w_redis_client w) (w_redis w) (w_cfg_cache w) (w_lua_sha w) (w_verifier w) (w_op_verifier w) (w_tasks w) (w_metrics w) (w_sent w) (w_inflight w) (w_clock_n w) (w_mono_n w) (w_ids_n w) (f (w_rand_n w)) (w_redis_n w).
Definition upd_redis_n (f : nat → nat) (w : world) : world :=
  World (w_pool w) (w_db w) (w_guc w) (w_redis_client w) (w_redis w) (w_cfg_cache w) (w_lua_sha w) (w_verifier w) (w_op_verifier w) (w_tasks w) (w_metrics w) (w_sent w) (w_inflight w) (w_clock_n w) (w_mono_n w) (w_ids_n w) (w_rand_n w) (f (w_redis_n w)).

Notation M := (prog exn world).

#[export] Hint Extern 1 (stable _ (modify _)) => (intros ?; reflexivity) : effects.

(** * Readings *)
Section Readings.
Context `{Env}.
(** [datetime.now(tz=UTC)] and SQL [now()]. *)
Definition now : M Z := n ← gets w_clock_n; modify (upd_clock_n S);; mret (clock n).
(** [time.monotonic()]. *)
Definition now_mono : M Z := n ← gets w_mono_n; modify (upd_mono_n S);; mret (monotonic n).
Definition new_id : M string := n ← gets w_ids_n; modify (upd_ids_n S);; mret (fresh n).
Definition random : M Q := n ← gets w_rand_n; modify (upd_rand_n S);; mret (urandom n).
End Readings.

(** * Metrics *)
Definition inc (name : string) (labels : list string) : M unit :=
  modify (upd_metrics (λ l, l ++ [MInc name labels])).
Definition set_gauge (name : string) (labels : list string) (v : Q) : M unit :=
  modify (upd_metrics (λ l, l ++ [MSet name labels v])).
Definition observe (name : string) (labels : list string) (v : Q) : M unit :=
  modify (upd_metrics (λ l, l ++ [MObserve name labels v])).
(** The value of a counter. *)
Definition counter (name : string) (labels : list string) (w : world) : nat :=
  length (List.filter (λ m, match m with
    | MInc n ls => str_eqb n name && bool_decide (ls = labels)
    | _ => false end) (w_metrics w)).

Definition spawn (t : task) : M unit := modify (upd_tasks (λ l, l ++ [t])).
