(* ===== verification/Threads.v ===== *)
(** Programs that can be suspended: a thread is a tree of atomic steps on the world,
    [run] plays it without interruption, and [implements] relates it to the program of
    the state monad it is cut from. *)
From S2P Require Import Prelude Json Errors Models World.

Inductive thread (A : Type) : Type :=
| TDone (r : result exn A)
| TStep (k : world → thread A * world).
Arguments TDone {A} r.
Arguments TStep {A} k.

Section ThreadInd.
Context {A} (P : thread A → Prop) (Hdone : ∀ r, P (TDone r)) (Hstep : ∀ k, (∀ w, P (k w).1) → P (TStep k)).
Fixpoint thread_tree_ind (t : thread A) : P t :=
  match t with
  | TDone r => Hdone r
  | TStep k => Hstep k (λ w, match k w as p return P p.1 with (t', _) => thread_tree_ind t' end)
  end.
End ThreadInd.

(** The thread, played to its end. *)
Fixpoint run_thread {A} (t : thread A) : M A := λ w,
  match t with
  | TDone r => (r, w)
  | TStep k => match k w with (t', w') => run_thread t' w' end
  end.

(** One step that runs [m] to its end. *)
Definition atomic {A} (m : M A) : thread A := TStep (λ w, let '(r, w') := m w in (TDone r, w')).
#[global] Instance thread_ret : MRet thread := λ A a, TDone (Ok a).
#[global] Instance thread_bind : MBind thread := λ A B k,
  fix go t :=
    match t with
    | TDone (Ok a) => k a
    | TDone (Raise e) => TDone (Raise e)
    | TStep f => TStep (λ w, match f w with (t', w') => (go t', w') end)
    end.
(** [try: t  except Exception as e: h(e)]. *)
Fixpoint tcatch {A} (t : thread A) (h : exn → thread A) : thread A :=
  match t with
  | TDone (Ok a) => TDone (Ok a)
  | TDone (Raise e) => h e
  | TStep f => TStep (λ w, match f w with (t', w') => (tcatch t' h, w') end)
  end.
Fixpoint tfor_each {A} (l : list A) (f : A → thread unit) : thread unit :=
  match l with [] => mret tt | x :: l' => f x ;; tfor_each l' f end.
Definition twhen (b : bool) (t : thread unit) : thread unit := if b then t else mret tt.
Definition traise {A} (e : exn) : thread A := TDone (Raise e).

(** * Playing a thread is a morphism *)
Definition implements {A} (t : thread A) (m : M A) : Prop := ∀ w, run_thread t w = m w.

Lemma impl_ret {A} (a : A) : implements (mret a) (mret a).
Proof. done. Qed.
Lemma impl_raise {A} e : implements (traise e : thread A) (raise e).
Proof. done. Qed.
Lemma impl_atomic {A} (m : M A) : implements (atomic m) m.
Proof. intros w. simpl. by destruct (m w). Qed.
Lemma run_bind {A B} (t : thread A) (k : A → thread B) w :
  run_thread (t ≫= k) w = (run_thread t ≫= λ a, run_thread (k a)) w.
Proof.
  revert w. induction t as [[a|e]|f IH] using thread_tree_ind; intros w; [done..|].
  specialize (IH w). cbn. unfold mbind, prog_bind. simpl. destruct (f w) as [t' w']. apply IH.
Qed.
Lemma impl_bind {A B} (t : thread A) (m : M A) (k : A → thread B) (f : A → M B) :
  implements t m → (∀ a, implements (k a) (f a)) → implements (t ≫= k) (m ≫= f).
Proof.
  intros Ht Hk w. rewrite run_bind. unfold mbind, prog_bind. rewrite Ht.
  destruct (m w) as [[a|e] w']; [apply Hk|done].
Qed.
Lemma impl_catch {A} (t : thread A) (m : M A) h h' :
  implements t m → (∀ e, implements (h e) (h' e)) → implements (tcatch t h) (catch m h').
Proof.
  intros Ht Hh w. unfold catch. rewrite <- (Ht w). clear Ht. revert w.
  induction t as [[a|e]|f IH] using thread_tree_ind; intros w; [done|apply Hh|].
  specialize (IH w). cbn. destruct (f w) as [t' w']. apply IH.
Qed.
Lemma impl_for_each {A} (l : list A) f f' :
  (∀ x, implements (f x) (f' x)) → implements (tfor_each l f) (for_each l f').
Proof. intros Hf. induction l as [|x l IH]; [apply impl_ret|]. by apply impl_bind; [|intros []]. Qed.
Lemma impl_when b t m : implements t m → implements (twhen b t) (when b m).
Proof. intros Ht. destruct b; [done|apply impl_ret]. Qed.

Create HintDb threads.
#[export] Hint Resolve impl_ret impl_raise impl_atomic : threads.
Ltac implement_step :=
  match goal with
  | |- ∀ _, implements _ _ => intros ?
  | |- implements (mbind _ _) _ => apply impl_bind
  | |- implements (tcatch _ _) _ => apply impl_catch
  | |- implements (tfor_each _ _) _ => apply impl_for_each
  | |- implements (twhen _ _) _ => apply impl_when
  | |- implements (match ?x with _ => _ end) _ => destruct x
  | |- implements _ _ => solve [eauto with threads]
  end.
Ltac implement := repeat implement_step.
