(* ===== verification/Metrics.v ===== *)
(** [observability/metrics.py] and [ratelimit/metrics.py]: the declared metrics, and
    when a sample fits its declaration.  A sample keeps the label values in the order of the
    declaration; the source passes them by keyword. *)
From S2P Require Import Prelude PyStr Json Models World.

Inductive metric_kind := Counter | Gauge | Histogram (buckets : list Q).
(** A module attribute and the metric it holds; every series name is the attribute
    with the namespace in front. *)
Record decl := Decl { d_attr : string; d_kind : metric_kind; d_labels : list string }.
Definition REGISTRY_NAMESPACE : string := "collectmind".
Definition d_series (d : decl) : string := REGISTRY_NAMESPACE +:+ "_" +:+ d_attr d.

Definition OBSERVABILITY_METRICS : list decl := [
  Decl "diagnostic_findings_received_total" Counter ["tenant_id"];
  Decl "policy_generated_total" Counter ["tenant_id"];
  Decl "policy_validated_total" Counter ["tenant_id"];
  Decl "policy_deployed_total" Counter ["tenant_id"];
  Decl "policy_outcome_total" Counter ["tenant_id"; "state"];
  Decl "policy_retry_total" Counter ["tenant_id"];
  Decl "dead_letter_queue_depth" Gauge ["kind"];
  Decl "authentication_failure_total" Counter ["reason"];
  Decl "time_to_deploy_seconds" (Histogram [1 # 2; 1 # 1; 2 # 1; 4 # 1; 8 # 1; 12 # 1; 20 # 1; 30 # 1; 60 # 1; 120 # 1]) ["tenant_id"];
  Decl "query_request_latency_seconds" (Histogram [1 # 100; 1 # 40; 1 # 20; 1 # 10; 1 # 5; 1 # 2; 1 # 1; 2 # 1; 5 # 1]) ["route"; "status_class"];
  Decl "policy_outcome_write_delay_seconds" (Histogram [1 # 1; 5 # 1; 15 # 1; 30 # 1; 60 # 1; 120 # 1; 300 # 1; 600 # 1; 1800 # 1]) ["tenant_id"];
  Decl "http_request_total" Counter ["route"; "status_class"];
  Decl "slm_generation_latency_seconds" (Histogram [1 # 10; 1 # 4; 1 # 2; 1 # 1; 2 # 1; 4 # 1; 8 # 1; 16 # 1]) ["runtime"];
  Decl "slm_constraint_violation_total" Counter ["runtime"];
  Decl "slm_weight_sha_active" Gauge ["sha"];
  Decl "slm_runtime_image_digest_active" Gauge ["digest"; "runtime"];
  Decl "break_glass_invocation_total" Counter ["operator_subject"; "reason_code"];
  Decl "deployment_rejected_total" Counter ["policy_declared_tenant_id"; "vehicle_owning_tenant_id"; "reason"];
  Decl "cross_tenant_access_attempt_total" Counter ["endpoint"; "decision"];
  Decl "tenant_config_cache_consumer_lag_seconds" Gauge []].
Definition RATELIMIT_METRICS : list decl := [
  Decl "ratelimit_decision_total" Counter ["tenant_id"; "endpoint"; "decision"];
  Decl "ratelimit_throttled_total" Counter ["tenant_id"; "endpoint"];
  Decl "ratelimit_redis_unavailable_total" Counter ["endpoint"]].
Definition METRICS : list decl := OBSERVABILITY_METRICS ++ RATELIMIT_METRICS.

Definition find_metric (name : string) : option decl := List.find (λ d, str_eqb (d_attr d) name) METRICS.

(** A sample the client library accepts: the metric exists, is of the kind the call
    needs, and is given one value per label. *)
Definition accepted (m : metric) : bool :=
  match m with
  | MInc name ls => match find_metric name with
      | Some {| d_kind := Counter; d_labels := l |} => (length ls =? length l)%nat
      | _ => false end
  | MSet name ls _ => match find_metric name with
      | Some {| d_kind := Gauge; d_labels := l |} => (length ls =? length l)%nat
      | _ => false end
  | MObserve name ls _ => match find_metric name with
      | Some {| d_kind := Histogram _; d_labels := l |} => (length ls =? length l)%nat
      | _ => false end
  end.
Definition sample_name (m : metric) : string :=
  match m with MInc n _ | MSet n _ _ | MObserve n _ _ => n end.

(** Series names are distinct, as the registry demands, and the buckets of every
    histogram increase. *)
Fixpoint increasing (l : list Q) : bool :=
  match l with a :: (b :: _) as l' => negb (Qle_bool b a) && increasing l' | _ => true end.
Lemma registry_ok : NoDup (d_series <$> METRICS) ∧
  forallb (λ d, match d_kind d with Histogram bs => increasing bs | _ => true end) METRICS = true.
Proof. split; [apply (bool_decide_eq_true_1 _); vm_compute; reflexivity|vm_compute; reflexivity]. Qed.
