(* ===== verification/Samples.v ===== *)
(** A concrete environment and state on which the theorems are evaluated. *)
From stdpp Require Import pretty.
From S2P Require Import Prelude PyStr PyDict Json JsonText Errors TokenBucket Models World.
Local Open Scope Z_scope.

Module Samples.
(** Floats in fixed-point notation. *)
Definition floats : PyFloat := {|
  float_repr := λ q, (if Qnum q <? 0 then "-" else "") +:+
    let n := Z.abs (Qnum q) * 1000000 / Zpos (Qden q) in
    str_of_Z (n / 1000000) +:+ "." +:+ drop_str 1 (str_of_Z (1000000 + n mod 1000000));
  float_text := λ s, match split_on "." s with
    | [a; b] => if all_digits a && all_digits b
        then Some (Qred (digits_val (a +:+ b) # Z.to_pos (10 ^ Z.of_nat (String.length b)))) else None
    | _ => None
    end |}.
Definition env : Env := {|
  clock := λ n, 1700000000000000 + 1000 * Z.of_nat n;
  monotonic := λ n, 5000000 + 1000 * Z.of_nat n;
  fresh := λ n, "id-" +:+ pretty n;
  urandom := λ n, 1 # 2;
  redis_clock := λ n, 1700000000000 + Z.of_nat n;
  redis_fault := λ _, None;
  float_conv := floats;
  pg_text := λ _, "pg";
  jwt_text := λ _, "jwt" |}.

#[global] Instance env_laws : @EnvLaws env.
Proof.
  split; simpl.
  - intros n. done.
  - intros n m E. apply (inj pretty). by apply (inj (String.append "id-")) in E.
Qed.

Definition no_rows : db :=
  Db ["acme"; "globex"; "feature-001-default"] [] [] [] [] [] [] [] [] [] [].
Definition start : world :=
  World true no_rows None true (Redis false ∅) [] None
    (Verifier "http://mock-issuer:8088" "collectmind-api" 300 60 None None 0)
    (Verifier "http://operator-issuer:8088" "collectmind-operator" 300 60 None None 0)
    [] [] [] [] 0 0 0 0 0.
End Samples.
