(* ===== verification/Kafka.v ===== *)
(** [kafka/]: the producer with its tenant and correlation headers, and the
    consumer loop that commits after handling.  aiokafka is third-party code: what
    connecting, sending and committing answer is a parameter. *)
From S2P Require Import Prelude PyStr PyDict Json JsonText Errors Samples.
Local Open Scope nat_scope.

(** * The producer *)
Record produced := { r_topic : string; r_value : string; r_headers : list (string * string) }.

(** The client object, and whether its [start] returned; what was sent. *)
Record producer := Producer { p_producer : option bool; p_sent : list produced }.
Definition new_producer : producer := Producer None [].
#[local] Notation P := (prog exn producer).

Section Publishing.
Context `{PyFloat}.

(** [Producer.start]; [fault] is what connecting raises, if it does. *)
Definition producer_start (fault : option exn) : P unit :=
  s ← get;
  match p_producer s with
  | Some _ => mret tt
  | None =>
      modify (λ s, Producer (Some false) (p_sent s));;
      match fault with
      | Some e => raise e
      | None => modify (λ s, Producer (Some true) (p_sent s))
      end
  end.
(** [Producer.stop]. *)
Definition producer_stop (fault : option exn) : P unit :=
  s ← get;
  match p_producer s with
  | None => mret tt
  | Some _ =>
      match fault with
      | Some e => raise e
      | None => modify (λ s, Producer None (p_sent s))
      end
  end.
(** [Producer.publish]. *)
Definition headers_of (tenant_id correlation_id : string) (schema_version : option string) :
    list (string * string) :=
  [("tenant_id", tenant_id); ("correlation_id", correlation_id)] ++
  match schema_version with Some v => [("schema_version", v)] | None => [] end.
Definition publish (fault : option exn) (topic : string) (payload : json)
    (tenant_id correlation_id : string) (schema_version : option string) : P unit :=
  s ← get;
  match p_producer s with
  | None => raise (ERuntimeError "kafka producer is not started")
  | Some _ =>
      match fault with
      | Some e => raise e
      | None => modify (λ s, Producer (p_producer s)
          (p_sent s ++ [{| r_topic := topic; r_value := dumps payload;
                           r_headers := headers_of tenant_id correlation_id schema_version |}]))
      end
  end.
End Publishing.

(** A start that failed is not repeated: the next one returns at once, and the
    producer counts as started. *)
Theorem failed_start_not_retried (e : exn) (fault : option exn) (sent : list produced) :
  producer_start (Some e) (Producer None sent) = (Raise e, Producer (Some false) sent) ∧
  producer_start fault (Producer (Some false) sent) = (Ok tt, Producer (Some false) sent).
Proof. done. Qed.

(** * The consumer *)
Record message := { m_headers : option (list (string * string)); m_value : string }.

Section Consumer.
Context `{PyFloat} {S : Type} (handler : list (string * string) → json → prog exn S unit).
(** What the [n]-th commit raises, if it does. *)
Context (commit_fault : nat → option exn).

(** The offset the group has committed, the number of commits tried, and the state
    the handler acts on. *)
Record group := Group { g_committed : nat; g_commits : nat; g_state : S }.

(** [{k: v for k, v in (message.headers or [])}]. *)
Definition header_dict (m : message) : list (string * string) :=
  foldl (λ d kv, dset kv.1 kv.2 d) [] (default [] (m_headers m)).
(** Deserialising and handling one message. *)
Definition handle (m : message) : prog exn S unit := λ s,
  match loads (m_value m) with
  | None => (Raise (EJSONDecode (m_value m)), s)
  | Some value => handler (header_dict m) value s
  end.
Definition on_state (p : prog exn S unit) : prog exn group unit := λ g,
  let '(r, s) := p (g_state g) in (r, Group (g_committed g) (g_commits g) s).
(** [self._consumer.commit()], at the position after the [pos]-th message. *)
Definition commit (pos : nat) : prog exn group unit := λ g,
  match commit_fault (g_commits g) with
  | Some e => (Raise e, Group (g_committed g) (1 + g_commits g) (g_state g))
  | None => (Ok tt, Group (1 + pos) (1 + g_commits g) (g_state g))
  end.
(** The body of [run] over the messages of the log from position [pos] on. *)
Fixpoint consume (pos : nat) (msgs : list message) : prog exn group unit :=
  match msgs with
  | [] => mret tt
  | m :: msgs' => on_state (handle m);; commit pos;; consume (1 + pos) msgs'
  end.
(** [run] on a freshly started consumer: it reads on from the committed offset,
    until the log is exhausted or something raises. *)
Definition run (log : list message) : prog exn group unit := λ g,
  consume (g_committed g) (drop (g_committed g) log) g.
(** A supervisor that starts the consumer [n] times over. *)
Fixpoint restarts (n : nat) (log : list message) (g : group) : group :=
  match n with O => g | Datatypes.S n' => restarts n' log (run log g).2 end.

(** The [Consumer] object: its client and whether the client's [start] returned, the
    clients that hold a connection, and the group it belongs to. *)
Record consumer_conn := ConsumerConn { kc_client : option bool; kc_open : nat; kc_group : group }.
(** [Consumer.start] builds a client every time. *)
Definition consumer_start (fault : option exn) : prog exn consumer_conn unit :=
  modify (λ c, ConsumerConn (Some false) (kc_open c) (kc_group c));;
  match fault with
  | Some e => raise e
  | None => modify (λ c, ConsumerConn (Some true) (1 + kc_open c) (kc_group c))
  end.
(** [Consumer.stop]. *)
Definition consumer_stop (fault : option exn) : prog exn consumer_conn unit :=
  c ← get;
  match kc_client c with
  | None => mret tt
  | Some started =>
      match fault with
      | Some e => raise e
      | None => modify (λ c, ConsumerConn None (if started then kc_open c - 1 else kc_open c) (kc_group c))
      end
  end.
(** [Consumer.run]; [unstarted] is what reading from a client that never started raises. *)
Definition consumer_run (unstarted : exn) (log : list message) : prog exn consumer_conn unit := λ c,
  match kc_client c with
  | None => (Raise (ERuntimeError "kafka consumer is not started"), c)
  | Some false => (Raise unstarted, c)
  | Some true => let '(r, g) := run log (kc_group c) in (r, ConsumerConn (kc_client c) (kc_open c) g)
  end.

(** Handling messages with nothing in between. *)
Fixpoint handle_all (msgs : list message) : prog exn S unit :=
  match msgs with [] => mret tt | m :: msgs' => handle m;; handle_all msgs' end.

Lemma consume_prefix pos msgs g r g' : g_committed g = pos → consume pos msgs g = (r, g') →
  ∃ k s, g_committed g' = pos + k ∧ handle_all (take k msgs) (g_state g) = (Ok tt, s) ∧
    match r with
    | Ok _ => k = length msgs ∧ g_state g' = s
    | Raise e => ∃ m, msgs !! k = Some m ∧
        (handle m s = (Raise e, g_state g') ∨
         handle m s = (Ok tt, g_state g') ∧ commit_fault (g_commits g' - 1) = Some e)
    end.
Proof.
  revert pos g. induction msgs as [|m msgs IH]; intros pos g Hg E.
  { simpl in E. unfold mret, prog_ret in E. simplify_eq. exists 0, (g_state g'). split_and!; [lia|done..]. }
  cbn [consume] in E. unfold on_state in E. run_prog.
  destruct (handle m (g_state g)) as [[[]|e] s1] eqn:Eh; simpl in E.
  - unfold commit in E at 1. simpl in E. destruct (commit_fault (g_commits g)) as [e|] eqn:Ef.
    + simplify_eq. exists 0, (g_state g). split_and!; [simpl; lia|done|]. exists m. split; [done|]. right.
      simpl. by rewrite Nat.sub_0_r.
    + apply IH in E as (k & s & Hc & Ha & Hr); [|done]. exists (1 + k), s. split_and!; [simpl; lia| |].
      * cbn [take Nat.add handle_all]. run_prog. by rewrite Eh.
      * destruct r; [destruct Hr; split; [simpl; lia|done]|done].
  - simplify_eq. exists 0, (g_state g). split_and!; [simpl; lia|done|]. exists m. split; [done|]. by left.
Qed.
End Consumer.

(** Commits never run ahead of the handler: a run that starts at the committed
    offset advances it by exactly the messages handled and committed, in order;
    if it ends without an exception it has handled the whole log, otherwise the
    message that failed stays uncommitted and is delivered again. *)
Theorem consumer_commits_handled `{PyFloat} {S : Type} (handler : list (string * string) → json → prog exn S unit)
    (commit_fault : nat → option exn) (log : list message) (g g' : group) (r : result exn unit) :
  run handler commit_fault log g = (r, g') →
  ∃ k s, g_committed g' = g_committed g + k ∧
    handle_all handler (take k (drop (g_committed g) log)) (g_state g) = (Ok tt, s) ∧
    match r with
    | Ok _ => k = length log - g_committed g ∧ g_state g' = s
    | Raise e => ∃ m, log !! g_committed g' = Some m ∧
        (handle handler m s = (Raise e, g_state g') ∨
         handle handler m s = (Ok tt, g_state g') ∧ commit_fault (g_commits g' - 1) = Some e)
    end.
Proof.
  intros E. unfold run in E. apply consume_prefix in E as (k & s & Hc & Ha & Hr); [|done].
  exists k, s. split_and!; [done..|]. destruct r.
  - by rewrite length_drop in Hr.
  - by rewrite lookup_drop, <- Hc in Hr.
Qed.

(** A message that can never be handled stops the group for good: however often
    the consumer is restarted, nothing behind it is ever committed. *)
Theorem poison_message_blocks `{PyFloat} {S : Type} (handler : list (string * string) → json → prog exn S unit)
    (commit_fault : nat → option exn) (log : list message) (pos n : nat) (m : message) (g : group) :
  log !! pos = Some m → (∀ s, ∃ e s', handle handler m s = (Raise e, s')) → g_committed g ≤ pos →
  g_committed (restarts handler commit_fault n log g) ≤ pos.
Proof.
  intros Hm Hp. revert g. induction n as [|n IH]; intros g Hg; [done|]. simpl. apply IH.
  unfold run. destruct (consume _ _ _ _ g) as [r g'] eqn:E. simpl.
  apply consume_prefix in E as (k & s & Hc & Ha & _); [|done].
  destruct (decide (g_committed g + k ≤ pos)) as [|Hgt]; [lia|]. exfalso.
  assert (drop (g_committed g) log !! (pos - g_committed g) = Some m) as Hl
    by (rewrite lookup_drop; by replace (g_committed g + (pos - g_committed g)) with pos by lia).
  assert (take k (drop (g_committed g) log) !! (pos - g_committed g) = Some m) as Ht
    by (rewrite lookup_take_lt by lia; done).
  revert Ha Ht. generalize (g_state g), (take k (drop (g_committed g) log)), (pos - g_committed g). clear - Hp.
  intros s0 l j. revert s0 j. induction l as [|x l IH]; intros s0 j Ha Ht; [done|].
  cbn [handle_all] in Ha. run_prog. destruct j as [|j]; simpl in Ht.
  - simplify_eq. destruct (Hp s0) as (e & s' & E). by rewrite E in Ha.
  - destruct (handle handler x s0) as [[[]|e] s1]; [by eapply IH|done].
Qed.

(** A second start drops the first client without stopping it: after a stop the
    object has no client left, and one connection is still open. *)
Theorem double_start_leaks {S : Type} (g : group (S := S)) :
  ∃ c, (consumer_start None;; consumer_start None;; consumer_stop None) (ConsumerConn None 0 g) = (Ok tt, c) ∧
    kc_client c = None ∧ kc_open c = 1 ∧ consumer_stop None c = (Ok tt, c).
Proof. eexists. split_and!; reflexivity. Qed.

(** Started once, run and stopped, the object is back where it began and the group has
    moved to the end of the log, whenever every message is handled and committed. *)
Theorem consumer_session `{PyFloat} {S : Type} (handler : list (string * string) → json → prog exn S unit)
    (commit_fault : nat → option exn) (unstarted : exn) (log : list message) (g g' : group) :
  run handler commit_fault log g = (Ok tt, g') →
  (consumer_start None;; consumer_run handler commit_fault unstarted log;; consumer_stop None)
    (ConsumerConn None 0 g) = (Ok tt, ConsumerConn None 0 g').
Proof. intros E. run_prog. unfold consumer_run. simpl. by rewrite E. Qed.

(** * Samples *)
Module KafkaSamples.
#[local] Instance floats : PyFloat := Samples.floats.
(** A handler that keeps what it is given and rejects null. *)
Definition keep : list (string * string) → json → prog exn (list json) unit := λ _ v s,
  match v with JNull => (Raise (EValueError "null"), s) | _ => (Ok tt, s ++ [v]) end.
Definition msg (v : string) : message := {| m_headers := None; m_value := v |}.
Definition log : list message := [msg "1"; msg "null"; msg "3"].
Definition g0 : group := Group 0 0 ([] : list json).
Definition never : nat → option exn := λ _, None.
End KafkaSamples.

Lemma consumer_commits_handled_witness :
  run (H := KafkaSamples.floats) KafkaSamples.keep KafkaSamples.never KafkaSamples.log KafkaSamples.g0 =
    (Raise (EValueError "null"), Group 1 1 [JInt 1]) ∧
  ∃ k s, 1 = 0 + k ∧
    handle_all (H := KafkaSamples.floats) KafkaSamples.keep (take k (drop 0 KafkaSamples.log)) [] = (Ok tt, s) ∧
    ∃ m, KafkaSamples.log !! 1 = Some m ∧
      (handle (H := KafkaSamples.floats) KafkaSamples.keep m s = (Raise (EValueError "null"), [JInt 1]) ∨
       handle (H := KafkaSamples.floats) KafkaSamples.keep m s = (Ok tt, [JInt 1]) ∧
       KafkaSamples.never (1 - 1) = Some (EValueError "null")).
Proof.
  split; [vm_compute; reflexivity|].
  apply (consumer_commits_handled (H := KafkaSamples.floats) KafkaSamples.keep KafkaSamples.never
    KafkaSamples.log KafkaSamples.g0 (Group 1 1 [JInt 1]) (Raise (EValueError "null"))).
  vm_compute. reflexivity.
Defined.

Lemma poison_message_blocks_witness :
  g_committed (restarts (H := KafkaSamples.floats) KafkaSamples.keep KafkaSamples.never 10 KafkaSamples.log
    KafkaSamples.g0) ≤ 1.
Proof.
  apply (poison_message_blocks (H := KafkaSamples.floats) KafkaSamples.keep KafkaSamples.never
    KafkaSamples.log 1 10 (KafkaSamples.msg "null") KafkaSamples.g0).
  - vm_compute. reflexivity.
  - intros s. exists (EValueError "null"), s. vm_compute. reflexivity.
  - vm_compute. apply le_S, le_n.
Defined.
