(* ===== verification/Database.v ===== *)
(** [registry/db.py] and the table contracts of the migrations: the two kinds of
    connection, row-level security, transactions, and the constraints each
    INSERT meets. *)
From Stdlib Require Import Qround.
From S2P Require Import Prelude PyStr PyDict Json JsonText Errors Models World.
Local Open Scope Z_scope.

(** * Connections and row-level security *)
Inductive role := Superuser | TenantRole.

(** The role, [app.tenant_id] and [collectmind.erasure] in force on a connection. *)
Record conn := Conn { c_role : role; c_tenant : option string; c_erasure : option string }.

(** The RESTRICTIVE policies of migration 012 (and the SELECT ones of 014 and
    015) over the permissive baseline; the superuser bypasses them. *)
Definition rls_visible (c : conn) (row_tenant : string) : bool :=
  match c_role c with
  | Superuser => true
  | TenantRole =>
      match c_tenant c with
      | Some t => nonempty t && str_eqb row_tenant t
      | None => false
      end
  end.

(** [conn.transaction()]: the tables are restored when the block raises. *)
Definition in_transaction {A} (m : M A) : M A := λ w,
  match m w with
  | (Ok a, w') => (Ok a, w')
  | (Raise e, w') => (Raise e, upd_db (λ _, w_db w) w')
  end.

(** [Database.acquire]. *)
Definition acquire {A} (tenant_id : string) (body : conn → M A) : M A :=
  p ← gets w_pool;
  if (p : bool) then
    g ← gets w_guc;
    in_transaction (body (Conn TenantRole (Some tenant_id) g))
  else raise (ERuntimeError "database pool is not initialized").

(** [Database.acquire_service_principal]: no transaction of its own. *)
Definition acquire_service_principal {A} (body : conn → M A) : M A :=
  p ← gets w_pool;
  if (p : bool) then
    g ← gets w_guc;
    body (Conn Superuser None g)
  else raise (ERuntimeError "database pool is not initialized").

(** [Database.connect], [close] and [ping]. *)
Definition connect : M unit := modify (upd_pool (λ _, true)).
Definition close : M unit := modify (upd_pool (λ _, false)).
Definition ping : M bool := gets w_pool.

(** [SELECT set_config('collectmind.erasure', 'on', true)]: on for the rest of
    the transaction; afterwards the setting exists and is empty. *)
Definition set_erasure (c : conn) : M conn :=
  modify (upd_guc (λ _, Some ""));;
  mret (Conn (c_role c) (c_tenant c) (Some "on")).

(** Trigger [reject_mutation_unless_erasure]: [NULL <> 'on'] is not true, so an
    unset parameter does not raise. *)
Definition mutation_rejected (c : conn) : bool :=
  match c_erasure c with
  | Some v => negb (str_eqb v "on")
  | None => false
  end.

(** * Tables *)
Class Tenanted (R : Type) := row_tenant : R → string.
#[export] Instance finding_tenanted : Tenanted finding_row := fi_tenant_id.
#[export] Instance policy_tenanted : Tenanted policy_row := po_tenant_id.
#[export] Instance deployment_tenanted : Tenanted deployment_row := dp_tenant_id.
#[export] Instance outcome_tenanted : Tenanted outcome_row := oc_tenant_id.
#[export] Instance audit_tenanted : Tenanted audit_row := au_tenant_id.
#[export] Instance telemetry_tenanted : Tenanted telemetry_row := te_tenant_id.
#[export] Instance erasure_tenanted : Tenanted erasure_row := er_tenant_id.
#[export] Instance config_tenanted : Tenanted config_row := cf_tenant_id.
#[export] Instance vehicle_tenanted : Tenanted vehicle_row := ve_tenant_id.

Section Tables.
Context {R : Type} `{Tenanted R}.

(** [SELECT * FROM table WHERE p]. *)
Definition select (c : conn) (table : db → list R) (p : R → bool) : M (list R) :=
  gets (λ w, List.filter (λ r, rls_visible c (row_tenant r) && p r) (table (w_db w))).

(** [UPDATE table SET f WHERE p]. *)
Definition update_where (c : conn) (p : R → bool) (f : R → R) (rows : list R) : list R :=
  (λ r, if rls_visible c (row_tenant r) && p r then f r else r) <$> rows.

(** [DELETE FROM table WHERE p]. *)
Definition delete_where (c : conn) (p : R → bool) (rows : list R) : list R :=
  List.filter (λ r, negb (rls_visible c (row_tenant r) && p r)) rows.

(** The first violated constraint of a list of requirements. *)
Fixpoint first_violation (l : list (bool * pg_error)) : option pg_error :=
  match l with
  | [] => None
  | (b, e) :: l' => if b then first_violation l' else Some e
  end.

(** [INSERT ... [ON CONFLICT DO NOTHING]]: the policy's WITH CHECK, the column
    constraints, the uniqueness constraints in order (each with whether the
    statement tolerates it), then the foreign keys.  Says whether a row went in. *)
Definition insert_row (c : conn) (name : string) (table : db → list R)
    (upd : (list R → list R) → db → db)
    (checks : R → list (bool * pg_error))
    (uniques : list (string * (R → R → bool) * bool))
    (fks : R → db → list (bool * pg_error)) (row : R) : M bool :=
  d ← gets w_db;
  if negb (rls_visible c (row_tenant row)) then raise (EPg (RowSecurityViolation name)) else
  match first_violation (checks row) with
  | Some e => raise (EPg e)
  | None =>
      match List.filter (λ u, existsb (u.1.2 row) (table d)) uniques with
      | (_, _, true) :: _ => mret false
      | (u, _, false) :: _ => raise (EPg (UniqueViolation u))
      | [] =>
          match first_violation (fks row d) with
          | Some e => raise (EPg e)
          | None => modify (upd_db (upd (λ rows, rows ++ [row])));; mret true
          end
      end
  end.

Lemma first_violation_none l : first_violation l = None ↔ Forall (λ x, x.1 = true) l.
Proof.
  induction l as [|[b e] l IH]; [by split; [constructor|]|]. simpl.
  rewrite Forall_cons. simpl. destruct b; naive_solver.
Qed.

(** The three ways an INSERT ends. *)
Lemma insert_row_cases c name table upd checks uniques fks row w :
  (insert_row c name table upd checks uniques fks row w =
     (Ok true, upd_db (upd (λ rows, rows ++ [row])) w) ∧
   rls_visible c (row_tenant row) = true ∧ first_violation (checks row) = None ∧
   (∀ u, u ∈ uniques → existsb (u.1.2 row) (table (w_db w)) = false) ∧
   first_violation (fks row (w_db w)) = None) ∨
  (insert_row c name table upd checks uniques fks row w = (Ok false, w) ∧
   rls_visible c (row_tenant row) = true ∧ first_violation (checks row) = None ∧
   ∃ u, u ∈ uniques ∧ u.2 = true ∧ existsb (u.1.2 row) (table (w_db w)) = true) ∨
  (∃ e, insert_row c name table upd checks uniques fks row w = (Raise (EPg e), w)).
Proof.
  unfold insert_row. run_prog.
  destruct (rls_visible c (row_tenant row)); simpl; [|by eauto].
  destruct (first_violation (checks row)); [by eauto|].
  destruct (List.filter _ uniques) as [|[[u f] tol] l] eqn:E.
  - destruct (first_violation (fks row (w_db w))); [by eauto|]. left. split_and!; try done.
    intros u Hu. destruct (existsb _ _) eqn:Ex; [|done]. exfalso.
    assert (u ∈ List.filter (λ u, existsb (u.1.2 row) (table (w_db w))) uniques) as Hin.
    { apply list_elem_of_In, filter_In. by rewrite <- list_elem_of_In. }
    rewrite E in Hin. by apply not_elem_of_nil in Hin.
  - assert ((u, f, tol) ∈ List.filter (λ u, existsb (u.1.2 row) (table (w_db w))) uniques) as Hin
      by (rewrite E; by left).
    apply list_elem_of_In, filter_In in Hin as [Hin Hex]. apply list_elem_of_In in Hin.
    destruct tol; [|by eauto]. right. left. split_and!; try done. by exists (u, f, true).
Qed.

(** A tolerated clash on the first uniqueness constraint. *)
Lemma insert_row_conflict c name table upd checks u f rest fks row w :
  rls_visible c (row_tenant row) = true → first_violation (checks row) = None →
  existsb (f row) (table (w_db w)) = true →
  insert_row c name table upd checks ((u, f, true) :: rest) fks row w = (Ok false, w).
Proof. intros Hv Hc Hx. unfold insert_row. run_prog. by rewrite Hv, Hc, Hx. Qed.
End Tables.

(** ** Column types and CHECKs *)
Definition int32 (z : Z) : bool := (-2147483648 <=? z) && (z <=? 2147483647).
Definition int64 (z : Z) : bool :=
  (-9223372036854775808 <=? z) && (z <=? 9223372036854775807).
(** NUMERIC(p,3): round half away from zero at the third decimal. *)
Definition round3 (q : Q) : Q :=
  let s := Qred (q * inject_Z 1000) in
  let n := Qfloor (if Qle_bool 0 s then s + (1 # 2) else (1 # 2) - s)%Q in
  Qred ((if Qle_bool 0 s then n else - n) # 1000).
Definition numeric_fits (limit : Z) (q : Q) : bool :=
  negb (Qle_bool (inject_Z limit) q) && negb (Qle_bool q (inject_Z (- limit))).
Definition unit_interval (q : Q) : bool := Qle_bool 0 q && Qle_bool q 1.
(** [jsonb_array_length(j) > 0]. *)
Definition jsonb_nonempty_array (j : json) : bool :=
  match j with JArr (_ :: _) => true | _ => false end.
Definition jsonb_is_array (j : json) : bool := match j with JArr _ => true | _ => false end.
Definition check (b : bool) (column : string) : bool * pg_error := (b, CheckViolation column).
Definition fk_tenant (t : string) (d : db) (name : string) : bool * pg_error :=
  (bool_decide (t ∈ db_tenants d), ForeignKeyViolation name).
Definition fk_policy (t p v : string) (d : db) (name : string) : bool * pg_error :=
  (existsb (λ r, str_eqb (po_tenant_id r) t && str_eqb (po_policy_id r) p &&
                 str_eqb (po_version r) v) (db_collection_policies d),
   ForeignKeyViolation name).

(** ** Migration 003 *)
Definition finding_checks (r : finding_row) : list (bool * pg_error) :=
  [ (numeric_fits 10 (fi_upstream_confidence r), NumericOutOfRange "upstream_confidence");
    check (nonempty (fi_finding_id r)) "finding_id";
    check (semver_shape (fi_schema_version r)) "schema_version";
    check (nonempty (fi_hypothesis_class r)) "hypothesis_class";
    check ((1 <=? String.length (fi_hypothesis_statement r))%nat &&
           (String.length (fi_hypothesis_statement r) <=? 4096)%nat) "hypothesis_statement";
    check (jsonb_nonempty_array (fi_candidate_signals r)) "candidate_signals";
    check (jsonb_nonempty_array (fi_vehicle_scope r)) "vehicle_scope";
    check (unit_interval (fi_upstream_confidence r)) "upstream_confidence";
    check (String.length (fi_received_payload_sha256 r) =? 32)%nat "received_payload_sha256" ].
Definition finding_pk (a b : finding_row) : bool :=
  str_eqb (fi_tenant_id a) (fi_tenant_id b) && str_eqb (fi_finding_id a) (fi_finding_id b).
Definition insert_finding (c : conn) (r : finding_row) : M bool :=
  insert_row c "diagnostic_findings" db_diagnostic_findings upd_diagnostic_findings finding_checks
    [("diagnostic_findings_pkey", finding_pk, true)]
    (λ r d, [fk_tenant (fi_tenant_id r) d "diagnostic_findings_tenant_id_fkey"]) r.

(** ** Migration 005 *)
Definition policy_checks (r : policy_row) : list (bool * pg_error) :=
  [ (int32 (po_collection_window_hours_logical r), DataError "collection_window_hours_logical");
    (int64 (po_slm_decoding_seed r), DataError "slm_decoding_seed");
    (numeric_fits 10 (po_confidence_threshold r), NumericOutOfRange "confidence_threshold");
    check (nonempty (po_policy_id r)) "policy_id";
    check (semver_shape (po_version r)) "version";
    check (jsonb_nonempty_array (po_signal_spec r)) "signal_spec";
    check (jsonb_is_array (po_trigger_conditions r)) "trigger_conditions";
    check ((1 <=? po_collection_window_hours_logical r) &&
           (po_collection_window_hours_logical r <=? 168)) "collection_window_hours_logical";
    check (jsonb_nonempty_array (po_vehicle_scope r)) "vehicle_scope";
    check (unit_interval (po_confidence_threshold r)) "confidence_threshold";
    check (nonempty (po_generated_from_session_id r)) "generated_from_session_id";
    check (semver_shape (po_prompt_template_version r)) "prompt_template_version";
    check (String.length (po_slm_revision_sha r) =? 40)%nat "slm_revision_sha";
    check (bool_decide (po_slm_runtime r ∈ ["vllm"; "llama_cpp"; "stub"])) "slm_runtime";
    check (bool_decide (po_slm_quantization r ∈ ["bf16"; "gguf-q4_k_m"; "none"]))
      "slm_quantization" ].
Definition policy_pk (a b : policy_row) : bool :=
  str_eqb (po_tenant_id a) (po_tenant_id b) && str_eqb (po_policy_id a) (po_policy_id b) &&
  str_eqb (po_version a) (po_version b).
Definition insert_policy (c : conn) (r : policy_row) : M bool :=
  insert_row c "collection_policies" db_collection_policies upd_collection_policies policy_checks
    [("collection_policies_pkey", policy_pk, false)]
    (λ r d, [fk_tenant (po_tenant_id r) d "collection_policies_tenant_id_fkey"]) r.

(** ** Migration 006 *)
Definition deployment_checks (r : deployment_row) : list (bool * pg_error) :=
  [ check (nonempty (dp_deployment_id r)) "deployment_id";
    check (semver_shape (dp_version r)) "version";
    check (bool_decide (dp_environment r ∈ ["dev"; "staging"; "prod"])) "environment";
    check (jsonb_nonempty_array (dp_vehicle_scope r)) "vehicle_scope";
    check (bool_decide (dp_status r ∈ ["requested"; "accepted"; "rejected"; "expired"]))
      "status" ].
Definition insert_deployment (c : conn) (r : deployment_row) : M bool :=
  insert_row c "deployment_targets" db_deployment_targets upd_deployment_targets deployment_checks
    [("deployment_targets_pkey",
      (λ a b, str_eqb (dp_deployment_id a) (dp_deployment_id b)), false)]
    (λ r d, [fk_tenant (dp_tenant_id r) d "deployment_targets_tenant_id_fkey";
             fk_policy (dp_tenant_id r) (dp_policy_id r) (dp_version r) d
               "deployment_targets_policy_fk"]) r.

(** ** Migration 007 *)
Definition outcome_checks (r : outcome_row) : list (bool * pg_error) :=
  [ (int32 (oc_signals_collected_count r), DataError "signals_collected_count");
    (numeric_fits 10 (oc_data_quality_score r), NumericOutOfRange "data_quality_score");
    check (nonempty (oc_outcome_id r)) "outcome_id";
    check (semver_shape (oc_version r)) "version";
    check (bool_decide (oc_hypothesis_state r ∈ ["confirmed"; "ruled_out"; "no_data"]))
      "hypothesis_state";
    check (0 <=? oc_signals_collected_count r) "signals_collected_count";
    check (unit_interval (oc_data_quality_score r)) "data_quality_score" ].
Definition insert_outcome (c : conn) (r : outcome_row) : M bool :=
  insert_row c "policy_outcomes" db_policy_outcomes upd_policy_outcomes outcome_checks
    [("policy_outcomes_pkey", (λ a b, str_eqb (oc_outcome_id a) (oc_outcome_id b)), false)]
    (λ r d, [fk_tenant (oc_tenant_id r) d "policy_outcomes_tenant_id_fkey";
             fk_policy (oc_tenant_id r) (oc_policy_id r) (oc_version r) d
               "policy_outcomes_policy_fk"]) r.

(** ** Migrations 008, 013 and 016 *)
Definition audit_kinds : list string :=
  ["accepted"; "rejected"; "generated"; "validated"; "deployed"; "outcome"; "erasure";
   "break_glass"; "tenant_config_change"; "deployment_rejected"; "vehicle_assignment_change"].
Definition generated_complete (r : audit_row) : bool :=
  bool_decide (is_Some (au_slm_repo r)) && bool_decide (is_Some (au_slm_revision_sha r)) &&
  bool_decide (is_Some (au_slm_runtime r)) && bool_decide (is_Some (au_slm_runtime_version r)) &&
  bool_decide (is_Some (au_slm_quantization r)) &&
  bool_decide (is_Some (au_slm_decoding_seed r)) &&
  bool_decide (is_Some (au_prompt_template_version r)).
Definition audit_checks (r : audit_row) : list (bool * pg_error) :=
  [ (match au_slm_decoding_seed r with Some z => int64 z | None => true end,
     DataError "slm_decoding_seed");
    (match au_time_acceleration_factor r with Some q => numeric_fits 10000000 q | None => true end,
     NumericOutOfRange "time_acceleration_factor");
    check (nonempty (au_event_id r)) "event_id";
    check (bool_decide (au_kind r ∈ audit_kinds)) "kind";
    check (nonempty (au_principal_subject r)) "principal_subject";
    check (nonempty (au_correlation_id r)) "correlation_id";
    check (negb (str_eqb (au_kind r) "generated") || generated_complete r) "generated" ].
Definition audit_key (a b : audit_row) : bool :=
  str_eqb (au_correlation_id a) (au_correlation_id b) && str_eqb (au_kind a) (au_kind b).
(** [tolerant]: the statement carries [ON CONFLICT (correlation_id, kind) DO NOTHING]. *)
Definition insert_audit (c : conn) (tolerant : bool) (r : audit_row) : M bool :=
  insert_row c "audit_events" db_audit_events upd_audit_events audit_checks
    [("audit_events_correlation_kind_unique", audit_key, tolerant);
     ("audit_events_pkey", (λ a b, str_eqb (au_event_id a) (au_event_id b)), false)]
    (λ r d, [fk_tenant (au_tenant_id r) d "audit_events_tenant_id_fkey"]) r.

(** ** Migration 009 *)
Definition telemetry_checks (r : telemetry_row) : list (bool * pg_error) :=
  [ check (nonempty (te_vehicle_id r)) "vehicle_id";
    check (nonempty (te_signal_name r)) "signal_name";
    check (bool_decide (te_source r ∈ ["simulator"; "real"])) "source" ].
Definition insert_telemetry (c : conn) (r : telemetry_row) : M bool :=
  insert_row c "telemetry_observations" db_telemetry_observations upd_telemetry_observations
    telemetry_checks []
    (λ r d, [fk_tenant (te_tenant_id r) d "telemetry_observations_tenant_id_fkey"]) r.

(** ** Migration 010 *)
Definition erasure_checks (r : erasure_row) : list (bool * pg_error) :=
  [ check (nonempty (er_request_id r)) "request_id";
    check (bool_decide (er_subject_kind r ∈ ["vehicle"; "finding"; "principal"])) "subject_kind";
    check (nonempty (er_subject_identifier r)) "subject_identifier";
    check (nonempty (er_requested_by r)) "requested_by";
    check (bool_decide (er_status r ∈ ["requested"; "in_progress"; "completed"; "partial"]))
      "status";
    check (bool_decide (er_mode r ∈ ["erased"; "redacted"])) "mode" ].
Definition insert_erasure (c : conn) (r : erasure_row) : M bool :=
  insert_row c "erasure_requests" db_erasure_requests upd_erasure_requests erasure_checks
    [("erasure_requests_pkey", (λ a b, str_eqb (er_request_id a) (er_request_id b)), false)]
    (λ r d, [fk_tenant (er_tenant_id r) d "erasure_requests_tenant_id_fkey"]) r.

#[global] Arguments first_violation : simpl never.
#[global] Arguments finding_checks : simpl never.
#[global] Arguments policy_checks : simpl never.
#[global] Arguments deployment_checks : simpl never.
#[global] Arguments outcome_checks : simpl never.
#[global] Arguments audit_checks : simpl never.
#[global] Arguments telemetry_checks : simpl never.
#[global] Arguments erasure_checks : simpl never.

(** * Frames through transactions *)
Lemma upd_db_id w : upd_db (λ _, w_db w) w = w.
Proof. by destruct w. Qed.

Lemma stable_transaction {A B} (f : world → B) (m : M A) :
  stable w_db m → stable f m → stable f (in_transaction m).
Proof.
  intros Hd Hf w. unfold in_transaction. specialize (Hd w). specialize (Hf w).
  destruct (m w) as [[a|e] w']; simpl in *; [done|]. rewrite <- Hd. by rewrite upd_db_id.
Qed.

(** For an observation that does not see the tables. *)
Lemma stable_transaction_outside {A B} (f : world → B) (m : M A) :
  (∀ g w, f (upd_db g w) = f w) → stable f m → stable f (in_transaction m).
Proof.
  intros Hg Hf w. unfold in_transaction. specialize (Hf w).
  destruct (m w) as [[a|e] w']; simpl in *; [done|]. by rewrite Hg.
Qed.

Lemma stable_acquire_read {A B} (f : world → B) t (body : conn → M A) :
  (∀ c, stable w_db (body c)) → (∀ c, stable f (body c)) → stable f (acquire t body).
Proof.
  intros Hd Hf. unfold acquire. repeat (apply stable_bind; [apply stable_gets|]; intros []);
    try apply stable_raise; apply stable_transaction; auto.
Qed.

Lemma stable_select {R B} `{Tenanted R} (f : world → B) c (table : db → list R) p :
  stable f (select c table p).
Proof. done. Qed.
#[export] Hint Resolve stable_select : effects.

(** A transaction that commits ran its body on the tenant's connection. *)
Lemma acquire_ok {A} t (body : conn → M A) w a w' : acquire t body w = (Ok a, w') →
  w_pool w = true ∧ body (Conn TenantRole (Some t) (w_guc w)) w = (Ok a, w').
Proof.
  unfold acquire. run_prog. destruct (w_pool w); [|done]. unfold in_transaction.
  destruct (body _ w) as [[]]; intros; by simplify_eq.
Qed.
Lemma acquire_run {A} t (body : conn → M A) w a w' : w_pool w = true →
  body (Conn TenantRole (Some t) (w_guc w)) w = (Ok a, w') → acquire t body w = (Ok a, w').
Proof. intros Hp Hb. unfold acquire. run_prog. rewrite Hp. unfold in_transaction. by rewrite Hb. Qed.

(** A table that the body of a transaction leaves alone. *)
Lemma stable_acquire_table {A B} (g : db → B) t (body : conn → M A) :
  (∀ c, stable (λ w, g (w_db w)) (body c)) → stable (λ w, g (w_db w)) (acquire t body).
Proof.
  intros Hb. unfold acquire. apply stable_bind; [apply stable_gets|]. intros [];
    [|apply stable_raise]. apply stable_bind; [apply stable_gets|]. intros gu w.
  unfold in_transaction. specialize (Hb (Conn TenantRole (Some t) gu) w).
  by destruct (body _ w) as [[a|e] w'].
Qed.
Lemma stable_insert_row {R B} `{Tenanted R} (g : db → B) c name table
    (upd : (list R → list R) → db → db) checks uniques fks row :
  (∀ f d, g (upd f d) = g d) →
  stable (λ w, g (w_db w)) (insert_row c name table upd checks uniques fks row).
Proof.
  intros Hu w.
  destruct (insert_row_cases c name table upd checks uniques fks row w)
    as [(-> & _)|[(-> & _)|(e & ->)]]; simpl; [apply Hu|done|done].
Qed.

(** Reads under a transaction, as a tactic for frames. *)
Ltac read_step :=
  match goal with
  | |- stable _ (acquire _ _) => apply stable_acquire_read; intros ?
  | _ => effects_step
  end.
