(* ===== verification/RecordModels.v ===== *)
(** The record models of [models/]: the shapes of stored findings, deployments,
    outcomes, audit events and erasure requests, and how they relate to the tables. *)
From S2P Require Import Prelude PyStr PyDict Json JsonText Errors Models World Samples Database.
Local Open Scope Z_scope.

Section Records.
Context `{Pydantic}.

(** [dict[str, str]]. *)
Fixpoint c_str_values (kvs : list (string * json)) : V (list (string * string)) :=
  match kvs with
  | [] => Ok []
  | kv :: kvs' => Ok (λ s l, (kv.1, s) :: l) ⊛ at_loc kv.1 (c_str kv.2) ⊛ c_str_values kvs'
  end.
Definition c_str_dict (j : json) : V (list (string * string)) :=
  match j with JObj kvs => c_str_values kvs | _ => vfail "dict_type" end.
Definition c_bytes (j : json) : V string :=
  match j with JStr s => Ok s | _ => vfail "bytes_type" end.
(** [Field(ge=0)] on an integer. *)
Definition c_nonneg_int (j : json) : V Z :=
  and_then (c_int j) (λ z, if z <? 0 then vfail "greater_than_equal" else Ok z).

(** * [models/finding.py] *)
Record DiagnosticFindingRecord := {
  fr_tenant_id : string; fr_finding_id : string; fr_schema_version : string; fr_anomaly_type : string;
  fr_hypothesis_class : string; fr_hypothesis_statement : string; fr_candidate_signals : list string;
  fr_vehicle_scope : list string; fr_upstream_confidence : Q; fr_received_at : Z;
  fr_received_payload_sha256 : string }.
Definition validate_finding_record : json → V DiagnosticFindingRecord :=
  model ["tenant_id"; "finding_id"; "schema_version"; "anomaly_type"; "hypothesis_class";
         "hypothesis_statement"; "candidate_signals"; "vehicle_scope"; "upstream_confidence";
         "received_at"; "received_payload_sha256"]
    (λ o, Ok Build_DiagnosticFindingRecord
      ⊛ field o "tenant_id" NonEmptyStr
      ⊛ field o "finding_id" NonEmptyStr
      ⊛ field o "schema_version" SemverStr
      ⊛ field o "anomaly_type" NonEmptyStr
      ⊛ field o "hypothesis_class" NonEmptyStr
      ⊛ field o "hypothesis_statement" c_str
      ⊛ field o "candidate_signals" (c_list c_str 0)
      ⊛ field o "vehicle_scope" (c_list c_str 0)
      ⊛ field o "upstream_confidence" c_float
      ⊛ field o "received_at" c_datetime
      ⊛ field o "received_payload_sha256" c_bytes).

(** * [models/deployment.py] *)
Record DeploymentRecord := {
  dm_deployment_id : string; dm_tenant_id : string; dm_policy_id : string; dm_version : string;
  dm_environment : string; dm_vehicle_scope : list string; dm_status : string; dm_requested_at : Z;
  dm_accepted_at : option Z; dm_expires_at : option Z; dm_downstream_response : option json }.
Definition DeploymentStatus : list string := ["requested"; "accepted"; "rejected"; "expired"].

(** * [models/outcome.py] *)
Definition HypothesisState : list string := ["confirmed"; "ruled_out"; "no_data"].
Record OriginatingFindingRef := { rf_tenant_id : string; rf_finding_id : string }.
Definition validate_finding_ref : json → V OriginatingFindingRef :=
  model ["tenant_id"; "finding_id"]
    (λ o, Ok Build_OriginatingFindingRef ⊛ field o "tenant_id" c_str ⊛ field o "finding_id" c_str).
Record PolicyRef := { rp_tenant_id : string; rp_policy_id : string; rp_version : string }.
Definition validate_policy_ref : json → V PolicyRef :=
  model ["tenant_id"; "policy_id"; "version"]
    (λ o, Ok Build_PolicyRef
      ⊛ field o "tenant_id" c_str ⊛ field o "policy_id" c_str ⊛ field o "version" c_str).
Record PolicyOutcome := {
  om_outcome_id : string; om_originating_finding : OriginatingFindingRef; om_policy_ref : option PolicyRef;
  om_hypothesis_state : string; om_evaluated_at : Z; om_signals_collected_count : Z;
  om_data_quality_score : Q; om_evidence_summary : json }.
Definition validate_outcome : json → V PolicyOutcome :=
  model ["outcome_id"; "originating_finding"; "policy_ref"; "hypothesis_state"; "evaluated_at";
         "signals_collected_count"; "data_quality_score"; "evidence_summary"]
    (λ o, Ok Build_PolicyOutcome
      ⊛ field o "outcome_id" c_str
      ⊛ field o "originating_finding" validate_finding_ref
      ⊛ field_default o "policy_ref" None (c_optional validate_policy_ref)
      ⊛ field o "hypothesis_state" (c_literal HypothesisState)
      ⊛ field o "evaluated_at" c_datetime
      ⊛ field_default o "signals_collected_count" 0 c_nonneg_int
      ⊛ field_default o "data_quality_score" 0%Q c_unit_float
      ⊛ field_default o "evidence_summary" (JObj []) c_dict).

(** * [models/audit.py] *)
Definition AuditKind : list string :=
  ["accepted"; "rejected"; "generated"; "validated"; "deployed"; "outcome"; "erasure"].
Record AuditEvent := {
  am_event_id : string; am_tenant_id : string; am_kind : string; am_correlation_id : string;
  am_principal_subject : string; am_occurred_at : Z;
  am_originating_finding : option (list (string * string)); am_policy_ref : option json;
  am_deployment_ref : option json; am_outcome_ref : option json; am_error : option json;
  am_slm_repo : option string; am_slm_revision_sha : option string; am_slm_runtime : option string;
  am_slm_runtime_version : option string; am_slm_quantization : option string;
  am_slm_decoding_seed : option Z; am_prompt_template_version : option string;
  am_inbound_schema_version : option string; am_time_acceleration_factor : option Q }.
Definition validate_audit_event : json → V AuditEvent :=
  model ["event_id"; "tenant_id"; "kind"; "correlation_id"; "principal_subject"; "occurred_at";
         "originating_finding"; "policy_ref"; "deployment_ref"; "outcome_ref"; "error"; "slm_repo";
         "slm_revision_sha"; "slm_runtime"; "slm_runtime_version"; "slm_quantization";
         "slm_decoding_seed"; "prompt_template_version"; "inbound_schema_version";
         "time_acceleration_factor"]
    (λ o, Ok Build_AuditEvent
      ⊛ field o "event_id" c_str
      ⊛ field o "tenant_id" c_str
      ⊛ field o "kind" (c_literal AuditKind)
      ⊛ field o "correlation_id" c_str
      ⊛ field o "principal_subject" c_str
      ⊛ field o "occurred_at" c_datetime
      ⊛ field_default o "originating_finding" None (c_optional c_str_dict)
      ⊛ field_default o "policy_ref" None (c_optional c_dict)
      ⊛ field_default o "deployment_ref" None (c_optional c_dict)
      ⊛ field_default o "outcome_ref" None (c_optional c_dict)
      ⊛ field_default o "error" None (c_optional c_dict)
      ⊛ field_default o "slm_repo" None (c_optional c_str)
      ⊛ field_default o "slm_revision_sha" None (c_optional c_str)
      ⊛ field_default o "slm_runtime" None (c_optional c_str)
      ⊛ field_default o "slm_runtime_version" None (c_optional c_str)
      ⊛ field_default o "slm_quantization" None (c_optional c_str)
      ⊛ field_default o "slm_decoding_seed" None (c_optional c_int)
      ⊛ field_default o "prompt_template_version" None (c_optional c_str)
      ⊛ field_default o "inbound_schema_version" None (c_optional c_str)
      ⊛ field_default o "time_acceleration_factor" None (c_optional c_float)).

(** * [models/erasure.py] *)
Record ErasureReceipt := { rc_request_id : string; rc_target_completion_at : Z }.
Definition validate_receipt : json → V ErasureReceipt :=
  model ["request_id"; "target_completion_at"]
    (λ o, Ok Build_ErasureReceipt ⊛ field o "request_id" c_str ⊛ field o "target_completion_at" c_datetime).
Record PerStoreStatus := { ps_registry : string; ps_telemetry : string; ps_audit : string }.
Definition validate_per_store : json → V PerStoreStatus :=
  model ["registry"; "telemetry"; "audit"]
    (λ o, Ok Build_PerStoreStatus
      ⊛ field_default o "registry" "pending" c_str
      ⊛ field_default o "telemetry" "pending" c_str
      ⊛ field_default o "audit" "pending" c_str).
Record ErasureRecord := {
  em_request_id : string; em_tenant_id : string; em_subject_kind : string; em_subject_identifier : string;
  em_requested_by : string; em_requested_at : Z; em_target_completion_at : Z; em_status : string;
  em_per_store_status : PerStoreStatus; em_mode : string; em_completed_at : option Z }.
Definition validate_erasure_record : json → V ErasureRecord :=
  model ["request_id"; "tenant_id"; "subject_kind"; "subject_identifier"; "requested_by"; "requested_at";
         "target_completion_at"; "status"; "per_store_status"; "mode"; "completed_at"]
    (λ o, Ok Build_ErasureRecord
      ⊛ field o "request_id" c_str
      ⊛ field o "tenant_id" c_str
      ⊛ field o "subject_kind" (c_literal ["vehicle"; "finding"; "principal"])
      ⊛ field o "subject_identifier" c_str
      ⊛ field o "requested_by" c_str
      ⊛ field o "requested_at" c_datetime
      ⊛ field o "target_completion_at" c_datetime
      ⊛ field o "status" (c_literal ["requested"; "in_progress"; "completed"; "partial"])
      ⊛ field_default o "per_store_status"
          {| ps_registry := "pending"; ps_telemetry := "pending"; ps_audit := "pending" |} validate_per_store
      ⊛ field_default o "mode" "erased" (c_literal ["erased"; "redacted"])
      ⊛ field_default o "completed_at" None (c_optional c_datetime)).
End Records.

(** * The models and the tables *)
Definition errors_of {A} (v : V A) : list verr := match v with Raise es => es | Ok _ => [] end.
Lemma errors_vap {A B} (f : V (A → B)) (a : V A) : errors_of (f ⊛ a) = errors_of f ++ errors_of a.
Proof. destruct f as [g|es], a as [x|es']; simpl; by rewrite ?app_nil_r. Qed.
Lemma errors_model {A} `{Pydantic} names (build : list (string * json) → V A) o e :
  e ∈ errors_of (build o) → e ∈ errors_of (model names build (JObj o)).
Proof. intros He. simpl. unfold no_extra. rewrite !errors_vap. set_solver. Qed.

(** An audit kind the table was widened to, and which the program writes, is not
    one of the model's: no event of such a kind validates. *)
Theorem audit_model_refuses_new_kinds `{Pydantic} (o : list (string * json)) (k : string) :
  dget "kind" o = Some (JStr k) → k ∉ AuditKind →
  (["kind"], "literal_error") ∈ errors_of (validate_audit_event (JObj o)).
Proof.
  intros Ek Hk. apply errors_model. rewrite !errors_vap.
  assert (errors_of (field o "kind" (c_literal AuditKind)) = [(["kind"], "literal_error")]) as ->.
  { unfold field, c_literal. rewrite Ek. rewrite bool_decide_false by done. done. }
  set_solver.
Qed.
Lemma audit_model_refuses_new_kinds_witness :
  (["kind"], "literal_error") ∈
    errors_of (validate_audit_event (H := {| lax_int _ := None; lax_float _ := None; lax_bool _ := None;
      lax_datetime _ := None; pyd_msg s := s; pyd_str _ := ""; policy_json_schema := JNull |})
      (JObj [("kind", JStr "break_glass")])) ∧ "break_glass" ∈ audit_kinds.
Proof.
  split; [apply (audit_model_refuses_new_kinds _ "break_glass")|]; [reflexivity| |];
    apply (bool_decide_unpack _); vm_compute; exact I.
Defined.

(** The row of a validated outcome of a policy. *)
Definition outcome_row_of (o : PolicyOutcome) (p : PolicyRef) : outcome_row :=
  OutcomeRow (om_outcome_id o) (rp_tenant_id p)
    (JObj [("tenant_id", JStr (rf_tenant_id (om_originating_finding o)));
           ("finding_id", JStr (rf_finding_id (om_originating_finding o)))])
    (rp_policy_id p) (rp_version p) (om_hypothesis_state o) (om_evaluated_at o)
    (om_evidence_summary o) (om_signals_collected_count o) (om_data_quality_score o).

Section OutcomeModel.
Context `{Pydantic}.
Lemma unit_float_ok j q : c_unit_float j = Ok q → unit_interval q = true.
Proof.
  unfold c_unit_float, c_float, and_then, unit_interval. destruct (lax_float j) as [x|]; [|done].
  destruct (Qle_bool x 1) eqn:E1; [|done]. destruct (Qle_bool 0 x) eqn:E0; [|done]. intros [= <-]. by rewrite E0, E1.
Qed.
Lemma nonneg_int_ok j z : c_nonneg_int j = Ok z → 0 ≤ z.
Proof.
  unfold c_nonneg_int, c_int, and_then. destruct (lax_int j) as [x|]; [|done].
  destruct (Z.ltb_spec x 0); [done|]. by intros [= <-].
Qed.
Lemma literal_ok opts j s : c_literal opts j = Ok s → s ∈ opts.
Proof. unfold c_literal. destruct j; try done. case_bool_decide; [by intros [= <-]|done]. Qed.
Lemma field_default_ok {A} o name d (c : json → V A) a : field_default o name d c = Ok a → a = d ∨ ∃ j, c j = Ok a.
Proof. unfold field_default. destruct (dget name o) as [j|]; [intros E%at_loc_ok; eauto|intros [= <-]; by left]. Qed.
Lemma unit_interval_fits q : unit_interval q = true → numeric_fits 10 q = true.
Proof.
  unfold unit_interval, numeric_fits. intros [H0 H1]%andb_true_iff. apply Qle_bool_iff in H0, H1.
  apply andb_true_iff. split; apply negb_true_iff; apply Bool.not_true_iff_false; rewrite Qle_bool_iff;
    unfold Qle, inject_Z in *; simpl in *; lia.
Qed.
End OutcomeModel.

(** A validated outcome meets every business constraint of the outcome table: what
    remains to be checked are its identifiers and the width of the count. *)
Theorem outcome_model_storable `{Pydantic} (j : json) (o : PolicyOutcome) (p : PolicyRef) :
  validate_outcome j = Ok o → om_policy_ref o = Some p →
  nonempty (om_outcome_id o) = true → semver_shape (rp_version p) = true →
  om_signals_collected_count o ≤ 2147483647 →
  first_violation (outcome_checks (outcome_row_of o p)) = None.
Proof.
  intros E Ep Hid Hv Hc. apply model_ok in E as (obj & -> & E & _).
  repeat match goal with E : _ ⊛ _ = Ok _ |- _ => apply vap_ok in E as (? & ? & E & ?F & ->) end.
  injection E as <-. simpl in *.
  match goal with F : field _ "hypothesis_state" _ = Ok ?x |- _ =>
    apply field_ok in F as (? & _ & F%literal_ok); rename x into s, F into Hs end.
  match goal with F : field_default _ "signals_collected_count" _ _ = Ok ?x |- _ =>
    assert (0 ≤ x) as Hn by (apply field_default_ok in F as [->|(? & ?%nonneg_int_ok)]; lia) end.
  match goal with F : field_default _ "data_quality_score" _ _ = Ok ?x |- _ =>
    assert (unit_interval x = true) as Hq by (apply field_default_ok in F as [->|(? & ?%unit_float_ok)]; done) end.
  unfold outcome_checks, first_violation, outcome_row_of, int32, check. simpl.
  rewrite (unit_interval_fits _ Hq), Hid, Hv, Hq, bool_decide_true by done.
  rewrite !(proj2 (Z.leb_le _ _)) by lia. done.
Qed.
