(* ===== verification/Isolation.v ===== *)
(** Tenant isolation as two program properties, with the lemmas that carry them
    through every operation: a program run for tenant [t] leaves the rows of the
    other tenants alone ([confined]), and what it returns and does is a function
    of the rows of [t] ([oblivious]). *)
From S2P Require Import Prelude PyStr PyDict Json JsonText Errors Models World Database.

Definition of_tenant {R} `{Tenanted R} (t : string) (r : R) : bool := str_eqb (row_tenant r) t.
Definition history_of (t : string) (r : history_row) : bool :=
  str_eqb (hi_new_tenant_id r) t || bool_decide (hi_prev_tenant_id r = Some t).

(** The rows every tenant other than [t] owns. *)
Definition foreign (t : string) (d : db) : db :=
  Db (List.filter (λ x, negb (str_eqb x t)) (db_tenants d))
     (List.filter (λ r, negb (of_tenant t r)) (db_diagnostic_findings d))
     (List.filter (λ r, negb (of_tenant t r)) (db_collection_policies d))
     (List.filter (λ r, negb (of_tenant t r)) (db_deployment_targets d))
     (List.filter (λ r, negb (of_tenant t r)) (db_policy_outcomes d))
     (List.filter (λ r, negb (of_tenant t r)) (db_audit_events d))
     (List.filter (λ r, negb (of_tenant t r)) (db_telemetry_observations d))
     (List.filter (λ r, negb (of_tenant t r)) (db_erasure_requests d))
     (List.filter (λ r, negb (of_tenant t r)) (db_tenant_config d))
     (List.filter (λ r, negb (of_tenant t r)) (db_tenant_vehicles d))
     (List.filter (λ r, negb (history_of t r)) (db_tenant_vehicles_history d)).

(** The rows [t] owns. *)
Definition own (t : string) (d : db) : db :=
  Db (List.filter (λ x, str_eqb x t) (db_tenants d))
     (List.filter (of_tenant t) (db_diagnostic_findings d))
     (List.filter (of_tenant t) (db_collection_policies d))
     (List.filter (of_tenant t) (db_deployment_targets d))
     (List.filter (of_tenant t) (db_policy_outcomes d))
     (List.filter (of_tenant t) (db_audit_events d))
     (List.filter (of_tenant t) (db_telemetry_observations d))
     (List.filter (of_tenant t) (db_erasure_requests d))
     (List.filter (of_tenant t) (db_tenant_config d))
     (List.filter (of_tenant t) (db_tenant_vehicles d))
     (List.filter (history_of t) (db_tenant_vehicles_history d)).

(** * Writes stay within the tenant *)
Definition confined {A} (t : string) (m : M A) : Prop :=
  stable (λ w, foreign t (w_db w)) m.

(** * Results depend on the tenant's rows only *)
(** Two states that differ at most in rows of other tenants. *)
Definition agree (t : string) (w1 w2 : world) : Prop :=
  upd_db (own t) w1 = upd_db (own t) w2.
Definition oblivious {A} (t : string) (m : M A) : Prop :=
  ∀ w1 w2, agree t w1 w2 → (m w1).1 = (m w2).1 ∧ agree t (m w1).2 (m w2).2.

Create HintDb isolation.

Section Confined.
Context (t : string).

Lemma confined_bind {A B} (m : M A) (k : A → M B) :
  confined t m → (∀ a, confined t (k a)) → confined t (m ≫= k).
Proof. apply stable_bind. Qed.
Lemma confined_catch {A} (m : M A) h :
  confined t m → (∀ e, confined t (h e)) → confined t (catch m h).
Proof. apply stable_catch. Qed.
Lemma confined_for_each {A} (l : list A) (f : A → M unit) :
  (∀ a, confined t (f a)) → confined t (for_each l f).
Proof. apply stable_for_each. Qed.
(** A state change outside the tables. *)
Lemma confined_outside {A} (m : M A) : stable w_db m → confined t m.
Proof. intros Hm w. by rewrite (Hm w). Qed.

Lemma confined_transaction {A} (m : M A) : confined t m → confined t (in_transaction m).
Proof.
  intros Hm w. unfold in_transaction. specialize (Hm w).
  destruct (m w) as [[a|e] w']; simpl in *; done.
Qed.

Lemma confined_acquire {A} (body : conn → M A) :
  (∀ g, confined t (body (Conn TenantRole (Some t) g))) → confined t (acquire t body).
Proof.
  intros Hb. unfold acquire, confined. apply stable_bind; [apply stable_gets|]. intros [].
  - apply stable_bind; [apply stable_gets|]. intros g. by apply confined_transaction.
  - apply stable_raise.
Qed.

Lemma confined_insert {R} `{Tenanted R} g name table upd checks uniques fks (row : R) :
  (∀ d, of_tenant t row = true →
        foreign t (upd (λ rows, rows ++ [row]) d) = foreign t d) →
  confined t (insert_row (Conn TenantRole (Some t) g) name table upd checks uniques fks row).
Proof.
  intros Hupd. unfold insert_row, confined. apply stable_bind; [apply stable_gets|]. intros d.
  unfold rls_visible. simpl.
  destruct (nonempty t && str_eqb (row_tenant row) t) eqn:E; simpl; [|apply stable_raise].
  apply andb_true_iff in E as [_ E].
  destruct (first_violation _); [apply stable_raise|].
  destruct (List.filter _ uniques) as [|[[u f] []] l]; [|apply stable_ret|apply stable_raise].
  destruct (first_violation _); [apply stable_raise|].
  apply stable_bind; [|intros; apply stable_ret]. apply stable_modify. intros w. simpl. by apply Hupd.
Qed.

Lemma visible_own g r_tenant :
  rls_visible (Conn TenantRole (Some t) g) r_tenant = true → str_eqb r_tenant t = true.
Proof. unfold rls_visible. simpl. rewrite andb_true_iff. tauto. Qed.

Lemma foreign_update {R} `{Tenanted R} g (p : R → bool) (f : R → R) rows :
  (∀ r, row_tenant (f r) = row_tenant r) →
  List.filter (λ r, negb (of_tenant t r))
    (update_where (Conn TenantRole (Some t) g) p f rows) =
  List.filter (λ r, negb (of_tenant t r)) rows.
Proof.
  intros Hf. unfold update_where. apply filter_map_unchanged. intros r E.
  apply andb_true_iff in E as [E%visible_own _]. unfold of_tenant. by rewrite Hf, E.
Qed.

Lemma foreign_delete {R} `{Tenanted R} g (p : R → bool) rows :
  List.filter (λ r, negb (of_tenant t r))
    (delete_where (Conn TenantRole (Some t) g) p rows) =
  List.filter (λ r, negb (of_tenant t r)) rows.
Proof.
  unfold delete_where. apply filter_filter_disjoint. intros r E.
  apply negb_false_iff, andb_true_iff in E as [E%visible_own _]. unfold of_tenant. by rewrite E.
Qed.

(** Appending a row of [t] to a table. *)
Ltac foreign_append :=
  intros d E; unfold foreign, of_tenant in *; simpl; rewrite ?List.filter_app; simpl;
  rewrite E; simpl; by rewrite app_nil_r.

Lemma confined_insert_finding g r : confined t (insert_finding (Conn TenantRole (Some t) g) r).
Proof. apply confined_insert. foreign_append. Qed.
Lemma confined_insert_policy g r : confined t (insert_policy (Conn TenantRole (Some t) g) r).
Proof. apply confined_insert. foreign_append. Qed.
Lemma confined_insert_deployment g r :
  confined t (insert_deployment (Conn TenantRole (Some t) g) r).
Proof. apply confined_insert. foreign_append. Qed.
Lemma confined_insert_outcome g r : confined t (insert_outcome (Conn TenantRole (Some t) g) r).
Proof. apply confined_insert. foreign_append. Qed.
Lemma confined_insert_audit g b r : confined t (insert_audit (Conn TenantRole (Some t) g) b r).
Proof. apply confined_insert. foreign_append. Qed.
Lemma confined_insert_telemetry g r :
  confined t (insert_telemetry (Conn TenantRole (Some t) g) r).
Proof. apply confined_insert. foreign_append. Qed.
Lemma confined_insert_erasure g r : confined t (insert_erasure (Conn TenantRole (Some t) g) r).
Proof. apply confined_insert. foreign_append. Qed.
End Confined.

#[export] Hint Resolve confined_insert_finding confined_insert_policy confined_insert_deployment
  confined_insert_outcome confined_insert_audit confined_insert_telemetry
  confined_insert_erasure : isolation.

(** Walk a program along its structure. *)
Ltac confined_step :=
  match goal with
  | |- confined ?t (acquire ?t _) => apply confined_acquire; intros ?
  | |- confined _ (mbind _ _) => apply confined_bind; [|intros ?]
  | |- confined _ (catch _ _) => apply confined_catch; [|intros ?]
  | |- confined _ (for_each _ _) => apply confined_for_each; intros ?
  | |- confined _ (match ?x with _ => _ end) => destruct x
  | |- confined _ _ => solve [auto with isolation nocore]
  | |- confined _ _ => solve [intros ?; reflexivity]
  end.
Ltac solve_confined := repeat confined_step.

(** * Obliviousness *)
Section Oblivious.
Context (t : string).

Lemma agree_inv w1 w2 : agree t w1 w2 →
  own t (w_db w1) = own t (w_db w2) ∧ ∀ d, upd_db (λ _, d) w1 = upd_db (λ _, d) w2.
Proof.
  intros Hw. split; [exact (f_equal w_db Hw)|]. intros d.
  exact (f_equal (upd_db (λ _, d)) Hw).
Qed.

Lemma agree_intro w1 w2 :
  own t (w_db w1) = own t (w_db w2) → (∀ d, upd_db (λ _, d) w1 = upd_db (λ _, d) w2) →
  agree t w1 w2.
Proof.
  intros Ho Hr.
  change (upd_db (λ _, own t (w_db w1)) w1 = upd_db (λ _, own t (w_db w2)) w2).
  by rewrite Hr, Ho.
Qed.

(** An observation that never looks at the tables. *)
Lemma agree_outside {B} (f : world → B) w1 w2 :
  (∀ d w, f (upd_db (λ _, d) w) = f w) → agree t w1 w2 → f w1 = f w2.
Proof.
  intros Hf [_ Hr]%agree_inv. rewrite <- (Hf (w_db w1) w1), <- (Hf (w_db w1) w2). by rewrite Hr.
Qed.

Lemma oblivious_ret {A} (a : A) : oblivious t (mret a : M A).
Proof. intros w1 w2 Hw. done. Qed.
Lemma oblivious_raise {A} e : oblivious t (raise e : M A).
Proof. intros w1 w2 Hw. done. Qed.
Lemma oblivious_lift {A} (r : result exn A) : oblivious t (lift r).
Proof. intros w1 w2 Hw. done. Qed.
Lemma oblivious_bind {A B} (m : M A) (k : A → M B) :
  oblivious t m → (∀ a, oblivious t (k a)) → oblivious t (m ≫= k).
Proof.
  intros Hm Hk w1 w2 Hw. unfold mbind, prog_bind. destruct (Hm w1 w2 Hw) as [Hr Hs].
  destruct (m w1) as [[a|e] w1'], (m w2) as [[a'|e'] w2']; simpl in *; simplify_eq; [|done].
  by apply Hk.
Qed.
Lemma oblivious_catch {A} (m : M A) h :
  oblivious t m → (∀ e, oblivious t (h e)) → oblivious t (catch m h).
Proof.
  intros Hm Hk w1 w2 Hw. unfold catch. destruct (Hm w1 w2 Hw) as [Hr Hs].
  destruct (m w1) as [[a|e] w1'], (m w2) as [[a'|e'] w2']; simpl in *; simplify_eq; [done|].
  by apply Hk.
Qed.

(** Programs that neither read nor write the tables. *)
Definition no_tables {A} (m : M A) : Prop :=
  ∀ d w, m (upd_db (λ _, d) w) = ((m w).1, upd_db (λ _, d) (m w).2).

Lemma oblivious_no_tables {A} (m : M A) : no_tables m → stable w_db m → oblivious t m.
Proof.
  intros Hn Hs w1 w2 Hw. pose proof (agree_inv _ _ Hw) as [Ho Hr].
  assert (∀ w, w = upd_db (λ _, w_db w) w) as Hid by (by intros []).
  pose proof (Hn (w_db w2) w1) as H1. rewrite (Hr (w_db w2)), <- Hid in H1.
  split; [by rewrite H1|]. apply agree_intro; [by rewrite !Hs|].
  intros d. rewrite H1. simpl. by destruct (m w1) as [? []].
Qed.

Lemma oblivious_transaction {A} (m : M A) : oblivious t m → oblivious t (in_transaction m).
Proof.
  intros Hm w1 w2 Hw. unfold in_transaction. destruct (Hm w1 w2 Hw) as [Hr Hs].
  destruct (m w1) as [[a|e] w1'], (m w2) as [[a'|e'] w2']; simpl in *; simplify_eq; [done|].
  split; [done|]. apply agree_inv in Hw as [Ho _]. apply agree_inv in Hs as [_ Hr'].
  apply agree_intro; [done|]. intros d. apply (Hr' d).
Qed.

Lemma oblivious_acquire {A} (body : conn → M A) :
  (∀ g, oblivious t (body (Conn TenantRole (Some t) g))) → oblivious t (acquire t body).
Proof.
  intros Hb. unfold acquire. apply oblivious_bind.
  { intros w1 w2 Hw. split; [|done]. simpl. by rewrite (agree_outside w_pool w1 w2). }
  intros []; [|apply oblivious_raise]. apply oblivious_bind.
  { intros w1 w2 Hw. split; [|done]. simpl. by rewrite (agree_outside w_guc w1 w2). }
  intros g. by apply oblivious_transaction.
Qed.

Lemma select_own {R} `{Tenanted R} g (table : db → list R) p w :
  (∀ d, table (own t d) = List.filter (of_tenant t) (table d)) →
  select (Conn TenantRole (Some t) g) table p w =
  (Ok (if nonempty t then List.filter p (table (own t (w_db w))) else []), w).
Proof.
  intros Ht. unfold select, gets, rls_visible. simpl. do 2 f_equal. destruct (nonempty t); simpl.
  - rewrite Ht. apply filter_andb.
  - induction (table (w_db w)); [done|]. simpl. done.
Qed.

Lemma oblivious_select {R} `{Tenanted R} g (table : db → list R) p :
  (∀ d, table (own t d) = List.filter (of_tenant t) (table d)) →
  oblivious t (select (Conn TenantRole (Some t) g) table p).
Proof.
  intros Ht w1 w2 Hw. rewrite !select_own by done. simpl. split; [|done].
  apply agree_inv in Hw as [Ho _]. by rewrite Ho.
Qed.
End Oblivious.

Lemma no_tables_ret {A} (a : A) : no_tables (mret a).
Proof. done. Qed.
Lemma no_tables_bind {A B} (m : M A) (k : A → M B) :
  no_tables m → (∀ a, no_tables (k a)) → no_tables (m ≫= k).
Proof.
  intros Hm Hk d w. unfold mbind, prog_bind. rewrite Hm. simpl.
  destruct (m w) as [[a|e] w']; simpl; [|done]. apply Hk.
Qed.

Ltac oblivious_step :=
  match goal with
  | |- oblivious ?t (acquire ?t _) => apply oblivious_acquire; intros ?
  | |- oblivious _ (mbind _ _) => apply oblivious_bind; [|intros ?]
  | |- oblivious _ (catch _ _) => apply oblivious_catch; [|intros ?]
  | |- oblivious _ (mret _) => apply oblivious_ret
  | |- oblivious _ (raise _) => apply oblivious_raise
  | |- oblivious _ (lift _) => apply oblivious_lift
  | |- oblivious _ (select _ _ _) => apply oblivious_select; intros ?; reflexivity
  | |- oblivious _ (match ?x with _ => _ end) => destruct x
  | |- oblivious _ _ => solve [auto with isolation nocore]
  | |- oblivious _ _ => apply oblivious_no_tables; [intros ? ?; reflexivity | intros ?; reflexivity]
  end.
Ltac solve_oblivious := repeat oblivious_step.
