(* ===== verification/PyVal.v ===== *)
(** Python conversions and subscripts on dynamically typed values: what the
    sources apply to the fields of a generated policy or a request body. *)
From Stdlib Require Import Qround.
From S2P Require Import Prelude PyStr PyDict Json JsonText PyTime Errors World.
Local Open Scope Z_scope.

(** [d[k]] on a dict. *)
Definition subscript (k : string) (j : json) : M json :=
  match j with
  | JObj o => match dget k o with Some v => mret v | None => raise (EKeyError k) end
  | _ => raise (ETypeError "object is not subscriptable with a str key")
  end.
(** [d.get(k)] and [d.get(k, default)]: only a dict has [get]. *)
Definition dict_get (k : string) (j : json) : M (option json) :=
  match j with
  | JObj o => mret (dget k o)
  | _ => raise (EAttributeError "object has no attribute 'get'")
  end.

(** Digits, single underscores between them allowed. *)
Fixpoint int_digits (acc : Z) (after_digit : bool) (s : string) : option Z :=
  match s with
  | EmptyString => if after_digit then Some acc else None
  | String c s' =>
      if is_digit c then int_digits (10 * acc + (Z.of_nat (code c) - 48)) true s'
      else if ascii_eqb c "_" && after_digit then int_digits acc false s' else None
  end.
Definition parse_int (s : string) : option Z :=
  match strip s with
  | String "-" s' => Z.opp <$> int_digits 0 false s'
  | String "+" s' => int_digits 0 false s'
  | s' => int_digits 0 false s'
  end.
(** Truncation toward zero. *)
Definition Qtrunc (q : Q) : Z := if Qle_bool 0 q then Qfloor q else Qceiling q.

(** [int(v)]. *)
Definition py_int (j : json) : M Z :=
  match j with
  | JInt z => mret z
  | JBool b => mret (if b then 1 else 0)
  | JFloat q => mret (Qtrunc q)
  | JStr s => match parse_int s with
              | Some z => mret z
              | None => raise (EValueError ("invalid literal for int() with base 10: '" +:+ s +:+ "'"))
              end
  | _ => raise (ETypeError "int() argument must be a string or a real number")
  end.
(** [float(v)]. *)
Definition py_float `{Env} (j : json) : M Q :=
  match j with
  | JInt z => mret (inject_Z z)
  | JBool b => mret (inject_Z (if b then 1 else 0))
  | JFloat q => mret q
  | JStr s => match float_text s with
              | Some q => mret q
              | None => raise (EValueError ("could not convert string to float: '" +:+ s +:+ "'"))
              end
  | _ => raise (ETypeError "float() argument must be a string or a real number")
  end.
(** [list(v)]: a list's items, a dict's keys, a string's characters. *)
Definition py_list (j : json) : M (list json) :=
  match j with
  | JArr l => mret l
  | JObj o => mret (JStr <$> dkeys o)
  | JStr s => mret ((λ c, JStr (String c "")) <$> String.list_ascii_of_string s)
  | _ => raise (ETypeError "object is not iterable")
  end.
(** A TEXT parameter that must be present. *)
Definition text_arg (column : string) (j : json) : M string :=
  match j with
  | JStr s => mret s
  | JNull => raise (EPg (NotNullViolation column))
  | _ => raise (EPg (DataError column))
  end.
(** A TEXT[] parameter: a list of strings, [None] items being SQL NULLs. *)
Fixpoint text_items (l : list json) : option (list (option string)) :=
  match l with
  | [] => Some []
  | JStr s :: l' => cons (Some s) <$> text_items l'
  | JNull :: l' => cons None <$> text_items l'
  | _ => None
  end.
Definition text_array (j : json) : M (list (option string)) :=
  match j with
  | JArr l => match text_items l with Some xs => mret xs | None => raise (EPg (DataError "text[]")) end
  | _ => raise (EPg (DataError "text[]"))
  end.

(** * Rounding half to even *)
Definition round_half_even (q : Q) : Z :=
  let n := Qnum q in let d := Zpos (Qden q) in
  let f := n / d in
  let r := 2 * (n mod d) in
  if r <? d then f else if d <? r then f + 1 else if Z.even f then f else f + 1.
(** [timedelta(seconds=q)] in microseconds. *)
Definition timedelta_us (seconds : Q) : Z := round_half_even (seconds * inject_Z 1000000).
(** [round(q, 3)]. *)
Definition py_round3 (q : Q) : Q := Qred (round_half_even (q * inject_Z 1000) # 1000).
(** [datetime + timedelta], out of range being an OverflowError. *)
Definition datetime_add (t d : Z) : M Z :=
  if representable (t + d) then mret (t + d) else raise (EOther "date value out of range").

(** * Facts *)
Lemma subscript_ok k j v w w' : subscript k j w = (Ok v, w') → w' = w ∧ jget k j = Some v.
Proof.
  unfold subscript. destruct j as [ | | | | | |o]; [done..|]. rewrite jget_obj.
  destruct (dget k o); run_prog; intros; by simplify_eq.
Qed.
Lemma dict_get_ok k j v w w' : dict_get k j w = (Ok v, w') → w' = w ∧ jget k j = v.
Proof. unfold dict_get. destruct j; run_prog; intros; try done; by simplify_eq. Qed.
Lemma text_arg_ok k j s w w' : text_arg k j w = (Ok s, w') → w' = w ∧ j = JStr s.
Proof. unfold text_arg. destruct j; run_prog; intros; by simplify_eq. Qed.
