(* ===== verification/AuditLog.v ===== *)
(** [registry/audit.py]: the audit event writer and reader. *)
From S2P Require Import Prelude PyStr PyDict Json JsonText PyTime Errors Models World Samples Database Isolation.
Local Open Scope Z_scope.

(** * Arguments of [AuditEventWriter.write] *)
Record audit_args := AuditArgs {
  a_tenant_id : string;
  a_kind : string;
  a_correlation_id : string;
  a_principal_subject : string;
  a_originating_finding : option json;
  a_policy_ref : option json;
  a_deployment_ref : option json;
  a_outcome_ref : option json;
  a_error : option json;
  a_slm_repo : option json;
  a_slm_revision_sha : option json;
  a_slm_runtime : option json;
  a_slm_runtime_version : option json;
  a_slm_quantization : option json;
  a_slm_decoding_seed : option Z;
  a_prompt_template_version : option json;
  a_inbound_schema_version : option json;
  a_time_acceleration_factor : option Q }.
(** The four mandatory keywords; every other one defaults to [None]. *)
Definition event (tenant_id kind correlation_id principal_subject : string) : audit_args :=
  AuditArgs tenant_id kind correlation_id principal_subject None None None None None None None None None None None None None None.
Definition with_finding (j : json) (a : audit_args) : audit_args :=
  AuditArgs (a_tenant_id a) (a_kind a) (a_correlation_id a) (a_principal_subject a) (Some j) (a_policy_ref a) (a_deployment_ref a) (a_outcome_ref a) (a_error a) (a_slm_repo a) (a_slm_revision_sha a) (a_slm_runtime a) (a_slm_runtime_version a) (a_slm_quantization a) (a_slm_decoding_seed a) (a_prompt_template_version a) (a_inbound_schema_version a) (a_time_acceleration_factor a).
Definition with_policy (j : json) (a : audit_args) : audit_args :=
  AuditArgs (a_tenant_id a) (a_kind a) (a_correlation_id a) (a_principal_subject a) (a_originating_finding a) (Some j) (a_deployment_ref a) (a_outcome_ref a) (a_error a) (a_slm_repo a) (a_slm_revision_sha a) (a_slm_runtime a) (a_slm_runtime_version a) (a_slm_quantization a) (a_slm_decoding_seed a) (a_prompt_template_version a) (a_inbound_schema_version a) (a_time_acceleration_factor a).
Definition with_deployment (j : json) (a : audit_args) : audit_args :=
  AuditArgs (a_tenant_id a) (a_kind a) (a_correlation_id a) (a_principal_subject a) (a_originating_finding a) (a_policy_ref a) (Some j) (a_outcome_ref a) (a_error a) (a_slm_repo a) (a_slm_revision_sha a) (a_slm_runtime a) (a_slm_runtime_version a) (a_slm_quantization a) (a_slm_decoding_seed a) (a_prompt_template_version a) (a_inbound_schema_version a) (a_time_acceleration_factor a).
Definition with_outcome (j : json) (a : audit_args) : audit_args :=
  AuditArgs (a_tenant_id a) (a_kind a) (a_correlation_id a) (a_principal_subject a) (a_originating_finding a) (a_policy_ref a) (a_deployment_ref a) (Some j) (a_error a) (a_slm_repo a) (a_slm_revision_sha a) (a_slm_runtime a) (a_slm_runtime_version a) (a_slm_quantization a) (a_slm_decoding_seed a) (a_prompt_template_version a) (a_inbound_schema_version a) (a_time_acceleration_factor a).
Definition with_error (j : json) (a : audit_args) : audit_args :=
  AuditArgs (a_tenant_id a) (a_kind a) (a_correlation_id a) (a_principal_subject a) (a_originating_finding a) (a_policy_ref a) (a_deployment_ref a) (a_outcome_ref a) (Some j) (a_slm_repo a) (a_slm_revision_sha a) (a_slm_runtime a) (a_slm_runtime_version a) (a_slm_quantization a) (a_slm_decoding_seed a) (a_prompt_template_version a) (a_inbound_schema_version a) (a_time_acceleration_factor a).
Definition with_schema_version (v : option json) (a : audit_args) : audit_args :=
  AuditArgs (a_tenant_id a) (a_kind a) (a_correlation_id a) (a_principal_subject a) (a_originating_finding a) (a_policy_ref a) (a_deployment_ref a) (a_outcome_ref a) (a_error a) (a_slm_repo a) (a_slm_revision_sha a) (a_slm_runtime a) (a_slm_runtime_version a) (a_slm_quantization a) (a_slm_decoding_seed a) (a_prompt_template_version a) v (a_time_acceleration_factor a).
Definition with_factor (q : Q) (a : audit_args) : audit_args :=
  AuditArgs (a_tenant_id a) (a_kind a) (a_correlation_id a) (a_principal_subject a) (a_originating_finding a) (a_policy_ref a) (a_deployment_ref a) (a_outcome_ref a) (a_error a) (a_slm_repo a) (a_slm_revision_sha a) (a_slm_runtime a) (a_slm_runtime_version a) (a_slm_quantization a) (a_slm_decoding_seed a) (a_prompt_template_version a) (a_inbound_schema_version a) (Some q).
Definition with_slm (repo sha rt rtv quant : option json) (seed : option Z) (ptv : option json) (a : audit_args) : audit_args :=
  AuditArgs (a_tenant_id a) (a_kind a) (a_correlation_id a) (a_principal_subject a) (a_originating_finding a) (a_policy_ref a) (a_deployment_ref a) (a_outcome_ref a) (a_error a) repo sha rt rtv quant seed ptv (a_inbound_schema_version a) (a_time_acceleration_factor a).

(** * Values on their way into a query *)
(** [v is None] for an optional Python value. *)
Definition is_none (o : option json) : bool :=
  match o with None | Some JNull => true | _ => false end.
(** A TEXT parameter: asyncpg refuses anything but a string or None. *)
Definition text_param (column : string) (o : option json) : result exn (option string) :=
  match o with
  | None | Some JNull => Ok None
  | Some (JStr s) => Ok (Some s)
  | Some _ => Raise (EPg (DataError column))
  end.
(** [json.dumps(d) if d else None] for an optional dict. *)
Definition dumps_or_none (o : option json) : option json :=
  match o with Some j => if truthy j then Some j else None | None => None end.

(** The text of a list of strings. *)
Definition repr_strs (l : list string) : string :=
  "[" +:+ join ", " ((λ s, "'" +:+ s +:+ "'") <$> l) +:+ "]".

(** [_KIND_MIN_FIELDS]. *)
Definition kind_min_fields : list (string * list string) :=
  [ ("break_glass", ["operator_principal_subject"; "tenant_scope"; "reason_code"]);
    ("tenant_config_change", ["service_principal_subject"; "target_tenant_id"]);
    ("deployment_rejected",
      ["policy_ref"; "target_vehicle_id"; "policy_declared_tenant_id"; "vehicle_owning_tenant_id"]);
    ("vehicle_assignment_change",
      ["service_principal_subject"; "vehicle_id"; "new_tenant_id"; "reason_code"]) ].

(** The names whose value is None among the seven a generated event needs. *)
Definition generated_missing (a : audit_args) : list string :=
  (List.filter (λ nv, (nv.2 : bool))
    [ ("slm_repo", is_none (a_slm_repo a));
      ("slm_revision_sha", is_none (a_slm_revision_sha a));
      ("slm_runtime", is_none (a_slm_runtime a));
      ("slm_runtime_version", is_none (a_slm_runtime_version a));
      ("slm_quantization", is_none (a_slm_quantization a));
      ("slm_decoding_seed", bool_decide (a_slm_decoding_seed a = None));
      ("prompt_template_version", is_none (a_prompt_template_version a)) ]).*1.

Definition min_fields_missing (a : audit_args) : list string :=
  let payload := or_else (a_originating_finding a) (JObj []) in
  List.filter (λ f, negb (dmem f (fields payload)))
    (default [] (dget (a_kind a) kind_min_fields)).

(** The field-set check at the top of [write]. *)
Definition check_fields (a : audit_args) : result exn unit :=
  if str_eqb (a_kind a) "generated" then
    match generated_missing a with
    | [] => Ok tt
    | ms => Raise (EValueError ("audit kind=generated missing required fields: " +:+ repr_strs ms))
    end
  else if dmem (a_kind a) kind_min_fields then
    match min_fields_missing a with
    | [] => Ok tt
    | ms => Raise (EValueError ("audit kind=" +:+ a_kind a +:+
                                " missing required fields: " +:+ repr_strs ms))
    end
  else Ok tt.

(** [originating_with_extras]. *)
Definition originating_with_extras (a : audit_args) : json :=
  let base := fields (or_else (a_originating_finding a) (JObj [])) in
  match a_error a with
  | Some e => JObj (dsetdefault "_extras" (JObj [("error", e)]) base)
  | None => JObj base
  end.

(** The nineteen query parameters, as the row they describe. *)
Definition event_row (a : audit_args) (event_id : string) (occurred_at : Z) : result exn audit_row :=
  repo ← text_param "slm_repo" (a_slm_repo a);
  sha ← text_param "slm_revision_sha" (a_slm_revision_sha a);
  rt ← text_param "slm_runtime" (a_slm_runtime a);
  rtv ← text_param "slm_runtime_version" (a_slm_runtime_version a);
  quant ← text_param "slm_quantization" (a_slm_quantization a);
  ptv ← text_param "prompt_template_version" (a_prompt_template_version a);
  isv ← text_param "inbound_schema_version" (a_inbound_schema_version a);
  mret (AuditRow event_id (a_tenant_id a) (a_kind a)
    (dumps_or_none (Some (originating_with_extras a)))
    (dumps_or_none (a_policy_ref a)) (dumps_or_none (a_deployment_ref a))
    (dumps_or_none (a_outcome_ref a)) repo sha rt rtv quant (a_slm_decoding_seed a) ptv isv
    (round3 <$> a_time_acceleration_factor a)
    (a_principal_subject a) (a_correlation_id a) occurred_at).

Section Writer.
Context `{Env}.

(** [AuditEventWriter.write]. *)
Definition write (a : audit_args) : M string :=
  lift (check_fields a);;
  event_id ← new_id;
  acquire (a_tenant_id a) (λ c,
    occurred ← now;
    row ← lift (event_row a event_id occurred);
    inserted ← insert_audit c true row;
    if (inserted : bool) then mret event_id
    else
      existing ← select c db_audit_events
        (λ r, str_eqb (au_correlation_id r) (a_correlation_id a) && str_eqb (au_kind r) (a_kind a));
      match existing with
      | r :: _ => mret (au_event_id r)
      | [] => raise (ERuntimeError
          ("audit upsert returned no row and no existing row for (correlation_id=" +:+
           a_correlation_id a +:+ ", kind=" +:+ a_kind a +:+ ")"))
      end).

Definition opt_str (o : option string) : json := match o with Some s => JStr s | None => JNull end.

(** [_row_to_event]. *)
Definition row_to_event (r : audit_row) : json :=
  let error :=
    match au_originating_finding r with
    | Some (JObj o) => default JNull (jget "error" (or_else (dget "_extras" o) (JObj [])))
    | _ => JNull
    end in
  JObj [ ("event_id", JStr (au_event_id r));
         ("tenant_id", JStr (au_tenant_id r));
         ("kind", JStr (au_kind r));
         ("correlation_id", JStr (au_correlation_id r));
         ("principal_subject", JStr (au_principal_subject r));
         ("occurred_at", JStr (isoformat (au_occurred_at r)));
         ("originating_finding", opt_json (au_originating_finding r));
         ("policy_ref", opt_json (au_policy_ref r));
         ("deployment_ref", opt_json (au_deployment_ref r));
         ("outcome_ref", opt_json (au_outcome_ref r));
         ("error", error);
         ("slm_repo", opt_str (au_slm_repo r));
         ("slm_revision_sha", opt_str (au_slm_revision_sha r));
         ("slm_runtime", opt_str (au_slm_runtime r));
         ("slm_runtime_version", opt_str (au_slm_runtime_version r));
         ("slm_quantization", opt_str (au_slm_quantization r));
         ("slm_decoding_seed", match au_slm_decoding_seed r with Some z => JInt z | None => JNull end);
         ("prompt_template_version", opt_str (au_prompt_template_version r));
         ("inbound_schema_version", opt_str (au_inbound_schema_version r));
         ("time_acceleration_factor",
           match au_time_acceleration_factor r with Some q => JFloat q | None => JNull end) ].

(** [AuditEventWriter.list_for_correlation]. *)
Definition list_for_correlation (tenant_id correlation_id : string) : M (list json) :=
  rows ← acquire tenant_id (λ c,
    rows ← select c db_audit_events
      (λ r, str_eqb (au_tenant_id r) tenant_id && str_eqb (au_correlation_id r) correlation_id);
    mret (sort_by au_occurred_at rows));
  mret (row_to_event <$> rows).
End Writer.

(** * What a write does *)
Section WriterFacts.
Context `{Env}.


Lemma event_row_fields a eid t row : event_row a eid t = Ok row →
  au_event_id row = eid ∧ au_tenant_id row = a_tenant_id a ∧ au_kind row = a_kind a ∧
  au_correlation_id row = a_correlation_id a ∧ au_occurred_at row = t ∧
  au_originating_finding row = dumps_or_none (Some (originating_with_extras a)).
Proof.
  unfold event_row, mbind, result_bind, mret, result_ret.
  intros Hrow. repeat (case_match; try done). by simplify_eq.
Qed.

(** The rows a tenant can see under a (correlation id, kind) pair. *)
Definition visible_events (t cid kind : string) (d : db) : list audit_row :=
  List.filter (λ r, rls_visible (Conn TenantRole (Some t) None) (au_tenant_id r) &&
    (str_eqb (au_correlation_id r) cid && str_eqb (au_kind r) kind)) (db_audit_events d).

(** The process state after the identifier and the clock were read. *)
Definition after_reads (w : world) : world := upd_clock_n S (upd_ids_n S w).

Lemma write_cases a w :
  let eid := fresh (w_ids_n w) in
  (∃ row, event_row a eid (clock (w_clock_n w)) = Ok row ∧ check_fields a = Ok tt ∧
     rls_visible (Conn TenantRole (Some (a_tenant_id a)) (w_guc w)) (a_tenant_id a) = true ∧
     first_violation (audit_checks row) = None ∧
     existsb (audit_key row) (db_audit_events (w_db w)) = false ∧ w_pool w = true ∧
     write a w = (Ok eid, upd_db (upd_audit_events (λ rows, rows ++ [row])) (after_reads w))) ∨
  (∃ row r rs, event_row a eid (clock (w_clock_n w)) = Ok row ∧ check_fields a = Ok tt ∧
     rls_visible (Conn TenantRole (Some (a_tenant_id a)) (w_guc w)) (a_tenant_id a) = true ∧
     first_violation (audit_checks row) = None ∧ w_pool w = true ∧
     visible_events (a_tenant_id a) (a_correlation_id a) (a_kind a) (w_db w) = r :: rs ∧
     write a w = (Ok (au_event_id r), after_reads w)) ∨
  (∃ e w', write a w = (Raise e, w') ∧ w_db w' = w_db w ∧ w_tasks w' = w_tasks w ∧
     w_pool w' = w_pool w).
Proof.
  cbv zeta. unfold write, lift at 1, mbind, prog_bind. destruct (check_fields a) as [[]|e] eqn:Ec;
    [|right; right; eexists _, _; split_and!; simpl; first [done | by rewrite Ep]].
  simpl. unfold acquire, gets, mbind, prog_bind. simpl.
  destruct (w_pool w) eqn:Ep; simpl; [|right; right; eexists _, _; split_and!; simpl; first [done | by rewrite Ep]].
  unfold in_transaction, lift. simpl.
  destruct (event_row a (fresh (w_ids_n w)) (clock (w_clock_n w))) as [row|e] eqn:Er; simpl;
    [|right; right; eexists _, _; split_and!; simpl; first [done | by rewrite Ep]].
  pose proof (event_row_fields _ _ _ _ Er) as (_ & Ht & Hk & Hc & _ & _).
  fold (after_reads w). set (c := Conn TenantRole (Some (a_tenant_id a)) (w_guc w)).
  unfold insert_audit.
  edestruct (insert_row_cases c "audit_events" db_audit_events upd_audit_events audit_checks)
    as [(-> & Hv & Hck & Hu & _)|[(-> & Hv & Hck & _)|(e & ->)]];
    unfold row_tenant, audit_tenanted in *; rewrite ?Ht in *.
  - left. exists row. split_and!; try done.
    + apply (Hu ("audit_events_correlation_kind_unique", audit_key, true)). by left.
  - right. unfold select, gets. simpl.
    change (List.filter _ (db_audit_events (w_db w)))
      with (visible_events (a_tenant_id a) (a_correlation_id a) (a_kind a) (w_db w)).
    destruct (visible_events _ _ _ _) as [|r rs] eqn:Ev; [right; eexists _, _; split_and!; simpl; first [done | by rewrite Ep]|]. left.
    exists row, r, rs. by split_and!.
  - right. right. eexists _, _. split_and!; simpl; first [done | by rewrite Ep].
Qed.

(** The row for another id and instant is as valid. *)
Lemma event_row_replay a eid t row eid' t' :
  event_row a eid t = Ok row → first_violation (audit_checks row) = None → eid' ≠ "" →
  ∃ row', event_row a eid' t' = Ok row' ∧ first_violation (audit_checks row') = None ∧
    ∀ r, audit_key row' r = audit_key row r.
Proof.
  unfold event_row, mbind, result_bind, mret, result_ret. intros Hrow Hc Hne.
  repeat (case_match; try done). simplify_eq. eexists. split; [done|]. split; [|done].
  apply nonempty_true in Hne. rewrite first_violation_none in *.
  unfold audit_checks, check, generated_complete in *. rewrite !Forall_cons in *. simpl in *. tauto.
Qed.

(** When the tenant already sees a row under the key, a valid write finds it. *)
Lemma write_existing a w row r rs :
  event_row a (fresh (w_ids_n w)) (clock (w_clock_n w)) = Ok row → check_fields a = Ok tt →
  rls_visible (Conn TenantRole (Some (a_tenant_id a)) (w_guc w)) (a_tenant_id a) = true →
  first_violation (audit_checks row) = None → w_pool w = true →
  visible_events (a_tenant_id a) (a_correlation_id a) (a_kind a) (w_db w) = r :: rs →
  write a w = (Ok (au_event_id r), after_reads w).
Proof.
  intros Hr Hf Hv Hc Hp Hs. unfold write, lift, mbind, prog_bind. rewrite Hf. simpl.
  unfold acquire, gets, mbind, prog_bind. simpl. rewrite Hp. unfold in_transaction. simpl.
  rewrite Hr. fold (after_reads w).
  destruct (event_row_fields _ _ _ _ Hr) as (_ & Ht & Hk & Hcid & _).
  unfold insert_audit. rewrite insert_row_conflict; try done.
  - unfold select, gets. simpl. fold (visible_events (a_tenant_id a) (a_correlation_id a) (a_kind a) (w_db w)).
    change (List.filter _ (db_audit_events (w_db w)))
      with (visible_events (a_tenant_id a) (a_correlation_id a) (a_kind a) (w_db w)).
    by rewrite Hs.
  - unfold row_tenant, audit_tenanted. by rewrite Ht.
  - apply existsb_exists. exists r.
    assert (r ∈ visible_events (a_tenant_id a) (a_correlation_id a) (a_kind a) (w_db w))
      as Hin by (rewrite Hs; by left).
    apply list_elem_of_In, filter_In in Hin as [Hin Hp']. split; [done|].
    rewrite !andb_true_iff in Hp'. destruct Hp' as [_ [E1 E2]]. apply str_eqb_eq in E1, E2.
    unfold audit_key. by rewrite Hcid, Hk, E1, E2, !str_eqb_refl.
Qed.

(** Without a row under the key, the tenant sees none under it. *)
Lemma visible_events_none a eid t row rows :
  event_row a eid t = Ok row → existsb (audit_key row) rows = false →
  List.filter (λ r, rls_visible (Conn TenantRole (Some (a_tenant_id a)) None) (au_tenant_id r) &&
    (str_eqb (au_correlation_id r) (a_correlation_id a) && str_eqb (au_kind r) (a_kind a))) rows = [].
Proof.
  intros Hr. destruct (event_row_fields _ _ _ _ Hr) as (_ & _ & Hk & Hc & _).
  induction rows as [|r rows IH]; simpl; [done|]. intros [Hn Hrs]%orb_false_iff.
  rewrite (IH Hrs). unfold audit_key in Hn. rewrite Hc, Hk in Hn.
  rewrite (str_eqb_sym (au_correlation_id r)), (str_eqb_sym (au_kind r)), Hn. by rewrite andb_false_r.
Qed.

Lemma write_outside {B} (f : world → B) a :
  (∀ g w, f (upd_db g w) = f w) → (∀ g w, f (upd_ids_n g w) = f w) →
  (∀ g w, f (upd_clock_n g w) = f w) → stable f (write a).
Proof.
  intros Hd Hi Hc w. unfold write, lift, acquire, in_transaction, insert_audit, insert_row, select.
  run_prog. repeat (case_match; simplify_eq; simpl; rewrite ?Hd, ?Hc, ?Hi; try done).
Qed.

Lemma confined_write a : confined (a_tenant_id a) (write a).
Proof. unfold write. solve_confined. Qed.

(** A write changes nothing but [audit_events], where it appends at most one row. *)
Lemma write_appends a w : ∃ rows,
  w_db (write a w).2 = upd_audit_events (λ l, l ++ rows) (w_db w) ∧
  (rows = [] ∨ ∃ row, rows = [row] ∧
     event_row a (fresh (w_ids_n w)) (clock (w_clock_n w)) = Ok row ∧
     check_fields a = Ok tt ∧ first_violation (audit_checks row) = None ∧
     existsb (audit_key row) (db_audit_events (w_db w)) = false).
Proof.
  assert (∀ d, d = upd_audit_events (λ l, l ++ []) d) as Hid.
  { intros []. unfold upd_audit_events. simpl. by rewrite app_nil_r. }
  destruct (write_cases a w)
    as [(row & Hr & Hc & _ & Hk & Hn & _ & ->)|[(row & r & rs & _ & _ & _ & _ & _ & _ & ->)|(e & w' & -> & Hd & _)]]; simpl.
  - exists [row]. split; [done|]. right. by exists row.
  - exists []. split; [apply Hid | by left].
  - exists []. rewrite Hd. split; [apply Hid | by left].
Qed.

(** A write that returns leaves an event of its kind, tenant and correlation id. *)
Lemma write_leaves a w eid w' : write a w = (Ok eid, w') →
  ∃ r, r ∈ db_audit_events (w_db w') ∧ au_event_id r = eid ∧ au_tenant_id r = a_tenant_id a ∧
    au_kind r = a_kind a ∧ au_correlation_id r = a_correlation_id a ∧
    w_pool w' = true ∧ nonempty (a_tenant_id a) = true.
Proof.
  intros Hw. destruct (write_cases a w)
    as [(row & Hr & _ & Hne & _ & _ & Hp & E)|[(row & r & rs & _ & _ & Hne & _ & Hp & Hv & E)|(e & w1 & E & _)]];
    rewrite E in Hw; simplify_eq;
    unfold rls_visible in Hne; simpl in Hne; apply andb_true_iff in Hne as [Hne _].
  - exists row. destruct (event_row_fields _ _ _ _ Hr) as (? & ? & ? & ? & _).
    split; [|by split_and!]. simpl. apply elem_of_app. right. by left.
  - exists r. assert (r ∈ visible_events (a_tenant_id a) (a_correlation_id a) (a_kind a) (w_db w))
      as Hin by (rewrite Hv; by left).
    apply list_elem_of_In, filter_In in Hin as [Hin Hpr].
    rewrite !andb_true_iff in Hpr. destruct Hpr as [Ht%visible_own [Hc Hk]].
    apply str_eqb_eq in Ht, Hc, Hk. split; [by apply list_elem_of_In | done].
Qed.
End WriterFacts.

#[export] Hint Resolve confined_write : isolation.

(** A successful write is on record: the returned id is the id of a row of
    the writing tenant with the requested kind and correlation id, and the
    tenant's own listing for that correlation id contains it. *)
Theorem audit_write_recorded `{Env} (a : audit_args) (w w' : world) (eid : string) :
  write a w = (Ok eid, w') →
  ∃ r events w2, au_event_id r = eid ∧ au_tenant_id r = a_tenant_id a ∧ au_kind r = a_kind a ∧
    au_correlation_id r = a_correlation_id a ∧ r ∈ db_audit_events (w_db w') ∧
    list_for_correlation (a_tenant_id a) (a_correlation_id a) w' = (Ok events, w2) ∧
    row_to_event r ∈ events.
Proof.
  intros Hw. destruct (write_leaves a w eid w' Hw) as (r & Hin & He & Ht & Hk & Hc & Hp & Hne).
  exists r. unfold list_for_correlation. eexists _, w'. split_and!; try done.
  - erewrite bind_ok; [reflexivity|]. apply acquire_run; [done|]. reflexivity.
  - apply list_elem_of_fmap_2, elem_of_sort_by, list_elem_of_In, filter_In.
    split; [by apply list_elem_of_In|]. unfold rls_visible, row_tenant, audit_tenanted. simpl.
    by rewrite Ht, Hc, Hne, !str_eqb_refl.
Qed.

Lemma audit_write_recorded_witness :
  let a := event "acme" "accepted" "corr-1" "client-7" in
  ∃ w', write (H := Samples.env) a Samples.start = (Ok "id-0", w') ∧
  ∃ r events w2, au_event_id r = "id-0" ∧ au_tenant_id r = "acme" ∧ au_kind r = "accepted" ∧
    au_correlation_id r = "corr-1" ∧ r ∈ db_audit_events (w_db w') ∧
    list_for_correlation "acme" "corr-1" w' = (Ok events, w2) ∧ row_to_event r ∈ events.
Proof.
  eexists. split; [vm_compute; reflexivity|].
  eapply (audit_write_recorded (H := Samples.env) (event "acme" "accepted" "corr-1" "client-7")
    Samples.start). vm_compute. reflexivity.
Defined.

(** Writing is safe to retry: repeating a successful write returns the same
    event id and leaves every table as the first write left it. *)
Theorem audit_write_idempotent `{Env} `{!EnvLaws} (a : audit_args) (w w1 : world) (eid : string) :
  write a w = (Ok eid, w1) →
  ∃ w2, write a w1 = (Ok eid, w2) ∧ w_db w2 = w_db w1.
Proof.
  intros Hw. destruct (write_cases a w)
    as [(row & Hr & Hf & Hv & Hc & Hn & Hp & E)|
       [(row & r & rs & Hr & Hf & Hv & Hc & Hp & Hs & E)|(e & w' & E & _)]];
    rewrite E in Hw; simplify_eq;
    destruct (event_row_replay a _ _ row (fresh (S (w_ids_n w))) (clock (S (w_clock_n w))) Hr Hc
      (fresh_nonempty _)) as (row' & Hr' & Hc' & _).
  - destruct (event_row_fields _ _ _ _ Hr) as (Hid & Ht & Hk & Hcid & _).
    eexists. split; [rewrite <- Hid; apply (write_existing a _ row' row []); try done | done].
    unfold visible_events. simpl.
    rewrite List.filter_app, (visible_events_none _ _ _ _ _ Hr Hn). simpl.
    rewrite Ht, Hk, Hcid, !str_eqb_refl.
    unfold rls_visible in *. simpl in *. apply andb_true_iff in Hv as [-> _].
    by rewrite str_eqb_refl.
  - eexists. split; [by apply (write_existing a _ row' r rs) | done].
Qed.

Lemma audit_write_idempotent_witness :
  let a := event "acme" "accepted" "corr-1" "client-7" in
  ∃ w1 w2, write (H := Samples.env) a Samples.start = (Ok "id-0", w1) ∧
           write (H := Samples.env) a w1 = (Ok "id-0", w2) ∧ w_db w2 = w_db w1.
Proof.
  pose (a := event "acme" "accepted" "corr-1" "client-7").
  pose (w1 := (write (H := Samples.env) a Samples.start).2).
  destruct (audit_write_idempotent (H := Samples.env) a Samples.start w1 "id-0")
    as (w2 & Hw & Hd); [vm_compute; reflexivity|].
  exists w1, w2. split; [vm_compute; reflexivity | done].
Defined.

(** A correlation id another tenant has used for the same kind blocks the
    write: uniqueness is global while the follow-up lookup is the tenant's own,
    so the write raises and the event is not recorded. *)
Theorem audit_cross_tenant_collision `{Env} (a : audit_args) (w : world) (r : audit_row) :
  r ∈ db_audit_events (w_db w) →
  au_correlation_id r = a_correlation_id a → au_kind r = a_kind a →
  (∀ r', r' ∈ db_audit_events (w_db w) → au_correlation_id r' = a_correlation_id a →
         au_kind r' = a_kind a → au_tenant_id r' ≠ a_tenant_id a) →
  ∃ e w', write a w = (Raise e, w') ∧ w_db w' = w_db w.
Proof.
  intros Hin Hc Hk Hforeign. destruct (write_cases a w)
    as [(row & Hr & _ & _ & _ & Hn & _)|
       [(row & r' & rs & _ & _ & _ & _ & _ & Hs & _)|(e & w' & E & Hd & _)]].
  - destruct (event_row_fields _ _ _ _ Hr) as (_ & _ & Hk' & Hc' & _).
    assert (existsb (audit_key row) (db_audit_events (w_db w)) = true) as Hx; [|congruence].
    apply existsb_exists. exists r. split; [by apply list_elem_of_In|].
    unfold audit_key. by rewrite Hc', Hk', Hc, Hk, !str_eqb_refl.
  - exfalso. assert (r' ∈ visible_events (a_tenant_id a) (a_correlation_id a) (a_kind a) (w_db w))
      as Hv by (rewrite Hs; by left).
    apply list_elem_of_In, filter_In in Hv as [Hv Hp].
    rewrite !andb_true_iff, !str_eqb_eq in Hp. destruct Hp as [Ht%visible_own [E1 E2]].
    apply str_eqb_eq in Ht. apply (Hforeign r'); try done. by apply list_elem_of_In.
  - by exists e, w'.
Qed.

Lemma audit_cross_tenant_collision_witness :
  let w1 := (write (H := Samples.env) (event "globex" "accepted" "corr-1" "client-9")
               Samples.start).2 in
  ∃ e w', write (H := Samples.env) (event "acme" "accepted" "corr-1" "client-7") w1
          = (Raise e, w') ∧ w_db w' = w_db w1.
Proof.
  intros w1. eapply (audit_cross_tenant_collision (H := Samples.env)
    (event "acme" "accepted" "corr-1" "client-7") w1).
  - vm_compute. left.
  - reflexivity.
  - reflexivity.
  - intros r' Hin. vm_compute in Hin. apply list_elem_of_singleton in Hin as ->. done.
Defined.

(** * The field sets on record *)
Definition min_fields_ok (r : audit_row) : Prop :=
  (au_kind r = "generated" → generated_complete r = true) ∧
  ∀ fs, dget (au_kind r) kind_min_fields = Some fs →
    ∀ f, f ∈ fs → ∃ o v, au_originating_finding r = Some (JObj o) ∧ dget f o = Some v.

Lemma check_fields_min a fs f : check_fields a = Ok tt → a_kind a ≠ "generated" →
  dget (a_kind a) kind_min_fields = Some fs → f ∈ fs →
  ∃ v, dget f (fields (originating_with_extras a)) = Some v.
Proof.
  unfold check_fields. intros Hc Hk Hfs Hin. apply str_eqb_neq in Hk. rewrite Hk in Hc.
  assert (dmem (a_kind a) kind_min_fields = true) as Hm
    by (unfold dmem; rewrite Hfs; by apply bool_decide_eq_true).
  rewrite Hm in Hc. destruct (min_fields_missing a) as [|x l] eqn:Em; [|done].
  unfold min_fields_missing in Em. rewrite Hfs in Em. simpl in Em.
  destruct (dmem f (fields (or_else (a_originating_finding a) (JObj [])))) eqn:Ed.
  - unfold dmem in Ed. apply bool_decide_eq_true in Ed as [v Hv]. unfold originating_with_extras.
    destruct (a_error a); simpl; [|by eauto]. unfold dsetdefault.
    destruct (dget "_extras" _) eqn:Ex; [by eauto|]. exists v.
    rewrite dget_dset_ne; [done|]. intros <-. congruence.
  - exfalso. assert (f ∈ (List.filter (λ f, negb (dmem f
      (fields (or_else (a_originating_finding a) (JObj []))))) fs)) as Hf.
    { apply list_elem_of_In, filter_In. split; [by apply list_elem_of_In|]. by rewrite Ed. }
    rewrite Em in Hf. by apply not_elem_of_nil in Hf.
Qed.
