(* ===== verification/TenantConfig.v ===== *)
(** [registry/tenant_config.py] and [ratelimit/config_cache.py]: the per-tenant
    rate-limit configuration, its TTL cache, and the listener that invalidates
    it. *)
From S2P Require Import Prelude PyStr PyDict Json JsonText PyTime Errors Models World Samples Database Isolation.
Local Open Scope Z_scope.

(** * Defaults *)
Definition DEFAULT_INBOUND : RateLimitBucket := {| sustained_rps := 2000; burst_capacity := 4000 |}.
Definition DEFAULT_QUERY : RateLimitBucket := {| sustained_rps := 200; burst_capacity := 400 |}.
Definition default_config (tenant_id : string) : TenantConfig :=
  {| tc_tenant_id := tenant_id; tc_inbound := DEFAULT_INBOUND; tc_query := DEFAULT_QUERY;
     tc_source := "default"; tc_updated_at := None |}.

(** * [_TTLCache] *)
Notation cache := (list (string * (Z * TenantConfig))).
Definition TTL : Z := 5000000.
Definition CAPACITY : nat := 1024.

(** [min(self._data, key=lambda k: self._data[k][0])]: the first key of least
    expiry. *)
Fixpoint oldest_key (best : string * Z) (d : cache) : string :=
  match d with
  | [] => best.1
  | (k, (x, _)) :: d' => oldest_key (if x <? best.2 then (k, x) else best) d'
  end.
Definition evict (d : cache) : cache :=
  match d with
  | [] => []
  | (k, (x, _)) :: d' => dpop (oldest_key (k, x) d') d
  end.
Definition make_room (d : cache) : cache :=
  if (CAPACITY <=? length d)%nat then evict d else d.

Section Cache.
Context `{Env}.

(** [_TTLCache.get]. *)
Definition cache_get (tenant_id : string) : M (option TenantConfig) :=
  d ← gets w_cfg_cache;
  match dget tenant_id d with
  | None => mret None
  | Some (expires_at, value) =>
      t ← now_mono;
      if expires_at <? t then modify (upd_cfg_cache (dpop tenant_id));; mret None
      else mret (Some value)
  end.
(** [_TTLCache.put]. *)
Definition cache_put (tenant_id : string) (config : TenantConfig) : M unit :=
  modify (upd_cfg_cache make_room);;
  t ← now_mono;
  modify (upd_cfg_cache (dset tenant_id (t + TTL, config))).
(** [_TTLCache.invalidate], and [TenantConfigRepository.invalidate]. *)
Definition invalidate (tenant_id : string) : M unit := modify (upd_cfg_cache (dpop tenant_id)).

Definition config_of_row (r : config_row) : TenantConfig :=
  {| tc_tenant_id := cf_tenant_id r;
     tc_inbound := {| sustained_rps := cf_inbound_sustained_rps r;
                      burst_capacity := cf_inbound_burst_capacity r |};
     tc_query := {| sustained_rps := cf_query_sustained_rps r;
                    burst_capacity := cf_query_burst_capacity r |};
     tc_source := "override";
     tc_updated_at := Some (isoformat (cf_updated_at r)) |}.

(** [TenantConfigRepository.get_for_tenant], as one step: the source can be suspended
    between the SELECT and the [put], where a notification for the tenant would be lost on
    the entry about to be cached. *)
Definition get_for_tenant (tenant_id : string) : M TenantConfig :=
  cached ← cache_get tenant_id;
  match cached with
  | Some c => mret c
  | None =>
      rows ← acquire tenant_id (λ c,
        select c db_tenant_config (λ r, str_eqb (cf_tenant_id r) tenant_id));
      let config := match rows with
                    | [] => default_config tenant_id
                    | r :: _ => config_of_row r
                    end in
      cache_put tenant_id config;;
      mret config
  end.

(** [TenantConfigCacheConsumer._on_notify]. *)
Definition on_notify (payload : string) : M unit :=
  if nonempty payload then invalidate payload else mret tt.
End Cache.

(** * The effective configuration, read straight from the table *)
Definition effective (tenant_id : string) (d : db) : TenantConfig :=
  match List.filter (λ r, rls_visible (Conn TenantRole (Some tenant_id) None) (cf_tenant_id r) &&
                          str_eqb (cf_tenant_id r) tenant_id) (db_tenant_config d) with
  | [] => default_config tenant_id
  | r :: _ => config_of_row r
  end.

Lemma effective_tenant t d : tc_tenant_id (effective t d) = t.
Proof.
  unfold effective. destruct (List.filter _ _) as [|r rs] eqn:E; [done|].
  assert (r ∈ r :: rs) as Hin by left. rewrite <- E in Hin.
  apply list_elem_of_In, filter_In in Hin as [_ Hp].
  apply andb_true_iff in Hp as [_ Hp]. by apply str_eqb_eq in Hp.
Qed.

(** * The cache invariant *)
Definition cache_ok (w : world) : Prop :=
  NoDup (dkeys (w_cfg_cache w)) ∧ (length (w_cfg_cache w) ≤ CAPACITY)%nat ∧
  ∀ t x c, (t, (x, c)) ∈ w_cfg_cache w → tc_tenant_id c = t.

Lemma oldest_key_in b (d : cache) : oldest_key b d = b.1 ∨ oldest_key b d ∈ dkeys d.
Proof.
  revert b. induction d as [|[k [x c]] d IH]; intros b; simpl; [by left|].
  destruct (IH (if x <? b.2 then (k, x) else b)) as [->|Hin]; [|right; by right].
  destruct (x <? b.2); [right; by left | by left].
Qed.

Lemma dmem_in {V} k (d : list (string * V)) : k ∈ dkeys d → dmem k d = true.
Proof.
  intros Hin. unfold dmem. apply bool_decide_eq_true. apply not_eq_None_Some.
  intros E. by apply dget_None in E.
Qed.

Lemma evict_length (d : cache) : d ≠ [] → S (length (evict d)) = length d.
Proof.
  destruct d as [|[k [x c]] d]; [done|]. intros _. unfold evict. apply length_dpop, dmem_in.
  destruct (oldest_key_in (k, x) d) as [->|Hin]; [by left | by right].
Qed.

Lemma make_room_length (d : cache) : (length d ≤ CAPACITY)%nat → (length (make_room d) < CAPACITY)%nat.
Proof.
  intros Hl. unfold make_room. destruct (Nat.leb_spec CAPACITY (length d)); [|done].
  assert (d ≠ []) as Hne by (intros ->; simpl in *; unfold CAPACITY in *; lia).
  pose proof (evict_length d Hne). lia.
Qed.

Lemma make_room_NoDup (d : cache) : NoDup (dkeys d) → NoDup (dkeys (make_room d)).
Proof.
  intros Hn. unfold make_room, evict. destruct (_ <=? _)%nat; [|done].
  destruct d as [|[k [x c]] d]; [done|]. by apply NoDup_dpop.
Qed.

Lemma make_room_elem (d : cache) y : y ∈ make_room d → y ∈ d.
Proof.
  unfold make_room, evict. destruct (_ <=? _)%nat; [|done].
  destruct d as [|[k [x c]] d]; [done|]. apply dpop_subseteq.
Qed.

Lemma length_dpop_le {V} k (d : list (string * V)) : (length (dpop k d) ≤ length d)%nat.
Proof. induction d as [|[k' v] d IH]; simpl; [lia|]. destruct (str_eqb k k'); simpl; lia. Qed.

(** What one lookup does: a live entry is served; otherwise the table is read
    and the entry replaced. *)
Lemma get_for_tenant_cases `{Env} t w :
  (∃ x c, dget t (w_cfg_cache w) = Some (x, c) ∧ monotonic (w_mono_n w) ≤ x ∧
     get_for_tenant t w = (Ok c, upd_mono_n S w)) ∨
  (∃ n d w', get_for_tenant t w = (Ok (effective t (w_db w)), w') ∧
     (d = w_cfg_cache w ∨ d = dpop t (w_cfg_cache w)) ∧ w_db w' = w_db w ∧
     w_mono_n w' = S n ∧ (w_mono_n w ≤ n)%nat ∧
     w_cfg_cache w' = dset t (monotonic n + TTL, effective t (w_db w)) (make_room d)) ∨
  (∃ e w', get_for_tenant t w = (Raise e, w') ∧ w_db w' = w_db w ∧ w_pool w = false ∧
     (w_cfg_cache w' = w_cfg_cache w ∨ w_cfg_cache w' = dpop t (w_cfg_cache w))).
Proof.
  unfold get_for_tenant, cache_get, gets, now_mono, modify. unfold mbind, prog_bind, mret, prog_ret.
  simpl. destruct (dget t (w_cfg_cache w)) as [[x c]|] eqn:E; simpl.
  - destruct (Z.ltb_spec x (monotonic (w_mono_n w))) as [Hx|Hx]; simpl.
    + unfold acquire, gets, mbind, prog_bind. simpl. destruct (w_pool w) eqn:Ep; simpl.
      * right; left. eexists (S (w_mono_n w)), (dpop t (w_cfg_cache w)), _.
        split; [reflexivity|]. by split_and!; [right|..|lia|].
      * right; right. eexists _, _. split; [reflexivity|]. by split_and!; [..|right].
    + left. by exists x, c.
  - unfold acquire, gets, mbind, prog_bind. simpl. destruct (w_pool w) eqn:Ep; simpl.
    + right; left. eexists (w_mono_n w), (w_cfg_cache w), _.
      split; [reflexivity|]. by split_and!; [left|..|lia|].
    + right; right. eexists _, _. split; [reflexivity|]. by split_and!; [..|left].
Qed.

Lemma cache_put_ok t x c (d : cache) :
  NoDup (dkeys d) → (length d ≤ CAPACITY)%nat →
  (∀ t' x' c', (t', (x', c')) ∈ d → tc_tenant_id c' = t') → tc_tenant_id c = t →
  NoDup (dkeys (dset t (x, c) (make_room d))) ∧
  (length (dset t (x, c) (make_room d)) ≤ CAPACITY)%nat ∧
  ∀ t' x' c', (t', (x', c')) ∈ dset t (x, c) (make_room d) → tc_tenant_id c' = t'.
Proof.
  intros Hn Hl He Hc. split_and!.
  - by apply NoDup_dset, make_room_NoDup.
  - rewrite length_dset. pose proof (make_room_length d Hl). destruct (dmem _ _); lia.
  - intros t' x' c' [[= -> -> ->]|Hin]%dset_elem_of; [done|].
    by eapply He, make_room_elem.
Qed.

Lemma cache_pop_ok t (d : cache) :
  NoDup (dkeys d) → (length d ≤ CAPACITY)%nat →
  (∀ t' x' c', (t', (x', c')) ∈ d → tc_tenant_id c' = t') →
  NoDup (dkeys (dpop t d)) ∧ (length (dpop t d) ≤ CAPACITY)%nat ∧
  ∀ t' x' c', (t', (x', c')) ∈ dpop t d → tc_tenant_id c' = t'.
Proof.
  intros Hn Hl He. split_and!; [by apply NoDup_dpop| |].
  - pose proof (length_dpop_le t d). lia.
  - intros t' x' c' Hin%dpop_subseteq. by eapply He.
Qed.

(** The configuration cache stays well formed under lookups and
    invalidations: one entry per tenant, never more than 1024 entries, and the
    configuration under a key is that tenant's, so a lookup returns the caller's
    own configuration. *)
Theorem config_cache_invariant `{Env} (t : string) :
  keeps cache_ok (get_for_tenant t) ∧ keeps cache_ok (on_notify t) ∧
  ∀ w c w', cache_ok w → get_for_tenant t w = (Ok c, w') → tc_tenant_id c = t.
Proof.
  split_and!.
  - intros w (Hn & Hl & He). unfold cache_ok. destruct (get_for_tenant_cases t w)
      as [(x & c & _ & _ & ->)|[(n & d & w' & -> & Hd & _ & _ & _ & Hc)|(e & w' & -> & _ & _ & Hc)]]; simpl.
    + done.
    + rewrite Hc. apply cache_put_ok; [..|apply effective_tenant]; destruct Hd as [-> | ->];
        try done; by apply cache_pop_ok.
    + simpl. destruct Hc as [-> | ->]; [done | by apply cache_pop_ok].
  - intros w (Hn & Hl & He). unfold on_notify. destruct (nonempty t); [|done].
    by apply cache_pop_ok.
  - intros w c w' (_ & _ & He) E. destruct (get_for_tenant_cases t w)
      as [(x & c' & Hg & _ & E')|[(n & d & w1 & E' & _)|(e & w1 & E' & _)]];
      rewrite E' in E; simplify_eq; [|apply effective_tenant].
    by eapply He, dget_elem_of.
Qed.

Lemma config_cache_invariant_witness :
  cache_ok (get_for_tenant (H := Samples.env) "acme" Samples.start).2 ∧
  ∃ c w', get_for_tenant (H := Samples.env) "acme" Samples.start = (Ok c, w') ∧
          tc_tenant_id c = "acme".
Proof.
  assert (cache_ok Samples.start) as Hok.
  { split_and!; simpl; [constructor | lia | intros ??? Hin; by apply not_elem_of_nil in Hin]. }
  destruct (config_cache_invariant (H := Samples.env) "acme") as (Hk & _ & Ht).
  split; [by apply Hk|]. eexists _, _. split; [vm_compute; reflexivity|].
  eapply Ht; [exact Hok|]. vm_compute. reflexivity.
Defined.

(** * Bounded staleness *)
(** Runs of lookups, invalidations and changes other processes make to the
    tables.  The history keeps, for each lookup that read the table, the
    reading of the monotonic clock it took and the tables it saw. *)
Inductive reach `{Env} : world → list (nat * db) → Prop :=
| reach_start w : w_cfg_cache w = [] → reach w []
| reach_get w h t r w' : reach w h → get_for_tenant t w = (r, w') →
    reach w' ((Nat.pred (w_mono_n w'), w_db w) :: h)
| reach_notify w h t : reach w h → reach (on_notify t w).2 h
| reach_tables w h f : reach w h → reach (upd_db f w) h.

Lemma reach_entries `{Env} w h : reach w h →
  ∀ t x c, (t, (x, c)) ∈ w_cfg_cache w →
  ∃ n d, (n, d) ∈ h ∧ c = effective t d ∧ x = monotonic n + TTL.
Proof.
  induction 1 as [w E|w h t r w' Hr IH E|w h t Hr IH|w h f Hr IH]; intros t' x' c' Hin.
  - rewrite E in Hin. by apply not_elem_of_nil in Hin.
  - assert (∀ t' x c, (t', (x, c)) ∈ w_cfg_cache w →
      ∃ n d, (n, d) ∈ (Nat.pred (w_mono_n w'), w_db w) :: h ∧ c = effective t' d ∧
             x = monotonic n + TTL) as IH'.
    { intros t1 x1 c1 Hin1. destruct (IH _ _ _ Hin1) as (n & d & ? & ? & ?). exists n, d.
      split; [by right | done]. }
    destruct (get_for_tenant_cases t w)
      as [(x & c & _ & _ & E')|[(n & d & w1 & E' & Hd & _ & Hm & _ & Hc)|(e & w1 & E' & _ & _ & Hc)]];
      rewrite E' in E; simplify_eq; [by eapply IH'| |].
    + rewrite Hc in Hin. apply dset_elem_of in Hin as [[= -> -> ->]|Hin].
      * exists n, (w_db w). rewrite Hm. simpl. split; [by left | done].
      * apply make_room_elem in Hin. destruct Hd as [-> | ->]; [|apply dpop_subseteq in Hin];
          by eapply IH'.
    + destruct Hc as [Hc|Hc]; rewrite Hc in Hin; [|apply dpop_subseteq in Hin]; by eapply IH'.
  - unfold on_notify in Hin. destruct (nonempty t); simpl in Hin; [apply dpop_subseteq in Hin|];
      by eapply IH.
  - by eapply IH.
Qed.

(** C20. A looked-up configuration is the tenant's effective one (override row or
    defaults) in the current tables, or in the tables an earlier lookup read at
    most five seconds before on the monotonic clock. *)
Theorem config_bounded_staleness `{Env} (w w' : world) (h : list (nat * db)) (t : string)
    (c : TenantConfig) :
  reach w h → get_for_tenant t w = (Ok c, w') →
  c = effective t (w_db w) ∨
  ∃ n d, (n, d) ∈ h ∧ c = effective t d ∧
         monotonic (w_mono_n w) - monotonic n ≤ 5000000.
Proof.
  intros Hr E. destruct (get_for_tenant_cases t w)
    as [(x & c' & Hg & Hx & E')|[(n & d & w1 & E' & _)|(e & w1 & E' & _)]];
    rewrite E' in E; simplify_eq; [|by left].
  right. destruct (reach_entries w h Hr t x c) as (n & d & Hin & Hc & ->).
  { by apply dget_elem_of. }
  exists n, d. unfold TTL in Hx. split_and!; [done..|lia].
Qed.

Lemma config_bounded_staleness_witness :
  let w1 := (get_for_tenant (H := Samples.env) "acme" Samples.start).2 in
  ∃ c w', get_for_tenant (H := Samples.env) "acme" w1 = (Ok c, w') ∧
    (c = effective "acme" (w_db w1) ∨
     ∃ n d, (n, d) ∈ [(0%nat, w_db Samples.start)] ∧ c = effective "acme" d ∧
            @monotonic Samples.env (w_mono_n w1) - @monotonic Samples.env n ≤ 5000000).
Proof.
  intros w1. eexists _, _. split; [vm_compute; reflexivity|].
  eapply (config_bounded_staleness (H := Samples.env) w1 _ _ "acme").
  - apply (reach_get (H := Samples.env) Samples.start [] "acme"
      (get_for_tenant (H := Samples.env) "acme" Samples.start).1).
    + by apply reach_start.
    + vm_compute. reflexivity.
  - vm_compute. reflexivity.
Defined.

(** A configuration change is visible at once after its notification: the
    first lookup after [on_notify] reads the table. *)
Theorem config_fresh_after_notify `{Env} (t : string) (w : world) :
  nonempty t = true → NoDup (dkeys (w_cfg_cache w)) → w_pool w = true →
  ∃ w', get_for_tenant t (on_notify t w).2 = (Ok (effective t (w_db w)), w').
Proof.
  intros Ht Hn Hp. unfold on_notify. rewrite Ht. simpl. destruct (get_for_tenant_cases t
    (upd_cfg_cache (dpop t) w)) as [(x & c & Hg & _)|[(n & d & w1 & E & _)|(e & w1 & _ & _ & Hf & _)]].
  - simpl in Hg. by rewrite dget_dpop_eq in Hg.
  - by exists w1.
  - simpl in Hf. congruence.
Qed.

Lemma config_fresh_after_notify_witness :
  ∃ w', get_for_tenant (H := Samples.env) "acme" (on_notify "acme" Samples.start).2
        = (Ok (effective "acme" (w_db Samples.start)), w').
Proof.
  apply (config_fresh_after_notify (H := Samples.env) "acme" Samples.start);
    [reflexivity | constructor | reflexivity].
Defined.

(** A lookup touches the cache, the monotonic clock and nothing else. *)
Lemma get_for_tenant_outside `{Env} {B} (f : world → B) t :
  (∀ g w, f (upd_cfg_cache g w) = f w) → (∀ g w, f (upd_mono_n g w) = f w) →
  stable f (get_for_tenant t).
Proof.
  intros Hc Hm. unfold get_for_tenant, cache_get, cache_put, now_mono.
  repeat first [apply stable_modify; intros; first [apply Hc | apply Hm] | read_step].
Qed.
