(* ===== verification/Auth.v ===== *)
(** [auth/]: the JWT verifier, the tenant and operator dependencies.  The HTTP
    client and PyJWT are third-party code: parameters of the model. *)
From S2P Require Import Prelude PyStr PyDict Json JsonText Errors Models World Samples Database PyVal Isolation.
Local Open Scope Z_scope.

(** What the verifier calls outside: the n-th discovery request up to the decoded
    body, the signing key for a token according to a JWKS client (its number, the
    n-th call), and [jwt.decode] at an instant.  Each may raise anything. *)
Class JwtLib := {
  discovery : nat → string → result exn json;
  signing_key : nat → nat → string → string → result exn string;
  jwt_decode : Z → string → string → string → string → Z → result exn json }.

(** [int(v)] gives [e]. *)
Definition int_of (j : json) (e : Z) : Prop := ∀ w, py_int j w = (Ok e, w).
(** Documented behaviour of [jwt.decode] with an audience, an issuer and
    required claims: what it returns is a claims object that satisfies them; the
    expiry is compared after [int()]. *)
Class JwtLaws `{JwtLib} := {
  decode_claims : ∀ t tok key aud iss skew p, jwt_decode t tok key aud iss skew = Ok p →
    ∃ o, p = JObj o ∧ dget "iss" o = Some (JStr iss) ∧
         (dget "aud" o = Some (JStr aud) ∨
          ∃ l, dget "aud" o = Some (JArr l) ∧ JStr aud ∈ l);
  decode_not_expired : ∀ t tok key aud iss skew p, jwt_decode t tok key aud iss skew = Ok p →
    ∃ j e, jget "exp" p = Some j ∧ int_of j e ∧ t < (e + skew) * 1000000 }.

(** * The two verifier instances *)
Inductive issuer := TenantIssuer | OperatorIssuer.
Definition get_verifier (i : issuer) (w : world) : verifier :=
  match i with TenantIssuer => w_verifier w | OperatorIssuer => w_op_verifier w end.
Definition upd_instance (i : issuer) (f : verifier → verifier) (w : world) : world :=
  match i with TenantIssuer => upd_verifier f w | OperatorIssuer => upd_op_verifier f w end.

Definition new_verifier (issuer_url audience : string) (ttl skew : Z) : verifier :=
  Verifier (rstrip_char "/" issuer_url) audience ttl skew None None 0.

Definition set_uri (u : string) (v : verifier) : verifier :=
  Verifier (v_issuer_url v) (v_audience v) (v_cache_ttl v) (v_clock_skew v) (Some u)
    (v_jwks_client v) (v_calls v).
Definition set_client (o : option nat) (v : verifier) : verifier :=
  Verifier (v_issuer_url v) (v_audience v) (v_cache_ttl v) (v_clock_skew v) (v_jwks_uri v)
    o (v_calls v).
Definition count_call (v : verifier) : verifier :=
  Verifier (v_issuer_url v) (v_audience v) (v_cache_ttl v) (v_clock_skew v) (v_jwks_uri v)
    (v_jwks_client v) (S (v_calls v)).

Definition OIDC_DISCOVERY_PATH : string := "/.well-known/openid-configuration".

(** [except (httpx.HTTPError, ValueError)]; decoding errors are value errors. *)
Definition discovery_caught (e : exn) : bool :=
  match e with EHttpx _ | EValueError _ | EJSONDecode _ => true | _ => false end.
(** [except PyJWKClientError]. *)
Definition key_caught (e : exn) : bool :=
  match e with EJwt PyJWKClientError => true | _ => false end.
(** [except InvalidTokenError], of which the classes named before it are subclasses. *)
Definition token_caught (e : exn) : bool :=
  match e with
  | EJwt (ExpiredSignatureError | InvalidAudienceError | InvalidIssuerError | InvalidSignatureError
         | DecodeError | InvalidTokenError) => true
  | _ => false
  end.

Section Verifier.
Context `{Env} `{JwtLib} (i : issuer).

(** [_resolve_jwks_uri]. *)
Definition resolve_jwks_uri : M string :=
  v ← gets (get_verifier i);
  match v_jwks_uri v with
  | Some u => mret u
  | None =>
      modify (upd_instance i count_call);;
      match discovery (v_calls v) (v_issuer_url v +:+ OIDC_DISCOVERY_PATH) with
      | Raise e => raise (if discovery_caught e then ECollectMind (DependencyUnavailable "oauth2_issuer") else e)
      | Ok metadata =>
          u ← dict_get "jwks_uri" metadata;
          match u with
          | Some (JStr s) =>
              if nonempty s then modify (upd_instance i (set_uri s));; mret s
              else raise (ECollectMind (DependencyUnavailable "oauth2_issuer"))
          | _ => raise (ECollectMind (DependencyUnavailable "oauth2_issuer"))
          end
      end
  end.

(** [_client]: the JWKS client, identified by the call count at its creation. *)
Definition client : M nat :=
  v ← gets (get_verifier i);
  match v_jwks_client v with
  | Some c => mret c
  | None =>
      resolve_jwks_uri;;
      v ← gets (get_verifier i);
      modify (upd_instance i (λ v, set_client (Some (v_calls v)) (count_call v)));;
      mret (v_calls v)
  end.
(** [_refresh_jwks]. *)
Definition refresh_jwks : M nat := modify (upd_instance i (set_client None));; client.

(** [client.get_signing_key_from_jwt(token).key]. *)
Definition key_from (c : nat) (token : string) : M string :=
  v ← gets (get_verifier i);
  modify (upd_instance i count_call);;
  match signing_key c (v_calls v) (default "" (v_jwks_uri v)) token with
  | Ok k => mret k
  | Raise e => raise e
  end.

Definition except_jwk {A} (m : M A) (h : M A) : M A :=
  catch m (λ e, if key_caught e then h else raise e).

(** [_signing_key_or_refresh]. *)
Definition signing_key_or_refresh (c : nat) (token : string) : M string :=
  except_jwk (key_from c token)
    (except_jwk (refreshed ← refresh_jwks; key_from refreshed token)
      (raise (ECollectMind AuthInvalidToken))).

(** [jwt.decode(...)] with the exceptions [verify] maps. *)
Definition decode_mapped (token key : string) : M json :=
  v ← gets (get_verifier i);
  t ← now;
  match jwt_decode t token key (v_audience v) (v_issuer_url v) (v_clock_skew v) with
  | Ok p => mret p
  | Raise (EJwt ExpiredSignatureError) => raise (ECollectMind AuthExpired)
  | Raise e => raise (if token_caught e then ECollectMind AuthInvalidToken else e)
  end.

(** The claims of a decoded token, turned into a principal. *)
Definition principal_of (payload : json) : result exn Principal :=
  match jget "tenant_id" payload with
  | Some (JStr tenant_id) =>
      if nonempty tenant_id then
        match jget "sub" payload with
        | Some (JStr subject) =>
            if nonempty subject then
              match or_else (jget "scope" payload) (JStr "") with
              | JStr scope =>
                  Ok {| pr_tenant_id := tenant_id; pr_subject := subject;
                        pr_scopes := split_ws scope;
                        pr_token_id := match jget "jti" payload with
                                       | Some (JStr s) => s | _ => "" end |}
              | _ => Raise (EAttributeError "object has no attribute 'split'")
              end
            else Raise (ECollectMind AuthInvalidToken)
        | _ => Raise (ECollectMind AuthInvalidToken)
        end
      else Raise (ECollectMind AuthTenantMissing)
  | _ => Raise (ECollectMind AuthTenantMissing)
  end.

(** [JWTVerifier.verify]. *)
Definition verify (token : string) : M Principal :=
  if negb (nonempty token) then raise (ECollectMind AuthInvalidToken) else
  c ← client;
  key ← signing_key_or_refresh c token;
  payload ← decode_mapped token key;
  lift (principal_of payload).
End Verifier.

(** * FastAPI dependencies *)
Section Dependencies.
Context `{Env} `{JwtLib}.

(** The scheme and credentials FastAPI's [HTTPBearer] extracted, if any. *)
Notation credentials := (option (string * string)).

Definition bearer_ok (c : credentials) : option string :=
  match c with
  | Some (scheme, creds) =>
      if str_eqb (lower scheme) "bearer" && nonempty creds then Some creds else None
  | None => None
  end.

(** [except CollectMindError as exc: raise _to_http_exception(exc)]. *)
Definition as_http {A} (m : M A) : M A :=
  catch m (λ e, match e with ECollectMind c => raise (to_http_exception c) | _ => raise e end).

(** [authenticated_principal]. *)
Definition authenticated_principal (c : credentials) : M Principal :=
  match bearer_ok c with
  | None => raise (to_http_exception AuthInvalidToken)
  | Some token => as_http (verify TenantIssuer token)
  end.

Record OperatorPrincipal := {
  op_subject : string; op_token_id : string; op_scopes : list string }.

(** [authenticated_operator_principal]. *)
Definition authenticated_operator_principal (c : credentials) : M OperatorPrincipal :=
  match bearer_ok c with
  | None => raise (to_http_exception AuthInvalidToken)
  | Some token =>
      p ← as_http (verify OperatorIssuer token);
      mret {| op_subject := pr_subject p; op_token_id := pr_token_id p; op_scopes := pr_scopes p |}
  end.
End Dependencies.

(** * Facts *)
Section Facts.
Context `{Env} `{JwtLib}.

(** What [verify] leaves alone: everything but the verifier's own state and the
    clock. *)
Lemma verify_outside {B} (f : world → B) i tok :
  (∀ g w, f (upd_instance i g w) = f w) → (∀ g w, f (upd_clock_n g w) = f w) →
  stable f (verify i tok).
Proof.
  intros Hi Hc. unfold verify, signing_key_or_refresh, except_jwk, refresh_jwks, client, key_from,
    decode_mapped, now, resolve_jwks_uri, dict_get.
  assert (∀ g, stable f (modify (upd_instance i g) : M unit)) by (intros g w; apply Hi).
  assert (∀ g, stable f (modify (upd_clock_n g) : M unit)) by (intros g w; apply Hc).
  repeat first [assumption | effects_step].
Qed.

Lemma authenticated_outside {B} (f : world → B) c :
  (∀ i g w, f (upd_instance i g w) = f w) → (∀ g w, f (upd_clock_n g w) = f w) →
  stable f (authenticated_principal c).
Proof.
  intros Hi Hc. unfold authenticated_principal, as_http.
  destruct (bearer_ok c); [|apply stable_raise].
  apply stable_catch; [by apply verify_outside|]. intros []; apply stable_raise.
Qed.

(** The configured part of a verifier. *)
Definition v_config (v : verifier) : string * string * Z :=
  (v_issuer_url v, v_audience v, v_clock_skew v).

Lemma instance_config i j (g : verifier → verifier) w :
  (∀ v, v_config (g v) = v_config v) →
  v_config (get_verifier j (upd_instance i g w)) = v_config (get_verifier j w).
Proof. intros Hg. destruct i, j; simpl; auto. Qed.

Definition keeps_config (j : issuer) {A} (m : M A) : Prop :=
  stable (λ w, v_config (get_verifier j w)) m.

Lemma resolve_config i j : keeps_config j (resolve_jwks_uri i).
Proof.
  unfold resolve_jwks_uri, dict_get, keeps_config.
  repeat first [apply stable_modify; intros; by apply instance_config | effects_step].
Qed.
Lemma client_config i j : keeps_config j (client i).
Proof.
  unfold client, keeps_config. pose proof (resolve_config i j) as Hr. unfold keeps_config in Hr.
  repeat first [apply stable_modify; intros; by apply instance_config | assumption | effects_step].
Qed.
Lemma key_from_config i j c tok : keeps_config j (key_from i c tok).
Proof.
  unfold key_from, keeps_config. repeat first [apply stable_modify; intros; by apply instance_config | effects_step].
Qed.
Lemma signing_key_config i j c tok : keeps_config j (signing_key_or_refresh i c tok).
Proof.
  unfold signing_key_or_refresh, except_jwk, refresh_jwks, key_from, keeps_config.
  pose proof (client_config i j) as Hc. unfold keeps_config in Hc.
  repeat first [apply stable_modify; intros; by apply instance_config | assumption | effects_step].
Qed.

Lemma bind_inv {A B} (m : M A) (k : A → M B) w r w' :
  (m ≫= k) w = (r, w') →
  (∃ e, m w = (Raise e, w') ∧ r = Raise e) ∨ ∃ a w1, m w = (Ok a, w1) ∧ k a w1 = (r, w').
Proof.
  unfold mbind, prog_bind. destruct (m w) as [[a|e] w1]; intros E; simplify_eq; [right|left]; eauto.
Qed.

Lemma client_clock i : stable w_clock_n (client i).
Proof.
  unfold client, resolve_jwks_uri, dict_get.
  repeat first [apply stable_modify; intros; by destruct i | effects_step].
Qed.
Lemma signing_key_clock i c tok : stable w_clock_n (signing_key_or_refresh i c tok).
Proof.
  unfold signing_key_or_refresh, except_jwk, refresh_jwks, key_from. pose proof (client_clock i).
  repeat first [apply stable_modify; intros; by destruct i | assumption | effects_step].
Qed.

(** A verified token was decoded, at the clock's reading and under the verifier's own
    audience and issuer, to the claims of the principal. *)
Definition decode_as (v : verifier) (t : Z) (tok key : string) : result exn json :=
  jwt_decode t tok key (v_audience v) (v_issuer_url v) (v_clock_skew v).
Lemma decode_as_config v v' t tok key : v_config v = v_config v' → decode_as v t tok key = decode_as v' t tok key.
Proof. intros [= E1 E2 E3]. unfold decode_as. by rewrite E1, E2, E3. Qed.
(** [verify] once the key is found. *)
Lemma verify_key i tok w c w1 key w2 : nonempty tok = true →
  client i w = (Ok c, w1) → signing_key_or_refresh i c tok w1 = (Ok key, w2) →
  verify i tok w = (match decode_as (get_verifier i w) (clock (w_clock_n w)) tok key with
                    | Ok payload => principal_of payload
                    | Raise (EJwt ExpiredSignatureError) => Raise (ECollectMind AuthExpired)
                    | Raise e => Raise (if token_caught e then ECollectMind AuthInvalidToken else e)
                    end, upd_clock_n S w2).
Proof.
  intros Ht E1 E2. pose proof (client_config i i w) as H1. pose proof (client_clock i w) as N1.
  rewrite E1 in H1, N1. simpl in H1, N1.
  pose proof (signing_key_config i i c tok w1) as H2. pose proof (signing_key_clock i c tok w1) as N2.
  rewrite E2 in H2, N2. simpl in H2, N2. rewrite (decode_as_config _ (get_verifier i w2)) by congruence.
  replace (w_clock_n w) with (w_clock_n w2) by congruence.
  unfold verify. rewrite Ht. cbn [negb]. rewrite (bind_ok _ _ _ _ _ E1), (bind_ok _ _ _ _ _ E2).
  unfold decode_mapped, now, decode_as, lift. run_prog.
  by repeat (case_match; simplify_eq; try done).
Qed.
Lemma verify_inv i tok w p w' : verify i tok w = (Ok p, w') →
  ∃ key payload,
    jwt_decode (clock (w_clock_n w)) tok key (v_audience (get_verifier i w)) (v_issuer_url (get_verifier i w))
      (v_clock_skew (get_verifier i w)) = Ok payload ∧
    principal_of payload = Ok p.
Proof.
  intros E. destruct (nonempty tok) eqn:Ht; [|unfold verify in E; by rewrite Ht in E].
  pose proof E as E'. unfold verify in E'. rewrite Ht in E'. cbn [negb] in E'.
  apply bind_inv_ok in E' as (c & w1 & E1 & E'). apply bind_inv_ok in E' as (key & w2 & E2 & _).
  rewrite (verify_key i tok w c w1 key w2 Ht E1 E2) in E. exists key.
  change (jwt_decode _ tok key _ _ _) with (decode_as (get_verifier i w) (clock (w_clock_n w)) tok key).
  repeat (case_match; simplify_eq; try done). by eexists.
Qed.

Lemma principal_of_ok payload p : principal_of payload = Ok p →
  pr_tenant_id p ≠ "" ∧ pr_subject p ≠ "" ∧ "" ∉ pr_scopes p ∧
  jget "tenant_id" payload = Some (JStr (pr_tenant_id p)) ∧
  jget "sub" payload = Some (JStr (pr_subject p)).
Proof.
  assert (∀ s, "" ∉ split_ws s) as Hs.
  { intros s. unfold split_ws. rewrite list_elem_of_filter. by intros [? _]. }
  unfold principal_of. intros E. repeat (case_match; simplify_eq; try done); simpl;
    split_and!; try done; by apply nonempty_true.
Qed.
End Facts.

(** C25. An accepted token is sound: it decoded, at the reading of the clock that the
    verification takes, under the verifier's own audience and issuer; its claims name
    that issuer as [iss] and that audience as [aud] or among the [aud] list; by that
    reading it had not expired beyond the clock skew, the expiry claim being read with
    [int()]; and the principal is the non-empty tenant and subject its claims name. *)
Theorem verify_sound `{Env} `{JwtLaws} (i : issuer) (tok : string) (w w' : world) (p : Principal) :
  verify i tok w = (Ok p, w') →
  let v := get_verifier i w in let t := clock (w_clock_n w) in
  pr_tenant_id p ≠ "" ∧ pr_subject p ≠ "" ∧ "" ∉ pr_scopes p ∧
  ∃ key o j e,
    jwt_decode t tok key (v_audience v) (v_issuer_url v) (v_clock_skew v) = Ok (JObj o) ∧
    dget "tenant_id" o = Some (JStr (pr_tenant_id p)) ∧
    dget "sub" o = Some (JStr (pr_subject p)) ∧
    dget "iss" o = Some (JStr (v_issuer_url v)) ∧
    (dget "aud" o = Some (JStr (v_audience v)) ∨
     ∃ l, dget "aud" o = Some (JArr l) ∧ JStr (v_audience v) ∈ l) ∧
    dget "exp" o = Some j ∧ int_of j e ∧ t < (e + v_clock_skew v) * 1000000.
Proof.
  intros (key & payload & Hd & Hp)%verify_inv v t.
  destruct (principal_of_ok _ _ Hp) as (? & ? & ? & Ht & Hs). split_and!; try done.
  destruct (decode_claims _ _ _ _ _ _ _ Hd) as (o & -> & Hiss & Haud).
  destruct (decode_not_expired _ _ _ _ _ _ _ Hd) as (j & e & Hj & He & Hlt).
  exists key, o, j, e. by split_and!.
Qed.

(** A token library that accepts one token of the tenant issuer. *)
Definition sample_claims (aud iss : string) : json :=
  JObj [("tenant_id", JStr "acme"); ("sub", JStr "client-7"); ("iss", JStr iss);
        ("aud", JStr aud); ("exp", JInt 1800000000); ("scope", JStr "findings:write")].
#[global] Instance sample_jwt : JwtLib := {|
  discovery := λ _ _, Ok (JObj [("jwks_uri", JStr "http://mock-issuer:8088/jwks")]);
  signing_key := λ _ _ _ tok, if str_eqb tok "tok" then Ok "key" else Raise (EJwt DecodeError);
  jwt_decode := λ t tok _ aud iss skew,
    if str_eqb tok "tok" && (t <? (1800000000 + skew) * 1000000)
    then Ok (sample_claims aud iss) else Raise (EJwt InvalidTokenError) |}.
#[global] Instance sample_jwt_laws : @JwtLaws sample_jwt.
Proof.
  split; simpl; intros t tok key aud iss skew p; destruct (str_eqb tok "tok"); simpl; try done;
    destruct (Z.ltb_spec t ((1800000000 + skew) * 1000000)); try done; intros [= <-].
  - eexists. split; [reflexivity|]. by split; [|left].
  - by exists (JInt 1800000000), 1800000000.
Qed.

Lemma verify_sound_witness :
  ∃ p w', verify (H := Samples.env) TenantIssuer "tok" Samples.start = (Ok p, w') ∧
    pr_tenant_id p = "acme" ∧ pr_subject p ≠ "".
Proof.
  eexists _, _. split; [vm_compute; reflexivity|]. split; [reflexivity|].
  eapply (verify_sound (H := Samples.env) TenantIssuer "tok" Samples.start).
  vm_compute. reflexivity.
Defined.

(** * How a verification fails *)
Definition jwks_unresolved : exn := ECollectMind (DependencyUnavailable "oauth2_issuer").
(** The metadata names a key set. *)
Definition names_jwks (metadata : json) : bool :=
  match jget "jwks_uri" metadata with Some (JStr s) => nonempty s | _ => false end.

(** The classes of the three [except] clauses. *)
Definition http_or_value_error (e : exn) : Prop :=
  ∃ m, e = EHttpx m ∨ e = EValueError m ∨ e = EJSONDecode m.
Definition no_such_key (e : exn) : Prop := e = EJwt PyJWKClientError.
Definition invalid_token (e : exn) : Prop :=
  ∃ j, e = EJwt j ∧ j ≠ PyJWKClientError ∧ j ≠ OtherPyJWTError.
Lemma discovery_caught_iff e : discovery_caught e = true ↔ http_or_value_error e.
Proof. unfold http_or_value_error. destruct e; simpl; naive_solver. Qed.
Lemma key_caught_iff e : key_caught e = true ↔ no_such_key e.
Proof. unfold no_such_key. destruct e as [| | | | | | | | | | |[]| | |]; simpl; naive_solver. Qed.
Lemma token_caught_iff e : token_caught e = true ↔ invalid_token e.
Proof. unfold invalid_token. destruct e as [| | | | | | | | | | |[]| | |]; simpl; naive_solver. Qed.
Lemma caught_false (b : bool) (P : Prop) : (b = true ↔ P) → b = false → ¬ P.
Proof. intros HP -> Hp. by apply HP in Hp. Qed.

Section VerifyErrors.
Context `{Env} `{JwtLib}.

(** The causes of a failure and the error each one gives: discovery by a verifier that has
    no key set yet, the key lookup, the decoding at the instant [t], the claims. *)
Inductive discovery_failure (v : verifier) : exn → Prop :=
| F_unreachable n e : discovery n (v_issuer_url v +:+ OIDC_DISCOVERY_PATH) = Raise e → http_or_value_error e →
    discovery_failure v jwks_unresolved
| F_no_jwks_uri n o : discovery n (v_issuer_url v +:+ OIDC_DISCOVERY_PATH) = Ok (JObj o) → names_jwks (JObj o) = false →
    discovery_failure v jwks_unresolved
| F_discovery_raised n e : discovery n (v_issuer_url v +:+ OIDC_DISCOVERY_PATH) = Raise e → ¬ http_or_value_error e →
    discovery_failure v e
| F_metadata_type n j m : discovery n (v_issuer_url v +:+ OIDC_DISCOVERY_PATH) = Ok j → (∀ o, j ≠ JObj o) →
    discovery_failure v (EAttributeError m).
Inductive key_failure (v : verifier) (tok : string) : exn → Prop :=
| F_no_key c n uri e : signing_key c n uri tok = Raise e → no_such_key e →
    key_failure v tok (ECollectMind AuthInvalidToken)
| F_key_raised c n uri e : signing_key c n uri tok = Raise e → ¬ no_such_key e → key_failure v tok e
| F_rediscovery e : discovery_failure v e → key_failure v tok e.
Inductive claims_failure (v : verifier) (t : Z) (tok : string) : exn → Prop :=
| F_expired key : decode_as v t tok key = Raise (EJwt ExpiredSignatureError) →
    claims_failure v t tok (ECollectMind AuthExpired)
| F_invalid key e : decode_as v t tok key = Raise e → invalid_token e → e ≠ EJwt ExpiredSignatureError →
    claims_failure v t tok (ECollectMind AuthInvalidToken)
| F_decode_raised key e : decode_as v t tok key = Raise e → ¬ invalid_token e → claims_failure v t tok e
| F_tenant key p : decode_as v t tok key = Ok p → (∀ s, jget "tenant_id" p = Some (JStr s) → s = "") →
    claims_failure v t tok (ECollectMind AuthTenantMissing)
| F_subject key p : decode_as v t tok key = Ok p → (∀ s, jget "sub" p = Some (JStr s) → s = "") →
    claims_failure v t tok (ECollectMind AuthInvalidToken)
| F_scope key p m : decode_as v t tok key = Ok p → (∀ s, or_else (jget "scope" p) (JStr "") ≠ JStr s) →
    claims_failure v t tok (EAttributeError m).
Inductive verify_failure (v : verifier) (t : Z) (tok : string) : exn → Prop :=
| F_empty : tok = "" → verify_failure v t tok (ECollectMind AuthInvalidToken)
| F_discovery e : v_jwks_client v = None → v_jwks_uri v = None → discovery_failure v e → verify_failure v t tok e
| F_key e : key_failure v tok e → verify_failure v t tok e
| F_claims e : claims_failure v t tok e → verify_failure v t tok e.

Lemma discovery_failure_config v v' e : v_config v = v_config v' → discovery_failure v e → discovery_failure v' e.
Proof.
  intros [= Hu _ _] Hf. destruct Hf as [n e Hd|n o Hd|n e Hd|n j m Hd]; rewrite Hu in Hd;
    [by eapply F_unreachable|by eapply F_no_jwks_uri|by eapply F_discovery_raised|by eapply F_metadata_type].
Qed.
Lemma key_failure_config v v' tok e : v_config v = v_config v' → key_failure v tok e → key_failure v' tok e.
Proof.
  intros Hc Hf. destruct Hf; [by eapply F_no_key|by eapply F_key_raised|].
  by eapply F_rediscovery, discovery_failure_config.
Qed.
Lemma resolve_fails i w e w' : resolve_jwks_uri i w = (Raise e, w') →
  v_jwks_uri (get_verifier i w) = None ∧ discovery_failure (get_verifier i w) e.
Proof.
  unfold resolve_jwks_uri, dict_get. run_prog.
  destruct (v_jwks_uri (get_verifier i w)) eqn:Hu; [done|].
  destruct (discovery _ _) as [metadata|e0] eqn:Hd.
  2: { intros [= <- _]. split; [done|]. destruct (discovery_caught e0) eqn:Hc;
       [by eapply F_unreachable; [|apply discovery_caught_iff]
       |by eapply F_discovery_raised; [|apply (caught_false _ _ (discovery_caught_iff e0))]]. }
  intros E. split; [done|]. destruct metadata as [| | | | | |o];
    try (injection E as <- _; by eapply F_metadata_type).
  assert (names_jwks (JObj o) = false → discovery_failure (get_verifier i w) jwks_unresolved) as Hbad
    by (by apply F_no_jwks_uri with (v_calls (get_verifier i w))).
  unfold names_jwks in Hbad. simpl in E. rewrite jget_obj in Hbad.
  destruct (dget "jwks_uri" o) as [[]|]; try (injection E as <- _; by apply Hbad).
  destruct (nonempty s); [done|]. injection E as <- _. by apply Hbad.
Qed.
Lemma client_fails i w e w' : client i w = (Raise e, w') →
  v_jwks_client (get_verifier i w) = None ∧ v_jwks_uri (get_verifier i w) = None ∧
  discovery_failure (get_verifier i w) e.
Proof.
  unfold client. run_prog. destruct (v_jwks_client (get_verifier i w)) eqn:Hc; [done|].
  destruct (resolve_jwks_uri i w) as [[u|e'] w1] eqn:Er; [by destruct i|].
  intros [= <- _]. split; [done|]. by eapply resolve_fails.
Qed.
Lemma key_from_fails i c tok w e w' : key_from i c tok w = (Raise e, w') →
  ∃ n uri, signing_key c n uri tok = Raise e.
Proof.
  unfold key_from. run_prog. destruct (signing_key _ _ _ _) eqn:Hk; [done|]. intros [= <- _]. by eexists _, _.
Qed.
Lemma signing_key_fails i c tok w e w' : signing_key_or_refresh i c tok w = (Raise e, w') →
  key_failure (get_verifier i w) tok e.
Proof.
  unfold signing_key_or_refresh, except_jwk. unfold catch at 1.
  destruct (key_from i c tok w) as [[k|e0] w1] eqn:Ek; [done|].
  assert (v_config (get_verifier i w1) = v_config (get_verifier i w)) as Hcfg.
  { pose proof (key_from_config i i c tok w) as Hs. by rewrite Ek in Hs. }
  apply key_from_fails in Ek as (n & uri & Hk).
  destruct (key_caught e0) eqn:Hc;
    [|intros [= <- _]; by eapply F_key_raised; [|apply (caught_false _ _ (key_caught_iff e0))]].
  apply key_caught_iff in Hc.
  unfold catch. destruct ((refreshed ← refresh_jwks i; key_from i refreshed tok) w1) as [[k|e1] w2] eqn:Er; [done|].
  destruct (key_caught e1) eqn:Hc1; intros [= <- _]; [by eapply F_no_key|].
  apply (caught_false _ _ (key_caught_iff e1)) in Hc1.
  apply bind_inv in Er as [(e2 & Er & [= <-])|(c2 & w3 & _ & (n2 & uri2 & Hk2)%key_from_fails)];
    [|by eapply F_key_raised].
  apply F_rediscovery. change (refresh_jwks i w1) with (client i (upd_instance i (set_client None) w1)) in Er.
  apply client_fails in Er as (_ & _ & Hd). eapply discovery_failure_config; [|exact Hd].
  etrans; [by apply instance_config|exact Hcfg].
Qed.
Lemma claims_fail v t tok key payload e : decode_as v t tok key = Ok payload → principal_of payload = Raise e →
  claims_failure v t tok e.
Proof.
  intros Hd. unfold principal_of.
  assert ((∀ s, jget "tenant_id" payload = Some (JStr s) → s = "") → claims_failure v t tok (ECollectMind AuthTenantMissing))
    as Ht by (by apply F_tenant with key).
  assert ((∀ s, jget "sub" payload = Some (JStr s) → s = "") → claims_failure v t tok (ECollectMind AuthInvalidToken))
    as Hs by (by apply F_subject with key).
  assert (∀ m, (∀ s, or_else (jget "scope" payload) (JStr "") ≠ JStr s) → claims_failure v t tok (EAttributeError m))
    as Hc by (intros m; by apply F_scope with key).
  destruct (jget "tenant_id" payload) as [[]|]; try (intros [= <-]; by apply Ht).
  destruct (nonempty s) eqn:Es; [|intros [= <-]; apply Ht; intros s' [= <-]; by destruct s].
  destruct (jget "sub" payload) as [[]|]; try (intros [= <-]; by apply Hs).
  destruct (nonempty s0) eqn:Es0; [|intros [= <-]; apply Hs; intros s' [= <-]; by destruct s0].
  destruct (or_else (jget "scope" payload) (JStr "")); try done; intros [= <-]; by apply Hc.
Qed.
End VerifyErrors.



(** A malformed bearer token, on which the key lookup raises PyJWT's
    [DecodeError], escapes both dependencies unmapped: the operator surface
    answers 500, not the 401 its dependency documents for any failure. *)
Theorem malformed_token_unmapped `{Env} `{JwtLib} (tok : string) (w : world) (n : nat) :
  nonempty tok = true → v_jwks_client (w_op_verifier w) = Some n →
  signing_key n (v_calls (w_op_verifier w)) (default "" (v_jwks_uri (w_op_verifier w))) tok
    = Raise (EJwt DecodeError) →
  ∃ e w', authenticated_operator_principal (Some ("Bearer", tok)) w = (Raise e, w') ∧
          http_status e = 500.
Proof.
  intros Ht Hc Hk. exists (EJwt DecodeError), (upd_op_verifier count_call w). split; [|done].
  unfold authenticated_operator_principal, bearer_ok. rewrite Ht. simpl.
  unfold as_http, verify, client, signing_key_or_refresh, except_jwk, key_from.
  rewrite Ht. run_prog. rewrite Hc. simpl. by rewrite Hk.
Qed.

Lemma malformed_token_unmapped_witness :
  let w := upd_op_verifier (set_client (Some 0%nat)) Samples.start in
  ∃ e w', authenticated_operator_principal (H := Samples.env) (Some ("Bearer", "x.y")) w
          = (Raise e, w') ∧ http_status e = 500.
Proof.
  intros w. apply (malformed_token_unmapped (H := Samples.env) "x.y" w 0); reflexivity.
Defined.

(** A signature failure does not refresh the key set: after a rotation that keeps
    the key id, tokens under the new key are refused and the client with the old
    key stays in place. *)
Theorem signature_failure_keeps_keys `{Env} `{JwtLib} (i : issuer) (tok key : string) (w : world) (n : nat) :
  let v := get_verifier i w in
  nonempty tok = true → v_jwks_client v = Some n →
  signing_key n (v_calls v) (default "" (v_jwks_uri v)) tok = Ok key →
  jwt_decode (clock (w_clock_n w)) tok key (v_audience v) (v_issuer_url v) (v_clock_skew v)
    = Raise (EJwt InvalidSignatureError) →
  ∃ w', verify i tok w = (Raise (ECollectMind AuthInvalidToken), w') ∧
    get_verifier i w' = count_call v.
Proof.
  intros v Ht Hc Hk Hd. subst v. eexists (upd_clock_n S (upd_instance i count_call w)).
  unfold verify, client, signing_key_or_refresh, except_jwk, key_from, decode_mapped, now. rewrite Ht.
  destruct i; run_prog; rewrite Hc, Hk; simpl; rewrite Hd; done.
Qed.
