(* ===== verification/Issuer.v ===== *)
(** The local OAuth2 issuers, [infra/compose/mock-issuer/main.py] for tenants and
    [infra/compose/operator-issuer/main.py] for operators (the two programs differ
    only in the configuration they read), the script that asks them for a token,
    and their composition with the verifier of [Auth].

    RSA and PyJWT are third-party code: parameters of the model. *)
From S2P Require Import Prelude PyStr PyDict Json JsonText Encoding Errors Models World Samples Database PyVal Isolation Auth.
Local Open Scope Z_scope.

(** [issuer-config.yaml]. *)
Record client_entry := {
  cl_client_id : string; cl_client_secret : string; cl_tenant_id : string;
  cl_scopes : option (list string) }.
Record issuer_config := {
  ic_issuer : string; ic_audience : string; ic_key_id : string; ic_clients : list client_entry }.

Definition TOKEN_TTL_SECONDS : Z := 3600.

(** RSA keys, the signer of PyJWT, its key lookup in a key set and its verifier. *)
Class RsaJwt := {
  private_key : Type;
  rsa_n : private_key → Z;
  rsa_e : private_key → Z;
  public_key : Z → Z → string;
  jwt_encode : private_key → list (string * json) → list (string * json) → string;
  key_in_set : json → string → result jwt_error string;
  pyjwt_decode : Z → string → string → string → string → Z → result jwt_error json }.

Section Issuer.
Context `{RsaJwt}.

(** [_public_key_to_jwk]. *)
Definition public_key_to_jwk (n e : Z) (kid : string) : json :=
  JObj [("kty", JStr "RSA"); ("use", JStr "sig"); ("alg", JStr "RS256"); ("kid", JStr kid);
        ("n", JStr (rstrip_char "=" (urlsafe_b64encode (int_bytes n))));
        ("e", JStr (rstrip_char "=" (urlsafe_b64encode (int_bytes e))))].

(** The module state: the configuration and the key generated at start. *)
Record issuer_app := { ia_config : issuer_config; ia_key : private_key }.

Definition clients_by_id (c : issuer_config) : list (string * client_entry) :=
  foldl (λ d cl, dset (cl_client_id cl) cl d) [] (ic_clients c).

(** [GET /.well-known/openid-configuration]. *)
Definition openid_configuration (a : issuer_app) : json :=
  let issuer := ic_issuer (ia_config a) in
  JObj [("issuer", JStr issuer);
        ("token_endpoint", JStr (issuer +:+ "/token"));
        ("jwks_uri", JStr (issuer +:+ "/.well-known/jwks.json"));
        ("grant_types_supported", JArr [JStr "client_credentials"]);
        ("id_token_signing_alg_values_supported", JArr [JStr "RS256"])].

(** [GET /.well-known/jwks.json]. *)
Definition jwks (a : issuer_app) : json :=
  JObj [("keys", JArr [public_key_to_jwk (rsa_n (ia_key a)) (rsa_e (ia_key a)) (ic_key_id (ia_config a))])].

Record token_form := {
  fm_grant_type : string; fm_client_id : string; fm_client_secret : string; fm_scope : option string }.

(** [scope or " ".join(client.get("scopes", []))]. *)
Definition granted_scope (f : token_form) (cl : client_entry) : string :=
  match fm_scope f with
  | Some s => if nonempty s then s else join " " (default [] (cl_scopes cl))
  | None => join " " (default [] (cl_scopes cl))
  end.
Definition claims (a : issuer_app) (now : Z) (jti : string) (f : token_form) (cl : client_entry) :
    list (string * json) :=
  [("iss", JStr (ic_issuer (ia_config a))); ("aud", JStr (ic_audience (ia_config a)));
   ("sub", JStr (fm_client_id f)); ("iat", JInt now); ("exp", JInt (now + TOKEN_TTL_SECONDS));
   ("jti", JStr jti); ("tenant_id", JStr (cl_tenant_id cl)); ("scope", JStr (granted_scope f cl))].
Definition headers (a : issuer_app) : list (string * json) :=
  [("kid", JStr (ic_key_id (ia_config a))); ("typ", JStr "JWT")].

(** [POST /token] at the second [now], [jti] being the fresh UUID. *)
Definition token (a : issuer_app) (now : Z) (jti : string) (f : token_form) : result exn json :=
  if negb (str_eqb (fm_grant_type f) "client_credentials")
  then Raise (EHTTP 400 (JObj [("error", JStr "unsupported_grant_type")])) else
  match dget (fm_client_id f) (clients_by_id (ia_config a)) with
  | None => Raise (EHTTP 401 (JObj [("error", JStr "invalid_client")]))
  | Some cl =>
      if negb (str_eqb (cl_client_secret cl) (fm_client_secret f))
      then Raise (EHTTP 401 (JObj [("error", JStr "invalid_client")])) else
      Ok (JObj [("access_token", JStr (jwt_encode (ia_key a) (headers a) (claims a now jti f cl)));
                ("token_type", JStr "Bearer"); ("expires_in", JInt TOKEN_TTL_SECONDS);
                ("scope", JStr (granted_scope f cl))])
  end.

(** * The issuers as seen by the verifier

    The verifier's discovery request and key-set request reach the issuer whose
    URL they name.  The key set is read anew on every lookup: the network stands for
    issuers whose keys do not change while a JWKS client lives, for which PyJWKClient's
    cache of the key set shows the same. *)
Definition answers (path : string) (doc : issuer_app → json) (net : list issuer_app) (url : string) :
    option json :=
  doc <$> List.find (λ a, str_eqb url (ic_issuer (ia_config a) +:+ path)) net.
Definition jwt_result {A} (r : result jwt_error A) : result exn A :=
  match r with Ok a => Ok a | Raise e => Raise (EJwt e) end.
Definition network_jwt (net : list issuer_app) : JwtLib := {|
  discovery := λ _ url,
    match answers OIDC_DISCOVERY_PATH openid_configuration net url with
    | Some metadata => Ok metadata
    | None => Raise (EHttpx "no issuer answers")
    end;
  signing_key := λ _ _ uri tok,
    match answers "/.well-known/jwks.json" jwks net uri with
    | Some set => jwt_result (key_in_set set tok)
    | None => Raise (EJwt PyJWKClientError)
    end;
  jwt_decode := λ t tok key aud iss skew, jwt_result (pyjwt_decode t tok key aud iss skew) |}.
End Issuer.

(** * [scripts/dev_issue_jwt.py]: the request it makes *)
Inductive dev_subject := DevTenant (name : string) | DevOperator (name : string).
Record dev_args := {
  da_subject : dev_subject; da_audience : option string; da_issuer_url : option string;
  da_client_secret : string }.
Definition MOCK_ISSUER_DEFAULT : string := "http://localhost:8088".
Definition OPERATOR_ISSUER_DEFAULT : string := "http://localhost:8089".
Definition or_default (o : option string) (d : string) : string :=
  match o with Some s => if nonempty s then s else d | None => d end.
Definition dev_request (a : dev_args) : string * token_form :=
  let '(url, client_id) :=
    match da_subject a with
    | DevTenant _ => (or_default (da_issuer_url a) MOCK_ISSUER_DEFAULT, "feature-001-default")
    | DevOperator o => (or_default (da_issuer_url a) OPERATOR_ISSUER_DEFAULT, "operator-" +:+ o)
    end in
  (url +:+ "/token",
   {| fm_grant_type := "client_credentials"; fm_client_id := client_id;
      fm_client_secret := da_client_secret a; fm_scope := None |}).
(** [main]: the exit code and what is printed, given how the token endpoint answers; an
    error status is an [httpx.HTTPError] like a refused connection. *)
Definition dev_main (post : string → token_form → result exn json) (a : dev_args) : result exn (Z * list json) :=
  let '(url, form) := dev_request a in
  match post url form with
  | Raise _ => Ok (1, [])
  | Ok body =>
      match jget "access_token" body with
      | Some t => Ok (0, [t])
      | None => Raise (EKeyError "access_token")
      end
  end.

(** * Documented behaviour of PyJWT *)
(** A JWK of RFC 7517 and 7518 for the RSA public key [(n, e)]. *)
Definition rsa_jwk (kid : string) (n e : Z) (j : json) : Prop :=
  jget "kty" j = Some (JStr "RSA") ∧ jget "use" j = Some (JStr "sig") ∧ jget "kid" j = Some (JStr kid) ∧
  (∃ t b, jget "n" j = Some (JStr t) ∧ b64url_decode t = Some b ∧ from_bytes b = n) ∧
  (∃ t b, jget "e" j = Some (JStr t) ∧ b64url_decode t = Some b ∧ from_bytes b = e).

(** The claims [jwt.decode] accepts at the instant [t] with an audience, an
    issuer, a leeway and the required claims of the verifier. *)
Record acceptable (t : Z) (aud iss : string) (skew : Z) (o : list (string * json)) : Prop := {
  ac_iss : dget "iss" o = Some (JStr iss);
  ac_aud : dget "aud" o = Some (JStr aud);
  ac_sub : ∃ s, dget "sub" o = Some (JStr s);
  ac_jti : ∃ s, dget "jti" o = Some (JStr s);
  ac_nbf : dget "nbf" o = None;
  ac_iat : ∃ i, dget "iat" o = Some (JInt i) ∧ i * 1000000 ≤ t + skew * 1000000;
  ac_exp : ∃ x, dget "exp" o = Some (JInt x) ∧ t < (x + skew) * 1000000 }.

Class RsaJwtLaws `{PyFloat} `{RsaJwt} := {
  rsa_positive : ∀ k, 0 < rsa_n k ∧ 0 < rsa_e k;
  encode_nonempty : ∀ k hdr o, nonempty (jwt_encode k hdr o) = true;
  (** the key named in the header is taken from the set, if it is there *)
  key_found : ∀ k hdr o kid n e j, readable (JObj hdr) → readable (JObj o) →
    dget "kid" hdr = Some (JStr kid) → rsa_jwk kid n e j →
    key_in_set (JObj [("keys", JArr [j])]) (jwt_encode k hdr o) = Ok (public_key n e);
  key_missing : ∀ k hdr o kid kid' n e j, readable (JObj hdr) → readable (JObj o) →
    dget "kid" hdr = Some (JStr kid) → rsa_jwk kid' n e j → kid ≠ kid' →
    key_in_set (JObj [("keys", JArr [j])]) (jwt_encode k hdr o) = Raise PyJWKClientError;
  (** a token decodes under its own key to the claims it was made of *)
  decode_genuine : ∀ k hdr o t aud iss skew, readable (JObj hdr) → readable (JObj o) →
    acceptable t aud iss skew o →
    pyjwt_decode t (jwt_encode k hdr o) (public_key (rsa_n k) (rsa_e k)) aud iss skew = Ok (JObj o);
  (** and under no other *)
  decode_forged : ∀ k k' hdr o t aud iss skew, readable (JObj hdr) → readable (JObj o) →
    (rsa_n k, rsa_e k) ≠ (rsa_n k', rsa_e k') →
    pyjwt_decode t (jwt_encode k hdr o) (public_key (rsa_n k') (rsa_e k')) aud iss skew =
      Raise InvalidSignatureError }.

(** * Facts *)
Section IssuerFacts.
Context `{Env} `{RsaJwt} `{!RsaJwtLaws}.

(** The published key reads back as the key in use. *)
Lemma jwk_reads n e kid : 0 ≤ n → 0 ≤ e → rsa_jwk kid n e (public_key_to_jwk n e kid).
Proof.
  intros Hn He. split_and!; [done..| |];
    eexists _, _; (split; [reflexivity|split; [apply b64url_roundtrip|by apply int_bytes_roundtrip]]).
Qed.

Lemma readable_claims a now jti f cl : readable (JObj (claims a now jti f cl)).
Proof. apply readable_obj. split; [vm_compute; repeat constructor; set_solver|repeat constructor]. Qed.
Lemma readable_headers a : readable (JObj (headers a)).
Proof. apply readable_obj. split; [vm_compute; repeat constructor; set_solver|repeat constructor]. Qed.

Lemma answers_own path doc net a : NoDup ((λ a, ic_issuer (ia_config a)) <$> net) → a ∈ net →
  answers path doc net (ic_issuer (ia_config a) +:+ path) = Some (doc a).
Proof.
  unfold answers. induction net as [|b net IH]; intros Hnd Hin; [by apply elem_of_nil in Hin|].
  apply NoDup_cons in Hnd as [Hb Hnd]. cbn [List.find].
  destruct (str_eqb _ _) eqn:E.
  - apply str_eqb_eq in E. apply elem_of_cons in Hin as [->|Hin]; [done|]. destruct Hb.
    apply list_elem_of_fmap. exists a. split; [|done]. symmetry. by eapply str_app_inj_r.
  - apply elem_of_cons in Hin as [->|Hin]; [|by apply IH]. by rewrite str_eqb_refl in E.
Qed.

(** A verifier configured for issuer [a], before or after it resolved the key set. *)
Definition jwks_url (a : issuer_app) : string := ic_issuer (ia_config a) +:+ "/.well-known/jwks.json".
Definition pointed_at (a : issuer_app) (v : verifier) : Prop :=
  v_issuer_url v = ic_issuer (ia_config a) ∧
  (v_jwks_uri v = None ∧ v_jwks_client v = None ∨ v_jwks_uri v = Some (jwks_url a)).

Context (net : list issuer_app) (Hnet : NoDup ((λ a, ic_issuer (ia_config a)) <$> net)).
#[local] Instance net_jwt : JwtLib := network_jwt net.

(** What a step of the key lookup leaves: the clock, the configuration, and a
    resolved key set. *)
Definition resolved (i : issuer) (a : issuer_app) (w w1 : world) : Prop :=
  w_clock_n w1 = w_clock_n w ∧ v_config (get_verifier i w1) = v_config (get_verifier i w) ∧
  v_jwks_uri (get_verifier i w1) = Some (jwks_url a).

Lemma jwks_url_nonempty a : nonempty (jwks_url a) = true.
Proof. apply nonempty_true. unfold jwks_url. by destruct (ic_issuer (ia_config a)). Qed.

Lemma client_at i a w : a ∈ net → pointed_at a (get_verifier i w) →
  ∃ c w1, client i w = (Ok c, w1) ∧ resolved i a w w1.
Proof using Hnet.
  intros Ha [Hi [[Hu Hc]|Hu]]; unfold client, resolve_jwks_uri; run_prog.
  - rewrite Hc, Hu. unfold discovery, net_jwt, network_jwt. rewrite Hi, answers_own by done.
    simpl. fold (jwks_url a). rewrite jwks_url_nonempty.
    destruct i; simpl in *; eexists _, _; (split; [reflexivity|by split_and!]).
  - destruct (v_jwks_client (get_verifier i w)) eqn:Hc.
    + eexists _, _. split; [reflexivity|by split_and!].
    + rewrite Hu. destruct i; simpl in *; eexists _, _; (split; [reflexivity|by split_and!]).
Qed.

Lemma key_from_at i a c tok w : a ∈ net → v_jwks_uri (get_verifier i w) = Some (jwks_url a) →
  ∃ w1, resolved i a w w1 ∧
    key_from i c tok w = (match key_in_set (jwks a) tok with
                          | Ok k => Ok k | Raise e => Raise (EJwt e) end, w1).
Proof using Hnet.
  intros Ha Hu. unfold key_from. run_prog. rewrite Hu. unfold default, id, jwks_url. rewrite answers_own by done.
  destruct i; simpl in *; eexists; (split; [|by destruct (key_in_set _ _)]); by split_and!.
Qed.

(** The lookup finds the key, or fails once more after a refresh. *)
Lemma lookup_at i a c tok w : a ∈ net → v_issuer_url (get_verifier i w) = ic_issuer (ia_config a) →
  v_jwks_uri (get_verifier i w) = Some (jwks_url a) →
  ∃ w1, resolved i a w w1 ∧
    signing_key_or_refresh i c tok w = (match key_in_set (jwks a) tok with
      | Ok k => Ok k
      | Raise PyJWKClientError => Raise (ECollectMind AuthInvalidToken)
      | Raise e => Raise (EJwt e) end, w1).
Proof using Hnet.
  intros Ha Hi Hu. destruct (key_from_at i a c tok w Ha Hu) as (w1 & Hr & E).
  unfold signing_key_or_refresh, except_jwk. unfold catch at 1. rewrite E.
  destruct (key_in_set (jwks a) tok) as [k|[]] eqn:Ek; try (by exists w1).
  destruct Hr as (R1 & R2 & R3).
  destruct (client_at i a (upd_instance i (set_client None) w1) Ha) as (c2 & w2 & E2 & S1 & S2 & S3).
  { unfold pointed_at, v_config in *. destruct i; simpl in *; (split; [congruence|by right]). }
  destruct (key_from_at i a c2 tok w2 Ha S3) as (w3 & (T1 & T2 & T3) & E3). rewrite Ek in E3.
  exists w3. split.
  - split_and!; [|etrans; [exact T2|]; etrans; [exact S2|]; by destruct i|done].
    etrans; [exact T1|]; etrans; [exact S1|]; by destruct i.
  - unfold refresh_jwks. run_prog. rewrite E2. run_prog. by rewrite E3.
Qed.

(** A verification of a token against the issuer the verifier is configured for. *)
Lemma verify_at i a tok w : a ∈ net → pointed_at a (get_verifier i w) → nonempty tok = true →
  ∃ w1 w2, resolved i a w w1 ∧
    verify i tok w = match key_in_set (jwks a) tok with
      | Ok key => (payload ← decode_mapped i tok key; lift (principal_of payload)) w1
      | Raise PyJWKClientError => (Raise (ECollectMind AuthInvalidToken), w2)
      | Raise e => (Raise (EJwt e), w2) end.
Proof using Hnet.
  intros Ha Hp Ht. destruct (client_at i a w Ha Hp) as (c & w1 & E1 & R1 & R2 & R3).
  destruct (lookup_at i a c tok w1 Ha) as (w2 & (S1 & S2 & S3) & E2);
    [unfold v_config in R2; destruct Hp; congruence|done|].
  exists w2, w2. split; [split_and!; [congruence|etrans; [exact S2|exact R2]|done]|].
  unfold verify. rewrite Ht. cbn [negb]. unfold mbind at 1, prog_bind at 1. rewrite E1.
  unfold mbind at 1, prog_bind at 1. rewrite E2. by destruct (key_in_set (jwks a) tok) as [|[]].
Qed.

Lemma own_key_found a now jti f cl :
  key_in_set (jwks a) (jwt_encode (ia_key a) (headers a) (claims a now jti f cl)) =
    Ok (public_key (rsa_n (ia_key a)) (rsa_e (ia_key a))).
Proof.
  destruct (rsa_positive (ia_key a)). eapply key_found; [apply readable_headers|apply readable_claims|reflexivity|].
  apply jwk_reads; lia.
Qed.
End IssuerFacts.

Section EndToEnd.
Context `{Env} `{RsaJwt} `{!RsaJwtLaws} (net : list issuer_app).
#[local] Instance network : JwtLib := network_jwt net.

Lemma principal_of_claims a now jti f cl : nonempty (cl_tenant_id cl) = true → nonempty (fm_client_id f) = true →
  principal_of (JObj (claims a now jti f cl)) =
    Ok {| pr_tenant_id := cl_tenant_id cl; pr_subject := fm_client_id f;
          pr_scopes := split_ws (granted_scope f cl); pr_token_id := jti |}.
Proof.
  intros Ht Hs. unfold principal_of, claims. rewrite !jget_obj. simpl. rewrite Ht, Hs.
  unfold or_else. simpl. by destruct (granted_scope f cl).
Qed.

(** C26. What the local issuers hand out is what the verifier accepts: a client that
    asks the token endpoint with its own secret is answered with a token which, as
    long as it has not expired, the verifier configured for that issuer and
    audience turns into the principal of the client's configured tenant; the
    published key set and the discovery document are all it needs. *)
Theorem issued_token_verifies (a : issuer_app) (i : issuer) (w : world) (f : token_form)
    (cl : client_entry) (issued : Z) (jti : string) :
  NoDup ((λ a, ic_issuer (ia_config a)) <$> net) → a ∈ net →
  pointed_at a (get_verifier i w) → v_audience (get_verifier i w) = ic_audience (ia_config a) →
  fm_grant_type f = "client_credentials" →
  dget (fm_client_id f) (clients_by_id (ia_config a)) = Some cl →
  cl_client_secret cl = fm_client_secret f →
  nonempty (cl_tenant_id cl) = true → nonempty (fm_client_id f) = true →
  issued * 1000000 ≤ clock (w_clock_n w) + v_clock_skew (get_verifier i w) * 1000000 →
  clock (w_clock_n w) < (issued + TOKEN_TTL_SECONDS + v_clock_skew (get_verifier i w)) * 1000000 →
  ∃ body tok w', token a issued jti f = Ok body ∧ jget "access_token" body = Some (JStr tok) ∧
    verify i tok w = (Ok {| pr_tenant_id := cl_tenant_id cl; pr_subject := fm_client_id f;
      pr_scopes := split_ws (granted_scope f cl); pr_token_id := jti |}, w').
Proof.
  intros Hnet Ha Hp Haud Hg Hcl Hsec Ht Hs Hiat Hexp.
  set (tok := jwt_encode (ia_key a) (headers a) (claims a issued jti f cl)).
  destruct (verify_at net Hnet i a tok w Ha Hp (encode_nonempty _ _ _)) as (w1 & w2 & (Hn & Hc & _) & E).
  unfold tok in E at 2. rewrite own_key_found in E. unfold net_jwt in E.
  eexists _, tok, _. split_and!.
  - unfold token. rewrite Hg, Hcl, Hsec, !str_eqb_refl. reflexivity.
  - reflexivity.
  - unfold network. rewrite E. unfold decode_mapped, now. run_prog.
    unfold v_config in Hc. injection Hc as Hi Hau Hsk. rewrite Hn, Hi, Hau, Hsk, Haud.
    destruct Hp as [-> _]. unfold tok. rewrite decode_genuine.
    + simpl. by rewrite principal_of_claims.
    + apply readable_headers.
    + apply readable_claims.
    + constructor; try done; eauto.
Qed.

(** C27. A token of one issuer is worthless at a verifier configured for another: as
    long as the two signing keys differ it is refused with the invalid-token
    error, whether or not the key ids coincide. *)
Theorem foreign_token_refused (a b : issuer_app) (i : issuer) (w : world) (f : token_form)
    (cl : client_entry) (issued : Z) (jti : string) :
  NoDup ((λ a, ic_issuer (ia_config a)) <$> net) → a ∈ net → pointed_at a (get_verifier i w) →
  (rsa_n (ia_key b), rsa_e (ia_key b)) ≠ (rsa_n (ia_key a), rsa_e (ia_key a)) →
  ∃ w', verify i (jwt_encode (ia_key b) (headers b) (claims b issued jti f cl)) w =
    (Raise (ECollectMind AuthInvalidToken), w').
Proof.
  intros Hnet Ha Hp Hk. destruct (rsa_positive (ia_key a)) as [Hn He].
  pose proof (jwk_reads _ _ (ic_key_id (ia_config a)) (Z.lt_le_incl _ _ Hn) (Z.lt_le_incl _ _ He)) as Hj.
  destruct (verify_at net Hnet i a _ w Ha Hp (encode_nonempty (ia_key b) (headers b) (claims b issued jti f cl)))
    as (w1 & w2 & _ & E). unfold net_jwt, jwks in E. unfold network.
  destruct (decide (ic_key_id (ia_config b) = ic_key_id (ia_config a))) as [Eq|Ne].
  - erewrite (key_found _ _ _ (ic_key_id (ia_config a))) in E;
      [|apply readable_headers|apply readable_claims|by rewrite <- Eq|exact Hj].
    eexists. rewrite E. unfold decode_mapped, now. run_prog.
    rewrite decode_forged; [reflexivity|apply readable_headers|apply readable_claims|done].
  - erewrite (key_missing _ _ _ (ic_key_id (ia_config b)) (ic_key_id (ia_config a))) in E;
      [|apply readable_headers|apply readable_claims|done|exact Hj|done].
    by exists w2.
Qed.
End EndToEnd.

(** * A sample library and configuration *)
Module IssuerSamples.
#[local] Instance floats : PyFloat := Samples.floats.
Definition opened (tok : string) : option (Z * Z * list (string * json) * list (string * json)) :=
  match loads tok with
  | Some (JArr [JInt n; JInt e; JObj hdr; JObj o]) => Some (n, e, hdr, o)
  | _ => None
  end.
Definition key_text (n e : Z) : string := dumps (JArr [JInt n; JInt e]).
Definition number_of (o : option json) : option Z :=
  match o with Some (JStr t) => from_bytes <$> b64url_decode t | _ => None end.
Definition fits (t : Z) (aud iss : string) (skew : Z) (o : list (string * json)) : bool :=
  match dget "iss" o, dget "aud" o, dget "sub" o, dget "jti" o, dget "nbf" o, dget "iat" o, dget "exp" o with
  | Some (JStr i), Some (JStr a), Some (JStr _), Some (JStr _), None, Some (JInt f), Some (JInt x) =>
      str_eqb i iss && str_eqb a aud && (f * 1000000 <=? t + skew * 1000000) &&
      (t <? (x + skew) * 1000000)
  | _, _, _, _, _, _, _ => false
  end.
#[global] Instance open_jwt : RsaJwt := {|
  private_key := positive * positive;
  rsa_n := λ k, Zpos k.1;
  rsa_e := λ k, Zpos k.2;
  public_key := key_text;
  jwt_encode := λ k hdr o, dumps (JArr [JInt (Zpos k.1); JInt (Zpos k.2); JObj hdr; JObj o]);
  key_in_set := λ set tok,
    match set, opened tok with
    | JObj [("keys", JArr [j])], Some (_, _, hdr, _) =>
        match dget "kid" hdr, jget "kid" j, number_of (jget "n" j), number_of (jget "e" j) with
        | Some (JStr k), Some (JStr k'), Some n, Some e =>
            if str_eqb k k' then Ok (key_text n e) else Raise PyJWKClientError
        | _, _, _, _ => Raise PyJWKClientError
        end
    | _, _ => Raise DecodeError
    end;
  pyjwt_decode := λ t tok key aud iss skew,
    match opened tok with
    | Some (n, e, _, o) =>
        if negb (str_eqb key (key_text n e)) then Raise InvalidSignatureError
        else if fits t aud iss skew o then Ok (JObj o) else Raise InvalidTokenError
    | None => Raise DecodeError
    end |}.

Lemma loads_dumps j : readable j → loads (dumps j) = Some j.
Proof. apply loads_print, opts_ok_used. Qed.
Lemma opened_encode k hdr o : readable (JObj hdr) → readable (JObj o) →
  opened (jwt_encode k hdr o) = Some (Zpos k.1, Zpos k.2, hdr, o).
Proof.
  intros Hh Ho. unfold opened, jwt_encode, open_jwt. rewrite loads_dumps; [done|].
  apply readable_arr. repeat (apply Forall_cons_2; [done|]). by apply Forall_nil_2.
Qed.
Lemma key_text_inj n e n' e' : key_text n e = key_text n' e' → n = n' ∧ e = e'.
Proof.
  unfold key_text. intros E. apply (f_equal loads) in E.
  rewrite !loads_dumps in E by (apply readable_arr; by repeat constructor). by simplify_eq.
Qed.
#[global] Instance open_jwt_laws : @RsaJwtLaws Samples.floats open_jwt.
Proof.
  split.
  - intros k. simpl. lia.
  - done.
  - intros k hdr o kid n e j Hh Ho Hkid (_ & _ & Hk & (t1 & b1 & E1 & D1 & <-) & t2 & b2 & E2 & D2 & <-).
    unfold key_in_set, open_jwt at 1. rewrite opened_encode by done.
    rewrite Hkid, Hk, E1, E2. unfold number_of. by rewrite D1, D2, str_eqb_refl.
  - intros k hdr o kid kid' n e j Hh Ho Hkid (_ & _ & Hk & (t1 & b1 & E1 & D1 & <-) & t2 & b2 & E2 & D2 & <-) Hne.
    unfold key_in_set, open_jwt at 1. rewrite opened_encode by done.
    rewrite Hkid, Hk, E1, E2. unfold number_of. rewrite D1, D2. cbn [fmap option_fmap option_map].
    destruct (str_eqb kid kid') eqn:E; [by apply str_eqb_eq in E|done].
  - intros k hdr o t aud iss skew Hh Ho [Hi Ha [s Hs] [j Hj] Hn (f & Hf & Lf) (x & Hx & Lx)].
    unfold pyjwt_decode, open_jwt at 1. rewrite opened_encode by done. unfold public_key, open_jwt.
    rewrite str_eqb_refl. cbn [negb]. unfold fits. rewrite Hi, Ha, Hs, Hj, Hn, Hf, Hx, !str_eqb_refl.
    cbn [andb]. rewrite (proj2 (Z.leb_le _ _) Lf), (proj2 (Z.ltb_lt _ _) Lx). done.
  - intros k k' hdr o t aud iss skew Hh Ho Hne.
    unfold pyjwt_decode, open_jwt at 1. rewrite opened_encode by done.
    destruct (str_eqb _ _) eqn:E; [|done]. apply str_eqb_eq, key_text_inj in E as [E1 E2]. simpl in *. congruence.
Qed.

(** [infra/compose/issuer-config.yaml] and [operator-issuer-config.yaml]. *)
Definition entry (id tenant : string) (scopes : list string) : client_entry :=
  {| cl_client_id := id; cl_client_secret := "local-dev-only"; cl_tenant_id := tenant; cl_scopes := Some scopes |}.
Definition mock_config : issuer_config := {|
  ic_issuer := "http://mock-issuer:8088"; ic_audience := "collectmind-api"; ic_key_id := "dev-key-1";
  ic_clients := [entry "feature-001-default" "feature-001-default" ["findings:write"; "findings:read"];
                 entry "tenant-a" "tenant-a" ["findings:write"; "findings:read"];
                 entry "tenant-b" "tenant-b" ["findings:write"; "findings:read"]] |}.
Definition operator_config : issuer_config := {|
  ic_issuer := "http://operator-issuer:8088"; ic_audience := "collectmind-operator";
  ic_key_id := "operator-dev-key-1";
  ic_clients := [entry "operator-alice" "operator"
                   ["audit:break-glass"; "tenant-config:write"; "tenant-vehicles:write"];
                 entry "operator-bob" "operator" ["audit:break-glass"]] |}.
Definition mock_issuer : issuer_app := {| ia_config := mock_config; ia_key := (3233%positive, 17%positive) |}.
Definition operator_issuer : issuer_app := {| ia_config := operator_config; ia_key := (9797%positive, 5%positive) |}.
Definition form (id secret : string) : token_form := {|
  fm_grant_type := "client_credentials"; fm_client_id := id; fm_client_secret := secret; fm_scope := None |}.

(** The endpoint's refusals. *)
Example token_refusals :
  token mock_issuer 1700000000 "j" (form "tenant-a" "guess") =
    Raise (EHTTP 401 (JObj [("error", JStr "invalid_client")])) ∧
  token mock_issuer 1700000000 "j" (form "operator-alice" "local-dev-only") =
    Raise (EHTTP 401 (JObj [("error", JStr "invalid_client")])).
Proof. by vm_compute. Qed.

(** The script asks for the default client whatever tenant it is given, and sends
    neither the tenant nor the audience. *)
Example dev_tenant_ignored : ∀ t aud,
  dev_request {| da_subject := DevTenant t; da_audience := aud; da_issuer_url := None;
                 da_client_secret := "local-dev-only" |} =
    ("http://localhost:8088/token", form "feature-001-default" "local-dev-only").
Proof. reflexivity. Qed.
End IssuerSamples.

Lemma issued_token_verifies_witness :
  let net := [IssuerSamples.mock_issuer; IssuerSamples.operator_issuer] in
  let f := IssuerSamples.form "tenant-a" "local-dev-only" in
  ∃ body tok w', token IssuerSamples.mock_issuer 1700000000 "j-1" f = Ok body ∧
    jget "access_token" body = Some (JStr tok) ∧
    verify (H := Samples.env) (H0 := network_jwt net) TenantIssuer tok Samples.start =
      (Ok {| pr_tenant_id := "tenant-a"; pr_subject := "tenant-a";
             pr_scopes := split_ws "findings:write findings:read"; pr_token_id := "j-1" |}, w').
Proof.
  intros net f.
  apply (issued_token_verifies (H := Samples.env) (H0 := IssuerSamples.open_jwt) net IssuerSamples.mock_issuer
    TenantIssuer Samples.start f
    (IssuerSamples.entry "tenant-a" "tenant-a" ["findings:write"; "findings:read"]) 1700000000 "j-1").
  - vm_compute. repeat constructor; set_solver.
  - left.
  - split; [reflexivity|]. left. split; reflexivity.
  - vm_compute. reflexivity.
  - vm_compute. reflexivity.
  - vm_compute. reflexivity.
  - vm_compute. reflexivity.
  - vm_compute. reflexivity.
  - vm_compute. reflexivity.
  - vm_compute. discriminate.
  - vm_compute. reflexivity.
Defined.

Lemma foreign_token_refused_witness :
  let net := [IssuerSamples.mock_issuer; IssuerSamples.operator_issuer] in
  ∃ w', verify (H := Samples.env) (H0 := network_jwt net) OperatorIssuer
    (jwt_encode (ia_key IssuerSamples.mock_issuer) (headers IssuerSamples.mock_issuer)
      (claims IssuerSamples.mock_issuer 1700000000 "j-1" (IssuerSamples.form "tenant-a" "local-dev-only")
        (IssuerSamples.entry "tenant-a" "tenant-a" []))) Samples.start =
    (Raise (ECollectMind AuthInvalidToken), w').
Proof.
  intros net.
  apply (foreign_token_refused (H := Samples.env) (H0 := IssuerSamples.open_jwt) net IssuerSamples.operator_issuer
    IssuerSamples.mock_issuer OperatorIssuer Samples.start).
  - vm_compute. repeat constructor; set_solver.
  - right. left.
  - split; [reflexivity|]. left. split; reflexivity.
  - vm_compute. discriminate.
Defined.
