(* ===== verification/HotStore.v ===== *)
(** The Redis commands the program issues, and [redis/client.py]: the
    tenant-scoped hot store. *)
From S2P Require Import Prelude PyStr PyDict Json JsonText Errors TokenBucket Models World Samples.
Local Open Scope Z_scope.

(** * Redis commands *)
Section Commands.
Context `{Env}.

(** One round trip: it fails with the fault's text, or runs on the server's data
    at the server's time. *)
Definition command {A} (f : Z → redis → result string A * redis) : M A :=
  n ← gets w_redis_n;
  modify (upd_redis_n S);;
  match redis_fault n with
  | Some msg => raise (ERedis msg)
  | None =>
      r ← gets w_redis;
      let '(a, r') := f (redis_clock n) r in
      modify (upd_redis (λ _, r'));;
      match a with Ok x => mret x | Raise msg => raise (ERedis msg) end
  end.

Definition wrong_type : string :=
  "WRONGTYPE Operation against a key holding the wrong kind of value".

(** [GET key]. *)
Definition redis_get (key : string) : M (option string) :=
  command (λ t r,
    match r_data r !! key with
    | Some (RStr s (Some x)) => (Ok (if x <? t then None else Some s), r)
    | Some (RStr s None) => (Ok (Some s), r)
    | Some (RHash e) => match live t (Some e) with
                        | Some _ => (Raise wrong_type, r)
                        | None => (Ok None, r)
                        end
    | None => (Ok None, r)
    end).
(** [SET key value EX seconds]. *)
Definition redis_set (key value : string) (ex : Z) : M unit :=
  command (λ t r, (Ok tt, upd_data <[key := RStr value (Some (t + 1000 * ex))]> r)).
(** [DEL key]. *)
Definition redis_delete (key : string) : M unit :=
  command (λ t r, (Ok tt, upd_data (delete key) r)).

(** The digest [SCRIPT LOAD] answers for [token_bucket.lua]. *)
Definition LUA_SHA : string := "token_bucket.lua".
Definition script_load : M string := command (λ t r, (Ok LUA_SHA, upd_scripts (λ _, true) r)).

Definition noscript : string := "NOSCRIPT No matching script. Please use EVAL.".

(** The bucket under a key, if the key can hold one. *)
Definition bucket_at (t : Z) (r : redis) (key : string) : option (option entry) :=
  match r_data r !! key with
  | None => Some None
  | Some (RHash e) => Some (Some e)
  | Some (RStr _ (Some x)) => if x <? t then Some None else None
  | Some (RStr _ None) => None
  end.
Definition store_bucket (key : string) (e : option entry) (r : redis) : redis :=
  match e with
  | Some e => upd_data <[key := RHash e]> r
  | None => upd_data (delete key) r
  end.
(** [EVALSHA sha 1 key now_ms sustained burst]. *)
Definition evalsha (key : string) (now_ms sustained burst : Z) : M reply :=
  command (λ t r,
    if r_scripts r then
      match bucket_at t r key with
      | None => (Raise wrong_type, r)
      | Some e =>
          let '(rep, e') := token_bucket_lua t (Some now_ms, Some sustained, Some burst) e in
          (rep, store_bucket key e' r)
      end
    else (Raise noscript, r)).
End Commands.

(** A command touches Redis and the command count only. *)
Lemma command_outside `{Env} {A B} (f : world → B) (g : Z → redis → result string A * redis) :
  (∀ h w, f (upd_redis h w) = f w) → (∀ h w, f (upd_redis_n h w) = f w) → stable f (command g).
Proof.
  intros Hr Hn w. unfold command. run_prog.
  repeat (case_match; simplify_eq; simpl; rewrite ?Hr, ?Hn; try done).
Qed.

(** * [redis/client.py] *)
Definition DEFAULT_TTL_SECONDS : Z := 24 * 3600.

(** [_hot_store_key]. *)
Definition hot_store_key (tenant_id vehicle_id signal_name : string) : string :=
  tenant_id +:+ ":" +:+ vehicle_id +:+ ":" +:+ signal_name.

Section HotStore.
Context `{Env}.

(** The [client] property, and the guard of the two tenant methods. *)
Definition with_client {A} (m : M A) : M A :=
  c ← gets w_redis_client;
  if (c : bool) then m else raise (ERuntimeError "redis client is not initialized").

(** [HotStore.connect], [close] and [ping]. *)
Definition hs_connect : M unit := modify (upd_redis_client (λ _, true)).
Definition hs_close : M unit := modify (upd_redis_client (λ _, false)).
Definition hs_ping : M bool :=
  c ← gets w_redis_client;
  if (c : bool) then command (λ _ r, (Ok true, r)) else mret false.

(** [get_signal] and [put_signal], kept only to fail. *)
Definition get_signal (vehicle_id signal_name : string) : M (option string) :=
  raise (ELegacyKeyShape ("legacy hot-store read attempted for " +:+ vehicle_id +:+ ":" +:+
    signal_name +:+ "; use get_signal_for_tenant(tenant_id, vehicle_id, signal_name) instead. " +:+
    "The legacy single-tenant API was removed in Phase 14 T293.")).
Definition put_signal (vehicle_id signal_name value : string) : M unit :=
  raise (ELegacyKeyShape ("legacy hot-store write attempted for " +:+ vehicle_id +:+ ":" +:+
    signal_name +:+
    "; use put_signal_for_tenant(tenant_id, vehicle_id, signal_name, value) instead. " +:+
    "The legacy single-tenant API was removed in Phase 14 T293.")).

(** [put_signal_for_tenant]. *)
Definition put_signal_for_tenant (tenant_id vehicle_id signal_name value : string) : M unit :=
  with_client (redis_set (hot_store_key tenant_id vehicle_id signal_name) value DEFAULT_TTL_SECONDS).
(** [get_signal_for_tenant]. *)
Definition get_signal_for_tenant (tenant_id vehicle_id signal_name : string) : M (option string) :=
  with_client (redis_get (hot_store_key tenant_id vehicle_id signal_name)).
End HotStore.

(** * Key isolation *)
Definition colon : ascii := ":"%char.
Definition no_colon (s : string) : Prop := has_char colon s = false.

(** Hot-store keys separate tenants whenever tenant and vehicle identifiers
    contain no colon: equal keys come from equal tenant, vehicle and signal. *)
Theorem hot_store_key_injective (t t' v v' s s' : string) :
  no_colon t → no_colon t' → no_colon v → no_colon v' →
  hot_store_key t v s = hot_store_key t' v' s' → t = t' ∧ v = v' ∧ s = s'.
Proof.
  intros Ht Ht' Hv Hv' E. unfold hot_store_key in E.
  destruct (app_char_inj colon t t' _ _ Ht Ht' E) as [-> E1].
  destruct (app_char_inj colon v v' _ _ Hv Hv' E1) as [-> E2]. done.
Qed.

Lemma hot_store_key_injective_witness :
  hot_store_key "acme" "VIN-1" "speed" = hot_store_key "acme" "VIN-1" "speed" ∧
  ("acme" = "acme" ∧ "VIN-1" = "VIN-1" ∧ "speed" = "speed").
Proof. split; [reflexivity|]. by apply hot_store_key_injective. Defined.

(** Without that restriction the keys collide: what tenant [t:v] stores for a
    vehicle [x] is what tenant [t] reads for a vehicle [v:x]. *)
Theorem hot_store_cross_tenant_read `{Env} (t v x sig val : string) (w : world) :
  w_redis_client w = true →
  redis_fault (w_redis_n w) = None → redis_fault (S (w_redis_n w)) = None →
  redis_clock (S (w_redis_n w)) ≤ redis_clock (w_redis_n w) + 1000 * DEFAULT_TTL_SECONDS →
  let w1 := (put_signal_for_tenant (t +:+ ":" +:+ v) x sig val w).2 in
  (get_signal_for_tenant t (v +:+ ":" +:+ x) sig w1).1 = Ok (Some val).
Proof.
  intros Hc Hf1 Hf2 Ht. unfold put_signal_for_tenant, get_signal_for_tenant, with_client,
    redis_set, redis_get, command. run_prog. rewrite Hc. simpl. rewrite Hf1. simpl. rewrite Hc. simpl. rewrite Hf2.
  simpl. unfold hot_store_key. rewrite !str_app_assoc. rewrite lookup_insert_eq.
  destruct (Z.ltb_spec (redis_clock (w_redis_n w) + 1000 * DEFAULT_TTL_SECONDS)
    (redis_clock (S (w_redis_n w)))); [lia | done].
Qed.

Lemma hot_store_cross_tenant_read_witness :
  let w1 := (put_signal_for_tenant (H := Samples.env) "acme:north" "VIN-1" "speed" "88"
               Samples.start).2 in
  (get_signal_for_tenant (H := Samples.env) "acme" "north:VIN-1" "speed" w1).1 = Ok (Some "88").
Proof.
  apply (hot_store_cross_tenant_read (H := Samples.env) "acme" "north" "VIN-1" "speed" "88"
    Samples.start); try reflexivity. vm_compute. discriminate.
Defined.

(** Store and load: a value put for a tenant is read back by that tenant
    while its day has not passed, and reads under any other key are as before. *)
Theorem hot_store_put_get `{Env} (t v sig val : string) (w : world) :
  w_redis_client w = true →
  redis_fault (w_redis_n w) = None → redis_fault (S (w_redis_n w)) = None →
  redis_clock (S (w_redis_n w)) ≤ redis_clock (w_redis_n w) + 1000 * DEFAULT_TTL_SECONDS →
  let w1 := (put_signal_for_tenant t v sig val w).2 in
  (get_signal_for_tenant t v sig w1).1 = Ok (Some val) ∧
  ∀ t' v' sig', hot_store_key t' v' sig' ≠ hot_store_key t v sig →
    (get_signal_for_tenant t' v' sig' w1).1 =
    (get_signal_for_tenant t' v' sig' (upd_redis_n S w)).1.
Proof.
  intros Hc Hf1 Hf2 Ht. unfold put_signal_for_tenant, get_signal_for_tenant, with_client,
    redis_set, redis_get, command. run_prog. rewrite Hc. simpl. rewrite Hf1. simpl. rewrite Hc. simpl. rewrite Hf2.
  simpl. split.
  - rewrite lookup_insert_eq. destruct (Z.ltb_spec
      (redis_clock (w_redis_n w) + 1000 * DEFAULT_TTL_SECONDS) (redis_clock (S (w_redis_n w))));
      [lia | done].
  - intros t' v' sig' Hne. rewrite lookup_insert_ne by congruence.
    repeat case_match; simplify_eq; done.
Qed.

Lemma hot_store_put_get_witness :
  let w1 := (put_signal_for_tenant (H := Samples.env) "acme" "VIN-1" "speed" "88"
               Samples.start).2 in
  (get_signal_for_tenant (H := Samples.env) "acme" "VIN-1" "speed" w1).1 = Ok (Some "88") ∧
  (get_signal_for_tenant (H := Samples.env) "globex" "VIN-1" "speed" w1).1 =
  (get_signal_for_tenant (H := Samples.env) "globex" "VIN-1" "speed"
    (upd_redis_n S Samples.start)).1.
Proof.
  destruct (hot_store_put_get (H := Samples.env) "acme" "VIN-1" "speed" "88" Samples.start)
    as [Hp Hg]; try reflexivity; [vm_compute; discriminate|].
  split; [exact Hp|]. by apply (Hg "globex" "VIN-1" "speed").
Defined.
