(* ===== verification/Http.v ===== *)
(** Requests and responses at the FastAPI boundary. *)
From S2P Require Import Prelude PyStr PyDict Json JsonText Errors Models World.
Local Open Scope Z_scope.

(** [rq_body] is what [request.json()] gives; [rq_credentials] what FastAPI's
    [HTTPBearer] extracted; header names are in lower case. *)
Record request := Request {
  rq_method : string;
  rq_path : string;
  rq_headers : list (string * string);
  rq_credentials : option (string * string);
  rq_body : result exn json }.

Record response := Response {
  rs_status : Z;
  rs_body : json;
  rs_headers : list (string * string) }.

Definition JSONResponse (status : Z) (content : json) : response := Response status content [].

(** [request.headers.get(name)]. *)
Definition header (name : string) (r : request) : option string := dget name (rq_headers r).

(** The response a route ends in: what it returns, or what its exception becomes
    at the application's exception handlers. *)
Definition error_body (e : exn) : json :=
  match e with
  | ECollectMind c => to_response c
  | EHTTP _ d => JObj [("detail", d)]
  | _ => JStr "Internal Server Error"
  end.
Definition respond (m : M response) : M response :=
  catch m (λ e, mret (JSONResponse (http_status e) (error_body e))).
