(* ===== verification/RateLimit.v ===== *)
(** [ratelimit/middleware.py]: the per-tenant rate-limit middleware. *)
From S2P Require Import Prelude PyStr PyDict Json JsonText Errors TokenBucket Models World Samples Database TenantConfig Auth HotStore Http Isolation.
Local Open Scope Z_scope.

Definition EXEMPT_PREFIXES : list string :=
  ["/health"; "/ready"; "/metrics"; "/api/v1/health"; "/api/v1/ready"; "/api/v1/audit/break-glass"].
Definition INBOUND_PATHS : list string := ["/api/v1/findings"].

(** [_is_exempt]. *)
Definition is_exempt (path : string) : bool :=
  if str_eqb path "/api/v1/findings" then false
  else existsb (startswith path) EXEMPT_PREFIXES.

(** [_bucket_for_path]. *)
Definition bucket_for_path (path : string) : string :=
  if str_eqb path "/api/v1/findings" || existsb (startswith path) INBOUND_PATHS
  then "inbound" else "query".

Definition id_like (seg : string) : bool :=
  sany is_digit seg || has_char "_" seg || has_char "-" seg || has_char "." seg.
(** [_normalize_endpoint_label]. *)
Definition normalize_endpoint_label (method path : string) : string :=
  let segments := (λ seg, if id_like seg then ":id" else seg) <$>
                  List.filter nonempty (split_on "/" path) in
  upper method +:+ " /" +:+ join "/" segments.

Definition bucket_key (tenant_id kind : string) : string :=
  "ratelimit:" +:+ tenant_id +:+ ":" +:+ kind.

(** The tenant's rate and burst for a bucket. *)
Definition limits (c : TenantConfig) (kind : string) : Z * Z :=
  let b := if str_eqb kind "inbound" then tc_inbound c else tc_query c in
  (sustained_rps b, burst_capacity b).

(** [max(1, (retry_after_ms + 999) // 1000)]. *)
Definition retry_after_seconds (ms : Z) : Z := Z.max 1 ((ms + 999) / 1000).

Definition unauthenticated (message : string) : response :=
  JSONResponse 401 (JObj [("code", JStr "UNAUTHENTICATED"); ("message", JStr message)]).
Definition unavailable : response :=
  Response 503 (JObj [("code", JStr "rate_limit_unavailable");
                      ("message", JStr "rate limiter unavailable");
                      ("retry_after_seconds", JInt 1)]) [("Retry-After", "1")].
Definition throttled (secs : Z) : response :=
  Response 429 (JObj [("code", JStr "rate_limit_exceeded");
                      ("message", JStr "rate limit exceeded");
                      ("retry_after_seconds", JInt secs)]) [("Retry-After", str_of_Z secs)].

Section Middleware.
Context `{Env} `{JwtLib}.

(** [_ensure_lua_loaded]. *)
Definition ensure_lua_loaded : M string :=
  sha ← gets w_lua_sha;
  match sha with
  | Some s => mret s
  | None =>
      s ← with_client script_load;
      modify (upd_lua_sha (λ _, Some s));;
      mret s
  end.

Definition is_noscript (e : exn) : bool :=
  let s := lower (str_exn e) in contains "noscript" s || contains "no matching script" s.

(** The guarded Redis call: load the script, evaluate, reload and retry once on
    a missing script. *)
Definition consult (key : string) (now_ms sustained burst : Z) : M reply :=
  ensure_lua_loaded;;
  catch (with_client (evalsha key now_ms sustained burst)) (λ inner,
    if is_noscript inner then
      modify (upd_lua_sha (λ _, None));;
      ensure_lua_loaded;;
      with_client (evalsha key now_ms sustained burst)
    else raise inner).

(** The three branches on the outcome of the Redis call. *)
Definition decide (tenant_id label : string) (call_next : M response) (r : result exn reply)
    : M response :=
  match r with
  | Raise _ =>
      inc "ratelimit_redis_unavailable_total" [label];;
      mret unavailable
  | Ok rep =>
      if decision rep =? 1 then
        inc "ratelimit_decision_total" [tenant_id; label; "allow"];;
        call_next
      else
        inc "ratelimit_decision_total" [tenant_id; label; "reject"];;
        inc "ratelimit_throttled_total" [tenant_id; label];;
        mret (throttled (retry_after_seconds (retry_after_ms rep)))
  end.

(** The result of a program as a value ([try] / [except Exception]). *)
Definition attempt {A} (m : M A) : M (result exn A) :=
  λ w, let '(r, w') := m w in (Ok r, w').

(** [RateLimitMiddleware.dispatch]. *)
Definition dispatch (rq : request) (call_next : M response) : M response :=
  let path := rq_path rq in
  if is_exempt path then call_next else
  let auth_header := default "" (header "authorization" rq) in
  if negb (startswith (lower auth_header) "bearer ") then mret (unauthenticated "missing bearer token")
  else
    let token := strip (drop_str 7 auth_header) in
    verified ← attempt (verify TenantIssuer token);
    match verified with
    | Raise _ => mret (unauthenticated "invalid token")
    | Ok principal =>
        let kind := bucket_for_path path in
        let label := normalize_endpoint_label (rq_method rq) path in
        config ← get_for_tenant (pr_tenant_id principal);
        let '(sustained, burst) := limits config kind in
        t ← now;
        outcome ← attempt (consult (bucket_key (pr_tenant_id principal) kind) (t / 1000)
                             sustained burst);
        decide (pr_tenant_id principal) label call_next outcome
    end.
End Middleware.

(** * Keys *)
(** Bucket keys separate tenants and buckets, whatever characters the tenant
    identifier contains. *)
Theorem bucket_key_injective (t t' path path' : string) :
  bucket_key t (bucket_for_path path) = bucket_key t' (bucket_for_path path') →
  t = t' ∧ bucket_for_path path = bucket_for_path path'.
Proof.
  unfold bucket_key, bucket_for_path. intros E. apply String.app_inj in E.
  destruct (_ || _), (_ || _);
    try (apply (f_equal slast) in E; rewrite !slast_app in E by done; discriminate E);
    by apply str_app_inj_r in E as ->.
Qed.

Lemma bucket_key_injective_witness :
  bucket_key "a:b" (bucket_for_path "/api/v1/findings") =
  bucket_key "a:b" (bucket_for_path "/api/v1/findings") ∧
  ("a:b" = "a:b" ∧
   bucket_for_path "/api/v1/findings" = bucket_for_path "/api/v1/findings").
Proof. split; [reflexivity|]. by apply bucket_key_injective. Defined.

(** * The Redis call *)
Section Calls.
Context `{Env} `{JwtLib}.

Lemma command_ok {A} (f : Z → redis → result string A * redis) w :
  redis_fault (w_redis_n w) = None →
  command f w =
    (match (f (redis_clock (w_redis_n w)) (w_redis w)).1 with
     | Ok x => Ok x | Raise m => Raise (ERedis m) end,
     upd_redis (λ _, (f (redis_clock (w_redis_n w)) (w_redis w)).2) (upd_redis_n S w)).
Proof.
  intros Hf. unfold command. run_prog. rewrite Hf. simpl.
  by destruct (f (redis_clock (w_redis_n w)) (w_redis w)) as [[x|m] r'].
Qed.

Lemma command_fault {A} (f : Z → redis → result string A * redis) w m :
  redis_fault (w_redis_n w) = Some m → command f w = (Raise (ERedis m), upd_redis_n S w).
Proof. intros Hf. unfold command. run_prog. by rewrite Hf. Qed.

(** The bucket a key holds, when it holds none or one. *)
Definition bucket_of (r : redis) (key : string) : option (option entry) :=
  match r_data r !! key with
  | None => Some None
  | Some (RHash e) => Some (Some e)
  | Some (RStr _ _) => None
  end.

Lemma bucket_of_at t r key e : bucket_of r key = Some e → bucket_at t r key = Some e.
Proof. unfold bucket_of, bucket_at. repeat case_match; naive_solver. Qed.

Lemma bucket_of_store key e r : bucket_of (store_bucket key e r) key = Some e.
Proof.
  unfold bucket_of, store_bucket. destruct e; simpl.
  - by rewrite lookup_insert_eq.
  - by rewrite lookup_delete_eq.
Qed.

Lemma evalsha_loaded key t r b w e :
  redis_fault (w_redis_n w) = None → r_scripts (w_redis w) = true →
  bucket_of (w_redis w) key = Some e →
  let n := redis_clock (w_redis_n w) in
  evalsha key t r b w =
    (Ok (token_bucket_body n t r b (live n e)).1,
     upd_redis (store_bucket key (token_bucket_body n t r b (live n e)).2) (upd_redis_n S w)).
Proof.
  intros Hf Hs Hb. unfold evalsha. rewrite command_ok by done. rewrite Hs.
  rewrite (bucket_of_at _ _ _ _ Hb). simpl.
  by destruct (token_bucket_body _ _ _ _ _).
Qed.

Lemma evalsha_missing key t r b w :
  redis_fault (w_redis_n w) = None → r_scripts (w_redis w) = false →
  evalsha key t r b w = (Raise (ERedis noscript), upd_redis (λ r, r) (upd_redis_n S w)).
Proof. intros Hf Hs. unfold evalsha. rewrite command_ok by done. by rewrite Hs. Qed.

Lemma consult_loaded key t r b w e s :
  w_redis_client w = true → w_lua_sha w = Some s →
  redis_fault (w_redis_n w) = None → r_scripts (w_redis w) = true →
  bucket_of (w_redis w) key = Some e →
  let n := redis_clock (w_redis_n w) in
  consult key t r b w =
    (Ok (token_bucket_body n t r b (live n e)).1,
     upd_redis (store_bucket key (token_bucket_body n t r b (live n e)).2) (upd_redis_n S w)).
Proof.
  intros Hc Hl Hf Hs Hb. unfold consult, ensure_lua_loaded, with_client. run_prog.
  rewrite Hl. simpl. rewrite Hc. by rewrite (evalsha_loaded _ _ _ _ _ e).
Qed.
End Calls.

(** A Redis restart is invisible to callers: when the script cache is gone
    and the commands succeed, the middleware reloads the script and the request
    gets the very decision the loaded script would have given on the bucket. *)
Theorem noscript_recovery `{Env} (key : string) (t r b : Z) (w : world) (e : option entry)
    (s : string) :
  w_redis_client w = true → w_lua_sha w = Some s → r_scripts (w_redis w) = false →
  (∀ n, redis_fault n = None) → bucket_of (w_redis w) key = Some e →
  let n := redis_clock (S (S (w_redis_n w))) in
  ∃ w', consult key t r b w = (Ok (token_bucket_body n t r b (live n e)).1, w') ∧
        r_scripts (w_redis w') = true ∧ w_lua_sha w' = Some LUA_SHA ∧
        bucket_of (w_redis w') key = Some (token_bucket_body n t r b (live n e)).2.
Proof.
  intros Hc Hl Hs Hf Hb n. unfold consult, ensure_lua_loaded, with_client. run_prog.
  rewrite Hl. simpl. rewrite Hc, evalsha_missing by done. simpl.
  replace (is_noscript (ERedis noscript)) with true by (vm_compute; reflexivity). simpl.
  rewrite Hc. unfold script_load. rewrite command_ok by apply Hf. simpl. rewrite Hc.
  rewrite (evalsha_loaded _ _ _ _ _ e) by done. simpl. eexists. split; [reflexivity|].
  unfold store_bucket, bucket_of. simpl. fold n.
  destruct (token_bucket_body n t r b (live n e)) as [? [e'|]]; simpl.
  - by rewrite lookup_insert_eq.
  - by rewrite lookup_delete_eq.
Qed.

Definition restarted : world := upd_lua_sha (λ _, Some LUA_SHA) Samples.start.
Lemma noscript_recovery_witness :
  ∃ w', consult (H := Samples.env) (bucket_key "acme" "inbound") 1700000000000 2000 4000 restarted
        = (Ok (mkReply 1 3999 0), w') ∧ r_scripts (w_redis w') = true.
Proof.
  destruct (noscript_recovery (H := Samples.env) (bucket_key "acme" "inbound") 1700000000000
    2000 4000 restarted None LUA_SHA) as (w' & E & Hs & _); try done.
  exists w'. split; [exact E | exact Hs].
Defined.

(** The script's hint against the time a token takes. *)
Lemma hint_bounds r : 1 ≤ r → let hint := Z.max 1 (1000 / r) in
  (hint - 1) * r < 1000 ∧ 1000 ≤ (hint + 1) * r ∧ ((r | 1000) ∨ 1000 ≤ r → 1000 ≤ hint * r) ∧
  1000 ≤ 1000 * retry_after_seconds hint * r.
Proof.
  intros Hr hint. pose proof (Z.div_mod 1000 r ltac:(lia)) as Hd.
  pose proof (Z.mod_pos_bound 1000 r ltac:(lia)) as Hm. unfold hint in *.
  assert (0 ≤ 1000 / r) by (apply Z.div_pos; lia).
  assert (1 ≤ retry_after_seconds (Z.max 1 (1000 / r))) by (unfold retry_after_seconds; lia).
  split_and!; [nia|nia| |nia]. intros [[k Hk]|Hbig]; [|nia].
  assert (1000 / r = k) as -> by (rewrite Hk; apply Z.div_mul; lia). nia.
Qed.

(** C23. What a refusal promises, for a positive rate and burst and a bucket whose tokens
    are not negative, which is how the script keeps it, the caller's clock being Redis's.
    A refused caller found its bucket empty, and the call leaves the bucket as it was.
    From then on, with no other call on the bucket in between, a call is admitted exactly
    when the key has expired or a token's worth of time has passed since the last refill.
    The [retry_after_ms] of the script is tight: before that many milliseconds from the
    last refill a live bucket refuses; and, unless the clock had gone back behind the last
    refill, one millisecond more than it from the refusal is enough, itself when the rate
    divides 1000 or is at least 1000.  The seconds of the [Retry-After] header, which round
    it up, are always enough, under the same condition on the clock. *)
Theorem refusal_until_refill (r b now_ms : Z) (e : option entry) :
  1 ≤ r → 1 ≤ b → stocked e → allowed (call r b e now_ms).1 = false →
  let hint := retry_after_ms (call r b e now_ms).1 in
  ∃ e', live now_ms e = Some e' ∧ (call r b e now_ms).2 = Some e' ∧ tokens e' = 0 ∧
    ∀ later, let again := allowed (call r b (Some e') later).1 in
      again = refilled r later e' ∧
      (live later (Some e') = Some e' → later < last_refill_ms e' + hint → again = false) ∧
      (last_refill_ms e' ≤ now_ms →
        (now_ms + hint + 1 ≤ later → again = true) ∧
        ((r | 1000) ∨ 1000 ≤ r → now_ms + hint ≤ later → again = true) ∧
        (now_ms + 1000 * retry_after_seconds hint ≤ later → again = true)).
Proof.
  intros Hr Hb Hok Hdeny hint.
  destruct (denied_state r b e now_ms) as (l & x & Hl & _ & He' & Hh); try done; [lia|].
  exists (mkEntry 0 l x). split_and!; [done..|]. intros later again.
  assert (again = refilled r later (mkEntry 0 l x)) as -> by (apply empty_call; lia).
  destruct (hint_bounds r Hr) as (Hlow & Hup & Hex & Hs). fold hint in Hh. rewrite <- Hh in *.
  unfold refilled. cbn [expire_at last_refill_ms]. split_and!; [done| |].
  - intros Hlive Hlt. apply orb_false_iff. split; [|apply Z.leb_gt; nia].
    unfold live in Hlive. cbn [expire_at] in Hlive. destruct x as [x|]; [|done]. by destruct (x <? later).
  - intros Hle. split_and!; [intros Hn|intros Hd%Hex Hn|intros Hn]; apply orb_true_iff; right;
      apply Z.leb_le; nia.
Qed.

Lemma refusal_until_refill_witness :
  let e := (call 3 1 None 0).2 in
  allowed (call 3 1 e 0).1 = false ∧ retry_after_ms (call 3 1 e 0).1 = 333 ∧
  ∃ e', live 0 e = Some e' ∧ (call 3 1 e 0).2 = Some e' ∧
    allowed (call 3 1 (Some e') 332).1 = false ∧ allowed (call 3 1 (Some e') 334).1 = true ∧
    allowed (call 3 1 (Some e') 1000).1 = true.
Proof.
  intros e. split; [vm_compute; reflexivity|]. split; [vm_compute; reflexivity|].
  destruct (refusal_until_refill 3 1 0 e) as (e' & Hl & Hc & _ & H); try lia; try (vm_compute; reflexivity).
  - vm_compute. discriminate.
  - exists e'. split; [exact Hl|]. split; [exact Hc|].
    assert (Some e' = Some (mkEntry 0 0 (Some 666))) as E by (rewrite <- Hc; vm_compute; reflexivity).
    injection E as ->.
    split; [apply (proj1 (proj2 (H 332))); vm_compute; reflexivity|].
    destruct (H 334) as (_ & _ & A). destruct A as (A & _); [vm_compute; discriminate|].
    destruct (H 1000) as (_ & _ & B). destruct B as (_ & _ & B); [vm_compute; discriminate|].
    split; [apply A; vm_compute; discriminate|apply B; vm_compute; discriminate].
Defined.

(** The hint rounds down: at three requests a second, a caller refused right after a
    refill that comes back after the 333 milliseconds advertised by the script is refused
    again. *)
Example retry_hint_one_short :
  let e := (call 3 1 None 0).2 in
  allowed (call 3 1 e 0).1 = false ∧ retry_after_ms (call 3 1 e 0).1 = 333 ∧
  allowed (call 3 1 (call 3 1 e 0).2 333).1 = false.
Proof. vm_compute. done. Qed.

(** * A clock that went back *)
(** A caller's clock set back by a minute leaves an emptied bucket refusing for the minute
    and the time of a token, far beyond the second the header advertises. *)
Example backwards_clock_refuses :
  let e := (call 10 1 None 60000).2 in
  allowed (call 10 1 e 0).1 = false ∧ retry_after_seconds (retry_after_ms (call 10 1 e 0).1) = 1 ∧
  allowed (call 10 1 (call 10 1 e 0).2 60099).1 = false ∧
  allowed (call 10 1 (call 10 1 e 0).2 60100).1 = true.
Proof. vm_compute. done. Qed.

(** * A run of requests on one bucket *)
Section Runs.
Context `{Env}.

(** Consecutive limiter calls for a key, with the caller's times. *)
Fixpoint consult_many (key : string) (r b : Z) (ts : list Z) : M (list reply) :=
  match ts with
  | [] => mret []
  | t :: ts' =>
      rep ← consult key t r b;
      reps ← consult_many key r b ts';
      mret (rep :: reps)
  end.

(** The middleware's Redis state refines the abstract bucket: call by call, it
    answers what the abstract bucket under that key answers. *)
Lemma consult_refines key r b ts w e s :
  w_redis_client w = true → w_lua_sha w = Some s → r_scripts (w_redis w) = true →
  (∀ n, redis_fault n = None) → bucket_of (w_redis w) key = Some e →
  (∀ k t, ts !! k = Some t → redis_clock (w_redis_n w + k) = t) →
  ∃ w', consult_many key r b ts w = (Ok (run_calls r b e ts).1, w') ∧
        bucket_of (w_redis w') key = Some (run_calls r b e ts).2.
Proof.
  revert w e. induction ts as [|t ts IH]; intros w e Hc Hl Hs Hf Hb Ht; [by exists w|].
  assert (redis_clock (w_redis_n w) = t) as Hn.
  { rewrite <- (Ht 0%nat t); [by rewrite Nat.add_0_r | done]. }
  simpl. unfold mbind, prog_bind. rewrite (consult_loaded _ _ _ _ _ e s) by done.
  rewrite Hn. unfold call. destruct (token_bucket_body t t r b (live t e)) as [rep e1]. simpl.
  destruct (IH (upd_redis (store_bucket key e1) (upd_redis_n S w)) e1) as (w' & E & Hb');
    try done.
  - simpl. by destruct e1.
  - simpl. apply bucket_of_store.
  - intros k t' Hk. rewrite <- (Ht (S k) t' Hk). simpl. f_equal. lia.
  - rewrite E. destruct (run_calls r b e1 ts). by exists w'.
Qed.
End Runs.

(** The deployed defaults hold end to end: over any run of requests of a
    tenant with no override, at non-decreasing times read alike by the API and
    Redis, the limiter behind the middleware admits at most 4000 + 2 per elapsed
    millisecond on the inbound bucket and 400 + 1 per five milliseconds on the
    query bucket. *)
Theorem default_limits_enforced `{Env} (tenant kind : string) (t0 : Z) (ts : list Z) (w : world)
    (s : string) :
  kind = "inbound" ∨ kind = "query" →
  w_redis_client w = true → w_lua_sha w = Some s → r_scripts (w_redis w) = true →
  (∀ n, redis_fault n = None) → bucket_of (w_redis w) (bucket_key tenant kind) = Some None →
  (∀ k t, (t0 :: ts) !! k = Some t → redis_clock (w_redis_n w + k) = t) →
  StronglySorted Z.le (t0 :: ts) →
  let '(r, b) := limits (default_config tenant) kind in
  ∃ reps w', consult_many (bucket_key tenant kind) r b (t0 :: ts) w = (Ok reps, w') ∧
    length reps = S (length ts) ∧
    1000 * Z.of_nat (length (List.filter allowed reps)) ≤ 1000 * b + r * (List.last ts t0 - t0).
Proof.
  intros Hk Hc Hl Hs Hf Hb Ht Hsort.
  assert (∀ r b e l, length (run_calls r b e l).1 = length l) as Hlen.
  { intros r b e l. revert e. induction l as [|x l IH]; intros e; simpl; [done|].
    destruct (call r b e x) as [rep e1]. specialize (IH e1).
    destruct (run_calls r b e1 l). simpl in *. lia. }
  destruct (limits (default_config tenant) kind) as [r b] eqn:E.
  destruct (consult_refines (bucket_key tenant kind) r b (t0 :: ts) w None s)
    as (w' & Er & _); try done.
  eexists _, w'. split; [exact Er|]. split; [apply Hlen|].
  destruct Hk as [-> | ->]; injection E as <- <-; apply exact_admission_bound; try lia; try done.
  - right. by exists 2.
  - left. by exists 5.
Qed.

Definition warmed : world :=
  upd_redis (upd_scripts (λ _, true)) (upd_lua_sha (λ _, Some LUA_SHA) Samples.start).
Lemma default_limits_enforced_witness :
  ∃ reps w', consult_many (H := Samples.env) (bucket_key "acme" "query") 200 400
      [1700000000000; 1700000000001] warmed = (Ok reps, w') ∧
    1000 * Z.of_nat (length (List.filter allowed reps)) ≤ 1000 * 400 + 200 * 1.
Proof.
  destruct (default_limits_enforced (H := Samples.env) "acme" "query" 1700000000000
    [1700000000001] warmed LUA_SHA) as (reps & w' & E & _ & Hb); try reflexivity.
  - by right.
  - intros [|[|k]] t; simpl; naive_solver.
  - repeat constructor; lia.
  - exists reps, w'. split; [exact E | exact Hb].
Defined.

#[local] Arguments limits : simpl never.
#[local] Arguments drop_str : simpl never.

(** * The gate *)
Section Gate.
Context `{Env} `{JwtLib}.

(** The Redis call changes Redis, its command count and the cached digest only. *)
Lemma consult_outside {B} (f : world → B) key t r b :
  (∀ g w, f (upd_redis g w) = f w) → (∀ g w, f (upd_redis_n g w) = f w) →
  (∀ g w, f (upd_lua_sha g w) = f w) → stable f (consult key t r b).
Proof.
  intros Hr Hn Hl.
  assert (∀ A (g : Z → redis → result string A * redis), stable f (command g)) as Hcmd.
  { intros. by apply command_outside. }
  unfold consult, ensure_lua_loaded, with_client, evalsha, script_load.
  repeat first [apply Hcmd | apply stable_modify; intros; apply Hl | effects_step].
Qed.

Lemma consult_down key t r b w : (∀ n, ∃ m, redis_fault n = Some m) →
  ∃ e w', consult key t r b w = (Raise e, w').
Proof.
  intros Hf. assert (∀ A (g : Z → redis → result string A * redis) w,
    ∃ e w', with_client (command g) w = (Raise e, w')) as Hcmd.
  { intros A g w'. unfold with_client. run_prog. destruct (w_redis_client w'); [|by eauto].
    destruct (Hf (w_redis_n w')) as [m Hm]. rewrite (command_fault _ _ _ Hm). by eauto. }
  assert (∀ w, ∃ e w', with_client (evalsha key t r b) w = (Raise e, w')) as Hev
    by (intros; apply Hcmd).
  assert (∀ w, ∃ e w', with_client script_load w = (Raise e, w')) as Hsl by (intros; apply Hcmd).
  unfold consult, ensure_lua_loaded. run_prog. destruct (w_lua_sha w) as [s|]; simpl.
  - destruct (Hev w) as (e & w1 & ->). destruct (is_noscript e); [|by eauto]. simpl.
    destruct (Hsl (upd_lua_sha (λ _, None) w1)) as (e' & w2 & ->). by eauto.
  - destruct (Hsl w) as (e & w1 & ->). by eauto.
Qed.

(** The bearer token a request presents. *)
Definition bearer_token (rq : request) : option string :=
  let h := default "" (header "authorization" rq) in
  if startswith (lower h) "bearer " then Some (strip (drop_str 7 h)) else None.

(** A response the middleware makes itself. *)
Definition refusal (r : result exn response) : Prop :=
  match r with
  | Ok rs => rs_status rs = 401 ∨ rs_status rs = 429 ∨ rs_status rs = 503
  | Raise _ => True
  end.
End Gate.

(** C11. The middleware is a gate: a request on a rate-limited path either is
    handed to the application, once, after Redis answered [allow] for the bucket
    of the tenant its verified token names, or is refused (401, 429, 503 or an
    internal error) with the application never run. *)
Theorem dispatch_gate `{Env} `{JwtLib} (rq : request) (w : world) :
  is_exempt (rq_path rq) = false →
  (∃ tok p w0 key t r b rep w1 w2,
     bearer_token rq = Some tok ∧ verify TenantIssuer tok w = (Ok p, w0) ∧
     key = bucket_key (pr_tenant_id p) (bucket_for_path (rq_path rq)) ∧
     consult key t r b w1 = (Ok rep, w2) ∧ decision rep = 1 ∧
     ∀ next, dispatch rq next w =
       next (upd_metrics (λ l, l ++ [MInc "ratelimit_decision_total"
         [pr_tenant_id p; normalize_endpoint_label (rq_method rq) (rq_path rq); "allow"]]) w2)) ∨
  (∃ r w', refusal r ∧ ∀ next, dispatch rq next w = (r, w')).
Proof.
  intros Hex. unfold dispatch. rewrite Hex.
  unfold bearer_token. destruct (startswith _ "bearer ") eqn:Eb; simpl.
  2: { right. eexists _, _. split; [|intros; reflexivity]. simpl. by left. }
  unfold mbind, prog_bind, attempt. simpl.
  destruct (verify TenantIssuer _ w) as [[p|e] w0] eqn:Ev; simpl.
  2: { right. eexists _, _. split; [|intros; reflexivity]. simpl. by left. }
  destruct (get_for_tenant (pr_tenant_id p) w0) as [[cfg|e] w1] eqn:Eg.
  2: { right. eexists _, _. split; [|intros; reflexivity]. done. }
  destruct (limits cfg (bucket_for_path (rq_path rq))) as [r b] eqn:El. unfold now. run_prog.
  match goal with |- context [consult ?k ?t ?r ?b ?w] =>
    destruct (consult k t r b w) as [[rep|e] w2] eqn:Ec end; simpl.
  2: { right. eexists _, _. split; [|intros; reflexivity]. simpl. by right; right. }
  destruct (Z.eqb_spec (decision rep) 1) as [Hd|Hd].
  - left. eexists _, p, w0, _, _, _, _, rep, _, w2.
    split; [done|]. split; [exact Ev|]. split; [done|]. split; [exact Ec|]. split; [exact Hd|].
    intros next. reflexivity.
  - right. eexists _, _. split; [|intros; reflexivity]. simpl. by right; left.
Qed.

Definition sample_request : request :=
  Request "POST" "/api/v1/findings" [("authorization", "Bearer tok")] None (Ok (JObj [])).
Lemma dispatch_gate_witness :
  (∃ tok p w0 key t r b rep w1 w2,
     bearer_token sample_request = Some tok ∧
     verify (H := Samples.env) TenantIssuer tok Samples.start = (Ok p, w0) ∧
     key = bucket_key (pr_tenant_id p) "inbound" ∧
     consult (H := Samples.env) key t r b w1 = (Ok rep, w2) ∧ decision rep = 1 ∧
     ∀ next, dispatch (H := Samples.env) sample_request next Samples.start =
       next (upd_metrics (λ l, l ++ [MInc "ratelimit_decision_total"
         [pr_tenant_id p; "POST /api/:id/findings"; "allow"]]) w2)) ∨
  (∃ r w', refusal r ∧
     ∀ next, dispatch (H := Samples.env) sample_request next Samples.start = (r, w')).
Proof. apply (dispatch_gate (H := Samples.env) sample_request Samples.start). reflexivity. Defined.

(** Authentication comes first: without a verifiable bearer token the answer
    is 401 and neither Redis, the database, the configuration cache nor any
    counter is touched. *)
Theorem dispatch_unauthenticated `{Env} `{JwtLib} (rq : request) (next : M response) (w : world) :
  is_exempt (rq_path rq) = false →
  (∀ tok, bearer_token rq = Some tok → ∃ e w0, verify TenantIssuer tok w = (Raise e, w0)) →
  ∃ rs w', dispatch rq next w = (Ok rs, w') ∧ rs_status rs = 401 ∧
    w_metrics w' = w_metrics w ∧ w_redis w' = w_redis w ∧ w_redis_n w' = w_redis_n w ∧
    w_db w' = w_db w ∧ w_cfg_cache w' = w_cfg_cache w ∧ w_tasks w' = w_tasks w.
Proof.
  intros Hex Hv. unfold dispatch, bearer_token in *. rewrite Hex.
  destruct (startswith _ "bearer ") eqn:Eb; simpl.
  2: { eexists _, w. by split_and!. }
  destruct (Hv _ eq_refl) as (e & w0 & E). unfold mbind, prog_bind, attempt. rewrite E. simpl.
  eexists _, w0. split; [reflexivity|]. split; [done|].
  assert (w0 = (verify TenantIssuer (strip (drop_str 7 (default "" (header "authorization" rq)))) w).2)
    as -> by (by rewrite E).
  split_and!; by apply verify_outside.
Qed.

Lemma dispatch_unauthenticated_witness :
  let rq := Request "GET" "/api/v1/policies/p1" [("authorization", "Bearer bad")] None (Ok JNull) in
  ∃ rs w', dispatch (H := Samples.env) rq (mret unavailable) Samples.start = (Ok rs, w') ∧
    rs_status rs = 401 ∧ w_metrics w' = [].
Proof.
  intros rq. destruct (dispatch_unauthenticated (H := Samples.env) rq (mret unavailable)
    Samples.start) as (rs & w' & E & Hs & Hm & _); [reflexivity| |].
  - intros tok [= <-]. eexists _, _. vm_compute. reflexivity.
  - exists rs, w'. split; [exact E|]. split; [exact Hs | exact Hm].
Defined.

(** The limiter fails closed: while every Redis command fails, an
    authenticated request is answered 503 with [Retry-After: 1], the application
    is not run, only the unavailability counter moves, and the tables are as
    before. *)
Theorem dispatch_fails_closed `{Env} `{JwtLib} (rq : request) (next : M response) (tok : string)
    (p : Principal) (w w0 : world) :
  is_exempt (rq_path rq) = false → bearer_token rq = Some tok →
  verify TenantIssuer tok w = (Ok p, w0) → w_pool w = true → w_redis_client w = true →
  (∀ n, ∃ m, redis_fault n = Some m) →
  ∃ w', dispatch rq next w = (Ok unavailable, w') ∧ w_db w' = w_db w ∧
    w_metrics w' = w_metrics w ++ [MInc "ratelimit_redis_unavailable_total"
      [normalize_endpoint_label (rq_method rq) (rq_path rq)]].
Proof.
  intros Hex Hb Hv Hp Hc Hf.
  assert (∀ A (f : world → A) (_ : ∀ g w, f (upd_verifier g w) = f w)
            (_ : ∀ g w, f (upd_clock_n g w) = f w), f w0 = f w) as Hsame.
  { intros A f H1 H2. pose proof (verify_outside f TenantIssuer tok H1 H2 w) as Hs.
    by rewrite Hv in Hs. }
  unfold dispatch, bearer_token in *. rewrite Hex. destruct (startswith _ "bearer "); [|done].
  simplify_eq. simpl. unfold mbind, prog_bind, attempt. rewrite Hv.
  assert (∃ cfg w1, get_for_tenant (pr_tenant_id p) w0 = (Ok cfg, w1)) as (cfg & w1 & Eg).
  { destruct (get_for_tenant_cases (pr_tenant_id p) w0)
      as [(x & c & _ & _ & E)|[(n & d & w1 & E & _)|(e & w1 & _ & _ & Hpf & _)]]; [by eauto..|].
    rewrite (Hsame _ w_pool) in Hpf; [congruence|done..]. }
  pose proof (get_for_tenant_outside w_db (pr_tenant_id p)) as Hd1.
  pose proof (get_for_tenant_outside w_metrics (pr_tenant_id p)) as Hm1.
  specialize (Hd1 ltac:(done) ltac:(done) w0). specialize (Hm1 ltac:(done) ltac:(done) w0).
  rewrite Eg in Hd1, Hm1 |- *.
  unfold now. run_prog.
  match goal with |- context [consult ?k ?t ?r ?b _] =>
    set (key := k); set (t0 := t); set (r0 := r); set (b0 := b) end.
  destruct (consult_down key t0 r0 b0 (upd_clock_n S w1) Hf) as (e & w2 & Ec).
  pose proof (consult_outside w_db key t0 r0 b0) as Hd2.
  pose proof (consult_outside w_metrics key t0 r0 b0) as Hm2.
  specialize (Hd2 ltac:(done) ltac:(done) ltac:(done) (upd_clock_n S w1)).
  specialize (Hm2 ltac:(done) ltac:(done) ltac:(done) (upd_clock_n S w1)).
  rewrite Ec in Hd2, Hm2 |- *. simpl in *. eexists. split; [reflexivity|]. simpl.
  rewrite Hd2, Hd1, Hm2, Hm1. by rewrite (Hsame _ w_db), (Hsame _ w_metrics).
Qed.

(** The sample environment with Redis down. *)
Definition redis_down : Env := {|
  clock := @clock Samples.env; monotonic := @monotonic Samples.env; fresh := @fresh Samples.env;
  urandom := @urandom Samples.env; redis_clock := @redis_clock Samples.env;
  redis_fault := λ _, Some "Connection refused"; float_conv := @float_conv Samples.env;
  pg_text := @pg_text Samples.env; jwt_text := @jwt_text Samples.env |}.
Lemma dispatch_fails_closed_witness :
  ∃ w', dispatch (H := redis_down) sample_request (mret unavailable) Samples.start
        = (Ok unavailable, w') ∧
    w_metrics w' = [MInc "ratelimit_redis_unavailable_total" ["POST /api/:id/findings"]].
Proof.
  destruct (dispatch_fails_closed (H := redis_down) sample_request (mret unavailable) "tok"
    {| pr_tenant_id := "acme"; pr_subject := "client-7"; pr_scopes := ["findings:write"];
       pr_token_id := "" |} Samples.start
    (verify (H := redis_down) TenantIssuer "tok" Samples.start).2)
    as (w' & E & _ & Hm); try reflexivity.
  - intros n. by eexists.
  - exists w'. split; [exact E | exact Hm].
Defined.

(** * Path rules *)
(** The exemption for the break-glass surface is a bare prefix test: every
    tenant lookup [GET /api/v1/audit/<id>] whose correlation id begins with
    [break-glass] bypasses authentication here and the limiter, with no Redis
    call and no decision counted. *)
Theorem break_glass_prefix_exempt `{Env} `{JwtLib} (suffix : string) (rq : request)
    (next : M response) (w : world) :
  rq_path rq = "/api/v1/audit/break-glass" +:+ suffix → dispatch rq next w = next w.
Proof.
  intros Hp. unfold dispatch. assert (is_exempt (rq_path rq) = true) as ->; [|done].
  rewrite Hp. unfold is_exempt. destruct (str_eqb _ _) eqn:E; [|].
  - apply str_eqb_eq in E. discriminate E.
  - apply existsb_exists. exists "/api/v1/audit/break-glass". split.
    + do 5 right. by left.
    + by apply startswith_app.
Qed.

Lemma break_glass_prefix_exempt_witness :
  dispatch (H := Samples.env)
    (Request "GET" "/api/v1/audit/break-glass-42" [] None (Ok JNull)) (mret unavailable)
    Samples.start = (Ok unavailable, Samples.start).
Proof.
  rewrite (break_glass_prefix_exempt (H := Samples.env) "-42" _ (mret unavailable) Samples.start);
    reflexivity.
Defined.

(** Bucket selection looks at the path prefix only: outcome reads
    ([GET /api/v1/findings/<id>/outcome]) spend the inbound bucket, not the query
    bucket the module documents for every endpoint but [POST /api/v1/findings]. *)
Theorem outcome_reads_use_inbound (finding_id : string) :
  bucket_for_path ("/api/v1/findings/" +:+ finding_id +:+ "/outcome") = "inbound".
Proof.
  unfold bucket_for_path.
  change ("/api/v1/findings/" +:+ finding_id +:+ "/outcome")
    with ("/api/v1/findings" +:+ ("/" +:+ finding_id +:+ "/outcome")).
  assert (existsb (startswith ("/api/v1/findings" +:+ ("/" +:+ finding_id +:+ "/outcome")))
    INBOUND_PATHS = true) as ->; [|by rewrite orb_true_r].
  apply existsb_exists. exists "/api/v1/findings". split; [by left | by apply startswith_app].
Qed.
