(* ===== verification/Validator.v ===== *)
(** [validator/]: the VSS vocabulary lookup, the data-governance check and their
    composition. *)
From S2P Require Import Prelude PyStr PyDict Json JsonText Errors Models World Samples.
Local Open Scope Z_scope.

(** * [validator/vss.py] *)
(** [difflib.get_close_matches(name, names, n=1, cutoff=0.85)]. *)
Class Difflib := close_matches : string → list string → list string.

Record VSSValidator := { vss_signals : list (string * json) }.
(** [VSSValidator.from_path], on the parsed document. *)
Definition vss_from_doc (doc : json) : VSSValidator :=
  {| vss_signals := match doc with JObj o => fields (default (JObj []) (dget "signals" o)) | _ => [] end |}.
Definition all_names (v : VSSValidator) : list string := dkeys (vss_signals v).
Definition is_valid (v : VSSValidator) (name : string) : bool := dmem name (vss_signals v).
Definition metadata (v : VSSValidator) (name : string) : option json := dget name (vss_signals v).

Record SignalValidationResult := {
  sv_ok : bool; sv_name : string; sv_code : option string; sv_suggestion : option string }.

Section Vss.
Context `{Difflib}.
Definition closest (v : VSSValidator) (name : string) : option string :=
  if nonempty name then head (close_matches name (all_names v)) else None.
Definition validate_signal (v : VSSValidator) (name : string) : SignalValidationResult :=
  if dmem name (vss_signals v)
  then {| sv_ok := true; sv_name := name; sv_code := None; sv_suggestion := None |}
  else {| sv_ok := false; sv_name := name; sv_code := Some "VSS_INVALID_SIGNAL";
          sv_suggestion := closest v name |}.
End Vss.

(** * [validator/governance.py] *)
Record DataGovernanceChecker := { branches : list string; prefix_match : bool }.
Definition new_checker (bs : list string) (pm : bool) : DataGovernanceChecker :=
  {| branches := sort_strs bs; prefix_match := pm |}.
(** [DataGovernanceChecker.from_path], on the parsed document. *)
Definition checker_from_doc `{PyFloat} (doc : json) : DataGovernanceChecker :=
  let categories := fields (jget_or "categories" (JObj []) doc) in
  let bs := concat ((λ c, py_str <$> items (jget_or "branches" (JArr []) c.2)) <$> categories) in
  new_checker bs (truthy (jget_or "prefix_match" (JBool true) doc)).

Definition is_pii (g : DataGovernanceChecker) (name : string) : bool :=
  bool_decide (name ∈ branches g) ||
  (prefix_match g && existsb (λ b, startswith name (b +:+ ".")) (branches g)).

Record GovernanceDecision := {
  gd_ok : bool; gd_code : option string; gd_flagged : list string }.
Definition evaluate_signals (g : DataGovernanceChecker) (signals : list string) (consent : bool)
    : GovernanceDecision :=
  let flagged := sorted_set (List.filter (is_pii g) signals) in
  if negb (bool_decide (flagged = [])) && negb consent
  then {| gd_ok := false; gd_code := Some "PII_CONSENT_REQUIRED"; gd_flagged := flagged |}
  else {| gd_ok := true; gd_code := None; gd_flagged := flagged |}.

(** * [validator/policy_validator.py] *)
Record ValidationError := {
  ve_code : string; ve_field : string; ve_message : string; ve_details : json }.
Record ValidationResult := {
  vr_ok : bool; vr_errors : list ValidationError; vr_suggestions : list (string * string) }.
Definition error_dict (e : ValidationError) : json :=
  JObj [("code", JStr (ve_code e)); ("field", JStr (ve_field e));
        ("message", JStr (ve_message e)); ("details", ve_details e)].
Definition to_retry_context (r : ValidationResult) : json :=
  JObj [("validation_errors", JArr (error_dict <$> vr_errors r));
        ("suggestions", JObj ((λ kv, (kv.1, JStr kv.2)) <$> vr_suggestions r))].

Record PolicyValidator := { pv_vss : VSSValidator; pv_governance : DataGovernanceChecker }.

Section Validate.
Context `{Difflib} (pv : PolicyValidator).

Definition invalid_signals (p : CollectionPolicySpec) : list string :=
  List.filter (λ n, negb (sv_ok (validate_signal (pv_vss pv) n))) (vss_name <$> p_signals p).

(** The [suggestions] dict the signal loop builds. *)
Definition suggestions (p : CollectionPolicySpec) : list (string * string) :=
  foldl (λ d n, match sv_suggestion (validate_signal (pv_vss pv) n) with
                | Some s => if nonempty s then dset n s d else d
                | None => d
                end) [] (invalid_signals p).

Definition vss_errors (p : CollectionPolicySpec) : list ValidationError :=
  match invalid_signals p with
  | [] => []
  | bad => [ {| ve_code := "VSS_INVALID_SIGNAL"; ve_field := "signals";
                ve_message := "One or more signals are not valid VSS v6.0 names.";
                ve_details := JObj [("invalid_signals", jstrs bad)] |} ]
  end.
Definition governance_errors (p : CollectionPolicySpec) : list ValidationError :=
  let d := evaluate_signals (pv_governance pv) (vss_name <$> p_signals p) (pii_consent (p_flags p)) in
  if negb (gd_ok d) then
    [ {| ve_code := default "PII_CONSENT_REQUIRED" (gd_code d); ve_field := "data_governance_flags";
         ve_message := "PII-adjacent signal selected without explicit consent.";
         ve_details := JObj [("flagged_signals", jstrs (gd_flagged d))] |} ]
  else if negb (bool_decide (gd_flagged d = [])) && negb (has_pii_signal (p_flags p)) then
    [ {| ve_code := "PII_FLAG_INCONSISTENT"; ve_field := "data_governance_flags.has_pii_signal";
         ve_message := "has_pii_signal must be true when a PII-adjacent signal is selected.";
         ve_details := JObj [("flagged_signals", jstrs (gd_flagged d))] |} ]
  else [].
Definition window_errors (p : CollectionPolicySpec) : list ValidationError :=
  if (1 <=? p_window_hours p) && (p_window_hours p <=? 168) then []
  else [ {| ve_code := "WINDOW_OUT_OF_BOUNDS"; ve_field := "collection_window_hours";
            ve_message := "collection_window_hours must be between 1 and 168 inclusive.";
            ve_details := JObj [("value", JInt (p_window_hours p))] |} ].

(** [PolicyValidator.validate]. *)
Definition validate (p : CollectionPolicySpec) : ValidationResult :=
  let errors := vss_errors p ++ governance_errors p ++ window_errors p in
  {| vr_ok := bool_decide (length errors = 0%nat); vr_errors := errors;
     vr_suggestions := suggestions p |}.
End Validate.

(** * Facts *)
Lemma is_pii_spec g n :
  is_pii g n = true ↔ n ∈ branches g ∨
    (prefix_match g = true ∧ ∃ b rest, b ∈ branches g ∧ n = b +:+ "." +:+ rest).
Proof.
  unfold is_pii. rewrite orb_true_iff, andb_true_iff, bool_decide_eq_true, existsb_exists.
  split; intros [Hn|[Hp Hb]]; [by left| |by left|]; right; split; try done.
  - destruct Hb as (b & Hin & Hs). apply startswith_spec in Hs as [rest ->].
    exists b, rest. rewrite str_app_assoc. split; [by apply list_elem_of_In | done].
  - destruct Hb as (b & rest & Hin & ->). exists b. split; [by apply list_elem_of_In|].
    rewrite <- str_app_assoc. apply startswith_app.
Qed.

Lemma flagged_nil g sigs c :
  gd_flagged (evaluate_signals g sigs c) = [] ↔ ∀ s, s ∈ sigs → is_pii g s = false.
Proof.
  assert (gd_flagged (evaluate_signals g sigs c) = sorted_set (List.filter (is_pii g) sigs)) as ->.
  { unfold evaluate_signals. by destruct (_ && _). }
  split.
  - intros E s Hs. destruct (is_pii g s) eqn:Ep; [|done]. exfalso.
    assert (s ∈ sorted_set (List.filter (is_pii g) sigs)) as Hin.
    { apply elem_of_sorted_set, list_elem_of_In, filter_In. by rewrite <- list_elem_of_In. }
    rewrite E in Hin. by apply not_elem_of_nil in Hin.
  - intros Hall. apply elem_of_nil_inv. intros s [Hin Hp]%elem_of_sorted_set%list_elem_of_In%filter_In.
    apply list_elem_of_In, Hall in Hin. congruence.
Qed.

Lemma valid_signal_iff `{Difflib} v s :
  sv_ok (validate_signal v s) = true ↔ s ∈ all_names v.
Proof.
  unfold validate_signal, all_names, dmem.
  destruct (bool_decide (is_Some (dget s (vss_signals v)))) eqn:E; simpl.
  - apply bool_decide_eq_true, not_eq_None_Some in E. rewrite dget_None in E.
    split; [intros _; by apply dec_stable | done].
  - apply bool_decide_eq_false in E. by rewrite <- eq_None_not_Some, dget_None in E.
Qed.

Lemma vss_errors_nil `{Difflib} pv p :
  length (vss_errors pv p) = 0%nat ↔
  ∀ s, s ∈ vss_name <$> p_signals p → s ∈ all_names (pv_vss pv).
Proof.
  unfold vss_errors.
  destruct (invalid_signals pv p) as [|x l] eqn:E; simpl; (split; [intros Hl | intros Hall]); try done.
  - intros s Hin. apply valid_signal_iff. destruct (sv_ok _) eqn:Eo; [done|]. exfalso.
    assert (s ∈ invalid_signals pv p) as Hx.
    { apply list_elem_of_In, filter_In. split; [by apply list_elem_of_In | by rewrite Eo]. }
    rewrite E in Hx. by apply not_elem_of_nil in Hx.
  - exfalso. assert (x ∈ invalid_signals pv p) as Hx by (rewrite E; by left).
    apply list_elem_of_In, filter_In in Hx as [Hin Hx].
    apply list_elem_of_In, Hall, valid_signal_iff in Hin. by rewrite Hin in Hx.
Qed.

Lemma gd_ok_iff g sigs c :
  gd_ok (evaluate_signals g sigs c) =
  bool_decide (gd_flagged (evaluate_signals g sigs c) = []) || c.
Proof.
  unfold evaluate_signals. set (fl := sorted_set _).
  destruct (bool_decide (fl = [])) eqn:E, c; simpl; by rewrite ?E.
Qed.

Lemma flagged_some g sigs c : gd_flagged (evaluate_signals g sigs c) ≠ [] →
  ∃ s, s ∈ sigs ∧ is_pii g s = true.
Proof.
  intros E. destruct (list_find (λ s, is_pii g s = true) sigs) as [[i s]|] eqn:El.
  - apply list_find_Some in El as (Hl & Hp & _). exists s. split; [|done].
    by eapply list_elem_of_lookup_2.
  - exfalso. apply E, flagged_nil. intros s Hs. apply list_find_None in El.
    rewrite Forall_forall in El. specialize (El s Hs). by destruct (is_pii g s).
Qed.

Lemma governance_errors_nil pv p :
  length (governance_errors pv p) = 0%nat ↔
  ((∃ s, s ∈ vss_name <$> p_signals p ∧ is_pii (pv_governance pv) s = true) →
   pii_consent (p_flags p) = true ∧ has_pii_signal (p_flags p) = true).
Proof.
  unfold governance_errors.
  pose proof (flagged_nil (pv_governance pv) (vss_name <$> p_signals p) (pii_consent (p_flags p))) as Hf.
  pose proof (flagged_some (pv_governance pv) (vss_name <$> p_signals p) (pii_consent (p_flags p))) as Hs.
  rewrite gd_ok_iff.
  destruct (bool_decide_reflect (gd_flagged (evaluate_signals (pv_governance pv)
    (vss_name <$> p_signals p) (pii_consent (p_flags p))) = [])) as [E|E]; simpl.
  - split; [|done]. intros _ (s & Hin & Hp). by rewrite (proj1 Hf E s Hin) in Hp.
  - specialize (Hs E). destruct (pii_consent (p_flags p)), (has_pii_signal (p_flags p)); simpl;
      naive_solver.
Qed.

Lemma validate_ok_spec `{Difflib} (pv : PolicyValidator) (p : CollectionPolicySpec) :
  vr_ok (validate pv p) = true ↔
  (∀ s, s ∈ vss_name <$> p_signals p → s ∈ all_names (pv_vss pv)) ∧
  ((∃ s, s ∈ vss_name <$> p_signals p ∧ is_pii (pv_governance pv) s = true) →
     pii_consent (p_flags p) = true ∧ has_pii_signal (p_flags p) = true) ∧
  1 ≤ p_window_hours p ≤ 168.
Proof.
  unfold validate. simpl. rewrite bool_decide_eq_true, !length_app.
  assert (length (window_errors p) = 0%nat ↔ 1 ≤ p_window_hours p ≤ 168) as <-.
  { unfold window_errors. zcases; split; intros; (lia || done). }
  rewrite <- vss_errors_nil, <- governance_errors_nil. lia.
Qed.

(** A signal is PII-adjacent: it is a sensitive branch, or, where the rules match by
    prefix, it lies below one. *)
Definition pii_adjacent (g : DataGovernanceChecker) (n : string) : Prop :=
  n ∈ branches g ∨ (prefix_match g = true ∧ ∃ b rest, b ∈ branches g ∧ n = b +:+ "." +:+ rest).

(** C31. A policy passes validation exactly when every signal is in the vocabulary, its
    window is within 1..168 hours, and, if a signal is a sensitive branch or (where the
    rules match by prefix) a name below one, the policy carries both consent and the PII
    flag.  Nothing else is checked: in particular no signature, which the module's
    description and the task list name. *)
Theorem validate_ok_iff `{Difflib} (pv : PolicyValidator) (p : CollectionPolicySpec) :
  vr_ok (validate pv p) = true ↔
  (∀ s, s ∈ vss_name <$> p_signals p → s ∈ all_names (pv_vss pv)) ∧
  ((∃ s, s ∈ vss_name <$> p_signals p ∧ pii_adjacent (pv_governance pv) s) →
     pii_consent (p_flags p) = true ∧ has_pii_signal (p_flags p) = true) ∧
  1 ≤ p_window_hours p ≤ 168.
Proof. rewrite validate_ok_spec. by setoid_rewrite is_pii_spec. Qed.
