(* ===== verification/VssFetch.v ===== *)
(** [scripts/fetch_vss_v6.0.py]: the script that derives the signal vocabulary of
    the validator from the published VSS tree. *)
From S2P Require Import Prelude PyStr PyDict Json JsonText Errors Models World Samples Validator.
Local Open Scope Z_scope.

Definition VSS_TAG : string := "v6.0".
Definition VSS_COMMIT_SHA : string := "20c609bf95c73b51d483fb8f81a099d1d5b73066".
Definition VSS_RELEASE_BASE : string :=
  "https://github.com/COVESA/vehicle_signal_specification/releases/download/v6.0".
Definition ASSETS : list string := ["vss.json"; "vss.csv"; "quantities.yaml"; "units.yaml"].
Definition LEAF_KINDS : list string := ["sensor"; "actuator"; "attribute"].

(** [urlopen(VSS_RELEASE_BASE + "/" + name).read()], SHA-256 and PyYAML. *)
Class VssTools := {
  urlopen : string → result string string;
  sha256_bytes : string → string;
  yaml_dump : json → string;
  yaml_load : string → option json }.

(** * The tree walk *)
Definition leaf_kind (kind : json) : bool :=
  match kind with JStr k => bool_decide (k ∈ LEAF_KINDS) | _ => false end.
(** A dict or a list cannot be looked up in a set. *)
Definition hashable (kind : json) : bool := match kind with JArr _ | JObj _ => false | _ => true end.
Definition or_none (o : option json) : json := default JNull o.
Definition leaf_record (o : list (string * json)) : json :=
  JObj [("type", or_none (dget "type" o)); ("datatype", or_none (dget "datatype" o));
        ("unit", or_none (dget "unit" o)); ("description", or_none (dget "description" o))].
Definition child_path (path child_name : string) : string :=
  if nonempty path then path +:+ "." +:+ child_name else child_name.

Section Walk.
Notation signals := (list (string * json)).
Context (walk : json → string → signals → result string signals).
(** [for child_name, child_node in children.items()]. *)
Fixpoint walk_children (path : string) (cs : list (string * json)) (out : signals)
    : result string signals :=
  match cs with
  | [] => Ok out
  | kc :: cs' => out' ← walk kc.2 (child_path path kc.1) out; walk_children path cs' out'
  end.
(** [children = node.get("children")] and the loop, when it is a dict. *)
Fixpoint walk_members (path : string) (o : list (string * json)) (out : signals)
    : result string signals :=
  match o with
  | [] => Ok out
  | kv :: o' =>
      if str_eqb "children" kv.1
      then match kv.2 with JObj cs => walk_children path cs out | _ => Ok out end
      else walk_members path o' out
  end.
End Walk.

(** [_walk_signals]; [out] is the dict it fills. *)
Fixpoint walk_signals (node : json) (path : string) (out : list (string * json)) {struct node}
    : result string (list (string * json)) :=
  match node with
  | JObj o =>
      let kind := or_none (dget "type" o) in
      if negb (hashable kind) then Raise "TypeError" else
      walk_members walk_signals path o (if leaf_kind kind then dset path (leaf_record o) out else out)
  | _ => Raise "AttributeError"
  end.

(** * [main] *)
Section Main.
Context `{PyFloat} `{VssTools}.
(** The files of the output directory; a program may raise. *)
Notation script := (prog string (list (string * string))).

Definition write (path text : string) : script unit := modify (dset path text).
Definition download (name : string) : script string := lift (urlopen (VSS_RELEASE_BASE +:+ "/" +:+ name)).
Fixpoint download_all (names : list string) : script (list (string * string)) :=
  match names with
  | [] => mret []
  | a :: names' => data ← download a; rest ← download_all names'; mret ((a, data) :: rest)
  end.
Definition manifest_text (blobs : list (string * string)) : string :=
  join (String newline "")
    (["# COVESA VSS " +:+ VSS_TAG +:+ " commit " +:+ VSS_COMMIT_SHA; "# Source: " +:+ VSS_RELEASE_BASE;
      "# Format: <sha256>  <asset>"] ++
     ((λ b, sha256_bytes b.2 +:+ "  " +:+ b.1) <$> blobs)) +:+ String newline "".
(** [tree["Vehicle"]] after [if "Vehicle" not in tree]; [None] is the exit code 2. *)
Definition vehicle_of (tree : json) : result string (option json) :=
  match tree with
  | JObj o => Ok (dget "Vehicle" o)
  | JArr l => Raise (if bool_decide (JStr "Vehicle" ∈ l) then "TypeError" else "AttributeError")
  | JStr s => Raise (if contains "Vehicle" s then "TypeError" else "AttributeError")
  | _ => Raise "TypeError"
  end.
Definition signals_doc (signals : list (string * json)) : json :=
  JObj [("version", JStr VSS_TAG); ("commit", JStr VSS_COMMIT_SHA);
        ("leaf_count", JInt (Z.of_nat (length signals))); ("signals", JObj signals)].
Definition source_doc (signals : list (string * json)) : json :=
  JObj [("tag", JStr VSS_TAG); ("commit", JStr VSS_COMMIT_SHA); ("release_url", JStr VSS_RELEASE_BASE);
        ("leaf_count", JInt (Z.of_nat (length signals))); ("assets", jstrs ASSETS)].
Definition sorted_indent2_opts : dump_opts :=
  {| sort_keys := true; item_separator := item_separator indent2_opts;
     key_separator := key_separator indent2_opts; indent := indent indent2_opts |}.

Definition main (out_dir : string) : script Z :=
  let at_ name := out_dir +:+ "/" +:+ name in
  blobs ← download_all ASSETS;
  match loads (default "" (dget "vss.json" blobs)) with
  | None => raise "JSONDecodeError"
  | Some tree =>
      v ← lift (vehicle_of tree);
      match v with
      | None => mret 2
      | Some vehicle =>
          signals ← lift (walk_signals vehicle "Vehicle" []);
          write (at_ "signals.yaml") (yaml_dump (signals_doc signals));;
          write (at_ "manifest.sha256") (manifest_text blobs);;
          write (at_ "source.json") (dumps_with sorted_indent2_opts (source_doc signals));;
          for_each blobs (λ b, write (at_ b.1) b.2);;
          mret 0
      end
  end.
End Main.

(** * The vocabulary a tree describes *)
(** [node_at t ps n]: following the child names [ps] from [t] leads to [n]. *)
Inductive node_at : json → list string → json → Prop :=
| at_root n : node_at n [] n
| at_child o cs k c ps n : dget "children" o = Some (JObj cs) → (k, c) ∈ cs → node_at c ps n →
    node_at (JObj o) (k :: ps) n.
(** The signal the path [ps] below [t] names, with its metadata. *)
Definition leaf_at (t : json) (ps : list string) (md : json) : Prop :=
  ∃ o, node_at t ps (JObj o) ∧ leaf_kind (or_none (dget "type" o)) = true ∧ md = leaf_record o.
(** Every node is a dict whose type can be looked up. *)
Definition tree_ok (t : json) : Prop :=
  ∀ ps n, node_at t ps n → ∃ o, n = JObj o ∧ hashable (or_none (dget "type" o)) = true.
Definition signal_name (path : string) (ps : list string) : string := join "." (path :: ps).

(** Induction over the nodes of a tree. *)
Lemma tree_ind (R : json → Prop) :
  (∀ j, (∀ o cs k c, j = JObj o → dget "children" o = Some (JObj cs) → (k, c) ∈ cs → R c) → R j) → ∀ j, R j.
Proof.
  intros Hstep j. enough (R j ∧ ∀ k c, (k, c) ∈ fields j → R c) as [? _] by done.
  induction j as [ | | | | |l _|o IH] using json_ind'; try (split; [apply Hstep; done|set_solver]).
  rewrite Forall_forall in IH. split.
  - apply Hstep. intros o' cs k c [= <-] Hc%dget_elem_of Hin. by apply (IH _ Hc) with k.
  - intros k c Hin. apply (IH _ Hin).
Qed.

Lemma walk_members_eq walk path o out : walk_members walk path o out =
  match dget "children" o with Some (JObj cs) => walk_children walk path cs out | _ => Ok out end.
Proof. induction o as [|[k v] o IH]; [done|]. cbn [walk_members dget fst snd]. by destruct (str_eqb "children" k). Qed.
Lemma walk_signals_eq o path out : walk_signals (JObj o) path out =
  if negb (hashable (or_none (dget "type" o))) then Raise "TypeError" else
  let out' := if leaf_kind (or_none (dget "type" o)) then dset path (leaf_record o) out else out in
  match dget "children" o with Some (JObj cs) => walk_children walk_signals path cs out' | _ => Ok out' end.
Proof. simpl. by rewrite walk_members_eq. Qed.

Lemma child_path_name path k ps : nonempty path = true →
  nonempty (child_path path k) = true ∧ signal_name (child_path path k) ps = signal_name path (k :: ps).
Proof.
  unfold child_path, signal_name. intros E. rewrite E. split; [by destruct path|].
  destruct ps; [by rewrite join_cons|]. rewrite !join_cons. by rewrite !str_app_assoc.
Qed.

(** What a walk below [path] adds to the dict: an entry for every leaf, and no others. *)
Definition adds (path : string) (found : list string → json → Prop) (out out' : list (string * json)) : Prop :=
  (∀ name md, dget name out' = Some md →
     dget name out = Some md ∨ ∃ ps, found ps md ∧ name = signal_name path ps) ∧
  (∀ name, is_Some (dget name out) → is_Some (dget name out')) ∧
  (∀ ps md, found ps md → is_Some (dget (signal_name path ps) out')) ∧
  (NoDup (dkeys out) → NoDup (dkeys out')).

Lemma adds_none path out : adds path (λ _ _, False) out out.
Proof. split_and!; naive_solver. Qed.
Lemma adds_seq path f g h out out1 out2 : adds path f out out1 → adds path g out1 out2 →
  (∀ ps md, h ps md ↔ f ps md ∨ g ps md) → adds path h out out2.
Proof.
  intros (S1 & K1 & C1 & N1) (S2 & K2 & C2 & N2) Hh. split_and!; [|by eauto| |by eauto].
  - intros name md E. apply S2 in E as [E|(ps & Hg & ->)]; [apply S1 in E as [E|(ps & Hf & ->)]|]; [by left|..];
      right; exists ps; split; try done; apply Hh; auto.
  - intros ps md [Hf|Hg]%Hh; eauto.
Qed.
Lemma adds_leaf path o out : adds path (λ ps md, ps = [] ∧ md = leaf_record o) out (dset path (leaf_record o) out).
Proof.
  split_and!.
  - intros name md E. destruct (decide (name = path)) as [->|Hne].
    + rewrite dget_dset_eq in E. injection E as <-. right. by exists [].
    + rewrite dget_dset_ne in E by done. by left.
  - intros name Hs. destruct (decide (path = name)) as [->|Hne]; [by rewrite dget_dset_eq|by rewrite dget_dset_ne].
  - intros ps md [-> ->]. unfold signal_name. simpl. by rewrite dget_dset_eq.
  - apply NoDup_dset.
Qed.
Lemma adds_child path k f out out' : nonempty path = true → adds (child_path path k) f out out' →
  adds path (λ ps md, ∃ ps', ps = k :: ps' ∧ f ps' md) out out'.
Proof.
  intros Hp (S & K & C & N). pose proof (λ ps, proj2 (child_path_name path k ps Hp)) as E. split_and!; [|done| |done].
  - intros name md [?|(ps & Hf & ->)]%S; [by left|]. right. exists (k :: ps). rewrite E. eauto.
  - intros ps md (ps' & -> & Hf). rewrite <- E. eauto.
Qed.
Lemma adds_iff path f g out out' : adds path f out out' → (∀ ps md, g ps md ↔ f ps md) → adds path g out out'.
Proof. intros A Hg. apply (adds_seq _ _ _ _ _ _ _ (adds_none path out) A). intros ps md. rewrite Hg. tauto. Qed.

Lemma leaf_at_eq o ps md : leaf_at (JObj o) ps md ↔
  (ps = [] ∧ leaf_kind (or_none (dget "type" o)) = true ∧ md = leaf_record o) ∨
  ∃ cs k c ps', dget "children" o = Some (JObj cs) ∧ (k, c) ∈ cs ∧ ps = k :: ps' ∧ leaf_at c ps' md.
Proof.
  split.
  - intros (o' & Hn & Hk & ->). inversion Hn; subst; [by left|]. right. eexists _, _, _, _. split_and!; try done.
    by exists o'.
  - intros [(-> & Hk & ->)|(cs & k & c & ps' & Hc & Hin & -> & o' & Hn & Hk & ->)].
    + exists o. split_and!; [constructor|done..].
    + exists o'. split_and!; [by econstructor|done..].
Qed.
Lemma tree_ok_eq o : tree_ok (JObj o) ↔ hashable (or_none (dget "type" o)) = true ∧
  ∀ cs k c, dget "children" o = Some (JObj cs) → (k, c) ∈ cs → tree_ok c.
Proof.
  split.
  - intros Ht. split; [destruct (Ht [] (JObj o) (at_root _)) as (? & [= <-] & ?); done|].
    intros cs k c Hc Hin ps n Hn. apply (Ht (k :: ps)). by econstructor.
  - intros [Hh Hc] ps n Hn. inversion Hn; subst; [by eexists|]. by eapply Hc.
Qed.

(** The loop over the children, given the walks of each of them. *)
Lemma walk_children_adds path cs : nonempty path = true →
  (∀ k c, (k, c) ∈ cs → ∀ path out, nonempty path = true →
    ∃ out', walk_signals c path out = Ok out' ∧ adds path (leaf_at c) out out') →
  ∀ out, ∃ out', walk_children walk_signals path cs out = Ok out' ∧
    adds path (λ ps md, ∃ k c ps', (k, c) ∈ cs ∧ ps = k :: ps' ∧ leaf_at c ps' md) out out'.
Proof.
  intros Hp. induction cs as [|[k c] cs IHcs]; intros IH out; simpl.
  - exists out. split; [done|]. apply (adds_iff _ _ _ _ _ (adds_none path out)). set_solver.
  - destruct (IH k c (list_elem_of_here _ _) (child_path path k) out) as (out2 & -> & A2); [by apply (child_path_name path k [])|].
    destruct IHcs with out2 as (out3 & E3 & A3); [intros k' c' Hin; apply (IH k'); by right|].
    exists out3. split; [done|]. apply (adds_seq _ _ _ _ _ _ _ (adds_child _ _ _ _ _ Hp A2) A3). intros ps md.
    split; [intros (k' & c' & ps' & [[= -> ->]|Hin]%elem_of_cons & -> & Hl); eauto 10|].
    intros [(ps' & -> & Hl)|(k' & c' & ps' & Hin & -> & Hl)]; eexists _, _, _; (split; [|eauto]); set_solver.
Qed.

(** On a well-formed tree the walk ends normally and adds exactly the leaves. *)
Lemma walk_adds node : ∀ path out, nonempty path = true → tree_ok node →
  ∃ out', walk_signals node path out = Ok out' ∧ adds path (leaf_at node) out out'.
Proof.
  induction node as [node IH] using tree_ind. intros path out Hp Ht.
  destruct (Ht [] node (at_root _)) as (o & -> & Hh). rewrite walk_signals_eq, Hh. cbn [negb].
  apply tree_ok_eq in Ht as [_ Hc].
  set (out1 := if leaf_kind (or_none (dget "type" o)) then dset path (leaf_record o) out else out).
  assert (adds path (λ ps md, ps = [] ∧ leaf_kind (or_none (dget "type" o)) = true ∧ md = leaf_record o) out out1) as A1.
  { subst out1. destruct (leaf_kind _); [apply (adds_iff _ _ _ _ _ (adds_leaf path o out))
      | apply (adds_iff _ _ _ _ _ (adds_none path out))]; intuition congruence. }
  destruct (dget "children" o) as [[ | | | | | |cs]|] eqn:Ec;
    try (exists out1; split; [done|]; apply (adds_iff _ _ _ _ _ A1); intros ps md; rewrite leaf_at_eq, Ec;
      split; [intros [?|(? & ? & ? & ? & [=] & _)]; done|by left]).
  destruct (walk_children_adds path cs Hp) with out1 as (out' & E & A2).
  { intros k c Hin path' out' Hp'. apply (IH o cs k); [done..|]. by apply (Hc cs k). }
  exists out'. split; [done|]. apply (adds_seq _ _ _ _ _ _ _ A1 A2). intros ps md. rewrite leaf_at_eq, Ec.
  apply or_iff_compat_l. split; [intros (? & k & c & ps' & [= <-] & ?); eauto|intros (k & c & ps' & ?); eauto 10].
Qed.

(** * The file the validator loads *)
Lemma dget_perm {V} k (l l' : list (string * V)) : NoDup (dkeys l) → l ≡ₚ l' → dget k l = dget k l'.
Proof.
  intros Hn Hp. assert (NoDup (dkeys l')) as Hn' by (unfold dkeys; rewrite <- Hp; done).
  destruct (dget k l) as [v|] eqn:E, (dget k l') as [v'|] eqn:E'; [| | |done].
  - apply dget_elem_of in E, E'. rewrite Hp in E. pose proof (key_unique l' _ _ Hn' E E' eq_refl). congruence.
  - apply dget_None in E'. apply dget_elem_of in E. rewrite Hp in E. by apply (list_elem_of_fmap_2 fst) in E.
  - apply dget_None in E. apply dget_elem_of in E'. rewrite <- Hp in E'. by apply (list_elem_of_fmap_2 fst) in E'.
Qed.
(** Sorting the keys of a document changes the values it maps them to by sorting only. *)
Lemma dget_sorted k l : NoDup (dkeys l) → dget k (fields (sort_json (JObj l))) = sort_json <$> dget k l.
Proof.
  intros Hn. rewrite sort_json_obj. simpl. rewrite <- (dget_perm k (List.map sort_value l));
    [|by rewrite sort_values_keys|by rewrite sort_members_perm].
  clear Hn. induction l as [|[k' v] l IH]; [done|]. simpl. by destruct (str_eqb k k').
Qed.

Lemma from_sorted_doc signals name : NoDup (dkeys signals) →
  dget name (vss_signals (vss_from_doc (sort_json (signals_doc signals)))) = sort_json <$> dget name signals.
Proof.
  intros Hn. rewrite <- dget_sorted by done. unfold vss_from_doc, signals_doc. rewrite sort_json_obj. simpl.
  reflexivity.
Qed.

Section Readable.
Context `{PyFloat}.
Lemma readable_dget k o : readable (JObj o) → readable (or_none (dget k o)).
Proof.
  intros [_ Ho]%readable_obj. destruct (dget k o) as [v|] eqn:E; [|done].
  rewrite Forall_forall in Ho. by apply (Ho _ (dget_elem_of _ _ _ E)).
Qed.
Lemma readable_node t ps n : node_at t ps n → readable t → readable n.
Proof.
  induction 1 as [|o cs k c ps n Hc Hin _ IH]; [done|]. intros Ho. apply IH.
  pose proof (readable_dget "children" o Ho) as Hcs. rewrite Hc in Hcs. apply readable_obj in Hcs as [_ Hcs].
  rewrite Forall_forall in Hcs. apply (Hcs _ Hin).
Qed.
Lemma readable_leaf t ps md : leaf_at t ps md → readable t → readable md.
Proof.
  intros (o & Hn & _ & ->) Ho%(readable_node _ _ _ Hn). apply readable_obj. split; [by apply (bool_decide_unpack _)|].
  repeat constructor; by apply readable_dget.
Qed.
Lemma readable_signals t signals : adds "Vehicle" (leaf_at t) [] signals → readable t → readable (signals_doc signals).
Proof.
  intros (S & _ & _ & N) Ht. apply readable_obj. split; [by apply (bool_decide_unpack _)|].
  rewrite !Forall_cons. split_and!; [done..| |by apply Forall_nil].
  apply readable_obj. split; [by apply N, NoDup_nil_2|].
  apply Forall_forall. intros [k md] Hin. destruct (dget k signals) as [md'|] eqn:E.
  - rewrite (key_unique signals _ _ (N (NoDup_nil_2)) Hin (dget_elem_of _ _ _ E) eq_refl).
    apply S in E as [E|(ps & Hl & _)]; [done|]. by eapply readable_leaf.
  - apply dget_None in E. by apply (list_elem_of_fmap_2 fst) in Hin.
Qed.
End Readable.

Section Fetch.
Context `{PyFloat} `{VssTools}.

Lemma download_all_ok blob names fs :
  (∀ a, a ∈ names → urlopen (VSS_RELEASE_BASE +:+ "/" +:+ a) = Ok (blob a)) →
  download_all names fs = (Ok ((λ a, (a, blob a)) <$> names), fs).
Proof.
  induction names as [|a names IH]; intros Hd; [done|]. cbn [download_all].
  erewrite bind_ok; [|unfold download, lift; rewrite Hd by left; reflexivity].
  erewrite bind_ok; [|apply IH; intros b Hb; apply Hd; by right]. done.
Qed.
Lemma write_others out_dir name fs (blobs : list (string * string)) : name ∉ dkeys blobs →
  ∃ fs', for_each blobs (λ b, write (out_dir +:+ "/" +:+ b.1) b.2) fs = (Ok tt, fs') ∧
    dget (out_dir +:+ "/" +:+ name) fs' = dget (out_dir +:+ "/" +:+ name) fs.
Proof.
  revert fs. induction blobs as [|[a d] blobs IH]; intros fs Hn; [by exists fs|]. cbn [for_each].
  erewrite bind_ok by reflexivity. cbn [fst snd]. destruct (IH (dset (out_dir +:+ "/" +:+ a) d fs)) as (fs' & -> & E); [set_solver|].
  exists fs'. split; [done|]. rewrite E. apply dget_dset_ne. intros Ha%String.app_inj%String.app_inj. set_solver.
Qed.

(** A run on a release whose tree is well formed ends with code 0 and writes the
    document of the tree's leaves. *)
Lemma main_writes out_dir fs blob tree vehicle :
  (∀ a, a ∈ ASSETS → urlopen (VSS_RELEASE_BASE +:+ "/" +:+ a) = Ok (blob a)) →
  loads (blob "vss.json") = Some (JObj tree) → dget "Vehicle" tree = Some vehicle → tree_ok vehicle →
  ∃ fs' signals, main out_dir fs = (Ok 0, fs') ∧ adds "Vehicle" (leaf_at vehicle) [] signals ∧
    dget (out_dir +:+ "/signals.yaml") fs' = Some (yaml_dump (signals_doc signals)).
Proof.
  intros Hd Hl Hv Ht. destruct (walk_adds vehicle "Vehicle" []) as (signals & Ew & A); [done..|].
  unfold main. erewrite bind_ok; [|by apply download_all_ok].
  change (default "" (dget "vss.json" _)) with (blob "vss.json"). rewrite Hl.
  erewrite bind_ok by reflexivity. rewrite Hv. erewrite bind_ok; [|unfold lift; rewrite Ew; reflexivity].
  do 3 (erewrite bind_ok by reflexivity).
  match goal with |- context [for_each ?bs _ ;; _] => match goal with |- context [(_ ;; _) ?fs3] =>
    destruct (write_others out_dir "signals.yaml" fs3 bs) as (fs' & Ef & Eg); [set_solver|] end end.
  exists fs', signals. erewrite bind_ok by exact Ef. split_and!; [done|done|].
  change (out_dir +:+ "/signals.yaml") with (out_dir +:+ "/" +:+ "signals.yaml"). rewrite Eg.
  rewrite !dget_dset_ne by (intros Ha%String.app_inj; done). apply dget_dset_eq.
Qed.
End Fetch.

(** C33. On a release whose assets can be downloaded and whose tree is well formed, the
    script ends with exit code 0, and a validator that loads the [signals.yaml] it
    writes accepts exactly the dotted paths of the tree's sensors, actuators and
    attributes; the metadata it has for a name is that of such a leaf. *)
Theorem fetched_vocabulary `{PyFloat} `{VssTools} `{Difflib} (out_dir : string) (fs : list (string * string))
    (blob : string → string) (tree : list (string * json)) (vehicle : json) :
  (∀ j, readable j → yaml_load (yaml_dump j) = Some (sort_json j)) →
  (∀ a, a ∈ ASSETS → urlopen (VSS_RELEASE_BASE +:+ "/" +:+ a) = Ok (blob a)) →
  loads (blob "vss.json") = Some (JObj tree) → readable (JObj tree) →
  dget "Vehicle" tree = Some vehicle → tree_ok vehicle →
  ∃ fs' doc, main out_dir fs = (Ok 0, fs') ∧
    dget (out_dir +:+ "/signals.yaml") fs' ≫= yaml_load = Some doc ∧
    (∀ name, sv_ok (validate_signal (vss_from_doc doc) name) = true ↔
       ∃ ps md, leaf_at vehicle ps md ∧ name = signal_name "Vehicle" ps) ∧
    (∀ name md, metadata (vss_from_doc doc) name = Some md →
       ∃ ps md0, leaf_at vehicle ps md0 ∧ name = signal_name "Vehicle" ps ∧ md = sort_json md0).
Proof.
  intros Hyaml Hd Hl Hr Hv Ht. destruct (main_writes out_dir fs blob tree vehicle) as (fs' & signals & Em & A & Ed); [done..|].
  assert (readable vehicle) as Hrv by (pose proof (readable_dget "Vehicle" tree Hr) as X; by rewrite Hv in X).
  pose proof (readable_signals _ _ A Hrv) as Hdoc. destruct A as (S & _ & C & N).
  exists fs', (sort_json (signals_doc signals)). split_and!; [done|by rewrite Ed; apply Hyaml|..].
  all: assert (∀ name, dget name (vss_signals (vss_from_doc (sort_json (signals_doc signals)))) =
    sort_json <$> dget name signals) as E by (intros name; by apply from_sorted_doc, N, NoDup_nil_2).
  - intros name. unfold validate_signal, dmem. rewrite E. destruct (dget name signals) as [md|] eqn:Eg; simpl.
    + split; [intros _|done]. apply S in Eg as [?|(ps & ? & ?)]; [done|eauto].
    + split; [done|]. intros (ps & md & Hf & ->). apply C in Hf. rewrite Eg in Hf. by apply is_Some_None in Hf.
  - intros name md. unfold metadata. rewrite E. destruct (dget name signals) as [md0|] eqn:Eg; [|done].
    intros [= <-]. apply S in Eg as [?|(ps & ? & ?)]; [done|]. by exists ps, md0.
Qed.

Module VssSamples.
#[local] Instance floats : PyFloat := Samples.floats.
#[local] Instance difflib : Difflib := λ _ _, [].
Definition vehicle : json :=
  JObj [("type", JStr "branch"); ("children", JObj [
    ("Speed", JObj [("type", JStr "sensor"); ("datatype", JStr "float"); ("unit", JStr "km/h")]);
    ("Cabin", JObj [("type", JStr "branch"); ("children", JObj [
      ("IsOpen", JObj [("type", JStr "actuator"); ("datatype", JStr "boolean")])])])])].
Definition tree : list (string * json) := [("Vehicle", vehicle)].
Definition blob (a : string) : string := if str_eqb a "vss.json" then dumps (JObj tree) else a.
#[local] Instance tools : VssTools := {|
  urlopen url := Ok (blob (drop_str (len VSS_RELEASE_BASE + 1) url));
  sha256_bytes s := s; yaml_dump := canonical; yaml_load := loads |}.
Lemma yaml_ok j : readable j → yaml_load (yaml_dump j) = Some (sort_json j).
Proof. intros Hj. apply loads_print; [apply opts_ok_used|by apply readable_sort]. Qed.
Lemma vehicle_ok : tree_ok vehicle.
Proof.
  repeat (apply tree_ok_eq; split; [reflexivity|]; intros ? ? ? [= <-] Hin;
    repeat (apply elem_of_cons in Hin as [[= -> ->]|Hin]); try (by apply not_elem_of_nil in Hin)).
Qed.
Lemma tree_readable : readable (JObj tree).
Proof. cbn. split_and!; try exact I; by apply (bool_decide_unpack _). Qed.
End VssSamples.

Lemma fetched_vocabulary_witness :
  ∃ fs' doc, main (H := Samples.floats) (H0 := VssSamples.tools) "config" [] = (Ok 0, fs') ∧
    sv_ok (validate_signal (H := VssSamples.difflib) (vss_from_doc doc) "Vehicle.Cabin.IsOpen") = true.
Proof.
  destruct (fetched_vocabulary (H := Samples.floats) (H0 := VssSamples.tools) (H1 := VssSamples.difflib)
    "config" [] VssSamples.blob VssSamples.tree VssSamples.vehicle) as (fs' & doc & E & _ & V & _).
  - apply VssSamples.yaml_ok.
  - intros a Ha. apply list_elem_of_In in Ha. repeat destruct Ha as [<-|Ha]; try (vm_compute; reflexivity).
  - vm_compute. reflexivity.
  - apply VssSamples.tree_readable.
  - reflexivity.
  - apply VssSamples.vehicle_ok.
  - exists fs', doc. split; [exact E|]. apply V. eexists ["Cabin"; "IsOpen"], _. split; [|reflexivity].
    eexists. split; [|split; [|reflexivity]].
    + eapply at_child; [reflexivity|right; left|]. eapply at_child; [reflexivity|left|]. apply at_root.
    + reflexivity.
Defined.
