(* ===== verification/Vehicles.v ===== *)
(** [registry/tenant_vehicles.py] with the triggers of migration 015, and
    [cache/ownership_cache.py]. *)
From S2P Require Import Prelude PyStr PyDict Json JsonText Errors Models World Samples Database HotStore RateLimit.
Local Open Scope Z_scope.

(** * Ownership rows *)
Definition reason_codes : list string :=
  ["initial_provisioning"; "resale"; "fleet_reassignment"; "oem_handoff"; "lease_return"; "totaled"; "other"].

(** The current owner of a vehicle, from the table. *)
Definition owner_of (vehicle_id : string) (d : db) : option string :=
  ve_tenant_id <$> head (List.filter (λ r, str_eqb (ve_vehicle_id r) vehicle_id) (db_tenant_vehicles d)).

(** [TenantVehiclesRepository.get_owner]. *)
Definition repo_get_owner (vehicle_id : string) : M (option string) :=
  rows ← acquire_service_principal (λ c,
    select c db_tenant_vehicles (λ r, str_eqb (ve_vehicle_id r) vehicle_id));
  mret (ve_tenant_id <$> head rows).

Definition vehicle_checks (r : vehicle_row) : list (bool * pg_error) :=
  [ check (nonempty (ve_vehicle_id r)) "vehicle_id";
    check (nonempty (ve_assigned_by_subject r)) "assigned_by_subject";
    check (bool_decide (ve_reason_code r ∈ reason_codes)) "reason_code" ].

(** The upsert on [vehicle_id]. *)
Definition upsert_vehicle (r : vehicle_row) (rows : list vehicle_row) : list vehicle_row :=
  if existsb (λ x, str_eqb (ve_vehicle_id x) (ve_vehicle_id r)) rows
  then (λ x, if str_eqb (ve_vehicle_id x) (ve_vehicle_id r) then r else x) <$> rows
  else rows ++ [r].

Section Assign.
Context `{Env}.

(** Trigger [tenant_vehicles_history_fn], for a change of owner. *)
Definition history_trigger (prev : option string) (r : vehicle_row) : M unit :=
  rid ← new_id;
  modify (upd_db (upd_tenant_vehicles_history (λ h, h ++
    [HistoryRow (Z.of_nat (length h) + 1) (ve_vehicle_id r) prev (ve_tenant_id r)
       (ve_assigned_by_subject r) (ve_reason_code r) (ve_assigned_at r)
       ("vehicle-" +:+ ve_vehicle_id r +:+ "-" +:+ rid)]))).

(** Trigger [tenant_vehicles_audit_fn], for a change of owner. *)
Definition audit_trigger (c : conn) (prev : option string) (r : vehicle_row) : M unit :=
  event_id ← new_id;
  t ← now;
  insert_audit c false
    (AuditRow event_id (ve_tenant_id r) "vehicle_assignment_change"
      (Some (JObj [("service_principal_subject", JStr (ve_assigned_by_subject r));
                   ("vehicle_id", JStr (ve_vehicle_id r));
                   ("prior_tenant_id", match prev with Some p => JStr p | None => JNull end);
                   ("new_tenant_id", JStr (ve_tenant_id r));
                   ("reason_code", JStr (ve_reason_code r))]))
      None None None None None None None None None None None None
      (ve_assigned_by_subject r) ("vehicle-assignment-" +:+ event_id) t);;
  mret tt.

(** [TenantVehiclesRepository.assign]. *)
Definition assign (vehicle_id tenant_id assigned_by_subject reason_code : string) : M unit :=
  acquire_service_principal (λ c, in_transaction (
    t ← now;
    d ← gets w_db;
    let r := VehicleRow vehicle_id tenant_id t assigned_by_subject reason_code in
    let prev := owner_of vehicle_id d in
    match first_violation (vehicle_checks r) with
    | Some e => raise (EPg e)
    | None =>
        modify (upd_db (upd_tenant_vehicles (upsert_vehicle r)));;
        (if bool_decide (prev = Some tenant_id) then mret tt
         else history_trigger prev r;; audit_trigger c prev r);;
        if bool_decide (tenant_id ∈ db_tenants d) then mret tt
        else raise (EPg (ForeignKeyViolation "tenant_vehicles_tenant_id_fkey"))
    end)).
End Assign.

(** * [OwnershipCache] *)
Definition CACHE_TTL_SECONDS : Z := 3600.
Definition ownership_key (vehicle_id : string) : string := "vehicle_ownership:" +:+ vehicle_id.

Section Cache.
Context `{Env}.

(** [OwnershipCache.get_owner]. *)
Definition cached_get_owner (vehicle_id : string) : M (option string) :=
  hit ← attempt (redis_get (ownership_key vehicle_id));
  match hit with
  | Raise _ => repo_get_owner vehicle_id
  | Ok (Some owner) => mret (Some owner)
  | Ok None =>
      owner ← repo_get_owner vehicle_id;
      match owner with
      | Some o =>
          attempt (redis_set (ownership_key vehicle_id) o CACHE_TTL_SECONDS);;
          mret owner
      | None => mret None
      end
  end.

(** [OwnershipCache.invalidate]. *)
Definition invalidate_owner (vehicle_id : string) : M unit := redis_delete (ownership_key vehicle_id).
End Cache.

(** * The history is the record of ownership *)
Definition history_for (v : string) (d : db) : list history_row :=
  List.filter (λ h, str_eqb (hi_vehicle_id h) v) (db_tenant_vehicles_history d).

(** Each transition starts from the owner the previous one left. *)
Fixpoint chained (prev : option string) (hs : list history_row) : Prop :=
  match hs with
  | [] => True
  | h :: hs' => hi_prev_tenant_id h = prev ∧ chained (Some (hi_new_tenant_id h)) hs'
  end.
Definition last_owner (hs : list history_row) : option string :=
  hi_new_tenant_id <$> List.last (Some <$> hs) None.

Definition ownership_ok (w : world) : Prop :=
  ∀ v, chained None (history_for v (w_db w)) ∧
       owner_of v (w_db w) = last_owner (history_for v (w_db w)).

Lemma owner_upsert r rows v :
  ve_tenant_id <$> head (List.filter (λ x, str_eqb (ve_vehicle_id x) v) (upsert_vehicle r rows)) =
  if str_eqb (ve_vehicle_id r) v then Some (ve_tenant_id r)
  else ve_tenant_id <$> head (List.filter (λ x, str_eqb (ve_vehicle_id x) v) rows).
Proof.
  unfold upsert_vehicle. destruct (existsb _ rows) eqn:E.
  - destruct (str_eqb (ve_vehicle_id r) v) eqn:Ev.
    + apply str_eqb_eq in Ev as <-. induction rows as [|x rows IH]; [discriminate E|].
      rewrite fmap_cons. simpl in *. destruct (str_eqb (ve_vehicle_id x) (ve_vehicle_id r)) eqn:Ex.
      * by rewrite str_eqb_refl.
      * rewrite Ex. by apply IH.
    + clear E. induction rows as [|x rows IH]; [done|]. rewrite fmap_cons. simpl.
      destruct (str_eqb (ve_vehicle_id x) (ve_vehicle_id r)) eqn:Ex.
      * apply str_eqb_eq in Ex. rewrite Ev. rewrite Ex, Ev. exact IH.
      * destruct (str_eqb (ve_vehicle_id x) v); [done | exact IH].
  - rewrite List.filter_app. simpl. destruct (str_eqb (ve_vehicle_id r) v) eqn:Ev.
    + apply str_eqb_eq in Ev as <-.
      assert (List.filter (λ x, str_eqb (ve_vehicle_id x) (ve_vehicle_id r)) rows = []) as ->; [|done].
      induction rows as [|x rows IH]; [done|]. simpl in *. apply orb_false_iff in E as [-> E]. auto.
    + by rewrite app_nil_r.
Qed.

Lemma chained_app prev hs h : chained prev hs →
  hi_prev_tenant_id h = match last_owner hs with Some o => Some o | None => prev end →
  chained prev (hs ++ [h]).
Proof.
  revert prev. induction hs as [|x hs IH]; intros prev; simpl; [done|].
  intros [Hx Hc] Hh. split; [done|]. apply IH; [done|]. rewrite Hh. destruct hs as [|y hs]; [done|].
  unfold last_owner. rewrite !fmap_cons. change (List.last (Some x :: Some y :: (Some <$> hs)) None)
    with (List.last (Some y :: (Some <$> hs)) None).
  destruct (List.last (Some y :: (Some <$> hs)) None) eqn:E; [done|]. exfalso.
  clear -E. revert y E. induction hs as [|z hs IH]; intros y E; [discriminate E|].
  apply (IH z). exact E.
Qed.

Lemma last_owner_app hs h : last_owner (hs ++ [h]) = Some (hi_new_tenant_id h).
Proof.
  unfold last_owner. rewrite fmap_app. change (Some <$> [h]) with [Some h]. by rewrite List.last_last.
Qed.

(** The steps of a successful assignment. *)
Lemma assign_inv `{Env} v t sub rc w w' : assign v t sub rc w = (Ok tt, w') →
  t ∈ db_tenants (w_db w) ∧
  (owner_of v (w_db w) = Some t ∧
   (∃ r, ve_vehicle_id r = v ∧ ve_tenant_id r = t ∧
     w_db w' = upd_tenant_vehicles (upsert_vehicle r) (w_db w)) ∨
   owner_of v (w_db w) ≠ Some t ∧
   (∃ r h a, ve_vehicle_id r = v ∧ ve_tenant_id r = t ∧ hi_vehicle_id h = v ∧
     hi_prev_tenant_id h = owner_of v (w_db w) ∧ hi_new_tenant_id h = t ∧
     au_kind a = "vehicle_assignment_change" ∧ au_tenant_id a = t ∧
     w_db w' = upd_audit_events (λ l, l ++ [a]) (upd_tenant_vehicles_history (λ l, l ++ [h])
       (upd_tenant_vehicles (upsert_vehicle r) (w_db w))))).
Proof.
  unfold assign, acquire_service_principal, in_transaction, gets, now, modify.
  unfold mbind, prog_bind, mret, prog_ret. simpl. destruct (w_pool w); simpl; [|done].
  destruct (first_violation _); [done|]. simpl.
  destruct (bool_decide_reflect (owner_of v (w_db w) = Some t)) as [Ho|Ho]; simpl.
  - destruct (bool_decide_reflect (t ∈ db_tenants (w_db w))); [|done]. intros [= <-].
    split; [done|]. left. split; [done|].
    eexists. by split_and!; [..|reflexivity].
  - unfold history_trigger, audit_trigger, insert_audit, now, new_id. run_prog.
    match goal with |- context [insert_row ?c ?n ?tb ?u ?ck ?un ?fk ?r ?w1] =>
      destruct (insert_row_cases c n tb u ck un fk r w1)
        as [(-> & _)|[(-> & _ & _ & u' & Hu & Htol & _)|(e & ->)]] end; [| |done].
    + destruct (bool_decide_reflect (t ∈ db_tenants (w_db w))); [|done]. intros [= <-].
      split; [done|]. right. split; [done|]. eexists _, _, _. by split_and!; [..|reflexivity].
    + exfalso. set_solver.
Qed.

(** The ownership log is faithful: for every vehicle the history rows form a
    chain from no owner to the current one, each transition starting from the
    owner the previous one left; assignments preserve this, on every path. *)
Lemma assign_keeps_ownership `{Env} (v t sub rc : string) : keeps ownership_ok (assign v t sub rc).
Proof.
  intros w Hok. destruct (assign v t sub rc w) as [[[]|e] w'] eqn:E; unfold ownership_ok; simpl.
  2: { assert (w_db w' = w_db w) as Hd; [|intros x; rewrite Hd; apply Hok].
       unfold assign, acquire_service_principal, in_transaction in E. run_prog.
       destruct (w_pool w); [|by simplify_eq]. repeat (case_match; simplify_eq; try done). }
  apply assign_inv in E as (_ & [(Ho & r & Hv & Ht & ->)|(Ho & r & h & a & Hv & Ht & Hh & Hp & Hn & _ & _ & ->)]);
    intros x; destruct (Hok x) as [Hc Hl]; unfold owner_of, history_for in *; simpl;
    rewrite owner_upsert, Hv; destruct (str_eqb v x) eqn:Ex.
  - apply str_eqb_eq in Ex as ->. split; [done|]. rewrite <- Hl, Ht. done.
  - done.
  - apply str_eqb_eq in Ex as ->. rewrite List.filter_app. simpl. rewrite Hh, str_eqb_refl.
    split.
    + apply chained_app; [done|]. rewrite Hp, Hl. by destruct (last_owner _).
    + by rewrite last_owner_app, Ht, Hn.
  - rewrite List.filter_app. simpl. rewrite Hh, Ex, app_nil_r. done.
Qed.



(** * The cache against the table *)
Lemma repo_owner v w : w_pool w = true → repo_get_owner v w = (Ok (owner_of v (w_db w)), w).
Proof.
  intros Hp. unfold repo_get_owner, acquire_service_principal. run_prog. by rewrite Hp.
Qed.

Lemma redis_get_live `{Env} key s x w :
  redis_fault (w_redis_n w) = None → r_data (w_redis w) !! key = Some (RStr s (Some x)) →
  redis_clock (w_redis_n w) ≤ x → (redis_get key w).1 = Ok (Some s).
Proof.
  intros Hf Hk Hx. unfold redis_get. rewrite command_ok by done. rewrite Hk. simpl.
  destruct (Z.ltb_spec x (redis_clock (w_redis_n w))); [lia | done].
Qed.

(** The ownership lookup is failure-open and, without a live cache entry,
    authoritative: when Redis fails, or holds no live value for the vehicle, the
    answer is the table's current owner. *)
Theorem ownership_lookup_authoritative `{Env} (v : string) (w : world) :
  w_pool w = true →
  (∃ m, redis_fault (w_redis_n w) = Some m) ∨
  redis_fault (w_redis_n w) = None ∧ (redis_get (ownership_key v) w).1 = Ok None →
  ∃ w', cached_get_owner v w = (Ok (owner_of v (w_db w)), w') ∧ w_db w' = w_db w.
Proof.
  intros Hp Hr. unfold cached_get_owner, attempt, mbind, prog_bind.
  assert (w_db (redis_get (ownership_key v) w).2 = w_db w) as Hd by by apply command_outside.
  assert (w_pool (redis_get (ownership_key v) w).2 = w_pool w) as Hpl by by apply command_outside.
  assert ((redis_get (ownership_key v) w).1 = Ok None ∨ ∃ e, (redis_get (ownership_key v) w).1 = Raise e)
    as Hg.
  { destruct Hr as [[m Hm]|[_ Hg]]; [right | by left]. unfold redis_get.
    rewrite (command_fault _ _ m) by done. by eexists. }
  destruct (redis_get (ownership_key v) w) as [r w1]. simpl in *.
  assert (repo_get_owner v w1 = (Ok (owner_of v (w_db w)), w1)) as Ho.
  { rewrite <- Hd. apply repo_owner. congruence. }
  destruct Hg as [-> | [e ->]]; rewrite Ho; [|by eexists].
  destruct (owner_of v (w_db w)) as [o|]; [|by eexists].
  assert (w_db (redis_set (ownership_key v) o CACHE_TTL_SECONDS w1).2 = w_db w1) as Hd2
    by by apply command_outside.
  destruct (redis_set _ _ _ w1) as [r w2]. simpl in *. eexists. split; [reflexivity|]. congruence.
Qed.

Lemma ownership_lookup_authoritative_witness :
  let w1 := (assign (H := Samples.env) "VIN-1" "acme" "ops" "initial_provisioning" Samples.start).2 in
  ∃ w', cached_get_owner (H := Samples.env) "VIN-1" w1 = (Ok (owner_of "VIN-1" (w_db w1)), w') ∧
        w_db w' = w_db w1.
Proof.
  intros w1. apply (ownership_lookup_authoritative (H := Samples.env) "VIN-1" w1);
    [reflexivity|]. right. split; reflexivity.
Defined.

(** A transfer does not reach the cache: while the entry a previous lookup
    wrote is live, lookups after a successful reassignment still name the old
    owner, because the assignment path never invalidates it. *)
Theorem stale_owner_after_transfer `{Env} (v old new sub rc : string) (x : Z) (w w' : world) :
  r_data (w_redis w) !! ownership_key v = Some (RStr old (Some x)) →
  assign v new sub rc w = (Ok tt, w') →
  redis_fault (w_redis_n w) = None → redis_clock (w_redis_n w) ≤ x →
  owner_of v (w_db w') = Some new ∧ (cached_get_owner v w').1 = Ok (Some old).
Proof.
  intros Hk E Hf Hx. pose proof (assign_inv _ _ _ _ _ _ E) as (_ & Hd). split.
  { destruct Hd as [(_ & r & Hv & Ht & ->)|(_ & r & h & a & Hv & Ht & _ & _ & _ & _ & _ & ->)];
      unfold owner_of; simpl; by rewrite owner_upsert, Hv, str_eqb_refl, Ht. }
  assert (w_redis w' = w_redis w ∧ w_redis_n w' = w_redis_n w) as [Hr Hn].
  { unfold assign, acquire_service_principal, in_transaction, history_trigger, audit_trigger,
      insert_audit, insert_row, now, new_id in E. run_prog.
    destruct (w_pool w); [|done]. repeat (case_match; simplify_eq; try done). }
  unfold cached_get_owner, attempt, mbind, prog_bind.
  pose proof (redis_get_live (ownership_key v) old x w') as Hg. rewrite Hr, Hn in Hg.
  specialize (Hg Hf Hk Hx). destruct (redis_get (ownership_key v) w') as [r w2]. simpl in Hg.
  by subst r.
Qed.

Definition cached_acme : world :=
  (cached_get_owner (H := Samples.env) "VIN-1"
    (assign (H := Samples.env) "VIN-1" "acme" "ops" "initial_provisioning" Samples.start).2).2.
Lemma stale_owner_after_transfer_witness :
  let w' := (assign (H := Samples.env) "VIN-1" "globex" "ops" "resale" cached_acme).2 in
  owner_of "VIN-1" (w_db w') = Some "globex" ∧
  (cached_get_owner (H := Samples.env) "VIN-1" w').1 = Ok (Some "acme").
Proof.
  intros w'. apply (stale_owner_after_transfer (H := Samples.env) "VIN-1" "acme" "globex" "ops"
    "resale" 1700003600001 cached_acme w'); try (vm_compute; reflexivity).
  vm_compute. discriminate.
Defined.
