(* ===== verification/Integrity.v ===== *)
(** Schema integrity: every row on file satisfies its column constraints, keys
    are unique and references resolve.  The statements that write a table are
    shown to preserve it here; [System] carries it through the whole program.

    The model applies CHECK and foreign-key constraints on INSERT only, so the
    invariant also shows that the UPDATE statements of the program could never
    have violated one. *)
From S2P Require Import Prelude PyStr Json JsonText Errors Models World Database Vehicles.

(** The constraints the migrations put on a table. *)
Record table_spec (R : Type) := Spec {
  ts_checks : R → list (bool * pg_error);
  ts_unique : list (R → R → bool);
  ts_fks : R → db → list (bool * pg_error) }.
Arguments Spec {R}.
Arguments ts_checks {R}.
Arguments ts_unique {R}.
Arguments ts_fks {R}.

Definition table_ok {R} (s : table_spec R) (rows : list R) (d : db) : Prop :=
  Forall (λ r, first_violation (ts_checks s r) = None) rows ∧
  (∀ u, u ∈ ts_unique s → ForallOrdPairs (λ a b, u b a = false) rows) ∧
  Forall (λ r, first_violation (ts_fks s r d) = None) rows.

Definition finding_spec : table_spec finding_row :=
  Spec finding_checks [finding_pk]
    (λ r d, [fk_tenant (fi_tenant_id r) d "diagnostic_findings_tenant_id_fkey"]).
Definition policy_spec : table_spec policy_row :=
  Spec policy_checks [policy_pk]
    (λ r d, [fk_tenant (po_tenant_id r) d "collection_policies_tenant_id_fkey"]).
Definition deployment_spec : table_spec deployment_row :=
  Spec deployment_checks [λ a b, str_eqb (dp_deployment_id a) (dp_deployment_id b)]
    (λ r d, [fk_tenant (dp_tenant_id r) d "deployment_targets_tenant_id_fkey";
             fk_policy (dp_tenant_id r) (dp_policy_id r) (dp_version r) d
               "deployment_targets_policy_fk"]).
Definition outcome_spec : table_spec outcome_row :=
  Spec outcome_checks [λ a b, str_eqb (oc_outcome_id a) (oc_outcome_id b)]
    (λ r d, [fk_tenant (oc_tenant_id r) d "policy_outcomes_tenant_id_fkey";
             fk_policy (oc_tenant_id r) (oc_policy_id r) (oc_version r) d
               "policy_outcomes_policy_fk"]).
Definition event_spec : table_spec audit_row :=
  Spec audit_checks [audit_key; λ a b, str_eqb (au_event_id a) (au_event_id b)]
    (λ r d, [fk_tenant (au_tenant_id r) d "audit_events_tenant_id_fkey"]).
Definition telemetry_spec : table_spec telemetry_row :=
  Spec telemetry_checks []
    (λ r d, [fk_tenant (te_tenant_id r) d "telemetry_observations_tenant_id_fkey"]).
Definition erasure_spec : table_spec erasure_row :=
  Spec erasure_checks [λ a b, str_eqb (er_request_id a) (er_request_id b)]
    (λ r d, [fk_tenant (er_tenant_id r) d "erasure_requests_tenant_id_fkey"]).
Definition vehicle_spec : table_spec vehicle_row :=
  Spec vehicle_checks [λ a b, str_eqb (ve_vehicle_id a) (ve_vehicle_id b)]
    (λ r d, [fk_tenant (ve_tenant_id r) d "tenant_vehicles_tenant_id_fkey"]).

Record integrity (d : db) : Prop := Integrity {
  ok_findings : table_ok finding_spec (db_diagnostic_findings d) d;
  ok_policies : table_ok policy_spec (db_collection_policies d) d;
  ok_deployments : table_ok deployment_spec (db_deployment_targets d) d;
  ok_outcomes : table_ok outcome_spec (db_policy_outcomes d) d;
  ok_events : table_ok event_spec (db_audit_events d) d;
  ok_telemetry : table_ok telemetry_spec (db_telemetry_observations d) d;
  ok_erasures : table_ok erasure_spec (db_erasure_requests d) d;
  ok_vehicles : table_ok vehicle_spec (db_tenant_vehicles d) d }.

Lemma Forall_snoc {A} (P : A → Prop) l x : Forall P l → P x → Forall P (l ++ [x]).
Proof. intros Hl Hx. apply Forall_app. by split; [|constructor]. Qed.

(** * One table *)
Section Table.
Context {R : Type} (s : table_spec R).

Lemma table_ok_nil d : table_ok s [] d.
Proof. split_and!; [constructor|intros; constructor|constructor]. Qed.

Lemma table_ok_append rows row d :
  table_ok s rows d → first_violation (ts_checks s row) = None →
  (∀ u, u ∈ ts_unique s → existsb (u row) rows = false) →
  first_violation (ts_fks s row d) = None → table_ok s (rows ++ [row]) d.
Proof.
  intros (Hc & Hu & Hf) Hrow Huniq Hfk. split_and!; [by apply Forall_snoc| |by apply Forall_snoc].
  intros u Hin. specialize (Hu u Hin). specialize (Huniq u Hin). clear Hc Hf Hfk Hin.
  induction Hu as [|a rows Ha Hrows IH]; simpl in *; [by repeat constructor|].
  apply orb_false_iff in Huniq as [Hua Hur]. constructor; [by apply Forall_snoc|]. by apply IH.
Qed.

(** References that keep resolving. *)
Lemma table_ok_refs rows d d' :
  (∀ r, first_violation (ts_fks s r d) = None → first_violation (ts_fks s r d') = None) →
  table_ok s rows d → table_ok s rows d'.
Proof. intros Hd (Hc & Hu & Hf). split_and!; [done..|]. eapply Forall_impl; eauto. Qed.

(** An UPDATE that leaves keys alone and respects the CHECKs and references. *)
Lemma table_ok_update rows (g : R → R) d :
  (∀ r, r ∈ rows → first_violation (ts_checks s r) = None →
     first_violation (ts_checks s (g r)) = None) →
  (∀ u a b, u ∈ ts_unique s → u (g a) (g b) = u a b) →
  (∀ r, first_violation (ts_fks s r d) = None → first_violation (ts_fks s (g r) d) = None) →
  table_ok s rows d → table_ok s (g <$> rows) d.
Proof.
  intros Hg Hk Hr (Hc & Hu & Hf). split_and!.
  - rewrite Forall_fmap, Forall_forall in *. intros r Hin. simpl. auto.
  - intros u Hin. specialize (Hu u Hin). clear Hc Hf Hg.
    induction Hu as [|a rows Ha Hrows IH]; [constructor|].
    rewrite fmap_cons. constructor; [|done]. rewrite Forall_fmap.
    eapply Forall_impl; [exact Ha|]. intros b Hb. simpl. by rewrite Hk.
  - rewrite Forall_fmap. eapply Forall_impl; [exact Hf|]. intros r Hr'. simpl. by apply Hr.
Qed.

Lemma table_ok_delete rows (p : R → bool) d :
  table_ok s rows d → table_ok s (List.filter p rows) d.
Proof.
  intros (Hc & Hu & Hf).
  assert (∀ P, Forall P rows → Forall P (List.filter p rows)) as Hfilter.
  { intros P HP. rewrite Forall_forall in *. intros r [Hin _]%list_elem_of_In%filter_In.
    apply HP. by apply list_elem_of_In. }
  split_and!; [auto| |auto]. intros u Hin. specialize (Hu u Hin). clear Hc Hf Hfilter.
  induction Hu as [|a rows Ha Hrows IH]; simpl; [constructor|].
  destruct (p a); [|done]. constructor; [|done]. rewrite Forall_forall in *.
  intros r [Hr _]%list_elem_of_In%filter_In. apply Ha. by apply list_elem_of_In.
Qed.
End Table.

(** * Programs *)
(** A property of the tables that a program preserves, raises included. *)
Definition holds {A} (I : db → Prop) (m : M A) : Prop := keeps (λ w, I (w_db w)) m.
Notation sound := (holds integrity).

Create HintDb integrity.

Section Holds.
Context (I : db → Prop).

Lemma holds_outside {A} (m : M A) : stable w_db m → holds I m.
Proof. intros Hm w Hw. by rewrite (Hm w). Qed.
Lemma holds_bind {A B} (m : M A) (k : A → M B) :
  holds I m → (∀ a, holds I (k a)) → holds I (m ≫= k).
Proof. apply keeps_bind. Qed.
Lemma holds_lift {A B} (r : result exn A) (k : A → M B) :
  (∀ a, r = Ok a → holds I (k a)) → holds I (lift r ≫= k).
Proof. intros Hk w Hw. destruct r as [a|e]; [by apply (Hk a)|done]. Qed.
Lemma holds_catch {A} (m : M A) h : holds I m → (∀ e, holds I (h e)) → holds I (catch m h).
Proof. apply keeps_catch. Qed.
Lemma holds_for_each {A} (l : list A) (f : A → M unit) :
  (∀ a, holds I (f a)) → holds I (for_each l f).
Proof. apply keeps_for_each. Qed.
Lemma holds_mapM {A B} (l : list A) (f : A → M B) : (∀ a, holds I (f a)) → holds I (mapM f l).
Proof. apply keeps_mapM. Qed.
Lemma holds_transaction {A} (m : M A) : holds I m → holds I (in_transaction m).
Proof.
  intros Hm w Hw. unfold in_transaction. specialize (Hm w Hw).
  destruct (m w) as [[a|e] w']; simpl in *; done.
Qed.
Lemma holds_acquire {A} t (body : conn → M A) :
  (∀ c, holds I (body c)) → holds I (acquire t body).
Proof.
  intros Hb. unfold acquire. apply holds_bind; [apply keeps_gets|]. intros []; [|apply keeps_raise].
  apply holds_bind; [apply keeps_gets|]. intros g. apply holds_transaction, Hb.
Qed.
Lemma holds_acquire_service {A} (body : conn → M A) :
  (∀ c, holds I (body c)) → holds I (acquire_service_principal body).
Proof.
  intros Hb. unfold acquire_service_principal. apply holds_bind; [apply keeps_gets|].
  intros []; [|apply keeps_raise]. apply holds_bind; [apply keeps_gets|]. intros g. apply Hb.
Qed.
(** An INSERT can only append its row, which passed the CHECKs. *)
Lemma holds_insert {R} `{Tenanted R} c name table upd checks uniques fks row :
  (∀ d, I d → first_violation (checks row) = None → I (upd (λ rows, rows ++ [row]) d)) →
  holds I (insert_row c name table upd checks uniques fks row).
Proof.
  intros Hupd w Hw.
  destruct (insert_row_cases c name table upd checks uniques fks row w)
    as [(-> & _ & Hc & _)|[(-> & _)|(e & ->)]]; [|done..]. by apply Hupd.
Qed.
End Holds.

(** Walk a program along its structure. *)
Ltac holds_step :=
  match goal with
  | |- holds _ (acquire _ _) => apply holds_acquire; intros ?
  | |- holds _ (acquire_service_principal _) => apply holds_acquire_service; intros ?
  | |- holds _ (in_transaction _) => apply holds_transaction
  | |- holds _ (mbind _ _) => apply holds_bind; [|intros ?]
  | |- holds _ (catch _ _) => apply holds_catch; [|intros ?]
  | |- holds _ (for_each _ _) => apply holds_for_each; intros ?
  | |- holds _ (mapM _ _) => apply holds_mapM; intros ?
  | |- holds _ (match ?x with _ => _ end) => destruct x
  | |- holds _ _ => solve [auto with integrity nocore]
  | |- holds _ _ => solve [apply holds_outside; intros ?; reflexivity]
  end.

(** An INSERT, for a table with specification [s]. *)
Lemma sound_insert {R} `{Tenanted R} (s : table_spec R) c name table upd uniques row :
  (λ u, u.1.2) <$> uniques = ts_unique s →
  (∀ d, integrity d → table_ok s (table d) d) →
  (∀ d, integrity d → table_ok s (table d ++ [row]) d →
     integrity (upd (λ rows, rows ++ [row]) d)) →
  sound (insert_row c name table upd (ts_checks s) uniques (ts_fks s) row).
Proof.
  intros Huniq Htable Hupd w Hw.
  destruct (insert_row_cases c name table upd (ts_checks s) uniques (ts_fks s) row w)
    as [(-> & _ & Hc & Hu & Hf)|[(-> & _)|(e & ->)]]; [|done..].
  simpl. apply Hupd; [done|]. apply table_ok_append; [auto|done| |done].
  intros u Hin. rewrite <- Huniq in Hin. apply list_elem_of_fmap in Hin as (v & -> & Hv). by apply Hu.
Qed.

(** References to policies survive an append to the policies. *)
Lemma policy_refs_append l row d name t p v :
  first_violation [fk_tenant t d name; fk_policy t p v d l] = None →
  first_violation [fk_tenant t (upd_collection_policies (λ rows, rows ++ [row]) d) name;
    fk_policy t p v (upd_collection_policies (λ rows, rows ++ [row]) d) l] = None.
Proof.
  rewrite !first_violation_none, !Forall_cons. simpl. intros (Ht & Hp & _).
  split_and!; [done| |constructor]. rewrite existsb_app, Hp. done.
Qed.

(** The other tables are untouched; those that refer to policies are rechecked. *)
Ltac same_tables H :=
  destruct H as [?Hfi ?Hpo ?Hdp ?Hoc ?Hau ?Hte ?Her ?Hve]; constructor; assumption.

Section Inserts.
Context (c : conn).
Lemma sound_insert_finding r : sound (insert_finding c r).
Proof.
  apply (sound_insert finding_spec); [done|by intros ? []|]. intros d Hd Ht. same_tables Hd.
Qed.
Lemma sound_insert_policy r : sound (insert_policy c r).
Proof.
  apply (sound_insert policy_spec); [done|by intros ? []|]. intros d [] Ht. constructor; try assumption;
    (eapply table_ok_refs; [|eassumption]); intros; by apply policy_refs_append.
Qed.
Lemma sound_insert_deployment r : sound (insert_deployment c r).
Proof.
  apply (sound_insert deployment_spec); [done|by intros ? []|]. intros d Hd Ht. same_tables Hd.
Qed.
Lemma sound_insert_outcome r : sound (insert_outcome c r).
Proof.
  apply (sound_insert outcome_spec); [done|by intros ? []|]. intros d Hd Ht. same_tables Hd.
Qed.
Lemma sound_insert_audit b r : sound (insert_audit c b r).
Proof.
  apply (sound_insert event_spec); [done|by intros ? []|]. intros d Hd Ht. same_tables Hd.
Qed.
Lemma sound_insert_telemetry r : sound (insert_telemetry c r).
Proof.
  apply (sound_insert telemetry_spec); [done|by intros ? []|]. intros d Hd Ht. same_tables Hd.
Qed.
Lemma sound_insert_erasure r : sound (insert_erasure c r).
Proof.
  apply (sound_insert erasure_spec); [done|by intros ? []|]. intros d Hd Ht. same_tables Hd.
Qed.
End Inserts.
