(* ===== verification/Graph.v ===== *)
(** [graph/]: the orchestrator, the generator, validator and deployer nodes and
    the bounded generate-validate-deploy loop, with the session threaded through
    the nodes that mutate it. *)
From S2P Require Import Prelude PyStr PyDict Json JsonText PyTime Errors Models World Samples Database PyVal Validator.
Local Open Scope Z_scope.

(** * [slm/client.py] *)
Record GenerationRequest := {
  gr_session_id : string;
  gr_prompt_template_version : string;
  gr_prompt : string;
  gr_schema : json;
  gr_decoding : json;
  gr_retry_context : option json }.
Record GenerationResponse := { gs_policy : json; gs_runtime_info : json; gs_usage : json }.

(** The interfaces the nodes are built on: the policy generator client, the
    downstream collector and the payload signer. *)
Class PolicyGeneratorClient := generate_policy : GenerationRequest → M GenerationResponse.
Class CollectorAIClient := collector_deploy : deploy_call → M DeployResponse.
Class PayloadSigner := { sign_payload : json → string; key_id : string }.
(** The two prompt template files, read at each rendering. *)
Class Prompts := { system_md : string; user_md : string }.

(** * Session updates *)
Definition set_plan (p : list string) (s : session) : session :=
  Session (s_session_id s) (s_tenant_id s) (s_correlation_id s) (s_originating_finding s) p
    (s_retry_count s) (s_retry_budget s) (s_validation_errors s) (s_generated_policy s)
    (s_deployment_record s) (s_outcome_record s) (s_started_at s) (s_last_runtime_info s)
    (s_last_decoding_seed s) (s_prompt_template_version s).
Definition set_retry_count (n : Z) (s : session) : session :=
  Session (s_session_id s) (s_tenant_id s) (s_correlation_id s) (s_originating_finding s)
    (s_execution_plan s) n (s_retry_budget s) (s_validation_errors s) (s_generated_policy s)
    (s_deployment_record s) (s_outcome_record s) (s_started_at s) (s_last_runtime_info s)
    (s_last_decoding_seed s) (s_prompt_template_version s).
Definition set_validation_errors (l : list json) (s : session) : session :=
  Session (s_session_id s) (s_tenant_id s) (s_correlation_id s) (s_originating_finding s)
    (s_execution_plan s) (s_retry_count s) (s_retry_budget s) l (s_generated_policy s)
    (s_deployment_record s) (s_outcome_record s) (s_started_at s) (s_last_runtime_info s)
    (s_last_decoding_seed s) (s_prompt_template_version s).
Definition set_generated (p info : json) (seed : Z) (s : session) : session :=
  Session (s_session_id s) (s_tenant_id s) (s_correlation_id s) (s_originating_finding s)
    (s_execution_plan s) (s_retry_count s) (s_retry_budget s) (s_validation_errors s) (Some p)
    (s_deployment_record s) (s_outcome_record s) (s_started_at s) (Some info)
    (Some seed) (s_prompt_template_version s).
Definition set_deployment (r : json) (s : session) : session :=
  Session (s_session_id s) (s_tenant_id s) (s_correlation_id s) (s_originating_finding s)
    (s_execution_plan s) (s_retry_count s) (s_retry_budget s) (s_validation_errors s)
    (s_generated_policy s) (Some r) (s_outcome_record s) (s_started_at s) (s_last_runtime_info s)
    (s_last_decoding_seed s) (s_prompt_template_version s).

(** * [graph/orchestrator.py] *)
Inductive route := RDeploy | RRetry | RDeadLetter | RDone.
Definition initial_plan (s : session) : session := set_plan ["generate"; "validate"; "deploy"] s.
Definition route_after_validation (s : session) (valid : bool) : M (route * session) :=
  if valid then mret (RDeploy, s)
  else if retry_budget_exhausted s then mret (RDeadLetter, s)
  else
    let s := set_retry_count (s_retry_count s + 1) s in
    inc "policy_retry_total" [s_tenant_id s];;
    mret (RRetry, s).
Definition route_after_deploy (deploy_ok : bool) : route := if deploy_ok then RDone else RDeadLetter.

Section Nodes.
Context `{Env} `{Pydantic} `{Difflib} `{Prompts} `{PayloadSigner}.
Context `{PolicyGeneratorClient} `{CollectorAIClient}.

(** * [graph/policy_generator.py] *)
Definition DEFAULT_DECODING_SEED : Z := 12648430. (* 0xC0FFEE *)

(** [.replace("{{ name }}", finding.get(key, ""))]: the value must be a string. *)
Definition subst (placeholder : string) (v : json) (s : string) : M string :=
  match v with
  | JStr x => mret (replace placeholder x s)
  | _ => raise (ETypeError "replace() argument 2 must be str")
  end.
Definition finding_get (s : session) (k : string) (d : json) : json :=
  jget_or k d (s_originating_finding s).

(** The [retry_context] object. *)
Definition retry_context (s : session) : json :=
  JObj [("validation_errors", JArr (s_validation_errors s))].

(** The optional block, cut when there is nothing to retry. *)
Definition retry_block (s : session) (rendered : string) : M string :=
  if contains "{% if retry_context %}" rendered then
    match s_validation_errors s with
    | [] =>
        match index_of "{% if retry_context %}" rendered, index_of "{% endif %}" rendered with
        | Some i, Some j =>
            mret (take_str i rendered +:+ drop_str (j + String.length "{% endif %}") rendered)
        | _, _ => raise (EValueError "substring not found")
        end
    | _ =>
        mret (replace "{{ retry_context_json }}" (dumps_with indent2_opts (retry_context s))
               (replace "{% endif %}" "" (replace "{% if retry_context %}" "" rendered)))
    end
  else mret rendered.

(** [_render_prompt]. *)
Definition render_prompt (s : session) : M string :=
  r ← subst "{{ tenant_id }}" (JStr (s_tenant_id s)) user_md;
  r ← subst "{{ finding_id }}" (finding_get s "finding_id" (JStr "")) r;
  r ← subst "{{ anomaly_type }}" (finding_get s "anomaly_type" (JStr "")) r;
  r ← subst "{{ hypothesis_class }}" (finding_get s "hypothesis_class" (JStr "")) r;
  r ← subst "{{ hypothesis_statement }}" (finding_get s "hypothesis_statement" (JStr "")) r;
  r ← subst "{{ vehicle_scope_json }}"
        (JStr (dumps (finding_get s "vehicle_scope" (JArr [])))) r;
  r ← subst "{{ candidate_signals_json }}"
        (JStr (dumps (finding_get s "candidate_signals" (JArr [])))) r;
  r ← subst "{{ upstream_confidence }}"
        (JStr (py_str (finding_get s "upstream_confidence" (JFloat 0)))) r;
  r ← subst "{{ session_id }}" (JStr (s_session_id s)) r;
  r ← retry_block s r;
  mret (system_md +:+ String newline (String newline r)).

(** [PolicyGenerator.generate]. *)
Definition generate (s : session) : M session :=
  prompt ← render_prompt s;
  response ← generate_policy
    {| gr_session_id := s_session_id s;
       gr_prompt_template_version := s_prompt_template_version s;
       gr_prompt := prompt;
       gr_schema := policy_json_schema;
       gr_decoding := JObj [("temperature", JFloat 0); ("top_p", JFloat 1); ("top_k", JInt (-1));
                            ("seed", JInt DEFAULT_DECODING_SEED)];
       gr_retry_context := match s_validation_errors s with
                           | [] => None
                           | _ => Some (retry_context s)
                           end |};
  mret (set_generated (gs_policy response) (gs_runtime_info response) DEFAULT_DECODING_SEED s).

(** * [graph/policy_validator.py] *)
(** [PolicyValidatorNode.validate].  A client that answers a JSON [null] leaves
    [generated_policy] at [None]. *)
Definition validate_node (pv : PolicyValidator) (s : session) : M (bool * session) :=
  let policy := opt_json (s_generated_policy s) in
  if bool_decide (policy = JNull)
  then raise (ERuntimeError "validator invoked before generator produced a policy")
  else
    match validate_policy policy with
    | Raise es =>
        mret (false, set_validation_errors
          [JObj [("code", JStr "SCHEMA_VALIDATION_FAILED"); ("field", JStr "generated_policy");
                 ("message", JStr (pyd_str es))]] s)
    | Ok spec =>
        let result := validate pv spec in
        mret (vr_ok result,
              set_validation_errors
                (if vr_ok result then [] else error_dict <$> vr_errors result) s)
    end.

(** * [graph/policy_deployer.py] *)
(** The outbound call of [PolicyDeployer.deploy]. *)
Definition call_of (s : session) (scope : list json) : deploy_call :=
  let policy := or_else (s_generated_policy s) (JObj []) in
  DeployCall (s_tenant_id s) (jget_or "policy_id" (JStr "") policy)
    (jget_or "version" (JStr "1.0.0") policy) scope policy (sign_payload policy) key_id.

(** [PolicyDeployer.deploy]: the record, and the session holding it. *)
Definition deploy (s : session) : M (json * session) :=
  let policy := or_else (s_generated_policy s) (JObj []) in
  let policy_id := jget_or "policy_id" (JStr "") policy in
  let version := jget_or "version" (JStr "1.0.0") policy in
  scope ← py_list (jget_or "vehicle_scope" (JArr []) policy);
  modify (upd_sent (λ l, l ++ [call_of s scope]));;
  response ← collector_deploy (call_of s scope);
  deployment_id ← (if nonempty (dr_deployment_id response)
                   then mret (dr_deployment_id response) else new_id);
  t ← now;
  let record := JObj
    [ ("deployment_id", JStr deployment_id); ("tenant_id", JStr (s_tenant_id s));
      ("policy_id", policy_id); ("version", version); ("vehicle_scope", JArr scope);
      ("status", JStr (dr_status response)); ("deployed_at", JStr (isoformat t));
      ("expires_at", match dr_expires_at response with Some x => JStr x | None => JNull end);
      ("downstream_response", opt_json (dr_downstream response)) ] in
  mret (record, set_deployment record s).

(** * [graph/build.py] *)
Inductive final_state := Completed | DeadLetter.
Record GraphRun := { run_session : session; run_final : final_state; run_attempts : nat }.

Definition deploy_and_finish (attempts : nat) (s : session) : M GraphRun :=
  '(record, s) ← deploy s;
  let deploy_ok := jsonb_has "status" "accepted" record in
  mret {| run_session := s;
          run_final := match route_after_deploy deploy_ok with RDone => Completed | _ => DeadLetter end;
          run_attempts := attempts |}.

(** The [while True] loop; [fuel] bounds the number of iterations. *)
Fixpoint attempt_loop (pv : PolicyValidator) (fuel : nat) (attempts : nat) (s : session) : M GraphRun :=
  match fuel with
  | O => raise (EOther "out of fuel")
  | S fuel' =>
      s ← generate s;
      '(ok, s) ← validate_node pv s;
      '(decision, s) ← route_after_validation s ok;
      match decision with
      | RDeploy => deploy_and_finish (S attempts) s
      | RDeadLetter =>
          mret {| run_session := s; run_final := DeadLetter; run_attempts := S attempts |}
      | _ => attempt_loop pv fuel' (S attempts) s
      end
  end.

(** Iterations left: one, and one per retry the budget still allows. *)
Definition attempts_left (s : session) : nat := S (Z.to_nat (s_retry_budget s - s_retry_count s)).

(** [CollectMindGraph.run]. *)
Definition run (pv : PolicyValidator) (s : session) : M GraphRun :=
  attempt_loop pv (attempts_left s) 0 (initial_plan s).
End Nodes.

(** * Facts *)
(** A client that leaves the record of outbound calls alone. *)
Class QuietGenerator `{PolicyGeneratorClient} :=
  generator_quiet : ∀ r, stable w_sent (generate_policy r).
Class QuietCollector `{CollectorAIClient} :=
  collector_quiet : ∀ c, stable w_sent (collector_deploy c).

Section GraphFacts.
Context `{Env} `{Pydantic} `{Difflib} `{Prompts} `{PayloadSigner}.
Context `{PolicyGeneratorClient} `{CollectorAIClient} (pv : PolicyValidator).

(** What the nodes keep of a session. *)
Definition same_run (s s' : session) : Prop :=
  s_tenant_id s' = s_tenant_id s ∧ s_session_id s' = s_session_id s ∧
  s_correlation_id s' = s_correlation_id s ∧ s_originating_finding s' = s_originating_finding s ∧
  s_retry_budget s' = s_retry_budget s.

Lemma same_run_trans s1 s2 s3 : same_run s1 s2 → same_run s2 s3 → same_run s1 s3.
Proof. unfold same_run. intuition congruence. Qed.

Lemma generate_session s w s' w' : generate s w = (Ok s', w') →
  same_run s s' ∧ s_retry_count s' = s_retry_count s ∧ is_Some (s_generated_policy s').
Proof.
  unfold generate. intros E. apply bind_inv_ok in E as (p & w1 & _ & E).
  apply bind_inv_ok in E as (r & w2 & _ & E). unfold mret, prog_ret in E. simplify_eq.
  by split_and!; try eexists.
Qed.

Lemma validate_node_session s w ok s' w' : validate_node pv s w = (Ok (ok, s'), w') →
  w' = w ∧ same_run s s' ∧ s_retry_count s' = s_retry_count s ∧
  s_generated_policy s' = s_generated_policy s ∧
  (ok = true → ∃ p spec, s_generated_policy s' = Some p ∧ validate_policy p = Ok spec ∧
                          vr_ok (validate pv spec) = true).
Proof.
  unfold validate_node. run_prog. intros E.
  case_bool_decide as Hp; [done|]. destruct (s_generated_policy s) as [p|] eqn:Ep; [|done]. simpl in E.
  destruct (validate_policy p) as [spec|es] eqn:Ev; simplify_eq; simpl.
  - split_and!; try done. intros Hok. by exists p, spec.
  - by split_and!.
Qed.

Lemma route_session s ok w d s' w' : route_after_validation s ok w = (Ok (d, s'), w') →
  same_run s s' ∧ s_generated_policy s' = s_generated_policy s ∧ w_sent w' = w_sent w ∧
  match d with
  | RDeploy => ok = true ∧ s' = s
  | RDeadLetter => ok = false ∧ s' = s
  | RRetry => ok = false ∧ s_retry_count s < s_retry_budget s ∧
              s_retry_count s' = s_retry_count s + 1
  | RDone => False
  end.
Proof.
  unfold route_after_validation, retry_budget_exhausted. destruct ok; run_prog.
  - intros E. by simplify_eq.
  - destruct (Z.leb_spec (s_retry_budget s) (s_retry_count s)); intros E; simplify_eq;
      by split_and!.
Qed.

(** A retry leaves one iteration less. *)
Lemma attempts_left_retry s s' :
  s_retry_budget s' = s_retry_budget s → s_retry_count s < s_retry_budget s →
  s_retry_count s' = s_retry_count s + 1 → attempts_left s = S (attempts_left s').
Proof. unfold attempts_left. intros -> Hlt ->. lia. Qed.

Lemma attempts_left_eq s s' :
  s_retry_budget s' = s_retry_budget s → s_retry_count s' = s_retry_count s →
  attempts_left s' = attempts_left s.
Proof. unfold attempts_left. by intros -> ->. Qed.

(** One iteration, seen from its end. *)
Lemma iteration s w s1 w1 ok s2 w2 d s3 w3 :
  generate s w = (Ok s1, w1) → validate_node pv s1 w1 = (Ok (ok, s2), w2) →
  route_after_validation s2 ok w2 = (Ok (d, s3), w3) →
  same_run s s3 ∧ is_Some (s_generated_policy s3) ∧ d ≠ RDone ∧
  (d = RDeploy → ∃ p spec, s_generated_policy s3 = Some p ∧ validate_policy p = Ok spec ∧
                           vr_ok (validate pv spec) = true) ∧
  (d = RRetry → attempts_left s = S (attempts_left s3)).
Proof.
  intros E1 E2 E3. apply generate_session in E1 as (Hs1 & Hc1 & Hp1).
  apply validate_node_session in E2 as (-> & Hs2 & Hc2 & Hp2 & Hok).
  apply route_session in E3 as (Hs3 & Hp3 & _ & Hd).
  assert (same_run s s3) as Hs by (by eapply same_run_trans, same_run_trans).
  split; [done|]. split; [by rewrite Hp3, Hp2|]. split; [by destruct d|]. split.
  - intros ->. destruct Hd as [-> ->]. by apply Hok.
  - intros ->. destruct Hd as (_ & Hlt & Hc). unfold same_run in *.
    apply attempts_left_retry; [by intuition congruence| |]; destruct_and?; congruence || lia.
Qed.
End GraphFacts.

(** C21. The retry loop terminates: with [attempts_left] iterations (one plus the
    remaining retry budget) the loop has returned or raised on its own, and
    allowing any more iterations changes nothing. *)
Theorem graph_run_terminates `{Env} `{Pydantic} `{Difflib} `{Prompts} `{PayloadSigner}
    `{PolicyGeneratorClient} `{CollectorAIClient} (pv : PolicyValidator) (s : session)
    (extra n : nat) (w : world) :
  attempt_loop pv (attempts_left s + extra) n s w = attempt_loop pv (attempts_left s) n s w.
Proof.
  remember (attempts_left s) as fuel eqn:Hf. revert s n w Hf.
  induction fuel as [|fuel IH]; intros s n w Hf; [discriminate Hf|]. simpl.
  unfold mbind, prog_bind. destruct (generate s w) as [[s1|e] w1] eqn:E1; [|done].
  destruct (validate_node pv s1 w1) as [[[ok s2]|e] w2] eqn:E2; [|done].
  destruct (route_after_validation s2 ok w2) as [[[d s3]|e] w3] eqn:E3; [|done].
  destruct (iteration pv _ _ _ _ _ _ _ _ _ _ E1 E2 E3) as (_ & _ & Hnd & _ & Hr).
  destruct d; try done. apply IH. rewrite Hr in Hf by done. by injection Hf.
Qed.

(** A run that returned: its attempts, the session it leaves, and what it left in
    the session's records. *)
Definition run_ok (pv : PolicyValidator) `{Pydantic} `{Difflib} `{PyFloat} (n : nat) (s : session)
    (g : GraphRun) : Prop :=
  (S n ≤ run_attempts g ≤ n + attempts_left s)%nat ∧ same_run s (run_session g) ∧
  is_Some (s_generated_policy (run_session g)) ∧
  (run_final g = Completed → ∃ p spec rec, s_generated_policy (run_session g) = Some p ∧
     validate_policy p = Ok spec ∧ vr_ok (validate pv spec) = true ∧
     s_deployment_record (run_session g) = Some rec ∧ jsonb_has "status" "accepted" rec = true).

Lemma deploy_record `{Env} `{PayloadSigner} `{CollectorAIClient} s w rec s' w' :
  deploy s w = (Ok (rec, s'), w') → s' = set_deployment rec s.
Proof.
  unfold deploy. intros E. do 5 (apply bind_inv_ok in E as (? & ? & _ & E)). by injection E as -> <- _.
Qed.

Lemma attempt_loop_ok `{Env} `{Pydantic} `{Difflib} `{Prompts} `{PayloadSigner}
    `{PolicyGeneratorClient} `{CollectorAIClient} (pv : PolicyValidator) fuel s n w g w' :
  fuel = attempts_left s → attempt_loop pv fuel n s w = (Ok g, w') → run_ok pv n s g.
Proof.
  revert s w n. induction fuel as [|fuel IH]; intros s w n Hf; [discriminate Hf|]. simpl. intros E.
  apply bind_inv_ok in E as (s1 & w1 & E1 & E). apply bind_inv_ok in E as ([ok s2] & w2 & E2 & E).
  apply bind_inv_ok in E as ([d s3] & w3 & E3 & E).
  destruct (iteration pv _ _ _ _ _ _ _ _ _ _ E1 E2 E3) as (Hs & Hp & Hnd & Hd & Hr).
  assert (1 ≤ attempts_left s)%nat as Hone by (unfold attempts_left; lia).
  unfold run_ok. destruct d; try done.
  - unfold deploy_and_finish in E. apply bind_inv_ok in E as ([rec s4] & w4 & E4 & [= <- _]).
    apply deploy_record in E4 as ->. simpl. split_and!; [lia|lia|done|done|].
    destruct (jsonb_has "status" "accepted" rec) eqn:Eacc; [|done]. intros _.
    destruct (Hd eq_refl) as (p & spec & Hpol & Hv & Hok). by exists p, spec, rec.
  - assert (fuel = attempts_left s3) as Hf' by (rewrite Hr in Hf by done; by injection Hf).
    destruct (IH s3 w3 (S n) Hf' E) as (Ha & Hs' & Hp' & Hc).
    rewrite (Hr eq_refl). split_and!; [lia|lia|by eapply same_run_trans|done|done].
  - injection E as <- _. simpl. split_and!; [lia|lia|done|done|done].
Qed.

(** A graph run makes at least one and at most [retry_budget - retry_count + 1]
    generation attempts (four for a new session), and it ends completed only
    with a policy that passed schema and policy validation and with a deployment
    the collector accepted. *)
Theorem graph_run_bounded `{Env} `{Pydantic} `{Difflib} `{Prompts} `{PayloadSigner}
    `{PolicyGeneratorClient} `{CollectorAIClient} (pv : PolicyValidator) (s : session)
    (w w' : world) (g : GraphRun) :
  run pv s w = (Ok g, w') →
  (1 ≤ run_attempts g ≤ attempts_left s)%nat ∧ same_run s (run_session g) ∧
  (run_final g = Completed → ∃ p spec rec, s_generated_policy (run_session g) = Some p ∧
     validate_policy p = Ok spec ∧ vr_ok (validate pv spec) = true ∧
     s_deployment_record (run_session g) = Some rec ∧ jsonb_has "status" "accepted" rec = true).
Proof.
  intros E. destruct (attempt_loop_ok pv _ (initial_plan s) 0 w g w' eq_refl E) as (Ha & Hs & _ & Hc).
  by split_and!; try apply Ha.
Qed.

Lemma deploy_sent `{Env} `{PayloadSigner} `{CollectorAIClient} `{!QuietCollector} s w :
  w_sent (deploy s w).2 = w_sent w ∨
  ∃ c, w_sent (deploy s w).2 = w_sent w ++ [c] ∧ dc_tenant_id c = s_tenant_id s ∧
       dc_payload c = or_else (s_generated_policy s) (JObj []).
Proof.
  unfold deploy. set (policy := or_else (s_generated_policy s) (JObj [])).
  unfold mbind, prog_bind. destruct (py_list _ w) as [[scope|e] w1] eqn:E1.
  - right. assert (w1 = w) as -> by (unfold py_list in E1; run_prog; repeat case_match; by simplify_eq).
    exists (call_of s scope). split; [|split; reflexivity]. set (call := call_of s scope).
    cut (stable w_sent (response ← collector_deploy call;
      deployment_id ← (if nonempty (dr_deployment_id response)
                       then mret (dr_deployment_id response) else new_id);
      t ← now;
      mret (response, deployment_id, t))).
    2: { apply stable_bind; [apply collector_quiet|]. intros r. unfold new_id, now. solve_effects. }
    intros Hq. specialize (Hq (upd_sent (λ l, l ++ [call]) w)). revert Hq.
    unfold mbind, prog_bind, modify. simpl.
    destruct (collector_deploy call _) as [[r|e] w2]; simpl; [|done].
    destruct (nonempty (dr_deployment_id r)); done.
  - left. unfold py_list in E1. run_prog. repeat case_match; by simplify_eq.
Qed.

(** C7. Nothing reaches the downstream collector unvalidated: on every path,
    raises included, a graph run makes no outbound call or exactly one, for the
    session's tenant, with the generated policy, after that very policy passed
    schema validation and policy validation. *)
Theorem deploys_only_validated `{Env} `{Pydantic} `{Difflib} `{Prompts} `{PayloadSigner}
    `{PolicyGeneratorClient} `{CollectorAIClient} `{!QuietGenerator} `{!QuietCollector}
    (pv : PolicyValidator) (s : session) (w : world) :
  w_sent (run pv s w).2 = w_sent w ∨
  ∃ c spec, w_sent (run pv s w).2 = w_sent w ++ [c] ∧ dc_tenant_id c = s_tenant_id s ∧
    (validate_policy (dc_payload c) = Ok spec) ∧ vr_ok (validate pv spec) = true.
Proof.
  unfold run. change (s_tenant_id s) with (s_tenant_id (initial_plan s)).
  generalize (attempts_left s) as fuel, 0%nat as n, (initial_plan s) as s0. clear s.
  intros fuel. revert w. induction fuel as [|fuel IH]; intros w n s; simpl; [by left|].
  unfold mbind, prog_bind. assert (w_sent (generate s w).2 = w_sent w) as Hg.
  { unfold generate, render_prompt, retry_block, subst.
    repeat first [apply stable_bind; [|intros ?] | apply generator_quiet | effects_step]. }
  destruct (generate s w) as [[s1|e] w1] eqn:E1; simpl in Hg; [|by left].
  destruct (validate_node pv s1 w1) as [[[ok s2]|e] w2] eqn:E2.
  2: { left. simpl. rewrite <- Hg. unfold validate_node in E2. run_prog.
       repeat case_match; by simplify_eq. }
  pose proof (validate_node_session _ _ _ _ _ _ E2) as (-> & _).
  destruct (route_after_validation s2 ok w1) as [[[d s3]|e] w3] eqn:E3.
  2: { left. simpl. rewrite <- Hg. unfold route_after_validation in E3. run_prog.
       repeat case_match; by simplify_eq. }
  destruct (iteration pv _ _ _ _ _ _ _ _ _ _ E1 E2 E3) as ((Ht & _) & _ & Hnd & Hd & _).
  pose proof (route_session _ _ _ _ _ _ E3) as (_ & _ & Hw3 & _).
  rewrite <- Hg, <- Hw3, <- Ht.
  destruct d; [|apply IH | by left | done].
  destruct (Hd eq_refl) as (p & spec & Hp & Hv & Hok). unfold deploy_and_finish.
  pose proof (deploy_sent s3 w3) as Hs. unfold mbind, prog_bind.
  destruct (deploy s3 w3) as [[[rec s4]|e] w4]; simpl in *;
    (destruct Hs as [Hs|(c & Hs & Hct & Hcp)]; [by left|]); right; exists c, spec;
    (split; [done|]); (split; [done|]); (split; [|done]); rewrite Hcp, Hp; simpl;
    (destruct (truthy p) eqn:Etr; [done|]); exfalso;
    unfold validate_policy, model in Hv; by destruct p as [ | | | | | |[]].
Qed.

(** * A concrete run *)
Module GraphSamples.
#[global] Instance pydantic : Pydantic := {|
  lax_int := λ j, match j with JInt z => Some z | _ => None end;
  lax_float := λ j, match j with JFloat q => Some q | JInt z => Some (inject_Z z) | _ => None end;
  lax_bool := λ j, match j with JBool b => Some b | _ => None end;
  lax_datetime := λ _, None;
  pyd_msg := λ _, "invalid";
  pyd_str := λ _, "validation error";
  policy_json_schema := JObj [] |}.
#[global] Instance pydantic_laws : @PydanticLaws pydantic.
Proof. by split. Qed.
#[global] Instance difflib : Difflib := λ _ _, [].
#[global] Instance prompts : Prompts := {|
  system_md := "system";
  user_md := "Finding: {{ finding_id }}{% if retry_context %}{{ retry_context_json }}{% endif %}" |}.
#[global] Instance signer : PayloadSigner := {| sign_payload := λ _, "sig"; key_id := "dev-key-1" |}.

Definition policy : json := JObj
  [ ("policy_id", JStr "policy-F1"); ("version", JStr "1.0.0");
    ("signals", JArr [JObj [("vss_name", JStr "Vehicle.Speed"); ("sample_rate_hz", JFloat 1);
                            ("priority", JInt 5)]]);
    ("collection_window_hours", JInt 72); ("hypothesis", JStr "h");
    ("vehicle_scope", JArr [JStr "VIN-1"]);
    ("data_governance_flags", JObj [("pii_consent", JBool false); ("has_pii_signal", JBool false)]);
    ("confidence_threshold", JFloat (7 # 10)); ("generated_from_session_id", JStr "S1");
    ("originating_finding", JObj [("tenant_id", JStr "acme"); ("finding_id", JStr "F1")]) ].
Definition info : json := JObj
  [ ("slm_repo", JStr "dev/default"); ("slm_runtime", JStr "stub");
    ("slm_revision_sha", JStr "0000000000000000000000000000000000000000");
    ("slm_runtime_version", JStr "dev-default"); ("slm_quantization", JStr "none") ].
#[global] Instance generator : PolicyGeneratorClient :=
  λ _, mret {| gs_policy := policy; gs_runtime_info := info; gs_usage := JObj [] |}.
#[global] Instance generator_ok : @QuietGenerator generator.
Proof. done. Qed.
#[global] Instance collector : CollectorAIClient :=
  λ _, mret {| dr_deployment_id := "D1"; dr_status := "accepted"; dr_downstream := None;
               dr_accepted_at := None; dr_expires_at := Some "2023-11-17T22:13:20+00:00" |}.
#[global] Instance collector_ok : @QuietCollector collector.
Proof. done. Qed.

Definition pv : PolicyValidator :=
  {| pv_vss := {| vss_signals := [("Vehicle.Speed", JNull)] |};
     pv_governance := new_checker ["Vehicle.CurrentLocation"] true |}.
Definition finding : json := JObj
  [ ("tenant_id", JStr "acme"); ("finding_id", JStr "F1"); ("schema_version", JStr "1.0.0");
    ("anomaly_type", JStr "a"); ("hypothesis_class", JStr "c"); ("hypothesis_statement", JStr "h");
    ("candidate_signals", JArr []); ("vehicle_scope", JArr [JStr "VIN-1"]);
    ("upstream_confidence", JFloat (8 # 10)) ].
Definition sess : session := new_session "S1" "acme" "corr-1" finding 0.
End GraphSamples.

Lemma graph_run_bounded_witness :
  ∃ g w', run (H := Samples.env) GraphSamples.pv GraphSamples.sess Samples.start = (Ok g, w') ∧
    run_final g = Completed ∧ (1 ≤ run_attempts g ≤ 4)%nat.
Proof.
  eexists _, _. split; [vm_compute; reflexivity|]. split; [reflexivity|].
  eapply (graph_run_bounded (H := Samples.env) GraphSamples.pv GraphSamples.sess Samples.start).
  vm_compute. reflexivity.
Defined.

Lemma deploys_only_validated_witness :
  w_sent (run (H := Samples.env) GraphSamples.pv GraphSamples.sess Samples.start).2 = [] ∨
  ∃ c spec, w_sent (run (H := Samples.env) GraphSamples.pv GraphSamples.sess Samples.start).2
      = [] ++ [c] ∧ dc_tenant_id c = "acme" ∧
    validate_policy (dc_payload c) = Ok spec ∧ vr_ok (validate GraphSamples.pv spec) = true.
Proof.
  apply (deploys_only_validated (H := Samples.env) GraphSamples.pv GraphSamples.sess Samples.start).
Defined.
