(* ===== verification/Signing.v ===== *)
(** [deployer/signing.py]: the canonical payload and the local-key signer, over
    the Ed25519 library as a parameter; the signer is the [PayloadSigner] the
    deployer node and the runner use. *)
From S2P Require Import Prelude PyStr PyDict Json JsonText PyTime Errors Models World Samples Database PyVal Validator Graph.

(** [cryptography]: signing and verification, and the PEM form of a private key.
    A PEM text may hold a key of another algorithm. *)
Class Ed25519 := {
  private_key : Type;
  public_key : Type;
  public_of : private_key → public_key;
  ed_sign : private_key → string → string;
  ed_verify : public_key → string → string → bool;
  generate_key : nat → private_key;
  to_pem : private_key → string;
  load_pem : string → result exn (option private_key) }.
(** What its documentation promises: signatures verify, and PEM loses nothing. *)
Class Ed25519Laws `{Ed25519} := {
  sign_verifies : ∀ k m, ed_verify (public_of k) (ed_sign k m) m = true;
  pem_roundtrip : ∀ k, load_pem (to_pem k) = Ok (Some k) }.

(** [canonical_payload]. *)
Definition canonical_payload `{PyFloat} (payload : json) : string := canonical payload.

Record LocalKeySigner `{Ed25519} := {
  ls_private : private_key;
  ls_public : public_key;
  ls_key_id : string }.

Section Signer.
Context `{PyFloat} `{Ed25519}.

(** [generate_for_tests]; [n] is the draw from the system's random source. *)
Definition generate_for_tests (n : nat) (key_id : string) : LocalKeySigner :=
  let sk := generate_key n in
  {| ls_private := sk; ls_public := public_of sk; ls_key_id := key_id |}.

(** [from_path], on the content of the file at the path. *)
Definition from_path (n : nat) (key_id : string) : prog exn (option string) LocalKeySigner :=
  content ← get;
  sk ← match content with
       | Some text => lift (load_pem text)
       | None =>
           let sk := generate_key n in
           modify (λ _, Some (to_pem sk));;
           mret (Some sk)
       end;
  match sk with
  | None => raise (ERuntimeError "unexpected private key type")
  | Some sk => mret {| ls_private := sk; ls_public := public_of sk; ls_key_id := key_id |}
  end.

Definition sign (s : LocalKeySigner) (payload : json) : string * string :=
  (ed_sign (ls_private s) (canonical_payload payload), ls_key_id s).
Definition verify_signature (s : LocalKeySigner) (payload : json) (signature key_id : string) : bool :=
  if negb (str_eqb key_id (ls_key_id s)) then false
  else ed_verify (ls_public s) signature (canonical_payload payload).

(** The signer the application hands to the graph. *)
Definition local_signer (s : LocalKeySigner) : PayloadSigner :=
  {| sign_payload := λ payload, (sign s payload).1; key_id := ls_key_id s |}.

Definition paired (s : LocalKeySigner) : Prop := ls_public s = public_of (ls_private s).
Lemma from_path_paired n kid file s file' : from_path n kid file = (Ok s, file') →
  paired s ∧ ls_key_id s = kid.
Proof.
  unfold from_path. run_prog. destruct file as [text|]; simpl.
  - destruct (load_pem text) as [[k|]|]; simpl; try done. by intros [= <- _].
  - by intros [= <- _].
Qed.
End Signer.
Arguments LocalKeySigner : clear implicits.
Arguments LocalKeySigner {_}.

(** C18. A signature covers the whole payload and nothing but it: one signer's
    signature verifies, under its key id, for exactly the payloads that are equal
    up to the order of their keys, provided the library accepts a signature for
    one message only. *)
Theorem signature_covers_payload `{PyFloat} `{Ed25519} `{!Ed25519Laws}
    (s : LocalKeySigner) (payload payload' : json) (kid : string) :
  (∀ k m m', ed_verify (public_of k) (ed_sign k m) m' = true → m = m') →
  paired s → readable payload → readable payload' →
  verify_signature s payload' (sign s payload).1 kid = true ↔
    kid = (sign s payload).2 ∧ same_json payload payload' = true.
Proof.
  intros Hbind Hp Hr Hr'. unfold verify_signature, sign, canonical_payload. simpl. rewrite Hp.
  rewrite <- canonical_same by done. destruct (str_eqb kid (ls_key_id s)) eqn:E; simpl.
  - apply str_eqb_eq in E. split; [intros Hv; split; [done|by eapply Hbind]|].
    intros [_ ->]. apply sign_verifies.
  - apply str_eqb_neq in E. split; [done|by intros [? _]].
Qed.

(** The signing key survives restarts: a process that starts on the key file a
    first start left behind verifies what the first one signed, whatever key a
    fresh start would have drawn. *)
Theorem signer_survives_restart `{PyFloat} `{Ed25519} `{!Ed25519Laws}
    (n n' : nat) (kid : string) (file file' file'' : option string) (s s' : LocalKeySigner) (payload : json) :
  from_path n kid file = (Ok s, file') → from_path n' kid file' = (Ok s', file'') →
  file'' = file' ∧ verify_signature s' payload (sign s payload).1 (sign s payload).2 = true.
Proof.
  intros E1 E2. destruct (from_path_paired _ _ _ _ _ E1) as [Hp Hk].
  assert (file'' = file' ∧ s' = s) as [-> ->].
  { unfold from_path in E1, E2. run_prog. destruct file as [text|]; simpl in E1.
    - destruct (load_pem text) as [[k|]|] eqn:El; simpl in E1; try done. injection E1 as <- <-.
      rewrite El in E2. simpl in E2. by injection E2 as <- <-.
    - injection E1 as <- <-. simpl in E2. rewrite pem_roundtrip in E2. simpl in E2.
      by injection E2 as <- <-. }
  split; [done|]. unfold verify_signature, sign. simpl. rewrite str_eqb_refl. simpl. rewrite Hp.
  apply sign_verifies.
Qed.

(** * A concrete signer *)
Module SigningSamples.
(** Keys are numbers and a signature carries the message; another algorithm's PEM
    text starts with [RSA]. *)
Definition toy : Ed25519 := {|
  private_key := nat; public_key := nat; public_of := λ k, k;
  ed_sign := λ k m, str_of_Z (Z.of_nat k) +:+ ":" +:+ m;
  ed_verify := λ k s m, str_eqb s (str_of_Z (Z.of_nat k) +:+ ":" +:+ m);
  generate_key := λ n, n;
  to_pem := λ k, str_of_Z (Z.of_nat k);
  load_pem := λ s, if startswith s "RSA" then Ok None
                   else if all_digits s then Ok (Some (Z.to_nat (digits_val s)))
                   else Raise (EValueError "PEM") |}.
#[global] Instance toy_laws : @Ed25519Laws toy.
Proof.
  split; simpl.
  - intros k m. apply str_eqb_refl.
  - intros k. destruct (str_of_nat_digits k) as (c & ds & -> & Hc & Hds & Hv).
    assert (startswith (String c ds) "RSA" = false) as ->.
    { unfold startswith. simpl. case_match; [|done]. subst. by vm_compute in Hc. }
    unfold all_digits. simpl sall. rewrite Hc, Hds. simpl. rewrite Hv. by rewrite Nat2Z.id.
Qed.
Lemma toy_binding k m m' : @ed_verify toy k (@ed_sign toy k m) m' = true → m = m'.
Proof.
  intros E. change (str_eqb (str_of_Z (Z.of_nat k) +:+ ":" +:+ m) (str_of_Z (Z.of_nat k) +:+ ":" +:+ m') = true) in E.
  apply str_eqb_eq, (inj (String.append _)), (inj (String.append ":")) in E. done.
Qed.
Definition signer1 : @LocalKeySigner toy := @generate_for_tests toy 7 "dev-key-1".
Definition policy1 : json := JObj [("version", JStr "1.0.0"); ("signals", JArr [JInt 1])].
Definition policy2 : json := JObj [("signals", JArr [JInt 1]); ("version", JStr "1.0.0")].
End SigningSamples.

Lemma signature_covers_payload_witness :
  @verify_signature Samples.floats SigningSamples.toy SigningSamples.signer1 SigningSamples.policy2
    (@sign Samples.floats SigningSamples.toy SigningSamples.signer1 SigningSamples.policy1).1 "dev-key-1" = true ↔
  "dev-key-1" = "dev-key-1" ∧ same_json SigningSamples.policy1 SigningSamples.policy2 = true.
Proof.
  apply (@signature_covers_payload Samples.floats SigningSamples.toy _ SigningSamples.signer1
           SigningSamples.policy1 SigningSamples.policy2 "dev-key-1").
  - apply SigningSamples.toy_binding.
  - reflexivity.
  - split; [|split; [done|by repeat split]]. by apply (bool_decide_unpack _); vm_compute.
  - split; [|split; [by repeat split|done]]. by apply (bool_decide_unpack _); vm_compute.
Defined.
Lemma signer_survives_restart_witness :
  Some "7" = Some "7" ∧
  @verify_signature Samples.floats SigningSamples.toy SigningSamples.signer1 SigningSamples.policy1
    (@sign Samples.floats SigningSamples.toy SigningSamples.signer1 SigningSamples.policy1).1
    (@sign Samples.floats SigningSamples.toy SigningSamples.signer1 SigningSamples.policy1).2 = true.
Proof.
  apply (@signer_survives_restart Samples.floats SigningSamples.toy _ 7 9 "dev-key-1" None (Some "7")
           (Some "7") SigningSamples.signer1 SigningSamples.signer1 SigningSamples.policy1);
    vm_compute; reflexivity.
Defined.
