(* ===== verification/Deployer.v ===== *)
(** [deployer/]: the tenant-scope check, its audited wrapper, and the simulated
    and real collector clients. *)
From S2P Require Import Prelude PyStr PyDict Json JsonText PyTime Errors Models World Samples Database Isolation PyVal AuditLog HotStore RateLimit Vehicles Validator Graph.
Local Open Scope Z_scope.

(** * [deployer/tenant_scope_check.py] *)
Definition str_or_none (o : option string) : json :=
  match o with Some s => JStr s | None => JNull end.

Section ScopeCheck.
Context `{Env} `{CollectorAIClient}.

Definition TenantVehicleMismatch (policy_id target declared : string) (owner : option string)
    : cm_error :=
  CmError CTenantVehicleMismatch "TENANT_VEHICLE_MISMATCH" 409
    ("target vehicle " +:+ py_repr (JStr target) +:+ " is owned by " +:+
     py_repr (str_or_none owner) +:+ ", not " +:+ py_repr (JStr declared))
    (Some (JObj [("policy_id", JStr policy_id); ("target_vehicle_id", JStr target);
                 ("policy_declared_tenant_id", JStr declared);
                 ("vehicle_owning_tenant_id", str_or_none owner)])).

(** The loop over the vehicles in scope. *)
Fixpoint check_vehicles (policy_id declared : string) (scope : list json) : M unit :=
  match scope with
  | [] => mret tt
  | v :: scope' =>
      owner ← cached_get_owner (py_str v);
      if bool_decide (owner = Some declared) then check_vehicles policy_id declared scope'
      else raise (ECollectMind (TenantVehicleMismatch policy_id (py_str v) declared owner))
  end.

(** [validate_tenant_scope]. *)
Definition validate_tenant_scope (policy : json) : M unit :=
  let declared := py_str (jget_or "tenant_id" (JStr "") policy) in
  let policy_id := py_str (jget_or "policy_id" (JStr "") policy) in
  scope ← py_list (or_else (jget "vehicle_scope" policy) (JArr []));
  check_vehicles policy_id declared scope.

(** * [deployer/node.py] *)
(** The audit event of a rejected deployment. *)
Definition rejection_event (policy : json) (tenant_id correlation_id : string) (details : json)
    : audit_args :=
  with_finding
    (JObj [ ("policy_ref", JObj [("policy_id", JStr (py_str (jget_or "policy_id" (JStr "") policy)));
                                 ("version", JStr (py_str (jget_or "version" (JStr "1.0.0") policy)))]);
            ("target_vehicle_id", jget_or "target_vehicle_id" JNull details);
            ("policy_declared_tenant_id", jget_or "policy_declared_tenant_id" JNull details);
            ("vehicle_owning_tenant_id", jget_or "vehicle_owning_tenant_id" JNull details) ])
    (event tenant_id "deployment_rejected" correlation_id tenant_id).

(** [deploy_with_tenant_scope_check]. *)
Definition deploy_with_tenant_scope_check (policy : json) (tenant_id correlation_id : string)
    : M DeployResponse :=
  catch (validate_tenant_scope policy) (λ e,
    match e with
    | ECollectMind (CmError CTenantVehicleMismatch _ _ _ details) =>
        write (rejection_event policy tenant_id correlation_id (opt_json details));;
        raise e
    | _ => raise e
    end);;
  scope ← py_list (or_else (jget "vehicle_scope" policy) (JArr []));
  let call := DeployCall tenant_id (JStr (py_str (jget_or "policy_id" (JStr "") policy)))
    (JStr (py_str (jget_or "version" (JStr "1.0.0") policy))) scope policy "" "" in
  modify (upd_sent (λ l, l ++ [call]));;
  collector_deploy call.
End ScopeCheck.

(** * [deployer/simulator.py] *)
Section Simulator.
Context `{Env}.

(** [SimulatorCollectorAIClient.deploy], with the failure rate and status of the
    instance and the acceleration factor of the environment. *)
Definition simulator_deploy (fail_rate : Q) (failure_status : string) (accel : Q) (c : deploy_call)
    : M DeployResponse :=
  match dc_vehicle_scope c with
  | [] => mret {| dr_deployment_id := ""; dr_status := "rejected";
                  dr_downstream := Some (JObj [("reason", JStr "empty vehicle_scope")]);
                  dr_accepted_at := None; dr_expires_at := None |}
  | scope =>
      failed ← (if Qle_bool fail_rate 0 then mret false
                else x ← random; mret (negb (Qle_bool fail_rate x)));
      if (failed : bool) then
        id ← new_id;
        mret {| dr_deployment_id := id; dr_status := failure_status;
                dr_downstream := Some (JObj [("reason", JStr "injected failure")]);
                dr_accepted_at := None; dr_expires_at := None |}
      else
        t ← now;
        window ← match jget_or "collection_window_hours" (JInt 24) (dc_payload c) with
                 | JNull | JArr _ | JObj _ => mret 24
                 | v => py_int v
                 end;
        let expires := t + timedelta_us (inject_Z (window * 3600) / accel) in
        (if representable expires then mret tt else raise (EOther "date value out of range"));;
        id ← new_id;
        let response :=
          {| dr_deployment_id := id; dr_status := "accepted";
             dr_downstream := Some (JObj
               [("tenant_id", JStr (dc_tenant_id c)); ("policy_id", dc_policy_id c);
                ("version", dc_version c); ("vehicles", JArr scope);
                ("signature_key_id", JStr (dc_key_id c))]);
             dr_accepted_at := Some (isoformat t); dr_expires_at := Some (isoformat expires) |} in
        modify (upd_inflight (dset id response));;
        mret response
  end.

(** [SimulatorCollectorAIClient.get]. *)
Definition simulator_get (deployment_id : string) : M (option DeployResponse) :=
  gets (λ w, dget deployment_id (w_inflight w)).

(** * [deployer/real_stub.py] *)
Definition real_deploy (enabled : bool) (c : deploy_call) : M DeployResponse :=
  if enabled then raise (ENotImplemented "real Collector AI integration is deferred")
  else raise (ECollectMind (CmError CCollectMindError "NOT_IMPLEMENTED" 501
    "RealCollectorAIClient is not implemented in feature 001."
    (Some (JObj [("feature", JStr "001-policy-loop-vertical-slice");
                 ("see", JStr "docs/adr/0005-slm-hosting-topology.md")])))).
End Simulator.

(** The simulator as the collector of the graph. *)
#[global] Instance simulator_quiet `{Env} rate status accel :
  @QuietCollector (simulator_deploy rate status accel).
Proof.
  intros c. unfold collector_deploy, simulator_deploy, random, new_id, now, py_int. solve_effects.
Qed.

(** * The scope check *)
Section ScopeFacts.
Context `{Env}.

(** The lookups of the loop answered, in order, with these owners. *)
Inductive owners_answer : list json → world → list (option string) → world → Prop :=
| oa_nil w : owners_answer [] w [] w
| oa_cons v l o os w w1 w2 : cached_get_owner (py_str v) w = (Ok o, w1) →
    owners_answer l w1 os w2 → owners_answer (v :: l) w (o :: os) w2.

Lemma check_vehicles_ok pid declared scope w w' :
  check_vehicles pid declared scope w = (Ok tt, w') →
  ∃ os, owners_answer scope w os w' ∧ Forall (λ o, o = Some declared) os.
Proof.
  revert w. induction scope as [|v scope IH]; intros w; simpl.
  - intros [= <-]. exists []. by split; constructor.
  - intros E. apply bind_inv_ok in E as (o & w1 & E1 & E).
    destruct (bool_decide_reflect (o = Some declared)) as [->|]; [|done].
    destruct (IH _ E) as (os & Ho & Hf). exists (Some declared :: os).
    split; [by econstructor | by constructor].
Qed.

Lemma cached_owner_sent v : stable w_sent (cached_get_owner v).
Proof.
  assert (∀ A (m : M A), stable w_sent m → stable w_sent (attempt m)) as Hatt.
  { intros A m Hm w. unfold attempt. specialize (Hm w). by destruct (m w). }
  unfold cached_get_owner, repo_get_owner, acquire_service_principal, redis_get, redis_set.
  repeat first [apply Hatt; by apply command_outside | effects_step].
Qed.

Lemma scope_check_sent policy : stable w_sent (validate_tenant_scope policy).
Proof.
  unfold validate_tenant_scope, py_list. apply stable_bind; [solve_effects|]. intros scope.
  induction scope as [|v scope IH]; simpl; [apply stable_ret|].
  apply stable_bind; [apply cached_owner_sent|]. intros o.
  destruct (bool_decide _); [exact IH | apply stable_raise].
Qed.
End ScopeFacts.

(** The first gate holds: whatever happens, an outbound call leaves only
    after the scope check passed, that is, after every vehicle of the policy was
    looked up and found to be owned by the tenant the policy declares; in every
    other case (mismatch, lookup failure, audit failure) nothing is sent. *)
Theorem scope_check_gates_deploy `{Env} `{CollectorAIClient} `{!QuietCollector} (policy : json)
    (t cid : string) (w : world) :
  w_sent (deploy_with_tenant_scope_check policy t cid w).2 = w_sent w ∨
  ∃ c scope os w1,
    w_sent (deploy_with_tenant_scope_check policy t cid w).2 = w_sent w ++ [c] ∧
    dc_tenant_id c = t ∧ dc_payload c = policy ∧ dc_vehicle_scope c = scope ∧
    owners_answer scope w os w1 ∧
    Forall (λ o, o = Some (py_str (jget_or "tenant_id" (JStr "") policy))) os.
Proof.
  unfold deploy_with_tenant_scope_check. set (handler := λ e : exn, _).
  assert (∀ e, stable w_sent (handler e : M unit)) as Hh.
  { intros e. subst handler. simpl. repeat case_match; try apply stable_raise.
    apply stable_bind; [by apply write_outside | intros; apply stable_raise]. }
  pose proof (scope_check_sent policy w) as Hs.
  destruct (validate_tenant_scope policy w) as [[[]|e] w1] eqn:E; simpl in Hs.
  2: { left. specialize (Hh e w1).
       destruct (handler e w1) as [[[]|e'] w2] eqn:Eh; simpl in *.
       - exfalso. subst handler. simpl in Eh. unfold mbind, prog_bind in Eh.
         repeat (case_match; simplify_eq; try done).
       - rewrite (bind_raise _ _ w e' w2); [etransitivity; [exact Hh | exact Hs]|].
         unfold catch. by rewrite E. }
  rewrite (bind_ok _ _ w tt w1) by (unfold catch; by rewrite E).
  unfold validate_tenant_scope in E. apply bind_inv_ok in E as (scope & w0 & E0 & E).
  assert (w0 = w) as -> by (unfold py_list in E0; run_prog; repeat case_match; by simplify_eq).
  rewrite (bind_ok _ _ w1 scope w1)
    by (unfold py_list in *; run_prog; repeat case_match; by simplify_eq).
  apply check_vehicles_ok in E as (os & Ho & Hf). right. eexists _, scope, os, w1.
  split; [etransitivity; [apply collector_quiet|]; simpl; by rewrite Hs|].
  by split_and!.
Qed.

Lemma scope_check_gates_deploy_witness :
  let p := JObj [("tenant_id", JStr "acme"); ("vehicle_scope", JArr [JStr "VIN-9"])] in
  w_sent (deploy_with_tenant_scope_check (H := Samples.env) p "acme" "c1" Samples.start).2 = [] ∨
  ∃ c scope os w1,
    w_sent (deploy_with_tenant_scope_check (H := Samples.env) p "acme" "c1" Samples.start).2 = [] ++ [c] ∧
    dc_tenant_id c = "acme" ∧ dc_payload c = p ∧ dc_vehicle_scope c = scope ∧
    owners_answer (H := Samples.env) scope Samples.start os w1 ∧
    Forall (λ o, o = Some "acme") os.
Proof. intros p. apply (scope_check_gates_deploy (H := Samples.env) p "acme" "c1" Samples.start). Defined.

(** The scope check and the policy schema disagree: a policy that passes
    schema validation cannot carry a [tenant_id], so the check compares owners
    with the empty string and refuses every schema-valid policy whose vehicles
    have an owner or none. *)
Theorem scope_check_rejects_valid_policies `{Env} `{Pydantic} (policy : json)
    (spec : CollectionPolicySpec) (v : json) (scope : list json) (w w1 : world)
    (owner : option string) :
  validate_policy policy = Ok spec → jget "vehicle_scope" policy = Some (JArr (v :: scope)) →
  cached_get_owner (py_str v) w = (Ok owner, w1) → owner ≠ Some "" →
  ∃ e, validate_tenant_scope policy w = (Raise (ECollectMind e), w1) ∧
       e_class e = CTenantVehicleMismatch ∧ e_status e = 409 ∧ family (e_class e) = Fatal.
Proof.
  intros Hv Hs Ho Hne. unfold validate_tenant_scope.
  assert (jget_or "tenant_id" (JStr "") policy = JStr "") as ->.
  { unfold jget_or. rewrite (model_closed _ _ _ _ _ Hv); [done|]. unfold policy_fields.
    rewrite !elem_of_cons, elem_of_nil. intuition discriminate. }
  rewrite Hs. simpl. unfold mbind, prog_bind. simpl. unfold mbind, prog_bind. rewrite Ho.
  destruct (bool_decide_reflect (owner = Some "")) as [|_]; [done|]. by eexists.
Qed.

Lemma scope_check_rejects_valid_policies_witness :
  let w := (assign (H := Samples.env) "VIN-1" "acme" "ops" "initial_provisioning" Samples.start).2 in
  ∃ e, validate_tenant_scope (H := Samples.env) GraphSamples.policy w =
         (Raise (ECollectMind e), (cached_get_owner (H := Samples.env) "VIN-1" w).2) ∧
       e_class e = CTenantVehicleMismatch ∧ e_status e = 409 ∧ family (e_class e) = Fatal.
Proof.
  intros w. destruct (validate_policy GraphSamples.policy) as [spec|es] eqn:E;
    [|vm_compute in E; discriminate E].
  apply (scope_check_rejects_valid_policies (H := Samples.env) GraphSamples.policy spec
    (JStr "VIN-1") [] w (cached_get_owner (H := Samples.env) "VIN-1" w).2 (Some "acme")).
  - exact E.
  - reflexivity.
  - apply pair_of_fst. vm_compute. reflexivity.
  - discriminate.
Defined.
