(* ===== verification/Repository.v ===== *)
(** [registry/repository.py]: policies, deployments and outcomes. *)
From S2P Require Import Prelude PyStr PyDict Json JsonText PyTime Errors TokenBucket Models World Samples Database Isolation PyVal.
Local Open Scope Z_scope.

(** The [audit_meta] dict of [PolicyRepository.insert]. *)
Record audit_meta := AuditMeta {
  m_prompt_template_version : string;
  m_slm_repo : json;
  m_slm_revision_sha : json;
  m_slm_runtime : json;
  m_slm_runtime_version : json;
  m_slm_quantization : json;
  m_slm_decoding_seed : Z;
  m_payload_signature : string;
  m_signature_key_id : string }.

(** [_row_to_policy]. *)
Definition row_to_policy (r : policy_row) : json :=
  JObj [ ("policy_id", JStr (po_policy_id r));
         ("version", JStr (po_version r));
         ("signals", po_signal_spec r);
         ("trigger_conditions", po_trigger_conditions r);
         ("collection_window_hours", JInt (po_collection_window_hours_logical r));
         ("hypothesis", JStr (po_hypothesis_statement r));
         ("vehicle_scope", po_vehicle_scope r);
         ("data_governance_flags", po_data_governance_flags r);
         ("confidence_threshold", JFloat (po_confidence_threshold r));
         ("generated_from_session_id", JStr (po_generated_from_session_id r));
         ("originating_finding", po_originating_finding r);
         ("prompt_template_version", JStr (po_prompt_template_version r));
         ("slm_repo", JStr (po_slm_repo r));
         ("slm_revision_sha", JStr (po_slm_revision_sha r));
         ("slm_runtime", JStr (po_slm_runtime r));
         ("slm_runtime_version", JStr (po_slm_runtime_version r));
         ("slm_quantization", JStr (po_slm_quantization r));
         ("slm_decoding_seed", JInt (po_slm_decoding_seed r));
         ("created_at", JStr (isoformat (po_created_at r))) ].

(** [_row_to_outcome]. *)
Definition row_to_outcome (r : outcome_row) : json :=
  JObj [ ("outcome_id", JStr (oc_outcome_id r));
         ("originating_finding", oc_originating_finding r);
         ("policy_ref", JObj [("tenant_id", JStr (oc_tenant_id r));
                              ("policy_id", JStr (oc_policy_id r));
                              ("version", JStr (oc_version r))]);
         ("hypothesis_state", JStr (oc_hypothesis_state r));
         ("evaluated_at", JStr (isoformat (oc_evaluated_at r)));
         ("signals_collected_count", JInt (oc_signals_collected_count r));
         ("data_quality_score", JFloat (oc_data_quality_score r));
         ("evidence_summary", oc_evidence_summary r) ].

(** [ORDER BY created_at DESC LIMIT n]. *)
Definition newest_first {R} (key : R → Z) (rows : list R) : list R := sort_by (λ r, - key r) rows.

Section PolicyRepository.
Context `{Env}.

(** [PolicyRepository.insert]. *)
Definition policy_insert (tenant_id : string) (policy : json) (m : audit_meta) : M unit :=
  acquire tenant_id (λ c,
    policy_id ← subscript "policy_id" policy;
    version ← subscript "version" policy;
    signals ← subscript "signals" policy;
    triggers ← dict_get "trigger_conditions" policy;
    window_j ← subscript "collection_window_hours" policy;
    window ← py_int window_j;
    scope ← subscript "vehicle_scope" policy;
    hypothesis ← dict_get "hypothesis" policy;
    flags ← subscript "data_governance_flags" policy;
    threshold_j ← subscript "confidence_threshold" policy;
    threshold ← py_float threshold_j;
    session_id ← subscript "generated_from_session_id" policy;
    finding ← subscript "originating_finding" policy;
    created ← now;
    policy_id ← text_arg "policy_id" policy_id;
    version ← text_arg "version" version;
    hypothesis ← text_arg "hypothesis_statement" (default (JStr "") hypothesis);
    session_id ← text_arg "generated_from_session_id" session_id;
    repo ← text_arg "slm_repo" (m_slm_repo m);
    sha ← text_arg "slm_revision_sha" (m_slm_revision_sha m);
    rt ← text_arg "slm_runtime" (m_slm_runtime m);
    rtv ← text_arg "slm_runtime_version" (m_slm_runtime_version m);
    quant ← text_arg "slm_quantization" (m_slm_quantization m);
    insert_policy c
      (PolicyRow tenant_id policy_id version signals (default (JArr []) triggers) window scope
        hypothesis flags (round3 threshold) session_id finding (m_prompt_template_version m)
        repo sha rt rtv quant (m_slm_decoding_seed m) (m_payload_signature m)
        (m_signature_key_id m) created);;
    mret tt).

(** [PolicyRepository.get]. *)
Definition policy_get (tenant_id policy_id : string) (version : option string) : M (option json) :=
  acquire tenant_id (λ c,
    rows ← match version with
           | None =>
               rows ← select c db_collection_policies
                 (λ r, str_eqb (po_tenant_id r) tenant_id && str_eqb (po_policy_id r) policy_id);
               mret (newest_first po_created_at rows)
           | Some v =>
               select c db_collection_policies
                 (λ r, str_eqb (po_tenant_id r) tenant_id && str_eqb (po_policy_id r) policy_id &&
                       str_eqb (po_version r) v)
           end;
    mret (row_to_policy <$> head rows)).

(** [PolicyRepository.list_versions]. *)
Definition policy_list_versions (tenant_id policy_id : string) (limit : nat) : M (list json) :=
  acquire tenant_id (λ c,
    rows ← select c db_collection_policies
      (λ r, str_eqb (po_tenant_id r) tenant_id && str_eqb (po_policy_id r) policy_id);
    mret (row_to_policy <$> take limit (newest_first po_created_at rows))).

(** [PolicyRepository.find_by_finding]. *)
Definition policy_find_by_finding (tenant_id finding_id : string) : M (option json) :=
  acquire tenant_id (λ c,
    rows ← select c db_collection_policies
      (λ r, str_eqb (po_tenant_id r) tenant_id &&
            jsonb_has "finding_id" finding_id (po_originating_finding r));
    mret (row_to_policy <$> head (newest_first po_created_at rows))).

(** The join condition of [find_active_for_vehicle]. *)
Definition deployed_as (p : policy_row) (d : deployment_row) : bool :=
  str_eqb (dp_tenant_id d) (po_tenant_id p) && str_eqb (dp_policy_id d) (po_policy_id p) &&
  str_eqb (dp_version d) (po_version p) && str_eqb (dp_status d) "accepted".

(** [PolicyRepository.find_active_for_vehicle]. *)
Definition policy_find_active (tenant_id vehicle_id : string) : M (option json) :=
  acquire tenant_id (λ c,
    deps ← select c db_deployment_targets (λ _, true);
    rows ← select c db_collection_policies
      (λ r, str_eqb (po_tenant_id r) tenant_id && jsonb_elem vehicle_id (po_vehicle_scope r) &&
            existsb (deployed_as r) deps);
    mret (row_to_policy <$> head (newest_first po_created_at rows))).
End PolicyRepository.

(** [_PUBLIC]. *)
Definition PUBLIC : string := "feature-001-default".

(** [value.replace("Z", "+00:00")]. *)
Fixpoint replace_Z (s : string) : string :=
  match s with
  | EmptyString => ""
  | String c s' => (if ascii_eqb c "Z" then "+00:00" else String c "") +:+ replace_Z s'
  end.
(** [_parse_iso]. *)
Definition parse_iso (value : option json) : M (option Z) :=
  match value with
  | None | Some JNull => mret None
  | Some (JStr s) =>
      match fromisoformat (replace_Z s) with
      | Some t => mret (Some t)
      | None => raise (EValueError ("Invalid isoformat string: '" +:+ replace_Z s +:+ "'"))
      end
  | Some _ => raise (EAttributeError "object has no attribute 'replace'")
  end.

Section DeploymentRepository.
Context `{Env}.

(** [DeploymentRepository.insert]. *)
Definition deployment_insert (tenant_id : string) (record : json) : M unit :=
  acquire tenant_id (λ c,
    deployment_id ← subscript "deployment_id" record;
    policy_id ← subscript "policy_id" record;
    version ← subscript "version" record;
    environment ← dict_get "environment" record;
    scope ← subscript "vehicle_scope" record;
    status ← subscript "status" record;
    downstream ← dict_get "downstream_response" record;
    requested ← now;
    deployed_j ← dict_get "deployed_at" record;
    deployed ← parse_iso deployed_j;
    expires_j ← dict_get "expires_at" record;
    expires ← parse_iso expires_j;
    deployment_id ← text_arg "deployment_id" deployment_id;
    policy_id ← text_arg "policy_id" policy_id;
    version ← text_arg "version" version;
    environment ← text_arg "environment" (default (JStr "dev") environment);
    status ← text_arg "status" status;
    insert_deployment c
      (DeploymentRow deployment_id tenant_id policy_id version environment scope status
        (Some (default (JObj []) downstream)) requested deployed expires);;
    mret tt).

Definition is_due (now : Z) (r : deployment_row) : bool :=
  str_eqb (dp_status r) "accepted" &&
  match dp_expires_at r with Some x => x <=? now | None => false end.

(** [DeploymentRepository.list_due]. *)
Definition list_due (now : Z) : M (list deployment_row) :=
  acquire PUBLIC (λ c,
    rows ← select c db_deployment_targets (is_due now);
    mret (take 100 (sort_by (λ r, default 0 (dp_expires_at r)) rows))).

Definition set_status (s : string) (r : deployment_row) : deployment_row :=
  DeploymentRow (dp_deployment_id r) (dp_tenant_id r) (dp_policy_id r) (dp_version r)
    (dp_environment r) (dp_vehicle_scope r) s (dp_downstream_response r) (dp_requested_at r)
    (dp_accepted_at r) (dp_expires_at r).

(** [DeploymentRepository.mark_expired]. *)
Definition mark_expired (deployment_id : string) : M unit :=
  acquire PUBLIC (λ c,
    modify (upd_db (upd_deployment_targets
      (update_where c (λ r, str_eqb (dp_deployment_id r) deployment_id) (set_status "expired"))))).
End DeploymentRepository.

(** The outcome dict [FeedbackWorker._process] builds. *)
Record outcome_record := OutcomeRecord {
  ou_outcome_id : string;
  ou_originating_finding : json;
  ou_policy_id : string;
  ou_version : string;
  ou_hypothesis_state : string;
  ou_evaluated_at : Z;
  ou_signals_collected_count : Z;
  ou_data_quality_score : Q;
  ou_evidence_summary : json }.

Section OutcomeRepository.
Context `{Env}.

(** [OutcomeRepository.insert]. *)
Definition outcome_insert (tenant_id : string) (o : outcome_record) : M unit :=
  acquire tenant_id (λ c,
    insert_outcome c
      (OutcomeRow (ou_outcome_id o) tenant_id (ou_originating_finding o) (ou_policy_id o)
        (ou_version o) (ou_hypothesis_state o) (ou_evaluated_at o) (ou_evidence_summary o)
        (ou_signals_collected_count o) (round3 (ou_data_quality_score o)));;
    mret tt).

(** [OutcomeRepository.get_by_finding]. *)
Definition outcome_get_by_finding (tenant_id finding_id : string) : M (option json) :=
  acquire tenant_id (λ c,
    rows ← select c db_policy_outcomes
      (λ r, str_eqb (oc_tenant_id r) tenant_id &&
            jsonb_has "finding_id" finding_id (oc_originating_finding r));
    mret (row_to_outcome <$> head (newest_first oc_evaluated_at rows))).
End OutcomeRepository.

(** * Facts *)
(** The row an insertion adds, field by field. *)
Lemma policy_insert_ok `{Env} t policy m w w' : policy_insert t policy m w = (Ok tt, w') →
  w_pool w' = true ∧ nonempty t = true ∧ ∃ row,
    db_collection_policies (w_db w') = db_collection_policies (w_db w) ++ [row] ∧
    existsb (policy_pk row) (db_collection_policies (w_db w)) = false ∧ po_tenant_id row = t ∧
    jget "policy_id" policy = Some (JStr (po_policy_id row)) ∧
    jget "version" policy = Some (JStr (po_version row)) ∧
    jget "signals" policy = Some (po_signal_spec row) ∧
    jget "vehicle_scope" policy = Some (po_vehicle_scope row) ∧
    jget "data_governance_flags" policy = Some (po_data_governance_flags row) ∧
    jget "originating_finding" policy = Some (po_originating_finding row) ∧
    po_payload_signature row = m_payload_signature m.
Proof.
  intros [Hp E]%acquire_ok. destruct policy as [ | | | | | |o]; try done.
  apply bind_inv_ok in E as (pid & w1 & Epid & E). apply subscript_ok in Epid as [-> Hpid].
  apply bind_inv_ok in E as (ver & w1 & Ever & E). apply subscript_ok in Ever as [-> Hver].
  apply bind_inv_ok in E as (sig & w1 & Esig & E). apply subscript_ok in Esig as [-> Hsig].
  apply bind_inv_ok in E as (tr & w1 & Etr & E). injection Etr as <- <-.
  apply bind_inv_ok in E as (wj & w1 & Ewj & E). apply subscript_ok in Ewj as [-> _].
  apply bind_inv_ok in E as (win & w1 & Ewin & E).
  assert (w1 = w) as -> by (unfold py_int in Ewin; run_prog; repeat case_match; by simplify_eq).
  apply bind_inv_ok in E as (sc & w1 & Esc & E). apply subscript_ok in Esc as [-> Hsc].
  apply bind_inv_ok in E as (hy & w1 & Ehy & E). injection Ehy as <- <-.
  apply bind_inv_ok in E as (fl & w1 & Efl & E). apply subscript_ok in Efl as [-> Hfl].
  apply bind_inv_ok in E as (tj & w1 & Etj & E). apply subscript_ok in Etj as [-> _].
  apply bind_inv_ok in E as (thr & w1 & Ethr & E).
  assert (w1 = w) as -> by (unfold py_float in Ethr; run_prog; repeat case_match; by simplify_eq).
  apply bind_inv_ok in E as (si & w1 & Esi & E). apply subscript_ok in Esi as [-> _].
  apply bind_inv_ok in E as (fi & w1 & Efi & E). apply subscript_ok in Efi as [-> Hfi].
  apply bind_inv_ok in E as (cr & w1 & [= <- <-] & E).
  do 2 (apply bind_inv_ok in E as (? & ? & [-> ->]%text_arg_ok & E)).
  do 7 (apply bind_inv_ok in E as (? & ? & [-> _]%text_arg_ok & E)).
  apply bind_inv_ok in E as (b & w2 & Ei & [= <-]). unfold insert_policy in Ei.
  edestruct (insert_row_cases (Conn TenantRole (Some t) (w_guc w)) "collection_policies"
    db_collection_policies upd_collection_policies policy_checks)
    as [(Er & Hv & _ & Hu & _)|[(Er & _ & _ & u & Hu & Htol & _)|(e & Er)]]; rewrite Er in Ei; [|exfalso|done].
  - injection Ei as _ <-. simpl. split; [done|].
    unfold rls_visible in Hv. simpl in Hv. apply andb_true_iff in Hv as [Hne _]. split; [done|].
    eexists. split; [reflexivity|]. rewrite !jget_obj. split_and!; try done.
    by apply (Hu ("collection_policies_pkey", policy_pk, false)), list_elem_of_singleton.
  - apply elem_of_cons in Hu as [->|Hu]; [done|by apply not_elem_of_nil in Hu].
Qed.

(** C32. The registry gives back what was stored: after a policy version was
    inserted, reading that version gives its signals, vehicle scope, governance
    flags and originating finding as they were; and no version is ever stored
    twice. *)
Theorem policy_roundtrip `{Env} (t : string) (policy : json) (m : audit_meta) (w w' : world)
    (pid ver : string) :
  policy_insert t policy m w = (Ok tt, w') →
  jget "policy_id" policy = Some (JStr pid) → jget "version" policy = Some (JStr ver) →
  (∀ r, r ∈ db_collection_policies (w_db w) → po_tenant_id r = t → po_policy_id r = pid →
     po_version r ≠ ver) ∧
  ∃ j, policy_get t pid (Some ver) w' = (Ok (Some j), w') ∧
    Forall (λ k, jget k j = jget k policy)
      ["policy_id"; "version"; "signals"; "vehicle_scope"; "data_governance_flags"; "originating_finding"].
Proof.
  intros E Hpid Hver.
  destruct (policy_insert_ok _ _ _ _ _ E)
    as (Hp & Hne & row & Hdb & Hnew & Ht & Hi & Hv & Hs & Hsc & Hg & Hf & _).
  rewrite Hpid in Hi. injection Hi as ->. rewrite Hver in Hv. injection Hv as ->.
  assert (∀ r, r ∈ db_collection_policies (w_db w) → policy_pk row r = false) as Hno.
  { intros r Hr. apply not_true_is_false. intros Hc. apply not_true_iff_false in Hnew. apply Hnew.
    apply existsb_exists. exists r. by rewrite <- list_elem_of_In. }
  split.
  - intros r Hr Hrt Hrp Hrv. pose proof (Hno r Hr) as Hc. unfold policy_pk in Hc.
    by rewrite Hrt, Hrp, Hrv, Ht, !str_eqb_refl in Hc.
  - exists (row_to_policy row). split.
    + apply acquire_run; [done|]. unfold select. run_prog. rewrite Hdb, List.filter_app.
      rewrite filter_none.
      * simpl. unfold rls_visible, row_tenant, policy_tenanted. simpl.
        by rewrite Ht, Hne, !str_eqb_refl.
      * intros r Hr. pose proof (Hno r Hr) as Hc. unfold policy_pk in Hc. rewrite Ht in Hc.
        rewrite (str_eqb_sym (po_tenant_id r)), (str_eqb_sym (po_policy_id r)),
          (str_eqb_sym (po_version r)), Hc. apply andb_false_r.
    + repeat constructor; simpl; by rewrite ?jget_obj.
Qed.

Module Sample.
Definition policy : json := JObj
  [("policy_id", JStr "P1"); ("version", JStr "1.0.0"); ("signals", JArr [JObj [("vss_name", JStr "A")]]);
   ("collection_window_hours", JInt 24); ("vehicle_scope", jstrs ["VIN-1"]);
   ("data_governance_flags", JObj []); ("confidence_threshold", JFloat (8 # 10));
   ("generated_from_session_id", JStr "S1"); ("originating_finding", JObj [("finding_id", JStr "F1")])].
Definition meta : audit_meta :=
  AuditMeta "1.0.0" (JStr "repo") (JStr "0000000000000000000000000000000000000000") (JStr "stub")
    (JStr "v0") (JStr "none") 7 "sig" "key".
Definition stored : world := (policy_insert (H := Samples.env) "acme" policy meta Samples.start).2.
Definition record : json := JObj
  [("deployment_id", JStr "D1"); ("policy_id", JStr "P1"); ("version", JStr "1.0.0");
   ("vehicle_scope", jstrs ["VIN-1"]); ("status", JStr "accepted");
   ("deployed_at", JStr (isoformat 1700000000000000)); ("expires_at", JStr (isoformat 1700086400000000))].
End Sample.

Lemma policy_roundtrip_witness :
  let w' := Sample.stored in
  (∀ r, r ∈ db_collection_policies (w_db Samples.start) → po_tenant_id r = "acme" → po_policy_id r = "P1" →
     po_version r ≠ "1.0.0") ∧
  ∃ j, policy_get "acme" "P1" (Some "1.0.0") w' = (Ok (Some j), w') ∧
    Forall (λ k, jget k j = jget k Sample.policy)
      ["policy_id"; "version"; "signals"; "vehicle_scope"; "data_governance_flags"; "originating_finding"].
Proof.
  intros w'.
  apply (policy_roundtrip (H := Samples.env) "acme" Sample.policy Sample.meta Samples.start w' "P1" "1.0.0").
  - subst w'. apply pair_of_fst. vm_compute. reflexivity.
  - reflexivity.
  - reflexivity.
Defined.

Lemma replace_Z_id s : has_char "Z" s = false → replace_Z s = s.
Proof.
  induction s as [|c s IH]; [done|]. rewrite has_char_cons. intros [Hc Hs]%orb_false_iff.
  simpl. rewrite IH by done. unfold ascii_eqb in *. by rewrite Ascii.eqb_sym, Hc.
Qed.
Lemma parse_iso_isoformat x w : representable x = true →
  parse_iso (Some (JStr (isoformat x))) w = (Ok (Some x), w).
Proof.
  intros Hx. unfold parse_iso. by rewrite (replace_Z_id _ (isoformat_no_Z x)), isoformat_roundtrip.
Qed.

(** A collection window survives storage: a deployment record whose instants
    the deployer wrote with [isoformat] is stored as one row with those very
    instants, for the tenant and under the identifiers of the record, and for a
    policy version on file; the row comes due exactly from its expiry on, and
    only while it is accepted. *)
Theorem deployment_window_roundtrip `{Env} (t : string) (record : json) (d x : Z) (w w' : world) :
  deployment_insert t record w = (Ok tt, w') →
  jget "deployed_at" record = Some (JStr (isoformat d)) →
  jget "expires_at" record = Some (JStr (isoformat x)) →
  representable d = true → representable x = true →
  ∃ row, db_deployment_targets (w_db w') = db_deployment_targets (w_db w) ++ [row] ∧
    dp_tenant_id row = t ∧
    jget "deployment_id" record = Some (JStr (dp_deployment_id row)) ∧
    jget "vehicle_scope" record = Some (dp_vehicle_scope row) ∧
    dp_accepted_at row = Some d ∧ dp_expires_at row = Some x ∧
    (∃ p, p ∈ db_collection_policies (w_db w) ∧ po_tenant_id p = t ∧
       po_policy_id p = dp_policy_id row ∧ po_version p = dp_version row) ∧
    ∀ now, is_due now row = true ↔ jget "status" record = Some (JStr "accepted") ∧ x ≤ now.
Proof.
  intros [Hp E]%acquire_ok Hd Hx Rd Rx.
  apply bind_inv_ok in E as (di & w1 & Edi & E). apply subscript_ok in Edi as [-> Hdi].
  apply bind_inv_ok in E as (pi & w1 & Epi & E). apply subscript_ok in Epi as [-> _].
  apply bind_inv_ok in E as (ve & w1 & Eve & E). apply subscript_ok in Eve as [-> _].
  apply bind_inv_ok in E as (en & w1 & Een & E). apply dict_get_ok in Een as [-> _].
  apply bind_inv_ok in E as (sc & w1 & Esc & E). apply subscript_ok in Esc as [-> Hsc].
  apply bind_inv_ok in E as (st & w1 & Est & E). apply subscript_ok in Est as [-> Hst].
  apply bind_inv_ok in E as (ds & w1 & Eds & E). apply dict_get_ok in Eds as [-> _].
  apply bind_inv_ok in E as (rq & w1 & [= <- <-] & E).
  apply bind_inv_ok in E as (dj & w1 & Edj & E). apply dict_get_ok in Edj as [-> Hdj].
  rewrite Hd in Hdj. subst dj. apply bind_inv_ok in E as (dd & w1 & Edd & E).
  rewrite (parse_iso_isoformat d _ Rd) in Edd. injection Edd as <- <-.
  apply bind_inv_ok in E as (xj & w1 & Exj & E). apply dict_get_ok in Exj as [-> Hxj].
  rewrite Hx in Hxj. subst xj. apply bind_inv_ok in E as (xx & w1 & Exx & E).
  rewrite (parse_iso_isoformat x _ Rx) in Exx. injection Exx as <- <-.
  do 5 (apply bind_inv_ok in E as (? & ? & [-> ?]%text_arg_ok & E)).
  apply bind_inv_ok in E as (b & w2 & Ei & [= <-]). unfold insert_deployment in Ei.
  edestruct (insert_row_cases (Conn TenantRole (Some t) (w_guc w)) "deployment_targets"
    db_deployment_targets upd_deployment_targets deployment_checks)
    as [(Er & _ & _ & _ & Hfk)|[(Er & _ & _ & u & Hu & Htol & _)|(e & Er)]];
    rewrite Er in Ei; [|exfalso|done].
  - injection Ei as _ <-. subst. eexists. split; [reflexivity|]. split_and!; try done.
    + apply first_violation_none, Forall_cons in Hfk as [_ [Hfk _]%Forall_cons].
      simpl in Hfk. apply existsb_exists in Hfk as (p & Hin%list_elem_of_In & Heq).
      rewrite !andb_true_iff, !str_eqb_eq in Heq. exists p. naive_solver.
    + intros now'. unfold is_due. simpl. rewrite Hst, andb_true_iff, str_eqb_eq, Z.leb_le.
      naive_solver.
  - apply elem_of_cons in Hu as [->|Hu]; [done|by apply not_elem_of_nil in Hu].
Qed.

Lemma deployment_window_roundtrip_witness :
  ∃ w' row, deployment_insert (H := Samples.env) "acme" Sample.record Sample.stored = (Ok tt, w') ∧
    db_deployment_targets (w_db w') = [row] ∧ dp_expires_at row = Some 1700086400000000.
Proof.
  set (w' := (deployment_insert (H := Samples.env) "acme" Sample.record Sample.stored).2).
  assert (deployment_insert (H := Samples.env) "acme" Sample.record Sample.stored = (Ok tt, w')) as E.
  { subst w'. apply pair_of_fst. vm_compute. reflexivity. }
  destruct (deployment_window_roundtrip (H := Samples.env) "acme" Sample.record 1700000000000000
    1700086400000000 Sample.stored w' E eq_refl eq_refl eq_refl eq_refl)
    as (row & Hrow & _ & _ & _ & _ & Hx & _).
  exists w', row. split; [exact E|]. split; [|exact Hx].
  rewrite Hrow. vm_compute. reflexivity.
Defined.
