(* ===== verification/Feedback.v ===== *)
(** [feedback/] and [simulators/telemetry_generator.py]: the logical clock, the
    hypothesis rule, the synthetic telemetry, and the worker that closes the
    collection windows.  Floating-point arithmetic is taken over the rationals. *)
From Stdlib Require Import Qround Lqa.
From S2P Require Import Prelude PyStr PyDict Json JsonText PyTime Errors TokenBucket Models World Samples Database Isolation PyVal AuditLog Repository.
Local Open Scope Z_scope.

(** * [feedback/scheduler.py] *)
(** [LogicalTimeScheduler.__init__]: the factor given, or the one of the
    environment variable. *)
Definition scheduler_factor `{Env} (factor : option Q) (environ : option string) : result exn Q :=
  f ← match factor with
      | Some f => Ok f
      | None =>
          let s := default "1.0" environ in
          if nonempty s then
            match float_text s with
            | Some q => Ok (if Qeq_bool q 0 then 1%Q else q)
            | None => Raise (EValueError ("could not convert string to float: '" +:+ s +:+ "'"))
            end
          else Ok 1%Q
      end;
  if Qle_bool f 0 then
    Raise (EValueError ("TIME_ACCELERATION_FACTOR must be > 0; got " +:+ float_repr f))
  else Ok f.

(** [LogicalTimeScheduler.expires_at]. *)
Definition expires_at (factor : Q) (opened_at window_hours : Z) : M Z :=
  datetime_add opened_at (timedelta_us (inject_Z (window_hours * 3600) / factor)).

(** * [feedback/evaluator.py] *)
Record HypothesisOutcome := {
  ho_state : string;
  ho_count : Z;
  ho_quality : Q;
  ho_evidence : json }.

(** The counting loop over the values of the observations. *)
Fixpoint tally (threshold : Q) (values : list Q) (above below : Z) : Z * Z :=
  match values with
  | [] => (above, below)
  | v :: values' =>
      if Qle_bool threshold v then tally threshold values' (above + 1) below
      else tally threshold values' above (below + 1)
  end.

(** [BrakeWearHypothesisRule.evaluate]. *)
Definition evaluate (values : list Q) (threshold : Q) : HypothesisOutcome :=
  let count := Z.of_nat (length values) in
  if count =? 0 then
    {| ho_state := "no_data"; ho_count := 0; ho_quality := 0; ho_evidence := JObj [] |}
  else
    let '(above, below) := tally threshold values 0 0 in
    let confirmed := (below <=? above) && (0 <? above) in
    {| ho_state := if confirmed then "confirmed" else "ruled_out";
       ho_count := count;
       ho_quality := py_round3 (if Qle_bool 1 (count # 10) then 1 else count # 10);
       ho_evidence := JObj [("above_threshold", JInt above); ("below_threshold", JInt below)] |}.

(** * [simulators/telemetry_generator.py] *)
Section Telemetry.
Context `{Env}.

(** [self._random.uniform(a, b)]. *)
Definition uniform (a b : Q) : M Q := x ← random; mret (a + (b - a) * x)%Q.

(** The two [generator] closures. *)
Definition generator (directive : option string) (threshold : Q) : M Q :=
  if bool_decide (directive = Some "rule_out") then
    u ← uniform (2 # 10) (5 # 10);
    mret (if Qle_bool (threshold - u) 0 then 0%Q else (threshold - u)%Q)
  else
    u ← uniform (5 # 100) (3 # 10);
    mret (if Qle_bool (threshold + u) 1 then (threshold + u)%Q else 1%Q).

(** The loops over instants, vehicles and signals. *)
Definition grid (scope signals : list json) : list (Z * json * json) :=
  i ← Z.of_nat <$> seq 0 20; v ← scope; s ← signals; [(i, v, s)].

(** The [policy_ref] of an observation. *)
Definition telemetry_ref (tenant_id : string) (policy : json) : json :=
  JObj [("tenant_id", JStr tenant_id);
        ("policy_id", jget_or "policy_id" (JStr "") policy);
        ("version", jget_or "version" (JStr "1.0.0") policy)].

(** One tuple of [rows]. *)
Definition make_row (directive : option string) (threshold : Q) (now : Z) (x : Z * json * json)
    : M (Z * json * json * Q) :=
  ts ← datetime_add now (1000000 * x.1.1);
  v ← generator directive threshold;
  mret (ts, x.1.2, x.2, v).

(** One execution of the INSERT of [executemany]. *)
Definition insert_observation (c : conn) (tenant_id : string) (policy : json)
    (r : Z * json * json * Q) : M unit :=
  let '(ts, vehicle, signal, v) := r in
  vehicle ← text_arg "vehicle_id" vehicle;
  signal ← text_arg "signal_name" signal;
  insert_telemetry c (TelemetryRow tenant_id vehicle signal v ts
    (Some (telemetry_ref tenant_id policy)) "simulator");;
  mret tt.

(** [TelemetryGenerator.simulate]. *)
Definition simulate (tenant_id : string) (policy : json) (directive : option string) : M Z :=
  scope_j ← dict_get "vehicle_scope" policy;
  scope ← py_list (default (JArr []) scope_j);
  signals_j ← dict_get "signals" policy;
  specs ← py_list (default (JArr []) signals_j);
  signals ← mapM (subscript "vss_name") specs;
  if bool_decide (scope = []) || bool_decide (signals = []) ||
     bool_decide (directive = Some "starve") then mret 0
  else
    threshold ← py_float (jget_or "confidence_threshold" (JFloat (1 # 2)) policy);
    t ← now;
    rows ← mapM (make_row directive threshold t) (grid scope signals);
    acquire tenant_id (λ c, for_each rows (insert_observation c tenant_id policy));;
    mret (Z.of_nat (length rows)).
End Telemetry.

(** * [feedback/worker.py] *)
Section Worker.
Context `{Env}.

(** The WHERE clause of the telemetry query. *)
Definition collected_for (tenant_id : string) (scope : list (option string)) (policy_id version : string)
    (r : telemetry_row) : bool :=
  str_eqb (te_tenant_id r) tenant_id && bool_decide (Some (te_vehicle_id r) ∈ scope) &&
  match te_policy_ref r with
  | Some j => jsonb_has "policy_id" policy_id j && jsonb_has "version" version j
  | None => false
  end.

(** [FeedbackWorker._collect_telemetry]. *)
Definition collect_telemetry (tenant_id : string) (vehicle_scope : json) (d : deployment_row)
    : M (list telemetry_row) :=
  acquire tenant_id (λ c,
    scope ← text_array vehicle_scope;
    rows ← select c db_telemetry_observations
      (collected_for tenant_id scope (dp_policy_id d) (dp_version d));
    mret (take 1000 (sort_by (λ r, - te_observed_at r) rows))).

(** The audit event of an outcome; a deployment row has no [correlation_id], so
    its identifier stands in. *)
Definition outcome_event (factor : Q) (d : deployment_row) (finding : json) (outcome_id : string)
    : audit_args :=
  with_factor factor (with_outcome (JObj [("outcome_id", JStr outcome_id)])
    (with_policy (JObj [("tenant_id", JStr (dp_tenant_id d)); ("policy_id", JStr (dp_policy_id d));
                        ("version", JStr (dp_version d))])
      (with_finding finding
        (event (dp_tenant_id d) "outcome" (dp_deployment_id d) "feedback-worker")))).

(** The write-delay metric. *)
Definition observe_delay (d : deployment_row) : M unit :=
  match dp_expires_at d with
  | Some x =>
      t ← now;
      let delay := (t - x) # 1000000 in
      when (Qle_bool 0 delay)
        (observe "policy_outcome_write_delay_seconds" [dp_tenant_id d] delay)
  | None => mret tt
  end.

(** [FeedbackWorker._process]. *)
Definition process (factor : Q) (d : deployment_row) : M unit :=
  policy ← policy_get (dp_tenant_id d) (dp_policy_id d) (Some (dp_version d));
  match policy with
  | None => mark_expired (dp_deployment_id d)
  | Some policy =>
      observations ← collect_telemetry (dp_tenant_id d) (dp_vehicle_scope d) d;
      threshold ← py_float (jget_or "confidence_threshold" (JFloat (1 # 2)) policy);
      let outcome := evaluate (te_value <$> observations) threshold in
      outcome_id ← new_id;
      finding ← subscript "originating_finding" policy;
      evaluated ← now;
      outcome_insert (dp_tenant_id d)
        (OutcomeRecord outcome_id finding (dp_policy_id d) (dp_version d) (ho_state outcome)
          evaluated (ho_count outcome) (ho_quality outcome) (ho_evidence outcome));;
      mark_expired (dp_deployment_id d);;
      inc "policy_outcome_total" [dp_tenant_id d; ho_state outcome];;
      observe_delay d;;
      write (outcome_event factor d finding outcome_id);;
      mret tt
  end.

(** [FeedbackWorker.tick]. *)
Definition tick (factor : Q) : M nat :=
  t ← now;
  due ← list_due t;
  for_each due (process factor);;
  mret (length due).

(** [FeedbackWorker.run_forever], stopped after [n] rounds. *)
Fixpoint run_rounds (factor : Q) (n : nat) : M unit :=
  match n with
  | O => mret tt
  | S n' => catch (tick factor;; mret tt) (λ _, mret tt);; run_rounds factor n'
  end.
End Worker.

(** * The hypothesis rule *)
Definition at_or_above (threshold : Q) (values : list Q) : nat :=
  length (List.filter (Qle_bool threshold) values).

Lemma tally_spec thr values a b : tally thr values a b =
  (a + Z.of_nat (at_or_above thr values),
   b + Z.of_nat (length values) - Z.of_nat (at_or_above thr values)).
Proof.
  unfold at_or_above. revert a b. induction values as [|v values IH]; intros a b; simpl.
  - f_equal; lia.
  - destruct (Qle_bool thr v); rewrite IH; simpl; f_equal; lia.
Qed.

Lemma at_or_above_le thr values : (at_or_above thr values ≤ length values)%nat.
Proof. apply List.filter_length_le. Qed.

Lemma round_half_even_tenths n : 0 ≤ n → py_round3 (n # 10) = Qred (n # 10).
Proof.
  intros Hn. unfold py_round3, round_half_even. simpl.
  replace (n * 1000) with (n * 100 * 10) by lia. rewrite Z.div_mul, Z_mod_mult by lia.
  simpl. apply Qred_complete. unfold Qeq. simpl. lia.
Qed.

Lemma evaluate_state values thr : values ≠ [] → ho_state (evaluate values thr) =
  if Z.of_nat (length values) <=? 2 * Z.of_nat (at_or_above thr values)
  then "confirmed" else "ruled_out".
Proof.
  intros Hne. unfold evaluate. rewrite tally_spec.
  assert (0 < Z.of_nat (length values)) as Hn by (destruct values; simpl; [done|lia]).
  destruct (Z.eqb_spec (Z.of_nat (length values)) 0) as [|_]; [lia|]. cbn [ho_state].
  destruct (Z.leb_spec (Z.of_nat (length values)) (2 * Z.of_nat (at_or_above thr values))).
  - rewrite (proj2 (andb_true_iff _ _)); [done|split; lia].
  - rewrite (proj2 (andb_false_iff _ _)); [done|left; lia].
Qed.

(** The verdict is the majority: no observations is [no_data]; otherwise the
    hypothesis is confirmed exactly when at least half of the observations reach
    the threshold, and ruled out exactly when fewer do.  The count is the number
    of observations and the quality score a tenth of it, capped at one. *)
Theorem evaluate_majority (values : list Q) (threshold : Q) :
  let o := evaluate values threshold in
  let n := Z.of_nat (length values) in
  let above := Z.of_nat (at_or_above threshold values) in
  (ho_state o = "no_data" ↔ values = []) ∧
  (ho_state o = "confirmed" ↔ values ≠ [] ∧ n ≤ 2 * above) ∧
  (ho_state o = "ruled_out" ↔ values ≠ [] ∧ 2 * above < n) ∧
  ho_count o = n ∧ (ho_quality o == if n <? 10 then n # 10 else 1)%Q.
Proof.
  cbv zeta. pose proof (at_or_above_le threshold values) as Hle.
  destruct (decide (values = [])) as [->|Hne]; [simpl; naive_solver|].
  assert (0 < Z.of_nat (length values)) as Hn by (destruct values; simpl; [done|lia]).
  pose proof (evaluate_state values threshold Hne) as Hst.
  split; [|split; [|split]].
  1-3: rewrite Hst; destruct (Z.leb_spec (Z.of_nat (length values))
         (2 * Z.of_nat (at_or_above threshold values))); naive_solver lia.
  unfold evaluate. rewrite tally_spec.
  destruct (Z.eqb_spec (Z.of_nat (length values)) 0) as [|_]; [lia|].
  cbn [ho_count ho_quality]. split; [done|].
  - destruct (Qle_bool 1 _) eqn:E.
    + apply Qle_bool_iff in E. unfold Qle in E. simpl in E.
      destruct (Z.ltb_spec (Z.of_nat (length values)) 10); [simpl in *; lia|]. reflexivity.
    + rewrite round_half_even_tenths, Qred_correct by lia.
      destruct (Z.ltb_spec (Z.of_nat (length values)) 10); [done|].
      assert (Qle_bool 1 (Z.of_nat (length values) # 10) = true) as E'; [|congruence].
      apply Qle_bool_iff. unfold Qle. simpl Qnum. simpl Qden. lia.
Qed.

(** * The worker *)
Section WorkerFacts.
Context `{Env}.

Definition targets (w : world) : list deployment_row := db_deployment_targets (w_db w).

Lemma mark_expired_run id w : w_pool w = true →
  mark_expired id w =
    (Ok tt, upd_db (upd_deployment_targets (update_where (Conn TenantRole (Some PUBLIC) (w_guc w))
       (λ r, str_eqb (dp_deployment_id r) id) (set_status "expired"))) w).
Proof. intros Hp. unfold mark_expired, acquire. run_prog. rewrite Hp. reflexivity. Qed.

Lemma mark_expired_down id w : w_pool w = false → ∃ e, mark_expired id w = (Raise e, w).
Proof. intros Hp. unfold mark_expired, acquire. run_prog. rewrite Hp. eauto. Qed.

(** Every row of the worker's tenant under this id is expired. *)
Definition expired_id (id : string) (w : world) : Prop :=
  ∀ r, r ∈ targets w → dp_tenant_id r = PUBLIC → dp_deployment_id r = id → dp_status r = "expired".

Lemma update_expired id' g rows r :
  r ∈ update_where (Conn TenantRole (Some PUBLIC) g) (λ r, str_eqb (dp_deployment_id r) id')
        (set_status "expired") rows →
  ∃ r0, r0 ∈ rows ∧ dp_tenant_id r = dp_tenant_id r0 ∧ dp_deployment_id r = dp_deployment_id r0 ∧
    (r = r0 ∨ dp_status r = "expired") ∧
    (dp_tenant_id r0 = PUBLIC → dp_deployment_id r0 = id' → dp_status r = "expired").
Proof.
  unfold update_where. intros (r0 & -> & Hr)%list_elem_of_fmap. exists r0.
  unfold rls_visible, row_tenant, deployment_tenanted. simpl.
  destruct (str_eqb (dp_tenant_id r0) PUBLIC && str_eqb (dp_deployment_id r0) id') eqn:E;
    split_and!; try done; [by right|by left|].
  intros Ht Hi. by rewrite Ht, Hi, !str_eqb_refl in E.
Qed.

Lemma mark_expired_expires id w w' : mark_expired id w = (Ok tt, w') → expired_id id w'.
Proof.
  destruct (w_pool w) eqn:Hp; [|destruct (mark_expired_down id w Hp) as [e ->]; done].
  rewrite mark_expired_run by done. intros [= <-] r Hr Ht Hi.
  apply update_expired in Hr as (r0 & _ & Et & Ei & _ & Hx). apply Hx; congruence.
Qed.
Lemma mark_expired_keeps id id' : keeps (expired_id id) (mark_expired id').
Proof.
  intros w Hw. destruct (w_pool w) eqn:Hp; [|destruct (mark_expired_down id' w Hp) as [e ->]; done].
  rewrite mark_expired_run by done. intros r Hr Ht Hi.
  apply update_expired in Hr as (r0 & Hin & Et & Ei & [->|Hs] & _); [|done].
  apply Hw; [exact Hin|congruence..].
Qed.

(** Everything else in a round leaves the deployment rows alone. *)
Lemma policy_get_targets t p v : stable targets (policy_get t p v).
Proof. apply (stable_acquire_table db_deployment_targets). intros c. solve_effects. Qed.
Lemma collect_targets t s d : stable targets (collect_telemetry t s d).
Proof.
  apply (stable_acquire_table db_deployment_targets). intros c. unfold text_array.
  solve_effects. all: apply stable_select || done.
Qed.
Lemma outcome_insert_targets t o : stable targets (outcome_insert t o).
Proof.
  apply (stable_acquire_table db_deployment_targets). intros c.
  apply stable_bind; [|intros; apply stable_ret].
  apply (stable_insert_row db_deployment_targets). done.
Qed.
Lemma write_targets a : stable targets (write a).
Proof. intros w. unfold targets. destruct (write_appends a w) as (rows & -> & _). done. Qed.

Lemma process_keeps factor id d : keeps (expired_id id) (process factor d).
Proof.
  assert (∀ A (m : M A), stable targets m → keeps (expired_id id) m) as Hst.
  { intros A m Hm. exact (keeps_stable targets (λ l, ∀ r, r ∈ l → _ → _ → _) m Hm). }
  unfold process. apply keeps_bind; [apply Hst, policy_get_targets|].
  intros [policy|]; [|apply mark_expired_keeps].
  repeat match goal with
  | |- keeps _ (_ ≫= _) => apply keeps_bind; [|intros ?]
  | |- keeps _ (mark_expired _) => apply mark_expired_keeps
  | |- keeps _ (collect_telemetry _ _ _) => apply Hst, collect_targets
  | |- keeps _ (outcome_insert _ _) => apply Hst, outcome_insert_targets
  | |- keeps _ (write _) => apply Hst, write_targets
  | |- keeps _ _ => apply Hst; unfold py_float, subscript, observe_delay, when, new_id, now, inc, observe;
       solve [solve_effects]
  end.
Qed.

Lemma process_expires factor d w w' :
  process factor d w = (Ok tt, w') → expired_id (dp_deployment_id d) w'.
Proof.
  unfold process. intros E. apply bind_inv_ok in E as ([policy|] & w1 & _ & E);
    [|by eapply mark_expired_expires].
  do 6 (apply bind_inv_ok in E as (? & ? & _ & E)).
  apply bind_inv_ok in E as ([] & w2 & Em & E). apply mark_expired_expires in Em.
  match type of E with ?m w2 = _ => assert (keeps (expired_id (dp_deployment_id d)) m) as Hk end.
  { apply (keeps_stable targets (λ l, ∀ r, r ∈ l → _ → _ → _)).
    unfold observe_delay, when, now, inc, observe. solve_effects; apply write_targets. }
  specialize (Hk w2 Em). by rewrite E in Hk.
Qed.

(** Only the worker's own tenant is ever due. *)
Lemma list_due_run t w due w' : list_due t w = (Ok due, w') →
  w' = w ∧ w_pool w = true ∧ due = take 100 (sort_by (λ r, default 0 (dp_expires_at r))
    (List.filter (λ r, str_eqb (dp_tenant_id r) PUBLIC && is_due t r) (targets w))).
Proof.
  unfold list_due, acquire. run_prog. destruct (w_pool w); [|done].
  unfold in_transaction, select, gets. simpl. by intros [= <- <-].
Qed.
Lemma list_due_public t w due w' d : list_due t w = (Ok due, w') → d ∈ due →
  dp_tenant_id d = PUBLIC ∧ is_due t d = true ∧ d ∈ targets w.
Proof.
  intros (_ & _ & ->)%list_due_run Hd. apply elem_of_take in Hd as (i & Hi & _).
  apply list_elem_of_lookup_2, elem_of_sort_by, list_elem_of_In, filter_In in Hi as [Hin Hp].
  apply andb_true_iff in Hp as [Ht%str_eqb_eq Hdue]. split_and!; try done. by apply list_elem_of_In.
Qed.

Lemma confined_mark_expired id : confined PUBLIC (mark_expired id).
Proof.
  unfold mark_expired. apply confined_acquire. intros g w. simpl. unfold foreign. simpl.
  by rewrite foreign_update by done.
Qed.
Lemma confined_process factor d : dp_tenant_id d = PUBLIC → confined PUBLIC (process factor d).
Proof.
  intros Ht. unfold process, policy_get, collect_telemetry, outcome_insert, text_array, py_float,
    subscript, observe_delay, when. rewrite Ht.
  pose proof confined_mark_expired.
  assert (∀ f x i, confined PUBLIC (write (outcome_event f d x i))) as Hw.
  { intros f x i. pose proof (confined_write (outcome_event f d x i)) as Hc. simpl in Hc.
    by rewrite Ht in Hc. }
  repeat first [confined_step | apply Hw | apply confined_mark_expired].
Qed.
End WorkerFacts.

(** The worker serves one tenant: a round leaves the rows of every tenant
    other than the placeholder [feature-001-default] as they are, so a
    collection window of any real tenant is never closed. *)
Theorem feedback_serves_one_tenant `{Env} (factor : Q) : confined PUBLIC (tick factor).
Proof.
  unfold tick. apply confined_bind; [apply confined_outside; unfold now; solve_effects|]. intros t.
  apply stable_bind_post.
  - change (confined PUBLIC (list_due t)). unfold list_due. solve_confined.
  - intros due w w' E. apply confined_bind; [|intros; apply stable_ret].
    apply stable_for_each_in. intros d Hd. apply confined_process.
    by apply (list_due_public _ _ _ _ _ E).
Qed.

(** A round that completes closes its windows: it returns how many records it
    took (at most a hundred, the earliest expiries), and afterwards each of them
    is marked expired, so no later round takes it again. *)
Theorem tick_expires_processed `{Env} (factor : Q) (w w' : world) (n : nat) :
  tick factor w = (Ok n, w') →
  let t := clock (w_clock_n w) in
  ∃ due, list_due t (upd_clock_n S w) = (Ok due, upd_clock_n S w) ∧ n = length due ∧ (n ≤ 100)%nat ∧
    (∀ d, d ∈ due → expired_id (dp_deployment_id d) w') ∧
    (∀ t' w1 due' w2 d d', targets w1 = targets w' → list_due t' w1 = (Ok due', w2) →
       d ∈ due → d' ∈ due' → dp_deployment_id d' ≠ dp_deployment_id d).
Proof.
  intros E t. unfold tick in E. apply bind_inv_ok in E as (t0 & w0 & [= <- <-] & E).
  apply bind_inv_ok in E as (due & w1 & Ed & E). destruct (list_due_run _ _ _ _ Ed) as (-> & _ & Hdue).
  apply bind_inv_ok in E as ([] & w2 & El & [= <- <-]).
  assert (∀ d, d ∈ due → expired_id (dp_deployment_id d) w2) as Hx.
  { intros d Hd. eapply (for_each_ok_all (λ d, expired_id (dp_deployment_id d))); [| |exact El|exact Hd].
    - intros. by eapply process_expires.
    - intros. apply process_keeps. }
  exists due. split_and!; [done|done| |exact Hx|].
  - rewrite Hdue, length_take. lia.
  - intros t' w3 due' w4 d d' Ht Hl Hd Hd' Hid.
    destruct (list_due_public _ _ _ _ _ Hl Hd') as (Hp & Hdue' & Hin). unfold is_due in Hdue'.
    rewrite Ht in Hin. pose proof (Hx d Hd d' Hin Hp Hid) as Hs. by rewrite Hs in Hdue'.
Qed.

(** * The closed loop: what the simulator writes decides what the rule says *)
(** [random.random] draws from the unit interval. *)
Class RandomLaws `{Env} := urandom_range : ∀ n, (0 <= urandom n <= 1)%Q.

Section Rounding.
Local Open Scope Q_scope.
Lemma round3_floor q : 0 <= q ->
  round3 q == inject_Z (Qfloor (Qred (q * inject_Z 1000) + (1 # 2))) * (1 # 1000).
Proof.
  intros Hq. unfold round3.
  assert (Qle_bool 0 (Qred (q * inject_Z 1000)) = true) as ->.
  { apply Qle_bool_iff. rewrite Qred_correct. change (inject_Z 1000) with 1000. lra. }
  rewrite Qred_correct. unfold Qeq. simpl. lia.
Qed.
Lemma round3_near q : 0 <= q -> q - (1 # 2000) <= round3 q /\ round3 q <= q + (1 # 2000).
Proof.
  intros Hq. rewrite (round3_floor q Hq).
  pose proof (Qfloor_le (Qred (q * inject_Z 1000) + (1 # 2))) as Hf.
  pose proof (Qlt_floor (Qred (q * inject_Z 1000) + (1 # 2))) as Hl.
  rewrite inject_Z_plus in Hl. set (n := Qfloor _) in *.
  rewrite Qred_correct in Hf, Hl. change (inject_Z 1) with 1 in Hl.
  change (inject_Z 1000) with 1000 in *. split; lra.
Qed.
Lemma round3_le_one q : 0 <= q -> q <= 1 -> round3 q <= 1.
Proof.
  intros H0 H1. rewrite (round3_floor q H0).
  assert (Qfloor (Qred (q * inject_Z 1000) + (1 # 2)) <= Qfloor (2001 # 2))%Z as Hf.
  { apply Qfloor_resp_le. rewrite Qred_correct. change (inject_Z 1000) with 1000. lra. }
  change (Qfloor (2001 # 2)) with 1000%Z in Hf. rewrite Zle_Qle in Hf.
  set (n := inject_Z (Qfloor _)) in *. change (inject_Z 1000) with 1000 in Hf. lra.
Qed.
Lemma Qle_bool_false a b : Qle_bool a b = false -> b < a.
Proof. intros E. apply Qnot_le_lt. intros Hc%Qle_bool_iff. congruence. Qed.
End Rounding.

(** What each directive is meant to produce. *)
Definition expected_state (directive : option string) (threshold : Q) : string :=
  if bool_decide (directive = Some "starve") then "no_data"
  else if bool_decide (directive = Some "rule_out") && negb (Qle_bool (round3 threshold) 0)
  then "ruled_out" else "confirmed".

(** Values on the side of the stored threshold that a state asks for. *)
Definition aligned (state : string) (stored : Q) (v : Q) : Prop :=
  if str_eqb state "confirmed" then (stored <= v)%Q else (v < stored)%Q.

Section Loop.
Context `{Env} `{!RandomLaws}.

Lemma generator_aligned directive thr w v w' : (0 <= thr <= 1)%Q →
  directive ≠ Some "starve" → generator directive thr w = (Ok v, w') →
  aligned (expected_state directive thr) (round3 thr) v.
Proof.
  intros [Hq0 Hq1] Hd. unfold generator, uniform, random, expected_state. run_prog.
  destruct (round3_near thr Hq0) as [Hl Hu]. pose proof (round3_le_one thr Hq0 Hq1) as H1'.
  destruct (urandom_range (w_rand_n w)) as [Hr0 Hr1].
  rewrite (bool_decide_eq_false_2 (directive = Some "starve")) by done.
  destruct (bool_decide_reflect (directive = Some "rule_out")) as [_|_]; simpl;
    intros [= <- <-].
  - destruct (Qle_bool (round3 thr) 0) eqn:Er; simpl; unfold aligned; simpl.
    + apply Qle_bool_iff in Er. destruct (Qle_bool (_ - _) 0) eqn:E; [done|].
      apply Qle_bool_false in E. lra.
    + apply Qle_bool_false in Er. destruct (Qle_bool (_ - _) 0) eqn:E; [done|]. lra.
  - unfold aligned. simpl. destruct (Qle_bool (_ + _) 1) eqn:E; lra.
Qed.

Lemma insert_observations c t policy rows w w' :
  for_each rows (insert_observation c t policy) w = (Ok tt, w') →
  ∃ obs, w' = upd_db (upd_telemetry_observations (λ l, l ++ obs)) w ∧
    Forall2 (λ r o, te_tenant_id o = t ∧ te_value o = r.2 ∧ JStr (te_vehicle_id o) = r.1.1.2 ∧
                    te_policy_ref o = Some (telemetry_ref t policy)) rows obs ∧
    (rows ≠ [] → rls_visible c t = true).
Proof.
  revert w. induction rows as [|[[[ts v] sg] q] rows IH]; intros w E; simpl in E.
  - injection E as <-. exists []. split_and!; [|constructor|done].
    destruct w as [? [] ]; unfold upd_db, upd_telemetry_observations; simpl; by rewrite app_nil_r.
  - apply bind_inv_ok in E as ([] & w1 & E1 & E).
    apply bind_inv_ok in E1 as (vs & wa & Ea & E1).
    assert (v = JStr vs ∧ wa = w) as [-> ->] by (destruct v; unfold text_arg in Ea; run_prog; by simplify_eq).
    apply bind_inv_ok in E1 as (sgs & wb & Eb & E1).
    assert (wb = w) as -> by (destruct sg; unfold text_arg in Eb; run_prog; by simplify_eq).
    apply bind_inv_ok in E1 as (b & wc & Ec & [= <-]).
    unfold insert_telemetry in Ec.
    edestruct (insert_row_cases c "telemetry_observations" db_telemetry_observations
      upd_telemetry_observations telemetry_checks) as [(Er & Hv & _)|[(Er & _ & _ & u & Hu & _)|(e & Er)]];
      rewrite Er in Ec; [|by apply not_elem_of_nil in Hu|done].
    injection Ec as <- <-. destruct (IH _ E) as (obs & -> & Hobs & Hvis).
    exists (TelemetryRow t vs sgs q ts (Some (telemetry_ref t policy)) "simulator" :: obs).
    split_and!; [|constructor; [|exact Hobs]; by split_and!|intros _; exact Hv].
    destruct w as [? [] ]; unfold upd_db, upd_telemetry_observations; simpl.
    by rewrite <- app_assoc.
Qed.

Lemma evaluate_aligned state thr values : state ∈ ["confirmed"; "ruled_out"] → values ≠ [] →
  Forall (aligned state thr) values → ho_state (evaluate values thr) = state.
Proof.
  intros Hs Hne Hall. rewrite evaluate_state by done. unfold at_or_above.
  assert (0 < Z.of_nat (length values)) as Hn by (destruct values; simpl; [done|lia]).
  apply elem_of_cons in Hs as [->|Hs]; [|apply elem_of_cons in Hs as [->|Hs]; [|by apply not_elem_of_nil in Hs]].
  - rewrite forallb_filter_id; [rewrite (proj2 (Z.leb_le _ _)); [done|lia]|].
    apply forallb_forall. intros x Hx. apply Qle_bool_iff. rewrite Forall_forall in Hall.
    by apply Hall, list_elem_of_In.
  - assert (List.filter (Qle_bool thr) values = []) as ->.
    { clear Hne Hn. induction Hall as [|v values Hv _ IH]; [done|]. simpl.
      destruct (Qle_bool thr v) eqn:E; [|done]. apply Qle_bool_iff in E. unfold aligned in Hv.
      simpl in Hv. lra. }
    rewrite (proj2 (Z.leb_gt _ _)); [done|simpl; lia].
Qed.

Lemma subscript_pure k j : stable (λ w, w) (subscript k j).
Proof. intros w. unfold subscript. by repeat case_match. Qed.
Lemma text_items_strs vs : text_items (JStr <$> vs) = Some (Some <$> vs).
Proof. induction vs as [|v vs IH]; [done|]. rewrite fmap_cons. simpl. by rewrite IH. Qed.

(** What the telemetry query answers, from the table. *)
Lemma collect_run t vs d w rows : w_pool w = true →
  List.filter (λ r, rls_visible (Conn TenantRole (Some t) (w_guc w)) (te_tenant_id r) &&
    collected_for t (Some <$> vs) (dp_policy_id d) (dp_version d) r)
    (db_telemetry_observations (w_db w)) = rows →
  collect_telemetry t (jstrs vs) d w =
    (Ok (take 1000 (sort_by (λ r, - te_observed_at r) rows)), w).
Proof.
  intros Hp <-. apply acquire_run; [done|]. unfold text_array, jstrs. rewrite text_items_strs.
  unfold select. run_prog. reflexivity.
Qed.

Lemma collected_values (P : Q → Prop) rows : rows ≠ [] → Forall (λ r, P (te_value r)) rows →
  let obs := take 1000 (sort_by (λ r, - te_observed_at r) rows) in
  te_value <$> obs ≠ [] ∧ Forall P (te_value <$> obs).
Proof.
  intros Hne Hall. simpl. pose proof (sort_by_perm (λ r, - te_observed_at r) rows) as Hp. split.
  - destruct (sort_by _ rows) eqn:E; [|done]. apply Permutation_nil_l in Hp. congruence.
  - apply Forall_fmap, Forall_take. by rewrite Hp.
Qed.

Lemma grid_nonempty v scope s signals : grid (v :: scope) (s :: signals) ≠ [].
Proof. done. Qed.
Lemma grid_vehicles scope signals x : x ∈ grid scope signals → x.1.2 ∈ scope.
Proof.
  unfold grid. intros (i & Hx & _)%list_elem_of_bind.
  apply list_elem_of_bind in Hx as (v & Hx & Hv).
  by apply list_elem_of_bind in Hx as (s & ->%list_elem_of_singleton & _).
Qed.

Lemma make_row_tables directive thr t0 x : stable w_db (make_row directive thr t0 x).
Proof.
  unfold make_row, datetime_add, generator, uniform, random. solve_effects.
Qed.
Lemma make_row_aligned directive thr t0 : (0 <= thr <= 1)%Q → directive ≠ Some "starve" →
  ∀ x w y w', make_row directive thr t0 x w = (Ok y, w') →
  y.1.1.2 = x.1.2 ∧ aligned (expected_state directive thr) (round3 thr) y.2.
Proof.
  intros Hr Hd x w y w' E. apply bind_inv_ok in E as (ts & w1 & _ & E).
  apply bind_inv_ok in E as (v & w2 & Eg & [= <- _]). split; [done|].
  by eapply generator_aligned.
Qed.
(** The simulated rows of a policy with vehicles and signals. *)
Lemma simulate_rows t policy directive v vs sg sgs thr w n w' :
  jget "vehicle_scope" policy = Some (jstrs (v :: vs)) →
  jget "signals" policy = Some (JArr (sg :: sgs)) →
  jget "confidence_threshold" policy = Some (JFloat thr) → (0 <= thr <= 1)%Q →
  simulate t policy directive w = (Ok n, w') →
  (w' = w ∧ n = 0 ∧ directive = Some "starve") ∨
  (w_pool w' = true ∧ rls_visible (Conn TenantRole (Some t) (w_guc w')) t = true ∧
   directive ≠ Some "starve" ∧
   ∃ obs, obs ≠ [] ∧ db_telemetry_observations (w_db w') = db_telemetry_observations (w_db w) ++ obs ∧
     Forall (λ r, te_tenant_id r = t ∧ te_vehicle_id r ∈ v :: vs ∧
       te_policy_ref r = Some (telemetry_ref t policy) ∧
       aligned (expected_state directive thr) (round3 thr) (te_value r)) obs).
Proof.
  intros Hsc Hsg Hth Hr. destruct policy as [ | | | | | |o]; try done.
  unfold simulate. intros E. rewrite jget_obj in *. unfold dict_get in E.
  rewrite Hsc, Hsg in E.
  do 4 (apply bind_inv_ok in E as (? & ? & [= <- <-] & E)).
  apply bind_inv_ok in E as (sigs & w1 & Es & E).
  assert (w1 = w) as -> by (eapply pure_run, Es; apply stable_mapM, subscript_pure).
  destruct sigs as [|sig sigs]; [by eapply mapM_ok_length in Es|].
  rewrite (bool_decide_eq_false_2 (_ = [])) in E by done.
  rewrite (bool_decide_eq_false_2 (_ = [])) in E by done. simpl orb in E.
  destruct (bool_decide_reflect (directive = Some "starve")) as [Hd|Hd].
  { left. injection E as <- <-. by split_and!. }
  right. unfold jget_or in E. rewrite jget_obj, Hth in E.
  apply bind_inv_ok in E as (? & ? & [= <- <-] & E).
  apply bind_inv_ok in E as (t0 & w2 & Et & E).
  apply bind_inv_ok in E as (rows & w3 & Er & E).
  apply bind_inv_ok in E as ([] & w4 & Ea & [= <- <-]).
  apply acquire_ok in Ea as [Hp Ea]. apply insert_observations in Ea as (obs & -> & Hobs & Hvis).
  pose proof (mapM_ok_length _ _ _ _ _ Er) as Hlen.
  assert (rows ≠ []) as Hne by (intros ->; by apply (grid_nonempty (JStr v) (JStr <$> vs) sig sigs), nil_length_inv).
  assert (w_db w3 = w_db w) as Hdb.
  { pose proof (stable_mapM w_db _ (grid (JStr <$> (v :: vs)) (sig :: sigs))
      (make_row_tables directive thr t0) w2) as Hst.
    change (grid (JStr <$> (v :: vs))) with (grid (JStr v :: list_fmap string json JStr vs)) in Hst.
    rewrite Er in Hst. simpl in Hst. rewrite Hst. by injection Et as _ <-. }
  simpl. split_and!; [done|by apply Hvis|done|]. exists obs. split_and!.
  - intros ->. by apply Hne, nil_length_inv, (Forall2_length _ _ _ Hobs).
  - by rewrite Hdb.
  - apply (mapM_ok_all _ _ _ _ _ _ (make_row_aligned directive thr t0 Hr Hd)) in Er.
    apply Forall_forall. intros r Hin. apply list_elem_of_lookup in Hin as [i Hi].
    destruct (Forall2_lookup_r _ _ _ _ _ Hobs Hi) as (y & Hy & Ht & Hv & Hve & Href).
    destruct (Forall2_lookup_r _ _ _ _ _ Er Hy) as (x & Hx & Hyv & Hal).
    split_and!; [done| |done|by rewrite Hv].
    apply list_elem_of_lookup_2 in Hx.
    pose proof (grid_vehicles _ _ x Hx) as Hg.
    rewrite <- Hyv, <- Hve in Hg. by apply (list_elem_of_fmap JStr (v :: vs)) in Hg as (s & [= ->] & Hg).
Qed.
End Loop.

(** C14. The loop closes on the verdict the directive asks for: after the
    simulator has written its observations for a freshly deployed policy, the
    worker's query finds them and the rule, applied with the threshold as the
    registry stores it (three decimals), says [no_data] for [starve], [ruled_out]
    for [rule_out] unless the stored threshold is zero, and [confirmed] otherwise. *)
Theorem closed_loop_verdict `{Env} `{!RandomLaws} (t : string) (policy : json)
    (directive : option string) (d : deployment_row) (v : string) (vs : list string) (sg : json)
    (sgs : list json) (thr : Q) (n : Z) (w w' : world) :
  jget "policy_id" policy = Some (JStr (dp_policy_id d)) →
  jget "version" policy = Some (JStr (dp_version d)) →
  jget "vehicle_scope" policy = Some (jstrs (v :: vs)) →
  jget "signals" policy = Some (JArr (sg :: sgs)) →
  jget "confidence_threshold" policy = Some (JFloat thr) → (0 <= thr <= 1)%Q →
  (∀ r, r ∈ db_telemetry_observations (w_db w) →
     collected_for t (Some <$> (v :: vs)) (dp_policy_id d) (dp_version d) r = false) →
  w_pool w = true → simulate t policy directive w = (Ok n, w') →
  ∃ obs, collect_telemetry t (jstrs (v :: vs)) d w' = (Ok obs, w') ∧
    ho_state (evaluate (te_value <$> obs) (round3 thr)) = expected_state directive thr.
Proof.
  intros Hid Hver Hsc Hsg Hth Hr Hold Hp Hsim.
  assert (∀ c, List.filter (λ r, rls_visible c (te_tenant_id r) &&
    collected_for t (Some <$> (v :: vs)) (dp_policy_id d) (dp_version d) r)
    (db_telemetry_observations (w_db w)) = []) as Hnone.
  { intros c. apply filter_none. intros r Hin. by rewrite (Hold r Hin), andb_false_r. }
  destruct (simulate_rows _ _ _ _ _ _ _ _ _ _ _ Hsc Hsg Hth Hr Hsim)
    as [(-> & -> & ->)|(Hp' & Hvis & Hd & obs & Hne & Hdb & Hall)].
  - eexists. split; [apply collect_run; [done|apply Hnone]|]. done.
  - assert (Forall (λ r, aligned (expected_state directive thr) (round3 thr) (te_value r)) obs) as Hal
      by (eapply Forall_impl; [exact Hall|]; by intros r (_ & _ & _ & Ha)).
    pose proof (collected_values _ _ Hne Hal) as [Hne' Hal']. eexists. split.
    + apply collect_run; [done|]. rewrite Hdb, List.filter_app, Hnone. simpl.
      apply forallb_filter_id, forallb_forall. intros r Hin%list_elem_of_In.
      rewrite Forall_forall in Hall. destruct (Hall r Hin) as (Ht & Hv & Href & _).
      unfold collected_for. rewrite Ht, Hvis, Href, str_eqb_refl. simpl.
      rewrite bool_decide_eq_true_2 by (by apply (list_elem_of_fmap_2 Some (v :: vs))).
      unfold jsonb_has, telemetry_ref, jget_or. rewrite Hid, Hver. simpl. by rewrite !str_eqb_refl.
    + apply evaluate_aligned; [|done..]. unfold expected_state.
      rewrite (bool_decide_eq_false_2 (directive = Some "starve")) by done.
      destruct (_ && _); [right; left|left].
Qed.

Section OutcomeFacts.
Context `{Env}.

Definition outcomes (w : world) : list outcome_row := db_policy_outcomes (w_db w).

Lemma mark_expired_outcomes id : stable outcomes (mark_expired id).
Proof. apply (stable_acquire_table db_policy_outcomes). intros c w. done. Qed.
Lemma write_outcomes a : stable outcomes (write a).
Proof. intros w. unfold outcomes. destruct (write_appends a w) as (rows & -> & _). done. Qed.
Lemma policy_get_pure t p v w r w' : policy_get t p v w = (Ok r, w') → w' = w.
Proof.
  intros [_ E]%acquire_ok. eapply pure_run, E. destruct v; solve_effects; done.
Qed.
Lemma collect_pure t s d w obs w' : collect_telemetry t s d w = (Ok obs, w') → w' = w.
Proof.
  intros [_ E]%acquire_ok. eapply pure_run, E. unfold text_array. solve_effects; done.
Qed.
Lemma observe_delay_outcomes d : stable outcomes (observe_delay d).
Proof. unfold observe_delay, when, now, observe. solve_effects. Qed.
Lemma outcome_insert_ok t o w w' : outcome_insert t o w = (Ok tt, w') →
  ∃ row, outcomes w' = outcomes w ++ [row] ∧ oc_tenant_id row = t ∧
    oc_outcome_id row = ou_outcome_id o ∧ oc_originating_finding row = ou_originating_finding o ∧
    oc_policy_id row = ou_policy_id o ∧ oc_version row = ou_version o ∧
    oc_hypothesis_state row = ou_hypothesis_state o.
Proof.
  intros [_ E]%acquire_ok. apply bind_inv_ok in E as (b & w1 & E & [= <-]).
  unfold insert_outcome in E.
  edestruct (insert_row_cases (Conn TenantRole (Some t) (w_guc w)) "policy_outcomes"
    db_policy_outcomes upd_policy_outcomes outcome_checks)
    as [(Er & _)|[(Er & _ & _ & u & Hu & Htol & _)|(e & Er)]]; rewrite Er in E; [|exfalso|done].
  - injection E as _ <-. eexists. split; [reflexivity|]. by split_and!.
  - apply elem_of_cons in Hu as [->|Hu]; [done|by apply not_elem_of_nil in Hu].
Qed.
End OutcomeFacts.

(** C40. Closing a window records the verdict: when the policy of a due deployment
    is on file and processing returns, exactly one outcome row is added, for the
    deployment's tenant and policy version and with the rule's verdict on the
    observations on file; the finding it answers is the policy's, and the trail
    holds an [outcome] event under the deployment's identifier. *)
Theorem process_records_outcome `{Env} (factor : Q) (d : deployment_row) (w w' : world) (policy : json) :
  policy_get (dp_tenant_id d) (dp_policy_id d) (Some (dp_version d)) w = (Ok (Some policy), w) →
  process factor d w = (Ok tt, w') →
  ∃ obs threshold row, collect_telemetry (dp_tenant_id d) (dp_vehicle_scope d) d w = (Ok obs, w) ∧
    py_float (jget_or "confidence_threshold" (JFloat (1 # 2)) policy) w = (Ok threshold, w) ∧
    db_policy_outcomes (w_db w') = db_policy_outcomes (w_db w) ++ [row] ∧
    oc_tenant_id row = dp_tenant_id d ∧ oc_policy_id row = dp_policy_id d ∧
    oc_version row = dp_version d ∧
    oc_hypothesis_state row = ho_state (evaluate (te_value <$> obs) threshold) ∧
    jget "originating_finding" policy = Some (oc_originating_finding row) ∧
    ∃ a, a ∈ db_audit_events (w_db w') ∧ au_kind a = "outcome" ∧
      au_tenant_id a = dp_tenant_id d ∧ au_correlation_id a = dp_deployment_id d.
Proof.
  intros Hpol E. unfold process in E. rewrite (bind_ok _ _ _ _ _ Hpol) in E.
  apply bind_inv_ok in E as (obs & w1 & Ec & E). pose proof (collect_pure _ _ _ _ _ _ Ec) as ->.
  apply bind_inv_ok in E as (thr & w1 & Et & E).
  assert (w1 = w) as -> by (eapply pure_run, Et; unfold py_float; solve_effects).
  apply bind_inv_ok in E as (oid & w1 & [= <- <-] & E).
  apply bind_inv_ok in E as (fnd & w2 & Es & E).
  pose proof (pure_run _ _ _ _ (subscript_pure _ _) Es) as ->.
  apply bind_inv_ok in E as (ev & w3 & [= <- <-] & E).
  apply bind_inv_ok in E as ([] & w4 & Eo & E).
  apply outcome_insert_ok in Eo as (row & Hrow & Hrt & _ & Hrf & Hrp & Hrv & Hrs).
  apply bind_inv_ok in E as ([] & w5 & Em & E). pose proof (mark_expired_outcomes (dp_deployment_id d) w4) as Hm.
  rewrite Em in Hm. apply bind_inv_ok in E as ([] & w6 & [= <-] & E).
  apply bind_inv_ok in E as ([] & w7 & Ed & E).
  apply bind_inv_ok in E as (eid & w8 & Ew & [= <-]).
  pose proof (write_outcomes (outcome_event factor d fnd (fresh (w_ids_n w))) w7) as Hwo. rewrite Ew in Hwo.
  assert (outcomes w7 = outcomes w5) as Hdel.
  { match type of Ed with _ ?w0 = _ => pose proof (observe_delay_outcomes d w0) as Hd end.
    by rewrite Ed in Hd. }
  exists obs, thr, row. split_and!; try done.
  - change (outcomes w8 = outcomes w ++ [row]). simpl in *. by rewrite Hwo, Hdel, Hm, Hrow.
  - rewrite Hrf. simpl. unfold subscript in Es. destruct policy as [ | | | | | |o]; try done.
    rewrite jget_obj. destruct (dget _ o); run_prog; by simplify_eq.
  - apply write_leaves in Ew as (a & Hin & _ & Ht & Hk & Hc & _). by exists a.
Qed.

(** * Concrete runs *)
Module FeedbackSamples.
#[global] Instance random_laws : @RandomLaws Samples.env.
Proof. intros n. simpl. split; unfold Qle; simpl; lia. Qed.

Definition policy_row0 : policy_row :=
  PolicyRow PUBLIC "P1" "1.0.0" (JArr [JObj [("vss_name", JStr "Vehicle.Speed")]]) (JArr []) 24
    (jstrs ["VIN-1"; "VIN-2"]) "worn pads" (JObj []) (8 # 10) "S1"
    (JObj [("tenant_id", JStr PUBLIC); ("finding_id", JStr "F1")]) "1.0.0" "repo"
    "0000000000000000000000000000000000000000" "stub" "v0" "none" 7 "sig" "key" 1000.
Definition deployment0 : deployment_row :=
  DeploymentRow "D1" PUBLIC "P1" "1.0.0" "dev" (jstrs ["VIN-1"; "VIN-2"]) "accepted" None 1000
    (Some 1000) (Some 2000).
Definition deployed : world :=
  upd_db (λ d, upd_collection_policies (λ _, [policy_row0])
    (upd_deployment_targets (λ _, [deployment0]) d)) Samples.start.
End FeedbackSamples.

Lemma closed_loop_verdict_witness :
  let p := row_to_policy FeedbackSamples.policy_row0 in
  let w' := (simulate (H := Samples.env) PUBLIC p (Some "rule_out") FeedbackSamples.deployed).2 in
  ∃ obs, collect_telemetry PUBLIC (jstrs ["VIN-1"; "VIN-2"]) FeedbackSamples.deployment0 w' = (Ok obs, w') ∧
    ho_state (evaluate (te_value <$> obs) (round3 (8 # 10))) = "ruled_out".
Proof.
  intros p w'.
  apply (closed_loop_verdict (H := Samples.env) PUBLIC p (Some "rule_out") FeedbackSamples.deployment0
    "VIN-1" ["VIN-2"] (JObj [("vss_name", JStr "Vehicle.Speed")]) [] (8 # 10) 40
    FeedbackSamples.deployed w').
  1-5: reflexivity.
  - split; unfold Qle; simpl; lia.
  - intros r Hr. by apply not_elem_of_nil in Hr.
  - reflexivity.
  - subst w'. apply pair_of_fst. vm_compute. reflexivity.
Defined.

Lemma process_records_outcome_witness :
  let w := FeedbackSamples.deployed in
  let d := FeedbackSamples.deployment0 in
  let w' := (process (H := Samples.env) 1 d w).2 in
  ∃ obs threshold row, collect_telemetry (dp_tenant_id d) (dp_vehicle_scope d) d w = (Ok obs, w) ∧
    py_float (H := Samples.env) (JFloat (8 # 10)) w = (Ok threshold, w) ∧
    db_policy_outcomes (w_db w') = [] ++ [row] ∧
    oc_tenant_id row = dp_tenant_id d ∧ oc_policy_id row = dp_policy_id d ∧
    oc_version row = dp_version d ∧
    oc_hypothesis_state row = ho_state (evaluate (te_value <$> obs) threshold) ∧
    jget "originating_finding" (row_to_policy FeedbackSamples.policy_row0) =
      Some (oc_originating_finding row) ∧
    ∃ a, a ∈ db_audit_events (w_db w') ∧ au_kind a = "outcome" ∧
      au_tenant_id a = dp_tenant_id d ∧ au_correlation_id a = dp_deployment_id d.
Proof.
  intros w d w'.
  apply (process_records_outcome (H := Samples.env) 1 d w w' (row_to_policy FeedbackSamples.policy_row0)).
  - vm_compute. reflexivity.
  - subst w'. apply pair_of_fst. vm_compute. reflexivity.
Defined.

Lemma tick_expires_processed_witness :
  let w := FeedbackSamples.deployed in
  let w' := (tick (H := Samples.env) 1 w).2 in
  ∃ due, list_due 1700000000000000 (upd_clock_n S w) = (Ok due, upd_clock_n S w) ∧
    1%nat = length due ∧ (1 ≤ 100)%nat ∧ (∀ d, d ∈ due → expired_id (dp_deployment_id d) w') ∧
    (∀ t' w1 due' w2 d d', targets w1 = targets w' → list_due t' w1 = (Ok due', w2) →
       d ∈ due → d' ∈ due' → dp_deployment_id d' ≠ dp_deployment_id d).
Proof.
  intros w w'. apply (tick_expires_processed (H := Samples.env) 1 w w' 1).
  subst w'. apply pair_of_fst. vm_compute. reflexivity.
Defined.
