(* ===== verification/Runner.v ===== *)
(** [graph/runner.py]: one finding from the graph to the registry, with the audit
    trail between the steps. *)
From S2P Require Import Prelude PyStr PyDict Json JsonText PyTime Errors TokenBucket Models World Samples Database Isolation PyVal AuditLog Validator Graph Repository Feedback.
Local Open Scope Z_scope.

(** [_finding_ref]. *)
Definition finding_ref (s : session) : json :=
  JObj [("tenant_id", JStr (s_tenant_id s));
        ("finding_id", jget_or "finding_id" (JStr "") (s_originating_finding s))].

(** [_policy_field]. *)
Definition policy_field `{PyFloat} (policy : option json) (k : string) : M json :=
  match policy with
  | None => mret (JStr "")
  | Some p =>
      v ← dict_get k p;
      mret (match v with None | Some JNull => JStr "" | Some v => JStr (py_str v) end)
  end.

(** [_flatten_invalid]. *)
Definition flatten_invalid (errors : list json) : M (list json) :=
  ls ← mapM (λ err,
    details ← dict_get "details" err;
    l ← dict_get "invalid_signals" (or_else details (JObj []));
    py_list (default (JArr []) l)) errors;
  mret (concat ls).

Section Runner.
Context `{Env} `{Pydantic} `{Difflib} `{Prompts} `{PayloadSigner}.
Context `{PolicyGeneratorClient} `{CollectorAIClient} (pv : PolicyValidator) (factor : Q).

Definition session_event (s : session) (kind : string) : audit_args :=
  with_finding (finding_ref s)
    (event (s_tenant_id s) kind (s_correlation_id s) (s_session_id s)).
Definition policy_ref (s : session) (policy_id version : json) : json :=
  JObj [("tenant_id", JStr (s_tenant_id s)); ("policy_id", policy_id); ("version", version)].

(** The [generated] event. *)
Definition audit_generated (s : session) (runtime_info : json) : M unit :=
  match s_generated_policy s with
  | None => mret tt
  | Some policy =>
      inc "policy_generated_total" [s_tenant_id s];;
      policy_id ← subscript "policy_id" policy;
      version ← subscript "version" policy;
      write (with_factor factor
        (with_schema_version (jget "schema_version" (s_originating_finding s))
          (with_slm (jget "slm_repo" runtime_info) (jget "slm_revision_sha" runtime_info)
             (jget "slm_runtime" runtime_info) (jget "slm_runtime_version" runtime_info)
             (jget "slm_quantization" runtime_info) (s_last_decoding_seed s)
             (Some (JStr (s_prompt_template_version s)))
             (with_policy (policy_ref s policy_id version) (session_event s "generated")))));;
      mret tt
  end.

(** The [rejected] event of a dead-lettered run. *)
Definition dead_letter_event (s : session) (invalid : list json) : audit_args :=
  with_schema_version (jget "schema_version" (s_originating_finding s))
    (with_error
       (JObj [("code", JStr "VALIDATION_FAILED");
              ("details", JObj [("validation_errors", JArr (s_validation_errors s));
                                ("invalid_signals", JArr invalid)])])
       (session_event s "rejected")).

(** The registry rows and events of a deployed policy. *)
Definition persist_deployed (s : session) (runtime_info : json) (start : Z)
    (sim_directive : option string) : M unit :=
  let policy := or_else (s_generated_policy s) (JObj []) in
  let meta := AuditMeta (s_prompt_template_version s)
    (jget_or "slm_repo" (JStr "unknown") runtime_info)
    (jget_or "slm_revision_sha" (JStr "0000000000000000000000000000000000000000") runtime_info)
    (jget_or "slm_runtime" (JStr "stub") runtime_info)
    (jget_or "slm_runtime_version" (JStr "unknown") runtime_info)
    (jget_or "slm_quantization" (JStr "none") runtime_info)
    (default 0 (s_last_decoding_seed s)) (sign_payload policy) key_id in
  policy_insert (s_tenant_id s) policy meta;;
  inc "policy_validated_total" [s_tenant_id s];;
  pid ← policy_field (s_generated_policy s) "policy_id";
  ver ← policy_field (s_generated_policy s) "version";
  write (with_policy (policy_ref s pid ver) (session_event s "validated"));;
  let deployment := or_else (s_deployment_record s) (JObj []) in
  when (truthy deployment) (
    deployment_insert (s_tenant_id s) deployment;;
    inc "policy_deployed_total" [s_tenant_id s];;
    write (with_factor factor
      (with_deployment (JObj [("deployment_id", jget_or "deployment_id" JNull deployment)])
        (with_policy (policy_ref s pid ver) (session_event s "deployed"))));;
    t ← now;
    observe "time_to_deploy_seconds" [s_tenant_id s] ((t - start) # 1000000);;
    simulate (s_tenant_id s) policy sim_directive;;
    mret tt).

(** [GraphRunner._run], after the graph returned. *)
Definition run_graph_tail (sim_directive : option string) (start : Z) (g : GraphRun) : M unit :=
  let s := run_session g in
  let info := or_else (s_last_runtime_info s) (JObj []) in
  sha ← dict_get "slm_revision_sha" info;
  set_gauge "slm_weight_sha_active" [py_str (default (JStr "unknown") sha)] 1;;
  set_gauge "slm_runtime_image_digest_active"
    [py_str (jget_or "slm_runtime_version" (JStr "unknown") info);
     py_str (jget_or "slm_runtime" (JStr "unknown") info)] 1;;
  audit_generated s info;;
  match run_final g with
  | DeadLetter =>
      invalid ← flatten_invalid (s_validation_errors s);
      write (dead_letter_event s invalid);;
      mret tt
  | Completed => persist_deployed s info start sim_directive
  end.

(** [GraphRunner._run]. *)
Definition run_graph (s : session) (sim_directive : option string) : M unit :=
  start ← now;
  g ← run pv s;
  run_graph_tail sim_directive start g.

(** The [rejected] event of a run that raised. *)
Definition runner_error_event (s : session) (e : exn) : audit_args :=
  with_error (JObj [("code", JStr "GRAPH_RUNNER_ERROR"); ("message", JStr (str_exn e))])
    (session_event s "rejected").

(** [GraphRunner.run_async]. *)
Definition run_async (s : session) (sim_directive : option string) : M unit :=
  catch (run_graph s sim_directive) (λ e, write (runner_error_event s e);; mret tt).
End Runner.

(** * Every run ends on the record *)
Section RunnerFacts.
Context `{Env}.

Definition trail (w : world) : list audit_row := db_audit_events (w_db w).

Lemma simulate_trail t p dir : stable trail (simulate t p dir).
Proof.
  unfold simulate, dict_get, py_list, py_float, now.
  repeat first [ apply stable_mapM; intros ?
               | apply (stable_acquire_table db_audit_events); intros ?
               | apply stable_for_each; intros [[[? ?] ?] ?]
               | apply (stable_insert_row db_audit_events); done
               | progress unfold insert_observation, text_arg, make_row, datetime_add, generator,
                   uniform, random, subscript
               | effects_step ].
Qed.
End RunnerFacts.

(** No run is lost: when the runner returns, the audit trail of the session's
    correlation id ends with a verdict, a [deployed] or a [rejected] event of the
    session's tenant, whatever the generator, the collector or the database did. *)
Theorem run_ends_on_record `{Env} `{Pydantic} `{Difflib} `{Prompts} `{PayloadSigner}
    `{PolicyGeneratorClient} `{CollectorAIClient} (pv : PolicyValidator) (factor : Q)
    (s : session) (dir : option string) (w w' : world) :
  run_async pv factor s dir w = (Ok tt, w') →
  ∃ a, a ∈ db_audit_events (w_db w') ∧ au_tenant_id a = s_tenant_id s ∧
    au_correlation_id a = s_correlation_id s ∧ (au_kind a = "deployed" ∨ au_kind a = "rejected").
Proof.
  unfold run_async, catch. destruct (run_graph pv factor s dir w) as [[[]|e] w1] eqn:E.
  2: { intros Hh. apply bind_inv_ok in Hh as (eid & w2 & Hw & [= <-]).
       apply write_leaves in Hw as (a & Hin & _ & Ht & Hk & Hc & _). exists a. auto. }
  intros [= <-]. unfold run_graph in E. apply bind_inv_ok in E as (t0 & wa & _ & E).
  apply bind_inv_ok in E as (g & wb & Eg & E). unfold run_graph_tail in E.
  destruct (attempt_loop_ok pv _ (initial_plan s) 0 wa g wb eq_refl Eg) as (_ & Hs & _ & Hdone).
  destruct Hs as (Ht & _ & Hc & _). simpl in Ht, Hc.
  do 4 (apply bind_inv_ok in E as (? & ? & _ & E)).
  destruct (run_final g).
  - destruct (Hdone eq_refl) as (p & spec & rec & Hp & _ & _ & Hrec & Hacc).
    unfold persist_deployed in E. do 5 (apply bind_inv_ok in E as (? & ? & _ & E)).
    rewrite Hrec in E. assert (or_else (Some rec) (JObj []) = rec ∧ truthy rec = true) as [Her Htr].
    { destruct rec as [ | | | | | |[]]; done. }
    rewrite Her, Htr in E. simpl in E. do 2 (apply bind_inv_ok in E as (? & ? & _ & E)).
    apply bind_inv_ok in E as (eid & w2 & Hw & E).
    apply write_leaves in Hw as (a & Hin & _ & Hta & Hk & Hca & _). exists a.
    simpl in Hta, Hca. rewrite Hta, Hca. split_and!; [|done|done|by left].
    do 2 (apply bind_inv_ok in E as (? & ? & [= <- <-] & E)).
    apply bind_inv_ok in E as (n & w3 & Esim & [= <-]).
    match type of Esim with simulate ?t ?p ?d ?w0 = _ => pose proof (simulate_trail t p d w0) as Hst end.
    rewrite Esim in Hst. unfold trail in Hst. simpl in Hst. by rewrite Hst.
  - apply bind_inv_ok in E as (inv & w2 & _ & E). apply bind_inv_ok in E as (eid & w3 & Hw & [= <-]).
    apply write_leaves in Hw as (a & Hin & _ & Hta & Hk & Hca & _). exists a.
    simpl in Hta, Hca. rewrite Hta, Hca. auto.
Qed.

(** * The pipeline stays within its tenant *)
(** Clients that do not write to the registry themselves. *)
Class TablesApart `{PolicyGeneratorClient} `{CollectorAIClient} := {
  generator_apart : ∀ r, stable w_db (generate_policy r);
  collector_apart : ∀ c, stable w_db (collector_deploy c) }.

Lemma confined_session_write `{Env} t a : a_tenant_id a = t → confined t (write a).
Proof. intros <-. apply confined_write. Qed.

(** The walk through the registry calls of one tenant. *)
Ltac confined_calls :=
  repeat match goal with
  | |- confined _ (mapM _ _) => apply stable_mapM; intros ?
  | |- confined _ (write _) => apply confined_session_write; done
  | |- stable (λ w, foreign ?t (w_db w)) ?m => change (confined t m)
  | |- confined _ (let '(_, _) := ?x in _) => destruct x
  | _ => confined_step
  | |- confined _ ?m => progress (unfold subscript, dict_get, py_int, py_float, py_list, text_arg,
       parse_iso, datetime_add, generator, uniform, random, now, new_id, inc, set_gauge, observe, when,
       policy_field, make_row, insert_observation)
  end.

Section Confinement.
Context `{Env} `{Pydantic} `{Difflib} `{Prompts} `{PayloadSigner}.
Context `{PolicyGeneratorClient} `{CollectorAIClient} `{!TablesApart} (pv : PolicyValidator) (factor : Q).

Lemma generate_tables s : stable w_db (generate s).
Proof.
  unfold generate, render_prompt, retry_block, subst.
  repeat first [apply stable_bind; [|intros ?] | apply generator_apart | effects_step].
Qed.
Lemma validate_node_tables s : stable w_db (validate_node pv s).
Proof. unfold validate_node. solve_effects. Qed.
Lemma route_tables s ok : stable w_db (route_after_validation s ok).
Proof. unfold route_after_validation, inc. solve_effects. Qed.
Lemma deploy_tables s : stable w_db (deploy s).
Proof.
  unfold deploy, py_list, new_id, now.
  repeat first [apply stable_bind; [|intros ?] | apply collector_apart | effects_step].
Qed.
Lemma run_tables s : stable w_db (run pv s).
Proof.
  unfold run. generalize (initial_plan s), 0%nat. generalize (attempts_left s) as fuel.
  induction fuel as [|fuel IH]; intros s0 n; simpl; [apply stable_raise|].
  apply stable_bind; [apply generate_tables|]. intros s1.
  apply stable_bind; [apply validate_node_tables|]. intros [ok s2].
  apply stable_bind; [apply route_tables|]. intros [d s3].
  destruct d; try apply IH; try apply stable_ret.
  unfold deploy_and_finish. apply stable_bind; [apply deploy_tables|]. intros [? ?]. apply stable_ret.
Qed.

Lemma confined_simulate t policy dir : confined t (simulate t policy dir).
Proof. unfold simulate. confined_calls. Qed.
Lemma confined_policy_insert t policy m : confined t (policy_insert t policy m).
Proof. unfold policy_insert. confined_calls. Qed.
Lemma confined_deployment_insert t rec : confined t (deployment_insert t rec).
Proof. unfold deployment_insert. confined_calls. Qed.
#[local] Hint Resolve confined_simulate confined_policy_insert confined_deployment_insert : isolation.
Lemma confined_audit_generated s info : confined (s_tenant_id s) (audit_generated factor s info).
Proof. unfold audit_generated. confined_calls. Qed.
Lemma confined_persist s info start dir : confined (s_tenant_id s) (persist_deployed factor s info start dir).
Proof.
  unfold persist_deployed. confined_calls.
Qed.
#[local] Hint Resolve confined_audit_generated confined_persist : isolation.
Lemma confined_run_graph_tail dir start g :
  confined (s_tenant_id (run_session g)) (run_graph_tail factor dir start g).
Proof.
  unfold run_graph_tail, flatten_invalid. confined_calls.
Qed.
End Confinement.

(** A run writes for its own tenant only: whatever happens on the way, the rows
    of every other tenant, in every table, are left as they were. *)
Theorem run_confined `{Env} `{Pydantic} `{Difflib} `{Prompts} `{PayloadSigner}
    `{PolicyGeneratorClient} `{CollectorAIClient} `{!TablesApart} (pv : PolicyValidator) (factor : Q)
    (s : session) (dir : option string) :
  confined (s_tenant_id s) (run_async pv factor s dir).
Proof.
  unfold run_async. apply confined_catch.
  2: { intros e. apply confined_bind; [by apply confined_session_write | intros; apply stable_ret]. }
  unfold run_graph. apply confined_bind; [apply confined_outside; unfold now; solve_effects|]. intros t0.
  apply stable_bind_post; [apply confined_outside, run_tables|]. intros g w w' E.
  destruct (attempt_loop_ok pv _ (initial_plan s) 0 w g w' eq_refl E) as (_ & (Ht & _) & _ & _).
  simpl in Ht. change (confined (s_tenant_id s) (run_graph_tail factor dir t0 g)).
  rewrite <- Ht. apply confined_run_graph_tail.
Qed.

(** * Concrete runs *)
Lemma run_ends_on_record_witness :
  let w' := (run_async (H := Samples.env) GraphSamples.pv 1 GraphSamples.sess (Some "confirm")
    Samples.start).2 in
  ∃ a, a ∈ db_audit_events (w_db w') ∧ au_tenant_id a = "acme" ∧
    au_correlation_id a = "corr-1" ∧ (au_kind a = "deployed" ∨ au_kind a = "rejected").
Proof.
  intros w'. apply (run_ends_on_record (H := Samples.env) GraphSamples.pv 1 GraphSamples.sess
    (Some "confirm") Samples.start w'). subst w'. apply pair_of_fst. vm_compute. reflexivity.
Defined.

#[global] Instance sample_clients_apart :
  @TablesApart GraphSamples.generator GraphSamples.collector.
Proof. by split. Qed.
Lemma run_confined_witness :
  foreign "acme" (w_db (run_async (H := Samples.env) GraphSamples.pv 1 GraphSamples.sess None
    Samples.start).2) = foreign "acme" (w_db Samples.start).
Proof. apply (run_confined (H := Samples.env) GraphSamples.pv 1 GraphSamples.sess None). Defined.

(** A collector that refuses every deployment. *)
Definition refusing_collector : CollectorAIClient :=
  λ _, mret {| dr_deployment_id := "D1"; dr_status := "rejected";
               dr_downstream := Some (JObj [("reason", JStr "busy")]);
               dr_accepted_at := None; dr_expires_at := None |}.
Definition refused : world :=
  (run_async (H := Samples.env) (H5 := refusing_collector) GraphSamples.pv 1
    GraphSamples.sess None Samples.start).2.

(** A deployment the collector refuses is recorded as a validation failure:
    the policy passed validation and was sent, yet the trail says
    [VALIDATION_FAILED] with no validation errors, and neither the policy nor the
    refused deployment is in the registry. *)
Example deploy_rejection_recorded_as_validation_failure :
  (au_kind <$> db_audit_events (w_db refused)) = ["generated"; "rejected"] ∧
  (au_originating_finding <$> db_audit_events (w_db refused)) !! 1%nat =
    Some (Some (JObj [("tenant_id", JStr "acme"); ("finding_id", JStr "F1");
      ("_extras", JObj [("error", JObj [("code", JStr "VALIDATION_FAILED");
         ("details", JObj [("validation_errors", JArr []); ("invalid_signals", JArr [])])])])])) ∧
  length (w_sent refused) = 1%nat ∧
  db_collection_policies (w_db refused) = [] ∧ db_deployment_targets (w_db refused) = [].
Proof. vm_compute. split_and!; reflexivity. Qed.
