(* ===== verification/Ingest.v ===== *)
(** [ingest/]: the schema-version gate, the idempotency check and the
    [POST /api/v1/findings] handler. *)
From S2P Require Import Prelude PyStr PyDict Json JsonText PyTime Errors TokenBucket Models World Samples Database Isolation PyVal AuditLog Auth Http Validator Graph.
Local Open Scope Z_scope.

(** * [ingest/schema_version.py] *)
Record SchemaVersionResult := {
  sv_ok : bool; sv_code : option string; sv_supported_major : Z; sv_parsed : option (Z * Z * Z) }.

(** The three groups of [_SEMVER.match], if it matches. *)
Definition semver_groups (s : string) : option (string * string * string) :=
  match split_on "."%char (drop_final_newline s) with
  | [a; b; c] => if all_digits a && all_digits b && all_digits c then Some (a, b, c) else None
  | _ => None
  end.
(** [int(g)]; the interpreter refuses more than 4300 digits. *)
Definition group_int (g : string) : M Z :=
  if (String.length g <=? 4300)%nat then mret (digits_val g)
  else raise (EValueError "Exceeds the limit (4300 digits) for integer string conversion").

(** [SchemaVersionChecker.check]. *)
Definition check_version (supported_major : Z) (version : option json) : M SchemaVersionResult :=
  let malformed := {| sv_ok := false; sv_code := Some "SCHEMA_VERSION_MALFORMED";
                      sv_supported_major := supported_major; sv_parsed := None |} in
  if negb (truthy (opt_json version)) then mret malformed
  else match opt_json version with
  | JStr s =>
      match semver_groups s with
      | None => mret malformed
      | Some (a, b, c) =>
          major ← group_int a; minor ← group_int b; patch ← group_int c;
          mret (if major =? supported_major
                then {| sv_ok := true; sv_code := None; sv_supported_major := supported_major;
                        sv_parsed := Some (major, minor, patch) |}
                else {| sv_ok := false; sv_code := Some "SCHEMA_VERSION_UNSUPPORTED";
                        sv_supported_major := supported_major;
                        sv_parsed := Some (major, minor, patch) |})
      end
  | _ => raise (ETypeError "expected string or bytes-like object")
  end.

(** * [ingest/idempotency.py] *)
Record IdempotencyDecision := {
  first_seen : bool; idempotent_replay : bool; payload_changed : bool }.

(** The two constructor calls both backends share. *)
Definition decision_of (previous : option string) (payload_sha : string) : IdempotencyDecision :=
  match previous with
  | None => {| first_seen := true; idempotent_replay := false; payload_changed := false |}
  | Some p => {| first_seen := false; idempotent_replay := str_eqb p payload_sha;
                 payload_changed := negb (str_eqb p payload_sha) |}
  end.

(** [_InMemoryBackend.check_or_record]. *)
Definition memory_check (tenant_id finding_id payload_sha : string)
    (store : gmap (string * string) string) : IdempotencyDecision * gmap (string * string) string :=
  let key := (tenant_id, finding_id) in
  (decision_of (store !! key) payload_sha,
   match store !! key with None => <[key := payload_sha]> store | Some _ => store end).

(** [_PgBackend.check_or_record]. *)
Definition pg_check (tenant_id finding_id payload_sha : string) : M IdempotencyDecision :=
  acquire tenant_id (λ c,
    rows ← select c db_diagnostic_findings
      (λ r, str_eqb (fi_tenant_id r) tenant_id && str_eqb (fi_finding_id r) finding_id);
    mret (decision_of (fi_received_payload_sha256 <$> head rows) payload_sha)).

(** * [ingest/http.py] *)
(** [hashlib.sha256(...).digest()]. *)
Class Sha256 := sha256 : string → string.
Class Sha256Laws `{Sha256} := sha256_length : ∀ s, String.length (sha256 s) = 32%nat.

Section Http.
Context `{Env} `{Pydantic} `{JwtLib} `{Sha256}.

(** The row of the INSERT in [_persist_finding]. *)
Definition finding_row_of (tenant_id : string) (f : DiagnosticFinding) (payload_sha : string)
    (accepted_at : Z) : finding_row :=
  FindingRow tenant_id (f_finding_id f) (f_schema_version f) (f_anomaly_type f)
    (f_hypothesis_class f) (f_hypothesis_statement f) (jstrs (f_candidate_signals f))
    (jstrs (f_vehicle_scope f)) (round3 (f_upstream_confidence f)) accepted_at payload_sha.
Definition accepted_event (p : Principal) (f : DiagnosticFinding) (correlation_id : string)
    : audit_args :=
  with_schema_version (Some (JStr (f_schema_version f)))
    (with_finding (JObj [("tenant_id", JStr (pr_tenant_id p)); ("finding_id", JStr (f_finding_id f))])
      (event (pr_tenant_id p) "accepted" correlation_id (pr_subject p))).

(** [_persist_finding]. *)
Definition persist_finding (p : Principal) (f : DiagnosticFinding) (payload_sha correlation_id : string)
    (accepted_at : Z) : M unit :=
  acquire (pr_tenant_id p) (λ c,
    insert_finding c (finding_row_of (pr_tenant_id p) f payload_sha accepted_at));;
  write (accepted_event p f correlation_id);;
  mret tt.

(** The [originating_finding] of the session. *)
Definition finding_dict (tenant_id : string) (f : DiagnosticFinding) : json :=
  JObj [("tenant_id", JStr tenant_id); ("finding_id", JStr (f_finding_id f));
        ("schema_version", JStr (f_schema_version f)); ("anomaly_type", JStr (f_anomaly_type f));
        ("hypothesis_class", JStr (f_hypothesis_class f));
        ("hypothesis_statement", JStr (f_hypothesis_statement f));
        ("candidate_signals", jstrs (f_candidate_signals f));
        ("vehicle_scope", jstrs (f_vehicle_scope f));
        ("upstream_confidence", JFloat (f_upstream_confidence f))].
(** [_enqueue]. *)
Definition enqueue (p : Principal) (f : DiagnosticFinding) (correlation_id : string)
    (sim_directive accel_header : option string) : M unit :=
  session_id ← new_id;
  started ← now;
  spawn (TGraph (new_session session_id (pr_tenant_id p) correlation_id
    (finding_dict (pr_tenant_id p) f) started)
    sim_directive accel_header).

Definition receipt (p : Principal) (f : DiagnosticFinding) (correlation_id : string) (accepted_at : Z)
    (replay : bool) : response :=
  JSONResponse 202 (JObj
    [("tenant_id", JStr (pr_tenant_id p)); ("finding_id", JStr (f_finding_id f));
     ("correlation_id", JStr correlation_id); ("accepted_at", JStr (isoformat accepted_at));
     ("policy_id", JStr ("policy-" +:+ f_finding_id f)); ("idempotent_replay", JBool replay)]).

(** The checks on the body, in the order of the handler. *)
Definition check_body (p : Principal) (body : json) : M DiagnosticFinding :=
  body_tenant ← dict_get "tenant_id" body;
  when (negb (bool_decide (opt_json body_tenant = JNull)) &&
        negb (bool_decide (opt_json body_tenant = JStr (pr_tenant_id p))))
    (raise (ECollectMind (NotFound "finding"
       (py_str (or_else (jget "finding_id" body) (JStr ""))))));;
  sv ← check_version 1 (jget "schema_version" body);
  when (negb (sv_ok sv) && bool_decide (sv_code sv = Some "SCHEMA_VERSION_UNSUPPORTED"))
    (raise (ECollectMind (SchemaVersionUnsupported (jget_or "schema_version" (JStr "") body)
       (str_of_Z (sv_supported_major sv)))));;
  when (negb (sv_ok sv))
    (raise (ECollectMind (SchemaValidationFailed "schema_version" "malformed semver")));;
  match validate_finding body with
  | Ok f => mret f
  | Raise es =>
      let '(loc, msg) := match es with
                         | (loc, ty) :: _ => (loc, pyd_msg ty)
                         | [] => (["unknown"], "invalid")
                         end in
      raise (ECollectMind (SchemaValidationFailed (join "." loc) msg))
  end.

(** The body of [post_finding], for an authenticated caller. *)
Definition accept_finding (p : Principal) (rq : request) : M response :=
  body ← lift (rq_body rq);
  f ← check_body p body;
  let payload_sha := sha256 (canonical body) in
  correlation_id ← match header "x-correlation-id" rq with
                   | Some h => if nonempty h then mret h else new_id
                   | None => new_id
                   end;
  accepted_at ← now;
  d ← pg_check (pr_tenant_id p) (f_finding_id f) payload_sha;
  inc "diagnostic_findings_received_total" [pr_tenant_id p];;
  if first_seen d then
    persist_finding p f payload_sha correlation_id accepted_at;;
    enqueue p f correlation_id (header "x-telemetry-simulator-directive" rq)
      (header "x-time-acceleration-factor" rq);;
    mret (receipt p f correlation_id accepted_at false)
  else mret (receipt p f correlation_id accepted_at true).

(** [post_finding], with its [authenticated_principal] dependency. *)
Definition post_finding (rq : request) : M response :=
  p ← authenticated_principal (rq_credentials rq);
  accept_finding p rq.
End Http.

(** * Facts *)
Section IngestFacts.
Context `{Env} `{Pydantic} `{JwtLib} `{Sha256}.

(** The finding is on file for the tenant. *)
Definition seen (t fid : string) (d : db) : bool :=
  existsb (λ r, str_eqb (fi_tenant_id r) t && str_eqb (fi_finding_id r) fid)
    (db_diagnostic_findings d).

Lemma check_version_pure m v : stable (λ w, w) (check_version m v).
Proof.
  unfold check_version, group_int. destruct (negb _); [apply stable_ret|].
  destruct (opt_json v); try apply stable_raise. destruct (semver_groups s) as [[[a b] c]|].
  - solve_effects.
  - apply stable_ret.
Qed.
Lemma check_body_pure p body : stable (λ w, w) (check_body p body).
Proof.
  unfold check_body, dict_get, when.
  repeat (apply stable_bind; [|intros ?]); try apply check_version_pure.
  - destruct body; first [apply stable_ret | apply stable_raise].
  - destruct (_ && _); first [apply stable_ret | apply stable_raise].
  - destruct (_ && _); first [apply stable_ret | apply stable_raise].
  - destruct (negb _); first [apply stable_ret | apply stable_raise].
  - destruct (validate_finding body) as [|[|[]]]; first [apply stable_ret | apply stable_raise].
Qed.
Lemma check_body_ok p body w f w' : check_body p body w = (Ok f, w') →
  w' = w ∧ validate_finding body = Ok f.
Proof.
  intros E. split; [by eapply pure_run, E; apply check_body_pure|]. unfold check_body in E.
  do 5 (apply bind_inv_ok in E as (? & ? & _ & E)).
  destruct (validate_finding body) as [f'|es]; [by injection E as <- <-|]. by destruct es as [|[]].
Qed.

Lemma pg_check_ok t fid sha w d w' : pg_check t fid sha w = (Ok d, w') →
  w' = w ∧ w_pool w = true ∧
  (first_seen d = false → seen t fid (w_db w) = true) ∧
  (first_seen d = true → nonempty t = true → seen t fid (w_db w) = false).
Proof.
  intros [Hp E]%acquire_ok. apply bind_inv_ok in E as (rows & w1 & [= <- <-] & [= <- <-]).
  unfold rls_visible, row_tenant, finding_tenanted. simpl. split_and!; try done.
  - destruct (List.filter _ _) as [|r rows] eqn:Ef; [done|]. intros _.
    assert (r ∈ r :: rows) as Hr by (by left). rewrite <- Ef in Hr.
    apply list_elem_of_In, filter_In in Hr as [Hin Hr]. apply existsb_exists. exists r.
    split; [done|]. by apply andb_true_iff in Hr as [_ Hr].
  - intros Hf Hne. destruct (List.filter _ _) eqn:Ef; [|done]. apply not_true_is_false. intros Hs.
    apply existsb_exists in Hs as (r & Hin & Hr).
    assert (In r (List.filter (λ r, nonempty t && str_eqb (fi_tenant_id r) t &&
      (str_eqb (fi_tenant_id r) t && str_eqb (fi_finding_id r) fid)) (db_diagnostic_findings (w_db w)))) as Hx.
    { apply filter_In. split; [done|]. rewrite Hne, Hr. apply andb_true_iff in Hr as [-> _]. done. }
    by rewrite Ef in Hx.
Qed.

(** The finding an event names. *)
Definition event_finding (a : audit_row) : option json :=
  originating ← au_originating_finding a; jget "finding_id" originating.
(** The [accepted] event of a tenant under a correlation id after a write: a new
    one, the only addition to the trail, which names the finding; or, when the
    tenant had one under that correlation id, that one and no addition. *)
Definition accepted_on_trail (p : Principal) (f : DiagnosticFinding) (cid : string) (w w' : world) : Prop :=
  ∃ a, au_tenant_id a = pr_tenant_id p ∧ au_kind a = "accepted" ∧ au_correlation_id a = cid ∧
    ((db_audit_events (w_db w') = db_audit_events (w_db w) ++ [a] ∧
      event_finding a = Some (JStr (f_finding_id f))) ∨
     (a ∈ db_audit_events (w_db w) ∧ db_audit_events (w_db w') = db_audit_events (w_db w))).

Lemma accepted_write p f cid w eid w' : write (accepted_event p f cid) w = (Ok eid, w') →
  accepted_on_trail p f cid w w'.
Proof.
  intros Hw. destruct (write_cases (accepted_event p f cid) w)
    as [(row & Hr & _ & _ & _ & _ & _ & E)|[(row & r & rs & _ & _ & _ & _ & _ & Hv & E)|(e & w1 & E & _)]];
    rewrite E in Hw; simplify_eq.
  - exists row. destruct (event_row_fields _ _ _ _ Hr) as (_ & Ht & Hk & Hc & _ & Ho).
    split_and!; try done. left. split; [done|]. unfold event_finding. by rewrite Ho.
  - exists r. assert (r ∈ visible_events (pr_tenant_id p) cid "accepted" (w_db w))
      as Hin by (simpl in Hv; rewrite Hv; by left).
    apply list_elem_of_In, filter_In in Hin as [Hin Hpr].
    rewrite !andb_true_iff in Hpr. destruct Hpr as [Ht%visible_own [Hc Hk]].
    apply str_eqb_eq in Ht, Hc, Hk. split_and!; try done. right. split; [by apply list_elem_of_In|done].
Qed.

Lemma persist_ok p f sha cid t w w' : persist_finding p f sha cid t w = (Ok tt, w') →
  let row := finding_row_of (pr_tenant_id p) f sha t in
  nonempty (pr_tenant_id p) = true ∧ accepted_on_trail p f cid w w' ∧
  (seen (pr_tenant_id p) (f_finding_id f) (w_db w) = false →
   db_diagnostic_findings (w_db w') = db_diagnostic_findings (w_db w) ++ [row]) ∧
  w_tasks w' = w_tasks w.
Proof.
  intros E row. apply bind_inv_ok in E as (b & w1 & Ei & E).
  apply acquire_ok in Ei as [Hp Ei]. apply bind_inv_ok in E as (eid & w2 & Ew & [= <-]).
  pose proof (write_appends (accepted_event p f cid) w1) as (rows & Hdb & _).
  pose proof (write_outside w_tasks (accepted_event p f cid)
    ltac:(done) ltac:(done) ltac:(done) w1) as Ht.
  pose proof (accepted_write _ _ _ _ _ _ Ew) as Ha. unfold accepted_on_trail in *.
  rewrite Ew in Hdb, Ht. simpl in Hdb, Ht. apply write_leaves in Ew as (_ & _ & _ & _ & _ & _ & _ & Hne).
  simpl in Hne. split; [done|]. rewrite Hdb in Ha |- *. rewrite Ht. simpl in Ha |- *. unfold insert_finding in Ei.
  edestruct (insert_row_cases (Conn TenantRole (Some (pr_tenant_id p)) (w_guc w)) "diagnostic_findings"
    db_diagnostic_findings upd_diagnostic_findings finding_checks)
    as [(Er & _)|[(Er & _ & _ & u & Hu & _ & Hx)|(e & Er)]]; rewrite Er in Ei; [| |done].
  - injection Ei as _ <-. split; [exact Ha|done].
  - injection Ei as _ <-. split; [exact Ha|]. split; [|done]. intros Hs. exfalso.
    apply elem_of_cons in Hu as [->|Hu]; [|by apply not_elem_of_nil in Hu]. simpl in Hx.
    apply existsb_exists in Hx as (r & Hr & Hpk). unfold finding_pk in Hpk. simpl in Hpk.
    assert (seen (pr_tenant_id p) (f_finding_id f) (w_db w) = true); [|congruence].
    apply existsb_exists. exists r. split; [done|].
    by rewrite (str_eqb_sym (fi_tenant_id r)), (str_eqb_sym (fi_finding_id r)).
Qed.

(** What a new finding leaves behind. *)
Definition taken_in (p : Principal) (f : DiagnosticFinding) (cid : string) (w w' : world) : Prop :=
  (∃ row, db_diagnostic_findings (w_db w') = db_diagnostic_findings (w_db w) ++ [row] ∧
     fi_tenant_id row = pr_tenant_id p ∧ fi_finding_id row = f_finding_id f) ∧
  accepted_on_trail p f cid w w' ∧
  (∃ sess dir acc, w_tasks w' = w_tasks w ++ [TGraph sess dir acc] ∧
     s_tenant_id sess = pr_tenant_id p ∧ s_correlation_id sess = cid ∧
     jget "finding_id" (s_originating_finding sess) = Some (JStr (f_finding_id f))).

Lemma post_finding_ok rq w resp w' : post_finding rq w = (Ok resp, w') →
  ∃ p body f cid t w0, authenticated_principal (rq_credentials rq) w = (Ok p, w0) ∧
    rq_body rq = Ok body ∧ validate_finding body = Ok f ∧
    (∀ h, header "x-correlation-id" rq = Some h → nonempty h = true → cid = h) ∧
    resp = receipt p f cid t (seen (pr_tenant_id p) (f_finding_id f) (w_db w)) ∧
    (if seen (pr_tenant_id p) (f_finding_id f) (w_db w)
     then w_db w' = w_db w ∧ w_tasks w' = w_tasks w else taken_in p f cid w w').
Proof.
  unfold post_finding. intros E. apply bind_inv_ok in E as (p & w0 & Ep & E). unfold accept_finding in E.
  pose proof (authenticated_outside w_db (rq_credentials rq) ltac:(by intros []) ltac:(done) w) as Hdb.
  pose proof (authenticated_outside w_tasks (rq_credentials rq) ltac:(by intros []) ltac:(done) w) as Htk.
  rewrite Ep in Hdb, Htk. simpl in Hdb, Htk.
  apply bind_inv_ok in E as (body & w1 & Eb & E). unfold lift in Eb. injection Eb as Hb <-.
  apply bind_inv_ok in E as (f & w1 & Ef & E). apply check_body_ok in Ef as [-> Hf].
  apply bind_inv_ok in E as (cid & w1 & Ec & E).
  assert (w_db w1 = w_db w0 ∧ w_tasks w1 = w_tasks w0) as [Hdb1 Htk1].
  { repeat case_match; by injection Ec as _ <-. }
  assert (∀ h, header "x-correlation-id" rq = Some h → nonempty h = true → cid = h) as Hcid.
  { intros h Hh Hne. rewrite Hh, Hne in Ec. by injection Ec as <- _. }
  apply bind_inv_ok in E as (t & w2 & [= <- <-] & E).
  apply bind_inv_ok in E as (d & w3 & Ed & E). apply pg_check_ok in Ed as (-> & _ & Hseen & Hnew).
  simpl in Hseen, Hnew. rewrite Hdb1, Hdb in Hseen, Hnew.
  apply bind_inv_ok in E as ([] & w4 & [= <-] & E). exists p, body, f, cid, (clock (w_clock_n w1)), w0.
  destruct (first_seen d).
  - apply bind_inv_ok in E as ([] & w5 & Epf & E). apply persist_ok in Epf as (Hne & Ha & Hrow & Ht5).
    simpl in Hrow, Ht5. rewrite Hdb1, Hdb in Hrow.
    rewrite (Hnew eq_refl Hne) in *. apply bind_inv_ok in E as ([] & w6 & [= <-] & [= <- <-]).
    split_and!; try done. unfold taken_in, accepted_on_trail in *. simpl in Ha |- *. rewrite Hdb1, Hdb in Ha. rewrite Hrow by done. split_and!.
    + eexists. split; [reflexivity|]. done.
    + exact Ha.
    + eexists _, _, _. split; [by rewrite Ht5, Htk1, Htk|]. done.
  - rewrite (Hseen eq_refl) in *. injection E as <- <-. simpl. split_and!; try done; congruence.
Qed.
End IngestFacts.

(** C8. A finding is taken in exactly once.  A request that is answered has a
    schema-valid body, and the correlation id of the receipt is the caller's
    [x-correlation-id] when one was sent.  When the tenant has no finding under
    that id: one row is added to the registry, with the caller's tenant and the
    finding's id; one graph run is scheduled, for that tenant, under the receipt's
    correlation id and for this finding; and the trail holds an [accepted] event of
    the tenant under that correlation id, which is the one event added and names
    this finding, unless the tenant already had one under the same correlation id,
    in which case that one stands and none is added.  When the tenant has the
    finding, no table changes and nothing is scheduled, and the receipt says it is a
    replay.  The code answers 202 in both cases, where the published contract
    documents 409 for the replay. *)
Theorem post_finding_exactly_once `{Env} `{Pydantic} `{JwtLib} `{Sha256} (rq : request)
    (w w' : world) (resp : response) :
  post_finding rq w = (Ok resp, w') →
  ∃ p body f cid w0, authenticated_principal (rq_credentials rq) w = (Ok p, w0) ∧
    rq_body rq = Ok body ∧ validate_finding body = Ok f ∧ rs_status resp = 202 ∧
    (∀ h, header "x-correlation-id" rq = Some h → nonempty h = true → cid = h) ∧
    jget "correlation_id" (rs_body resp) = Some (JStr cid) ∧
    jget "idempotent_replay" (rs_body resp) =
      Some (JBool (seen (pr_tenant_id p) (f_finding_id f) (w_db w))) ∧
    (if seen (pr_tenant_id p) (f_finding_id f) (w_db w)
     then w_db w' = w_db w ∧ w_tasks w' = w_tasks w else taken_in p f cid w w').
Proof.
  intros E. destruct (post_finding_ok _ _ _ _ E) as (p & body & f & cid & t & w0 & Hp & Hb & Hf & Hc & -> & Hs).
  exists p, body, f, cid, w0. by split_and!.
Qed.

(** Retrying is harmless: once a finding of a tenant has been answered, any
    later answered request of that tenant with the same finding id, in the state
    the first one left, changes no table and schedules nothing. *)
Theorem post_finding_replay `{Env} `{Pydantic} `{JwtLib} `{Sha256} (rq1 rq2 : request)
    (w w1 w2 wa wb : world) (r1 r2 : response) (p1 p2 : Principal) (b1 b2 : json)
    (f1 f2 : DiagnosticFinding) :
  post_finding rq1 w = (Ok r1, w1) → post_finding rq2 w1 = (Ok r2, w2) →
  authenticated_principal (rq_credentials rq1) w = (Ok p1, wa) →
  authenticated_principal (rq_credentials rq2) w1 = (Ok p2, wb) →
  pr_tenant_id p1 = pr_tenant_id p2 → rq_body rq1 = Ok b1 → rq_body rq2 = Ok b2 →
  validate_finding b1 = Ok f1 → validate_finding b2 = Ok f2 → f_finding_id f1 = f_finding_id f2 →
  w_db w2 = w_db w1 ∧ w_tasks w2 = w_tasks w1 ∧
  jget "idempotent_replay" (rs_body r2) = Some (JBool true).
Proof.
  intros E1 E2 Hp1 Hp2 Ht Hb1 Hb2 Hf1 Hf2 Hid.
  destruct (post_finding_ok _ _ _ _ E1) as (p & body & f & cid & t & w0 & Hp & Hb & Hf & _ & _ & Hs).
  destruct (post_finding_ok _ _ _ _ E2) as (p' & body' & f' & cid' & t' & w0' & Hp' & Hb' & Hf' & _ & -> & Hs').
  rewrite Hp1 in Hp. rewrite Hp2 in Hp'. injection Hp as <- _. injection Hp' as <- _.
  rewrite Hb1 in Hb. rewrite Hb2 in Hb'. injection Hb as <-. injection Hb' as <-.
  rewrite Hf1 in Hf. rewrite Hf2 in Hf'. injection Hf as <-. injection Hf' as <-.
  assert (seen (pr_tenant_id p2) (f_finding_id f2) (w_db w1) = true) as Hseen.
  { rewrite <- Ht, <- Hid. destruct (seen _ _ (w_db w)) eqn:Es.
    - destruct Hs as [-> _]. exact Es.
    - destruct Hs as [(row & Hrow & Hrt & Hri) _]. unfold seen. rewrite Hrow, existsb_app. simpl.
      by rewrite Hrt, Hri, !str_eqb_refl, orb_true_r. }
  rewrite Hseen in *. by destruct Hs'.
Qed.

(** * What the handler refuses *)
(** The body named another tenant. *)
Definition names_other_tenant (p : Principal) (body : json) : Prop :=
  ∃ v, jget "tenant_id" body = Some v ∧ v ≠ JNull ∧ v ≠ JStr (pr_tenant_id p).

(** Bodies that name another tenant are refused with 404 before anything is
    looked at, whatever else the body holds, and nothing is written or scheduled. *)
Theorem cross_tenant_body_not_found `{Env} `{Pydantic} `{JwtLib} `{Sha256} (rq : request)
    (w w0 : world) (p : Principal) (body : json) :
  authenticated_principal (rq_credentials rq) w = (Ok p, w0) → rq_body rq = Ok body →
  names_other_tenant p body →
  ∃ e w', post_finding rq w = (Raise (ECollectMind e), w') ∧ e_class e = CNotFound ∧
    e_status e = 404 ∧ w_db w' = w_db w ∧ w_tasks w' = w_tasks w.
Proof.
  intros Hp Hb (v & Hv & Hn & Ho). unfold post_finding. rewrite (bind_ok _ _ _ _ _ Hp). unfold accept_finding.
  unfold lift. rewrite Hb. rewrite (bind_ok _ _ w0 body w0) by done.
  eexists _, w0. rewrite (bind_raise _ _ w0 (ECollectMind (NotFound "finding"
    (py_str (or_else (jget "finding_id" body) (JStr ""))))) w0).
  - split; [reflexivity|].
    pose proof (authenticated_outside w_db (rq_credentials rq) ltac:(by intros []) ltac:(done) w) as Hdb.
    pose proof (authenticated_outside w_tasks (rq_credentials rq) ltac:(by intros []) ltac:(done) w) as Htk.
    rewrite Hp in Hdb, Htk. done.
  - unfold check_body. destruct body as [ | | | | | |o]; try done. rewrite jget_obj in Hv.
    unfold dict_get. rewrite (bind_ok _ _ w0 (Some v) w0) by (by rewrite Hv).
    simpl opt_json. rewrite !bool_decide_eq_false_2 by done. reflexivity.
Qed.

(** A schema version that is not a string is not a client error here: the
    handler raises [TypeError], which the application answers with 500. *)
Theorem non_string_version_crashes `{Env} `{Pydantic} `{JwtLib} `{Sha256} (rq : request)
    (w w0 : world) (p : Principal) (o : list (string * json)) (v : json) :
  authenticated_principal (rq_credentials rq) w = (Ok p, w0) → rq_body rq = Ok (JObj o) →
  dget "tenant_id" o = None → dget "schema_version" o = Some v → truthy v = true →
  (∀ s, v ≠ JStr s) →
  ∃ r w', respond (post_finding rq) w = (Ok r, w') ∧ rs_status r = 500.
Proof.
  intros Hp Hb Ht Hv Htr Hns. unfold respond, catch, post_finding.
  rewrite (bind_ok _ _ _ _ _ Hp). unfold accept_finding, lift. rewrite Hb, (bind_ok _ _ w0 (JObj o) w0) by done.
  rewrite (bind_raise _ _ w0 (ETypeError "expected string or bytes-like object") w0); [by eexists _, _|].
  unfold check_body, dict_get. rewrite (bind_ok _ _ w0 None w0) by (by rewrite Ht).
  rewrite (bind_ok _ _ w0 tt w0) by done. apply bind_raise.
  unfold check_version. rewrite jget_obj, Hv. change (opt_json (Some v)) with v. rewrite Htr. simpl.
  destruct v; try done. by destruct (Hns s).
Qed.

Lemma accept_finding_confined `{Env} `{Pydantic} `{Sha256} (p : Principal) (rq : request) :
  confined (pr_tenant_id p) (accept_finding p rq).
Proof.
  assert (∀ f cid, confined (pr_tenant_id p) (write (accepted_event p f cid))) as Hw
    by (intros; apply (confined_write (accepted_event p f cid))).
  unfold accept_finding, pg_check, persist_finding, enqueue, new_id, now, spawn, inc.
  repeat match goal with
  | |- confined _ (check_body _ _) => apply confined_outside, pure_stable, check_body_pure
  | |- confined _ (write _) => apply Hw
  | _ => confined_step
  end.
Qed.

(** Taking in a finding touches the caller's tenant only: whatever the outcome,
    the rows of every other tenant are left as they were. *)
Theorem post_finding_confined `{Env} `{Pydantic} `{JwtLib} `{Sha256} (rq : request)
    (w w0 : world) (p : Principal) :
  authenticated_principal (rq_credentials rq) w = (Ok p, w0) →
  foreign (pr_tenant_id p) (w_db (post_finding rq w).2) = foreign (pr_tenant_id p) (w_db w).
Proof.
  intros Hp.
  pose proof (authenticated_outside w_db (rq_credentials rq) ltac:(by intros []) ltac:(done) w) as Hdb.
  rewrite Hp in Hdb. simpl in Hdb. rewrite <- Hdb. unfold post_finding.
  rewrite (bind_ok _ _ _ _ _ Hp). apply accept_finding_confined.
Qed.

(** C30. The two backends decide alike: as long as the in-memory store holds
    exactly the payload digests of the findings on file, both give the same
    decision, and recording a new finding in one keeps the store in step with the
    row the handler adds to the other. *)
Theorem idempotency_backends_agree `{Env} (t fid sha : string) (store : gmap (string * string) string)
    (w : world) (d : IdempotencyDecision) (w' : world) :
  (∀ t f, store !! (t, f) = fi_received_payload_sha256 <$>
     head (List.filter (λ r, str_eqb (fi_tenant_id r) t && str_eqb (fi_finding_id r) f)
       (db_diagnostic_findings (w_db w)))) →
  nonempty t = true → pg_check t fid sha w = (Ok d, w') →
  (memory_check t fid sha store).1 = d ∧
  ∀ row, fi_tenant_id row = t → fi_finding_id row = fid → fi_received_payload_sha256 row = sha →
    first_seen d = true →
    ∀ t' f', (memory_check t fid sha store).2 !! (t', f') = fi_received_payload_sha256 <$>
      head (List.filter (λ r, str_eqb (fi_tenant_id r) t' && str_eqb (fi_finding_id r) f')
        (db_diagnostic_findings (w_db w) ++ [row])).
Proof.
  intros Hst Hne [_ E]%acquire_ok. apply bind_inv_ok in E as (rows & w1 & [= <- <-] & [= <- _]).
  unfold rls_visible, row_tenant, finding_tenanted, memory_check. simpl. rewrite Hst, Hne. simpl.
  rewrite (filter_ext_bool (λ r, str_eqb (fi_tenant_id r) t && (str_eqb (fi_tenant_id r) t && str_eqb (fi_finding_id r) fid))
    (λ r, str_eqb (fi_tenant_id r) t && str_eqb (fi_finding_id r) fid))
    by (intros r; by destruct (str_eqb (fi_tenant_id r) t)).
  split; [done|]. intros row Ht Hf Hs Hfirst t' f'. rewrite List.filter_app. simpl.
  destruct (List.filter _ (db_diagnostic_findings (w_db w))) as [|x l] eqn:Ef; [|done]. simpl.
  destruct (decide ((t, fid) = (t', f'))) as [[= <- <-]|Hn].
  - rewrite lookup_insert_eq, Ef, Ht, Hf, !str_eqb_refl, <- Hs. done.
  - rewrite lookup_insert_ne, Hst, Ht, Hf by done.
    destruct (str_eqb t t' && str_eqb fid f') eqn:Eq; [|by rewrite app_nil_r].
    apply andb_true_iff in Eq as [->%str_eqb_eq ->%str_eqb_eq]. done.
Qed.

(** * Concrete requests *)
Module IngestSamples.
#[global] Instance sha : Sha256 := λ _, "00112233445566778899aabbccddeeff".
#[global] Instance sha_laws : @Sha256Laws sha.
Proof. done. Qed.
Definition body : list (string * json) :=
  [ ("schema_version", JStr "1.2.0"); ("finding_id", JStr "F1"); ("anomaly_type", JStr "brake_wear");
    ("hypothesis_class", JStr "wear"); ("hypothesis_statement", JStr "pads worn");
    ("candidate_signals", jstrs ["Vehicle.Speed"]); ("vehicle_scope", jstrs ["VIN-1"]);
    ("upstream_confidence", JFloat (8 # 10)) ].
Definition rq (o : list (string * json)) (headers : list (string * string)) : request :=
  Request "POST" "/api/v1/findings" headers (Some ("Bearer", "tok")) (Ok (JObj o)).
Definition rq1 : request := rq body [("x-correlation-id", "c-1")].
Notation post r := (post_finding (H := Samples.env) (H0 := GraphSamples.pydantic) r).
Notation auth := (authenticated_principal (H := Samples.env) (Some ("Bearer", "tok"))).
Definition acme : Principal :=
  {| pr_tenant_id := "acme"; pr_subject := "client-7"; pr_scopes := ["findings:write"]; pr_token_id := "" |}.
End IngestSamples.
Import IngestSamples.

Lemma post_finding_exactly_once_witness :
  let w' := (post rq1 Samples.start).2 in
  ∃ r, (post rq1 Samples.start).1 = Ok r ∧
  ∃ p body f cid w0, auth Samples.start = (Ok p, w0) ∧
    rq_body rq1 = Ok body ∧ validate_finding body = Ok f ∧ rs_status r = 202 ∧
    (∀ h, header "x-correlation-id" rq1 = Some h → nonempty h = true → cid = h) ∧
    jget "correlation_id" (rs_body r) = Some (JStr cid) ∧
    jget "idempotent_replay" (rs_body r) =
      Some (JBool (seen (pr_tenant_id p) (f_finding_id f) (w_db Samples.start))) ∧
    (if seen (pr_tenant_id p) (f_finding_id f) (w_db Samples.start)
     then w_db w' = w_db Samples.start ∧ w_tasks w' = w_tasks Samples.start
     else taken_in p f cid Samples.start w').
Proof.
  intros w'. eexists. split; [vm_compute; reflexivity|].
  apply (post_finding_exactly_once (H := Samples.env) rq1 Samples.start w').
  subst w'. apply pair_of_fst. vm_compute. reflexivity.
Defined.

Lemma post_finding_replay_witness :
  let w1 := (post rq1 Samples.start).2 in
  let w2 := (post (rq body []) w1).2 in
  w_db w2 = w_db w1 ∧ w_tasks w2 = w_tasks w1 ∧
  ∃ r2, (post (rq body []) w1).1 = Ok r2 ∧ jget "idempotent_replay" (rs_body r2) = Some (JBool true).
Proof.
  intros w1 w2. destruct (post rq1 Samples.start).1 as [r1|e] eqn:E1; [|vm_compute in E1; discriminate E1].
  destruct (post (rq body []) w1).1 as [r2|e] eqn:E2; [|vm_compute in E2; discriminate E2].
  destruct (validate_finding (JObj body)) as [f|es] eqn:Ef; [|vm_compute in Ef; discriminate Ef].
  destruct (post_finding_replay (H := Samples.env) rq1 (rq body []) Samples.start w1 w2
    (auth Samples.start).2 (auth w1).2 r1 r2 acme acme (JObj body) (JObj body) f f) as (A & B & C);
    [ exact (pair_of_fst _ _ E1) | exact (pair_of_fst _ _ E2)
    | apply pair_of_fst; vm_compute; reflexivity | apply pair_of_fst; vm_compute; reflexivity
    | reflexivity | reflexivity | reflexivity | exact Ef | exact Ef | reflexivity | ].
  split; [exact A|]. split; [exact B|]. exists r2. split; [reflexivity | exact C].
Defined.

Lemma cross_tenant_body_not_found_witness :
  let r := rq (("tenant_id", JStr "globex") :: body) [] in
  ∃ e w', post r Samples.start = (Raise (ECollectMind e), w') ∧ e_class e = CNotFound ∧
    e_status e = 404 ∧ w_db w' = w_db Samples.start ∧ w_tasks w' = w_tasks Samples.start.
Proof.
  intros r. apply (cross_tenant_body_not_found (H := Samples.env) r Samples.start
    (auth Samples.start).2 acme (JObj (("tenant_id", JStr "globex") :: body))).
  - apply pair_of_fst. vm_compute. reflexivity.
  - reflexivity.
  - exists (JStr "globex"). split; [reflexivity|]. split; discriminate.
Defined.

Lemma non_string_version_crashes_witness :
  ∃ r w', respond (post (rq [("schema_version", JInt 1)] [])) Samples.start = (Ok r, w') ∧
    rs_status r = 500.
Proof.
  apply (non_string_version_crashes (H := Samples.env) (rq [("schema_version", JInt 1)] [])
    Samples.start (auth Samples.start).2 acme [("schema_version", JInt 1)] (JInt 1)).
  - apply pair_of_fst. vm_compute. reflexivity.
  - reflexivity.
  - reflexivity.
  - reflexivity.
  - reflexivity.
  - discriminate.
Defined.

Lemma post_finding_confined_witness :
  foreign "acme" (w_db (post rq1 Samples.start).2) = foreign "acme" (w_db Samples.start).
Proof.
  apply (post_finding_confined (H := Samples.env) rq1 Samples.start (auth Samples.start).2 acme).
  apply pair_of_fst. vm_compute. reflexivity.
Defined.

Lemma idempotency_backends_agree_witness :
  (memory_check "acme" "F1" "d" ∅).1 = decision_of None "d" ∧
  ∀ row, fi_tenant_id row = "acme" → fi_finding_id row = "F1" → fi_received_payload_sha256 row = "d" →
    first_seen (decision_of None "d") = true →
    ∀ t' f', (memory_check "acme" "F1" "d" ∅).2 !! (t', f') = fi_received_payload_sha256 <$>
      head (List.filter (λ r, str_eqb (fi_tenant_id r) t' && str_eqb (fi_finding_id r) f')
        ([] ++ [row])).
Proof.
  apply (idempotency_backends_agree (H := Samples.env) "acme" "F1" "d" ∅ Samples.start
    (decision_of None "d") Samples.start).
  - intros t f. apply lookup_empty.
  - reflexivity.
  - vm_compute. reflexivity.
Defined.

(** A state in which another tenant already used a correlation id. *)
Definition taken_correlation : world :=
  upd_db (upd_audit_events (λ _,
    [AuditRow "E0" "globex" "accepted" None None None None None None None None None None None
       None None "client-1" "c-1" 1000])) Samples.start.
Definition first_try : result exn response * world := post rq1 taken_correlation.
Definition second_try : result exn response * world := post (rq body []) first_try.2.

(** A finding can be lost: when another tenant already used the correlation id
    the caller sends, the request fails after the finding row was committed and
    before a run was scheduled; the caller's retry, with a fresh correlation id,
    is then answered 202 as a replay, and no run is ever scheduled for the
    finding. *)
Example finding_lost_on_correlation_clash :
  (∃ e, first_try.1 = Raise e ∧ http_status e = 500) ∧
  (fi_finding_id <$> db_diagnostic_findings (w_db first_try.2)) = ["F1"] ∧
  (∃ r, second_try.1 = Ok r ∧ rs_status r = 202 ∧
     jget "idempotent_replay" (rs_body r) = Some (JBool true)) ∧
  w_tasks second_try.2 = [].
Proof.
  split_and!; [eexists; split; [vm_compute; reflexivity|reflexivity]|vm_compute; reflexivity
    |eexists; split_and!; [vm_compute; reflexivity|reflexivity|reflexivity]|vm_compute; reflexivity].
Qed.
