(* ===== verification/Slm.v ===== *)
(** [slm/]: the policy generator clients (the fingerprint stub, the development
    default, the vLLM and llama.cpp adapters) and [app._select_policy_client].

    The inference servers, the corpus directory and the process environment are
    parameters. *)
From Stdlib Require Import Qround Qabs.
From S2P Require Import Prelude PyStr PyDict Templates Json JsonText PromptText PyTime Errors Models World Samples Database PyVal Validator Vehicles Graph Deployer Ingest.
Local Open Scope Z_scope.

(** [os.environ.get]. *)
Class Environ := environ : string → option string.

(** * [slm/client.py] *)
Record RuntimeInfo := {
  slm_repo : string;
  slm_revision_sha : string;
  slm_runtime : string;
  slm_runtime_version : string;
  slm_quantization : string;
  constrained_decoding_library : string;
  constraint_violation_count : Z }.
(** [RuntimeInfo.to_dict]. *)
Definition runtime_dict (r : RuntimeInfo) : json :=
  JObj [("slm_repo", JStr (slm_repo r)); ("slm_revision_sha", JStr (slm_revision_sha r));
        ("slm_runtime", JStr (slm_runtime r)); ("slm_runtime_version", JStr (slm_runtime_version r));
        ("slm_quantization", JStr (slm_quantization r));
        ("constrained_decoding_library", JStr (constrained_decoding_library r));
        ("constraint_violation_count", JInt (constraint_violation_count r))].
(** [GenerationRequest.to_dict]. *)
Definition request_dict (r : GenerationRequest) : json :=
  JObj [("session_id", JStr (gr_session_id r));
        ("prompt_template_version", JStr (gr_prompt_template_version r));
        ("prompt", JStr (gr_prompt r)); ("schema", gr_schema r); ("decoding", gr_decoding r);
        ("retry_context", default JNull (gr_retry_context r))].

Definition ZERO_SHA : string := "0000000000000000000000000000000000000000".
Definition or_null (o : option json) : json := default JNull o.
(** [x or {}]. *)
Definition or_empty (o : option json) : json := or_else o (JObj []).

(** * [slm/stub_client.py] *)
(** [bytes.hex]. *)
Fixpoint hex (s : string) : string :=
  match s with
  | "" => ""
  | String c s' => String (hex_char (code c / 16)%nat) (String (hex_char (code c mod 16)%nat) (hex s'))
  end.
(** The fields [compute_fingerprint] hashes. *)
Definition fingerprint_payload (body : json) : json :=
  let decoding := or_empty (jget "decoding" body) in
  JObj [("prompt_template_version", or_null (jget "prompt_template_version" body));
        ("temperature", or_null (jget "temperature" decoding));
        ("top_p", or_null (jget "top_p" decoding));
        ("top_k", or_null (jget "top_k" decoding));
        ("seed", or_null (jget "seed" decoding));
        ("schema", or_null (jget "schema" body));
        ("prompt", or_null (jget "prompt" body))].
Definition compute_fingerprint `{PyFloat} `{Sha256} (body : json) : string :=
  hex (sha256 (canonical (fingerprint_payload body))).

Definition stub_info : RuntimeInfo :=
  {| slm_repo := "Qwen/Qwen2.5-7B-Instruct"; slm_revision_sha := ZERO_SHA; slm_runtime := "stub";
     slm_runtime_version := "adr-0004"; slm_quantization := "none";
     constrained_decoding_library := "outlines==1.2.13"; constraint_violation_count := 0 |}.
(** The corpus directory: per fingerprint, the texts of its two files. *)
Record corpus_entry := { output_json : option string; usage_json : option string }.
Definition corpus : Type := string → option corpus_entry.
Definition loads_text `{PyFloat} (s : string) : result exn json :=
  match loads s with Some j => Ok j | None => Raise (EJSONDecode "Expecting value") end.
(** [FingerprintStubClient.generate]; a miss is [MissingFingerprint], a KeyError. *)
Definition stub_generate `{PyFloat} `{Sha256} (root : corpus) : PolicyGeneratorClient := λ request,
  let fingerprint := compute_fingerprint (request_dict request) in
  match root fingerprint with
  | None => raise (EKeyError fingerprint)
  | Some target =>
      policy ← match output_json target with
               | Some t => lift (loads_text t)
               | None => raise (EOther "No such file or directory")
               end;
      usage ← match usage_json target with
              | Some t => lift (loads_text t)
              | None => mret (JObj [])
              end;
      mret {| gs_policy := policy; gs_runtime_info := runtime_dict stub_info; gs_usage := usage |}
  end.

(** * [slm/dev_default_client.py] *)
Definition dev_info : RuntimeInfo :=
  {| slm_repo := "dev/default"; slm_revision_sha := ZERO_SHA; slm_runtime := "stub";
     slm_runtime_version := "dev-default"; slm_quantization := "none";
     constrained_decoding_library := "none"; constraint_violation_count := 0 |}.
Definition signal_json (name : json) (rate : Q) (prio : Z) : json :=
  JObj [("vss_name", name); ("sample_rate_hz", JFloat rate); ("priority", JInt prio)].
Definition DEFAULT_BRAKE_SIGNALS : list json :=
  [ signal_json (JStr "Vehicle.Chassis.Axle.Row1.Wheel.Left.Brake.PadWear") 1 5;
    signal_json (JStr "Vehicle.Chassis.Axle.Row1.Wheel.Right.Brake.PadWear") 1 5;
    signal_json (JStr "Vehicle.Powertrain.CombustionEngine.EngineOil.Temperature") 2 4 ].

(** The groups of the searches: [\s*([^\s]+)], [\s*(\[[^\]]*\])], [\s*([0-9.]+)]
    and [([^"]+)"`]. *)
Definition skip_space (s : string) : string := (span is_space s).2.
Definition word_group (s : string) : option string :=
  let w := (span (λ c, negb (is_space c)) (skip_space s)).1 in
  if nonempty w then Some w else None.
Definition list_group (s : string) : option string :=
  r ← eat "[" (skip_space s);
  let '(a, rest) := span (λ c, negb (ascii_eqb c "]")) r in
  _ ← eat "]" rest;
  Some ("[" +:+ a +:+ "]").
Definition decimal_char (c : ascii) : bool := is_digit c || ascii_eqb c ".".
Definition number_group (s : string) : option string :=
  let w := (span decimal_char (skip_space s)).1 in if nonempty w then Some w else None.
Definition quoted_group (s : string) : option string :=
  let '(a, rest) := span (λ c, negb (ascii_eqb c dquote)) s in
  r ← eat dquote rest;
  _ ← eat "`" r;
  if nonempty a then Some a else None.
Definition session_label : string := "Sets `generated_from_session_id` to `" +:+ quote_mark.
Definition candidates_label : string := "Candidate signals (optional hints):".

(** [m or d] for a match. *)
Definition match_or (m : option string) (d : string) : string :=
  match m with Some s => if nonempty s then s else d | None => d end.

(** Arithmetic on doubles: the nearest value with 53 significant bits. *)
Definition pow2 (k : Z) : Q := if 0 <=? k then inject_Z (2 ^ k) else 1 # Z.to_pos (2 ^ (- k)).
Definition to_double (q : Q) : Q :=
  let n := Z.abs (Qnum q) in
  if n =? 0 then 0%Q else
  let e := Z.log2 n - Z.log2 (Zpos (Qden q)) in
  let e := if Qle_bool (pow2 e) (Qabs q) then e else e - 1 in
  let k := Z.max (e - 52) (- 1074) in
  Qred (inject_Z (round_half_even (q / pow2 k)) * pow2 k).
Definition lit_0_7 : Q := to_double (7 # 10).
Definition lit_0_1 : Q := to_double (1 # 10).

Record extracted := {
  x_tenant_id : string;
  x_finding_id : string;
  x_vehicle_scope : list json;
  x_confidence : Q;
  x_session_id : string;
  x_candidate_signals : list string }.

Section DevClient.
Context `{Env} `{Environ}.

(** [_extract_finding_from_prompt]. *)
Definition extract_finding_from_prompt (prompt : string) : extracted :=
  let finding_id := match_or (search "Finding:" word_group prompt) "F-default-001" in
  let tenant_id := match_or (search "Tenant:" word_group prompt)
    (default "feature-001-default" (environ "DEV_DEFAULT_TENANT")) in
  let vehicle_scope :=
    match search "Vehicle scope:" list_group prompt with
    | Some raw => match loads raw with Some (JArr l) => l | _ => [JStr "VIN-default-001"] end
    | None => [JStr "VIN-default-001"]
    end in
  let confidence_raw := match_or (search "Upstream confidence:" number_group prompt) "0.7" in
  let confidence := default lit_0_7 (float_text confidence_raw) in
  let session_id := match_or (search session_label quoted_group prompt) "session-default-001" in
  let candidate_signals :=
    match search candidates_label list_group prompt with
    | Some raw => match loads raw with Some (JArr l) => py_str <$> l | _ => [] end
    | None => []
    end in
  {| x_tenant_id := tenant_id; x_finding_id := finding_id; x_vehicle_scope := vehicle_scope;
     x_confidence := confidence; x_session_id := session_id;
     x_candidate_signals := candidate_signals |}.

(** [max(0.0, min(1.0, c - 0.1))]. *)
Definition threshold (c : Q) : Q :=
  let x := to_double (c - lit_0_1) in
  let y := if Qle_bool 1 x then 1%Q else x in
  if Qle_bool y 0 then 0%Q else y.

(** [_build_policy]. *)
Definition build_policy (prompt : string) : json :=
  let x := extract_finding_from_prompt prompt in
  let signals := match x_candidate_signals x with
                 | [] => DEFAULT_BRAKE_SIGNALS
                 | l => (λ s, signal_json (JStr s) 1 5) <$> l
                 end in
  JObj [("policy_id", JStr ("policy-" +:+ x_finding_id x)); ("version", JStr "1.0.0");
        ("signals", JArr signals);
        ("trigger_conditions", JArr [JObj [("kind", JStr "time_window");
                                           ("params", JObj [("window_hours", JInt 72)])]]);
        ("collection_window_hours", JInt 72);
        ("hypothesis", JStr "rotor temperature excursions correlated with mileage");
        ("vehicle_scope", JArr (x_vehicle_scope x));
        ("data_governance_flags", JObj [("pii_consent", JBool false); ("has_pii_signal", JBool false)]);
        ("confidence_threshold", JFloat (threshold (x_confidence x)));
        ("generated_from_session_id", JStr (x_session_id x));
        ("originating_finding", JObj [("tenant_id", JStr (x_tenant_id x));
                                      ("finding_id", JStr (x_finding_id x))])].

(** [DevDefaultPolicyClient.generate]. *)
Definition dev_generate : PolicyGeneratorClient := λ request,
  mret {| gs_policy := build_policy (gr_prompt request); gs_runtime_info := runtime_dict dev_info;
          gs_usage := JObj [("input_tokens", JInt 0); ("output_tokens", JInt 0);
                            ("generation_latency_ms", JInt 0)] |}.
End DevClient.

(** * The inference-server adapters *)
(** [httpx]: the decoded body of a successful response, or what was raised. *)
Class SlmServer := {
  slm_post : string → json → M json;
  slm_get : string → M json }.

Definition QWEN_REPO : string := "Qwen/Qwen2.5-7B-Instruct".
Definition QWEN_SHA : string := "a09a35458c702b33eeacc393d103063234e8bc28".
(** [base_url.rstrip("/")]. *)
Definition base_url (url : string) : string := rstrip_char "/" url.
(** [from_env]. *)
Definition slm_base_url `{Environ} : string :=
  base_url (default "http://slm-inference:8000" (environ "SLM_BASE_URL")).

Section Adapters.
Context `{Env} `{Environ} `{SlmServer}.

(** [completion["choices"][0]["message"]["content"]]. *)
Definition first_item (j : json) : M json :=
  match j with
  | JArr (x :: _) => mret x
  | JArr [] => raise (EOther "list index out of range")
  | JStr (String c _) => mret (JStr (String c ""))
  | JStr "" => raise (EOther "string index out of range")
  | JObj _ => raise (EKeyError "0")
  | _ => raise (ETypeError "object is not subscriptable")
  end.
Definition completion_message (completion : json) : M json :=
  choices ← subscript "choices" completion;
  choice ← first_item choices;
  message ← subscript "message" choice;
  subscript "content" message.
(** [json.loads(message)] and [dict(usage)]. *)
Definition loads_message (message : json) : M json :=
  match message with
  | JStr s => lift (loads_text s)
  | _ => raise (ETypeError "the JSON object must be str, bytes or bytearray")
  end.
Definition py_dict (j : json) : M json :=
  match j with
  | JObj _ => mret j
  | JArr [] | JStr "" => mret (JObj [])
  | JArr _ | JStr _ => raise (EValueError "dictionary update sequence element")
  | _ => raise (ETypeError "object is not iterable")
  end.
(** What both adapters do with the response. *)
Definition read_completion (info : RuntimeInfo) (completion : json) : M GenerationResponse :=
  message ← completion_message completion;
  policy ← loads_message message;
  usage ← dict_get "usage" completion;
  usage ← py_dict (default (JObj []) usage);
  mret {| gs_policy := policy; gs_runtime_info := runtime_dict info; gs_usage := usage |}.

(** * [slm/vllm_client.py] *)
Definition vllm_info : RuntimeInfo :=
  {| slm_repo := QWEN_REPO; slm_revision_sha := QWEN_SHA; slm_runtime := "vllm";
     slm_runtime_version := "v0.20.1"; slm_quantization := "bf16";
     constrained_decoding_library := "outlines==1.2.13"; constraint_violation_count := 0 |}.
(** [VLLMClient.warmup]. *)
Definition vllm_warmup (url : string) : M unit :=
  info ← slm_get (url +:+ "/info");
  sha ← dict_get "slm_revision_sha" info;
  match sha with
  | None | Some JNull => mret tt
  | Some (JArr _) | Some (JObj _) => raise (ETypeError "unhashable type")
  | Some (JStr s) =>
      if str_eqb s QWEN_SHA then mret tt
      else raise (ERuntimeError ("vLLM /info reports unexpected revision: " +:+ py_repr (JStr s)))
  | Some v => raise (ERuntimeError ("vLLM /info reports unexpected revision: " +:+ py_repr v))
  end.
(** Within [1e-9] of zero. *)
Definition near_zero (q : Q) : bool := Qle_bool (Qabs q) (to_double (1 # 1000000000)).
(** The deterministic-decoding guard. *)
Definition ci_guard (decoding : json) : M unit :=
  temp ← py_float (jget_or "temperature" (JFloat 0) decoding);
  top_p ← py_float (jget_or "top_p" (JFloat 1) decoding);
  top_k ← py_int (jget_or "top_k" (JInt (-1)) decoding);
  if negb (near_zero temp) || negb (near_zero (to_double (top_p - 1))) ||
     negb ((top_k =? -1) || (top_k =? 0))
  then raise (ERuntimeError "CI builds require deterministic decoding (Principle XIV)")
  else mret tt.
Definition decoding_fields (decoding : json) : list (string * json) :=
  [("temperature", jget_or "temperature" (JFloat 0) decoding);
   ("top_p", jget_or "top_p" (JFloat 1) decoding);
   ("seed", jget_or "seed" (JInt 0) decoding);
   ("max_tokens", jget_or "max_tokens" (JInt 2048) decoding)].
Definition user_message (prompt : string) : json :=
  JArr [JObj [("role", JStr "user"); ("content", JStr prompt)]].
Definition vllm_payload (decoding : json) (r : GenerationRequest) : json :=
  JObj ([("model", JStr QWEN_REPO); ("messages", user_message (gr_prompt r))] ++
        decoding_fields decoding ++
        [("extra_body", JObj [("guided_json", gr_schema r)])]).
(** [VLLMClient.generate]. *)
Definition vllm_generate (url : string) : PolicyGeneratorClient := λ r,
  let decoding := or_empty (Some (gr_decoding r)) in
  (if nonempty (default "" (environ "CI")) then ci_guard decoding else mret tt);;
  completion ← slm_post (url +:+ "/v1/chat/completions") (vllm_payload decoding r);
  read_completion vllm_info completion.

(** * [slm/llamacpp_client.py] *)
Definition llamacpp_info : RuntimeInfo :=
  {| slm_repo := QWEN_REPO; slm_revision_sha := QWEN_SHA; slm_runtime := "llama_cpp";
     slm_runtime_version := "b9090"; slm_quantization := "gguf-q4_k_m";
     constrained_decoding_library := "outlines==1.2.13"; constraint_violation_count := 0 |}.
Definition llamacpp_payload (decoding : json) (r : GenerationRequest) : json :=
  JObj ([("messages", user_message (gr_prompt r))] ++ decoding_fields decoding ++
        [("response_format", JObj [("type", JStr "json_object"); ("schema", gr_schema r)])]).
(** [LlamaCppClient.generate] and [warmup]. *)
Definition llamacpp_generate (url : string) : PolicyGeneratorClient := λ r,
  completion ← slm_post (url +:+ "/v1/chat/completions")
    (llamacpp_payload (or_empty (Some (gr_decoding r))) r);
  read_completion llamacpp_info completion.
Definition llamacpp_warmup (url : string) : M unit := slm_get (url +:+ "/health");; mret tt.

(** * [app._select_policy_client] *)
Inductive client_choice := UseVLLM (url : string) | UseLlamaCpp (url : string) | UseStub | UseDevDefault.
Definition select_policy_client : result exn client_choice :=
  let profile := lower (default "dev_default" (environ "SLM_PROFILE")) in
  let env := lower (default "local" (environ "COLLECTMIND_ENV")) in
  if str_eqb profile "vllm" then Ok (UseVLLM slm_base_url)
  else if str_eqb profile "cpu" || str_eqb profile "llama_cpp" then Ok (UseLlamaCpp slm_base_url)
  else if str_eqb profile "stub" then Ok UseStub
  else if negb (str_eqb env "local") then
    Raise (ERuntimeError ("SLM_PROFILE=dev_default is not allowed when COLLECTMIND_ENV=" +:+
      py_repr (JStr env) +:+ ". Per ADR-0006, the DevDefaultPolicyClient is gated to local-only foundation smoke. Set SLM_PROFILE to one of {vllm, cpu, stub}."))
  else Ok UseDevDefault.
Definition client_of `{Sha256} (root : corpus) (c : client_choice) : PolicyGeneratorClient :=
  match c with
  | UseVLLM url => vllm_generate url
  | UseLlamaCpp url => llamacpp_generate url
  | UseStub => stub_generate root
  | UseDevDefault => dev_generate
  end.
End Adapters.

(** * The rendered prompt *)
Section AnyTemplate.
Context `{Env} `{Prompts}.

(** What the finding and the session put into the holes. *)
Definition hole_values (s : session) (f : DiagnosticFinding) : list (string * string) :=
  [("tenant_id", s_tenant_id s); ("finding_id", f_finding_id f); ("anomaly_type", f_anomaly_type f);
   ("hypothesis_class", f_hypothesis_class f); ("hypothesis_statement", f_hypothesis_statement f);
   ("vehicle_scope_json", dumps (jstrs (f_vehicle_scope f)));
   ("candidate_signals_json", dumps (jstrs (f_candidate_signals f)));
   ("upstream_confidence", float_repr (f_upstream_confidence f)); ("session_id", s_session_id s)].

Lemma render_steps s f : s_originating_finding s = finding_dict (s_tenant_id s) f →
  ∀ w, render_prompt s w =
    (r ← retry_block s (foldl (λ t nv, replace (hole_text nv.1) nv.2 t) user_md (hole_values s f));
     mret (system_md +:+ String newline (String newline r))) w.
Proof. intros Hf w. unfold render_prompt, finding_get. rewrite Hf. reflexivity. Qed.
End AnyTemplate.

#[export] Instance prompts_v1 : Prompts := {| system_md := system_text; user_md := user_text |}.

Definition nl : string := String newline "".
(** The prompt up to the session id, with what follows it. *)
Definition prompt_from_session (sid rest : string) : string :=
  session_label +:+ sid +:+ quote_mark +:+ "`" +:+ rest.
Definition prompt_from_candidates (cands fid tail : string) : string :=
  candidates_label +:+ " " +:+ cands +:+ nl +:+ "
# Task

Produce a `CollectionPolicySpec` JSON object that:

1. Selects the minimum set of VSS v6.0 signals needed to confirm or rule out the hypothesis above.
2. Sets sampling rates per the system-prompt guidance.
3. Sets `policy_id` to `" +:+ quote_mark +:+ "policy-" +:+ fid +:+ quote_mark +:+ "` and `version` to `" +:+
  quote_mark +:+ "1.0.0" +:+ quote_mark +:+ "`.
4. " +:+ tail.
Definition prompt_from_scope (scope conf tail : string) : string :=
  "Vehicle scope:" +:+ " " +:+ scope +:+ nl +:+ "Upstream confidence:" +:+ " " +:+ conf +:+ nl +:+ tail.
Definition prompt_from_tenant (t fid an hc hs tail : string) : string :=
  "Tenant:" +:+ " " +:+ t +:+ nl +:+ "Finding:" +:+ " " +:+ fid +:+ nl +:+
  "Anomaly type: " +:+ an +:+ nl +:+ "Hypothesis class: " +:+ hc +:+ nl +:+ "Hypothesis: " +:+ hs +:+ nl +:+ tail.
Definition prompt_text (t fid an hc hs scope conf cands sid rest : string) : string :=
  system_text +:+ "

# Diagnostic finding

" +:+ prompt_from_tenant t fid an hc hs (prompt_from_scope scope conf
    (prompt_from_candidates cands fid (prompt_from_session sid rest))).

Section Rendering.
Context `{Env}.

Lemma template_fits : Forall (λ nv, fits nv (user_pieces ++ retry_pieces) = true)
  ["tenant_id"; "finding_id"; "anomaly_type"; "hypothesis_class"; "hypothesis_statement";
   "vehicle_scope_json"; "candidate_signals_json"; "upstream_confidence"; "session_id"].
Proof. repeat (apply Forall_cons; split; [vm_compute; reflexivity|]). by apply Forall_nil. Qed.

(** The retry block only changes what follows the filled template. *)
Definition retry_mid : string := text (take 3 (drop 1 retry_pieces)).
Lemma retry_text : text retry_pieces = if_tag +:+ retry_mid +:+ endif_tag +:+ nl.
Proof. vm_compute. reflexivity. Qed.
Lemma retry_block_tail s a w :
  passes if_tag a = true → passes endif_tag a = true → passes (hole_text "retry_context_json") a = true →
  ∃ rest, retry_block s (a +:+ text retry_pieces) w = (Ok (a +:+ rest), w).
Proof.
  intros Hif Hendif Hctx. unfold retry_block. change "{% if retry_context %}" with if_tag.
  change "{% endif %}" with endif_tag. change "{{ retry_context_json }}" with (hole_text "retry_context_json").
  rewrite retry_text, contains_app. destruct (s_validation_errors s).
  - rewrite index_of_skip by done.
    assert (index_of endif_tag (a +:+ if_tag +:+ retry_mid +:+ endif_tag +:+ nl) =
      Some (len (a +:+ if_tag +:+ retry_mid))) as ->.
    { rewrite <- (str_app_assoc if_tag), <- (str_app_assoc a). apply index_of_skip.
      apply passes_app; [done|by vm_compute]. }
    rewrite take_str_app. by eexists.
  - rewrite !replace_skip by done. by eexists.
Qed.

(** What follows the session id. *)
Definition prompt_tail (t fid rest : string) : string :=
  ".
5. Sets `originating_finding` to `{" +:+ quote_mark +:+ "tenant_id" +:+ quote_mark +:+ ": " +:+ quote_mark +:+
  t +:+ quote_mark +:+ ", " +:+ quote_mark +:+ "finding_id" +:+ quote_mark +:+ ": " +:+ quote_mark +:+
  fid +:+ quote_mark +:+ "}`.
6. Sets `vehicle_scope` to the list above verbatim.
7. Selects a window that fits the hypothesis: brake-wear early-stage usually wants 24-72 hours.
8. Sets `data_governance_flags` correctly per the PII rules.
9. Sets `confidence_threshold` per the system-prompt guidance.
" +:+ rest.
Lemma filled_text t fid an hc hs sc ca cf sid rest :
  String newline (String newline (text (fill_all
    [("tenant_id", t); ("finding_id", fid); ("anomaly_type", an); ("hypothesis_class", hc);
     ("hypothesis_statement", hs); ("vehicle_scope_json", sc); ("candidate_signals_json", ca);
     ("upstream_confidence", cf); ("session_id", sid)] user_pieces ++ [Lit rest]))) =
  "

# Diagnostic finding

" +:+ prompt_from_tenant t fid an hc hs (prompt_from_scope sc cf
    (prompt_from_candidates ca fid (prompt_from_session sid (prompt_tail t fid (rest +:+ ""))))).
Proof. reflexivity. Qed.

Lemma render_prompt_text s f w : s_originating_finding s = finding_dict (s_tenant_id s) f →
  Forall no_brace (hole_values s f) →
  ∃ rest, render_prompt s w =
    (Ok (prompt_text (s_tenant_id s) (f_finding_id f) (f_anomaly_type f) (f_hypothesis_class f)
      (f_hypothesis_statement f) (dumps (jstrs (f_vehicle_scope f))) (float_repr (f_upstream_confidence f))
      (dumps (jstrs (f_candidate_signals f))) (s_session_id s) rest), w).
Proof.
  intros Hf Hv. rewrite (render_steps s f Hf).
  change user_md with (text (user_pieces ++ retry_pieces)).
  rewrite replace_all; [|exact (proj1 (Forall_fmap fst _ (hole_values s f)) template_fits)|done].
  rewrite fill_all_app, text_app. set (a := text (fill_all (hole_values s f) user_pieces)).
  change (text (fill_all (hole_values s f) retry_pieces)) with (text retry_pieces).
  destruct (retry_block_tail s a w) as [rest Er]; [apply passes_filled; [by vm_compute|exact Hv]..|].
  assert (a +:+ rest = text (fill_all (hole_values s f) user_pieces ++ [Lit rest])) as Ea
    by (rewrite text_app; cbn [text piece_text]; by rewrite str_app_nil_r).
  exists (prompt_tail (s_tenant_id s) (f_finding_id f) (rest +:+ "")).
  erewrite bind_ok by exact Er. unfold mret, prog_ret. rewrite Ea. unfold hole_values, prompt_text.
  by rewrite filled_text.
Qed.
End Rendering.

(** * Reading the prompt back *)
Definition labels : list string :=
  ["Tenant:"; "Finding:"; "Vehicle scope:"; "Upstream confidence:"; candidates_label; "Sets "].
(** A line that none of the searches could mistake for its own. *)
Definition quiet (v : string) : bool := forallb (λ l, negb (contains l v)) labels.

Lemma quiet_label l v : quiet v = true → l ∈ labels → contains l v = false.
Proof.
  unfold quiet. rewrite forallb_forall. intros Hq Hl%list_elem_of_In. by apply negb_true_iff, Hq.
Qed.
(** Labels whose search passes over quiet lines. *)
Definition line_label (l : string) : Prop := ∀ v, quiet v = true → passes l (v +:+ nl) = true.
Lemma search_line l g v b : line_label l → quiet v = true → search l g (v +:+ nl +:+ b) = search l g b.
Proof. intros Hl Hv. rewrite <- str_app_assoc. by apply search_skip, Hl. Qed.
Lemma label_line l : l ∈ labels → has_char newline l = false → line_label l.
Proof. intros Hl Hn v Hv. apply passes_stop; [done|by apply quiet_label]. Qed.
Lemma session_line : line_label session_label.
Proof.
  intros v Hv. change session_label with ("Sets " +:+ drop_str 5 session_label).
  apply passes_prefix, passes_stop; [done|]. apply quiet_label; [done|]. by apply (bool_decide_unpack _); vm_compute.
Qed.
Lemma labels_line : Forall line_label
  ["Tenant:"; "Finding:"; "Vehicle scope:"; "Upstream confidence:"; candidates_label; session_label].
Proof.
  repeat apply Forall_cons_2; [..|apply session_line|apply Forall_nil_2];
    (apply label_line; [by apply (bool_decide_unpack _); vm_compute|done]).
Qed.

Lemma span_stop_app p a c b : sall p a = true → p c = false → span p (a +:+ String c b) = (a, String c b).
Proof. intros Ha Hc. rewrite span_app, span_stop by done. simpl. by rewrite str_app_nil_r. Qed.
Lemma word_group_line v b : nonempty v = true → sall (λ c, negb (is_space c)) v = true →
  word_group (" " +:+ v +:+ nl +:+ b) = Some v.
Proof.
  intros Hv Hs. unfold word_group, skip_space.
  assert (span is_space (" " +:+ v +:+ nl +:+ b) = (" ", v +:+ nl +:+ b)) as ->.
  { destruct v as [|c v]; [done|]. simpl in Hs. apply andb_true_iff in Hs as [Hc _].
    apply negb_true_iff in Hc. sapp. by apply (span_stop_app is_space " "). }
  simpl. unfold nl. sapp. rewrite span_stop_app by done. simpl. by rewrite Hv.
Qed.
Lemma number_group_line v b : nonempty v = true → sall decimal_char v = true →
  number_group (" " +:+ v +:+ nl +:+ b) = Some v.
Proof.
  intros Hv Hs. unfold number_group, skip_space.
  assert (span is_space (" " +:+ v +:+ nl +:+ b) = (" ", v +:+ nl +:+ b)) as ->.
  { destruct v as [|c v]; [done|]. simpl in Hs. apply andb_true_iff in Hs as [Hc _].
    sapp. apply (span_stop_app is_space " "); [done|]. revert Hc. by destruct c as [[][][][][][][][]]. }
  simpl. unfold nl. sapp. rewrite span_stop_app by done. simpl. by rewrite Hv.
Qed.
Lemma has_char_all c s : has_char c s = false → sall (λ d, negb (ascii_eqb d c)) s = true.
Proof.
  induction s as [|d s IH]; intros Hs; [done|]. rewrite has_char_cons in Hs.
  apply orb_false_iff in Hs as [Hd Hs]. simpl. rewrite IH by done. rewrite andb_true_r.
  apply negb_true_iff, ascii_eqb_neq. apply ascii_eqb_neq in Hd. congruence.
Qed.
Lemma list_group_line `{PyFloat} l b : Forall (λ s, has_char "]" s = false) l →
  list_group (" " +:+ dumps (jstrs l) +:+ nl +:+ b) = Some (dumps (jstrs l)).
Proof.
  intros Hl. destruct (dumps_jstrs l) as (inner & -> & Hin). specialize (Hin "]"%char (or_introl eq_refl) Hl).
  unfold list_group, skip_space. rewrite (str_app_cons "["), str_app_assoc.
  rewrite (span_stop_app is_space " " "[") by done. simpl. unfold nl. sapp.
  rewrite span_stop_app by (done || by apply has_char_all). done.
Qed.
Lemma quoted_group_text v b : nonempty v = true → has_char dquote v = false →
  quoted_group (v +:+ quote_mark +:+ "`" +:+ b) = Some v.
Proof.
  intros Hv Hq. unfold quoted_group, quote_mark. sapp.
  rewrite span_stop_app by (done || by apply has_char_all). simpl. by rewrite Hv.
Qed.

(** The texts the development client reads back unharmed: identifiers are words,
    list items hold no closing bracket, the confidence prints as a plain decimal
    and no line looks like another. *)
Definition is_word (v : string) : bool := nonempty v && sall (λ c, negb (is_space c)) v.
Definition plain_finding `{Env} (t sid : string) (f : DiagnosticFinding) : Prop :=
  let scope := dumps (jstrs (f_vehicle_scope f)) in
  let cands := dumps (jstrs (f_candidate_signals f)) in
  let conf := float_repr (f_upstream_confidence f) in
  is_word t = true ∧ is_word (f_finding_id f) = true ∧
  nonempty sid = true ∧ has_char dquote sid = false ∧
  Forall (λ s, has_char "]" s = false) (f_vehicle_scope f ++ f_candidate_signals f) ∧
  nonempty conf = true ∧ sall decimal_char conf = true ∧
  float_text conf = Some (f_upstream_confidence f) ∧
  Forall (λ v, has_char "{" v = false) ([t; sid; f_finding_id f; f_anomaly_type f;
    f_hypothesis_class f; f_hypothesis_statement f] ++ f_vehicle_scope f ++ f_candidate_signals f) ∧
  Forall (λ v, quiet v = true) [t; f_finding_id f; f_anomaly_type f; f_hypothesis_class f;
    f_hypothesis_statement f; scope; cands; conf].

Lemma plain_no_brace `{Env} s f : plain_finding (s_tenant_id s) (s_session_id s) f →
  Forall no_brace (hole_values s f).
Proof.
  intros (_ & _ & _ & _ & _ & _ & Hd & _ & Hb & _). apply Forall_app in Hb as [Hb Hl].
  apply Forall_app in Hl as [Hs Hc]. rewrite !Forall_cons in Hb.
  destruct Hb as (? & ? & ? & ? & ? & ? & _).
  assert (∀ l, Forall (λ v, has_char "{" v = false) l → has_char "{" (dumps (jstrs l)) = false) as Hlist.
  { intros l Hl. destruct (dumps_jstrs l) as (inner & -> & Hin).
    rewrite has_char_cons, has_char_app, (Hin _ (or_intror eq_refl) Hl). done. }
  assert (has_char "{" (float_repr (f_upstream_confidence f)) = false).
  { revert Hd. generalize (float_repr (f_upstream_confidence f)) as v. induction v as [|c v IH]; [done|]. simpl.
    intros [Hc' Hv]%andb_true_iff. rewrite has_char_cons, IH by done. rewrite orb_false_r.
    apply ascii_eqb_neq. by intros <-. }
  unfold hole_values, no_brace. repeat apply Forall_cons_2; simpl; auto.
Qed.

(** The fixed texts of the prompt. *)
Definition heading : string := "

# Diagnostic finding

".
Definition head_texts : list string :=
  [system_text; heading; "Tenant:"; " "; "Finding:"; "Anomaly type: "; "Hypothesis class: "; "Hypothesis: "].

Section Extraction.
Context (t fid an hc hs : string).
Context (Qt : quiet t = true) (Qfid : quiet fid = true) (Qan : quiet an = true) (Qhc : quiet hc = true)
  (Qhs : quiet hs = true).

(** From the scope line on. *)
Lemma search_past_hypothesis l g b : line_label l → Forall (λ a, passes l a = true) head_texts →
  search l g (system_text +:+ heading +:+ prompt_from_tenant t fid an hc hs b) = search l g b.
Proof using Qt Qfid Qan Qhc Qhs.
  intros Hl Hp. unfold head_texts in Hp. rewrite !Forall_cons in Hp.
  destruct Hp as (P1 & P2 & P3 & P4 & P5 & P6 & P7 & P8 & _).
  unfold prompt_from_tenant. do 4 (rewrite search_skip by assumption).
  rewrite search_line by assumption. do 2 (rewrite search_skip by assumption).
  rewrite search_line by assumption.
  do 2 (rewrite search_skip by assumption; rewrite search_line by assumption).
  by rewrite search_skip, search_line by assumption.
Qed.
Lemma search_past_confidence l g sc cf b : line_label l → Forall (λ a, passes l a = true) head_texts →
  passes l "Vehicle scope:" = true → passes l "Upstream confidence:" = true →
  quiet sc = true → quiet cf = true →
  search l g (system_text +:+ heading +:+ prompt_from_tenant t fid an hc hs (prompt_from_scope sc cf b)) =
  search l g b.
Proof using Qt Qfid Qan Qhc Qhs.
  intros Hl Hp P1 P2 Qs Qc. rewrite search_past_hypothesis by assumption. unfold prompt_from_scope.
  assert (passes l " " = true) as P
    by (unfold head_texts in Hp; rewrite !Forall_cons in Hp; apply Hp).
  do 2 (rewrite search_skip by assumption). rewrite search_line by assumption.
  do 2 (rewrite search_skip by assumption). by rewrite search_line by assumption.
Qed.
End Extraction.

(** Where each label passes over the fixed texts before its line. *)
Lemma head_passes : Forall (λ l, Forall (λ a, passes l a = true) head_texts)
  ["Vehicle scope:"; "Upstream confidence:"; candidates_label; session_label].
Proof. repeat (apply Forall_cons_2; [repeat (apply Forall_cons_2; [vm_compute; reflexivity|]); by apply Forall_nil_2|]).
  by apply Forall_nil_2. Qed.

(** The fixed text between the candidate line and the session id. *)
Lemma search_session g cands fid b : quiet cands = true → quiet fid = true →
  search session_label g (prompt_from_candidates cands fid b) = search session_label g b.
Proof.
  intros Qc Qf. unfold prompt_from_candidates. do 2 (rewrite search_skip by (vm_compute; reflexivity)).
  rewrite search_line by (apply session_line || assumption).
  do 3 (rewrite search_skip by (vm_compute; reflexivity)).
  rewrite <- (str_app_assoc fid quote_mark), search_skip.
  2: { change session_label with ("Sets " +:+ drop_str 5 session_label). apply passes_prefix, passes_stop; [done|].
       apply quiet_label; [done|]. by apply (bool_decide_unpack _); vm_compute. }
  do 5 (rewrite search_skip by (vm_compute; reflexivity)). done.
Qed.

Lemma extract_prompt `{Env} `{Environ} t sid f rest : plain_finding t sid f →
  extract_finding_from_prompt (prompt_text t (f_finding_id f) (f_anomaly_type f) (f_hypothesis_class f)
    (f_hypothesis_statement f) (dumps (jstrs (f_vehicle_scope f))) (float_repr (f_upstream_confidence f))
    (dumps (jstrs (f_candidate_signals f))) sid rest) =
  {| x_tenant_id := t; x_finding_id := f_finding_id f; x_vehicle_scope := JStr <$> f_vehicle_scope f;
     x_confidence := f_upstream_confidence f; x_session_id := sid;
     x_candidate_signals := f_candidate_signals f |}.
Proof.
  intros (Ht & Hf & Hs & Hsq & Hb & Hc & Hcd & Hq & _ & Hquiet).
  apply Forall_app in Hb as [Hb1 Hb2]. rewrite !Forall_cons in Hquiet.
  destruct Hquiet as (Qt & Qf & Qan & Qhc & Qhs & Qsc & Qca & Qcf & _).
  pose proof head_passes as Hp. rewrite !Forall_cons in Hp. destruct Hp as (P1 & P2 & P3 & P4 & _).
  pose proof labels_line as HL. rewrite !Forall_cons in HL. destruct HL as (L1 & L2 & L3 & L4 & L5 & L6 & _).
  apply andb_true_iff in Ht as [Htn Hts], Hf as [Hfn Hfs].
  unfold extract_finding_from_prompt, prompt_text. fold heading.
  rewrite (search_past_hypothesis _ _ _ _ _ Qt Qf Qan Qhc Qhs "Vehicle scope:") by assumption.
  rewrite (search_past_hypothesis _ _ _ _ _ Qt Qf Qan Qhc Qhs "Upstream confidence:") by assumption.
  rewrite (search_past_confidence _ _ _ _ _ Qt Qf Qan Qhc Qhs candidates_label)
    by (assumption || vm_compute; reflexivity).
  rewrite (search_past_confidence _ _ _ _ _ Qt Qf Qan Qhc Qhs session_label)
    by (assumption || vm_compute; reflexivity).
  rewrite search_session by assumption.
  unfold prompt_from_tenant, prompt_from_scope, prompt_from_candidates, prompt_from_session.
  do 4 (rewrite (search_skip "Finding:") by (vm_compute; reflexivity)).
  rewrite (search_line "Finding:") by assumption.
  do 2 (rewrite (search_skip "Tenant:") by (vm_compute; reflexivity)).
  do 2 (rewrite (search_skip "Upstream confidence:") by (vm_compute; reflexivity)).
  rewrite (search_line "Upstream confidence:") by assumption.
  rewrite (search_hit _ _ _ _ (word_group_line _ _ Hfn Hfs)), (search_hit _ _ _ _ (word_group_line _ _ Htn Hts)).
  rewrite (search_hit _ _ _ _ (list_group_line _ _ Hb1)), (search_hit _ _ _ _ (list_group_line _ _ Hb2)).
  rewrite (search_hit _ _ _ _ (number_group_line _ _ Hc Hcd)).
  rewrite (search_hit _ _ _ _ (quoted_group_text _ _ Hs Hsq)).
  unfold match_or. rewrite Hfn, Htn, Hc, Hs, Hq, !loads_dumps_jstrs. simpl. f_equal.
  rewrite <- list_fmap_compose. apply list_fmap_id.
Qed.

(** * The generated policy *)
Section Policy.
Context `{Pydantic} `{!PydanticLaws}.

Lemma field_eval {A} o name (c : json → V A) j a : dget name o = Some j → c j = Ok a → field o name c = Ok a.
Proof. unfold field. intros -> Ha. unfold at_loc. by rewrite Ha. Qed.
Lemma field_default_eval {A} o name d (c : json → V A) j a :
  dget name o = Some j → c j = Ok a → field_default o name d c = Ok a.
Proof. unfold field_default. intros -> Ha. unfold at_loc. by rewrite Ha. Qed.
Lemma nonempty_str_ok s : nonempty s = true → NonEmptyStr (JStr s) = Ok s.
Proof. destruct s; [done|]. intros _. reflexivity. Qed.
Lemma vap_eval {A B} (f : V (A → B)) (a : V A) g x : f = Ok g → a = Ok x → f ⊛ a = Ok (g x).
Proof. by intros -> ->. Qed.
Lemma c_items_map {A B} (c : json → V A) (g : B → json) (h : B → A) i l :
  (∀ x, x ∈ l → c (g x) = Ok (h x)) → c_items c i (g <$> l) = Ok (h <$> l).
Proof.
  revert i. induction l as [|x l IH]; intros i Hl; [done|]. rewrite !fmap_cons. cbn [c_items].
  rewrite (Hl x) by (by left). rewrite IH by (intros; apply Hl; by right). done.
Qed.
Lemma c_list_map {A B} (c : json → V A) (g : B → json) (h : B → A) l :
  l ≠ [] → (∀ x, x ∈ l → c (g x) = Ok (h x)) → c_list c 1 (JArr (g <$> l)) = Ok (h <$> l).
Proof.
  intros Hne Hl. unfold c_list. rewrite (c_items_map c g h) by done. unfold and_then.
  destruct l; [done|]. done.
Qed.
Lemma signal_spec_ok name : nonempty name = true →
  validate_signal_spec (signal_json (JStr name) 1 5) =
    Ok {| vss_name := name; sample_rate_hz := 1; priority := 5 |}.
Proof.
  intros Hn. unfold validate_signal_spec, model, no_extra, signal_json.
  erewrite !field_eval; [reflexivity|reflexivity| |reflexivity| |reflexivity|by apply nonempty_str_ok].
  - unfold c_int_range, c_int. by rewrite lax_int_int.
  - unfold c_positive_float, c_float. by rewrite lax_float_float.
Qed.
Lemma flags_ok : validate_flags (JObj [("pii_consent", JBool false); ("has_pii_signal", JBool false)]) =
  Ok {| pii_consent := false; has_pii_signal := false |}.
Proof. unfold validate_flags, model, no_extra, field, c_bool. simpl. by rewrite !lax_bool_bool. Qed.
Lemma originating_ok t f : nonempty t = true → nonempty f = true →
  validate_originating (JObj [("tenant_id", JStr t); ("finding_id", JStr f)]) =
  Ok {| of_tenant_id := t; of_finding_id := f |}.
Proof.
  intros Ht Hf. unfold validate_originating, model, no_extra.
  rewrite (field_eval _ "tenant_id" NonEmptyStr (JStr t) t) by (done || by apply nonempty_str_ok).
  rewrite (field_eval _ "finding_id" NonEmptyStr (JStr f) f) by (done || by apply nonempty_str_ok). done.
Qed.
Lemma threshold_unit q : c_unit_float (JFloat (threshold q)) = Ok (threshold q).
Proof.
  unfold c_unit_float, c_float. rewrite lax_float_float. unfold and_then, threshold.
  generalize (to_double (q - lit_0_1)). intros x.
  destruct (Qle_bool 1 x) eqn:E1; [reflexivity|].
  destruct (Qle_bool x 0) eqn:E0; [reflexivity|].
  assert (Qle_bool x 1 = true ∧ Qle_bool 0 x = true) as [-> ->]; [|done].
  rewrite !Qle_bool_iff. apply not_true_iff_false in E0, E1. rewrite Qle_bool_iff in E0, E1.
  split; apply Qlt_le_weak; by apply Qnot_le_lt.
Qed.
End Policy.

Section DevPolicy.
Context `{Env} `{Pydantic} `{!PydanticLaws} `{Environ}.

Definition targets (t sid : string) (f : DiagnosticFinding) (spec : CollectionPolicySpec) : Prop :=
  p_policy_id spec = "policy-" +:+ f_finding_id f ∧
  p_originating_finding spec = {| of_tenant_id := t; of_finding_id := f_finding_id f |} ∧
  p_vehicle_scope spec = f_vehicle_scope f ∧
  vss_name <$> p_signals spec = f_candidate_signals f ∧
  p_session_id spec = sid ∧ p_window_hours spec = 72.

Lemma finding_strings body f : validate_finding body = Ok f →
  f_vehicle_scope f ≠ [] ∧ Forall (λ s, nonempty s = true) (f_vehicle_scope f) ∧
  f_candidate_signals f ≠ [] ∧ Forall (λ s, nonempty s = true) (f_candidate_signals f).
Proof.
  intros (o & -> & Hb & _)%model_ok.
  assert (∀ j xs, c_list NonEmptyStr 1 j = Ok xs → xs ≠ [] ∧ Forall (λ s, nonempty s = true) xs) as Hlist.
  { intros j xs (l & -> & Hl & Hn)%list_ok. split; [by intros ->; simpl in Hn; lia|]. clear Hn.
    induction Hl as [|v x l xs Hv _ IH]; constructor; [|done].
    apply str_len_ok in Hv as (_ & Hlen & _). destruct x; simpl in *; [lia|done]. }
  repeat match goal with E : _ ⊛ _ = Ok _ |- _ => apply vap_ok in E as (? & ? & E & ?F & ?) end.
  simplify_eq/=. repeat match goal with E : field _ _ _ = Ok _ |- _ => apply field_ok in E as (? & _ & E) end.
  split_and!; eapply Hlist; eassumption.
Qed.

Lemma built_policy_valid t sid f prompt :
  extract_finding_from_prompt prompt =
    {| x_tenant_id := t; x_finding_id := f_finding_id f; x_vehicle_scope := JStr <$> f_vehicle_scope f;
       x_confidence := f_upstream_confidence f; x_session_id := sid;
       x_candidate_signals := f_candidate_signals f |} →
  nonempty t = true → nonempty (f_finding_id f) = true → nonempty sid = true →
  f_vehicle_scope f ≠ [] → Forall (λ s, nonempty s = true) (f_vehicle_scope f) →
  f_candidate_signals f ≠ [] → Forall (λ s, nonempty s = true) (f_candidate_signals f) →
  ∃ spec, validate_policy (build_policy prompt) = Ok spec ∧ targets t sid f spec.
Proof.
  intros Ex Ht Hf Hs Hsc Hscs Hca Hcas. unfold build_policy. rewrite Ex. cbn [x_candidate_signals x_finding_id
    x_vehicle_scope x_confidence x_session_id x_tenant_id].
  destruct (f_candidate_signals f) as [|c0 cs] eqn:Ec; [done|]. rewrite <- Ec in *. clear c0 cs Ec.
  pose proof (c_list_map NonEmptyStr JStr (λ s, s) (f_vehicle_scope f) Hsc) as Hscope.
  pose proof (c_list_map validate_signal_spec (λ s, signal_json (JStr s) 1 5)
    (λ s, {| vss_name := s; sample_rate_hz := 1; priority := 5 |}) (f_candidate_signals f) Hca) as Hsig.
  rewrite !Forall_forall in *. specialize (Hscope (λ x Hx, nonempty_str_ok x (Hscs x Hx))).
  specialize (Hsig (λ x Hx, signal_spec_ok x (Hcas x Hx))).
  eexists. split.
  - unfold validate_policy, model, no_extra. eapply vap_eval; [eapply vap_eval; [reflexivity|]|reflexivity].
    repeat lazymatch goal with |- _ ⊛ _ = _ =>
        eapply vap_eval; [|first [eapply field_eval; [reflexivity|]
                                 |eapply field_default_eval; [reflexivity|]|reflexivity]] end;
      first [reflexivity|exact Hscope|exact Hsig|apply flags_ok|by apply originating_ok
            |apply threshold_unit|by apply nonempty_str_ok|unfold c_int_range, c_int; by rewrite lax_int_int].
  - unfold targets. simpl. split_and!; try done.
    + apply list_fmap_id.
    + rewrite <- list_fmap_compose. apply list_fmap_id.
Qed.

Lemma dev_generate_ok (body : json) (f : DiagnosticFinding) (s : session) (w : world) :
  validate_finding body = Ok f →
  s_originating_finding s = finding_dict (s_tenant_id s) f →
  plain_finding (s_tenant_id s) (s_session_id s) f →
  ∃ p spec, @generate _ _ _ dev_generate s w =
      (Ok (set_generated p (runtime_dict dev_info) DEFAULT_DECODING_SEED s), w) ∧
    validate_policy p = Ok spec ∧ targets (s_tenant_id s) (s_session_id s) f spec ∧
    jget "collection_window_hours" p = Some (JInt 72).
Proof.
  intros Hv Hd Hplain. destruct (finding_strings body f Hv) as (S1 & S2 & C1 & C2).
  destruct (render_prompt_text s f w Hd) as [rest Er]; [by apply plain_no_brace|].
  destruct (built_policy_valid (s_tenant_id s) (s_session_id s) f _ (extract_prompt _ _ f rest Hplain))
    as (spec & Hok & Htg); try assumption.
  1-3: by destruct Hplain as ((? & _)%andb_true_iff & (? & _)%andb_true_iff & ? & _).
  eexists _, spec. split; [|split; [exact Hok|split; [exact Htg|reflexivity]]].
  unfold generate. erewrite bind_ok by exact Er. reflexivity.
Qed.

(** C17. The development client generates for the finding it is asked about, when the
    finding is one it can read back from the prompt: the API accepted it; its tenant
    and finding ids hold no white space; no text of it holds an opening brace and no
    vehicle or signal a closing bracket; its confidence prints as a plain decimal that
    reads back as itself; the session id is not empty and holds no double quote; and
    no text holds one of the prompt's own labels.  Then the policy built from the
    rendered prompt passes the schema, carries the finding's and the tenant's
    identifiers and the session id, and targets exactly the finding's vehicles and
    candidate signals, on every attempt.  The conditions are not idle: the API accepts
    a finding id with a space, of which the client keeps the first word
    ([spaced_id_truncated]). *)
Theorem dev_policy_targets_finding (body : json) (f : DiagnosticFinding) (s : session) (w : world) :
  validate_finding body = Ok f →
  s_originating_finding s = finding_dict (s_tenant_id s) f →
  plain_finding (s_tenant_id s) (s_session_id s) f →
  ∃ p spec, @generate _ _ _ dev_generate s w =
      (Ok (set_generated p (runtime_dict dev_info) DEFAULT_DECODING_SEED s), w) ∧
    validate_policy p = Ok spec ∧ targets (s_tenant_id s) (s_session_id s) f spec.
Proof.
  intros Hv Hd Hplain. destruct (dev_generate_ok body f s w Hv Hd Hplain) as (p & spec & ? & ? & ? & _). eauto.
Qed.

(** The policy's own fields, as the deployer reads them. *)
Lemma policy_scope_json p spec : validate_policy p = Ok spec →
  jget "vehicle_scope" p = Some (jstrs (p_vehicle_scope spec)) ∧ truthy p = true.
Proof.
  intros (o & -> & Hb & _)%model_ok. unfold jget. simpl fields.
  repeat match goal with E : _ ⊛ _ = Ok _ |- _ => apply vap_ok in E as (? & ? & E & ?F & ?) end.
  simplify_eq/=.
  repeat match goal with E : field _ _ _ = Ok _ |- _ => apply field_ok in E as (? & ? & E) end.
  split; [|by destruct o].
  match goal with E : c_list NonEmptyStr 1 _ = Ok _ |- _ => apply list_ok in E as (l & -> & Hl & _) end.
  match goal with E : dget "vehicle_scope" o = _ |- _ => rewrite E end. f_equal. unfold jstrs. f_equal.
  clear -Hl. induction Hl as [|v x l xs Hv _ IH]; [done|]. apply str_len_ok in Hv as [-> _].
  by rewrite fmap_cons, IH.
Qed.

(** Without injected failures the simulator accepts. *)
Lemma simulator_accepts c accel status h v vs w :
  dc_vehicle_scope c = v :: vs → jget "collection_window_hours" (dc_payload c) = Some (JInt h) →
  representable (clock (w_clock_n w) + timedelta_us (inject_Z (h * 3600) / accel)) = true →
  nonempty (fresh (w_ids_n w)) = true →
  ∃ resp w', simulator_deploy 0 status accel c w = (Ok resp, w') ∧ dr_status resp = "accepted" ∧
    nonempty (dr_deployment_id resp) = true ∧ w_sent w' = w_sent w.
Proof.
  intros Hs Hh Hr Hf. unfold simulator_deploy. rewrite Hs. unfold jget_or. rewrite Hh. cbn [default Qle_bool].
  unfold now, new_id, py_int. run_prog. rewrite Hr. simpl. eexists _, _. split; [reflexivity|]. by simpl.
Qed.

Context `{Difflib} `{PayloadSigner}.

(** A deployment the collector accepts ends the run. *)
Lemma deploy_accepted `{CollectorAIClient} n s p l resp w w1 :
  s_generated_policy s = Some p → truthy p = true → jget "vehicle_scope" p = Some (JArr l) →
  collector_deploy (call_of s l) (upd_sent (λ x, x ++ [call_of s l]) w) = (Ok resp, w1) →
  dr_status resp = "accepted" → nonempty (dr_deployment_id resp) = true →
  ∃ g, deploy_and_finish n s w = (Ok g, upd_clock_n S w1) ∧ run_final g = Completed ∧ run_attempts g = n.
Proof.
  intros Hg Htr Hjs Hc Hst Hid. unfold deploy_and_finish, deploy. rewrite Hg. cbn [or_else]. rewrite Htr.
  change (jget_or "vehicle_scope" (JArr []) p) with (default (JArr []) (jget "vehicle_scope" p)).
  rewrite Hjs. cbn [default]. unfold now. run_prog. rewrite Hc. cbv beta iota. rewrite Hid.
  eexists. split; [reflexivity|]. simpl. by rewrite Hst.
Qed.

(** C16. The loop closes on the first attempt: with the development client and the
    simulated collector without injected failures, a finding the client can read back
    (as in [plain_finding]: ids without white space, no braces or brackets, a plain
    decimal confidence, none of the prompt's labels) whose candidate signals are in the
    vocabulary and not PII-adjacent is validated and deployed at once, in one outbound
    call for its tenant to exactly its vehicles; provided the expiry instant is one a
    [datetime] can hold and fresh identifiers are not empty. *)
Theorem dev_run_deploys (pv : PolicyValidator) (accel : Q) (body : json) (f : DiagnosticFinding)
    (s : session) (w : world) :
  validate_finding body = Ok f →
  s_originating_finding s = finding_dict (s_tenant_id s) f →
  plain_finding (s_tenant_id s) (s_session_id s) f →
  (∀ n, n ∈ f_candidate_signals f → n ∈ all_names (pv_vss pv) ∧ is_pii (pv_governance pv) n = false) →
  representable (clock (w_clock_n w) + timedelta_us (inject_Z (72 * 3600) / accel)) = true →
  (∀ n, nonempty (fresh n) = true) →
  ∃ g w' c, @run _ _ _ _ _ dev_generate (simulator_deploy 0 "failed" accel) pv s w = (Ok g, w') ∧
    run_final g = Completed ∧ run_attempts g = 1%nat ∧
    w_sent w' = w_sent w ++ [c] ∧ dc_tenant_id c = s_tenant_id s ∧
    dc_vehicle_scope c = JStr <$> f_vehicle_scope f.
Proof.
  intros Hv Hd Hplain Hsig Hrep Hfresh.
  destruct (dev_generate_ok body f (initial_plan s) w Hv Hd Hplain) as (p & spec & Eg & Ep & (_ & _ & Hscope & Hnames & _ & Hwin) & Hraw).
  destruct (policy_scope_json p spec Ep) as [Hjs Htr]. rewrite Hscope in Hjs.
  assert (vr_ok (validate pv spec) = true) as Hok.
  { apply validate_ok_spec. rewrite Hnames, Hwin. split_and!; [by intros n [? _]%Hsig| |lia|lia].
    intros (n & [_ Hn]%Hsig & Hp). congruence. }
  destruct (f_vehicle_scope f) as [|v0 vs] eqn:Evs.
  { by destruct (finding_strings body f Hv) as [Hne _]. }
  unfold run, attempts_left. cbn [attempt_loop]. erewrite bind_ok by exact Eg.
  unfold validate_node. cbn [s_generated_policy set_generated opt_json default from_option id].
  rewrite bool_decide_false by (intros ->; done). rewrite Ep, Hok.
  set (s2 := set_validation_errors _ _).
  erewrite (bind_ok _ _ w (true, s2) w) by reflexivity.
  erewrite (bind_ok _ _ w (RDeploy, s2) w) by reflexivity. cbv beta iota.
  set (c := call_of s2 (JStr <$> v0 :: vs)).
  assert (dc_payload c = p) as Hpay by (unfold c, call_of; simpl; by rewrite Htr).
  destruct (simulator_accepts c accel "failed" 72 (JStr v0) (JStr <$> vs) (upd_sent (λ l, l ++ [c]) w))
    as (resp & w1 & Er & Hst & Hid & Hsent); [done|by rewrite Hpay|done|done|].
  destruct (deploy_accepted (H5 := simulator_deploy 0 "failed" accel) 1 s2 p (JStr <$> v0 :: vs)
    resp w w1) as (g & Hrun & Hfin & Hatt); try done.
  exists g, (upd_clock_n S w1), c. split_and!; done.
Qed.
End DevPolicy.

(** * The fingerprint *)
Lemma hex_char_inj n m : (n < 16)%nat → (m < 16)%nat → hex_char n = hex_char m → n = m.
Proof.
  intros Hn Hm. do 16 (destruct n as [|n]; [do 16 (destruct m as [|m]; [by vm_compute|]); lia|]). lia.
Qed.
Lemma hex_inj s t : hex s = hex t → s = t.
Proof.
  revert t. induction s as [|c s IH]; intros [|d t]; cbn [hex]; try done. intros E. injection E as H1 H2 H3.
  assert (∀ a, (code a < 256)%nat) as Hc by (intros a; apply nat_ascii_bounded).
  change (hex_char (code c / 16)%nat = hex_char (code d / 16)%nat) in H1.
  change (hex_char (code c mod 16)%nat = hex_char (code d mod 16)%nat) in H2.
  apply hex_char_inj in H1; [|apply Nat.Div0.div_lt_upper_bound; apply Hc..].
  apply hex_char_inj in H2; [|by apply Nat.mod_upper_bound..].
  f_equal; [|by apply IH]. rewrite <- (ascii_nat_embedding c), <- (ascii_nat_embedding d). f_equal.
  unfold code in *. rewrite (Nat.div_mod_eq (nat_of_ascii c) 16), (Nat.div_mod_eq (nat_of_ascii d) 16). lia.
Qed.

(** The stub's fingerprint identifies the request: two requests share a corpus
    entry exactly when they agree, up to the order of keys, on the template
    version, the decoding parameters, the schema and the prompt, whatever their
    sessions and retry contexts, provided SHA-256 has no collision. *)
Theorem fingerprint_identifies_request `{PyFloat} `{Sha256} (r r' : GenerationRequest) :
  (∀ a b, sha256 a = sha256 b → a = b) →
  readable (fingerprint_payload (request_dict r)) → readable (fingerprint_payload (request_dict r')) →
  compute_fingerprint (request_dict r) = compute_fingerprint (request_dict r') ↔
    same_json (fingerprint_payload (request_dict r)) (fingerprint_payload (request_dict r')) = true.
Proof.
  intros Hsha Hr Hr'. unfold compute_fingerprint. rewrite <- canonical_same by done. split.
  - intros E. by apply Hsha, hex_inj.
  - by intros ->.
Qed.

(** * What every client records *)
(** The run metadata fits the policy model and the audit record. *)
Definition recordable (info : json) : Prop :=
  ∃ sha runtime quant, jget "slm_revision_sha" info = Some (JStr sha) ∧
    jget "slm_runtime" info = Some (JStr runtime) ∧ jget "slm_quantization" info = Some (JStr quant) ∧
    Sha40 (JStr sha) = Ok sha ∧ runtime ∈ ["vllm"; "llama_cpp"; "stub"] ∧
    quant ∈ ["bf16"; "gguf-q4_k_m"; "none"].

Lemma runtime_recordable r : Sha40 (JStr (slm_revision_sha r)) = Ok (slm_revision_sha r) →
  slm_runtime r ∈ ["vllm"; "llama_cpp"; "stub"] → slm_quantization r ∈ ["bf16"; "gguf-q4_k_m"; "none"] →
  recordable (runtime_dict r).
Proof. intros. exists (slm_revision_sha r), (slm_runtime r), (slm_quantization r). by split_and!. Qed.

(** Whichever client the environment selects, a response that is returned
    carries run metadata the policy model and the audit record accept: a 40-digit
    revision, a known runtime and a known quantization; and the development client
    is selected only when the environment is local. *)
Theorem selected_client_recordable `{Env} `{Environ} `{SlmServer} `{Sha256} (root : corpus)
    (c : client_choice) (r : GenerationRequest) (resp : GenerationResponse) (w w' : world) :
  select_policy_client = Ok c →
  client_of root c r w = (Ok resp, w') →
  recordable (gs_runtime_info resp) ∧
  (c = UseDevDefault → lower (default "local" (environ "COLLECTMIND_ENV")) = "local").
Proof.
  intros Hsel Hrun. split.
  - assert (∀ info comp w1, read_completion info comp w1 = (Ok resp, w') →
      gs_runtime_info resp = runtime_dict info) as Hread.
    { intros info comp w1. unfold read_completion. intros E.
      repeat match goal with E : (_ ≫= _) _ = (Ok _, _) |- _ => apply bind_inv_ok in E as (? & ? & ? & E) end.
      unfold mret, prog_ret in E. by simplify_eq. }
    destruct c as [url|url| |]; unfold client_of in Hrun.
    + unfold vllm_generate in Hrun.
      repeat match goal with E : (_ ≫= _) _ = (Ok _, _) |- _ => apply bind_inv_ok in E as (? & ? & ? & E) end.
      rewrite (Hread _ _ _ Hrun). by apply runtime_recordable; [..|apply (bool_decide_unpack _)|apply (bool_decide_unpack _)].
    + unfold llamacpp_generate in Hrun.
      repeat match goal with E : (_ ≫= _) _ = (Ok _, _) |- _ => apply bind_inv_ok in E as (? & ? & ? & E) end.
      rewrite (Hread _ _ _ Hrun). by apply runtime_recordable; [..|apply (bool_decide_unpack _)|apply (bool_decide_unpack _)].
    + unfold stub_generate in Hrun. destruct (root _); [|done].
      repeat match goal with E : (_ ≫= _) _ = (Ok _, _) |- _ => apply bind_inv_ok in E as (? & ? & ? & E) end.
      unfold mret, prog_ret in Hrun. simplify_eq. simpl.
      by apply runtime_recordable; [..|apply (bool_decide_unpack _)|apply (bool_decide_unpack _)].
    + unfold dev_generate, mret, prog_ret in Hrun. simplify_eq. simpl.
      by apply runtime_recordable; [..|apply (bool_decide_unpack _)|apply (bool_decide_unpack _)].
  - intros ->. unfold select_policy_client in Hsel.
    destruct (str_eqb _ "vllm"); [discriminate|]. destruct (_ || _); [discriminate|].
    destruct (str_eqb _ "stub"); [discriminate|].
    destruct (str_eqb (lower (default "local" _)) "local") eqn:E; [|discriminate]. by apply str_eqb_eq.
Qed.

(** The clients leave the process's own records alone. *)
#[export] Instance dev_quiet `{Env} `{Environ} : @QuietGenerator dev_generate.
Proof. intros r. apply stable_ret. Qed.
#[export] Instance stub_quiet `{PyFloat} `{Sha256} root : @QuietGenerator (stub_generate root).
Proof.
  intros r. unfold generate_policy, stub_generate. destruct (root _) as [t|]; [|apply stable_raise].
  apply stable_bind; [destruct (output_json t); [apply stable_lift|apply stable_raise]|]. intros p.
  apply stable_bind; [destruct (usage_json t); [apply stable_lift|apply stable_ret]|]. intros u.
  apply stable_ret.
Qed.

(** * A concrete finding *)
Module SlmSamples.
#[global] Instance nothing_set : Environ := λ _, None.
Definition f1 : DiagnosticFinding :=
  {| f_schema_version := "1.0.0"; f_finding_id := "F1"; f_anomaly_type := "brake_wear";
     f_hypothesis_class := "early-stage"; f_hypothesis_statement := "rotor wear: uneven";
     f_candidate_signals := ["Vehicle.Speed"]; f_vehicle_scope := ["VIN-1"; "VIN-2"];
     f_upstream_confidence := 4 # 5 |}.
Definition body : json := JObj
  [("schema_version", JStr "1.0.0"); ("finding_id", JStr "F1"); ("anomaly_type", JStr "brake_wear");
   ("hypothesis_class", JStr "early-stage"); ("hypothesis_statement", JStr "rotor wear: uneven");
   ("candidate_signals", jstrs ["Vehicle.Speed"]); ("vehicle_scope", jstrs ["VIN-1"; "VIN-2"]);
   ("upstream_confidence", JFloat (4 # 5))].
Definition s1 : session := new_session "S1" "acme" "corr-1" (finding_dict "acme" f1) 0.
Lemma f1_plain : @plain_finding Samples.env "acme" "S1" f1.
Proof. unfold plain_finding. by split_and!; try (vm_compute; reflexivity); apply (bool_decide_unpack _); vm_compute. Qed.
(** The finding of [body] under the id "F 1". *)
Definition f_spaced : DiagnosticFinding :=
  {| f_schema_version := "1.0.0"; f_finding_id := "F 1"; f_anomaly_type := "brake_wear";
     f_hypothesis_class := "early-stage"; f_hypothesis_statement := "rotor wear: uneven";
     f_candidate_signals := ["Vehicle.Speed"]; f_vehicle_scope := ["VIN-1"; "VIN-2"];
     f_upstream_confidence := 4 # 5 |}.
Definition body_spaced : json := JObj
  [("schema_version", JStr "1.0.0"); ("finding_id", JStr "F 1"); ("anomaly_type", JStr "brake_wear");
   ("hypothesis_class", JStr "early-stage"); ("hypothesis_statement", JStr "rotor wear: uneven");
   ("candidate_signals", jstrs ["Vehicle.Speed"]); ("vehicle_scope", jstrs ["VIN-1"; "VIN-2"]);
   ("upstream_confidence", JFloat (4 # 5))].
Definition s_spaced : session := new_session "S1" "acme" "corr-1" (finding_dict "acme" f_spaced) 0.
Definition request1 : GenerationRequest :=
  {| gr_session_id := "S1"; gr_prompt_template_version := "1.0.0"; gr_prompt := "p"; gr_schema := JObj [];
     gr_decoding := JObj [("seed", JInt 7)]; gr_retry_context := None |}.
Definition request2 : GenerationRequest :=
  {| gr_session_id := "S2"; gr_prompt_template_version := "1.0.0"; gr_prompt := "p"; gr_schema := JObj [];
     gr_decoding := JObj [("top_p", JNull); ("seed", JInt 7)]; gr_retry_context := None |}.
#[global] Instance no_server : SlmServer :=
  {| slm_post := λ _ _, raise (EOther "connect"); slm_get := λ _, raise (EOther "connect") |}.
(** A digest that keeps the text. *)
Definition keep : Sha256 := λ s, s.
Definition resp1 : GenerationResponse :=
  {| gs_policy := @build_policy Samples.env nothing_set "p"; gs_runtime_info := runtime_dict dev_info;
     gs_usage := JObj [("input_tokens", JInt 0); ("output_tokens", JInt 0); ("generation_latency_ms", JInt 0)] |}.
End SlmSamples.
Import SlmSamples.

Lemma dev_policy_targets_finding_witness :
  ∃ p spec, @generate Samples.env GraphSamples.pydantic prompts_v1 (@dev_generate Samples.env nothing_set)
      s1 Samples.start =
      (Ok (set_generated p (runtime_dict dev_info) DEFAULT_DECODING_SEED s1), Samples.start) ∧
    @validate_policy GraphSamples.pydantic p = Ok spec ∧ targets "acme" "S1" f1 spec.
Proof.
  apply (@dev_policy_targets_finding Samples.env GraphSamples.pydantic _ nothing_set body f1 s1 Samples.start).
  - vm_compute. reflexivity.
  - reflexivity.
  - exact f1_plain.
Defined.

Lemma dev_run_deploys_witness :
  ∃ g w' c, @run Samples.env GraphSamples.pydantic GraphSamples.difflib prompts_v1 GraphSamples.signer
      (@dev_generate Samples.env nothing_set) (@simulator_deploy Samples.env 0 "failed" 1)
      GraphSamples.pv s1 Samples.start = (Ok g, w') ∧
    run_final g = Completed ∧ run_attempts g = 1%nat ∧
    w_sent w' = w_sent Samples.start ++ [c] ∧ dc_tenant_id c = "acme" ∧
    dc_vehicle_scope c = [JStr "VIN-1"; JStr "VIN-2"].
Proof.
  apply (@dev_run_deploys Samples.env GraphSamples.pydantic _ nothing_set GraphSamples.difflib
    GraphSamples.signer GraphSamples.pv 1 body f1 s1 Samples.start).
  - vm_compute. reflexivity.
  - reflexivity.
  - exact f1_plain.
  - intros n Hn. apply list_elem_of_singleton in Hn as ->. split; [|vm_compute; reflexivity].
    by apply (bool_decide_unpack _); vm_compute.
  - vm_compute. reflexivity.
  - intros n. reflexivity.
Defined.

Lemma fingerprint_identifies_request_witness :
  @compute_fingerprint Samples.floats keep (request_dict request1) =
  @compute_fingerprint Samples.floats keep (request_dict request2) ↔
    same_json (fingerprint_payload (request_dict request1)) (fingerprint_payload (request_dict request2)) = true.
Proof.
  apply (@fingerprint_identifies_request Samples.floats keep request1 request2).
  - intros a b E. exact E.
  - split; [by apply (bool_decide_unpack _); vm_compute|].
    repeat (split; [first [exact I|split; [constructor|exact I]]|]). exact I.
  - split; [by apply (bool_decide_unpack _); vm_compute|].
    repeat (split; [first [exact I|split; [constructor|exact I]]|]). exact I.
Defined.

Lemma selected_client_recordable_witness :
  recordable (runtime_dict dev_info) ∧
  (UseDevDefault = UseDevDefault → lower (default "local" (nothing_set "COLLECTMIND_ENV")) = "local").
Proof.
  apply (@selected_client_recordable Samples.env nothing_set no_server keep (λ _, None) UseDevDefault
    {| gr_session_id := "S1"; gr_prompt_template_version := "1.0.0"; gr_prompt := "p"; gr_schema := JObj [];
       gr_decoding := JObj []; gr_retry_context := None |} resp1 Samples.start Samples.start); reflexivity.
Defined.

(** A finding id with a space passes the API; the policy of the development client
    is for the id up to the space, and passes the schema too. *)
Example spaced_id_truncated :
  @validate_finding GraphSamples.pydantic body_spaced = Ok f_spaced ∧
  ∃ s w spec, @generate Samples.env GraphSamples.pydantic prompts_v1 (@dev_generate Samples.env nothing_set)
      s_spaced Samples.start = (Ok s, w) ∧
    @validate_policy GraphSamples.pydantic (or_else (s_generated_policy s) JNull) = Ok spec ∧
    p_policy_id spec = "policy-F" ∧ of_finding_id (p_originating_finding spec) = "F".
Proof.
  split; [vm_compute; reflexivity|]. eexists _, _, _. split; [vm_compute; reflexivity|].
  split; [vm_compute; reflexivity|]. split; vm_compute; reflexivity.
Qed.
