(* ===== verification/Guards.v ===== *)
(** Paths, lines and parsed YAML for the repository's own guards, and the first of
    them, [scripts/check_runbook_completeness.py].

    The file system and the YAML reader are parameters; paths are relative to the
    repository root. *)
From S2P Require Import Prelude PyStr PyDict Templates Regex Json JsonText Logging Errors Models World Metrics Samples Ingest Slm.
Local Open Scope nat_scope.

Class Files := {
  is_file : string → bool;
  repo_root : string;
  is_dir : string → bool;
  read_text : string → string;
  iterdir : string → list string }.       (** the names in a directory *)
Class Yaml := safe_load : string → json.
Notation R := (result exn).

(** * Paths and lines *)
(** The non-empty parts of a path; [p.name] is the last. *)
Definition path_parts (s : string) : list string :=
  List.filter (λ p, nonempty p && negb (str_eqb p ".")) (split_on "/" s).
Definition path_name (s : string) : string := default "" (List.last (Some <$> path_parts s) None).
(** The text after the last occurrence of [c], with [c]; none if there is none. *)
Fixpoint from_last (c : ascii) (s : string) : option string :=
  match s with
  | "" => None
  | String d s' => match from_last c s' with
                   | Some t => Some t
                   | None => if ascii_eqb c d then Some s else None
                   end
  end.
(** [Path(name).suffix]: from the last dot on, unless it is the first or the last
    character. *)
Definition path_suffix (name : string) : string :=
  match from_last "." name with
  | Some t => if (len t =? len name) || (len t =? 1) then "" else t
  | None => ""
  end.

(** [s.splitlines()]. *)
Definition is_line_break (c : ascii) : bool :=
  existsb (Nat.eqb (code c)) [10; 11; 12; 13; 28; 29; 30; 133].
Fixpoint splitlines_acc (acc : string) (after_cr : bool) (s : string) : list string :=
  match s with
  | "" => if nonempty acc then [acc] else []
  | String c s' =>
      if after_cr && (code c =? 10) then splitlines_acc acc false s'
      else if is_line_break c then acc :: splitlines_acc "" (code c =? 13) s'
      else splitlines_acc (acc +:+ String c "") false s'
  end.
Definition splitlines (s : string) : list string := splitlines_acc "" false s.

(** [s.partition(sep)], the part after the separator. *)
Definition after_sep (sep s : string) : string :=
  match index_of sep s with Some i => drop_str (i + len sep) s | None => "" end.
(** [s.split(c, 1)[0]] and [s.rsplit(c, 1)[-1]]. *)
Definition before_char (c : ascii) (s : string) : string := (span (λ d, negb (ascii_eqb d c)) s).1.
Definition after_last (c : ascii) (s : string) : string :=
  match from_last c s with Some t => drop_str 1 t | None => s end.

(** The order of [sorted] on names. *)
Definition str_le (x y : string) : Prop := String.leb x y = true.
#[global] Instance str_le_dec : RelDecision str_le := λ x y, bool_eq_dec _ _.

(** A dict access on parsed YAML. *)
Definition yget (k : string) (j : json) : R (option json) :=
  match j with
  | JObj o => Ok (dget k o)
  | _ => Raise (EAttributeError "object has no attribute 'get'")
  end.
(** Iterating over a parsed value. *)
Definition yiter (j : json) : R (list json) :=
  match j with
  | JArr l => Ok l
  | JObj o => Ok (JStr <$> dkeys o)
  | JStr s => Ok ((λ c, JStr (String c "")) <$> String.list_ascii_of_string s)
  | _ => Raise (ETypeError "object is not iterable")
  end.
Fixpoint rmap {A B} (f : A → R B) (l : list A) : R (list B) :=
  match l with [] => Ok [] | x :: l' => y ← f x; ys ← rmap f l'; Ok (y :: ys) end.

Lemma rmap_ok {A B} (f : A → R B) l ys : rmap f l = Ok ys ↔ Forall2 (λ x y, f x = Ok y) l ys.
Proof.
  revert ys. induction l as [|x l IH]; intros ys; simpl.
  - split; [intros [= <-]; constructor|by inversion 1].
  - unfold mbind, result_bind. split.
    + destruct (f x) as [y|] eqn:Ex; [|done]. destruct (rmap f l) as [ys'|] eqn:El; [|done].
      intros [= <-]. constructor; [done|by apply IH].
    + inversion 1 as [|? y ? ys' Hx Hl]; subst. by rewrite Hx, (proj2 (IH ys') Hl).
Qed.
(** A check that collects the findings of its items finds nothing just when every
    item is fine. *)
Lemma rmap_concat_nil {A B} (f : A → R (list B)) l :
  (∃ ys, rmap f l = Ok ys ∧ concat ys = []) ↔ ∀ x, x ∈ l → f x = Ok [].
Proof.
  setoid_rewrite rmap_ok. rewrite <- Forall_forall. split.
  - intros (ys & Hl & Hc). revert Hc. induction Hl as [|x y l ys Hx _ IH]; intros Hc; constructor; simpl in Hc;
      apply app_eq_nil in Hc as [-> ?]; auto.
  - induction 1 as [|x l Hx _ (ys & Hl & Hc)]; [by exists []|]. exists ([] :: ys). split; [by constructor|done].
Qed.
Lemma concat_nil_app {A} (a : list (list A)) (b : list A) : concat a ++ b = [] ↔ concat a = [] ∧ b = [].
Proof. split; [apply app_eq_nil|by intros [-> ->]]. Qed.

(** * [scripts/check_runbook_completeness.py] *)
Definition RULES_PATH : string := "observability/prometheus/rules.yaml".
Definition RUNBOOK_DIR : string := "observability/runbooks".
Definition ORPHAN_WHITELIST_PATH : string := "observability/runbooks/.orphan-whitelist.yaml".
Definition REQUIRED_SECTIONS : list string := ["Symptoms"; "Dashboard"; "Mitigation"; "Escalation"].

Record alert := Alert { al_group : json; al_name : json; al_rule : json }.

(** A match of [(?m)^r]: at the start of the text or after a newline. *)
Fixpoint search_lines (r : regex) (prev : option ascii) (s : string) : bool :=
  (match prev with None => true | Some c => ascii_eqb c newline end && bool_decide (is_Some (rmatch r prev s))) ||
  match s with "" => false | String c s' => search_lines r (Some c) s' end.
(** [#+\s*<section>\b]. *)
Definition section_re (s : string) : regex := many (chr "#") :: Rep is_space 0 None :: word_of s ++ [Bound].
Definition has_section (body s : string) : bool := search_lines (section_re s) None body.

Definition missing_sections (body : string) : list string :=
  List.filter (λ s, negb (has_section body s)) REQUIRED_SECTIONS.
Lemma missing_none body : missing_sections body = [] ↔ ∀ s, s ∈ REQUIRED_SECTIONS → has_section body s = true.
Proof.
  unfold missing_sections. induction REQUIRED_SECTIONS as [|x l IH]; simpl.
  - split; [by intros _ s ?%not_elem_of_nil|done].
  - destruct (has_section body x) eqn:E; simpl.
    + rewrite IH. setoid_rewrite elem_of_cons. naive_solver.
    + split; [done|]. intros Hall. rewrite Hall in E by left. done.
Qed.
#[global] Arguments missing_sections : simpl never.

(** [_resolve_runbook_target]. *)
Definition resolve_runbook_target (runbook_url : string) : string :=
  let name := if contains "://" runbook_url
              then before_char "#" (before_char "?" (after_sep "/" (after_sep "://" runbook_url)))
              else runbook_url in
  let name := if contains "/" name && negb (startswith name "observability/runbooks/")
              then after_last "/" name else name in
  if startswith name "observability/runbooks/" then name else RUNBOOK_DIR +:+ "/" +:+ name.
Definition url_text (j : json) : R string :=
  match j with JStr s => Ok s | _ => Raise (ETypeError "runbook_url is not a string") end.

Section Runbooks.
Context `{Files} `{Yaml} `{PyFloat}.

(** [_iter_alerts]. *)
Definition rule_alerts (group_name rule : json) : R (list alert) :=
  name ← yget "alert" rule;
  Ok (match name with None | Some JNull => [] | Some n => [Alert group_name n rule] end).
Definition group_alerts (group : json) : R (list alert) :=
  group_name ← yget "name" group;
  rules ← yget "rules" group;
  rs ← yiter (default (JArr []) rules);
  xs ← rmap (rule_alerts (default (JStr "<unnamed>") group_name)) rs;
  Ok (concat xs).
Definition iter_alerts (doc : json) : R (list alert) :=
  groups ← yget "groups" doc;
  gs ← yiter (default (JArr []) groups);
  xs ← rmap group_alerts gs;
  Ok (concat xs).

(** [_load_orphan_whitelist]. *)
Definition load_orphan_whitelist : R (list string) :=
  if negb (is_file ORPHAN_WHITELIST_PATH) then Ok [] else
  let doc := or_else (Some (safe_load (read_text ORPHAN_WHITELIST_PATH))) (JObj []) in
  entries ← yget "whitelist" doc;
  l ← yiter (or_else entries (JArr []));
  Ok (py_str <$> (l : list json)).

(** [(rule.get("annotations") or {}).get(key)]. *)
Definition annotation (key : string) (a : alert) : R (option json) :=
  ann ← yget "annotations" (al_rule a);
  yget key (or_else ann (JObj [])).
Definition given (o : option json) : bool := match o with Some j => truthy j | None => false end.

(** The page an alert refers to, if it names one. *)
Definition alert_target (a : alert) : R (option string) :=
  url ← annotation "runbook_url" a;
  match url with
  | Some u => if truthy u then s ← url_text u; Ok (Some (resolve_runbook_target s)) else Ok None
  | None => Ok None
  end.

Definition in_list (x : string) (l : list string) : bool := existsb (str_eqb x) l.
(** [find_orphan_runbooks]. *)
Definition find_orphan_runbooks (doc : json) (runbook_dir : string) (whitelist : list string) : R (list string) :=
  if negb (is_dir runbook_dir) then Ok [] else
  alerts ← iter_alerts doc;
  targets ← rmap alert_target alerts;
  let referenced := path_name <$> omap id targets in
  Ok (List.filter (λ name, is_file (runbook_dir +:+ "/" +:+ name) && str_eqb (path_suffix name) ".md" &&
        negb (in_list name whitelist) && negb (in_list name referenced))
      (merge_sort str_le (iterdir runbook_dir))).

(** The errors of one alert in [check]. *)
Definition alert_errors (a : alert) : R (list string) :=
  let label := py_str (al_group a) +:+ "." +:+ py_str (al_name a) in
  runbook_url ← annotation "runbook_url" a;
  summary ← annotation "summary" a;
  if negb (given runbook_url) then Ok [label +:+ ": missing annotations.runbook_url"] else
  let no_summary := if given summary then [] else [label +:+ ": missing annotations.summary"] in
  target ← alert_target a;
  match target with
  | None => Ok no_summary
  | Some target =>
      if negb (is_file target) then
        Ok (no_summary ++ [label +:+ ": runbook_url " +:+ py_repr (default JNull runbook_url) +:+ " resolves to " +:+
              repo_root +:+ "/" +:+ target +:+ " which is missing"])
      else
        let missing := missing_sections (read_text target) in
        Ok (no_summary ++ match missing with
              | [] => []
              | _ => [path_name target +:+ ": missing required section(s) " +:+ py_repr (JArr (JStr <$> missing))]
              end)
  end.
Definition orphan_error (orphan : string) : string :=
  "orphan runbook " +:+ py_repr (JStr orphan) +:+
  ": not referenced by any alert and not in observability/runbooks/.orphan-whitelist.yaml".

(** [check]. *)
Definition runbook_check : R (list string) :=
  if negb (is_file RULES_PATH) then Ok ["rules.yaml not found at " +:+ repo_root +:+ "/" +:+ RULES_PATH] else
  let doc := or_else (Some (safe_load (read_text RULES_PATH))) (JObj []) in
  groups ← yget "groups" doc;
  if negb (given groups) then Ok ["rules.yaml declares no alert groups"] else
  alerts ← iter_alerts doc;
  errors ← rmap alert_errors alerts;
  whitelist ← load_orphan_whitelist;
  orphans ← find_orphan_runbooks doc RUNBOOK_DIR whitelist;
  Ok (concat errors ++ (orphan_error <$> orphans)).
(** [main]: the exit code. *)
Definition runbook_main : R Z := errors ← runbook_check; Ok (match errors with [] => 0%Z | _ => 1%Z end).

(** ** What it accepts *)
Definition alert_complete (a : alert) : Prop :=
  ∃ url summary, annotation "runbook_url" a = Ok (Some (JStr url)) ∧ nonempty url = true ∧
    annotation "summary" a = Ok (Some summary) ∧ truthy summary = true ∧
    is_file (resolve_runbook_target url) = true ∧
    ∀ s, s ∈ REQUIRED_SECTIONS → has_section (read_text (resolve_runbook_target url)) s = true.
Definition refers_to (a : alert) (page : string) : Prop :=
  ∃ url, annotation "runbook_url" a = Ok (Some (JStr url)) ∧ nonempty url = true ∧
    path_name (resolve_runbook_target url) = page.

Lemma alert_target_url a url : annotation "runbook_url" a = Ok (Some (JStr url)) → nonempty url = true →
  alert_target a = Ok (Some (resolve_runbook_target url)).
Proof. intros E Hne. unfold alert_target. rewrite E. simpl. by rewrite Hne. Qed.
Lemma alert_target_inv a t : alert_target a = Ok (Some t) →
  ∃ url, annotation "runbook_url" a = Ok (Some (JStr url)) ∧ nonempty url = true ∧ t = resolve_runbook_target url.
Proof.
  unfold alert_target. destruct (annotation "runbook_url" a) as [[u|]|e]; simpl; try done.
  destruct (truthy u) eqn:Ht; [|done]. destruct u as [| | | |s| |]; simpl; try done. intros [= <-]. by exists s.
Qed.
Lemma alert_errors_nil a : alert_errors a = Ok [] ↔ alert_complete a.
Proof.
  unfold alert_errors, alert_complete. split.
  - destruct (annotation "runbook_url" a) as [url|] eqn:Eu; [|done].
    destruct (annotation "summary" a) as [sm|] eqn:Es; [|done]. simpl.
    destruct (given url) eqn:Gu; simpl; [|done]. destruct (alert_target a) as [[t|]|] eqn:Et; simpl; [| |done].
    + apply alert_target_inv in Et as (u & E & Hne & ->). rewrite Eu in E. injection E as ->.
      destruct (is_file _) eqn:Ef; simpl; [|intros [= E]; by destruct (given sm)].
      intros [= E]. apply app_eq_nil in E as [E1 E2].
      destruct sm as [sm|]; simpl in E1; [|done]. destruct (truthy sm) eqn:Gs; [|done].
      exists u, sm. split_and!; try done. apply missing_none. by destruct (missing_sections _).
    + unfold alert_target in Et. rewrite Eu in Et. destruct url as [u|]; simpl in *; [|done].
      rewrite Gu in Et. by destruct (url_text u).
  - intros (url & summary & Eu & Hne & Es & Hs & Hf & Hsec).
    rewrite (alert_target_url _ _ Eu Hne), Eu, Es. simpl. rewrite Hne, Hs. simpl. rewrite Hf. simpl.
    apply missing_none in Hsec. by rewrite Hsec.
Qed.

Lemma in_list_true x l : in_list x l = true ↔ x ∈ l.
Proof.
  unfold in_list. rewrite existsb_exists. setoid_rewrite str_eqb_eq. setoid_rewrite <- list_elem_of_In.
  naive_solver.
Qed.
Lemma filter_nil {A} (p : A → bool) l : List.filter p l = [] ↔ ∀ x, x ∈ l → p x = false.
Proof.
  induction l as [|x l IH]; simpl; [split; [by intros _ x ?%not_elem_of_nil|done]|].
  setoid_rewrite elem_of_cons. destruct (p x) eqn:E; [|rewrite IH; naive_solver].
  split; [done|]. intros Hall. rewrite Hall in E by auto. done.
Qed.

(** Every page of the directory is referenced or listed. *)
Definition pages_accounted (alerts : list alert) (whitelist : list string) : Prop :=
  is_dir RUNBOOK_DIR = true → ∀ page, page ∈ iterdir RUNBOOK_DIR →
    is_file (RUNBOOK_DIR +:+ "/" +:+ page) = true → path_suffix page = ".md" →
    page ∈ whitelist ∨ ∃ a, a ∈ alerts ∧ refers_to a page.

Lemma orphans_nil doc alerts whitelist : iter_alerts doc = Ok alerts → Forall alert_complete alerts →
  find_orphan_runbooks doc RUNBOOK_DIR whitelist = Ok [] ↔ pages_accounted alerts whitelist.
Proof.
  intros Ea Hc. unfold find_orphan_runbooks, pages_accounted. rewrite Ea.
  destruct (is_dir RUNBOOK_DIR); simpl; [|by split; [intros _ ?|]].
  assert (∃ ts, rmap alert_target alerts = Ok ts ∧
    ∀ page, page ∈ path_name <$> omap id ts ↔ ∃ a, a ∈ alerts ∧ refers_to a page) as (ts & -> & Hts).
  { clear Ea. induction Hc as [|a l Ha _ (ts & Et & Hts)].
    - exists []. split; [done|]. intros page. split; [by intros ?%not_elem_of_nil|by intros (a & ?%not_elem_of_nil & _)].
    - destruct Ha as (url & sm & Eu & Hne & _). pose proof (alert_target_url a url Eu Hne) as Ha.
      exists (Some (resolve_runbook_target url) :: ts). simpl. rewrite Ha. simpl. rewrite Et. split; [done|].
      intros page. simpl. rewrite elem_of_cons, Hts. setoid_rewrite elem_of_cons. unfold refers_to. split.
      + intros [->|(b & Hb & Hr)]; [exists a; split; [by left|by exists url]|]. exists b. split; [by right|done].
      + intros (b & [->|Hb] & u & Eb & Hu & Hp); [|right; eauto 6]. left. rewrite Eu in Eb. by simplify_eq. }
  simpl. split.
  - intros [= E] _ page Hp Hf Hs. rewrite filter_nil in E. specialize (E page).
    rewrite merge_sort_Permutation in E. specialize (E Hp). rewrite Hf, Hs in E. simpl in E.
    apply andb_false_iff in E as [E|E]; apply negb_false_iff, in_list_true in E; [by left|right; by apply Hts].
  - intros Hall. f_equal. apply filter_nil. intros page. rewrite merge_sort_Permutation. intros Hp.
    destruct (is_file _) eqn:Ef; [|done]. destruct (str_eqb (path_suffix page) ".md") eqn:Es; [|done]. simpl.
    apply str_eqb_eq in Es. apply andb_false_iff. destruct (Hall eq_refl page Hp Ef Es) as [Hw|Hr]; [left|right];
      apply negb_false_iff, in_list_true; [done|by apply Hts].
Qed.
Lemma runbook_main_zero : runbook_main = Ok 0%Z ↔ runbook_check = Ok [].
Proof. unfold runbook_main. destruct runbook_check as [[|]|]; simpl; naive_solver. Qed.
End Runbooks.

(** The runbook guard is exact: it exits with 0 just when the rules file has alert
    groups, every alert names an existing page with the four sections and a
    summary, and every page of the runbook directory is named by an alert or on the
    whitelist. *)
Theorem runbook_check_exact `{Files} `{Yaml} `{PyFloat} :
  let doc := or_else (Some (safe_load (read_text RULES_PATH))) (JObj []) in
  runbook_main = Ok 0%Z ↔
  is_file RULES_PATH = true ∧ (∃ gs, yget "groups" doc = Ok (Some gs) ∧ truthy gs = true) ∧
  ∃ alerts whitelist, iter_alerts doc = Ok alerts ∧ load_orphan_whitelist = Ok whitelist ∧
    (∀ a, a ∈ alerts → alert_complete a) ∧ pages_accounted alerts whitelist.
Proof.
  intros doc. rewrite runbook_main_zero. unfold runbook_check. fold doc. destruct (is_file RULES_PATH); simpl; [|naive_solver].
  destruct (yget "groups" doc) as [[gs|]|]; simpl; [|naive_solver..].
  destruct (truthy gs) eqn:Hg; simpl;
    [|split; [done|intros (_ & (g & [= <-] & Ht) & _); congruence]]. split.
  - intros E. split; [done|]. split; [by exists gs|].
    destruct (iter_alerts doc) as [alerts|] eqn:Ea; [|done]. simpl in E.
    destruct (rmap alert_errors alerts) as [errs|] eqn:Ee; [|done]. simpl in E.
    destruct load_orphan_whitelist as [wl|]; [|done]. simpl in E.
    destruct (find_orphan_runbooks doc RUNBOOK_DIR wl) as [orphans|] eqn:Eo; [|done]. simpl in E.
    injection E as [E1 E2%fmap_nil_inv]%concat_nil_app. subst orphans.
    assert (∀ a, a ∈ alerts → alert_complete a) as Hall.
    { intros a Ha. apply alert_errors_nil. revert a Ha. apply rmap_concat_nil. by exists errs. }
    exists alerts, wl. split_and!; try done. eapply orphans_nil; [done|by apply Forall_forall|done].
  - intros (_ & _ & alerts & wl & Ea & -> & Hall & Hpages). rewrite Ea. simpl.
    destruct (proj2 (rmap_concat_nil alert_errors alerts)) as (errs & -> & Hc);
      [intros a Ha; by apply alert_errors_nil, Hall|]. simpl.
    apply (orphans_nil doc alerts wl) in Hpages as ->; [|done|by apply Forall_forall].
    simpl. by rewrite Hc.
Qed.
