(* ===== verification/CiGuards.v ===== *)
(** [scripts/check_slm_pinning.py], [scripts/check_no_todo_fixme.py] and
    [scripts/verify_slm_manifest.py]. *)
From S2P Require Import Prelude PyStr PyDict Templates Regex Json JsonText Errors Models World Samples Ingest Slm Guards.
Local Open Scope nat_scope.

(** A literal in a pattern with [re.IGNORECASE]. *)
Definition chr_ci (c : ascii) : ascii → bool := λ d, ascii_eqb (to_lower c) (to_lower d).
Fixpoint word_ci (s : string) : regex :=
  match s with "" => [] | String c s' => one (chr_ci c) :: word_ci s' end.

(** [s.endswith(t)]. *)
Definition endswith (s t : string) : bool :=
  (len t <=? len s) && str_eqb (drop_str (len s - len t) s) t.

Definition numbered {A} (l : list A) : list (nat * A) := zip (seq 1 (length l)) l.
(** The lines of a text on which [p] holds, with their numbers. *)
Definition hits (p : string → bool) (text : string) : list (nat * string) :=
  List.filter (λ nl, p nl.2) (numbered (splitlines text)).
Lemma hits_nil p text : hits p text = [] ↔ ∀ line, line ∈ splitlines text → p line = false.
Proof.
  unfold hits, numbered. rewrite filter_nil. split.
  - intros Hall line (i & Hi)%list_elem_of_lookup. apply (Hall (1 + i, line)).
    apply list_elem_of_lookup_2 with i. apply lookup_zip_with_Some. exists (1 + i), line. split_and!; [done| |done].
    apply lookup_seq. split; [lia|]. by apply lookup_lt_Some in Hi.
  - intros Hall [n line] Hin. apply elem_of_zip_r in Hin. by apply Hall.
Qed.

(** * [check_slm_pinning.py] *)
Definition WEIGHT_MANIFEST : string := "config/slm/qwen2.5-7b-instruct/manifest.sha256".
Definition GPU_DOCKERFILE : string := "infra/compose/gpu-profile/Dockerfile.vllm".
Definition COMPOSE_FILE : string := "infra/compose/docker-compose.yaml".
Definition WORKFLOWS_DIR : string := ".github/workflows".
(** [@sha256:[0-9a-f]{64}]. *)
Definition DIGEST_PATTERN : regex :=
  word_of "@sha256:" ++ [Rep (λ c, is_digit c || chars "abcdef" c) 64 (Some 64)].
(** [SLM_PROFILE\s*[:=]\s*["']?dev_default["']?] with [re.IGNORECASE]. *)
Definition quote_char (c : ascii) : bool := ascii_eqb c dquote || ascii_eqb c "'".
Definition DEV_DEFAULT_PATTERN : regex :=
  word_ci "SLM_PROFILE" ++ [Rep is_space 0 None; one (chars ":="); Rep is_space 0 None; maybe quote_char] ++
  word_ci "dev_default" ++ [maybe quote_char].

Section Pinning.
Context `{Files}.

Definition check_weight_manifest : list string :=
  if negb (is_file WEIGHT_MANIFEST) then ["weight manifest missing at " +:+ WEIGHT_MANIFEST]
  else if negb (nonempty (strip (read_text WEIGHT_MANIFEST)))
  then ["weight manifest is empty at " +:+ WEIGHT_MANIFEST] else [].
Definition check_gpu_dockerfile : list string :=
  if negb (is_file GPU_DOCKERFILE) then ["gpu Dockerfile missing at " +:+ GPU_DOCKERFILE]
  else if negb (search_re DIGEST_PATTERN (read_text GPU_DOCKERFILE))
  then [GPU_DOCKERFILE +:+ ": no vLLM image digest pin found (expected an @sha256:<hex> reference per ADR-0002)"]
  else [].
Definition check_no_dev_default (path : string) : list string :=
  if negb (is_file path) then [] else
  (λ nl, path +:+ ":" +:+ str_of_Z (Z.of_nat nl.1) +:+
    ": SLM_PROFILE=dev_default is forbidden outside local foundation smoke (ADR-0006 + Constitution Principle XIV)")
  <$> hits (search_re DEV_DEFAULT_PATTERN) (read_text path).
(** [sorted(dir.glob("*" + ext))]. *)
Definition glob (dir ext : string) : list string :=
  (λ n, dir +:+ "/" +:+ n) <$> merge_sort str_le (List.filter (λ n, endswith n ext) (iterdir dir)).
Definition pinning_check : list string :=
  check_weight_manifest ++ check_gpu_dockerfile ++ check_no_dev_default COMPOSE_FILE ++
  if is_dir WORKFLOWS_DIR
  then concat (check_no_dev_default <$> glob WORKFLOWS_DIR ".yaml" ++ glob WORKFLOWS_DIR ".yml") else [].
Definition pinning_main : Z := match pinning_check with [] => 0%Z | _ => 1%Z end.

(** The files in which the development profile is looked for. *)
Definition guarded_file (path : string) : Prop :=
  path = COMPOSE_FILE ∨
  is_dir WORKFLOWS_DIR = true ∧ ∃ n, n ∈ iterdir WORKFLOWS_DIR ∧
    (endswith n ".yaml" = true ∨ endswith n ".yml" = true) ∧ path = WORKFLOWS_DIR +:+ "/" +:+ n.

Lemma dev_default_nil path : check_no_dev_default path = [] ↔
  (is_file path = true → ∀ line, line ∈ splitlines (read_text path) → search_re DEV_DEFAULT_PATTERN line = false).
Proof.
  unfold check_no_dev_default. destruct (is_file path); simpl; [|done].
  rewrite <- hits_nil. split; [intros E%fmap_nil_inv; by intros _|by intros ->].
Qed.
Lemma elem_of_glob path dir ext : path ∈ glob dir ext ↔
  ∃ n, n ∈ iterdir dir ∧ endswith n ext = true ∧ path = dir +:+ "/" +:+ n.
Proof.
  unfold glob. rewrite list_elem_of_fmap. setoid_rewrite merge_sort_Permutation.
  setoid_rewrite list_elem_of_In. setoid_rewrite filter_In. naive_solver.
Qed.
Lemma concat_map_nil {A B} (f : A → list B) l : concat (f <$> l) = [] ↔ ∀ x, x ∈ l → f x = [].
Proof.
  induction l as [|x l IH]; [by split; [intros _ x ?%not_elem_of_nil|]|].
  rewrite fmap_cons. simpl. setoid_rewrite elem_of_cons. split.
  - intros [Hx Hl]%app_eq_nil y [->|Hy]; [done|]. by apply IH.
  - intros Hall. rewrite (Hall x) by auto. apply IH. auto.
Qed.
Lemma app_nil {A} (a b : list A) : a ++ b = [] ↔ a = [] ∧ b = [].
Proof. split; [apply app_eq_nil|by intros [-> ->]]. Qed.
End Pinning.

(** The pinning guard is exact: it exits with 0 just when the weight manifest is there
    and not blank, the GPU image is pinned by digest, and no line of the compose
    file or of a workflow sets the development profile. *)
Theorem pinning_check_exact `{Files} :
  pinning_main = 0%Z ↔
  (is_file WEIGHT_MANIFEST = true ∧ strip (read_text WEIGHT_MANIFEST) ≠ "") ∧
  (is_file GPU_DOCKERFILE = true ∧ search_re DIGEST_PATTERN (read_text GPU_DOCKERFILE) = true) ∧
  ∀ path, guarded_file path → is_file path = true →
    ∀ line, line ∈ splitlines (read_text path) → search_re DEV_DEFAULT_PATTERN line = false.
Proof.
  transitivity (pinning_check = []); [unfold pinning_main; by destruct pinning_check|].
  unfold pinning_check. rewrite !app_nil.
  assert (check_weight_manifest = [] ↔ is_file WEIGHT_MANIFEST = true ∧ strip (read_text WEIGHT_MANIFEST) ≠ "") as ->.
  { unfold check_weight_manifest. destruct (is_file _); simpl; [|naive_solver].
    rewrite <- nonempty_true. destruct (nonempty _); simpl; naive_solver. }
  assert (check_gpu_dockerfile = [] ↔ is_file GPU_DOCKERFILE = true ∧
    search_re DIGEST_PATTERN (read_text GPU_DOCKERFILE) = true) as ->.
  { unfold check_gpu_dockerfile. destruct (is_file _); simpl; [|naive_solver].
    destruct (search_re _ _); simpl; naive_solver. }
  assert (check_no_dev_default COMPOSE_FILE = [] ∧ (if is_dir WORKFLOWS_DIR
           then concat (check_no_dev_default <$> glob WORKFLOWS_DIR ".yaml" ++ glob WORKFLOWS_DIR ".yml")
           else []) = [] ↔ ∀ path, guarded_file path → check_no_dev_default path = []) as ->.
  { unfold guarded_file. destruct (is_dir WORKFLOWS_DIR).
    - rewrite concat_map_nil. setoid_rewrite elem_of_app. setoid_rewrite elem_of_glob. split.
      + intros [Hc Hw] path [->|(_ & n & Hn & [He|He] & ->)]; [done|apply Hw; eauto 6..].
      + intros Hall. split; [apply Hall; by left|].
        intros path [(n & Hn & He & ->)|(n & Hn & He & ->)]; apply Hall; right; eauto 7.
    - split; [intros [Hc _] path [->|[? _]]; done|]. intros Hall. split; [apply Hall; by left|done]. }
  by setoid_rewrite dev_default_nil.
Qed.

(** * [check_no_todo_fixme.py] *)
Definition MARKERS : list string := ["TODO"; "FIXME"; "XXX"; "@todo"].
(** [\b(TODO|FIXME|XXX|@todo)\b] with [re.IGNORECASE]. *)
Definition has_marker (line : string) : bool :=
  existsb (λ w, search_re (Bound :: word_ci w ++ [Bound]) line) MARKERS.
Definition INCLUDE_SUFFIXES : list string :=
  [".py"; ".sql"; ".yaml"; ".yml"; ".toml"; ".sh"; ".dockerfile"; ".tf"].
Definition EXCLUDE_PREFIXES : list string :=
  [".git/"; ".hypothesis/"; ".mypy_cache/"; ".ruff_cache/"; ".pytest_cache/"; ".specify/"; ".claude/"; "docs/";
   "specs/"; "models/"; "node_modules/"; "build/"; "dist/"; "scripts/check_no_todo_fixme.py";
   ".pre-commit-config.yaml"].
(** [_VENV_HINT]: some part of the path starts with [venv] or [.venv]. *)
Definition venv_hint (rel : string) : bool :=
  existsb (λ p, startswith p "venv" || startswith p ".venv") (split_on "/" rel).
(** [_excluded]. *)
Definition excluded (rel : string) : bool :=
  existsb (startswith rel) EXCLUDE_PREFIXES || contains "__pycache__" rel || venv_hint rel.
Definition scanned (rel : string) : bool :=
  negb (excluded rel) &&
  (in_list (lower (path_suffix (path_name rel))) INCLUDE_SUFFIXES ||
   in_list (path_name rel) ["Dockerfile"; "Makefile"]).

Section Markers.
(** What [rglob] yields, and the text of a file that decodes. *)
Context `{Files} (rglob : list string) (decoded : string → option string).
Definition file_violations (rel : string) : list string :=
  if is_file rel && scanned rel then
    match decoded rel with
    | None => []
    | Some text => (λ nl, rel +:+ ":" +:+ str_of_Z (Z.of_nat nl.1) +:+ ": " +:+ strip nl.2) <$> hits has_marker text
    end
  else [].
(** [main]: the violations and the exit code. *)
Definition marker_violations : list string := concat (file_violations <$> rglob).
Definition marker_main : Z := match marker_violations with [] => 0%Z | _ => 1%Z end.

(** The guard exits with 0 just when no line of a scanned file carries a marker. *)
Theorem marker_main_exact : marker_main = 0%Z ↔
  ∀ rel text line, rel ∈ rglob → is_file rel = true → scanned rel = true → decoded rel = Some text →
    line ∈ splitlines text → has_marker line = false.
Proof.
  transitivity (marker_violations = []). { unfold marker_main. by destruct marker_violations. }
  unfold marker_violations. rewrite concat_map_nil. unfold file_violations. split.
  - intros Hall rel text line Hr Hf Hs Hd. specialize (Hall rel Hr). rewrite Hf, Hs, Hd in Hall.
    apply fmap_nil_inv in Hall. revert line. by apply hits_nil.
  - intros Hall rel Hr. destruct (is_file rel) eqn:Hf; [|done]. destruct (scanned rel) eqn:Hs; [|done]. simpl.
    destruct (decoded rel) as [text|] eqn:Hd; [|done].
    rewrite (proj2 (hits_nil has_marker text)); [done|]. intros line. by eapply Hall.
Qed.
End Markers.

(** * [verify_slm_manifest.py] *)
Section Manifest.
(** The bytes of the file at a path under the weights root, if it exists. *)
Context `{Sha256} (artifact : string → option string).

(** [line.split(maxsplit=1)], on two fields. *)
Definition split_entry (line : string) : option (string * string) :=
  let '(expected, rest) := span (λ c, negb (is_space c)) (lstrip line) in
  let relative := lstrip rest in
  if nonempty expected && nonempty relative then Some (expected, relative) else None.
Definition is_skipped (line : string) : bool := negb (nonempty line) || startswith line "#".
(** Whether a line of the manifest counts as a failure. *)
Definition line_fails (raw : string) : bool :=
  let line := strip raw in
  if is_skipped line then false else
  match split_entry line with
  | None => true
  | Some (expected, relative) =>
      match artifact (strip relative) with
      | None => true
      | Some bytes => negb (str_eqb (hex (sha256 bytes)) expected)
      end
  end.
(** [main], on the text of the manifest, if it exists. *)
Definition failures (text : string) : nat := length (List.filter line_fails (splitlines text)).
Definition manifest_main (manifest : option string) : Z :=
  match manifest with
  | None => 1%Z
  | Some text => if failures text =? 0 then 0%Z else 1%Z
  end.
End Manifest.

(** Weights pass verification only if they are the pinned ones: the script exits
    with 0 just when the manifest exists and each of its lines is blank, a comment,
    or names an artifact that is there and whose SHA-256 is the one written. *)
Theorem manifest_main_exact `{Sha256} (artifact : string → option string) (manifest : option string) :
  manifest_main artifact manifest = 0%Z ↔
  ∃ text, manifest = Some text ∧ ∀ raw, raw ∈ splitlines text →
    is_skipped (strip raw) = true ∨
    ∃ expected relative bytes, split_entry (strip raw) = Some (expected, relative) ∧
      artifact (strip relative) = Some bytes ∧ hex (sha256 bytes) = expected.
Proof.
  assert (∀ raw, line_fails artifact raw = false ↔ is_skipped (strip raw) = true ∨
    ∃ expected relative bytes, split_entry (strip raw) = Some (expected, relative) ∧
      artifact (strip relative) = Some bytes ∧ hex (sha256 bytes) = expected) as Hline.
  { intros raw. unfold line_fails. destruct (is_skipped (strip raw)); [by split; [left|]|].
    destruct (split_entry (strip raw)) as [[expected relative]|] eqn:Es; [|naive_solver].
    destruct (artifact (strip relative)) as [bytes|] eqn:Ea; [|naive_solver].
    rewrite negb_false_iff, str_eqb_eq. naive_solver. }
  unfold manifest_main, failures. destruct manifest as [text|]; [|naive_solver].
  destruct (Nat.eqb_spec (length (List.filter (line_fails artifact) (splitlines text))) 0) as [E|E].
  - apply nil_length_inv in E. rewrite filter_nil in E. split; [|done]. intros _. exists text. split; [done|].
    intros raw Hr. by apply Hline, E.
  - split; [done|]. intros (t & [= <-] & Hall). destruct E. apply length_zero_iff_nil. rewrite filter_nil.
    intros raw Hr. by apply Hline, Hall.
Qed.
