(* ===== verification/Artifacts.v ===== *)
(** The scripts around the model artifacts and the secret scan:
    [scripts/build_qwen_gguf.py], [scripts/fetch_qwen2.5_weights.py] and
    [scripts/check_secrets.py], and what the manifests written by the build and by the
    vocabulary script mean to [scripts/verify_slm_manifest.py].  The programs they start
    are parameters. *)
From S2P Require Import Prelude PyStr PyDict Templates Regex Json JsonText Errors Models World Samples Ingest Slm Validator VssFetch Guards CiGuards.
Local Open Scope Z_scope.

(** * [_sha256_file] *)
(** The loop that reads a file in chunks; a hash object is the bytes it was fed. *)
Section Sha256File.
Context `{Sha256}.
Fixpoint sha256_chunks (fuel chunk_size : nat) (rest fed : string) : option string :=
  match fuel with
  | O => None
  | S fuel' =>
      let chunk := take_str chunk_size rest in
      if nonempty chunk then sha256_chunks fuel' chunk_size (drop_str chunk_size rest) (fed +:+ chunk)
      else Some (hex (sha256 fed))
  end.
(** One round per chunk and one for the empty read: the length of the file is enough. *)
Definition sha256_file (chunk_size : nat) (content : string) : option string :=
  sha256_chunks (S (len content)) chunk_size content "".

Lemma sha256_chunks_whole fuel chunk_size rest fed : (0 < chunk_size)%nat → (len rest < fuel)%nat →
  sha256_chunks fuel chunk_size rest fed = Some (hex (sha256 (fed +:+ rest))).
Proof.
  intros Hc. revert rest fed. induction fuel as [|fuel IH]; intros rest fed Hf; [lia|]. cbn [sha256_chunks].
  destruct rest as [|a rest].
  - destruct chunk_size; [lia|]. simpl. by rewrite str_app_nil_r.
  - destruct chunk_size as [|n]; [lia|].
    assert (take_str (S n) (String a rest) = String a (take_str n rest)) as Et by done.
    rewrite Et. cbn [nonempty str_eqb String.eqb negb drop_str].
    pose proof (Regex.take_drop n rest) as Htd.
    rewrite IH.
    + rewrite str_app_assoc. sapp. by rewrite Htd.
    + simpl in Hf. assert (len rest = (len (take_str n rest) + len (drop_str n rest))%nat) by
        (rewrite <- Htd at 1; apply str_length_app). lia.
Qed.
End Sha256File.

(** Hashing a file in chunks of any positive size ends, and gives the digest of the whole
    file. *)
Theorem sha256_file_whole `{Sha256} (chunk_size : nat) (content : string) : (0 < chunk_size)%nat →
  sha256_file chunk_size content = Some (hex (sha256 content)).
Proof. intros Hc. unfold sha256_file. rewrite sha256_chunks_whole by (done || lia). by sapp. Qed.

(** * Manifest lines *)
(** What [f"{sha}  {name}"] prints. *)
Definition entry_line (digest name : string) : string := digest +:+ "  " +:+ name.
(** A text that can be a digest, and a name that survives a manifest: it does not begin or
    end with white space and stays on its line. *)
Definition digest_text (d : string) : Prop :=
  nonempty d = true ∧ sall (λ c, negb (is_space c)) d = true ∧ startswith d "#" = false.
Definition tidy (name : string) : Prop := nonempty name = true ∧ strip name = name ∧ sall (λ c, negb (is_line_break c)) name = true.

Lemma lstrip_len t : (len (lstrip t) ≤ len t)%nat.
Proof. induction t as [|b t IH]; [done|]. simpl. destruct (is_space b); simpl; lia. Qed.
Lemma rstrip_by_len p t : (len (rstrip_by p t) ≤ len t)%nat.
Proof. induction t as [|b t IH]; [done|]. simpl. destruct (rstrip_by p t); [destruct (p b)|]; simpl in *; lia. Qed.
Lemma rstrip_by_app p s t : rstrip_by p t ≠ "" → rstrip_by p (s +:+ t) = s +:+ rstrip_by p t.
Proof.
  intros Ht. induction s as [|a s IH]; [done|]. sapp. cbn [rstrip_by]. rewrite IH.
  destruct (s +:+ rstrip_by p t) eqn:E; [|done]. by destruct s.
Qed.
Lemma tidy_parts name : tidy name → ∃ a s, name = String a s ∧ is_space a = false ∧ rstrip_by is_space name = name.
Proof.
  intros (Hn & Hs & _). destruct name as [|a s]; [done|]. exists a, s. unfold strip in Hs. cbn [lstrip] in Hs.
  destruct (is_space a) eqn:Ea; [|done]. exfalso.
  pose proof (rstrip_by_len is_space (lstrip s)) as Hl. rewrite Hs in Hl. pose proof (lstrip_len s). simpl in Hl. lia.
Qed.
Lemma digest_parts d : digest_text d → ∃ a s, d = String a s ∧ is_space a = false ∧ a ≠ "#"%char.
Proof.
  intros (Hn & Hs & Hp). destruct d as [|a s]; [done|]. exists a, s. simpl in Hs. apply andb_true_iff in Hs as [Ha _].
  split_and!; [done|by apply negb_true_iff|]. intros ->. by destruct s.
Qed.
Lemma entry_stripped d name : digest_text d → tidy name → strip (entry_line d name) = entry_line d name.
Proof.
  intros (a & s & -> & Ha & _)%digest_parts (b & t & -> & Hb & Hr)%tidy_parts. unfold strip, entry_line.
  sapp. cbn [lstrip]. rewrite Ha.
  change (String a (s +:+ String " " (String " " (String b t)))) with (String a s +:+ "  " +:+ String b t).
  rewrite <- str_app_assoc. rewrite rstrip_by_app; rewrite Hr; done.
Qed.
Lemma entry_split d name : digest_text d → tidy name → split_entry (entry_line d name) = Some (d, name).
Proof.
  intros Hd Hn. destruct (tidy_parts name Hn) as (b & t & -> & Hb & _).
  destruct (digest_parts d Hd) as (a & s & -> & Ha & _). destruct Hd as (_ & Hs & _).
  unfold split_entry, entry_line. cbn [lstrip String.append]. sapp. cbn [lstrip]. rewrite Ha.
  change (String a (s +:+ String " " (String " " (String b t)))) with (String a s +:+ String " " (String " " (String b t))).
  rewrite (span_stop_app _ (String a s) " " (String " " (String b t))) by done. cbn. by rewrite Hb.
Qed.

Section Lines.
Context `{Sha256} (artifact : string → option string).
(** A line of a manifest is verified just when the artifact is there with that digest. *)
Lemma entry_fails d name : digest_text d → tidy name →
  line_fails artifact (entry_line d name) = false ↔ ∃ bytes, artifact name = Some bytes ∧ hex (sha256 bytes) = d.
Proof.
  intros Hd Hn. unfold line_fails. rewrite (entry_stripped d name Hd Hn).
  assert (is_skipped (entry_line d name) = false) as ->.
  { destruct (digest_parts d Hd) as (a & s & -> & _ & Ha). unfold is_skipped, entry_line, startswith. sapp.
    cbn [nonempty str_eqb String.eqb negb orb String.prefix]. destruct (ascii_dec "#" a); [congruence|done]. }
  rewrite (entry_split d name Hd Hn). destruct Hn as (_ & -> & _).
  destruct (artifact name) as [bytes|]; [|naive_solver]. rewrite negb_false_iff, str_eqb_eq. naive_solver.
Qed.
Lemma comment_passes s : line_fails artifact ("# " +:+ s) = false.
Proof.
  unfold line_fails, strip. sapp. cbn [lstrip]. change (is_space "#") with false.
  assert (∀ t, ∃ u, rstrip_by is_space (String "#" t) = String "#" u) as Hr.
  { intros t. cbn [rstrip_by]. destruct (rstrip_by is_space t); by eexists. }
  destruct (Hr (String " " s)) as [u Hu]. rewrite Hu. by destruct u.
Qed.
End Lines.

Lemma hex_char_ok k : (k < 16)%nat → negb (is_space (hex_char k)) = true ∧ hex_char k ≠ "#"%char.
Proof. intros Hk. do 16 (destruct k as [|k]; [by vm_compute|]). lia. Qed.
Lemma code_digits c : (code c / 16 < 16)%nat ∧ (code c mod 16 < 16)%nat.
Proof.
  split; [|apply Nat.mod_upper_bound; lia]. apply Nat.Div0.div_lt_upper_bound. pose proof (nat_ascii_bounded c). unfold code. lia.
Qed.
Lemma hex_digest s : s ≠ "" → digest_text (hex s).
Proof.
  intros Hs. split; [by destruct s|]. split.
  - clear Hs. induction s as [|c s IH]; [done|]. cbn [hex sall]. destruct (code_digits c) as [H1 H2].
    rewrite (proj1 (hex_char_ok _ H1)), (proj1 (hex_char_ok _ H2)). done.
  - destruct s as [|c s]; [done|]. cbn [hex]. unfold startswith. cbn [String.prefix].
    destruct (ascii_dec "#" _) as [E|]; [|done]. destruct (code_digits c) as [H1 _].
    destruct (hex_char_ok _ H1) as (_ & Hne). congruence.
Qed.

(** The lines of a text that was joined from lines. *)
Lemma splitlines_line acc l rest : sall (λ c, negb (is_line_break c)) l = true →
  splitlines_acc acc false (l +:+ String newline rest) = (acc +:+ l) :: splitlines_acc "" false rest.
Proof.
  revert acc. induction l as [|c l IH]; intros acc Hl; sapp; [by rewrite str_app_nil_r|].
  simpl in Hl. apply andb_true_iff in Hl as [Hc Hl]. apply negb_true_iff in Hc. cbn [splitlines_acc andb]. rewrite Hc.
  rewrite IH by done. rewrite str_app_assoc. by sapp.
Qed.
Lemma splitlines_join ls : ls ≠ [] → Forall (λ l, sall (λ c, negb (is_line_break c)) l = true) ls →
  splitlines (join (String newline "") ls +:+ String newline "") = ls.
Proof.
  intros Hne Hall. unfold splitlines. induction Hall as [|l ls Hl Hall IH]; [done|]. destruct ls as [|l' ls].
  - change (join (String newline "") [l]) with l. by rewrite splitlines_line.
  - rewrite join_cons, !str_app_assoc. sapp. rewrite splitlines_line by done. sapp. by rewrite IH.
Qed.

Lemma manifest_passes `{Sha256} artifact text :
  manifest_main artifact (Some text) = 0 ↔ Forall (λ raw, line_fails artifact raw = false) (splitlines text).
Proof.
  unfold manifest_main, failures. rewrite Forall_forall.
  destruct (Nat.eqb_spec (length (List.filter (line_fails artifact) (splitlines text))) 0) as [E|E].
  - apply nil_length_inv in E. rewrite filter_nil in E. done.
  - split; [done|]. intros Hall. destruct E. apply length_zero_iff_nil. by rewrite filter_nil.
Qed.

(** * The manifest of the vocabulary script *)
Section VssManifest.
Context `{PyFloat} `{VssTools} `{Sha256Laws}.

Lemma download_all_inv names fs blobs fs' : download_all names fs = (Ok blobs, fs') → fs' = fs ∧ blobs.*1 = names.
Proof.
  revert fs blobs fs'. induction names as [|a names IH]; intros fs blobs fs' E; cbn [download_all] in E; [by injection E as <- <-|].
  apply bind_inv_ok in E as (data & fs1 & E1 & E). unfold download, lift in E1. injection E1 as _ <-.
  apply bind_inv_ok in E as (rest & fs2 & E2 & E). apply IH in E2 as [-> <-]. by injection E as <- <-.
Qed.
Lemma write_all_blobs out_dir fs (blobs : list (string * string)) : NoDup (dkeys blobs) →
  ∃ fs', for_each blobs (λ b, write (out_dir +:+ "/" +:+ b.1) b.2) fs = (Ok tt, fs') ∧
    (∀ a d, (a, d) ∈ blobs → dget (out_dir +:+ "/" +:+ a) fs' = Some d).
Proof.
  revert fs. induction blobs as [|[a d] blobs IH]; intros fs Hn; [exists fs; split; [done|set_solver]|].
  apply NoDup_cons in Hn as [Ha Hn]. cbn [for_each]. erewrite bind_ok by reflexivity. cbn [fst snd].
  destruct (IH (dset (out_dir +:+ "/" +:+ a) d fs) Hn) as (fs' & Ef & Hf).
  destruct (write_others out_dir a (dset (out_dir +:+ "/" +:+ a) d fs) blobs Ha) as (fs1 & E1 & Hd1).
  assert (fs1 = fs') as -> by congruence. exists fs'. split; [done|]. intros a' d' [[= -> ->]|Hin]%elem_of_cons.
  - rewrite Hd1. apply dget_dset_eq.
  - by apply Hf.
Qed.
(** What a run that ends with 0 leaves on disk. *)
Lemma main_leaves out_dir fs fs' : main out_dir fs = (Ok 0, fs') →
  ∃ blobs, blobs.*1 = ASSETS ∧ (∀ a d, (a, d) ∈ blobs → dget (out_dir +:+ "/" +:+ a) fs' = Some d) ∧
    dget (out_dir +:+ "/manifest.sha256") fs' = Some (manifest_text blobs).
Proof.
  unfold main. intros E. apply bind_inv_ok in E as (blobs & fs0 & [-> Hb]%download_all_inv & E).
  destruct (loads _) as [tree|]; [|done]. apply bind_inv_ok in E as (v & fs1 & E1 & E). unfold lift in E1. injection E1 as _ <-.
  destruct v as [vehicle|]; [|done]. apply bind_inv_ok in E as (signals & fs2 & E2 & E). injection E2 as _ <-.
  do 3 (erewrite bind_ok in E by reflexivity).
  assert (NoDup (dkeys blobs)) as Hn by (unfold dkeys; rewrite Hb; by apply (bool_decide_unpack _)).
  match type of E with (for_each _ _ ;; _) ?fs3 = _ =>
    destruct (write_all_blobs out_dir fs3 blobs Hn) as (fs4 & Ef & Hf);
    destruct (write_others out_dir "manifest.sha256" fs3 blobs) as (fs5 & E5 & H5) end.
  { unfold dkeys. rewrite Hb. apply (bool_decide_unpack _). by vm_compute. }
  assert (fs5 = fs4) as -> by congruence. erewrite bind_ok in E by exact Ef. injection E as <-.
  exists blobs. split_and!; [done|done|].
  change (out_dir +:+ "/manifest.sha256") with (out_dir +:+ "/" +:+ "manifest.sha256"). rewrite H5.
  rewrite dget_dset_ne by (intros Ha%String.app_inj; done). apply dget_dset_eq.
Qed.

Lemma asset_tidy a : a ∈ ASSETS → tidy a.
Proof.
  intros Ha. repeat (apply elem_of_cons in Ha as [->|Ha]; [by vm_compute|]). by apply not_elem_of_nil in Ha.
Qed.
Lemma not_space_breaks d : sall (λ c, negb (is_space c)) d = true → sall (λ c, negb (is_line_break c)) d = true.
Proof.
  induction d as [|c d IH]; [done|]. simpl. rewrite !andb_true_iff. intros [Hc Hd]. split; [|by apply IH].
  revert Hc. clear. destruct c as [[] [] [] [] [] [] [] []]; by vm_compute.
Qed.
(** The manifest of any blobs under tidy names verifies just the directories that hold
    them unchanged, up to the digest. *)
Lemma manifest_verifies (blobs : list (string * string)) artifact : (∀ b, sha256_bytes b = hex (sha256 b)) →
  Forall (λ b, tidy b.1) blobs →
  manifest_main artifact (Some (manifest_text blobs)) = 0 ↔
  ∀ a d, (a, d) ∈ blobs → ∃ bytes, artifact a = Some bytes ∧ hex (sha256 bytes) = hex (sha256 d).
Proof.
  intros Hsha Htidy. rewrite manifest_passes. unfold manifest_text.
  assert (∀ d, digest_text (hex (sha256 d))) as Hdig
    by (intros d; apply hex_digest; intros E; pose proof (sha256_length d) as Hl; by rewrite E in Hl).
  rewrite splitlines_join; [|done|].
  - rewrite Forall_app. split.
    + intros [_ Hall] a d Hin. rewrite Forall_fmap, Forall_forall in Hall. specialize (Hall (a, d) Hin). simpl in Hall.
      rewrite Hsha in Hall. rewrite Forall_forall in Htidy. by apply entry_fails in Hall; [|apply Hdig|apply (Htidy (a, d))].
    + intros Hall. split; [repeat constructor; apply comment_passes|]. rewrite Forall_fmap. apply Forall_forall. intros [a d] Hin.
      simpl. rewrite Hsha. rewrite Forall_forall in Htidy. apply entry_fails; [apply Hdig|by apply (Htidy (a, d))|by apply Hall].
  - rewrite Forall_app. split; [repeat constructor; by vm_compute|]. rewrite Forall_fmap. eapply Forall_impl; [exact Htidy|].
    intros [a d] (_ & _ & Ha). simpl in *. rewrite Hsha, !sall_app, Ha. rewrite not_space_breaks; [done|]. apply Hdig.
Qed.
End VssManifest.

(** The file at a relative path below the output directory. *)
Definition on_disk (out_dir : string) (files : list (string * string)) (rel : string) : option string :=
  dget (out_dir +:+ "/" +:+ rel) files.

(** C34. What the vocabulary script fetched can be verified: after a run that ends with exit
    code 0, the manifest verifier accepts the directory under the manifest the script
    wrote; and it accepts any later state of the directory just when every downloaded
    asset is still there with its digest, so a missing or altered asset is reported. *)
Theorem fetched_manifest_verifies `{PyFloat} `{VssTools} `{Sha256Laws} (out_dir : string) (fs fs' : list (string * string)) :
  (∀ b, sha256_bytes b = hex (sha256 b)) → main out_dir fs = (Ok 0, fs') →
  let manifest := on_disk out_dir fs' "manifest.sha256" in
  manifest_main (on_disk out_dir fs') manifest = 0 ∧
  ∀ later, manifest_main (on_disk out_dir later) manifest = 0 ↔
    ∀ a, a ∈ ASSETS → ∃ d bytes, on_disk out_dir fs' a = Some d ∧ on_disk out_dir later a = Some bytes ∧
      hex (sha256 bytes) = hex (sha256 d).
Proof.
  intros Hsha (blobs & Hb & Hf & Hm)%main_leaves manifest.
  assert (manifest = Some (manifest_text blobs)) as -> by exact Hm.
  assert (Forall (λ b : string * string, tidy b.1) blobs) as Htidy.
  { apply (proj1 (Forall_fmap fst tidy blobs)). rewrite Hb. apply Forall_forall, asset_tidy. }
  split.
  - apply manifest_verifies; [done..|]. intros a d Hin. exists d. split; [by apply Hf|done].
  - intros later. rewrite manifest_verifies by done. split.
    + intros Hall a Ha. rewrite <- Hb in Ha. apply list_elem_of_fmap in Ha as ([a' d] & -> & Hin).
      destruct (Hall a' d Hin) as (bytes & ? & ?). exists d, bytes. split_and!; [by apply Hf|done..].
    + intros Hall a d Hin. destruct (Hall a) as (d' & bytes & Hd & Hl & Hh).
      { rewrite <- Hb. by apply (list_elem_of_fmap_2 fst) in Hin. }
      exists bytes. split; [done|]. unfold on_disk in Hd. rewrite (Hf a d Hin) in Hd. by injection Hd as ->.
Qed.

Module ArtifactSamples.
#[local] Instance floats : PyFloat := Samples.floats.
#[local] Instance tools : VssTools := {|
  urlopen url := Ok (VssSamples.blob (drop_str (len VSS_RELEASE_BASE + 1) url));
  sha256_bytes s := hex (sha256 (Sha256 := IngestSamples.sha) s); yaml_dump := canonical; yaml_load := loads |}.
Definition fetched : list (string * string) :=
  (main (H := Samples.floats) (H0 := tools) "config" []).2.
End ArtifactSamples.
Lemma fetched_manifest_verifies_witness :
  manifest_main (H := IngestSamples.sha) (on_disk "config" ArtifactSamples.fetched)
    (on_disk "config" ArtifactSamples.fetched "manifest.sha256") = 0.
Proof.
  apply (proj1 (fetched_manifest_verifies (H := Samples.floats) (H0 := ArtifactSamples.tools) (H1 := IngestSamples.sha)
    "config" [] ArtifactSamples.fetched (λ b, eq_refl) ltac:(vm_compute; reflexivity))).
Defined.

(** * [build_qwen_gguf.py] *)
#[local] Arguments manifest_main : simpl never.
Section Build.
Context `{Sha256}.
Definition CHUNK : nat := Z.to_nat (Z.shiftl 1 20).

(** The paths are as [Path] prints them; [converter] is what the converter leaves in the
    output file, or the [CalledProcessError]; the state is standard output. *)
Definition say (s : string) : prog exn (list string) unit := modify (λ out, out ++ [s]).
Definition convert_command (llama_cpp_bin source out : string) : list string :=
  ["python"; llama_cpp_bin; source; "--outfile"; out; "--outtype"; "q4_k_m"].
Definition build_main (source_exists : bool) (converter : list string → result exn string)
    (source out llama_cpp_bin : string) : prog exn (list string) Z :=
  if negb source_exists then mret 1 else
  let cmd := convert_command llama_cpp_bin source out in
  say ("running: " +:+ join " " cmd);;
  bytes ← lift (converter cmd);
  match sha256_file CHUNK bytes with
  | Some sha => say (entry_line sha (path_name out));; mret 0
  | None => raise (EOther "out of fuel")
  end.
End Build.

(** The line the build prints is a manifest of the artifact: a build ends with exit code 0
    just when the source is there and the converter succeeds, and the line it then prints
    last verifies a directory just when the artifact is there with the digest of what the
    converter wrote. *)
Theorem built_line_verifies `{Sha256Laws} (source_exists : bool) (converter : list string → result exn string)
    (source out llama_cpp_bin : string) (artifact : string → option string) :
  tidy (path_name out) →
  let '(r, printed) := build_main source_exists converter source out llama_cpp_bin [] in
  let cmd := convert_command llama_cpp_bin source out in
  (r = Ok 0 ↔ source_exists = true ∧ ∃ bytes, converter cmd = Ok bytes) ∧
  ∀ bytes, r = Ok 0 → converter cmd = Ok bytes →
    ∃ line, last printed = Some line ∧
      (manifest_main artifact (Some (line +:+ String newline "")) = 0 ↔
       ∃ b, artifact (path_name out) = Some b ∧ hex (sha256 b) = hex (sha256 bytes)).
Proof.
  intros Ht. unfold build_main. destruct source_exists; simpl; [|by split; [split; [done|intros [? _]]|]].
  unfold say. run_prog. destruct (converter _) as [bytes|e] eqn:Ec; simpl;
    [|split; [split; [done|intros (_ & ? & ?); done]|done]].
  rewrite sha256_file_whole by (apply Nat.ltb_lt; by vm_compute). simpl. split; [split; [eauto|done]|].
  intros ? _ [= <-]. eexists. split; [reflexivity|]. rewrite manifest_passes.
  assert (digest_text (hex (sha256 bytes))) as Hd by
    (apply hex_digest; intros E; pose proof (sha256_length bytes) as Hl; by rewrite E in Hl).
  assert (splitlines (entry_line (hex (sha256 bytes)) (path_name out) +:+ String newline "") =
    [entry_line (hex (sha256 bytes)) (path_name out)]) as ->.
  2: { rewrite Forall_singleton. by apply entry_fails. }
  apply (splitlines_join [entry_line _ _]); [done|].
  apply Forall_singleton. unfold entry_line. rewrite !sall_app. destruct Ht as (_ & _ & ->).
  rewrite not_space_breaks; [done|apply Hd].
Qed.
Lemma built_line_verifies_witness :
  let '(r, printed) := build_main (H := IngestSamples.sha) true (λ _, Ok "weights") "models/qwen" "out/q4.gguf" "convert.py" [] in
  r = Ok 0 ∧ ∃ line, last printed = Some line ∧
    manifest_main (H := IngestSamples.sha) (λ rel, if str_eqb rel "q4.gguf" then Some "weights" else None)
      (Some (line +:+ String newline "")) = 0.
Proof.
  pose proof (built_line_verifies (H := IngestSamples.sha) true (λ _, Ok "weights") "models/qwen" "out/q4.gguf" "convert.py"
    (λ rel, if str_eqb rel "q4.gguf" then Some "weights" else None) ltac:(vm_compute; split_and!; reflexivity)) as Hb.
  destruct (build_main _ _ _ _ _ _) as [r printed]. destruct Hb as [Hr Hl].
  assert (r = Ok 0) as Hok by (apply Hr; split; [reflexivity|by exists "weights"]).
  split; [exact Hok|]. destruct (Hl "weights" Hok eq_refl) as (line & El & Hv). exists line. split; [exact El|].
  apply Hv. exists "weights". split; reflexivity.
Defined.

(** * [fetch_qwen2.5_weights.py] *)
Definition QWEN_REPO : string := "Qwen/Qwen2.5-7B-Instruct".
Definition ALLOW_PATTERNS : list string :=
  ["*.safetensors"; "tokenizer*"; "*.json"; "config.json"; "generation_config.json"].
(** The state is the directories made; [snapshot_download] is [None] when the package is not
    installed. *)
Definition fetch_weights `{PyFloat} (snapshot_download : option (string → string → string → list string → result exn unit))
    (revision cache : string) : prog exn (list string) Z :=
  if negb (len revision =? 40)%nat
  then raise (EOther ("revision must be a 40-char SHA, got " +:+ py_repr (JStr revision)))
  else
    modify (λ dirs, dirs ++ [cache]);;
    match snapshot_download with
    | None => raise (EOther "huggingface_hub is required for actual weight downloads; install it before running this script in a build context.")
    | Some download => lift (download QWEN_REPO revision cache ALLOW_PATTERNS);; mret 0
    end.

(** * [check_secrets.py] *)
Section Secrets.
(** Where gitleaks is, whether the allowlist is a file, and the exit code of a command. *)
Context (which : option string) (allowlist_is_file : bool) (subprocess_run : list string → Z) (root : string).
Definition gitleaks_command (binary : string) (argv : list string) : list string :=
  [binary; "detect"; "--source"; root; "--no-banner"; "--redact"; "--verbose"] ++
  (if allowlist_is_file then ["--config"; root +:+ "/.gitleaks.toml"] else []) ++ argv.
(** [main]; [sys_argv] is [sys.argv[1:]]. *)
Definition secrets_main (argv : option (list string)) (sys_argv : list string) : Z :=
  let args := match argv with Some (x :: l) => x :: l | _ => sys_argv end in
  match which with
  | None => 2
  | Some binary => if subprocess_run (gitleaks_command binary args) =? 0 then 0 else 1
  end.
End Secrets.

(** The secret scan passes only on gitleaks' word, and never prints a secret: the script
    exits with 0 just when gitleaks is installed and exits with 0 itself, with 2 just when
    it is not installed, and every command it runs asks for redaction. *)
Theorem secrets_exit_exact (which : option string) (allowlist : bool) (run : list string → Z) (root : string)
    (argv : option (list string)) (sys_argv : list string) :
  let code := secrets_main which allowlist run root argv sys_argv in
  (code = 0 ↔ ∃ binary args, which = Some binary ∧ run (gitleaks_command allowlist root binary args) = 0 ∧
     args = match argv with Some (x :: l) => x :: l | _ => sys_argv end) ∧
  (code = 2 ↔ which = None) ∧ (code = 0 ∨ code = 1 ∨ code = 2) ∧
  ∀ binary args, "--redact" ∈ gitleaks_command allowlist root binary args.
Proof.
  unfold secrets_main. set (args := match argv with Some (x :: l) => x :: l | _ => sys_argv end).
  destruct which as [binary|]; simpl.
  - destruct (Z.eqb_spec (run (gitleaks_command allowlist root binary args)) 0); split_and!; try naive_solver.
    all: intros; unfold gitleaks_command; set_solver.
  - split_and!; [naive_solver|done|tauto|]. intros; unfold gitleaks_command; set_solver.
Qed.
