(* ===== verification/PiiGuard.v ===== *)
(** [scripts/check_log_pii.py], which tries the log processor and the declared metric
    labels, and [observability/dashboard_provisioner.py], which compares a dashboard
    with the declared metrics. *)
From S2P Require Import Prelude PyStr PyDict Templates Regex Json JsonText Logging Errors Models World Metrics Samples Ingest Slm Guards.
Local Open Scope nat_scope.

(** * Metric names as the client library keeps them *)
(** [prometheus_client] drops a final [_total] from a counter's name. *)
Definition strip_total (s : string) : string :=
  if str_eqb (drop_str (len s - 6) s) "_total" then take_str (len s - 6) s else s.
Definition prom_name (d : decl) : string :=
  match d_kind d with Counter => strip_total (d_series d) | _ => d_series d end.

(** * [check_log_pii.py] *)
Definition PII_FIXTURES : list (string * string) :=
  [("contact: support@example.com please respond", "support@example.com");
   ("call us at +1 202 555 0100 today", "+1 202 555 0100");
   ("coords 47.6062, -122.3321 captured", "47.6062");
   ("ssn 123-45-6789 on file", "123-45-6789")].
Definition PRESERVE_FIXTURES : list (string * string) :=
  [("tenant_id", "tenant-a"); ("correlation_id", "cid-abc-123"); ("policy_id", "policy-2026-05-11-001");
   ("vehicle_id", "VIN-1HGCM82633A123456"); ("endpoint", "POST /api/v1/findings")].
Definition PII_LABEL_FRAGMENTS : list string :=
  ["email"; "phone"; "ssn"; "personal_"; "address"; "geolocation"].

(** What the guard reports; the wording of the messages is left out. *)
Inductive pii_error :=
| Survived (leak input : string) (output : json)
| Overstripped (key expected : string) (actual : json)
| PiiLabel (metric label fragment : string).

Section LogPii.
Context `{PyFloat}.
(** [check_pii_processor_strips_known_patterns]. *)
Definition check_strips : list pii_error :=
  omap (λ '(input, leak),
    let processed := JObj (pii_processor [("event", JStr "synthetic"); ("value", JStr input)]) in
    if contains leak (py_str processed) then Some (Survived leak input processed) else None) PII_FIXTURES.
(** [check_pii_processor_preserves_non_pii]. *)
Definition check_preserves : list pii_error :=
  let processed := pii_processor (("event", JStr "policy_generated") ::
    ((λ kv, (kv.1, JStr kv.2)) <$> PRESERVE_FIXTURES)) in
  omap (λ '(key, expected),
    let actual := default JNull (dget key processed) in
    if json_eqb actual (JStr expected) then None else Some (Overstripped key expected actual)) PRESERVE_FIXTURES.
(** [check_metric_label_names_bounded]. *)
Definition label_errors (d : decl) (label : string) : list pii_error :=
  PiiLabel (prom_name d) label <$> List.filter (λ fragment, contains fragment (lower label)) PII_LABEL_FRAGMENTS.
Definition check_labels (metrics : list decl) : list pii_error :=
  concat ((λ d, concat (label_errors d <$> d_labels d)) <$>
    List.filter (λ d, startswith (prom_name d) "collectmind_") metrics).
(** [check]. *)
Definition log_pii_check : list pii_error := check_strips ++ check_preserves ++ check_labels METRICS.
Definition log_pii_main : Z := match log_pii_check with [] => 0%Z | _ => 1%Z end.

(** The gate passes on the processor and the metrics as they are. *)
Theorem log_pii_check_passes : log_pii_check = [] ∧ log_pii_main = 0%Z.
Proof. split; vm_compute; reflexivity. Qed.
End LogPii.

(** * [dashboard_provisioner.py] *)
Definition SUFFIXES : list string := [""; "_total"; "_created"; "_bucket"; "_sum"; "_count"].
(** [declared_metric_names]. *)
Definition declared_metric_names : list string :=
  concat ((λ d, (λ suffix, prom_name d +:+ suffix) <$> SUFFIXES) <$>
    List.filter (λ d, startswith (prom_name d) "collectmind_") METRICS).

(** [pattern.findall(s)] for patterns that match no empty text. *)
Fixpoint findall_fuel (fuel : nat) (r : regex) (prev : option ascii) (s : string) : list string :=
  match fuel, s with
  | S n, String c s' =>
      match rmatch r prev s with
      | Some (S k) => take_str (S k) s :: findall_fuel n r (prev_after prev (take_str (S k) s)) (drop_str (S k) s)
      | _ => findall_fuel n r (Some c) s'
      end
  | _, _ => []
  end.
Definition findall (r : regex) (s : string) : list string := findall_fuel (len s) r None s.
(** [\b[a-z][a-z0-9_]*\b]. *)
Definition METRIC_REF : regex :=
  [Bound; one is_lower; Rep (λ c, is_lower c || is_digit c || ascii_eqb c "_") 0 None; Bound].
Definition expr_refs (expr : string) : list string :=
  List.filter (λ t, startswith t "collectmind_") (findall METRIC_REF expr).
(** [referenced_metric_names]. *)
Definition target_refs (target : json) : R (list string) :=
  expr ← yget "expr" target;
  Ok (match expr with Some (JStr s) => expr_refs s | _ => [] end).
Definition referenced_metric_names (targets : list json) : R (list string) :=
  refs ← rmap target_refs targets;
  Ok (remove_dups (concat refs)).
(** [validate_dashboard], on the parsed document. *)
Definition panel_errors `{PyFloat} (panel : json) : R (list string) :=
  targets ← yget "targets" panel;
  ts ← yiter (default (JArr []) targets);
  refs ← referenced_metric_names ts;
  id ← yget "id" panel;
  Ok ((λ ref, "panel " +:+ py_str (default JNull id) +:+ " references undeclared metric " +:+ ref)
    <$> List.filter (λ ref, negb (in_list ref declared_metric_names)) refs).
Definition validate_dashboard `{PyFloat} (doc : json) : R (list string) :=
  panels ← yget "panels" doc;
  ps ← yiter (default (JArr []) panels);
  errors ← rmap panel_errors ps;
  Ok (concat errors).

(** * The dashboard of the repository *)
(** The panels of [observability/grafana/dashboards/collectmind-end-to-end.json]:
    their ids and expressions. *)
Definition dashboard_panels : list (Z * list string) := [
  (1%Z, ["sum(rate(collectmind_diagnostic_findings_received_total[1m]))"]);
  (2%Z, ["sum(rate(collectmind_diagnostic_findings_received_total[1m]))"; "sum(rate(collectmind_policy_generated_total[1m]))"; "sum(rate(collectmind_policy_validated_total[1m]))"; "sum(rate(collectmind_policy_deployed_total[1m]))"; "sum by (state) (rate(collectmind_policy_outcome_total[1m]))"]);
  (3%Z, ["sum(rate(collectmind_policy_validated_total[5m])) / clamp_min(sum(rate(collectmind_policy_generated_total[5m])), 1)"]);
  (4%Z, ["histogram_quantile(0.50, sum(rate(collectmind_time_to_deploy_seconds_bucket[5m])) by (le))"; "histogram_quantile(0.95, sum(rate(collectmind_time_to_deploy_seconds_bucket[5m])) by (le))"; "histogram_quantile(0.99, sum(rate(collectmind_time_to_deploy_seconds_bucket[5m])) by (le))"]);
  (5%Z, [("sum(rate(collectmind_policy_outcome_total{state=" +:+ String dquote ("confirmed" +:+ String dquote ("}[15m])) / clamp_min(sum(rate(collectmind_policy_outcome_total[15m])), 1)")))]);
  (6%Z, ["sum(collectmind_dead_letter_queue_depth)"]);
  (7%Z, ["sum(rate(collectmind_policy_retry_total[5m]))"]);
  (8%Z, ["sum(rate(collectmind_authentication_failure_total[5m]))"]);
  (9%Z, ["histogram_quantile(0.95, sum(rate(collectmind_slm_generation_latency_seconds_bucket[5m])) by (le))"]);
  (10%Z, ["sum(rate(collectmind_slm_constraint_violation_total[5m]))"]);
  (11%Z, ["sum by (sha) (collectmind_slm_weight_sha_active)"]);
  (12%Z, ["sum by (digest, runtime) (collectmind_slm_runtime_image_digest_active)"]);
  (13%Z, ["histogram_quantile(0.95, sum by (route, le) (rate(collectmind_query_request_latency_seconds_bucket[5m])))"]);
  (14%Z, ["histogram_quantile(0.95, sum(rate(collectmind_policy_outcome_write_delay_seconds_bucket[15m])) by (le))"]);
  (15%Z, ["sum by (operator_subject) (rate(collectmind_break_glass_invocation_total[5m]))"]);
  (16%Z, ["sum by (reason) (rate(collectmind_deployment_rejected_total[5m]))"]);
  (17%Z, ["sum by (endpoint) (rate(collectmind_cross_tenant_access_attempt_total[5m]))"]);
  (18%Z, ["sum by (tenant_id, decision) (rate(collectmind_ratelimit_decision_total[5m]))"])].
Definition dashboard_doc : json :=
  JObj [("panels", JArr ((λ p, JObj [("id", JInt p.1);
    ("targets", JArr ((λ e, JObj [("expr", JStr e)]) <$> p.2))]) <$> dashboard_panels))].
(** Every series it shows is declared. *)
Theorem dashboard_valid `{PyFloat} : validate_dashboard dashboard_doc = Ok [].
Proof. vm_compute. reflexivity. Qed.
