(* ===== verification/Webhook.v ===== *)
(** [scripts/local_webhook.py]: the webhook receiver of the integration tests, with
    its bounded buffer.  A request's body is its decoded text. *)
From S2P Require Import Prelude PyStr PyDict Json JsonText Errors Samples.
Local Open Scope nat_scope.

Definition BUFFER_SIZE : nat := 1000.
(** [deque(maxlen=_BUFFER_SIZE).append]: the oldest entry makes room. *)
Definition append_bounded (x : json) (l : list json) : list json :=
  if length l <? BUFFER_SIZE then l ++ [x] else drop 1 (l ++ [x]).

Inductive hook_request := HGet (path : string) | HDelete (path : string) | HPost (path body : string).
Definition not_found (path : string) : Z * json :=
  (404%Z, JObj [("error", JStr "not_found"); ("path", JStr path)]).

Section Handler.
Context `{PyFloat} (decode_error : string → string).

(** [do_GET], [do_DELETE] and [do_POST]: the answer and the buffer afterwards. *)
Definition hook_handle (rq : hook_request) (buffer : list json) : (Z * json) * list json :=
  match rq with
  | HGet path =>
      if str_eqb path "/healthz" then ((200%Z, JObj [("status", JStr "ok")]), buffer)
      else if str_eqb path "/captured" then ((200%Z, JArr buffer), buffer)
      else (not_found path, buffer)
  | HDelete path =>
      if str_eqb path "/captured" then ((200%Z, JArr buffer), []) else (not_found path, buffer)
  | HPost path body =>
      if negb (str_eqb path "/webhook") then (not_found path, buffer) else
      match (if nonempty body then loads body else Some (JObj [])) with
      | None => ((400%Z, JObj [("error", JStr "invalid_json"); ("detail", JStr (decode_error body))]), buffer)
      | Some envelope => ((200%Z, JObj [("received", JInt 1)]), append_bounded envelope buffer)
      end
  end.
(** [_write_json]: the status, the headers and the payload sent for an answer. *)
Definition write_json (answer : Z * json) : Z * list (string * string) * string :=
  let payload := dumps answer.2 in
  (answer.1, [("Content-Type", "application/json"); ("Content-Length", str_of_Z (Z.of_nat (String.length payload)))],
   payload).
Fixpoint hook_run (rqs : list hook_request) (buffer : list json) : list json :=
  match rqs with [] => buffer | rq :: rqs' => hook_run rqs' (hook_handle rq buffer).2 end.

(** ** The unbounded receiver it approximates: every envelope since the last drain *)
Definition history_step (rq : hook_request) (h : list json) : list json :=
  match rq with
  | HDelete path => if str_eqb path "/captured" then [] else h
  | HPost path body =>
      if str_eqb path "/webhook" then
        match (if nonempty body then loads body else Some (JObj [])) with Some e => h ++ [e] | None => h end
      else h
  | HGet _ => h
  end.
Definition history (rqs : list hook_request) : list json := foldl (λ h rq, history_step rq h) [] rqs.
Definition last_n {A} (n : nat) (l : list A) : list A := drop (length l - n) l.

Lemma append_last_n x h : append_bounded x (last_n BUFFER_SIZE h) = last_n BUFFER_SIZE (h ++ [x]).
Proof.
  unfold append_bounded, last_n. rewrite length_drop, length_app. simpl length.
  destruct (Nat.ltb_spec (length h - (length h - BUFFER_SIZE)) BUFFER_SIZE) as [Hlt|Hge].
  - replace (length h - BUFFER_SIZE) with 0 by lia. replace (length h + 1 - BUFFER_SIZE) with 0 by lia. done.
  - assert (BUFFER_SIZE ≤ length h) by lia.
    replace (length h + 1 - BUFFER_SIZE) with (length h - BUFFER_SIZE + 1) by lia.
    rewrite <- drop_drop. f_equal. rewrite drop_app_le by lia. done.
Qed.
Lemma hook_step_refines rq h : (hook_handle rq (last_n BUFFER_SIZE h)).2 = last_n BUFFER_SIZE (history_step rq h).
Proof.
  destruct rq as [path|path|path body]; simpl.
  - by repeat case_match.
  - by repeat case_match.
  - destruct (str_eqb path "/webhook"); simpl; [|done].
    destruct (if nonempty body then loads body else Some (JObj [])) as [e|]; simpl; [apply append_last_n|done].
Qed.
Lemma hook_run_refines rqs h :
  hook_run rqs (last_n BUFFER_SIZE h) = last_n BUFFER_SIZE (foldl (λ h rq, history_step rq h) h rqs).
Proof.
  revert h. induction rqs as [|rq rqs IH]; intros h; [done|]. cbn [hook_run foldl].
  by rewrite hook_step_refines, IH.
Qed.
End Handler.

(** The receiver refines the unbounded one: after any sequence of requests it
    holds the latest thousand envelopes posted since the last drain, in order, so
    it loses none as long as fewer than that arrive between drains, and its buffer
    never grows beyond that. *)
Theorem webhook_refines `{PyFloat} (decode_error : string → string) (rqs : list hook_request) :
  hook_run decode_error rqs [] = last_n BUFFER_SIZE (history rqs) ∧
  length (hook_run decode_error rqs []) ≤ BUFFER_SIZE ∧
  (length (history rqs) ≤ BUFFER_SIZE → hook_run decode_error rqs [] = history rqs).
Proof.
  assert (hook_run decode_error rqs [] = last_n BUFFER_SIZE (history rqs)) as ->
    by exact (hook_run_refines decode_error rqs []).
  unfold last_n. split_and!; [done|rewrite length_drop; lia|]. intros Hle.
  by replace (length (history rqs) - BUFFER_SIZE) with 0 by lia.
Qed.
