(* ===== verification/FindingSimulator.v ===== *)
(** [simulators/diagnostic_finding_generator.py]: the synthetic findings, checked
    against the finding model they are meant for. *)
From S2P Require Import Prelude PyStr PyDict Json JsonText PyTime Errors Models World Samples PyVal Feedback Graph Slm.
Local Open Scope Z_scope.

(** The characters of a string that satisfy a test. *)
Fixpoint string_filter (p : ascii → bool) (s : string) : string :=
  match s with "" => "" | String c s' => if p c then String c (string_filter p s') else string_filter p s' end.

Section Generator.
Context `{Env}.

(** [f"{i:03d}"]. *)
Definition pad3 (i : nat) : string :=
  let s := str_of_Z (Z.of_nat i) in
  if (len s <? 2)%nat then "00" +:+ s else if (len s <? 3)%nat then "0" +:+ s else s.
(** [uuid.uuid4().hex], dashes removed. *)
Definition uuid_hex : M string := u ← new_id; mret (string_filter (λ c, negb (ascii_eqb c "-")) u).

(** [brake_wear_finding]. *)
Definition brake_wear_finding (finding_id : option string) (vehicle_count : nat)
    (upstream_confidence : option Q) : M (list (string * json)) :=
  confidence ← match upstream_confidence with Some q => mret q | None => uniform (6 # 10) (9 # 10) end;
  fid ← match finding_id with
        | Some s => if nonempty s then mret s else (h ← uuid_hex; mret ("F-sim-" +:+ take_str 8 h))
        | None => h ← uuid_hex; mret ("F-sim-" +:+ take_str 8 h)
        end;
  t ← now;
  mret [("schema_version", JStr "1.0.0"); ("finding_id", JStr fid);
        ("anomaly_type", JStr "brake_wear_early_stage"); ("hypothesis_class", JStr "brake_wear");
        ("hypothesis_statement", JStr "rotor temperature excursions correlated with mileage");
        ("candidate_signals", JArr [JStr "Vehicle.Chassis.Brake.PadWear";
           JStr "Vehicle.Powertrain.CombustionEngine.EngineOilTemperature"]);
        ("vehicle_scope", JArr ((λ i, JStr ("VIN-sim-" +:+ pad3 i)) <$> seq 0 vehicle_count));
        ("upstream_confidence", JFloat (py_round3 confidence));
        ("_simulator_emitted_at", JStr (isoformat t))].
End Generator.

(** Every payload the generator makes is refused by the finding model, because of
    the field it adds. *)
Theorem simulated_finding_refused `{Env} `{Pydantic} (fid : option string) (n : nat) (c : option Q)
    (w w' : world) (o : list (string * json)) :
  brake_wear_finding fid n c w = (Ok o, w') →
  ∃ es, validate_finding (JObj o) = Raise es ∧ (["_simulator_emitted_at"], "extra_forbidden") ∈ es.
Proof.
  intros E. apply model_extra; [|set_solver].
  unfold brake_wear_finding in E. do 3 (apply bind_inv_ok in E as (? & ? & _ & E)). injection E as <- _.
  simpl. set_solver.
Qed.

(** It is the only objection: without the field the payload is accepted. *)
Example simulated_finding_otherwise_valid :
  let r := (brake_wear_finding (H := Samples.env) None 3 (Some (3 # 4)) Samples.start).1 in
  match r with
  | Ok o => validate_finding (H := GraphSamples.pydantic) (JObj o) =
      Raise [(["_simulator_emitted_at"], "extra_forbidden")] ∧
      match validate_finding (H := GraphSamples.pydantic) (JObj (dpop "_simulator_emitted_at" o)) with
      | Ok f => f_vehicle_scope f = ["VIN-sim-000"; "VIN-sim-001"; "VIN-sim-002"]
      | Raise _ => False
      end
  | Raise _ => False
  end.
Proof. vm_compute. split; reflexivity. Qed.
