(* ===== verification/Erasure.v ===== *)
(** [erasure/]: the erasure endpoint and the dispatcher that erases or redacts
    the stores one by one. *)
From S2P Require Import Prelude PyStr PyDict Json JsonText PyTime Errors TokenBucket Models World Samples Database Isolation PyVal AuditLog Auth Http.
Local Open Scope Z_scope.

(** * The statements *)
Definition set_scope (j : json) (r : policy_row) : policy_row :=
  PolicyRow (po_tenant_id r) (po_policy_id r) (po_version r) (po_signal_spec r)
    (po_trigger_conditions r) (po_collection_window_hours_logical r) j (po_hypothesis_statement r)
    (po_data_governance_flags r) (po_confidence_threshold r) (po_generated_from_session_id r)
    (po_originating_finding r) (po_prompt_template_version r) (po_slm_repo r)
    (po_slm_revision_sha r) (po_slm_runtime r) (po_slm_runtime_version r) (po_slm_quantization r)
    (po_slm_decoding_seed r) (po_payload_signature r) (po_signature_key_id r) (po_created_at r).
Definition set_originating (j : json) (r : audit_row) : audit_row :=
  AuditRow (au_event_id r) (au_tenant_id r) (au_kind r) (Some j) (au_policy_ref r)
    (au_deployment_ref r) (au_outcome_ref r) (au_slm_repo r) (au_slm_revision_sha r)
    (au_slm_runtime r) (au_slm_runtime_version r) (au_slm_quantization r) (au_slm_decoding_seed r)
    (au_prompt_template_version r) (au_inbound_schema_version r) (au_time_acceleration_factor r)
    (au_principal_subject r) (au_correlation_id r) (au_occurred_at r).
Definition set_completion (status : string) (per_store : json) (t : Z) (r : erasure_row) : erasure_row :=
  ErasureRow (er_request_id r) (er_tenant_id r) (er_subject_kind r) (er_subject_identifier r)
    (er_requested_by r) (er_requested_at r) (er_target_completion_at r) status per_store
    (er_mode r) (Some t).

(** [SELECT jsonb_agg(elem) ... WHERE elem::text <> to_jsonb($2)::text]: NULL when
    no element is left. *)
Definition scope_without (vehicle : string) (scope : json) : option json :=
  match List.filter (λ e, negb (json_eqb e (JStr vehicle))) (items scope) with
  | [] => None
  | l => Some (JArr l)
  end.
(** [jsonb_set(COALESCE(j, '{}'), '{redacted_subject}', to_jsonb($2))], on an object. *)
Definition redacted (subject : string) (j : option json) : option json :=
  match default (JObj []) j with
  | JObj o => Some (JObj (dset "redacted_subject" (JStr subject) o))
  | _ => None
  end.
(** [j ->> k = v]. *)
Definition text_field_is (k v : string) (j : option json) : bool :=
  match j with Some j => jsonb_has k v j | None => false end.

Definition scope_matches (tenant_id vehicle : string) (r : policy_row) : bool :=
  str_eqb (po_tenant_id r) tenant_id && jsonb_elem vehicle (po_vehicle_scope r).
Definition redact_matches (tenant_id subject : string) (r : audit_row) : bool :=
  str_eqb (au_tenant_id r) tenant_id &&
  (text_field_is "finding_id" subject (au_originating_finding r) ||
   str_eqb (au_principal_subject r) subject).

(** The rows an UPDATE reaches. *)
Definition touched {R} `{Tenanted R} (c : conn) (p : R → bool) (rows : list R) : list R :=
  List.filter (λ r, rls_visible c (row_tenant r) && p r) rows.

Section Dispatcher.
Context `{Env} `{Pydantic} `{JwtLib}.

(** The UPDATE of [_erase_registry], with the immutability trigger and the NOT
    NULL constraint on [vehicle_scope]. *)
Definition update_scopes (c : conn) (tenant_id vehicle : string) : M unit :=
  rows ← gets (λ w, touched c (scope_matches tenant_id vehicle) (db_collection_policies (w_db w)));
  if bool_decide (rows = []) then mret tt
  else if mutation_rejected c then
    raise (EPg (RaiseException "collection_policies are immutable; mutation rejected"))
  else if existsb (λ r, bool_decide (scope_without vehicle (po_vehicle_scope r) = None)) rows
  then raise (EPg (NotNullViolation "vehicle_scope"))
  else modify (upd_db (upd_collection_policies (update_where c (scope_matches tenant_id vehicle)
    (λ r, set_scope (default JNull (scope_without vehicle (po_vehicle_scope r))) r)))).

(** [ErasureDispatcher._erase_registry]. *)
Definition erase_registry (tenant_id : string) (p : ErasureRequest) : M unit :=
  if negb (str_eqb (subject_kind p) "vehicle") then mret tt
  else acquire tenant_id (λ c,
    c ← set_erasure c;
    update_scopes c tenant_id (subject_identifier p)).

(** [ErasureDispatcher._erase_telemetry]. *)
Definition erase_telemetry (tenant_id : string) (p : ErasureRequest) : M unit :=
  if negb (str_eqb (subject_kind p) "vehicle") then mret tt
  else acquire tenant_id (λ c,
    modify (upd_db (upd_telemetry_observations (delete_where c
      (λ r, str_eqb (te_tenant_id r) tenant_id &&
            str_eqb (te_vehicle_id r) (subject_identifier p)))))).

(** The UPDATE of [_redact_audit]. *)
Definition redaction (subject : string) (r : audit_row) : audit_row :=
  set_originating (default JNull (redacted subject (au_originating_finding r))) r.
Definition redact_events (c : conn) (tenant_id subject : string) : M unit :=
  rows ← gets (λ w, touched c (redact_matches tenant_id subject) (db_audit_events (w_db w)));
  if bool_decide (rows = []) then mret tt
  else if mutation_rejected c then
    raise (EPg (RaiseException "collection_policies are immutable; mutation rejected"))
  else if existsb (λ r, bool_decide (redacted subject (au_originating_finding r) = None)) rows
  then raise (EPg (SqlError "cannot set path in scalar"))
  else modify (upd_db (upd_audit_events (update_where c (redact_matches tenant_id subject)
    (redaction subject)))).

(** [ErasureDispatcher._redact_audit]. *)
Definition redact_audit (tenant_id : string) (p : ErasureRequest) : M unit :=
  acquire tenant_id (λ c,
    c ← set_erasure c;
    redact_events c tenant_id (subject_identifier p)).

(** One [try ... except Exception] of [_dispatch]. *)
Definition store_status (m : M unit) (done : string) : M string :=
  catch (m;; mret done) (λ _, mret "failed").

(** [ErasureDispatcher._dispatch]. *)
Definition dispatch_erasure (tenant_id request_id : string) (p : ErasureRequest) : M unit :=
  registry ← store_status (erase_registry tenant_id p)
    (if str_eqb (Models.er_mode p) "erased" then "erased" else "redacted");
  telemetry ← store_status (erase_telemetry tenant_id p) "erased";
  audit ← store_status (redact_audit tenant_id p) "redacted";
  let per_store := JObj [("registry", JStr registry); ("telemetry", JStr telemetry);
                         ("audit", JStr audit)] in
  let status := if forallb (λ v, str_eqb v "erased" || str_eqb v "redacted")
                     [registry; telemetry; audit]
                then "completed" else "partial" in
  acquire tenant_id (λ c,
    t ← now;
    modify (upd_db (upd_erasure_requests (update_where c
      (λ r, str_eqb (er_request_id r) request_id) (set_completion status per_store t))))).

(** [ErasureDispatcher.submit]. *)
Definition submit (request_id tenant_id requested_by : string) (requested_at target : Z)
    (p : ErasureRequest) : M unit :=
  acquire tenant_id (λ c,
    insert_erasure c
      (ErasureRow request_id tenant_id (subject_kind p) (subject_identifier p) requested_by
        requested_at target "requested"
        (JObj [("registry", JStr "pending"); ("telemetry", JStr "pending"); ("audit", JStr "pending")])
        (Models.er_mode p) None));;
  write (event tenant_id "erasure" request_id requested_by);;
  spawn (TErase tenant_id request_id p).

Definition opt_time (o : option Z) : json :=
  match o with Some t => JStr (isoformat t) | None => JNull end.
(** The dict of [ErasureDispatcher.get]. *)
Definition erasure_record (r : erasure_row) : json :=
  JObj [ ("request_id", JStr (er_request_id r)); ("tenant_id", JStr (er_tenant_id r));
         ("subject_kind", JStr (er_subject_kind r));
         ("subject_identifier", JStr (er_subject_identifier r));
         ("requested_by", JStr (er_requested_by r));
         ("requested_at", JStr (isoformat (er_requested_at r)));
         ("target_completion_at", JStr (isoformat (er_target_completion_at r)));
         ("status", JStr (er_status r)); ("per_store_status", er_per_store_status r);
         ("mode", JStr (er_mode r)); ("completed_at", opt_time (er_completed_at r)) ].
(** [ErasureDispatcher.get]. *)
Definition get_erasure (tenant_id request_id : string) : M (option json) :=
  acquire tenant_id (λ c,
    rows ← select c db_erasure_requests
      (λ r, str_eqb (er_tenant_id r) tenant_id && str_eqb (er_request_id r) request_id);
    mret (erasure_record <$> head rows)).

(** * [erasure/api.py] *)
Definition DEFAULT_BOUND_DAYS : Z := 30.
(** The body of [submit_erasure_request], for an authenticated caller; a body
    FastAPI cannot validate is answered 422. *)
Definition accept_erasure (p : Principal) (rq : request) : M response :=
  payload ← match rq_body rq with
            | Ok body => match validate_erasure body with
                         | Ok x => mret x
                         | Raise es => raise (EHTTP 422 (JStr (pyd_str es)))
                         end
            | Raise _ => raise (EHTTP 422 (JStr "json_invalid"))
            end;
  request_id ← new_id;
  requested_at ← now;
  target ← datetime_add requested_at (DEFAULT_BOUND_DAYS * 86400000000);
  submit request_id (pr_tenant_id p) (pr_subject p) requested_at target payload;;
  mret (JSONResponse 202 (JObj [("request_id", JStr request_id);
                                ("target_completion_at", JStr (isoformat target))])).
(** [submit_erasure_request]. *)
Definition submit_erasure_request (rq : request) : M response :=
  p ← authenticated_principal (rq_credentials rq);
  accept_erasure p rq.
End Dispatcher.

(** * Facts *)
Section ErasureFacts.
Context `{Env}.

Lemma touched_nil {R} `{Tenanted R} c (p : R → bool) rows :
  touched c p rows = [] → ∀ r, r ∈ rows → rls_visible c (row_tenant r) && p r = false.
Proof.
  intros Ht r Hr. apply not_true_is_false. intros Hp.
  assert (In r (touched c p rows)) as Hin by (apply filter_In; by rewrite <- list_elem_of_In).
  by rewrite Ht in Hin.
Qed.

Lemma visible_tenant t g x : nonempty t = true →
  rls_visible (Conn TenantRole (Some t) g) x = str_eqb x t.
Proof. intros Hne. unfold rls_visible. simpl. by rewrite Hne. Qed.

(** No policy of the tenant names the vehicle. *)
Definition scope_clean (t v : string) (d : db) : Prop :=
  ∀ r, r ∈ db_collection_policies d → po_tenant_id r = t → jsonb_elem v (po_vehicle_scope r) = false.
Definition telemetry_clean (t v : string) (d : db) : Prop :=
  ∀ r, r ∈ db_telemetry_observations d → te_tenant_id r = t → te_vehicle_id r ≠ v.

Lemma scope_without_clean v scope j : scope_without v scope = Some j → jsonb_elem v j = false.
Proof.
  unfold scope_without. destruct (List.filter _ _) as [|x l] eqn:E; [done|]. intros [= <-].
  apply not_true_is_false. rewrite jsonb_elem_true. intros Hin.
  rewrite <- E in Hin. apply list_elem_of_In, filter_In in Hin as [_ Hn].
  by rewrite (proj2 (json_eqb_eq _ _) eq_refl) in Hn.
Qed.

(** The three statements: what each changes, and what its success means. *)
Lemma update_scopes_ok t g v w w' : nonempty t = true →
  update_scopes (Conn TenantRole (Some t) g) t v w = (Ok tt, w') →
  scope_clean t v (w_db w') ∧ ∃ f, w' = upd_db (upd_collection_policies f) w.
Proof.
  intros Hne. unfold update_scopes. run_prog. set (c := Conn TenantRole (Some t) g).
  assert (∀ r, rls_visible c (row_tenant r) = str_eqb (po_tenant_id r) t) as Hvis
    by (intros; by apply visible_tenant).
  case_bool_decide as Hno.
  - intros [= <-]. split; [|exists (λ l, l); by destruct w as [? []]].
    intros r Hr Ht. pose proof (touched_nil _ _ _ Hno r Hr) as Hf. rewrite Hvis in Hf.
    unfold scope_matches in Hf. by rewrite Ht, str_eqb_refl in Hf.
  - destruct (mutation_rejected c); [done|]. destruct (existsb _ _) eqn:Ex; [done|].
    intros [= <-]. split; [|by eexists]. simpl.
    intros r Hr Ht. apply list_elem_of_fmap in Hr as (r0 & -> & Hr0).
    destruct (rls_visible c (row_tenant r0) && scope_matches t v r0) eqn:Em.
    + simpl. destruct (scope_without v (po_vehicle_scope r0)) as [j|] eqn:Ej; [by eapply scope_without_clean|].
      exfalso. assert (existsb (λ r, bool_decide (scope_without v (po_vehicle_scope r) = None))
        (touched c (scope_matches t v) (db_collection_policies (w_db w))) = true) as Hx; [|congruence].
      apply existsb_exists. exists r0. split; [|by apply bool_decide_eq_true].
      apply filter_In. by rewrite <- list_elem_of_In.
    + rewrite Hvis in Em. unfold scope_matches in Em. by rewrite Ht, str_eqb_refl in Em.
Qed.

Lemma erase_registry_ok t p w w' : nonempty t = true → subject_kind p = "vehicle" →
  erase_registry t p w = (Ok tt, w') → scope_clean t (subject_identifier p) (w_db w').
Proof.
  intros Hne Hk. unfold erase_registry. rewrite Hk. simpl. intros [_ E]%acquire_ok.
  apply bind_inv_ok in E as (c & w1 & [= <- <-] & E). by apply update_scopes_ok in E as [? _].
Qed.
Lemma erase_telemetry_ok t p w w' : nonempty t = true → subject_kind p = "vehicle" →
  erase_telemetry t p w = (Ok tt, w') → telemetry_clean t (subject_identifier p) (w_db w').
Proof.
  intros Hne Hk. unfold erase_telemetry. rewrite Hk. simpl. intros [_ E]%acquire_ok.
  injection E as <-. simpl. intros r Hr Ht Hv.
  apply list_elem_of_In, filter_In in Hr as [_ Hn]. rewrite visible_tenant in Hn by done.
  change (row_tenant r) with (te_tenant_id r) in Hn. by rewrite Ht, Hv, !str_eqb_refl in Hn.
Qed.

(** A failed store step leaves the tables as they were. *)
Lemma acquire_raise {A} t (body : conn → M A) w e w' :
  acquire t body w = (Raise e, w') → w_db w' = w_db w.
Proof.
  unfold acquire. run_prog. destruct (w_pool w); [|by intros [= _ <-]]. unfold in_transaction.
  destruct (body _ w) as [[]]; intros; by simplify_eq.
Qed.

(** Which tables each step can change. *)
Lemma erase_registry_frame {B} (g : db → B) t p :
  (∀ f d, g (upd_collection_policies f d) = g d) → stable (λ w, g (w_db w)) (erase_registry t p).
Proof.
  intros Hg. unfold erase_registry, update_scopes, set_erasure. destruct (negb _); [apply stable_ret|].
  apply stable_acquire_table. intros c.
  repeat first [ apply stable_modify; intros ?; simpl; apply Hg | effects_step ].
Qed.
Lemma erase_telemetry_frame {B} (g : db → B) t p :
  (∀ f d, g (upd_telemetry_observations f d) = g d) → stable (λ w, g (w_db w)) (erase_telemetry t p).
Proof.
  intros Hg. unfold erase_telemetry. destruct (negb _); [apply stable_ret|].
  apply stable_acquire_table. intros c. apply stable_modify. intros w. apply Hg.
Qed.
Lemma redact_audit_frame {B} (g : db → B) t p :
  (∀ f d, g (upd_audit_events f d) = g d) → stable (λ w, g (w_db w)) (redact_audit t p).
Proof.
  intros Hg. unfold redact_audit, redact_events, set_erasure. apply stable_acquire_table. intros c.
  repeat first [ apply stable_modify; intros ?; simpl; apply Hg | effects_step ].
Qed.

Lemma store_status_run m d w : ∃ r w1, m w = (r, w1) ∧
  store_status m d w = (Ok (match r with Ok _ => d | Raise _ => "failed" end), w1).
Proof.
  unfold store_status, catch, mbind, prog_bind. destruct (m w) as [[[]|e] w1]; by eexists _, _.
Qed.

(** A dispatch that returned, step by step. *)
Lemma dispatch_steps t rid p w w' : dispatch_erasure t rid p w = (Ok tt, w') →
  ∃ r1 r2 r3 w1 w2 w3 status ps when,
    erase_registry t p w = (r1, w1) ∧ erase_telemetry t p w1 = (r2, w2) ∧
    redact_audit t p w2 = (r3, w3) ∧
    w_db w' = upd_erasure_requests (update_where (Conn TenantRole (Some t) (w_guc w3))
      (λ r, str_eqb (er_request_id r) rid) (set_completion status ps when)) (w_db w3) ∧
    (status = "completed" ↔ r1 = Ok tt ∧ r2 = Ok tt ∧ r3 = Ok tt) ∧
    (status = "completed" ∨ status = "partial").
Proof.
  unfold dispatch_erasure. intros E.
  destruct (store_status_run (erase_registry t p) (if str_eqb (Models.er_mode p) "erased" then "erased"
    else "redacted") w) as (r1 & w1 & H1 & S1).
  rewrite (bind_ok _ _ _ _ _ S1) in E.
  destruct (store_status_run (erase_telemetry t p) "erased" w1) as (r2 & w2 & H2 & S2).
  rewrite (bind_ok _ _ _ _ _ S2) in E.
  destruct (store_status_run (redact_audit t p) "redacted" w2) as (r3 & w3 & H3 & S3).
  rewrite (bind_ok _ _ _ _ _ S3) in E.
  apply acquire_ok in E as [_ E]. apply bind_inv_ok in E as (x & w4 & [= <- <-] & [= <-]).
  eexists r1, r2, r3, w1, w2, w3, _, _, _. split_and!; try done.
  - destruct r1 as [[]|], r2 as [[]|], r3 as [[]|], (str_eqb (Models.er_mode p) "erased"); simpl;
      (split; [intros E; try discriminate E; done | intros (? & ? & ?); done]).
  - match goal with |- (if ?b then _ else _) = _ ∨ _ => destruct b end; auto.
Qed.

(** The request row after the last step. *)
Lemma completion_row t g rid status ps when d r : nonempty t = true →
  r ∈ db_erasure_requests (upd_erasure_requests (update_where (Conn TenantRole (Some t) g)
    (λ r, str_eqb (er_request_id r) rid) (set_completion status ps when)) d) →
  er_tenant_id r = t → er_request_id r = rid → er_status r = status.
Proof.
  intros Hne Hr Ht Hid. apply list_elem_of_fmap in Hr as (r0 & -> & _).
  rewrite visible_tenant in * by done. unfold row_tenant, erasure_tenanted in *.
  destruct (str_eqb (er_tenant_id r0) t && str_eqb (er_request_id r0) rid) eqn:Em; [done|].
  by rewrite Ht, Hid, !str_eqb_refl in Em.
Qed.

(** What identifies a person or a finding in an audit row. *)
Definition identity_of (r : audit_row) : string * option json :=
  (au_principal_subject r, jget "finding_id" (default (JObj []) (au_originating_finding r))).

Lemma redaction_identity subject r :
  redacted subject (au_originating_finding r) ≠ None → identity_of (redaction subject r) = identity_of r.
Proof.
  unfold redaction, redacted, identity_of. simpl.
  destruct (default (JObj []) (au_originating_finding r)) as [ | | | | | |o] eqn:E; try done.
  intros _. simpl. rewrite !jget_obj. by rewrite dget_dset_ne.
Qed.
Lemma redact_audit_identity t p :
  stable (λ w, identity_of <$> db_audit_events (w_db w)) (redact_audit t p).
Proof.
  apply (stable_acquire_table (λ d, identity_of <$> db_audit_events d)). intros c.
  apply stable_bind; [done|]. intros c' w. unfold redact_events. run_prog.
  case_bool_decide; [done|]. destruct (mutation_rejected c'); [done|].
  destruct (existsb _ _) eqn:Ex; [done|]. simpl. unfold update_where. rewrite <- list_fmap_compose.
  apply list_fmap_ext. intros i r Hr. simpl.
  destruct (rls_visible c' (row_tenant r) && redact_matches t (subject_identifier p) r) eqn:Em; [|done].
  apply redaction_identity. intros Hn. apply not_true_iff_false in Ex. apply Ex, existsb_exists.
  exists r. split; [|by apply bool_decide_eq_true]. apply filter_In.
  rewrite <- list_elem_of_In. split; [by eapply list_elem_of_lookup_2 | done].
Qed.
End ErasureFacts.

(** C12. A completed vehicle erasure is complete: when the dispatcher has marked the
    request [completed], no policy of the tenant names the vehicle any more and no
    telemetry of it is left. *)
Theorem erasure_completed_sound `{Env} (t rid : string) (p : ErasureRequest) (w w' : world)
    (r : erasure_row) :
  nonempty t = true → subject_kind p = "vehicle" → dispatch_erasure t rid p w = (Ok tt, w') →
  r ∈ db_erasure_requests (w_db w') → er_tenant_id r = t → er_request_id r = rid →
  er_status r = "completed" →
  scope_clean t (subject_identifier p) (w_db w') ∧ telemetry_clean t (subject_identifier p) (w_db w').
Proof.
  intros Hne Hk E Hr Ht Hid Hst.
  destruct (dispatch_steps _ _ _ _ _ E)
    as (r1 & r2 & r3 & w1 & w2 & w3 & st & ps & tm & H1 & H2 & H3 & Hdb & Hiff & _).
  assert (st = "completed") as Hc.
  { rewrite Hdb in Hr. by rewrite <- (completion_row _ _ _ _ _ _ _ _ Hne Hr Ht Hid). }
  apply Hiff in Hc as (-> & -> & ->).
  pose proof (erase_telemetry_frame db_collection_policies t p ltac:(done) w1) as F2.
  pose proof (redact_audit_frame db_collection_policies t p ltac:(done) w2) as F3.
  pose proof (redact_audit_frame db_telemetry_observations t p ltac:(done) w2) as G3.
  rewrite H2 in F2. rewrite H3 in F3, G3. simpl in *.
  apply erase_registry_ok in H1; [|done..]. apply erase_telemetry_ok in H2; [|done..].
  unfold scope_clean, telemetry_clean in *. rewrite Hdb. simpl. rewrite F3, F2, G3. done.
Qed.

(** A policy that collects from the subject's vehicle alone blocks the erasure:
    the update would leave an empty scope, so the registry step fails as a whole,
    no policy of the tenant changes, and the request ends [partial]. *)
Theorem sole_vehicle_blocks_erasure `{Env} (t rid : string) (p : ErasureRequest) (w w' : world)
    (q : policy_row) :
  nonempty t = true → subject_kind p = "vehicle" → dispatch_erasure t rid p w = (Ok tt, w') →
  q ∈ db_collection_policies (w_db w) → po_tenant_id q = t →
  po_vehicle_scope q = JArr [JStr (subject_identifier p)] →
  db_collection_policies (w_db w') = db_collection_policies (w_db w) ∧
  ∀ r, r ∈ db_erasure_requests (w_db w') → er_tenant_id r = t → er_request_id r = rid →
    er_status r = "partial".
Proof.
  intros Hne Hk E Hq Hqt Hqs.
  destruct (dispatch_steps _ _ _ _ _ E)
    as (r1 & r2 & r3 & w1 & w2 & w3 & st & ps & tm & H1 & H2 & H3 & Hdb & Hiff & Hor).
  assert (∃ e, r1 = Raise e) as [e ->].
  { destruct r1 as [[]|e]; [|by eexists]. exfalso.
    unfold erase_registry in H1. rewrite Hk in H1. simpl in H1. apply acquire_ok in H1 as [_ H1].
    apply bind_inv_ok in H1 as (c & w0 & [= <- <-] & H1). unfold update_scopes in H1. run_prog.
    set (v := subject_identifier p) in *.
    assert (In q (touched (Conn TenantRole (Some t) (Some "on")) (scope_matches t v)
      (db_collection_policies (w_db w)))) as Hin.
    { apply filter_In. rewrite <- list_elem_of_In. split; [done|].
      rewrite visible_tenant by done. unfold row_tenant, policy_tenanted, scope_matches.
      rewrite Hqt, Hqs, !str_eqb_refl. unfold jsonb_elem. simpl. by rewrite str_eqb_refl. }
    case_bool_decide as Hno; [by rewrite Hno in Hin|].
    destruct (existsb _ _) eqn:Ex; [done|]. apply not_true_iff_false in Ex. apply Ex.
    apply existsb_exists. exists q. split; [done|]. apply bool_decide_eq_true. rewrite Hqs.
    unfold scope_without. simpl. by rewrite str_eqb_refl. }
  assert (w_db w1 = w_db w) as Hw1.
  { unfold erase_registry in H1. rewrite Hk in H1. simpl in H1. by apply acquire_raise in H1. }
  pose proof (erase_telemetry_frame db_collection_policies t p ltac:(done) w1) as F2.
  pose proof (redact_audit_frame db_collection_policies t p ltac:(done) w2) as F3.
  rewrite H2 in F2. rewrite H3 in F3. simpl in *. split; [rewrite Hdb; simpl; by rewrite F3, F2, Hw1|].
  assert (st = "partial") as -> by (destruct Hor as [Hc|]; [by apply Hiff in Hc as (? & _)|done]).
  intros r Hr Ht Hid. rewrite Hdb in Hr. by eapply completion_row.
Qed.

(** Erasing a finding or a principal erases nothing: policies, telemetry,
    findings, deployments and outcomes stay as they were, and so do the subject
    and the finding reference of every audit event; yet, unless the audit step
    fails, the request ends [completed]. *)
Theorem non_vehicle_erasure_erases_nothing `{Env} (t rid : string) (p : ErasureRequest)
    (w w' : world) :
  subject_kind p ≠ "vehicle" → dispatch_erasure t rid p w = (Ok tt, w') →
  db_collection_policies (w_db w') = db_collection_policies (w_db w) ∧
  db_telemetry_observations (w_db w') = db_telemetry_observations (w_db w) ∧
  db_diagnostic_findings (w_db w') = db_diagnostic_findings (w_db w) ∧
  db_deployment_targets (w_db w') = db_deployment_targets (w_db w) ∧
  db_policy_outcomes (w_db w') = db_policy_outcomes (w_db w) ∧
  (identity_of <$> db_audit_events (w_db w')) = (identity_of <$> db_audit_events (w_db w)) ∧
  (∃ w2 r3 w3, redact_audit t p w2 = (r3, w3) ∧ w_db w2 = w_db w ∧
    (r3 = Ok tt → ∀ r, r ∈ db_erasure_requests (w_db w') → er_tenant_id r = t →
       nonempty t = true → er_request_id r = rid → er_status r = "completed")).
Proof.
  intros Hk E.
  destruct (dispatch_steps _ _ _ _ _ E)
    as (r1 & r2 & r3 & w1 & w2 & w3 & st & ps & tm & H1 & H2 & H3 & Hdb & Hiff & _).
  apply str_eqb_neq in Hk. unfold erase_registry in H1. rewrite Hk in H1. injection H1 as <- <-.
  unfold erase_telemetry in H2. rewrite Hk in H2. injection H2 as <- <-.
  assert (∀ B (g : db → B), (∀ f d, g (upd_audit_events f d) = g d) →
    (∀ f d, g (upd_erasure_requests f d) = g d) → g (w_db w') = g (w_db w)) as Hg.
  { intros B g Ha He. rewrite Hdb, He. pose proof (redact_audit_frame g t p Ha w) as F.
    by rewrite H3 in F. }
  split_and!; try by apply Hg.
  { rewrite Hdb. pose proof (redact_audit_identity t p w) as F. by rewrite H3 in F. }
  exists w, r3, w3. split_and!; try done. intros -> r Hr Ht Hne Hid.
  assert (st = "completed") as Hc by (by apply Hiff).
  rewrite Hdb in Hr. rewrite <- Hc. by eapply completion_row.
Qed.

Lemma confined_set_erasure {A} t c (k : conn → M A) :
  confined t (k (Conn (c_role c) (c_tenant c) (Some "on"))) → confined t (set_erasure c ≫= k).
Proof. intros Hk w. exact (Hk (upd_guc (λ _, Some "") w)). Qed.

Section ErasureConfined.
Context `{Env} (t : string).
Lemma confined_update_policies g (q : policy_row → bool) f : (∀ r, po_tenant_id (f r) = po_tenant_id r) →
  confined t (modify (upd_db (upd_collection_policies (update_where (Conn TenantRole (Some t) g) q f)))).
Proof. intros Hf w. unfold foreign. simpl. by rewrite foreign_update. Qed.
Lemma confined_update_audit g (q : audit_row → bool) f : (∀ r, au_tenant_id (f r) = au_tenant_id r) →
  confined t (modify (upd_db (upd_audit_events (update_where (Conn TenantRole (Some t) g) q f)))).
Proof. intros Hf w. unfold foreign. simpl. by rewrite foreign_update. Qed.
Lemma confined_update_erasures g (q : erasure_row → bool) f : (∀ r, er_tenant_id (f r) = er_tenant_id r) →
  confined t (modify (upd_db (upd_erasure_requests (update_where (Conn TenantRole (Some t) g) q f)))).
Proof. intros Hf w. unfold foreign. simpl. by rewrite foreign_update. Qed.
Lemma confined_delete_telemetry g (q : telemetry_row → bool) :
  confined t (modify (upd_db (upd_telemetry_observations (delete_where (Conn TenantRole (Some t) g) q)))).
Proof. intros w. unfold foreign. simpl. by rewrite foreign_delete. Qed.
Ltac confined_erasure :=
  repeat match goal with
  | |- confined _ (mbind _ (set_erasure _)) => apply confined_set_erasure; simpl
  | _ => first [ by apply confined_update_policies | by apply confined_update_audit | by apply confined_update_erasures
               | by apply confined_delete_telemetry | confined_step ]
  end.
Lemma confined_erase_registry p : confined t (erase_registry t p).
Proof. unfold erase_registry, update_scopes. confined_erasure. Qed.
Lemma confined_erase_telemetry p : confined t (erase_telemetry t p).
Proof. unfold erase_telemetry. confined_erasure. Qed.
Lemma confined_redact_audit p : confined t (redact_audit t p).
Proof. unfold redact_audit, redact_events. confined_erasure. Qed.
Lemma confined_completion (q : erasure_row → bool) st per :
  confined t (acquire t (λ c, x ← now; modify (upd_db (upd_erasure_requests (update_where c q (set_completion st per x)))))).
Proof. unfold now. confined_erasure. Qed.
End ErasureConfined.
#[export] Hint Resolve confined_erase_registry confined_erase_telemetry confined_redact_audit confined_completion : isolation.

(** An erasure works within its tenant: dispatching a request of any kind
    leaves the rows of every other tenant as they were. *)
Theorem erasure_confined `{Env} (t rid : string) (p : ErasureRequest) :
  confined t (dispatch_erasure t rid p).
Proof.
  unfold dispatch_erasure, store_status. repeat first [apply confined_completion | confined_step].
Qed.

Lemma accept_erasure_confined `{Env} `{Pydantic} (p : Principal) (rq : request) :
  confined (pr_tenant_id p) (accept_erasure p rq).
Proof.
  assert (∀ rid, confined (pr_tenant_id p) (write (event (pr_tenant_id p) "erasure" rid (pr_subject p)))) as Hw
    by (intros; apply (confined_write (event (pr_tenant_id p) "erasure" _ (pr_subject p)))).
  unfold accept_erasure, submit, new_id, now, spawn, datetime_add.
  repeat match goal with
  | |- confined _ (write _) => apply Hw
  | _ => confined_step
  end.
Qed.

(** A request is on record before it is answered: an answered erasure request
    has a row in state [requested] with a thirty-day target, an [erasure] event
    under the request id, and one scheduled dispatch, all for the caller's tenant. *)
Theorem erasure_request_recorded `{Env} `{Pydantic} `{JwtLib} (rq : request) (w w' : world)
    (resp : response) :
  submit_erasure_request rq w = (Ok resp, w') →
  ∃ p body x row w0, authenticated_principal (rq_credentials rq) w = (Ok p, w0) ∧
    rq_body rq = Ok body ∧ validate_erasure body = Ok x ∧ rs_status resp = 202 ∧
    jget "request_id" (rs_body resp) = Some (JStr (er_request_id row)) ∧
    db_erasure_requests (w_db w') = db_erasure_requests (w_db w) ++ [row] ∧
    er_tenant_id row = pr_tenant_id p ∧ er_status row = "requested" ∧
    er_target_completion_at row = er_requested_at row + 30 * 86400000000 ∧
    w_tasks w' = w_tasks w ++ [TErase (pr_tenant_id p) (er_request_id row) x] ∧
    ∃ a, a ∈ db_audit_events (w_db w') ∧ au_tenant_id a = pr_tenant_id p ∧ au_kind a = "erasure" ∧
      au_correlation_id a = er_request_id row.
Proof.
  unfold submit_erasure_request. intros E. apply bind_inv_ok in E as (p & w0 & Ep & E).
  unfold accept_erasure in E.
  pose proof (authenticated_outside w_db (rq_credentials rq) ltac:(by intros []) ltac:(done) w) as Hdb.
  pose proof (authenticated_outside w_tasks (rq_credentials rq) ltac:(by intros []) ltac:(done) w) as Htk.
  rewrite Ep in Hdb, Htk. simpl in Hdb, Htk.
  apply bind_inv_ok in E as (x & w1 & Ex & E).
  destruct (rq_body rq) as [body|] eqn:Hb; [|done]. destruct (validate_erasure body) as [y|] eqn:Hv; [|done].
  injection Ex as <- <-. do 2 (apply bind_inv_ok in E as (? & ? & [= <- <-] & E)).
  apply bind_inv_ok in E as (target & w2 & Et & E). unfold datetime_add in Et.
  destruct (representable _); [|done]. injection Et as <- <-.
  apply bind_inv_ok in E as ([] & w3 & Es & [= <- <-]). unfold submit in Es.
  apply bind_inv_ok in Es as (b & w4 & Ei & Es). apply acquire_ok in Ei as [_ Ei].
  apply bind_inv_ok in Es as (eid & w5 & Ew & [= <-]).
  pose proof (write_appends (event (pr_tenant_id p) "erasure" (fresh (w_ids_n w0)) (pr_subject p)) w4)
    as (rows & Hdb5 & _).
  pose proof (write_outside w_tasks (event (pr_tenant_id p) "erasure" (fresh (w_ids_n w0)) (pr_subject p))
    ltac:(done) ltac:(done) ltac:(done) w4) as Ht5.
  rewrite Ew in Hdb5, Ht5. simpl in Hdb5, Ht5. apply write_leaves in Ew as (a & Ha & _ & Hat & Hak & Hac & _).
  unfold insert_erasure in Ei.
  edestruct (insert_row_cases (Conn TenantRole (Some (pr_tenant_id p))
    (w_guc (upd_clock_n S (upd_ids_n S w0)))) "erasure_requests"
    db_erasure_requests upd_erasure_requests erasure_checks)
    as [(Er & _)|[(Er & _ & _ & u & Hu & Htol & _)|(e & Er)]]; rewrite Er in Ei; [|exfalso|done].
  2: { apply elem_of_cons in Hu as [->|Hu]; [done|by apply not_elem_of_nil in Hu]. }
  injection Ei as _ <-.
  match type of Er with insert_row _ _ _ _ _ _ _ ?row _ = _ => exists p, body, y, row, w0 end.
  split_and!; try done.
  - simpl. rewrite Hdb5. simpl. by rewrite Hdb.
  - simpl. rewrite Ht5. simpl. by rewrite Htk.
  - by exists a.
Qed.

(** * Concrete requests *)
Module ErasureSamples.
Definition policy_row_for (scope : list string) : policy_row :=
  PolicyRow "acme" "P1" "1.0.0" (JArr [JObj [("vss_name", JStr "Vehicle.Speed")]]) (JArr []) 24
    (jstrs scope) "h" (JObj []) (8 # 10) "S1" (JObj [("finding_id", JStr "F1")]) "1.0.0" "repo"
    "0000000000000000000000000000000000000000" "stub" "v0" "none" 7 "sig" "key" 1000.
Definition telemetry_row0 : telemetry_row :=
  TelemetryRow "acme" "VIN-1" "Vehicle.Speed" (1 # 2) 1000 None "simulator".
Definition request_row0 : erasure_row :=
  ErasureRow "R1" "acme" "vehicle" "VIN-1" "client-7" 1000 2000 "requested" (JObj []) "erased" None.
Definition audit_row0 : audit_row :=
  AuditRow "E0" "acme" "accepted" (Some (JObj [("finding_id", JStr "F1")])) None None None None None
    None None None None None None None "alice" "c-1" 1000.
Definition stored (scope : list string) : world :=
  upd_db (λ d, upd_collection_policies (λ _, [policy_row_for scope])
    (upd_telemetry_observations (λ _, [telemetry_row0])
    (upd_audit_events (λ _, [audit_row0])
    (upd_erasure_requests (λ _, [request_row0]) d)))) Samples.start.
Definition vehicle : ErasureRequest := Build_ErasureRequest "vehicle" "VIN-1" "erased".
Definition person : ErasureRequest := Build_ErasureRequest "principal" "alice" "erased".
#[global] Instance pydantic : Pydantic := {|
  lax_int := λ _, None; lax_float := λ _, None; lax_bool := λ _, None; lax_datetime := λ _, None;
  pyd_msg := λ _, "invalid"; pyd_str := λ _, "validation error";
  policy_json_schema := JObj [] |}.
Definition rq : request :=
  Request "POST" "/api/v1/erasure-requests" [] (Some ("Bearer", "tok"))
    (Ok (JObj [("subject_kind", JStr "vehicle"); ("subject_identifier", JStr "VIN-1")])).
End ErasureSamples.
Import ErasureSamples.

Lemma erasure_completed_sound_witness :
  let w' := (dispatch_erasure (H := Samples.env) "acme" "R1" vehicle (stored ["VIN-1"; "VIN-2"])).2 in
  ∃ r, r ∈ db_erasure_requests (w_db w') ∧ er_status r = "completed" ∧
  scope_clean "acme" "VIN-1" (w_db w') ∧ telemetry_clean "acme" "VIN-1" (w_db w').
Proof.
  intros w'. eexists. split; [vm_compute; left|]. split; [reflexivity|].
  apply (erasure_completed_sound (H := Samples.env) "acme" "R1" vehicle (stored ["VIN-1"; "VIN-2"]) w'
    (ErasureRow "R1" "acme" "vehicle" "VIN-1" "client-7" 1000 2000 "completed"
       (JObj [("registry", JStr "erased"); ("telemetry", JStr "erased"); ("audit", JStr "redacted")])
       "erased" (Some 1700000000000000))).
  - reflexivity.
  - reflexivity.
  - subst w'. apply pair_of_fst. vm_compute. reflexivity.
  - vm_compute. left.
  - reflexivity.
  - reflexivity.
  - reflexivity.
Defined.

Lemma sole_vehicle_blocks_erasure_witness :
  let w := stored ["VIN-1"] in
  let w' := (dispatch_erasure (H := Samples.env) "acme" "R1" vehicle w).2 in
  db_collection_policies (w_db w') = db_collection_policies (w_db w) ∧
  ∀ r, r ∈ db_erasure_requests (w_db w') → er_tenant_id r = "acme" → er_request_id r = "R1" →
    er_status r = "partial".
Proof.
  intros w w'. apply (sole_vehicle_blocks_erasure (H := Samples.env) "acme" "R1" vehicle w w'
    (policy_row_for ["VIN-1"])).
  - reflexivity.
  - reflexivity.
  - subst w'. apply pair_of_fst. vm_compute. reflexivity.
  - left.
  - reflexivity.
  - reflexivity.
Defined.

Lemma non_vehicle_erasure_erases_nothing_witness :
  let w := stored ["VIN-1"] in
  let w' := (dispatch_erasure (H := Samples.env) "acme" "R1" person w).2 in
  db_collection_policies (w_db w') = db_collection_policies (w_db w) ∧
  db_telemetry_observations (w_db w') = db_telemetry_observations (w_db w) ∧
  (identity_of <$> db_audit_events (w_db w')) = [("alice", Some (JStr "F1"))].
Proof.
  intros w w'. destruct (non_vehicle_erasure_erases_nothing (H := Samples.env) "acme" "R1" person w w')
    as (A & B & _ & _ & _ & C & _).
  - discriminate.
  - subst w'. apply pair_of_fst. vm_compute. reflexivity.
  - split; [exact A|]. split; [exact B|]. rewrite C. reflexivity.
Defined.

Lemma erasure_request_recorded_witness :
  let m := submit_erasure_request (H := Samples.env) (H0 := ErasureSamples.pydantic) rq Samples.start in
  ∃ resp, m.1 = Ok resp ∧
  ∃ p body x row w0, authenticated_principal (H := Samples.env) (rq_credentials rq) Samples.start = (Ok p, w0) ∧
    rq_body rq = Ok body ∧ validate_erasure body = Ok x ∧ rs_status resp = 202 ∧
    jget "request_id" (rs_body resp) = Some (JStr (er_request_id row)) ∧
    db_erasure_requests (w_db m.2) = db_erasure_requests (w_db Samples.start) ++ [row] ∧
    er_tenant_id row = pr_tenant_id p ∧ er_status row = "requested" ∧
    er_target_completion_at row = er_requested_at row + 30 * 86400000000 ∧
    w_tasks m.2 = w_tasks Samples.start ++ [TErase (pr_tenant_id p) (er_request_id row) x] ∧
    ∃ a, a ∈ db_audit_events (w_db m.2) ∧ au_tenant_id a = pr_tenant_id p ∧ au_kind a = "erasure" ∧
      au_correlation_id a = er_request_id row.
Proof.
  intros m. eexists. split; [vm_compute; reflexivity|].
  apply (erasure_request_recorded (H := Samples.env) (H0 := ErasureSamples.pydantic) rq Samples.start m.2).
  subst m. apply pair_of_fst. vm_compute. reflexivity.
Defined.
