(* ===== verification/BreakGlass.v ===== *)
(** [audit_admin/api.py]: the operators' audited cross-tenant read. *)
From S2P Require Import Prelude PyStr PyDict Json JsonText PyTime Errors TokenBucket Models World Samples Database Isolation PyVal AuditLog Auth Http.
Local Open Scope Z_scope.

Record BreakGlassRequest := { tenant_scope : string; bg_correlation_id : string; reason_code : string }.

Definition scope_class (c : ascii) : bool :=
  is_upper c || is_lower c || is_digit c || ascii_eqb c "_" || ascii_eqb c "-".
Definition ScopeStr `{Pydantic} (j : json) : V string :=
  c_pattern (sall scope_class) (c_str_len 1 (Some 64%nat) j).
Definition ReasonCode : list string :=
  ["incident_response"; "legal_hold"; "regulator_request"; "support_escalation"; "operator_self_audit"].

(** The model keeps pydantic's default for unknown keys, which is to ignore them. *)
Definition validate_break_glass `{Pydantic} (j : json) : V BreakGlassRequest :=
  match j with
  | JObj o => Ok Build_BreakGlassRequest
      ⊛ field o "tenant_scope" ScopeStr
      ⊛ field o "correlation_id" ScopeStr
      ⊛ field o "reason_code" (c_literal ReasonCode)
  | _ => vfail "model_attributes_type"
  end.

(** The projection of a row returned to the operator. *)
Definition row_extras (r : audit_row) : list (string * json) :=
  flat_map (λ kv, match kv.2 with Some j => [(kv.1, j)] | None => [] end)
    [("originating_finding", au_originating_finding r); ("policy_ref", au_policy_ref r);
     ("deployment_ref", au_deployment_ref r); ("outcome_ref", au_outcome_ref r)].
Definition AuditEvent (r : audit_row) : json :=
  JObj [ ("event_id", JStr (au_event_id r)); ("tenant_id", JStr (au_tenant_id r));
         ("kind", JStr (au_kind r)); ("correlation_id", JStr (au_correlation_id r));
         ("occurred_at", JStr (isoformat (au_occurred_at r)));
         ("extras", match row_extras r with [] => JNull | l => JObj l end) ].

Section BreakGlass.
Context `{Env} `{Pydantic} `{JwtLib}.

Definition break_glass_row (event_id : string) (op : OperatorPrincipal) (q : BreakGlassRequest) (t : Z)
    : audit_row :=
  AuditRow event_id (tenant_scope q) "break_glass"
    (Some (JObj [("operator_principal_subject", JStr (op_subject op));
                 ("tenant_scope", JStr (tenant_scope q)); ("reason_code", JStr (reason_code q))]))
    None None None None None None None None None None None None (op_subject op)
    (bg_correlation_id q) t.

(** The service-principal transaction: the audit row first, then the read. *)
Definition audited_read (event_id : string) (op : OperatorPrincipal) (q : BreakGlassRequest)
    : M (list audit_row) :=
  acquire_service_principal (λ c, in_transaction (
    t ← now;
    insert_audit c true (break_glass_row event_id op q t);;
    rows ← select c db_audit_events
      (λ r, str_eqb (au_tenant_id r) (tenant_scope q) &&
            str_eqb (au_correlation_id r) (bg_correlation_id q));
    mret (sort_by au_occurred_at rows))).

Definition no_events : exn :=
  EHTTP 404 (JObj [("code", JStr "no_events"); ("message", JStr "no audit events match")]).

(** [break_glass_query], with its operator dependency. *)
Definition break_glass_query (rq : request) : M response :=
  op ← authenticated_operator_principal (rq_credentials rq);
  q ← match rq_body rq with
      | Ok body => match validate_break_glass body with
                   | Ok q => mret q
                   | Raise es => raise (EHTTP 422 (JStr (pyd_str es)))
                   end
      | Raise _ => raise (EHTTP 422 (JStr "json_invalid"))
      end;
  event_id ← new_id;
  rows ← audited_read event_id op q;
  match rows with
  | [] => raise no_events
  | _ => mret (JSONResponse 200 (JObj [("events", JArr (AuditEvent <$> rows));
                                       ("total", JInt (Z.of_nat (length rows)))]))
  end.
End BreakGlass.

(** * Facts *)
Section BreakGlassFacts.
Context `{Env} `{Pydantic} `{JwtLib}.

Definition in_scope (q : BreakGlassRequest) (r : audit_row) : bool :=
  str_eqb (au_tenant_id r) (tenant_scope q) && str_eqb (au_correlation_id r) (bg_correlation_id q).
(** An earlier break-glass access used the correlation id, for whichever tenant. *)
Definition already_used (cid : string) (d : db) : bool :=
  existsb (λ r, str_eqb cid (au_correlation_id r) && str_eqb "break_glass" (au_kind r))
    (db_audit_events d).

Definition text_extra (r : audit_row) (k : string) : option json :=
  jget k (default JNull (au_originating_finding r)).

(** The query the body asks for: its three fields are the body's own strings. *)
Definition asks_for (body : json) (q : BreakGlassRequest) : Prop :=
  jget "tenant_scope" body = Some (JStr (tenant_scope q)) ∧
  jget "correlation_id" body = Some (JStr (bg_correlation_id q)) ∧
  jget "reason_code" body = Some (JStr (reason_code q)) ∧ reason_code q ∈ ReasonCode.

Lemma scope_str_ok j s : ScopeStr j = Ok s → j = JStr s.
Proof.
  unfold ScopeStr, c_pattern, c_str_len, c_str. destruct j; try done. simpl.
  repeat case_match; simpl; try done; repeat case_match; try done; by intros [= ->].
Qed.
Lemma reason_ok j s : c_literal ReasonCode j = Ok s → j = JStr s ∧ s ∈ ReasonCode.
Proof. unfold c_literal. destruct j; try done. case_bool_decide; [|done]. by intros [= <-]. Qed.
Lemma validate_break_glass_ok body q : validate_break_glass body = Ok q → asks_for body q.
Proof.
  unfold validate_break_glass. destruct body as [| | | | | |o]; try done.
  intros E. apply vap_ok in E as (g3 & reason & E & Hr & ->).
  apply vap_ok in E as (g2 & cid & E & Hc & ->). apply vap_ok in E as (g1 & scope & E & Hs & ->).
  injection E as <-. apply field_ok in Hs as (js & Hgs & ->%scope_str_ok).
  apply field_ok in Hc as (jc & Hgc & ->%scope_str_ok).
  apply field_ok in Hr as (jr & Hgr & [-> Hin]%reason_ok). done.
Qed.

(** How the transaction ends. *)
Lemma audited_read_cases eid op q w :
  let row := break_glass_row eid op q (clock (w_clock_n w)) in
  (already_used (bg_correlation_id q) (w_db w) = false ∧
   audited_read eid op q w =
     (Ok (sort_by au_occurred_at (List.filter (in_scope q) (db_audit_events (w_db w) ++ [row]))),
      upd_db (upd_audit_events (λ l, l ++ [row])) (upd_clock_n S w))) ∨
  (already_used (bg_correlation_id q) (w_db w) = true ∧
   audited_read eid op q w =
     (Ok (sort_by au_occurred_at (List.filter (in_scope q) (db_audit_events (w_db w)))), upd_clock_n S w)) ∨
  (∃ e w', audited_read eid op q w = (Raise e, w') ∧ w_db w' = w_db w).
Proof.
  intros row. unfold audited_read, acquire_service_principal. run_prog.
  destruct (w_pool w); [|by right; right; eexists _, _]. unfold in_transaction. run_prog.
  unfold insert_audit.
  edestruct (insert_row_cases (Conn Superuser None (w_guc w)) "audit_events" db_audit_events
    upd_audit_events audit_checks) as [(Er & _ & _ & Hu & _)|[(Er & _ & _ & u & Hu & Htol & Hx)|(e & Er)]];
    rewrite Er; [left|right; left|right; right; by eexists _, _].
  - split; [|by unfold select; run_prog].
    apply (Hu ("audit_events_correlation_kind_unique", audit_key, true)). by left.
  - split; [|by unfold select; run_prog].
    apply elem_of_cons in Hu as [->|Hu]; [exact Hx|].
    apply elem_of_cons in Hu as [->|Hu]; [done|by apply not_elem_of_nil in Hu].
Qed.

Lemma operator_outside {B} (f : world → B) c :
  (∀ i g w, f (upd_instance i g w) = f w) → (∀ g w, f (upd_clock_n g w) = f w) →
  stable f (authenticated_operator_principal c).
Proof.
  intros Hi Hc. unfold authenticated_operator_principal, as_http.
  destruct (bearer_ok c); [|apply stable_raise]. apply stable_bind; [|intros; apply stable_ret].
  apply stable_catch; [by apply verify_outside|]. intros []; apply stable_raise.
Qed.

(** The handler up to the transaction. *)
Lemma break_glass_inv rq w r w' : break_glass_query rq w = (r, w') →
  (∃ e, r = Raise e ∧ w_db w' = w_db w) ∨
  ∃ op q w0 body, authenticated_operator_principal (rq_credentials rq) w = (Ok op, w0) ∧
    rq_body rq = Ok body ∧ validate_break_glass body = Ok q ∧ w_db w0 = w_db w ∧
    (rows ← audited_read (fresh (w_ids_n w0)) op q;
     match rows with
     | [] => raise no_events
     | _ => mret (JSONResponse 200 (JObj [("events", JArr (AuditEvent <$> rows));
                                          ("total", JInt (Z.of_nat (length rows)))]))
     end) (upd_ids_n S w0) = (r, w').
Proof.
  intros E. unfold break_glass_query in E.
  pose proof (operator_outside w_db (rq_credentials rq) ltac:(by intros []) ltac:(done) w) as Hdb.
  apply bind_inv in E as [(e & Ep & ->)|(op & w0 & Ep & E)]; rewrite Ep in Hdb; simpl in Hdb;
    [left; by eexists|].
  destruct (rq_body rq) as [body|]; [|injection E as <- <-; left; by eexists].
  destruct (validate_break_glass body) as [q|] eqn:Hq; [|injection E as <- <-; left; by eexists].
  right. by exists op, q, w0, body.
Qed.
End BreakGlassFacts.

(** C13. Cross-tenant reads are audited and stay in scope: when an operator's query
    is answered, the body named a tenant, a correlation id and one of the five
    reason codes; the answer holds the events on file for that tenant and
    correlation id, all of them and nothing else.  Unless the correlation id was used
    for break-glass before, exactly one event was added, it is among those answered,
    and it names the operator, the tenant, the correlation id and the reason code
    that the body gave. *)
Theorem break_glass_audited `{Env} `{Pydantic} `{JwtLib} (rq : request) (w w' : world) (resp : response) :
  break_glass_query rq w = (Ok resp, w') →
  ∃ op body q w0 rows, authenticated_operator_principal (rq_credentials rq) w = (Ok op, w0) ∧
    rq_body rq = Ok body ∧ asks_for body q ∧
    rs_status resp = 200 ∧ jget "events" (rs_body resp) = Some (JArr (AuditEvent <$> rows)) ∧
    rows ≡ₚ List.filter (in_scope q) (db_audit_events (w_db w')) ∧
    (already_used (bg_correlation_id q) (w_db w) = false →
     ∃ row, db_audit_events (w_db w') = db_audit_events (w_db w) ++ [row] ∧ row ∈ rows ∧
       au_kind row = "break_glass" ∧ au_principal_subject row = op_subject op ∧
       au_tenant_id row = tenant_scope q ∧ au_correlation_id row = bg_correlation_id q ∧
       text_extra row "reason_code" = Some (JStr (reason_code q))).
Proof.
  intros E. destruct (break_glass_inv _ _ _ _ E) as [(e & [=] & _)|(op & q & w0 & body & Hop & Hb & Hq%validate_break_glass_ok & Hdb & E')].
  apply bind_inv_ok in E' as (rows & w1 & Er & E').
  destruct rows as [|x rows]; [done|]. injection E' as <- <-.
  exists op, body, q, w0, (x :: rows). split_and!; try done.
  - destruct (audited_read_cases (fresh (w_ids_n w0)) op q (upd_ids_n S w0))
      as [(_ & Ec)|[(_ & Ec)|(e & w2 & Ec & _)]]; rewrite Ec in Er; [| |done];
      injection Er as <- <-; apply sort_by_perm.
  - intros Hnew. destruct (audited_read_cases (fresh (w_ids_n w0)) op q (upd_ids_n S w0))
      as [(_ & Ec)|[(Hu & Ec)|(e & w2 & Ec & _)]]; rewrite Ec in Er; [| |done].
    + injection Er as Hrows <-. simpl. rewrite Hdb. eexists. split; [reflexivity|].
      split_and!; try done. rewrite <- Hrows. apply elem_of_sort_by, list_elem_of_In, filter_In.
      split; [apply in_or_app; right; by left|]. unfold in_scope. simpl. by rewrite !str_eqb_refl.
    + simpl in Hu. rewrite Hdb in Hu. congruence.
Qed.

(** A query that is refused or fails leaves no trace in the tables: the audit
    row and the read stand or fall together. *)
Theorem break_glass_failure_atomic `{Env} `{Pydantic} `{JwtLib} (rq : request) (w w' : world) (e : exn) :
  break_glass_query rq w = (Raise e, w') → w_db w' = w_db w.
Proof.
  intros E. destruct (break_glass_inv _ _ _ _ E) as [(e' & _ & Hd)|(op & q & w0 & body & Hop & _ & _ & Hdb & E')];
    [done|].
  destruct (audited_read_cases (fresh (w_ids_n w0)) op q (upd_ids_n S w0))
    as [(_ & Ec)|[(_ & Ec)|(e' & w2 & Ec & Hd)]].
  - exfalso. rewrite (bind_ok _ _ _ _ _ Ec) in E'.
    destruct (sort_by _ _) as [|x l] eqn:Es; [|done].
    pose proof (sort_by_perm au_occurred_at (List.filter (in_scope q) (db_audit_events (w_db (upd_ids_n S w0)) ++
      [break_glass_row (fresh (w_ids_n w0)) op q (clock (w_clock_n (upd_ids_n S w0)))]))) as Hp.
    rewrite Es in Hp. apply Permutation_nil_l in Hp. rewrite List.filter_app in Hp.
    symmetry in Hp. apply app_eq_nil in Hp as [_ Hp]. unfold in_scope in Hp. simpl in Hp.
    by rewrite !str_eqb_refl in Hp.
  - rewrite (bind_ok _ _ _ _ _ Ec) in E'. destruct (sort_by _ _); [|done]. by injection E' as _ <-.
  - rewrite (bind_raise _ _ _ _ _ Ec) in E'. injection E' as _ <-. by rewrite Hd.
Qed.

(** Reusing a correlation id reads without a trace: once any break-glass event
    carries the correlation id, of whatever tenant or operator, a later query
    under it is answered although no table changes. *)
Theorem break_glass_reuse_unaudited `{Env} `{Pydantic} `{JwtLib} (rq : request) (w w' w0 : world)
    (resp : response) (op : OperatorPrincipal) (body : json) (q : BreakGlassRequest) :
  break_glass_query rq w = (Ok resp, w') →
  authenticated_operator_principal (rq_credentials rq) w = (Ok op, w0) →
  rq_body rq = Ok body → validate_break_glass body = Ok q →
  already_used (bg_correlation_id q) (w_db w) = true →
  w_db w' = w_db w.
Proof.
  intros E Hop Hb Hq Hu.
  destruct (break_glass_inv _ _ _ _ E) as [(e & [=] & _)|(op' & q' & w0' & body' & Hop' & Hb' & Hq' & Hdb & E')].
  rewrite Hb in Hb'. injection Hb' as <-. rewrite Hq in Hq'. injection Hq' as <-.
  apply bind_inv_ok in E' as (rows & w1 & Er & E').
  destruct (audited_read_cases (fresh (w_ids_n w0')) op' q (upd_ids_n S w0'))
    as [(Hn & Ec)|[(_ & Ec)|(e & w2 & Ec & _)]]; rewrite Ec in Er; [| |done].
  - simpl in Hn. rewrite Hdb in Hn. congruence.
  - injection Er as <- <-. destruct (sort_by _ _); [done|]. injection E' as _ <-. exact Hdb.
Qed.

(** * Concrete queries *)
Module BreakGlassSamples.
#[global] Instance pydantic : Pydantic := {|
  lax_int := λ _, None; lax_float := λ _, None; lax_bool := λ _, None; lax_datetime := λ _, None;
  pyd_msg := λ _, "invalid"; pyd_str := λ _, "validation error";
  policy_json_schema := JObj [] |}.
Definition body (scope : string) : json :=
  JObj [("tenant_scope", JStr scope); ("correlation_id", JStr "c-1"); ("reason_code", JStr "legal_hold")].
Definition rq (scope : string) : request :=
  Request "POST" "/api/v1/audit/break-glass/query" [] (Some ("Bearer", "tok")) (Ok (body scope)).
Definition event_row_of (event_id tenant kind : string) : audit_row :=
  AuditRow event_id tenant kind None None None None None None None None None None None None None
    "client-1" "c-1" 1000.
Definition recorded : world :=
  upd_db (upd_audit_events (λ _, [event_row_of "E0" "globex" "accepted"])) Samples.start.
Definition accessed : world :=
  upd_db (upd_audit_events (λ _, [event_row_of "E0" "globex" "accepted";
                                  event_row_of "E1" "acme" "break_glass"])) Samples.start.
Definition q (scope : string) : BreakGlassRequest := Build_BreakGlassRequest scope "c-1" "legal_hold".
End BreakGlassSamples.
Import BreakGlassSamples.
Notation bg_query r := (break_glass_query (H := Samples.env) (H0 := BreakGlassSamples.pydantic) r).
Notation bg_auth := (authenticated_operator_principal (H := Samples.env) (Some ("Bearer", "tok"))).

Lemma break_glass_audited_witness :
  let m := bg_query (rq "globex") recorded in
  ∃ resp, m.1 = Ok resp ∧
  ∃ op body q w0 rows, bg_auth recorded = (Ok op, w0) ∧
    rq_body (rq "globex") = Ok body ∧ asks_for body q ∧
    rs_status resp = 200 ∧ jget "events" (rs_body resp) = Some (JArr (AuditEvent <$> rows)) ∧
    rows ≡ₚ List.filter (in_scope q) (db_audit_events (w_db m.2)) ∧
    (already_used (bg_correlation_id q) (w_db recorded) = false →
     ∃ row, db_audit_events (w_db m.2) = db_audit_events (w_db recorded) ++ [row] ∧ row ∈ rows ∧
       au_kind row = "break_glass" ∧ au_principal_subject row = op_subject op ∧
       au_tenant_id row = tenant_scope q ∧ au_correlation_id row = bg_correlation_id q ∧
       text_extra row "reason_code" = Some (JStr (reason_code q))).
Proof.
  intros m. eexists. split; [vm_compute; reflexivity|].
  apply (break_glass_audited (H := Samples.env) (H0 := BreakGlassSamples.pydantic) (rq "globex") recorded m.2).
  subst m. apply pair_of_fst. vm_compute. reflexivity.
Defined.

Lemma break_glass_failure_atomic_witness :
  let m := bg_query (rq "unknown-tenant") recorded in
  (∃ e, m.1 = Raise e) ∧ w_db m.2 = w_db recorded.
Proof.
  intros m. destruct m.1 as [r|e] eqn:E; [vm_compute in E; discriminate E|]. split; [by exists e|].
  apply (break_glass_failure_atomic (H := Samples.env) (H0 := BreakGlassSamples.pydantic)
    (rq "unknown-tenant") recorded m.2 e). exact (pair_of_fst _ _ E).
Defined.

Lemma break_glass_reuse_unaudited_witness :
  let m := bg_query (rq "globex") accessed in
  (∃ resp, m.1 = Ok resp ∧ rs_status resp = 200) ∧ w_db m.2 = w_db accessed.
Proof.
  intros m. split; [eexists; split; [vm_compute; reflexivity|reflexivity]|].
  destruct m.1 as [resp|e] eqn:E; [|vm_compute in E; discriminate E].
  destruct (bg_auth accessed).1 as [op|e] eqn:Eo; [|vm_compute in Eo; discriminate Eo].
  apply (break_glass_reuse_unaudited (H := Samples.env) (H0 := BreakGlassSamples.pydantic) (rq "globex")
    accessed m.2 (bg_auth accessed).2 resp op (body "globex") (q "globex")).
  - exact (pair_of_fst _ _ E).
  - exact (pair_of_fst _ _ Eo).
  - reflexivity.
  - vm_compute. reflexivity.
  - vm_compute. reflexivity.
Defined.
