(* ===== verification/Query.v ===== *)
(** [query/api.py]: the tenants' read endpoints. *)
From S2P Require Import Prelude PyStr PyDict Json JsonText PyTime Errors TokenBucket Models World Samples Database Isolation PyVal AuditLog TenantConfig Auth Http Repository Erasure.
Local Open Scope Z_scope.

(** [_ensure_safe]. *)
Definition ensure_safe (kind value : string) : M string :=
  if match_class id_class 1 256 value then mret value
  else raise (ECollectMind (NotFound kind value)).

(** [if found is None: raise NotFound(...)], and the JSON answer. *)
Definition found_or_404 (kind value : string) (found : option json) : M response :=
  match found with
  | None => raise (ECollectMind (NotFound kind value))
  | Some j => mret (JSONResponse 200 j)
  end.
Definition rows_or_404 (kind value : string) (rows : list json) : M response :=
  match rows with
  | [] => raise (ECollectMind (NotFound kind value))
  | _ => mret (JSONResponse 200 (JArr rows))
  end.

Section Handlers.
Context `{Env} (p : Principal).

Definition get_policy (policy_id : string) : M response :=
  policy_id ← ensure_safe "policy" policy_id;
  found ← policy_get (pr_tenant_id p) policy_id None;
  found_or_404 "policy" policy_id found.

(** The query parameter [limit: int = Query(default=50, ge=1, le=200)]. *)
Definition list_policy_versions (policy_id : string) (limit : Z) : M response :=
  if (1 <=? limit) && (limit <=? 200) then
    policy_id ← ensure_safe "policy" policy_id;
    rows ← policy_list_versions (pr_tenant_id p) policy_id (Z.to_nat limit);
    rows_or_404 "policy" policy_id rows
  else raise (EHTTP 422 (JStr "limit")).

Definition active_policy_for_group (group_id : string) : M response :=
  group_id ← ensure_safe "active_policy" group_id;
  found ← policy_find_active (pr_tenant_id p) group_id;
  found_or_404 "active_policy" group_id found.

Definition outcome_for_finding (finding_id : string) : M response :=
  finding_id ← ensure_safe "outcome" finding_id;
  found ← outcome_get_by_finding (pr_tenant_id p) finding_id;
  found_or_404 "outcome" finding_id found.

Definition audit_for_correlation (correlation_id : string) : M response :=
  correlation_id ← ensure_safe "correlation_id" correlation_id;
  events ← list_for_correlation (pr_tenant_id p) correlation_id;
  rows_or_404 "correlation_id" correlation_id events.

Definition erasure_request_status (request_id : string) : M response :=
  request_id ← ensure_safe "erasure_request" request_id;
  record ← get_erasure (pr_tenant_id p) request_id;
  found_or_404 "erasure_request" request_id record.

Definition bucket_json (b : RateLimitBucket) : json :=
  JObj [("sustained_rps", JInt (sustained_rps b)); ("burst_capacity", JInt (burst_capacity b))].
Definition get_own_tenant_config : M response :=
  config ← get_for_tenant (pr_tenant_id p);
  mret (JSONResponse 200 (JObj
    ([("tenant_id", JStr (tc_tenant_id config)); ("inbound", bucket_json (tc_inbound config));
      ("query", bucket_json (tc_query config)); ("source", JStr (tc_source config))] ++
     match tc_updated_at config with Some t => [("updated_at", JStr t)] | None => [] end))).
End Handlers.

(** The routes of the router, with their path and query parameters. *)
Inductive query_route :=
| GetPolicy (policy_id : string)
| ListVersions (policy_id : string) (limit : Z)
| ActivePolicy (group_id : string)
| OutcomeFor (finding_id : string)
| AuditFor (correlation_id : string)
| ErasureStatus (request_id : string)
| OwnConfig.

Definition handler `{Env} (r : query_route) (p : Principal) : M response :=
  match r with
  | GetPolicy i => get_policy p i
  | ListVersions i n => list_policy_versions p i n
  | ActivePolicy i => active_policy_for_group p i
  | OutcomeFor i => outcome_for_finding p i
  | AuditFor i => audit_for_correlation p i
  | ErasureStatus i => erasure_request_status p i
  | OwnConfig => get_own_tenant_config p
  end.
(** A request to a route: the dependency, then the handler. *)
Definition query `{Env} `{JwtLib} (r : query_route) (rq : request) : M response :=
  p ← authenticated_principal (rq_credentials rq);
  handler r p.

(** * Isolation *)
Lemma handler_oblivious `{Env} r p : oblivious (pr_tenant_id p) (handler r p).
Proof.
  destruct r; simpl; unfold get_policy, list_policy_versions, active_policy_for_group,
    outcome_for_finding, audit_for_correlation, erasure_request_status, get_own_tenant_config,
    ensure_safe, found_or_404, rows_or_404, policy_get, policy_list_versions, policy_find_active,
    outcome_get_by_finding, list_for_correlation, get_erasure, get_for_tenant, cache_get, cache_put,
    now_mono; solve_oblivious.
Qed.

Lemma handler_reads `{Env} r p : stable w_db (handler r p).
Proof.
  destruct r; simpl; unfold get_policy, list_policy_versions, active_policy_for_group,
    outcome_for_finding, audit_for_correlation, erasure_request_status, get_own_tenant_config,
    ensure_safe, found_or_404, rows_or_404, policy_get, policy_list_versions, policy_find_active,
    outcome_get_by_finding, list_for_correlation, get_erasure, get_for_tenant, cache_get, cache_put,
    now_mono;
    repeat first [ apply (stable_acquire_table (λ d, d)); intros ? | effects_step ].
Qed.

Lemma authenticated_oblivious `{Env} `{JwtLib} t c : oblivious t (authenticated_principal c).
Proof.
  unfold authenticated_principal, as_http, verify, signing_key_or_refresh, except_jwk, refresh_jwks,
    client, key_from, decode_mapped, now, resolve_jwks_uri, dict_get, get_verifier, upd_instance.
  solve_oblivious.
Qed.

(** C6. A tenant's answers depend on its own rows only: on two states that differ
    in nothing but rows of other tenants, every read endpoint gives an
    authenticated caller the same answer, body and errors included, and no read
    changes a table. *)
Theorem query_isolated `{Env} `{JwtLib} (r : query_route) (rq : request) (w1 w2 w0 : world) (p : Principal) :
  authenticated_principal (rq_credentials rq) w1 = (Ok p, w0) → agree (pr_tenant_id p) w1 w2 →
  (query r rq w1).1 = (query r rq w2).1 ∧ w_db (query r rq w1).2 = w_db w1.
Proof.
  intros Hp Ha. split.
  - destruct (authenticated_oblivious (pr_tenant_id p) (rq_credentials rq) w1 w2 Ha) as [H1 H2].
    unfold query. rewrite (bind_ok _ _ _ _ _ Hp). rewrite Hp in H1, H2.
    destruct (authenticated_principal (rq_credentials rq) w2) as [[p'|e] w2'] eqn:E2; [|done].
    simpl in H1, H2. injection H1 as <-. rewrite (bind_ok _ _ _ _ _ E2).
    apply (handler_oblivious r p w0 w2' H2).
  - unfold query. apply stable_bind; [|intros; apply handler_reads].
    by apply (authenticated_outside w_db); [intros []|].
Qed.

(** The current policy is the newest: reading a policy without a version gives
    a stored row of the caller under that id than which none is newer, and 404
    exactly when the caller has none. *)
Theorem get_policy_newest (p : Principal) (i : string) (w : world) :
  w_pool w = true → nonempty (pr_tenant_id p) = true → match_class id_class 1 256 i = true →
  let mine := List.filter (λ r, str_eqb (po_tenant_id r) (pr_tenant_id p) && str_eqb (po_policy_id r) i)
                (db_collection_policies (w_db w)) in
  (mine = [] ∧ get_policy p i w = (Raise (ECollectMind (NotFound "policy" i)), w)) ∨
  (∃ r, r ∈ mine ∧ (∀ r', r' ∈ mine → po_created_at r' ≤ po_created_at r) ∧
     get_policy p i w = (Ok (JSONResponse 200 (row_to_policy r)), w)).
Proof.
  intros Hp Hne Hs mine. unfold get_policy, ensure_safe. rewrite Hs.
  rewrite (bind_ok _ _ w i w) by done.
  rewrite (bind_ok _ _ w (row_to_policy <$> head (newest_first po_created_at mine)) w).
  2: { apply acquire_run; [done|]. unfold select. run_prog. do 5 f_equal.
       apply filter_ext_bool. intros r. rewrite visible_tenant by done.
       unfold row_tenant, policy_tenanted. by destruct (str_eqb _ (pr_tenant_id p)). }
  unfold newest_first. pose proof (sort_by_perm (λ r, - po_created_at r) mine) as Hperm.
  pose proof (sort_by_sorted (λ r, - po_created_at r) mine) as Hsort.
  destruct (sort_by _ mine) as [|r l] eqn:E.
  - left. apply Permutation_nil_l in Hperm. by split.
  - right. exists r. split_and!; [rewrite <- Hperm; by left| |done].
    intros r' Hr'. rewrite <- Hperm in Hr'. apply elem_of_cons in Hr' as [->|Hr']; [lia|].
    apply StronglySorted_inv in Hsort as [_ Hall]. rewrite Forall_forall in Hall.
    specialize (Hall r' Hr'). simpl in Hall. lia.
Qed.

(** * Concrete queries *)
Definition other_tenant_policy : policy_row :=
  PolicyRow "globex" "P9" "1.0.0" (JArr [JNull]) (JArr []) 24 (jstrs ["VIN-9"]) "h" (JObj []) (1 # 2)
    "S9" (JObj []) "1.0.0" "repo" "0000000000000000000000000000000000000000" "stub" "v0" "none" 7
    "sig" "key" 1000.
Definition with_foreign_rows : world :=
  upd_db (upd_collection_policies (λ l, l ++ [other_tenant_policy])) (ErasureSamples.stored ["VIN-1"]).
Definition read_request : request :=
  Request "GET" "/api/v1/policies/P1" [] (Some ("Bearer", "tok")) (Ok JNull).
Notation sample_auth := (authenticated_principal (H := Samples.env) (Some ("Bearer", "tok"))).

Lemma query_isolated_witness :
  (query (H := Samples.env) (GetPolicy "P1") read_request (ErasureSamples.stored ["VIN-1"])).1 =
  (query (H := Samples.env) (GetPolicy "P1") read_request with_foreign_rows).1 ∧
  w_db (query (H := Samples.env) (GetPolicy "P1") read_request (ErasureSamples.stored ["VIN-1"])).2 =
  w_db (ErasureSamples.stored ["VIN-1"]).
Proof.
  destruct (sample_auth (ErasureSamples.stored ["VIN-1"])).1 as [p|e] eqn:E;
    [|vm_compute in E; discriminate E].
  apply (query_isolated (H := Samples.env) (GetPolicy "P1") read_request _ _
    (sample_auth (ErasureSamples.stored ["VIN-1"])).2 p (pair_of_fst _ _ E)).
  vm_compute in E. injection E as <-. reflexivity.
Defined.

Lemma get_policy_newest_witness :
  let p := {| pr_tenant_id := "acme"; pr_subject := "s"; pr_scopes := []; pr_token_id := "" |} in
  let w := ErasureSamples.stored ["VIN-1"] in
  let mine := [ErasureSamples.policy_row_for ["VIN-1"]] in
  (mine = [] ∧ get_policy p "P1" w = (Raise (ECollectMind (NotFound "policy" "P1")), w)) ∨
  (∃ r, r ∈ mine ∧ (∀ r', r' ∈ mine → po_created_at r' ≤ po_created_at r) ∧
     get_policy p "P1" w = (Ok (JSONResponse 200 (row_to_policy r)), w)).
Proof.
  intros p w mine. apply (get_policy_newest p "P1" w); reflexivity.
Defined.
