(* ===== verification/App.v ===== *)
(** [app.py]: the routes, the middleware stack and the health endpoints. *)
From S2P Require Import Prelude PyStr PyDict Json JsonText PyTime Errors TokenBucket Models World Samples Database Isolation PyVal AuditLog TenantConfig Auth HotStore Http RateLimit Validator Graph Repository Ingest Erasure BreakGlass Query.
Local Open Scope Z_scope.

(** * Route labels *)
(** [any(c.isdigit() or c in "_-." for c in seg)] on a segment [_ID_SEGMENT] accepts. *)
Definition is_id_segment (seg : string) : bool :=
  match_class id_class 1 256 seg && id_like seg.
(** [_normalize_route]. *)
Definition normalize_route (method path : string) : string :=
  let out := (λ seg, if is_id_segment seg then ":id" else seg) <$>
             List.filter nonempty (split_on "/" path) in
  let template := match out with [] => "/" | _ => "/" +:+ join "/" out end in
  upper method +:+ " " +:+ template.
Definition QUERY_ROUTE_PREFIXES : list string :=
  ["GET /api/v1/policies"; "GET /api/v1/vehicle-groups"; "GET /api/v1/findings/:id/outcome";
   "GET /api/v1/audit"; "GET /api/v1/erasure-requests"].
(** [_is_query_route]. *)
Definition is_query_route (route : string) : bool := existsb (startswith route) QUERY_ROUTE_PREFIXES.

Section App.
Context `{Env} `{Pydantic} `{JwtLib} `{Sha256}.

(** * Middleware *)
(** [_MetricsMiddleware.dispatch]; an exception of the inner application passes
    through it. *)
Definition metrics_dispatch (rq : request) (call_next : M response) : M response :=
  start ← now_mono;
  response ← call_next;
  stop ← now_mono;
  let route := normalize_route (rq_method rq) (rq_path rq) in
  let status_class := str_of_Z (rs_status response / 100) +:+ "xx" in
  inc "http_request_total" [route; status_class];;
  when (is_query_route route)
    (observe "query_request_latency_seconds" [route; status_class] ((stop - start) # 1000000));;
  mret response.

(** What the middleware and the endpoints find in [app.state] ([has_kafka]: [app.state.kafka]
    is not [None]), and the text of [prometheus_client.generate_latest] for the samples so
    far. *)
Record app_state := {
  ratelimit_disabled : bool; has_ratelimit_deps : bool; has_kafka : bool;
  generate_latest : list metric → string }.
(** [_ratelimit_dispatch]. *)
Definition ratelimit_dispatch (st : app_state) (rq : request) (call_next : M response) : M response :=
  if ratelimit_disabled st then call_next
  else if has_ratelimit_deps st then dispatch rq call_next
  else call_next.

(** * Health *)
Definition health : M response := mret (JSONResponse 200 (JObj [("status", JStr "ok")])).
(** [asyncio.gather(..., return_exceptions=True)] and [x is True]. *)
Definition is_true (r : result exn bool) : bool := match r with Ok true => true | _ => false end.
Definition ok_or_not (b : bool) : json := JStr (if b then "ok" else "not_ready").
(** [ready]. *)
Definition ready (st : app_state) : M response :=
  db_ok ← attempt ping;
  redis_ok ← attempt hs_ping;
  let all := is_true db_ok && is_true redis_ok && has_kafka st in
  mret (JSONResponse (if all then 200 else 503)
    (JObj [("ready", JBool all);
           ("components", JObj [("postgres", ok_or_not (is_true db_ok));
                                ("redis", ok_or_not (is_true redis_ok));
                                ("kafka", ok_or_not (has_kafka st))])])).

(** [metrics], with [render_prometheus]. *)
Definition metrics (st : app_state) : M response :=
  samples ← gets w_metrics;
  mret (Response 200 (JStr (generate_latest st samples)) [("content-type", "text/plain; version=0.0.4")]).

(** * Routes *)
Inductive endpoint :=
| EpFindings | EpErasure | EpBreakGlass | EpQuery (r : query_route) | EpHealth | EpReady | EpMetrics.

(** The path templates of the routers; [limit] is the query parameter of the
    versions endpoint. *)
Definition endpoint_of (method path : string) (limit : Z) : option endpoint :=
  match method, split_on "/" path with
  | "POST", ["";"api";"v1";"findings"] => Some EpFindings
  | "POST", ["";"api";"v1";"erasure-requests"] => Some EpErasure
  | "POST", ["";"api";"v1";"audit";"break-glass";"query"] => Some EpBreakGlass
  | "GET", ["";"health"] | "GET", ["";"api";"v1";"health"] => Some EpHealth
  | "GET", ["";"ready"] | "GET", ["";"api";"v1";"ready"] => Some EpReady
  | "GET", ["";"metrics"] => Some EpMetrics
  | "GET", ["";"api";"v1";"tenant-config";"self"] => Some (EpQuery OwnConfig)
  | "GET", ["";"api";"v1";"policies";i] => if nonempty i then Some (EpQuery (GetPolicy i)) else None
  | "GET", ["";"api";"v1";"policies";i;"versions"] =>
      if nonempty i then Some (EpQuery (ListVersions i limit)) else None
  | "GET", ["";"api";"v1";"vehicle-groups";i;"active-policy"] =>
      if nonempty i then Some (EpQuery (ActivePolicy i)) else None
  | "GET", ["";"api";"v1";"findings";i;"outcome"] =>
      if nonempty i then Some (EpQuery (OutcomeFor i)) else None
  | "GET", ["";"api";"v1";"audit";i] => if nonempty i then Some (EpQuery (AuditFor i)) else None
  | "GET", ["";"api";"v1";"erasure-requests";i] =>
      if nonempty i then Some (EpQuery (ErasureStatus i)) else None
  | _, _ => None
  end.

Definition serve_endpoint (st : app_state) (e : endpoint) (rq : request) : M response :=
  match e with
  | EpFindings => post_finding rq
  | EpErasure => submit_erasure_request rq
  | EpBreakGlass => break_glass_query rq
  | EpQuery r => query r rq
  | EpHealth => health
  | EpReady => ready st
  | EpMetrics => metrics st
  end.

(** The exception handlers inside the middleware: FastAPI's for [HTTPException]
    and [collectmind_error_handler]; anything else goes on. *)
Definition handled (m : M response) : M response :=
  catch m (λ e, match e with
    | ECollectMind _ | EHTTP _ _ => mret (JSONResponse (http_status e) (error_body e))
    | _ => raise e
    end).

Definition route (st : app_state) (limit : Z) (rq : request) : M response :=
  match endpoint_of (rq_method rq) (rq_path rq) limit with
  | Some e => serve_endpoint st e rq
  | None => raise (EHTTP 404 (JStr "Not Found"))
  end.

(** The application: the server's own error handler around the two middlewares
    around the routes. *)
Definition app (st : app_state) (limit : Z) (rq : request) : M response :=
  respond (ratelimit_dispatch st rq (metrics_dispatch rq (handled (route st limit rq)))).
End App.

(** * Labels *)
Lemma normalize_route_segments method path :
  ∃ out, normalize_route method path =
           upper method +:+ " " +:+ (match out with [] => "/" | _ => "/" +:+ join "/" out end) ∧
    Forall (λ seg, has_char "/"%char seg = false ∧ is_id_segment seg = false) out.
Proof.
  eexists. split; [reflexivity|]. apply Forall_fmap, Forall_forall. intros seg Hseg. simpl.
  apply list_elem_of_In, filter_In in Hseg as [Hseg _]. apply list_elem_of_In in Hseg.
  destruct (is_id_segment seg) eqn:E; [done|]. split; [|done]. by eapply split_on_no_char.
Qed.

(** A template cannot hold a literal segment that looks like an identifier. *)
Lemma template_no_v1 out rest :
  Forall (λ seg, has_char "/"%char seg = false ∧ is_id_segment seg = false) out →
  (match out with [] => "/" | _ => "/" +:+ join "/" out end) ≠ "/api/v1/" +:+ rest.
Proof.
  intros Hout Heq. assert (out ≠ []) as Hne by (by intros ->).
  assert ("/" +:+ join "/" out = "/api/v1/" +:+ rest) as E by (by destruct out).
  assert (join "/" out = "api/v1/" +:+ rest) as E' by (by injection E). clear E.
  assert (split_on "/"%char (join "/" out) = out) as Hs.
  { apply split_join; [done|]. eapply Forall_impl; [exact Hout|]. by intros ? []. }
  rewrite E' in Hs.
  change ("api/v1/" +:+ rest) with ("api" +:+ String "/" ("v1" +:+ String "/" rest)) in Hs.
  rewrite !split_on_app_char in Hs by done.
  rewrite <- Hs in Hout. inversion Hout as [|?? _ Hout']. inversion Hout' as [|?? [_ Hid] _].
  vm_compute in Hid. discriminate Hid.
Qed.

Lemma has_space_upper s : has_char " "%char (upper s) = has_char " "%char s.
Proof.
  induction s as [|a s IH]; [done|]. change (upper (String a s)) with (String (to_upper a) (upper s)).
  rewrite !has_char_cons, IH. f_equal. by destruct a as [[] [] [] [] [] [] [] []].
Qed.

Lemma not_query_route (method path : string) :
  has_char " "%char method = false → is_query_route (normalize_route method path) = false.
Proof.
  intros Hm. apply not_true_is_false. intros Hq.
  destruct (normalize_route_segments method path) as (out & E & Hout).
  rewrite E in Hq. apply existsb_exists in Hq as (pre & Hin & Hq). apply startswith_spec in Hq as [rest Hq].
  assert (∃ tail, pre +:+ rest = "GET" +:+ String " " ("/api/v1/" +:+ tail)) as [tail Ht].
  { repeat destruct Hin as [<-|Hin]; [..|done]; eexists; reflexivity. }
  rewrite Ht in Hq.
  apply (app_char_inj " "%char) in Hq as [_ Hq]; [by apply template_no_v1 in Hq| |done].
  by rewrite has_space_upper.
Qed.

(** The query latency histogram never records: the API version segment is
    itself collapsed to [:id], so no route label starts with one of the query
    prefixes, and a request of any method (a token without spaces) is never
    classed as a query. *)
Theorem no_route_is_query (method path : string) :
  has_char " "%char method = false → is_query_route (normalize_route method path) = false.
Proof. apply not_query_route. Qed.

Lemma no_route_is_query_witness :
  is_query_route (normalize_route "GET" "/api/v1/policies/P1/versions") = false.
Proof. apply (no_route_is_query "GET" "/api/v1/policies/P1/versions"). reflexivity. Defined.

(** * Counting *)
(** Every answer of the routes is counted once: when the inner application
    answers, the metrics middleware passes the answer on and adds exactly one
    count, under the route label and the status class; when it raises, nothing is
    counted. *)
Theorem metrics_count_once `{Env} (rq : request) (next : M response) (w : world) :
  let label := normalize_route (rq_method rq) (rq_path rq) in
  has_char " "%char (rq_method rq) = false →
  match next (upd_mono_n S w) with
  | (Ok r, w1) => metrics_dispatch rq next w =
      (Ok r, upd_metrics (λ l, l ++ [MInc "http_request_total"
         [label; str_of_Z (rs_status r / 100) +:+ "xx"]]) (upd_mono_n S w1))
  | (Raise e, w1) => metrics_dispatch rq next w = (Raise e, w1)
  end.
Proof.
  intros label Hm. unfold metrics_dispatch, now_mono, inc, observe. run_prog.
  destruct (next (upd_mono_n S w)) as [[r|e] w1]; [|done]. run_prog.
  rewrite not_query_route by done. done.
Qed.

Lemma metrics_count_once_witness :
  let rq := Request "GET" "/health" [] None (Ok JNull) in
  metrics_dispatch (H := Samples.env) rq health Samples.start =
    (Ok (JSONResponse 200 (JObj [("status", JStr "ok")])),
     upd_metrics (λ l, l ++ [MInc "http_request_total" ["GET /health"; "2xx"]])
       (upd_mono_n S (upd_mono_n S Samples.start))).
Proof.
  intros rq. apply (metrics_count_once (H := Samples.env) rq health Samples.start). reflexivity.
Defined.

(** Refusals of the rate limiter are not counted: a request answered 429 or 503
    by the limiter never reaches the metrics middleware, so the request counter
    stays where it was. *)
Theorem limiter_refusals_uncounted `{Env} (st : app_state) (tenant label : string) (rq : request)
    (next : M response) (r : result exn reply) (w : world) (labels : list string) :
  (∀ rep, r = Ok rep → decision rep ≠ 1) →
  counter "http_request_total" labels (decide tenant label (metrics_dispatch rq next) r w).2 =
  counter "http_request_total" labels w.
Proof.
  intros Hr. unfold decide, counter, inc. destruct r as [rep|e].
  - destruct (Z.eqb_spec (decision rep) 1) as [E|_]; [by destruct (Hr rep eq_refl)|].
    run_prog. rewrite !List.filter_app. simpl. by rewrite !app_nil_r.
  - run_prog. rewrite List.filter_app. simpl. by rewrite app_nil_r.
Qed.

Lemma limiter_refusals_uncounted_witness :
  counter "http_request_total" ["POST /api/:id/findings"; "4xx"]
    (decide "acme" "POST /api/:id/findings"
      (metrics_dispatch (H := Samples.env) (Request "POST" "/api/v1/findings" [] None (Ok JNull)) health)
      (Raise (ERedis "down")) Samples.start).2 = 0%nat.
Proof.
  apply (limiter_refusals_uncounted (H := Samples.env)
    {| ratelimit_disabled := false; has_ratelimit_deps := true; has_kafka := true; generate_latest := λ _, "" |} "acme"
    "POST /api/:id/findings" (Request "POST" "/api/v1/findings" [] None (Ok JNull)) health
    (Raise (ERedis "down")) Samples.start ["POST /api/:id/findings"; "4xx"]).
  discriminate.
Defined.

(** Readiness tells the truth: the endpoint answers 200 exactly when the pool
    is open, Redis is connected and answers the ping, and the producer is started;
    otherwise 503, naming the components that are not ready. *)
Theorem ready_iff `{Env} (st : app_state) (w : world) :
  ∃ r w', ready st w = (Ok r, w') ∧ w_db w' = w_db w ∧
    (rs_status r = 200 ↔ w_pool w = true ∧ w_redis_client w = true ∧
                         redis_fault (w_redis_n w) = None ∧ has_kafka st = true) ∧
    (rs_status r = 200 ∨ rs_status r = 503).
Proof.
  unfold ready, attempt, ping, hs_ping, command. run_prog.
  destruct (w_redis_client w) eqn:Ec; simpl.
  - destruct (redis_fault (w_redis_n w)) as [m|] eqn:Ef; simpl; eexists _, _;
      (split; [reflexivity|]); simpl; destruct (w_pool w), (has_kafka st); simpl; naive_solver.
  - eexists _, _. split; [reflexivity|]. simpl. destruct (w_pool w), (has_kafka st); simpl; naive_solver.
Qed.

(** * Isolation of the whole application *)
(** The request's credentials, when they verify, verify as tenant [t]. *)
Definition caller_is `{Env} `{JwtLib} (t : string) (rq : request) : Prop :=
  ∀ w p w', authenticated_principal (rq_credentials rq) w = (Ok p, w') → pr_tenant_id p = t.

Lemma dispatch_confined `{Env} `{JwtLib} (t : string) (rq : request) (next : M response) :
  confined t next → confined t (dispatch rq next).
Proof.
  intros Hn. unfold dispatch. destruct (is_exempt _); [done|]. destruct (negb _); [apply stable_ret|].
  assert (∀ A (m : M A), stable w_db m → confined t (attempt m)) as Hatt.
  { intros A m Hm. apply confined_outside. intros w. unfold attempt. specialize (Hm w). by destruct (m w). }
  apply confined_bind; [by apply Hatt, verify_outside|]. intros [p|e]; [|apply stable_ret].
  apply confined_bind; [by apply confined_outside, get_for_tenant_outside|]. intros config.
  destruct (limits config _) as [r0 b0].
  apply confined_bind; [by intros w|]. intros t0.
  apply confined_bind; [by apply Hatt, consult_outside|]. intros rep.
  unfold decide. repeat first [ exact Hn | confined_step ].
Qed.

(** C1. One tenant's requests never touch another's rows: for every route but the
    operators' break-glass query, through both middlewares and whatever happens
    on the way, a request whose credentials belong to a tenant leaves the rows of
    all other tenants, in every table, as they were. *)
Theorem app_confined `{Env} `{Pydantic} `{JwtLib} `{Sha256} (st : app_state) (limit : Z) (t : string)
    (rq : request) :
  caller_is t rq → endpoint_of (rq_method rq) (rq_path rq) limit ≠ Some EpBreakGlass →
  confined t (app st limit rq).
Proof.
  intros Hc Hep.
  assert (confined t (route st limit rq)) as Hroute.
  { unfold route. destruct (endpoint_of _ _ _) as [e|]; [|apply stable_raise].
    assert (confined t (authenticated_principal (rq_credentials rq))) as Ha.
    { apply confined_outside, (authenticated_outside w_db); [by intros []|done]. }
    destruct e as [ | | |r| | | ]; simpl; [..|apply stable_ret| |by intros w].
    - apply stable_bind_post; [exact Ha|]. intros p w w' E. rewrite <- (Hc _ _ _ E).
      apply accept_finding_confined.
    - apply stable_bind_post; [exact Ha|]. intros p w w' E. rewrite <- (Hc _ _ _ E).
      apply accept_erasure_confined.
    - done.
    - apply confined_bind; [exact Ha|]. intros p. apply confined_outside, handler_reads.
    - apply confined_outside. unfold ready, attempt, ping, hs_ping, command. intros w. run_prog.
      destruct (w_redis_client w); simpl; [|done]. by destruct (redis_fault (w_redis_n w)). }
  assert (confined t (metrics_dispatch rq (handled (route st limit rq)))) as Hinner.
  { unfold metrics_dispatch, handled, now_mono, when.
    repeat first [ exact Hroute | confined_step ]. }
  unfold app, respond. apply confined_catch; [|intros; apply stable_ret].
  unfold ratelimit_dispatch. destruct (ratelimit_disabled st); [done|].
  destruct (has_ratelimit_deps st); [|done]. by apply dispatch_confined.
Qed.

Lemma app_confined_witness :
  let st := {| ratelimit_disabled := false; has_ratelimit_deps := true; has_kafka := true; generate_latest := λ _, "" |} in
  confined "acme" (app (H := Samples.env) (H0 := GraphSamples.pydantic) (H2 := IngestSamples.sha) st 50
    IngestSamples.rq1).
Proof.
  intros st. apply (app_confined (H := Samples.env) (H0 := GraphSamples.pydantic) st 50 "acme"
    IngestSamples.rq1).
  - intros w p w' E. unfold authenticated_principal, as_http, catch in E. simpl in E.
    destruct (verify TenantIssuer "tok" w) as [[q|e] w1] eqn:Ev; [|by destruct e].
    injection E as <- _. apply verify_inv in Ev as (key & payload & Hd & Hp).
    simpl in Hd. destruct (_ <? _); [|discriminate Hd]. injection Hd as <-.
    vm_compute in Hp. by injection Hp as <-.
  - discriminate.
Defined.
