(* ===== verification/Layout.v ===== *)
(** Where the program finds its data files: [_resolve_corpus_root] of [app.py],
    [_prompt_dir] of [graph/policy_generator.py] and [_default_path] of the two validator
    modules.  A path is the list of its parts below the root. *)
From S2P Require Import Prelude PyStr Errors Models World Slm Guards.

Definition path : Type := list string.
(** [p.parent] and [p.parents[n]]. *)
Definition parent (p : path) : path := take (length p - 1) p.
Definition parents (n : nat) (p : path) : path := Nat.iter (S n) parent p.

Section Layout.
Context `{Environ} (exists_at : path → bool).

(** [container] if it exists, else [repo]. *)
Definition prefer (container repo : path) : path := if exists_at container then container else repo.

(** [here] is the resolved [__file__] of the module. *)
Definition CORPUS : path := ["tests"; "fixtures"; "policy_corpus"].
Definition resolve_corpus_root (here : path) : path :=
  let env := default "" (environ "POLICY_CORPUS_ROOT") in
  if nonempty env then path_parts env
  else prefer (parent (parent here) ++ CORPUS) (parents 2 here ++ CORPUS).
Definition PROMPTS_V1 : path := ["prompts"; "policy_generator"; "v1.0.0"].
Definition prompt_dir (here : path) : path :=
  prefer (parent (parent (parent here)) ++ PROMPTS_V1) (parents 3 here ++ PROMPTS_V1).
Definition VSS_SIGNALS : path := ["config"; "vss"; "v6.0"; "signals.yaml"].
Definition vss_default_path (here : path) : path :=
  prefer (parent (parent (parent here)) ++ VSS_SIGNALS) (parents 3 here ++ VSS_SIGNALS).
Definition PII_SIGNALS : path := ["config"; "vss"; "v6.0"; "pii_signals.yaml"].
Definition governance_default_path (here : path) : path :=
  prefer (parent (parent (parent here)) ++ PII_SIGNALS) (parents 3 here ++ PII_SIGNALS).
End Layout.

Lemma parent_snoc p x : parent (p ++ [x]) = p.
Proof. unfold parent. rewrite length_app. simpl. replace (length p + 1 - 1)%nat with (length p) by lia. apply take_app_length. Qed.

(** The directory the package lies in: the image's root, or [src] of a checkout. *)
Inductive layout := Container | Checkout.
Definition package (l : layout) (root : path) : path :=
  root ++ match l with Container => ["collectmind"] | Checkout => ["src"; "collectmind"] end.
Lemma up_two l root a b : parent (parent (parent (package l root ++ [a; b]))) =
  match l with Container => root | Checkout => root ++ ["src"] end.
Proof.
  destruct l; unfold package; simpl.
  - rewrite <- app_assoc. replace (root ++ ["collectmind"] ++ [a; b]) with (((root ++ ["collectmind"]) ++ [a]) ++ [b])
      by (by rewrite <- !app_assoc). by rewrite !parent_snoc.
  - replace ((root ++ ["src"; "collectmind"]) ++ [a; b]) with ((((root ++ ["src"]) ++ ["collectmind"]) ++ [a]) ++ [b])
      by (by rewrite <- !app_assoc). by rewrite !parent_snoc.
Qed.
Lemma up_one l root a : parent (parent (package l root ++ [a])) =
  match l with Container => root | Checkout => root ++ ["src"] end.
Proof.
  destruct l; unfold package; simpl; [by rewrite !parent_snoc|].
  replace ((root ++ ["src"; "collectmind"]) ++ [a]) with (((root ++ ["src"]) ++ ["collectmind"]) ++ [a])
    by (by rewrite <- !app_assoc). by rewrite !parent_snoc.
Qed.

(** The image and a checkout find the same files: in both layouts, with the data under the
    root and nothing of the kind under [src], the corpus (unless the environment names
    another), the prompts, the vocabulary and the list of guarded signals are the ones at
    the root. *)
Theorem resources_found `{Environ} (exists_at : path → bool) (l : layout) (root : path) :
  (∀ rel, rel ∈ [CORPUS; PROMPTS_V1; VSS_SIGNALS; PII_SIGNALS] →
     exists_at (root ++ rel) = true ∧ (l = Checkout → exists_at (root ++ ["src"] ++ rel) = false)) →
  environ "POLICY_CORPUS_ROOT" = None →
  resolve_corpus_root exists_at (package l root ++ ["app.py"]) = root ++ CORPUS ∧
  prompt_dir exists_at (package l root ++ ["graph"; "policy_generator.py"]) = root ++ PROMPTS_V1 ∧
  vss_default_path exists_at (package l root ++ ["validator"; "vss.py"]) = root ++ VSS_SIGNALS ∧
  governance_default_path exists_at (package l root ++ ["validator"; "governance.py"]) = root ++ PII_SIGNALS.
Proof.
  intros Hex Henv.
  assert (∀ rel up, rel ∈ [CORPUS; PROMPTS_V1; VSS_SIGNALS; PII_SIGNALS] →
    up = match l with Container => root | Checkout => root ++ ["src"] end →
    prefer exists_at (up ++ rel) (parent up ++ rel) = root ++ rel) as Hp.
  { intros rel up Hr ->. destruct (Hex rel Hr) as [Hy Hn]. unfold prefer. destruct l; [by rewrite Hy|].
    rewrite <- app_assoc, Hn by done. by rewrite parent_snoc. }
  unfold resolve_corpus_root, prompt_dir, vss_default_path, governance_default_path, parents. rewrite Henv. simpl Nat.iter.
  split_and!; (apply Hp; [set_solver|]); [apply up_one|apply up_two..].
Qed.
Lemma resources_found_witness :
  let e : Environ := λ _, None in
  resolve_corpus_root (H := e) (λ p, bool_decide (p ∈ [["repo"] ++ CORPUS; ["repo"] ++ PROMPTS_V1; ["repo"] ++ VSS_SIGNALS; ["repo"] ++ PII_SIGNALS]))
    ["repo"; "src"; "collectmind"; "app.py"] = ["repo"; "tests"; "fixtures"; "policy_corpus"].
Proof.
  intros e.
  apply (proj1 (resources_found (H := e) (λ p, bool_decide (p ∈ [["repo"] ++ CORPUS; ["repo"] ++ PROMPTS_V1; ["repo"] ++ VSS_SIGNALS; ["repo"] ++ PII_SIGNALS]))
    Checkout ["repo"]
    ltac:(intros rel Hr; repeat (apply elem_of_cons in Hr as [->|Hr]; [split; [vm_compute; reflexivity|intros _; vm_compute; reflexivity]|]);
      by apply not_elem_of_nil in Hr) eq_refl)).
Defined.
