(* ===== verification/TenantContext.v ===== *)
(** [registry/middleware/tenant_context.py]: a middleware that marks [request.state] with
    the caller's tenant and correlation id and logs what the handler raises.  [app.py] does
    not register it; it is modelled as the wrapper it is, around any handler. *)
From S2P Require Import Prelude PyStr PyDict Json Errors Models World Samples Auth Http App.
Local Open Scope Z_scope.

(** A value in [request.state]. *)
Inductive state_value :=
| SPrincipal (p : Principal) | SOperator (p : OperatorPrincipal) | SText (s : string) | SNone.
Definition request_state : Type := list (string * state_value).
(** [hasattr(v, "tenant_id")] and the attribute. *)
Definition tenant_attr (v : state_value) : option string :=
  match v with SPrincipal p => Some (pr_tenant_id p) | _ => None end.

(** The world with the events of the module's logger. *)
Definition logged : Type := world * list (list (string * json)).
Definition in_world {A} (m : M A) : prog exn logged A := λ s, let '(r, w) := m s.1 in (r, (w, s.2)).
Definition log_exception (ev : list (string * json)) : prog exn logged unit :=
  modify (λ s, (s.1, s.2 ++ [ev])).

Definition marked (rq : request) (state : request_state) : request_state :=
  let tenant_id := dget "principal" state ≫= tenant_attr in
  dset "correlation_id" (SText (default "" (header "x-correlation-id" rq)))
    (dset "tenant_id" (match tenant_id with Some t => SText t | None => SNone end) state).
Definition failed_event (rq : request) (state : request_state) : list (string * json) :=
  [("event", JStr "request_dispatch_failed");
   ("tenant_id", match dget "principal" state ≫= tenant_attr with Some t => JStr t | None => JNull end);
   ("path", JStr (rq_path rq)); ("method", JStr (rq_method rq))].
(** [TenantContextMiddleware.dispatch]. *)
Definition tenant_context (rq : request) (state : request_state)
    (call_next : request_state → prog exn logged response) : prog exn logged response :=
  catch (call_next (marked rq state)) (λ e, log_exception (failed_event rq state);; raise e).

Lemma marked_values rq state :
  dget "correlation_id" (marked rq state) = Some (SText (default "" (header "x-correlation-id" rq))) ∧
  dget "tenant_id" (marked rq state) =
    Some (match dget "principal" state ≫= tenant_attr with Some t => SText t | None => SNone end) ∧
  (∀ k, k ≠ "tenant_id" → k ≠ "correlation_id" → dget k (marked rq state) = dget k state).
Proof.
  unfold marked. split_and!; [apply dget_dset_eq|by rewrite dget_dset_ne, dget_dset_eq|].
  intros k H1 H2. by rewrite !dget_dset_ne.
Qed.

(** The middleware is transparent: around any handler the answer, the exception and the
    world are the handler's, the handler sees the state with the two marks and nothing else
    changed, and the log gains one event just when the handler raises.  Around the whole
    application it marks no tenant, since nothing writes [request.state.principal]. *)
Theorem tenant_context_transparent (rq : request) (state : request_state)
    (call_next : request_state → prog exn logged response) (w : world) (log : list (list (string * json))) :
  (∀ st s, (call_next st s).2.2 = s.2) →
  let '(r, (w', log')) := tenant_context rq state call_next (w, log) in
  (r, w') = ((call_next (marked rq state) (w, log)).1, (call_next (marked rq state) (w, log)).2.1) ∧
  log' = log ++ match r with Ok _ => [] | Raise _ => [failed_event rq state] end ∧
  (dget "principal" state = None → dget "tenant_id" (marked rq state) = Some SNone).
Proof.
  intros Hlog. specialize (Hlog (marked rq state) (w, log)). unfold tenant_context, catch, log_exception.
  destruct (call_next (marked rq state) (w, log)) as [[r|e] [w' log']] eqn:E; simpl in *; subst log'.
  - split_and!; [done|by rewrite app_nil_r|]. intros Hp. destruct (marked_values rq state) as (_ & -> & _). by rewrite Hp.
  - run_prog. split_and!; [done|done|]. intros Hp. destruct (marked_values rq state) as (_ & -> & _). by rewrite Hp.
Qed.
Lemma tenant_context_transparent_witness :
  let rq := Request "GET" "/health" [("x-correlation-id", "c-9")] None (Ok JNull) in
  tenant_context rq [] (λ _, in_world (raise (ERuntimeError "down"))) (Samples.start, []) =
    (Raise (ERuntimeError "down"), (Samples.start, [failed_event rq []])) ∧
  dget "tenant_id" (marked rq []) = Some SNone.
Proof.
  intros rq. split; [reflexivity|].
  apply (proj2 (tenant_context_transparent rq [] (λ _, in_world (raise (ERuntimeError "down"))) Samples.start []
    (λ _ _, eq_refl))). reflexivity.
Defined.
