(* ===== verification/LogSetup.v ===== *)
(** [observability/logging.py]: [configure_logging] and what the loggers print under the
    configurations it installs.  structlog is third-party code: its processors, its loggers
    and the configuration each logger works under are parameters. *)
From S2P Require Import Prelude PyStr PyDict Json Regex Logging Errors.
Local Open Scope Z_scope.

Definition event : Type := list (string * json).

(** * The configuration *)
Inductive processor :=
| MergeContextvars | AddLogLevel | TimeStamper | StackInfoRenderer | FormatExcInfo | PiiProcessor | JSONRenderer.
(** The [processors] of the call of [structlog.configure]. *)
Definition PROCESSORS : list processor :=
  [MergeContextvars; AddLogLevel; TimeStamper; StackInfoRenderer; FormatExcInfo; PiiProcessor; JSONRenderer].
(** The arguments of [structlog.configure]: the processors, the level of the filtering wrapper
    class, [cache_logger_on_first_use]. *)
Record log_config := LogConfig { lc_processors : list processor; lc_level : Z; lc_cache : bool }.

(** [getattr(logging, level.upper(), logging.INFO)]: [None] for the two upper-case names of
    the module that are not levels, a format text and a table. *)
Definition level_attr (level : string) : option Z :=
  let name := upper level in
  if bool_decide (name ∈ ["CRITICAL"; "FATAL"]) then Some 50
  else if str_eqb name "ERROR" then Some 40
  else if bool_decide (name ∈ ["WARNING"; "WARN"]) then Some 30
  else if str_eqb name "INFO" then Some 20
  else if str_eqb name "DEBUG" then Some 10
  else if str_eqb name "NOTSET" then Some 0
  else if bool_decide (name ∈ ["BASIC_FORMAT"; "_STYLES"]) then None
  else Some 20.
(** What the standard library and structlog raise for those two. *)
Definition root_level_error (level : string) : exn :=
  if str_eqb (upper level) "BASIC_FORMAT" then EValueError "Unknown level: '%(levelname)s:%(name)s:%(message)s'"
  else ETypeError "Level not an integer or a valid string".
Definition filter_level_error (level : string) : exn :=
  if str_eqb (upper level) "BASIC_FORMAT" then EKeyError "%(levelname)s:%(name)s:%(message)s"
  else ETypeError "unhashable type: 'dict'".

(** What structlog is asked to do: to take a configuration, and to log an event through a
    logger of [get_logger]. *)
Inductive log_op := Configure (c : log_config) | Log (logger method : string) (ev : event).
Definition configs (ops : list log_op) : list log_config :=
  omap (λ o, match o with Configure c => Some c | Log _ _ _ => None end) ops.

(** The root logger of the standard library, and what structlog was asked so far. *)
Record log_state := LogState {
  ls_handlers : bool; ls_root_level : Z; ls_history : list log_op }.
Definition unconfigured : log_state := LogState false 30 [].
(** The configuration in force. *)
Definition ls_structlog (s : log_state) : option log_config := last (configs (ls_history s)).
Definition root_level (z : Z) (s : log_state) : log_state := LogState (ls_handlers s) z (ls_history s).
Definition add_handler (s : log_state) : log_state := LogState true (ls_root_level s) (ls_history s).
Definition ask (o : log_op) (s : log_state) : log_state :=
  LogState (ls_handlers s) (ls_root_level s) (ls_history s ++ [o]).

(** [logging.basicConfig]: nothing happens when the root logger has a handler. *)
Definition basic_config (level : string) : prog exn log_state unit :=
  handlers ← gets ls_handlers;
  if (handlers : bool) then mret tt
  else
    modify add_handler;;
    match level_attr level with
    | Some z => modify (root_level z)
    | None => raise (root_level_error level)
    end.
Definition configure_logging (level : string) : prog exn log_state unit :=
  basic_config level;;
  match level_attr level with
  | Some z => modify (ask (Configure (LogConfig PROCESSORS z true)))
  | None => raise (filter_level_error level)
  end.

(** * structlog *)
(** What its processors make of an event, given the name of the logging method, and the text
    its renderer prints. *)
Class Structlog := {
  merge_contextvars : string → event → event;
  add_log_level : string → event → event;
  time_stamper : string → event → event;
  stack_info_renderer : string → event → event;
  format_exc_info : string → event → event;
  json_renderer : string → event → string }.
(** The line a logger prints, if any, after what was asked before. *)
Class Loggers := prints : list log_op → string → string → event → option string.

Section Pipeline.
Context `{Structlog}.
Definition process (method : string) (p : processor) (ev : event) : event + string :=
  match p with
  | MergeContextvars => inl (merge_contextvars method ev)
  | AddLogLevel => inl (add_log_level method ev)
  | TimeStamper => inl (time_stamper method ev)
  | StackInfoRenderer => inl (stack_info_renderer method ev)
  | FormatExcInfo => inl (format_exc_info method ev)
  | PiiProcessor => inl (pii_processor ev)
  | JSONRenderer => inr (json_renderer method ev)
  end.
(** Each processor gets what the one before returned; the text comes from the last. *)
Fixpoint chain (method : string) (ps : list processor) (ev : event) : option string :=
  match ps with
  | [] => None
  | p :: ps' =>
      match process method p ev, ps' with
      | inl ev', _ => chain method ps' ev'
      | inr text, [] => Some text
      | inr _, _ => None
      end
  end.
(** Documented behaviour: once structlog is configured, a line that a logger prints is what
    the processors of a configuration make of the event, of the one in force or, for a
    logger that was cached on its first use, of the one in force then. *)
Class StructlogLaws `{Loggers} := {
  printed_by_chain : ∀ ops logger method ev line, configs ops ≠ [] →
    prints ops logger method ev = Some line →
    ∃ c, c ∈ configs ops ∧ chain method (lc_processors c) ev = Some line }.
End Pipeline.

Section Calls.
Context `{Loggers}.
(** A call of a logging method. *)
Definition log (logger method : string) (ev : event) : prog exn log_state (option string) :=
  ops ← gets ls_history;
  modify (ask (Log logger method ev));;
  mret (prints ops logger method ev).

(** The calls a process makes, in order; a configuration that raises is given up. *)
Inductive log_call := SetUp (level : string) | Emit (logger method : string) (ev : event).
Definition log_step (s : log_state) (c : log_call) : log_state :=
  match c with SetUp level => (configure_logging level s).2 | Emit l m ev => (log l m ev s).2 end.
Definition log_steps : log_state → list log_call → log_state := foldl log_step.
End Calls.

(** Every string the processor reaches is free of PII. *)
Definition stripped (ev : event) : Prop :=
  ∀ k v, (k, v) ∈ ev →
  match v with
  | JStr s => pii_free s
  | JObj o => ∀ k' s, (k', JStr s) ∈ o → pii_free s
  | _ => True
  end.
Lemma processor_strips ev : stripped (pii_processor ev).
Proof.
  intros k v ([k0 v0] & E & _)%list_elem_of_fmap. injection E as -> ->. destruct v0; simpl; try done.
  - apply strip_pii_free.
  - intros k' s ([k1 v1] & E & _)%list_elem_of_fmap. injection E as -> E. destruct v1; simpl in E; try done.
    injection E as ->. apply strip_pii_free.
Qed.
Lemma configured level s s' : configure_logging level s = (Ok tt, s') →
  ∃ z, level_attr level = Some z ∧ ls_structlog s' = Some (LogConfig PROCESSORS z true).
Proof.
  unfold configure_logging, basic_config, ls_structlog, configs. run_prog.
  destruct (level_attr level) as [z|], (ls_handlers s); simpl; intros [= <-]; exists z; split; try done; simpl;
    rewrite omap_app; cbn; by rewrite last_snoc.
Qed.

Section Lines.
Context `{Loggers} `{Structlog}.

(** Every configuration is the program's own. *)
Definition own (s : log_state) : Prop := Forall (λ c, lc_processors c = PROCESSORS) (configs (ls_history s)).
Lemma configs_snoc ops o : configs (ops ++ [o]) = configs ops ++ configs [o].
Proof. apply omap_app. Qed.
(** A step adds the program's configuration or none. *)
Lemma step_configs s c : configs (ls_history (log_step s c)) = configs (ls_history s) ∨
  ∃ z, configs (ls_history (log_step s c)) = configs (ls_history s) ++ [LogConfig PROCESSORS z true].
Proof.
  destruct c as [level|l m ev]; simpl; [|left; by rewrite configs_snoc, app_nil_r].
  unfold configure_logging, basic_config. run_prog.
  destruct (ls_handlers s), (level_attr level) as [z|]; simpl; eauto; right; exists z; by rewrite configs_snoc.
Qed.
Lemma steps_own cs s : own s → own (log_steps s cs).
Proof.
  revert s. induction cs as [|c cs IH]; intros s Hs; [done|]. apply IH. unfold own.
  destruct (step_configs s c) as [->|(z & ->)]; [done|]. apply Forall_app. split; [done|by repeat constructor].
Qed.
Lemma steps_configured cs s : configs (ls_history s) ≠ [] → configs (ls_history (log_steps s cs)) ≠ [].
Proof.
  revert s. induction cs as [|c cs IH]; intros s Hs; [done|]. apply IH.
  destruct (step_configs s c) as [->|(z & ->)]; [done|]. by destruct (configs (ls_history s)).
Qed.
Lemma own_chain method ev line : chain method PROCESSORS ev = Some line →
  ∃ ev', line = json_renderer method ev' ∧ stripped ev'.
Proof. intros E. cbn in E. injection E as <-. by eexists; split; [|apply processor_strips]. Qed.
End Lines.

(** C38. Log lines are redacted: once [configure_logging] has returned, whatever was logged
    before and however often logging is configured again and used since, every line that a
    logger prints is the renderer's text of an event with no PII in any top-level string and
    in any string of a top-level dict, whatever the other processors added to it: context
    variables, stack traces and formatted exceptions included.  It holds for a logger that
    works under the latest configuration and for one that was cached under an earlier one. *)
Theorem log_lines_redacted `{Loggers} `{Structlog} `{!StructlogLaws} (before after : list log_call) (level : string)
    (s s' : log_state) (logger method line : string) (ev : event) :
  configure_logging level (log_steps unconfigured before) = (Ok tt, s) →
  log logger method ev (log_steps s after) = (Ok (Some line), s') →
  ∃ ev', line = json_renderer method ev' ∧ stripped ev'.
Proof.
  intros Es El. assert (s = log_steps unconfigured (before ++ [SetUp level])) as ->.
  { unfold log_steps. rewrite foldl_app. simpl. fold log_steps. by rewrite Es. }
  assert (own (log_steps (log_steps unconfigured (before ++ [SetUp level])) after)) as Hown
    by (apply steps_own, steps_own, Forall_nil_2).
  assert (configs (ls_history (log_steps (log_steps unconfigured (before ++ [SetUp level])) after)) ≠ []) as Hne.
  { apply steps_configured. apply configured in Es as (z & _ & Hz). intros E. unfold ls_structlog in Hz. by rewrite E in Hz. }
  injection El as El _. destruct (printed_by_chain _ _ _ _ _ Hne El) as (c & Hc & Hch).
  unfold own in Hown. rewrite Forall_forall in Hown. rewrite (Hown c Hc) in Hch. by eapply own_chain.
Qed.

Module LogSetupSamples.
(** An exception is formatted with its text; a logger keeps the configuration of its first
    use, if that asked for it, and prints what is at or above the level of its method. *)
Definition rank (method : string) : Z := if str_eqb method "debug" then 10 else if str_eqb method "exception" then 40 else 20.
Fixpoint bound (logger : string) (ops : list log_op) (now : option log_config) : option log_config :=
  match ops with
  | [] => now
  | Configure c :: ops' => bound logger ops' (Some c)
  | Log l _ _ :: ops' =>
      match now with
      | Some c => if str_eqb l logger && lc_cache c then Some c else bound logger ops' now
      | None => bound logger ops' now
      end
  end.
#[global] Instance structlog : Structlog := {|
  merge_contextvars := λ _ ev, ev; add_log_level := λ m ev, ev ++ [("level", JStr m)];
  time_stamper := λ _ ev, ev; stack_info_renderer := λ _ ev, ev;
  format_exc_info := λ _ ev, ev ++ [("exception", JStr "ValueError: alice@example.com")];
  json_renderer := λ _ ev, String.concat " " ((λ kv, match kv.2 with JStr s => s | _ => "" end) <$> ev) |}.
#[global] Instance loggers : Loggers := λ ops logger method ev,
  match bound logger ops None with
  | Some c => if rank method <? lc_level c then None else chain method (lc_processors c) ev
  | None => None
  end.
Lemma bound_in logger ops now c : bound logger ops now = Some c → now = Some c ∨ c ∈ configs ops.
Proof.
  unfold configs. revert now. induction ops as [|[d|l m ev] ops IH]; intros now Hb; cbn in *; [by left|..].
  - destruct (IH _ Hb) as [[= ->]|Hc]; right; [by left|by right].
  - destruct now as [d|]; [|by apply IH]. destruct (str_eqb l logger && lc_cache d); [by left|by apply IH].
Qed.
#[global] Instance structlog_laws : StructlogLaws.
Proof.
  split. intros ops logger method ev line _. unfold prints, loggers.
  destruct (bound logger ops None) as [c|] eqn:Eb; [|done]. destruct (_ <? _); [done|]. intros Hl. exists c.
  by destruct (bound_in _ _ _ _ Eb).
Qed.
Definition failure : event := [("event", JStr "failed")].
(** Two loggers; the first is cached before logging is configured again. *)
Definition s1 : log_state := (configure_logging "info" unconfigured).2.
Definition s2 : log_state := log_steps s1 [Emit "a" "info" failure; SetUp "critical"].
End LogSetupSamples.
Import LogSetupSamples.

Lemma log_lines_redacted_witness :
  (log "a" "exception" failure s2).1 = Ok (Some "failed exception ValueError: [redacted]") ∧
  ∃ ev', "failed exception ValueError: [redacted]" = json_renderer "exception" ev' ∧ stripped ev'.
Proof.
  split; [vm_compute; reflexivity|].
  apply (log_lines_redacted [] [Emit "a" "info" failure; SetUp "critical"] "info" s1
    (log "a" "exception" failure s2).2 "a" "exception" "failed exception ValueError: [redacted]" failure).
  - vm_compute. reflexivity.
  - vm_compute. reflexivity.
Defined.
(** An unknown level falls back to INFO, except for two names of the module that are no
    levels, which raise. *)
Example level_fallback :
  level_attr "verbose" = Some 20 ∧ level_attr "warn" = Some 30 ∧
  (configure_logging "basic_format" unconfigured).1 =
    Raise (EValueError "Unknown level: '%(levelname)s:%(name)s:%(message)s'").
Proof. by vm_compute. Qed.
(** A second call does not change the root logger's level. *)
Example root_level_sticks :
  let s := (configure_logging "debug" s1).2 in
  ls_root_level s = 20 ∧ ls_structlog s = Some (LogConfig PROCESSORS 10 true).
Proof. by vm_compute. Qed.
