(* ===== verification/Lifespan.v ===== *)
(** [app._lifespan]: start-up and shut-down of the process, over the components
    they start and stop. *)
From S2P Require Import Prelude PyStr PyDict Json JsonText PyTime Errors Kafka Listener Models World Samples Database Isolation PyVal TenantConfig Auth HotStore Http RateLimit Validator Graph Signing Feedback Slm App.
Local Open Scope Z_scope.

(** What the calls to the outside raise, if they do: the migration run, the pool,
    the broker, the configuration files of the validator; and on the way out the
    broker, the Redis client and the pool. *)
Record outside := Outside {
  at_migrate : option exn; at_pool : option exn; at_broker : option exn; at_validator : option exn;
  at_broker_stop : option exn; at_redis_close : option exn; at_pool_close : option exn }.

Section Lifespan.
Context `{Env} `{Environ} `{Ed25519}.

(** The process: the state the requests act on, the started components, and what
    [app.state] holds once start-up is through. *)
Record running := Running {
  ru_client : client_choice; ru_signer : LocalKeySigner; ru_fail_rate : Q; ru_factor : Q }.
Record process := Process {
  pc_world : world; pc_kafka : producer; pc_listener : consumer; pc_key_file : option string;
  pc_feedback : bool; pc_state : option running }.

Definition fault (o : option exn) : prog exn process unit :=
  match o with Some e => raise e | None => mret tt end.
Definition on_world {A} (m : M A) : prog exn process A := λ p,
  let '(r, w) := m (pc_world p) in
  (r, Process w (pc_kafka p) (pc_listener p) (pc_key_file p) (pc_feedback p) (pc_state p)).
Definition on_kafka {A} (m : prog exn producer A) : prog exn process A := λ p,
  let '(r, k) := m (pc_kafka p) in
  (r, Process (pc_world p) k (pc_listener p) (pc_key_file p) (pc_feedback p) (pc_state p)).
Definition on_listener (f : consumer → consumer) : prog exn process unit := λ p,
  (Ok tt, Process (pc_world p) (pc_kafka p) (f (pc_listener p)) (pc_key_file p) (pc_feedback p) (pc_state p)).
Definition on_key_file {A} (m : prog exn (option string) A) : prog exn process A := λ p,
  let '(r, k) := m (pc_key_file p) in
  (r, Process (pc_world p) (pc_kafka p) (pc_listener p) k (pc_feedback p) (pc_state p)).
Definition set_feedback (b : bool) : prog exn process unit := λ p,
  (Ok tt, Process (pc_world p) (pc_kafka p) (pc_listener p) (pc_key_file p) b (pc_state p)).
Definition set_state (r : running) : prog exn process unit := λ p,
  (Ok tt, Process (pc_world p) (pc_kafka p) (pc_listener p) (pc_key_file p) (pc_feedback p) (Some r)).

(** [os.environ.get("MIGRATIONS_AUTO_APPLY", "false").lower() == "true"]. *)
Definition migrations_auto_apply : bool :=
  str_eqb (lower (default "false" (environ "MIGRATIONS_AUTO_APPLY"))) "true".
(** [SimulatorCollectorAIClient.from_env]: the failure rate. *)
Definition fail_rate_from_env : result exn Q :=
  let s := default "0.0" (environ "COLLECTOR_AI_FAIL_RATE") in
  match float_text s with
  | Some q => Ok q
  | None => Raise (EValueError ("could not convert string to float: '" +:+ s +:+ "'"))
  end.

(** [_lifespan] up to its [yield]; [factor] is the configured acceleration and [n]
    the draw for a new signing key. *)
Definition startup (o : outside) (factor : Q) (n : nat) : prog exn process unit :=
  when migrations_auto_apply (fault (at_migrate o));;
  fault (at_pool o);; on_world Database.connect;;
  on_world hs_connect;;
  on_kafka (producer_start (at_broker o));;
  on_listener Listener.start;;
  signer ← on_key_file (from_path n "dev-key-1");
  policy_client ← lift select_policy_client;
  fault (at_validator o);;
  rate ← lift fail_rate_from_env;
  scheduler ← lift (scheduler_factor (Some factor) None);
  set_state {| ru_client := policy_client; ru_signer := signer; ru_fail_rate := rate; ru_factor := scheduler |};;
  set_feedback true.

(** The [finally] block. *)
Definition shutdown (o : outside) : prog exn process unit :=
  set_feedback false;;
  on_listener (λ c, (Listener.stop c).1);;
  on_kafka (producer_stop (at_broker_stop o));;
  fault (at_redis_close o);; on_world hs_close;;
  fault (at_pool_close o);; on_world Database.close.

(** The whole life of the process: the requests are served between the two, and
    the [finally] block runs whatever they end in. *)
Definition finally {A} (m : prog exn process A) (f : prog exn process unit) : prog exn process A := λ p,
  let '(r, p1) := m p in
  match f p1 with (Ok _, p2) => (r, p2) | (Raise e, p2) => (Raise e, p2) end.
Definition lifespan {A} (o : outside) (factor : Q) (n : nat) (serve : prog exn process A) : prog exn process A :=
  startup o factor n;; finally serve (shutdown o).

(** What [app.state] shows the handlers; [prom] is [generate_latest]. *)
Definition state_of (prom : list metric → string) (p : process) : app_state :=
  {| ratelimit_disabled := false; has_ratelimit_deps := bool_decide (is_Some (pc_state p));
     has_kafka := bool_decide (is_Some (pc_state p)); generate_latest := prom |}.

(** * Facts *)
(** A process that has not started anything. *)
Definition cold (p : process) : Prop :=
  w_pool (pc_world p) = false ∧ w_redis_client (pc_world p) = false ∧ p_producer (pc_kafka p) = None ∧
  held (pc_listener p) = 0%nat ∧ cs_task (pc_listener p) = None ∧ pc_feedback p = false.
(** Everything the process needs is up. *)
Definition serving (p : process) : Prop :=
  w_pool (pc_world p) = true ∧ w_redis_client (pc_world p) = true ∧ p_producer (pc_kafka p) = Some true ∧
  (∃ ph, cs_task (pc_listener p) = Some ph) ∧ pc_feedback p = true ∧
  ∃ r, pc_state p = Some r ∧ select_policy_client = Ok (ru_client r) ∧ (0 < ru_factor r)%Q.

Lemma fault_ok o p u p' : fault o p = (Ok u, p') → o = None ∧ p' = p.
Proof. destruct o; simpl; unfold raise, mret, prog_ret; intros; by simplify_eq. Qed.
Lemma scheduler_positive f q : scheduler_factor (Some f) None = Ok q → (0 < q)%Q.
Proof.
  unfold scheduler_factor. simpl. destruct (Qle_bool f 0) eqn:E; [done|]. intros [= <-].
  apply QArith_base.Qnot_le_lt. intros Hle. apply QArith_base.Qle_bool_iff in Hle. congruence.
Qed.
Lemma from_path_file n kid file s file' : from_path n kid file = (Ok s, file') → is_Some file'.
Proof.
  unfold from_path. run_prog. destruct file as [text|]; simpl.
  - destruct (load_pem text) as [[sk|]|e]; simpl; intros; simplify_eq; eauto.
  - intros. simplify_eq. eauto.
Qed.

Lemma producer_started f k k' : producer_start f k = (Ok tt, k') → p_producer k = None →
  k' = Producer (Some true) (p_sent k).
Proof. unfold producer_start. run_prog. intros E Hk. rewrite Hk in E. destruct f; simpl in E; by simplify_eq. Qed.

Lemma startup_outcome o factor n p p' : cold p → startup o factor n p = (Ok tt, p') →
  serving p' ∧ ∀ r, pc_state p' = Some r → ru_factor r = factor.
Proof.
  intros (_ & _ & Hk & _ & Ht & _) E. unfold startup in E.
  apply bind_inv_ok in E as ([] & p1 & E1 & E).
  assert (p1 = p) as ->.
  { unfold when in E1. destruct migrations_auto_apply; [by apply fault_ok in E1 as [_ ->]|]. by injection E1. }
  apply bind_inv_ok in E as ([] & p2 & [_ ->]%fault_ok & E).
  apply bind_inv_ok in E as ([] & p3 & E3 & E). unfold on_world, Database.connect, modify in E3. injection E3 as <-.
  apply bind_inv_ok in E as ([] & p4 & E4 & E). unfold on_world, hs_connect, modify in E4. injection E4 as <-.
  apply bind_inv_ok in E as ([] & p5 & E5 & E). unfold on_kafka in E5.
  destruct (producer_start (at_broker o) _) as [r k] eqn:Ek. injection E5 as -> <-.
  apply producer_started in Ek as ->; [|exact Hk].
  apply bind_inv_ok in E as ([] & p6 & E6 & E). unfold on_listener in E6. injection E6 as <-.
  apply bind_inv_ok in E as (signer & p7 & E7 & E). unfold on_key_file in E7.
  destruct (from_path n "dev-key-1" _) as [[s|e] file']; [|done]. injection E7 as -> <-.
  apply bind_inv_ok in E as (c & p8 & E8 & E). unfold lift in E8.
  destruct select_policy_client as [c0|] eqn:Ec; [|done]. injection E8 as -> <-.
  apply bind_inv_ok in E as ([] & p9 & [_ ->]%fault_ok & E).
  apply bind_inv_ok in E as (rate & p10 & E10 & E). unfold lift in E10.
  destruct fail_rate_from_env as [q|]; [|done]. injection E10 as -> <-.
  apply bind_inv_ok in E as (f & p11 & E11 & E). unfold lift in E11.
  destruct (scheduler_factor (Some factor) None) as [f0|] eqn:Ef; [|done]. injection E11 as -> <-.
  apply bind_inv_ok in E as ([] & p12 & E12 & E). unfold set_state, set_feedback in *. injection E12 as <-. injection E as <-.
  split; [|intros r [= <-]; simpl; unfold scheduler_factor in Ef; simpl in Ef; by destruct (Qle_bool factor 0); simplify_eq].
  unfold serving. simpl. split_and!; try done.
  - unfold Listener.start. rewrite Ht. by eexists.
  - eexists. split_and!; [done|exact Ec|]. by eapply scheduler_positive.
Qed.
Lemma startup_serving o factor n p p' : cold p → startup o factor n p = (Ok tt, p') → serving p'.
Proof. intros Hc E. by apply (startup_outcome o factor n p). Qed.

Lemma shutdown_cold o p : at_broker_stop o = None → at_redis_close o = None → at_pool_close o = None →
  (shutdown o p).1 = Ok tt ∧ cold (shutdown o p).2 ∧
  w_tasks (pc_world (shutdown o p).2) = w_tasks (pc_world p).
Proof.
  intros Hb Hr Hp. unfold shutdown, on_kafka, producer_stop, on_world, fault. rewrite Hb, Hr, Hp.
  destruct p as [w k l f b s]. run_prog. unfold cold.
  destruct (p_producer k) eqn:Ek; simpl; split_and!; try done;
    unfold Listener.stop; destruct (cs_conn l) as [[]|] eqn:El; simpl; by rewrite ?El.
Qed.

(** Nothing is undone when start-up fails: the pool opened before the broker
    refused stays open, and when the broker refuses to stop, the Redis client and
    the pool are left open. *)
Theorem partial_lifespan_leaks (o : outside) (factor : Q) (n : nat) (p : process) (e : exn) :
  (cold p → migrations_auto_apply = false → at_pool o = None → at_broker o = Some e →
    ∃ p', startup o factor n p = (Raise e, p') ∧ w_pool (pc_world p') = true) ∧
  (serving p → at_broker_stop o = Some e →
    ∃ p', shutdown o p = (Raise e, p') ∧ w_pool (pc_world p') = true ∧ w_redis_client (pc_world p') = true).
Proof.
  split.
  - intros (_ & _ & Hk & _) Hm Hp Hb. unfold startup. rewrite Hm, Hp. unfold on_kafka, producer_start. rewrite Hb.
    destruct p as [w k l f b s]. run_prog. rewrite Hk. simpl. by eexists.
  - intros (Hp & Hr & Hk & _) Hb. unfold shutdown, on_kafka, producer_stop. rewrite Hb.
    destruct p as [w k l f b s]. run_prog. rewrite Hk. simpl. by eexists.
Qed.
End Lifespan.

(** Once start-up is through the process is ready: pool, Redis client, producer,
    listener and feedback task are up, the limiter is wired in, the policy client
    is the one the environment selects, the clock runs forward, and the readiness
    endpoint answers 200 as soon as Redis answers a ping. *)
Theorem startup_ready `{Env} `{Environ} `{Ed25519} (o : outside) (factor : Q) (n : nat) (p p' : process)
    (prom : list metric → string) :
  cold p → startup o factor n p = (Ok tt, p') →
  serving p' ∧ has_ratelimit_deps (state_of prom p') = true ∧
  (redis_fault (w_redis_n (pc_world p')) = None →
    ∃ r w, ready (state_of prom p') (pc_world p') = (Ok r, w) ∧ rs_status r = 200).
Proof.
  intros Hc E. pose proof (startup_serving _ _ _ _ _ Hc E) as Hs.
  destruct Hs as (Hp & Hr & Hk & Hl & Hf & r & Er & Hsel & Hpos). split_and!.
  - unfold serving. naive_solver.
  - unfold state_of. by rewrite Er.
  - intros Hq. unfold ready, attempt, ping, hs_ping, command, state_of. run_prog. rewrite Hp, Hr. simpl.
    rewrite Hq, Er. simpl. by eexists _, _.
Qed.

(** C36. Whatever serving ends in, also an exception, the process gives back what start-up
    acquired: after a lifespan that started, and whose resources close without error, no
    pool, Redis client, producer or listener connection is left, the listener task and the
    feedback task have ended, and the outcome is the one serving had.  The graph runs and
    erasures that requests scheduled are not among what it ends: exactly those still
    scheduled when serving ended are left, neither cancelled nor awaited. *)
Theorem lifespan_releases `{Env} `{Environ} `{Ed25519} {A} (o : outside) (factor : Q) (n : nat)
    (serve : prog exn process A) (p p1 : process) :
  startup o factor n p = (Ok tt, p1) →
  at_broker_stop o = None → at_redis_close o = None → at_pool_close o = None →
  (lifespan o factor n serve p).1 = (serve p1).1 ∧ cold (lifespan o factor n serve p).2 ∧
  w_tasks (pc_world (lifespan o factor n serve p).2) = w_tasks (pc_world (serve p1).2).
Proof.
  intros E Hb Hr Hp. unfold lifespan. rewrite (bind_ok _ _ _ _ _ E). unfold finally.
  destruct (serve p1) as [r p2]. destruct (shutdown_cold o p2 Hb Hr Hp) as (E1 & Hc & Ht).
  destruct (shutdown o p2) as [[[]|e] p3]; simpl in *; by simplify_eq.
Qed.

(** * Samples *)
Module LifespanSamples.
Definition fine : outside := Outside None None None None None None None.
#[global] Instance toy : Ed25519 := SigningSamples.toy.
#[global] Instance env : Env := Samples.env.
#[global] Instance unset : Environ := λ _, None.
Definition p0 : process :=
  Process (upd_redis_client (λ _, false) (upd_pool (λ _, false) Samples.start)) new_producer new_consumer
    None false None.
Definition p1 : process := (startup fine 60 7 p0).2.
(** A request that schedules an erasure is served before the process is stopped. *)
Definition left_over : task :=
  TErase "acme" "R1" (Models.Build_ErasureRequest "vehicle" "VIN-1" "erased").
Definition serve : prog exn process unit :=
  on_world (spawn left_over);; raise (ERuntimeError "stopped").
End LifespanSamples.

Lemma startup_ready_witness :
  has_ratelimit_deps (state_of (λ _, "") LifespanSamples.p1) = true ∧
  ∃ r w, ready (H := LifespanSamples.env) (state_of (λ _, "") LifespanSamples.p1) (pc_world LifespanSamples.p1) = (Ok r, w) ∧
    rs_status r = 200.
Proof.
  destruct (startup_ready (H := LifespanSamples.env) (H0 := LifespanSamples.unset) (H1 := LifespanSamples.toy)
    LifespanSamples.fine 60 7 LifespanSamples.p0 LifespanSamples.p1 (λ _, "")) as (_ & Hd & Hr).
  - repeat split.
  - vm_compute. reflexivity.
  - split; [exact Hd|]. apply Hr. vm_compute. reflexivity.
Defined.

Lemma lifespan_releases_witness :
  let end_ := (lifespan (H := LifespanSamples.env) (H0 := LifespanSamples.unset) (H1 := LifespanSamples.toy)
    LifespanSamples.fine 60 7 LifespanSamples.serve LifespanSamples.p0).2 in
  cold end_ ∧ w_tasks (pc_world end_) = w_tasks (pc_world (LifespanSamples.serve LifespanSamples.p1).2).
Proof.
  apply (lifespan_releases (H := LifespanSamples.env) (H0 := LifespanSamples.unset) (H1 := LifespanSamples.toy)
    LifespanSamples.fine 60 7 LifespanSamples.serve
    LifespanSamples.p0 LifespanSamples.p1); [vm_compute; reflexivity|reflexivity..].
Defined.
