(* ===== verification/Boot.v ===== *)
(** [app._lifespan] from its first line: the settings, logging and telemetry, then the
    start-up of the components under the configured acceleration. *)
From S2P Require Import Prelude PyStr PyDict Json Errors Kafka Listener Models World Samples Feedback Slm Signing App Settings Logging LogSetup Lifespan.
Local Open Scope Z_scope.

Section Boot.
Context `{Env} `{Pydantic} `{Environ} `{Ed25519}.

(** The interpreter with its modules, and the process. *)
Record host := Host { ho_runtime : runtime; ho_logs : log_state; ho_process : process }.
Definition on_runtime {A} (m : prog exn runtime A) : prog exn host A := λ h,
  let '(r, x) := m (ho_runtime h) in (r, Host x (ho_logs h) (ho_process h)).
Definition on_logs {A} (m : prog exn log_state A) : prog exn host A := λ h,
  let '(r, x) := m (ho_logs h) in (r, Host (ho_runtime h) x (ho_process h)).
Definition on_process {A} (m : prog exn process A) : prog exn host A := λ h,
  let '(r, x) := m (ho_process h) in (r, Host (ho_runtime h) (ho_logs h) x).

(** [_lifespan] up to its [yield]. *)
Definition boot (exporter : option exn) (o : outside) (n : nat) : prog exn host unit :=
  s ← on_runtime get_settings;
  on_logs (configure_logging (log_level s));;
  on_runtime (init_otel exporter (service_name s) (otlp_endpoint s));;
  on_process (startup o (time_acceleration_factor s) n).

Definition fresh_host (found : sources) (p : process) : host := Host (fresh_runtime found) unconfigured p.

Lemma on_runtime_inv {A} (m : prog exn runtime A) h a h' : on_runtime m h = (Ok a, h') →
  ∃ x, m (ho_runtime h) = (Ok a, x) ∧ h' = Host x (ho_logs h) (ho_process h).
Proof. unfold on_runtime. destruct (m _) as [r x]. intros [= -> <-]. by exists x. Qed.
Lemma on_logs_inv {A} (m : prog exn log_state A) h a h' : on_logs m h = (Ok a, h') →
  ∃ x, m (ho_logs h) = (Ok a, x) ∧ h' = Host (ho_runtime h) x (ho_process h).
Proof. unfold on_logs. destruct (m _) as [r x]. intros [= -> <-]. by exists x. Qed.
Lemma on_process_inv {A} (m : prog exn process A) h a h' : on_process m h = (Ok a, h') →
  ∃ x, m (ho_process h) = (Ok a, x) ∧ h' = Host (ho_runtime h) (ho_logs h) x.
Proof. unfold on_process. destruct (m _) as [r x]. intros [= -> <-]. by exists x. Qed.

(** The tracer providers a set-up under these settings leaves. *)
Definition providers_of (s : Settings) : list (string * string) :=
  if nonempty (otlp_endpoint s) && negb otel_disabled then [(service_name s, otlp_endpoint s)] else [].
Lemma first_otel exporter s r r' : rt_initialized r = false → rt_providers r = [] →
  init_otel exporter (service_name s) (otlp_endpoint s) r = (Ok tt, r') →
  rt_providers r' = providers_of s ∧ rt_initialized r' = true ∧ rt_settings r' = rt_settings r.
Proof.
  intros Hi Hp. unfold init_otel, providers_of. run_prog. rewrite Hi.
  destruct (nonempty (otlp_endpoint s)), otel_disabled, exporter; simpl; intros; simplify_eq; simpl; by rewrite ?Hp.
Qed.
End Boot.

(** C37. A process that comes up runs what its environment says: after a start-up that
    succeeds the settings are the valid reading of the sources and stay cached, structlog
    is set up with the redacting processors at the configured level, tracing reports the
    configured service to the configured endpoint unless it is disabled, every component is
    up and the clock runs with the configured positive acceleration.  With settings that do not validate nothing
    is touched. *)
Theorem boot_configured `{Env} `{Pydantic} `{Environ} `{Ed25519} (exporter : option exn) (o : outside) (n : nat)
    (found : sources) (p : process) :
  cold p →
  (∀ h', boot exporter o n (fresh_host found p) = (Ok tt, h') →
    ∃ s z r, validate_settings found = Ok s ∧ get_settings (ho_runtime h') = (Ok s, ho_runtime h') ∧
      level_attr (log_level s) = Some z ∧ ls_structlog (ho_logs h') = Some (LogConfig PROCESSORS z true) ∧
      rt_providers (ho_runtime h') = providers_of s ∧
      serving (ho_process h') ∧ pc_state (ho_process h') = Some r ∧
      ru_factor r = time_acceleration_factor s ∧ (0 < time_acceleration_factor s)%Q) ∧
  (∀ es, validate_settings found = Raise es →
    boot exporter o n (fresh_host found p) = (Raise (EValueError (pyd_str es)), fresh_host found p)).
Proof.
  intros Hc. split.
  - intros h' E. unfold boot in E. apply bind_inv_ok in E as (s & h1 & (r1 & E1 & ->)%on_runtime_inv & E). cbn in E1.
    destruct (get_settings_cases (fresh_runtime found)) as [(s' & Es & _)|[(_ & s' & Hv & Eg)|(_ & e & Eg)]];
      [done| |congruence]. rewrite E1 in Eg. injection Eg as <- ->.
    apply bind_inv_ok in E as ([] & h2 & (l & (z & Hz & Hl)%configured & ->)%on_logs_inv & E).
    apply bind_inv_ok in E as ([] & h3 & (r3 & E3 & ->)%on_runtime_inv & E).
    apply first_otel in E3 as (Hp & _ & Hs); [|done..].
    apply on_process_inv in E as (p' & E & ->). cbn in E. cbn in Hs.
    destruct (startup_outcome _ _ _ _ _ Hc E) as [Hserve Hf].
    pose proof Hserve as (_ & _ & _ & _ & _ & r & Er & _ & Hpos).
    exists s, z, r. cbn. rewrite <- (Hf r Er). split_and!; try done.
    unfold get_settings. by apply lru_cached.
  - intros es Hes. unfold boot, on_runtime. run_prog. unfold get_settings.
    erewrite lru_raises; [done|done|]. unfold load_settings. run_prog. simpl. by rewrite Hes.
Qed.

Lemma boot_configured_witness :
  let h' := (boot (H := LifespanSamples.env) (H0 := SettingsSamples.pydantic) (H1 := LifespanSamples.unset)
    (H2 := LifespanSamples.toy) None LifespanSamples.fine 7 (fresh_host [("log_level", "debug")] LifespanSamples.p0)).2 in
  ls_structlog (ho_logs h') = Some (LogConfig PROCESSORS 10 true) ∧ serving (H := LifespanSamples.env) (H0 := LifespanSamples.unset) (ho_process h').
Proof.
  intros h'. split; [vm_compute; reflexivity|].
  destruct (proj1 (boot_configured (H := LifespanSamples.env) (H0 := SettingsSamples.pydantic) (H1 := LifespanSamples.unset)
    (H2 := LifespanSamples.toy) None LifespanSamples.fine 7 [("log_level", "debug")] LifespanSamples.p0
    ltac:(repeat split)) h') as (s & z & r & _ & _ & _ & _ & _ & Hs & _).
  - vm_compute. reflexivity.
  - exact Hs.
Defined.
