(* ===== verification/System.v ===== *)
(** The process as a whole: requests, the background tasks they schedule, the
    feedback worker, the notification listener and vehicle assignments, as one
    step relation, with the invariants every reachable state satisfies.

    [Preserved] is the interface between the statements that write a table and
    the programs built from them: whatever the statements preserve, every
    operation of the process preserves. *)
From S2P Require Import Prelude PyStr PyDict Json JsonText PyTime Errors TokenBucket Models World Samples Database Isolation Integrity PyVal AuditLog TenantConfig Auth HotStore Http RateLimit Validator Vehicles Graph Deployer Repository Feedback Runner Ingest Erasure BreakGlass Query App.
Local Open Scope Z_scope.

(** The mandatory keys of the row's kind are in its payload. *)
Definition keys_ok (r : audit_row) : Prop :=
  ∀ fs, dget (au_kind r) kind_min_fields = Some fs →
    ∀ f, f ∈ fs → ∃ o v, au_originating_finding r = Some (JObj o) ∧ dget f o = Some v.

(** The statements of the program, with what is known where they are issued. *)
Class Preserved `{Env} (I : db → Prop) := {
  pre_finding : ∀ c r, holds I (insert_finding c r);
  pre_policy : ∀ c r, holds I (insert_policy c r);
  pre_deployment : ∀ c r, holds I (insert_deployment c r);
  pre_outcome : ∀ c r, holds I (insert_outcome c r);
  pre_audit : ∀ c b r, keys_ok r → holds I (insert_audit c b r);
  pre_telemetry : ∀ c r, holds I (insert_telemetry c r);
  pre_erasure : ∀ c r, holds I (insert_erasure c r);
  pre_expire : ∀ id, holds I (mark_expired id);
  pre_scopes : ∀ c t v, holds I (update_scopes c t v);
  pre_redact : ∀ c t v, holds I (redact_events c t v);
  pre_forget : ∀ t p, holds I (erase_telemetry t p);
  pre_complete : ∀ c id st per t, st ∈ ["completed"; "partial"] →
    holds I (modify (upd_db (upd_erasure_requests (update_where c
      (λ r, str_eqb (er_request_id r) id) (set_completion st per t)))));
  pre_assign : ∀ v t sub rc, holds I (assign v t sub rc) }.

#[export] Hint Extern 1 (holds _ (insert_finding _ _)) => (apply pre_finding) : integrity.
#[export] Hint Extern 1 (holds _ (insert_policy _ _)) => (apply pre_policy) : integrity.
#[export] Hint Extern 1 (holds _ (insert_deployment _ _)) => (apply pre_deployment) : integrity.
#[export] Hint Extern 1 (holds _ (insert_outcome _ _)) => (apply pre_outcome) : integrity.
#[export] Hint Extern 1 (holds _ (insert_telemetry _ _)) => (apply pre_telemetry) : integrity.
#[export] Hint Extern 1 (holds _ (insert_erasure _ _)) => (apply pre_erasure) : integrity.
#[export] Hint Extern 1 (holds _ (mark_expired _)) => (apply pre_expire) : integrity.
#[export] Hint Extern 1 (holds _ (update_scopes _ _ _)) => (apply pre_scopes) : integrity.
#[export] Hint Extern 1 (holds _ (redact_events _ _ _)) => (apply pre_redact) : integrity.
#[export] Hint Extern 1 (holds _ (erase_telemetry _ _)) => (apply pre_forget) : integrity.
#[export] Hint Extern 1 (holds _ (assign _ _ _ _)) => (apply pre_assign) : integrity.

(** * Every operation preserves what its statements preserve *)
Ltac holds_calls :=
  repeat match goal with
  | |- holds _ (let '(_, _) := ?x in _) => destruct x
  | |- ∀ _, holds _ _ => intros ?
  | |- keeps (λ w, ?I (w_db w)) ?m => change (holds I m)
  | _ => holds_step
  | |- holds _ ?m => progress (unfold subscript, dict_get, py_int, py_float, py_list, text_arg,
       parse_iso, datetime_add, generator, uniform, random, now, new_id, inc, set_gauge, observe, when,
       policy_field, make_row, insert_observation, spawn, select)
  end.

Lemma event_row_keys a id t row :
  check_fields a = Ok tt → event_row a id t = Ok row → keys_ok row.
Proof.
  intros Hf Hr fs Hfs f Hin. destruct (event_row_fields _ _ _ _ Hr) as (_ & _ & Hk & _ & _ & Ho).
  rewrite Hk in Hfs. assert (a_kind a ≠ "generated") as Hne by (intros E; by rewrite E in Hfs).
  destruct (check_fields_min a fs f Hf Hne Hfs Hin) as [v Hv].
  exists (fields (originating_with_extras a)), v. split; [|done]. rewrite Ho.
  unfold originating_with_extras in *. destruct (a_error a); simpl in *;
    by match goal with |- context [bool_decide (?l = [])] => destruct l end.
Qed.

Section Operations.
Context `{Env} (I : db → Prop) `{!Preserved I}.

Lemma holds_write a : holds I (write a).
Proof.
  unfold write. apply holds_lift. intros [] Hf. apply holds_bind; [holds_calls|]. intros id.
  apply holds_acquire. intros c. apply holds_bind; [holds_calls|]. intros t.
  apply holds_lift. intros row Hr. apply holds_bind; [by eapply pre_audit, event_row_keys|].
  holds_calls.
Qed.
#[local] Hint Resolve holds_write : integrity.
Lemma holds_simulate t policy dir : holds I (simulate t policy dir).
Proof. unfold simulate. holds_calls. Qed.
Lemma holds_policy_insert t policy m : holds I (policy_insert t policy m).
Proof. unfold policy_insert. holds_calls. Qed.
Lemma holds_deployment_insert t rec : holds I (deployment_insert t rec).
Proof. unfold deployment_insert. holds_calls. Qed.
#[local] Hint Resolve holds_simulate holds_policy_insert holds_deployment_insert : integrity.

Lemma holds_process factor d : holds I (process factor d).
Proof. unfold process, collect_telemetry, policy_get, observe_delay, text_array, outcome_insert. holds_calls. Qed.
#[local] Hint Resolve holds_process : integrity.
Lemma holds_tick factor : holds I (tick factor).
Proof. unfold tick, list_due. holds_calls. Qed.

Lemma holds_dispatch_erasure t rid p : holds I (dispatch_erasure t rid p).
Proof.
  unfold dispatch_erasure, store_status, erase_registry, redact_audit, set_erasure.
  do 3 (apply holds_bind; [holds_calls|intros ?]).
  apply holds_acquire. intros c. apply holds_bind; [holds_calls|]. intros x. apply pre_complete.
  case_match; set_solver.
Qed.

Lemma holds_break_glass `{Pydantic} `{JwtLib} rq : holds I (break_glass_query rq).
Proof.
  unfold break_glass_query, audited_read. apply holds_bind.
  { apply holds_outside, (operator_outside w_db); [by intros []|done]. }
  intros op. apply holds_bind; [holds_calls|]. intros q.
  apply holds_bind; [holds_calls|]. intros id. apply holds_bind; [|holds_calls].
  apply holds_acquire_service. intros c. apply holds_transaction.
  apply holds_bind; [holds_calls|]. intros t. apply holds_bind; [|holds_calls].
  apply pre_audit. intros fs [= <-] f Hf.
  repeat (apply elem_of_cons in Hf as [->|Hf]; [by eexists _, _|]). by apply not_elem_of_nil in Hf.
Qed.

Section Runs.
Context `{Pydantic} `{Difflib} `{Prompts} `{PayloadSigner}.
Context `{PolicyGeneratorClient} `{CollectorAIClient} `{!TablesApart}.
Lemma holds_run_async pv factor s dir : holds I (run_async pv factor s dir).
Proof.
  unfold run_async, run_graph. apply holds_catch; [|intros e; holds_calls].
  apply holds_bind; [holds_calls|]. intros t0. apply holds_bind; [apply holds_outside, run_tables|].
  intros g. unfold run_graph_tail, audit_generated, persist_deployed, flatten_invalid. holds_calls.
Qed.
End Runs.

Section Intake.
Context `{Pydantic} `{Sha256}.
Lemma holds_accept_finding p rq : holds I (accept_finding p rq).
Proof.
  unfold accept_finding, persist_finding, enqueue, pg_check.
  repeat match goal with
  | |- holds _ (check_body _ _) => apply holds_outside, pure_stable, check_body_pure
  | _ => progress holds_calls
  end.
Qed.
Lemma holds_accept_erasure p rq : holds I (accept_erasure p rq).
Proof. unfold accept_erasure, submit. holds_calls. Qed.
End Intake.
End Operations.

(** * The statements, one by one *)
(** The body of an assignment, given what its three writes preserve. *)
Lemma holds_assign `{Env} (I : db → Prop) :
  (∀ r d, first_violation (vehicle_checks r) = None → ve_tenant_id r ∈ db_tenants d →
     I d → I (upd_tenant_vehicles (upsert_vehicle r) d)) →
  (∀ h d, I d → I (upd_tenant_vehicles_history (λ l, l ++ [h]) d)) →
  (∀ c b r, keys_ok r → holds I (insert_audit c b r)) →
  ∀ v t sub rc, holds I (assign v t sub rc).
Proof.
  intros Hv Hh Ha v t sub rc w Hw. unfold assign, acquire_service_principal, in_transaction. run_prog.
  destruct (w_pool w); [|done]. destruct (first_violation _) eqn:Ec; [done|].
  destruct (bool_decide_reflect (t ∈ db_tenants (w_db w))) as [Ht|Ht].
  2: { destruct (bool_decide _); [done|]. unfold history_trigger, audit_trigger, now, new_id. run_prog.
       match goal with |- context [insert_audit ?c ?b ?r ?w1] =>
         by destruct (insert_audit c b r w1) as [[]] end. }
  specialize (Hv _ _ Ec Ht Hw). destruct (bool_decide _); [exact Hv|].
  unfold history_trigger, audit_trigger, now, new_id. run_prog.
  match goal with |- context [insert_audit ?c ?b ?r ?w1] =>
    assert (I (w_db (insert_audit c b r w1).2)) as Hi; [|by destruct (insert_audit c b r w1) as [[]]] end.
  apply Ha; [|by apply Hh]. intros fs [= <-] f Hf.
  repeat (apply elem_of_cons in Hf as [->|Hf]; [by eexists _, _|]). by apply not_elem_of_nil in Hf.
Qed.

(** Statements on tables a property does not mention. *)
Ltac elsewhere :=
  intros; unfold mark_expired, update_scopes, redact_events, erase_telemetry, insert_finding,
    insert_policy, insert_deployment, insert_outcome, insert_audit, insert_telemetry, insert_erasure;
  repeat first
    [ holds_step
    | match goal with
      | |- holds _ (insert_row _ _ _ _ _ _ _ _) => apply holds_insert; intros ? ? _; assumption
      | |- holds _ (modify _) => intros ? ?; assumption
      end ].

(** An erasure leaves findings and deployments as they are: a vehicle that has been
    erased is still in the scopes they record. *)
Theorem erasure_leaves_sources `{Env} (t rid : string) (p : ErasureRequest) (w : world) :
  let w' := (dispatch_erasure t rid p w).2 in
  db_diagnostic_findings (w_db w') = db_diagnostic_findings (w_db w) ∧
  db_deployment_targets (w_db w') = db_deployment_targets (w_db w).
Proof.
  assert (holds (λ d, db_diagnostic_findings d = db_diagnostic_findings (w_db w) ∧
    db_deployment_targets d = db_deployment_targets (w_db w)) (dispatch_erasure t rid p)) as Hh; [|by apply Hh].
  unfold dispatch_erasure, store_status, erase_registry, redact_audit, set_erasure, now. elsewhere.
Qed.

(** ** Schema integrity *)
Section IntegrityStatements.
Context `{Env}.

Lemma sound_mark_expired id : sound (mark_expired id).
Proof.
  unfold mark_expired. apply holds_acquire. intros c w Hw. simpl.
  assert (table_ok deployment_spec (update_where c (λ r, str_eqb (dp_deployment_id r) id)
    (set_status "expired") (db_deployment_targets (w_db w))) (w_db w)) as Ht; [|same_tables Hw].
  apply table_ok_update; [..|apply Hw].
  - intros r _ Hr. case_match; [|done]. apply first_violation_none in Hr.
    apply first_violation_none. unfold ts_checks, deployment_spec, deployment_checks in *.
    rewrite !Forall_cons in *. naive_solver.
  - intros u a b [->|[]%not_elem_of_nil]%elem_of_cons. by repeat case_match.
  - intros r Hr. by case_match.
Qed.

Lemma sound_erase_telemetry t p : sound (erase_telemetry t p).
Proof.
  unfold erase_telemetry. destruct (negb _); [apply keeps_ret|]. apply holds_acquire. intros c w Hw. simpl.
  assert (∀ q, table_ok telemetry_spec (delete_where c q (db_telemetry_observations (w_db w))) (w_db w)) as Ht
    by (intros q; apply table_ok_delete, Hw).
  destruct Hw. constructor; try assumption. apply Ht.
Qed.

Lemma sound_complete c id st per t : st ∈ ["completed"; "partial"] →
  sound (modify (upd_db (upd_erasure_requests (update_where c
      (λ r, str_eqb (er_request_id r) id) (set_completion st per t))))).
Proof.
  intros Hst w Hw. simpl.
  assert (table_ok erasure_spec (update_where c (λ r, str_eqb (er_request_id r) id)
    (set_completion st per t) (db_erasure_requests (w_db w))) (w_db w)) as Ht; [|same_tables Hw].
  apply table_ok_update; [..|apply Hw].
  - intros r _ Hr. case_match; [|done]. apply first_violation_none in Hr.
    apply first_violation_none. unfold ts_checks, erasure_spec, erasure_checks in *.
    rewrite !Forall_cons in *. simpl in *. destruct Hr as (H1 & H2 & H3 & H4 & _ & H6 & H7).
    split_and!; try done. apply bool_decide_eq_true_2. set_solver.
  - intros u a b [->|[]%not_elem_of_nil]%elem_of_cons. by repeat case_match.
  - intros r Hr. by case_match.
Qed.

Lemma sound_redact c t s : sound (redact_events c t s).
Proof.
  unfold redact_events. apply holds_bind; [holds_calls|]. intros rows.
  destruct (bool_decide _); [apply keeps_ret|]. destruct (mutation_rejected c); [apply keeps_raise|].
  destruct (existsb _ _); [apply keeps_raise|]. intros w Hw. simpl.
  assert (table_ok event_spec (update_where c (redact_matches t s) (redaction s)
    (db_audit_events (w_db w))) (w_db w)) as Ht; [|same_tables Hw].
  apply table_ok_update; [..|apply Hw].
  - intros r _ Hr. by case_match.
  - intros u a b [->|[->|[]%not_elem_of_nil]%elem_of_cons]%elem_of_cons; by repeat case_match.
  - intros r Hr. by case_match.
Qed.

Lemma sound_update_scopes c t v : sound (update_scopes c t v).
Proof.
  unfold update_scopes. intros w Hw. run_prog.
  destruct (bool_decide _); [done|]. destruct (mutation_rejected c); [done|].
  destruct (existsb _ _) eqn:Ex; [done|]. simpl.
  set (g := λ r : policy_row, if rls_visible c (row_tenant r) && scope_matches t v r
    then set_scope (default JNull (scope_without v (po_vehicle_scope r))) r else r).
  change (update_where c (scope_matches t v) _ (db_collection_policies (w_db w)))
    with (g <$> db_collection_policies (w_db w)).
  assert (table_ok policy_spec (g <$> db_collection_policies (w_db w)) (w_db w)) as Ht.
  { apply table_ok_update; [..|apply Hw].
    - intros r Hin Hr. unfold g. destruct (_ && _) eqn:Em; [|done].
      assert (∃ x l, scope_without v (po_vehicle_scope r) = Some (JArr (x :: l))) as (x & l & ->).
      { destruct (scope_without v (po_vehicle_scope r)) as [j|] eqn:Es.
        - unfold scope_without in Es. destruct (List.filter _ _) as [|x l]; [done|].
          injection Es as <-. eauto.
        - exfalso. apply not_true_iff_false in Ex. apply Ex, existsb_exists. exists r.
          split; [|by rewrite Es]. by apply filter_In; rewrite <- list_elem_of_In. }
      apply first_violation_none in Hr. apply first_violation_none.
      unfold ts_checks, policy_spec, policy_checks in *. rewrite !Forall_cons in *. naive_solver.
    - intros u a b [->|[]%not_elem_of_nil]%elem_of_cons. unfold g. by repeat case_match.
    - intros r Hr. unfold g. by case_match. }
  assert (∀ a b c', existsb (λ r, str_eqb (po_tenant_id r) a && str_eqb (po_policy_id r) b &&
      str_eqb (po_version r) c') (g <$> db_collection_policies (w_db w)) =
    existsb (λ r, str_eqb (po_tenant_id r) a && str_eqb (po_policy_id r) b &&
      str_eqb (po_version r) c') (db_collection_policies (w_db w))) as Hrefs.
  { clear Ex Ht. intros a b c'. induction (db_collection_policies (w_db w)) as [|r l IH]; [done|].
    rewrite fmap_cons. simpl. rewrite IH. unfold g. by case_match. }
  destruct Hw. constructor; try assumption; (eapply table_ok_refs; [|eassumption]);
    unfold ts_fks, deployment_spec, outcome_spec, fk_policy; intros r Hr; rewrite <- Hrefs in Hr; exact Hr.
Qed.
End IntegrityStatements.

Lemma upsert_ok r rows d :
  first_violation (vehicle_checks r) = None → ve_tenant_id r ∈ db_tenants d →
  table_ok vehicle_spec rows d → table_ok vehicle_spec (upsert_vehicle r rows) d.
Proof.
  intros Hc Ht Hrows.
  assert (first_violation (ts_fks vehicle_spec r d) = None) as Hf.
  { apply first_violation_none. repeat constructor. by apply bool_decide_eq_true_2. }
  unfold upsert_vehicle. destruct (existsb _ rows) eqn:Ex.
  - apply table_ok_update; [| | |done].
    + intros x _ Hx. by case_match.
    + intros u a b [->|[]%not_elem_of_nil]%elem_of_cons.
      destruct (str_eqb (ve_vehicle_id a) (ve_vehicle_id r)) eqn:Ea;
        destruct (str_eqb (ve_vehicle_id b) (ve_vehicle_id r)) eqn:Eb;
        rewrite ?str_eqb_eq in *; congruence.
    + intros x Hx. by case_match.
  - apply table_ok_append; [done..| |done].
    intros u [->|[]%not_elem_of_nil]%elem_of_cons. rewrite <- Ex. clear.
    induction rows as [|x rows IH]; [done|]. simpl. by rewrite IH, str_eqb_sym.
Qed.

#[export] Instance integrity_preserved `{Env} : Preserved integrity.
Proof.
  constructor; eauto using sound_insert_finding, sound_insert_policy, sound_insert_deployment,
    sound_insert_outcome, sound_insert_audit, sound_insert_telemetry, sound_insert_erasure,
    sound_mark_expired, sound_update_scopes, sound_redact, sound_erase_telemetry, sound_complete.
  apply holds_assign; [| |eauto using sound_insert_audit].
  - intros r d Hc Ht Hd.
    assert (table_ok vehicle_spec (upsert_vehicle r (db_tenant_vehicles d)) d) as Hv
      by (apply upsert_ok; [done..|apply Hd]).
    destruct Hd. constructor; assumption.
  - intros h d []. constructor; assumption.
Qed.

(** ** The field sets of the trail *)
Definition audit_fields (d : db) : Prop := Forall min_fields_ok (db_audit_events d).

#[export] Instance audit_fields_preserved `{Env} : Preserved audit_fields.
Proof.
  assert (∀ c b r, keys_ok r → holds audit_fields (insert_audit c b r)) as Ha.
  { intros c b r Hk. apply holds_insert. intros d Hd Hc. apply Forall_snoc; [done|].
    split; [|exact Hk]. intros Hg. apply first_violation_none in Hc. unfold audit_checks in Hc.
    rewrite !Forall_cons in Hc. destruct Hc as (_ & _ & _ & _ & _ & _ & Hc & _). simpl in Hc.
    by rewrite Hg in Hc. }
  constructor; try solve [elsewhere]; [exact Ha| |].
  - intros c t v. unfold redact_events. apply holds_bind; [holds_calls|]. intros rows.
    destruct (bool_decide _); [apply keeps_ret|]. destruct (mutation_rejected c); [apply keeps_raise|].
    destruct (existsb _ _); [apply keeps_raise|]. intros w Hw. unfold audit_fields in *. simpl.
    unfold update_where. rewrite Forall_fmap. eapply Forall_impl; [exact Hw|]. intros r [Hg Hk].
    simpl. case_match; [|done]. split; [done|]. intros fs Hfs f Hin.
    destruct (Hk fs Hfs f Hin) as (o & x & Ho & Hx). simpl. unfold redacted. rewrite Ho. simpl.
    exists (dset "redacted_subject" (JStr v) o). destruct (String.string_dec f "redacted_subject") as [->|Hne].
    + eexists. split; [reflexivity|]. apply dget_dset_eq.
    + exists x. split; [reflexivity|]. by rewrite dget_dset_ne.
  - apply holds_assign; [done|done|exact Ha].
Qed.

(** ** The ownership log *)
Definition ownership (d : db) : Prop :=
  ∀ v, chained None (history_for v d) ∧ owner_of v d = last_owner (history_for v d).
#[export] Instance ownership_preserved `{Env} : Preserved ownership.
Proof. constructor; try solve [elsewhere]. apply assign_keeps_ownership. Qed.

(** ** Rows that stay *)
Lemma update_where_elem {R} `{Tenanted R} c (p : R → bool) (f : R → R) rows x :
  x ∈ rows → x ∈ update_where c p f rows ∨ f x ∈ update_where c p f rows.
Proof.
  intros Hx. destruct (rls_visible c (row_tenant x) && p x) eqn:E; [right|left];
    apply list_elem_of_fmap; exists x; by rewrite E.
Qed.

Definition kept_finding (r : finding_row) (d : db) : Prop := r ∈ db_diagnostic_findings d.
Definition kept_outcome (r : outcome_row) (d : db) : Prop := r ∈ db_policy_outcomes d.
Definition kept_deployment (r : deployment_row) (d : db) : Prop :=
  r ∈ db_deployment_targets d ∨ set_status "expired" r ∈ db_deployment_targets d.
(** Up to vehicles erased from the scope. *)
Definition kept_policy (r : policy_row) (d : db) : Prop :=
  ∃ s, set_scope s r ∈ db_collection_policies d ∧ items s ⊆ items (po_vehicle_scope r).
(** Up to the redaction mark. *)
Definition kept_event (r : audit_row) (d : db) : Prop :=
  r ∈ db_audit_events d ∨
  ∃ j, set_originating j r ∈ db_audit_events d ∧
    ∀ k, k ≠ "redacted_subject" → jget k j = (au_originating_finding r ≫= jget k).

#[export] Instance kept_finding_preserved `{Env} r : Preserved (kept_finding r).
Proof.
  constructor; try solve [elsewhere]; [|apply holds_assign; [done|done|elsewhere]].
  intros. apply holds_insert. intros d Hd _. apply elem_of_app. by left.
Qed.
#[export] Instance kept_outcome_preserved `{Env} r : Preserved (kept_outcome r).
Proof.
  constructor; try solve [elsewhere]; [|apply holds_assign; [done|done|elsewhere]].
  intros. apply holds_insert. intros d Hd _. apply elem_of_app. by left.
Qed.
#[export] Instance kept_deployment_preserved `{Env} r : Preserved (kept_deployment r).
Proof.
  constructor; try solve [elsewhere]; [| |apply holds_assign; [done|done|elsewhere]].
  - intros. apply holds_insert. intros d Hd _. unfold kept_deployment in *. simpl.
    rewrite !elem_of_app. tauto.
  - intros id. unfold mark_expired. apply holds_acquire. intros c w [Hw|Hw]; simpl;
      (destruct (update_where_elem c (λ r, str_eqb (dp_deployment_id r) id) (set_status "expired") _ _ Hw);
       [by (left + right)|by right]).
Qed.

Lemma scope_without_incl v s j : scope_without v s = Some j → items j ⊆ items s.
Proof.
  unfold scope_without. intros E. destruct (List.filter _ (items s)) as [|x l] eqn:Ef; [done|].
  injection E as <-. intros y Hy. simpl in Hy. rewrite <- Ef in Hy.
  apply list_elem_of_In, filter_In in Hy as [Hy _]. by apply list_elem_of_In.
Qed.
#[export] Instance kept_policy_preserved `{Env} r : Preserved (kept_policy r).
Proof.
  constructor; try solve [elsewhere]; [| |apply holds_assign; [done|done|elsewhere]].
  - intros. apply holds_insert. intros d (s & Hs & Hi) _. exists s. split; [|done].
    apply elem_of_app. by left.
  - intros c t v. unfold update_scopes. intros w (s & Hs & Hi). run_prog.
    destruct (bool_decide _); [by exists s|]. destruct (mutation_rejected c); [by exists s|].
    destruct (existsb _ _) eqn:Ex; [by exists s|].
    destruct (rls_visible c (row_tenant (set_scope s r)) && scope_matches t v (set_scope s r)) eqn:Em.
    + destruct (scope_without v s) as [j|] eqn:Ej.
      * exists j. split; [|by etrans; [eapply scope_without_incl|]].
        apply list_elem_of_fmap. exists (set_scope s r). rewrite Em. simpl. by rewrite Ej.
      * exfalso. apply not_true_iff_false in Ex. apply Ex, existsb_exists. exists (set_scope s r).
        split; [by apply filter_In; rewrite <- list_elem_of_In|]. simpl. by rewrite Ej.
    + exists s. split; [|done]. apply list_elem_of_fmap. exists (set_scope s r). by rewrite Em.
Qed.

Lemma redaction_keeps s r r0 :
  redacted s (au_originating_finding r) ≠ None →
  (∀ k, k ≠ "redacted_subject" → (au_originating_finding r ≫= jget k) = (au_originating_finding r0 ≫= jget k)) →
  ∀ k, k ≠ "redacted_subject" →
    jget k (default JNull (redacted s (au_originating_finding r))) = (au_originating_finding r0 ≫= jget k).
Proof.
  intros Hr Hsame k Hk. rewrite <- Hsame by done. unfold redacted in *.
  destruct (au_originating_finding r) as [[ | | | | | |o]|]; try done; unfold default, from_option, id;
    rewrite jget_obj, dget_dset_ne by done; simpl; by rewrite ?jget_obj.
Qed.
#[export] Instance kept_event_preserved `{Env} r : Preserved (kept_event r).
Proof.
  assert (∀ c b x, keys_ok x → holds (kept_event r) (insert_audit c b x)) as Ha.
  { intros c b x _. apply holds_insert. intros d Hd _. unfold kept_event in *. simpl.
    setoid_rewrite elem_of_app. destruct Hd as [Hd|(j & Hj & Hk)]; [auto|]. right. eauto. }
  constructor; try solve [elsewhere]; [exact Ha| |apply holds_assign; [done|done|exact Ha]].
  intros c t v. unfold redact_events. intros w Hw. run_prog.
  destruct (bool_decide _); [done|]. destruct (mutation_rejected c); [done|].
  destruct (existsb _ _) eqn:Ex; [done|]. simpl.
  assert (∀ x, x ∈ db_audit_events (w_db w) →
    x ∈ update_where c (redact_matches t v) (redaction v) (db_audit_events (w_db w)) ∨
    redaction v x ∈ update_where c (redact_matches t v) (redaction v) (db_audit_events (w_db w)) ∧
    redacted v (au_originating_finding x) ≠ None) as Hup.
  { intros x Hx. destruct (rls_visible c (row_tenant x) && redact_matches t v x) eqn:Em; [right|left].
    - split; [apply list_elem_of_fmap; exists x; by rewrite Em|]. intros Hn.
      apply not_true_iff_false in Ex. apply Ex, existsb_exists. exists x.
      split; [by apply filter_In; rewrite <- list_elem_of_In|]. by rewrite Hn.
    - apply list_elem_of_fmap. exists x. by rewrite Em. }
  destruct Hw as [Hw|(j & Hj & Hk)].
  - destruct (Hup _ Hw) as [|[Hin Hr]]; [by left|]. right. eexists. split; [exact Hin|].
    by apply redaction_keeps.
  - destruct (Hup _ Hj) as [|[Hin Hr]]; [right; by exists j|]. right. eexists. split; [exact Hin|].
    apply (redaction_keeps v (set_originating j r)); [done|]. intros k Hne. simpl. by apply Hk.
Qed.

(** * Scheduled work *)
(** A scheduled run stems from a finding on file of its tenant, a scheduled
    erasure from a request on file. *)
Definition task_ok (d : db) (t : task) : Prop :=
  match t with
  | TGraph s _ _ => ∃ r, r ∈ db_diagnostic_findings d ∧ fi_tenant_id r = s_tenant_id s ∧
      jget "finding_id" (s_originating_finding s) = Some (JStr (fi_finding_id r)) ∧ s_retry_count s = 0
  | TErase t rid p => ∃ e, e ∈ db_erasure_requests d ∧ er_request_id e = rid ∧ er_tenant_id e = t ∧
      er_subject_kind e = subject_kind p ∧ er_subject_identifier e = subject_identifier p
  end.
Definition tasks_ok (w : world) : Prop := Forall (task_ok (w_db w)) (w_tasks w).

#[export] Instance task_ok_preserved `{Env} t : Preserved (λ d, task_ok d t).
Proof.
  destruct t as [s dir acc|tn rid p].
  - constructor; try solve [elsewhere]; [|apply holds_assign; [done|done|elsewhere]].
    intros. apply holds_insert. intros d (x & Hx & Hr) _. exists x. split; [|done].
    apply elem_of_app. by left.
  - constructor; try solve [elsewhere]; [| |apply holds_assign; [done|done|elsewhere]].
    + intros. apply holds_insert. intros d (x & Hx & Hr) _. exists x. split; [|done].
      apply elem_of_app. by left.
    + intros c id st per t _ w (x & Hx & Hr). simpl.
      destruct (update_where_elem c (λ r, str_eqb (er_request_id r) id) (set_completion st per t) _ _ Hx);
        eexists; (split; [eassumption|]); done.
Qed.

(** Programs that schedule nothing. *)
Definition idle {A} (m : M A) : Prop := stable w_tasks m.

Lemma idle_transaction {A} (m : M A) : idle m → idle (in_transaction m).
Proof. by apply stable_transaction_outside. Qed.
Lemma idle_acquire {A} t (body : conn → M A) : (∀ c, idle (body c)) → idle (acquire t body).
Proof.
  intros Hb. unfold acquire. repeat (apply stable_bind; [apply stable_gets|]; intros []);
    try apply stable_raise; by apply idle_transaction.
Qed.
Lemma idle_acquire_service {A} (body : conn → M A) :
  (∀ c, idle (body c)) → idle (acquire_service_principal body).
Proof.
  intros Hb. unfold acquire_service_principal.
  repeat (apply stable_bind; [apply stable_gets|]; intros []); try apply stable_raise; apply Hb.
Qed.
Lemma idle_insert {R} `{Tenanted R} c name table (upd : (list R → list R) → db → db) checks uniques fks row :
  idle (insert_row c name table upd checks uniques fks row).
Proof.
  intros w. by destruct (insert_row_cases c name table upd checks uniques fks row w)
    as [(-> & _)|[(-> & _)|(e & ->)]].
Qed.
Lemma idle_write `{Env} a : idle (write a).
Proof. by apply write_outside. Qed.

Ltac idle_calls :=
  repeat match goal with
  | |- idle (let '(_, _) := ?x in _) => destruct x
  | |- ∀ _, idle _ => intros ?
  | |- stable w_tasks ?m => change (idle m)
  | |- idle (acquire _ _) => apply idle_acquire; intros ?
  | |- idle (acquire_service_principal _) => apply idle_acquire_service; intros ?
  | |- idle (in_transaction _) => apply idle_transaction
  | |- idle (insert_row _ _ _ _ _ _ _ _) => apply idle_insert
  | |- idle (write _) => apply idle_write
  | |- idle (mbind _ _) => apply stable_bind; [|intros ?]
  | |- idle (catch _ _) => apply stable_catch; [|intros ?]
  | |- idle (for_each _ _) => apply stable_for_each; intros ?
  | |- idle (mapM _ _) => apply stable_mapM; intros ?
  | |- idle (match ?x with _ => _ end) => destruct x
  | |- idle _ => solve [intros ?; reflexivity]
  | |- idle ?m => progress (unfold subscript, dict_get, py_int, py_float, py_list, text_arg,
       parse_iso, datetime_add, generator, uniform, random, now, new_id, inc, set_gauge, observe, when,
       policy_field, make_row, insert_observation, insert_finding, insert_policy, insert_deployment,
       insert_outcome, insert_audit, insert_telemetry, insert_erasure, mark_expired, set_erasure)
  end.

Lemma keeps_tasks {A} (m : M A) :
  idle m → (∀ t, holds (λ d, task_ok d t) m) → keeps tasks_ok m.
Proof.
  intros Hi Hh w Hw. unfold tasks_ok in *. rewrite (Hi w). eapply Forall_impl; [exact Hw|].
  intros t Ht. by apply (Hh t).
Qed.

Section Idle.
Context `{Env}.
Lemma idle_tick factor : idle (tick factor).
Proof.
  unfold tick, list_due, process, collect_telemetry, policy_get, observe_delay, text_array,
    outcome_insert. idle_calls.
Qed.
Lemma idle_dispatch_erasure t rid p : idle (dispatch_erasure t rid p).
Proof.
  unfold dispatch_erasure, store_status, erase_registry, erase_telemetry, redact_audit, update_scopes,
    redact_events. idle_calls.
Qed.
Lemma idle_assign v t sub rc : idle (assign v t sub rc).
Proof.
  unfold assign, history_trigger, audit_trigger. idle_calls.
Qed.

Section Runs.
Context `{Pydantic} `{Difflib} `{Prompts} `{PayloadSigner}.
Context `{PolicyGeneratorClient} `{CollectorAIClient}.
(** Clients that schedule nothing in this process. *)
Class IdleClients := {
  generator_idle : ∀ r, idle (generate_policy r);
  collector_idle : ∀ c, idle (collector_deploy c) }.
Context `{!IdleClients} (pv : PolicyValidator) (factor : Q).

Lemma idle_run s : idle (run pv s).
Proof.
  unfold run. generalize (initial_plan s), 0%nat. generalize (attempts_left s) as fuel.
  induction fuel as [|fuel IH]; intros s0 n; simpl; [apply stable_raise|].
  apply stable_bind.
  { unfold generate, render_prompt, retry_block, subst.
    repeat first [apply stable_bind; [|intros ?] | apply generator_idle | effects_step]. }
  intros s1. apply stable_bind; [unfold validate_node; solve_effects|]. intros [ok s2].
  apply stable_bind; [unfold route_after_validation, inc; solve_effects|]. intros [d s3].
  destruct d; try apply IH; try apply stable_ret.
  unfold deploy_and_finish. apply stable_bind; [|intros [? ?]; apply stable_ret].
  unfold deploy, py_list, new_id, now.
  repeat first [apply stable_bind; [|intros ?] | apply collector_idle | effects_step].
Qed.
Lemma idle_run_async s dir : idle (run_async pv factor s dir).
Proof.
  unfold run_async, run_graph. apply stable_catch; [|intros e; idle_calls].
  apply stable_bind; [idle_calls|]. intros t0. apply stable_bind; [apply idle_run|]. intros g.
  unfold run_graph_tail, audit_generated, persist_deployed, flatten_invalid, policy_insert,
    deployment_insert, simulate. idle_calls.
Qed.
End Runs.
End Idle.

Lemma handler_idle `{Env} r p : idle (handler r p).
Proof.
  destruct r; simpl; unfold get_policy, list_policy_versions, active_policy_for_group,
    outcome_for_finding, audit_for_correlation, erasure_request_status, get_own_tenant_config,
    ensure_safe, found_or_404, rows_or_404, policy_get, policy_list_versions, policy_find_active,
    outcome_get_by_finding, list_for_correlation, get_erasure, get_for_tenant, cache_get, cache_put,
    now_mono; idle_calls.
Qed.

(** * Requests *)
Section Requests.
Context `{Env} `{Pydantic} `{JwtLib} `{Sha256}.

(** What the middlewares and the reads leave alone. *)
Definition durable (w : world) : db * list task := (w_db w, w_tasks w).

Section Routes.
Context (J : db * list task → Prop).
Notation keepsJ m := (keeps (λ w, J (durable w)) m).

Lemma keeps_durable {A} (m : M A) : stable durable m → keepsJ m.
Proof. intros Hm w Hw. by rewrite (Hm w). Qed.
Lemma keeps_attempt {A B} (m : M A) (k : result exn A → M B) :
  stable durable m → (∀ r, keepsJ (k r)) → keepsJ (attempt m ≫= k).
Proof.
  intros Hm Hk. apply keeps_bind; [|done]. apply keeps_durable. intros w. unfold attempt.
  specialize (Hm w). by destruct (m w).
Qed.

Lemma dispatch_keeps rq next : keepsJ next → keepsJ (dispatch rq next).
Proof.
  intros Hn. unfold dispatch. destruct (is_exempt _); [done|]. destruct (negb _); [apply keeps_ret|].
  apply keeps_attempt; [by apply verify_outside|]. intros [p|e]; [|apply keeps_ret].
  apply keeps_bind; [by apply keeps_durable, get_for_tenant_outside|]. intros config.
  destruct (limits config _) as [r0 b0]. apply keeps_bind; [by intros w|]. intros t0.
  apply keeps_attempt; [by apply consult_outside|]. intros [rep|e]; simpl.
  - destruct (_ =? _); repeat first [exact Hn | apply keeps_bind; [by intros w|intros ?] | by intros w].
  - by intros w.
Qed.

Lemma app_keeps st limit rq :
  (∀ p, keepsJ (accept_finding p rq)) → (∀ p, keepsJ (accept_erasure p rq)) →
  keepsJ (break_glass_query rq) → keepsJ (app st limit rq).
Proof.
  intros Hf He Hb.
  assert (keepsJ (authenticated_principal (rq_credentials rq))) as Ha
    by (apply keeps_durable, authenticated_outside; [by intros []|done]).
  assert (keepsJ (route st limit rq)) as Hr.
  { unfold route. destruct (endpoint_of _ _ _) as [[ | | |r| | | ]|]; simpl; try (by intros w).
    - by apply keeps_bind.
    - by apply keeps_bind.
    - done.
    - apply keeps_bind; [exact Ha|]. intros p. apply keeps_durable. intros w. unfold durable.
      by rewrite (handler_reads r p w), (handler_idle r p w).
    - unfold ready. repeat (apply keeps_attempt; [|intros ?]); [done| |by intros w].
      intros w. unfold hs_ping, command. run_prog. destruct (w_redis_client w); simpl; [|done].
      by destruct (redis_fault (w_redis_n w)). }
  assert (keepsJ (metrics_dispatch rq (handled (route st limit rq)))) as Hm.
  { unfold metrics_dispatch, handled. apply keeps_bind; [by intros w|]. intros t0.
    apply keeps_bind; [apply keeps_catch; [exact Hr|]; intros []; by intros w|]. intros resp.
    repeat (apply keeps_bind; [by intros w|intros ?]). unfold when. destruct (is_query_route _); by intros w. }
  unfold app, respond. apply keeps_catch; [|by intros e w]. unfold ratelimit_dispatch.
  destruct (ratelimit_disabled st); [done|]. destruct (has_ratelimit_deps st); [|done]. by apply dispatch_keeps.
Qed.
End Routes.

(** ** What a request schedules *)
Lemma persist_on_file p f sha cid t w w' : persist_finding p f sha cid t w = (Ok tt, w') →
  ∃ r, r ∈ db_diagnostic_findings (w_db w') ∧ fi_tenant_id r = pr_tenant_id p ∧
    fi_finding_id r = f_finding_id f.
Proof.
  intros E. destruct (seen (pr_tenant_id p) (f_finding_id f) (w_db w)) eqn:Es.
  - apply existsb_exists in Es as (r & Hin%list_elem_of_In & Hr).
    rewrite andb_true_iff, !str_eqb_eq in Hr. exists r. split; [|naive_solver].
    assert (holds (kept_finding r) (persist_finding p f sha cid t)) as Hh
      by (unfold persist_finding; holds_calls; apply holds_write; apply _).
    specialize (Hh w Hin). by rewrite E in Hh.
  - apply persist_ok in E as (_ & _ & Hrow & _). rewrite Hrow by done. eexists.
    split; [apply elem_of_app; right; by left|done].
Qed.

Lemma accept_finding_tasks p rq : keeps tasks_ok (accept_finding p rq).
Proof.
  assert (∀ A (m : M A), stable durable m → keeps tasks_ok m) as Hd.
  { intros A m Hm. exact (keeps_durable (λ x, Forall (task_ok x.1) x.2) m Hm). }
  unfold accept_finding. apply keeps_bind; [apply keeps_lift|]. intros body.
  apply keeps_bind; [apply Hd, pure_stable, check_body_pure|]. intros f.
  apply keeps_bind; [apply Hd; intros w; by repeat case_match|]. intros cid.
  apply keeps_bind; [by apply Hd|]. intros t.
  apply keeps_bind; [apply Hd; intros w; unfold pg_check, acquire, in_transaction; run_prog; by case_match|].
  intros dec. apply keeps_bind; [by apply Hd|]. intros [].
  destruct (first_seen dec); [|apply keeps_ret]. apply keeps_bind_post.
  { apply keeps_tasks; [unfold persist_finding; idle_calls|]. intros tk.
    unfold persist_finding. holds_calls. apply holds_write. apply _. }
  intros [] w w' Hp Hw. apply persist_on_file in Hp as (r & Hr & Ht & Hf).
  unfold tasks_ok in *. simpl. apply Forall_snoc; [done|]. exists r. split_and!; try done.
  rewrite Hf. reflexivity.
Qed.

Lemma accept_erasure_tasks p rq : keeps tasks_ok (accept_erasure p rq).
Proof.
  assert (∀ A (m : M A), stable durable m → keeps tasks_ok m) as Hd.
  { intros A m Hm. exact (keeps_durable (λ x, Forall (task_ok x.1) x.2) m Hm). }
  unfold accept_erasure. apply keeps_bind; [apply Hd; intros w; by repeat case_match|]. intros q.
  apply keeps_bind; [by apply Hd|]. intros rid. apply keeps_bind; [by apply Hd|]. intros t.
  apply keeps_bind; [apply Hd; intros w; unfold datetime_add; by case_match|]. intros tgt.
  apply keeps_bind; [|intros []; apply keeps_ret]. unfold submit. apply keeps_bind_post.
  { apply keeps_tasks; [idle_calls|]. intros tk. holds_calls. }
  intros b w w' [_ Ei]%acquire_ok Hw. 
  assert (task_ok (w_db w') (TErase (pr_tenant_id p) rid q)) as Hok.
  { unfold insert_erasure in Ei. edestruct (insert_row_cases
      (Conn TenantRole (Some (pr_tenant_id p)) (w_guc w)) "erasure_requests" db_erasure_requests
      upd_erasure_requests erasure_checks) as [(Er & _)|[(Er & _ & _ & u & Hu & Htol & _)|(e & Er)]];
      rewrite Er in Ei; [|exfalso|done].
    - injection Ei as _ <-. eexists. simpl. split; [apply elem_of_app; right; by left|done].
    - apply elem_of_cons in Hu as [->|Hu]; [done|by apply not_elem_of_nil in Hu]. }
  unfold mbind at 1, prog_bind at 1.
  pose proof (idle_write (event (pr_tenant_id p) "erasure" rid (pr_subject p)) w') as Hi.
  pose proof (λ tk, holds_write (λ d, task_ok d tk) (event (pr_tenant_id p) "erasure" rid (pr_subject p)) w') as Hh.
  destruct (write _ w') as [[id|e] w2] eqn:Ew; simpl in *; unfold tasks_ok in *; simpl; rewrite Hi.
  - apply Forall_snoc; [|by apply Hh]. eapply Forall_impl; [exact Hw|]. intros tk Htk. by apply Hh.
  - eapply Forall_impl; [exact Hw|]. intros tk Htk. by apply Hh.
Qed.

Lemma break_glass_tasks rq : keeps tasks_ok (break_glass_query rq).
Proof.
  apply keeps_tasks; [|intros; apply holds_break_glass; apply _]. unfold break_glass_query, audited_read.
  apply stable_bind; [apply (operator_outside w_tasks); [by intros []|done]|]. intros op. idle_calls.
Qed.
End Requests.

(** * The process as a transition system *)
Section Steps.
Context `{Env} `{Pydantic} `{JwtLib} `{Sha256} `{Difflib} `{Prompts} `{PayloadSigner}.
Context `{PolicyGeneratorClient} `{CollectorAIClient} (pv : PolicyValidator) (factor : Q).

(** One step: a request, a scheduled task that runs to its end, a round of the
    feedback worker, a notification, an assignment, or a step of the environment
    that leaves the tables alone (clocks, Redis, connections, a restart that
    forgets scheduled work and the metric registry). *)
Inductive step : world → world → Prop :=
| step_request st limit rq w : step w (app st limit rq w).2
| step_graph s dir acc before after w :
    w_tasks w = before ++ TGraph s dir acc :: after →
    step w (run_async pv factor s dir (upd_tasks (λ _, before ++ after) w)).2
| step_erase t rid p before after w :
    w_tasks w = before ++ TErase t rid p :: after →
    step w (dispatch_erasure t rid p (upd_tasks (λ _, before ++ after) w)).2
| step_feedback w : step w (tick factor w).2
| step_notify payload w : step w (on_notify payload w).2
| step_assign v t sub rc w : step w (assign v t sub rc w).2
| step_environment w w' : w_db w' = w_db w → w_tasks w' ⊆+ w_tasks w →
    (w_metrics w' = w_metrics w ∨ w_metrics w' = []) → step w w'.

Definition steps : world → world → Prop := rtc step.

Context `{!TablesApart} `{!IdleClients}.

Lemma step_tables (I : db → Prop) `{!Preserved I} w w' : step w w' → I (w_db w) → I (w_db w').
Proof.
  intros Hs Hw. destruct Hs as [st limit rq w|s dir acc b a w E|t rid p b a w E|w|pl w|v t sub rc w|w w' E _ _].
  - by apply (app_keeps (λ x, I x.1)); [intros; apply holds_accept_finding
      |intros; apply holds_accept_erasure|apply holds_break_glass|].
  - by apply holds_run_async.
  - by apply holds_dispatch_erasure.
  - by apply holds_tick.
  - unfold on_notify. by case_match.
  - by apply pre_assign.
  - by rewrite E.
Qed.

Lemma step_tasks w w' : step w w' → tasks_ok w → tasks_ok w'.
Proof.
  intros Hs Hw. destruct Hs as [st limit rq w|s dir acc b a w E|t rid p b a w E|w|pl w|v t sub rc w|w w' E Et _].
  - apply (app_keeps (λ x, Forall (task_ok x.1) x.2)); try done;
      intros; eauto using accept_finding_tasks, accept_erasure_tasks, break_glass_tasks.
  - apply keeps_tasks; [apply idle_run_async|intros tk; apply (holds_run_async (λ d, task_ok d tk))|].
    unfold tasks_ok in *. rewrite E in Hw. simpl. rewrite !Forall_app, Forall_cons in *. naive_solver.
  - apply keeps_tasks; [apply idle_dispatch_erasure|intros tk; apply (holds_dispatch_erasure (λ d, task_ok d tk))|].
    unfold tasks_ok in *. rewrite E in Hw. simpl. rewrite !Forall_app, Forall_cons in *. naive_solver.
  - apply keeps_tasks; [apply idle_tick|intros tk; apply (holds_tick (λ d, task_ok d tk))|done].
  - unfold on_notify. by case_match.
  - apply keeps_tasks; [apply idle_assign|intros tk; apply (pre_assign (I := λ d, task_ok d tk))|done].
  - unfold tasks_ok in *. rewrite E. rewrite Forall_forall in *. intros tk Htk. apply Hw.
    by eapply elem_of_submseteq.
Qed.

Lemma steps_tables (I : db → Prop) `{!Preserved I} w w' : steps w w' → I (w_db w) → I (w_db w').
Proof.
  induction 1 as [|w w1 w' Hs _ IH]; [done|]. intros Hw. by eapply IH, step_tables.
Qed.
Lemma steps_tasks w w' : steps w w' → tasks_ok w → tasks_ok w'.
Proof.
  induction 1 as [|w w1 w' Hs _ IH]; [done|]. intros Hw. by eapply IH, step_tasks.
Qed.
End Steps.

(** A database with tenants and their configuration only. *)
Definition fresh_db (d : db) : Prop :=
  ∃ tenants config, d = Db tenants [] [] [] [] [] [] [] config [] [].
Lemma fresh_ok d : fresh_db d → integrity d ∧ audit_fields d ∧ ownership d.
Proof.
  intros (ts & cf & ->). split_and!; [constructor; apply table_ok_nil|constructor|by intros v].
Qed.

(** Every reachable state is consistent: from a fresh database, after any
    interleaving of requests, scheduled runs and erasures, feedback rounds,
    notifications, assignments and restarts, every row of every table satisfies
    its column constraints, keys are unique and references resolve; every audit
    event carries the field set of its kind; the ownership history is the chain of
    owners of each vehicle; and every scheduled run stems from a finding on file
    of its tenant, every scheduled erasure from a request on file. *)
Theorem reachable_consistent `{Env} `{Pydantic} `{JwtLib} `{Sha256} `{Difflib} `{Prompts} `{PayloadSigner}
    `{PolicyGeneratorClient} `{CollectorAIClient} `{!TablesApart} `{!IdleClients}
    (pv : PolicyValidator) (factor : Q) (w0 w : world) :
  fresh_db (w_db w0) → w_tasks w0 = [] → steps pv factor w0 w →
  integrity (w_db w) ∧ audit_fields (w_db w) ∧ ownership (w_db w) ∧ tasks_ok w.
Proof.
  intros (Hi & Ha & Ho)%fresh_ok Ht Hs. split_and!.
  1-3: by eapply (steps_tables pv factor _ w0 w).
  eapply (steps_tasks pv factor); [exact Hs|]. unfold tasks_ok. rewrite Ht. constructor.
Qed.

(** The record is append-only: whatever the process does, every finding and
    every outcome on file stays as it is, a deployment only ever expires, a policy
    version keeps everything but vehicles erased from its scope, and an audit event
    keeps everything but a redaction mark. *)
Theorem record_append_only `{Env} `{Pydantic} `{JwtLib} `{Sha256} `{Difflib} `{Prompts} `{PayloadSigner}
    `{PolicyGeneratorClient} `{CollectorAIClient} `{!TablesApart} `{!IdleClients}
    (pv : PolicyValidator) (factor : Q) (w w' : world) :
  steps pv factor w w' →
  db_diagnostic_findings (w_db w) ⊆ db_diagnostic_findings (w_db w') ∧
  db_policy_outcomes (w_db w) ⊆ db_policy_outcomes (w_db w') ∧
  (∀ r, r ∈ db_deployment_targets (w_db w) → kept_deployment r (w_db w')) ∧
  (∀ r, r ∈ db_collection_policies (w_db w) → kept_policy r (w_db w')) ∧
  (∀ r, r ∈ db_audit_events (w_db w) → kept_event r (w_db w')).
Proof.
  intros Hs. split_and!.
  - intros r. by apply (steps_tables pv factor (kept_finding r)).
  - intros r. by apply (steps_tables pv factor (kept_outcome r)).
  - intros r Hr. apply (steps_tables pv factor (kept_deployment r) w); [done|by left].
  - intros r Hr. apply (steps_tables pv factor (kept_policy r) w); [done|].
    exists (po_vehicle_scope r). split; [by destruct r|done].
  - intros r Hr. apply (steps_tables pv factor (kept_event r) w); [done|by left].
Qed.

(** * A concrete history *)
Module SystemSamples.
#[global] Instance clients_idle :
  @IdleClients GraphSamples.generator GraphSamples.collector.
Proof. by split. Qed.
Definition st : app_state :=
  {| ratelimit_disabled := true; has_ratelimit_deps := true; has_kafka := true; generate_latest := λ _, "" |}.
(** A finding is posted, its run is executed, and its vehicle is assigned. *)
Definition posted : world :=
  (app (H := Samples.env) (H0 := GraphSamples.pydantic) (H2 := IngestSamples.sha) st 50
    IngestSamples.rq1 Samples.start).2.
Definition posted_session : session :=
  match w_tasks posted with TGraph s _ _ :: _ => s | _ => GraphSamples.sess end.
Definition deployed_world : world :=
  (run_async (H := Samples.env) (H0 := GraphSamples.pydantic) GraphSamples.pv 1 posted_session None
    (upd_tasks (λ _, [] ++ []) posted)).2.
Definition assigned : world :=
  (assign (H := Samples.env) "VIN-1" "acme" "ops" "initial_provisioning" deployed_world).2.

Notation steps := (steps (H := Samples.env) (H0 := GraphSamples.pydantic) (H2 := IngestSamples.sha)
  GraphSamples.pv 1).
Lemma scheduled : w_tasks posted = [] ++ TGraph posted_session None None :: [].
Proof. vm_compute. reflexivity. Qed.
Lemma later : steps posted assigned.
Proof.
  apply (rtc_l _ posted deployed_world assigned).
  - exact (step_graph (H := Samples.env) (H0 := GraphSamples.pydantic) (H2 := IngestSamples.sha)
        GraphSamples.pv 1 posted_session None None [] [] posted scheduled).
  - apply (rtc_l _ deployed_world assigned assigned).
    + exact (step_assign (H := Samples.env) (H0 := GraphSamples.pydantic) (H2 := IngestSamples.sha)
        GraphSamples.pv 1 "VIN-1" "acme" "ops" "initial_provisioning" deployed_world).
    + apply rtc_refl.
Qed.
Lemma history : steps Samples.start assigned.
Proof.
  apply (rtc_l _ Samples.start posted assigned).
  - exact (step_request (H := Samples.env) (H0 := GraphSamples.pydantic) (H2 := IngestSamples.sha)
        GraphSamples.pv 1 st 50 IngestSamples.rq1 Samples.start).
  - exact later.
Qed.
End SystemSamples.

Lemma reachable_consistent_witness :
  length (db_collection_policies (w_db SystemSamples.assigned)) = 1%nat ∧
  integrity (w_db SystemSamples.assigned) ∧ ownership (w_db SystemSamples.assigned).
Proof.
  split; [vm_compute; reflexivity|].
  destruct (reachable_consistent (H := Samples.env) (H0 := GraphSamples.pydantic) (H2 := IngestSamples.sha)
    GraphSamples.pv 1 Samples.start SystemSamples.assigned
    (ex_intro _ _ (ex_intro _ _ eq_refl)) eq_refl SystemSamples.history) as (Hi & _ & Ho & _).
  split; [exact Hi | exact Ho].
Defined.

Lemma record_append_only_witness :
  db_diagnostic_findings (w_db SystemSamples.posted) ⊆ db_diagnostic_findings (w_db SystemSamples.assigned).
Proof.
  exact (proj1 (record_append_only (H := Samples.env) (H0 := GraphSamples.pydantic)
    (H2 := IngestSamples.sha) GraphSamples.pv 1 SystemSamples.posted SystemSamples.assigned
    SystemSamples.later)).
Defined.
