(* ===== verification/Interleave.v ===== *)
(** Concurrent posts.  [post_finding] gives up control at every transaction; here the
    handler is cut at those points, and any number of handlers interleave with each
    other and with everything else the process does. *)
From S2P Require Import Prelude PyStr PyDict Json JsonText PyTime Errors Models World Samples Database Integrity PyVal AuditLog Auth Http Validator Graph Runner Ingest Slm App System.
Local Open Scope Z_scope.

(** Where a handler stands: before [check_or_record], before the INSERT, before the
    audit event, before [_enqueue], or through. *)
Inductive phase := PCheck | PPersist | PAudit | PEnqueue | PDone (r : result exn response).
(** The locals of the handler. *)
Record handler := Handler {
  h_principal : Principal; h_finding : DiagnosticFinding; h_sha : string; h_correlation_id : string;
  h_accepted_at : Z; h_directive : option string; h_accel : option string; h_phase : phase }.
Definition at_phase (ph : phase) (h : handler) : handler :=
  Handler (h_principal h) (h_finding h) (h_sha h) (h_correlation_id h) (h_accepted_at h) (h_directive h)
    (h_accel h) ph.
Definition h_tenant (h : handler) : string := pr_tenant_id (h_principal h).
Definition h_receipt (h : handler) (replay : bool) : response :=
  receipt (h_principal h) (h_finding h) (h_correlation_id h) (h_accepted_at h) replay.

Section Phases.
Context `{Env} `{Pydantic} `{Sha256}.

(** The handler up to [check_or_record]. *)
Definition intake (p : Principal) (rq : request) : M handler :=
  body ← lift (rq_body rq);
  f ← check_body p body;
  correlation_id ← match header "x-correlation-id" rq with
                   | Some h => if nonempty h then mret h else new_id
                   | None => new_id
                   end;
  accepted_at ← now;
  mret (Handler p f (sha256 (canonical body)) correlation_id accepted_at
    (header "x-telemetry-simulator-directive" rq) (header "x-time-acceleration-factor" rq) PCheck).

(** The code up to the next suspension, and where it stops. *)
Definition phase_body (h : handler) : M phase :=
  match h_phase h with
  | PCheck =>
      d ← pg_check (h_tenant h) (f_finding_id (h_finding h)) (h_sha h);
      inc "diagnostic_findings_received_total" [h_tenant h];;
      mret (if first_seen d then PPersist else PDone (Ok (h_receipt h true)))
  | PPersist =>
      acquire (h_tenant h) (λ c,
        insert_finding c (finding_row_of (h_tenant h) (h_finding h) (h_sha h) (h_accepted_at h)));;
      mret PAudit
  | PAudit => write (accepted_event (h_principal h) (h_finding h) (h_correlation_id h));; mret PEnqueue
  | PEnqueue =>
      enqueue (h_principal h) (h_finding h) (h_correlation_id h) (h_directive h) (h_accel h);;
      mret (PDone (Ok (h_receipt h false)))
  | PDone r => mret (PDone r)
  end.
Definition phase_step (h : handler) (w : world) : handler * world :=
  match phase_body h w with
  | (Ok ph, w') => (at_phase ph h, w')
  | (Raise e, w') => (at_phase (PDone (Raise e)) h, w')
  end.
(** A handler nothing interrupts. *)
Fixpoint drive (n : nat) (h : handler) : M response := λ w,
  match h_phase h, n with
  | PDone r, _ => (r, w)
  | _, O => (Raise (ERuntimeError "not through"), w)
  | _, S n' => drive n' (phase_step h w).1 (phase_step h w).2
  end.

Lemma drive_done n h r w : h_phase h = PDone r → drive n h w = (r, w).
Proof. intros E. destruct n; unfold drive; by rewrite E. Qed.
Lemma drive_step n h w : (∀ r, h_phase h ≠ PDone r) →
  drive (S n) h w = (ph ← phase_body h; drive n (at_phase ph h)) w.
Proof.
  intros Hnd. unfold mbind, prog_bind. transitivity (drive n (phase_step h w).1 (phase_step h w).2).
  - cbn [drive]. destruct (h_phase h) as [ | | | |r]; try done. by destruct (Hnd r).
  - unfold phase_step. destruct (phase_body h w) as [[ph|e] w']; [done|]. by apply drive_done.
Qed.

#[local] Arguments drive : simpl never.

(** The phases are the handler: run to the end without interruption they are
    [accept_finding]. *)
Theorem phases_compose (p : Principal) (rq : request) (w : world) :
  accept_finding p rq w = (h ← intake p rq; drive 4 h) w.
Proof.
  unfold accept_finding, intake. rewrite !bind_assoc. apply bind_ext. intros body w1 _.
  rewrite !bind_assoc. apply bind_ext. intros f w2 _.
  rewrite !bind_assoc. apply bind_ext. intros cid w3 _.
  rewrite !bind_assoc. apply bind_ext. intros t w4 _. rewrite bind_ret_l, drive_step by done.
  cbn [phase_body h_phase h_principal h_finding h_sha]. unfold h_tenant. cbn [h_principal].
  rewrite !bind_assoc. apply bind_ext. intros d w5 _.
  rewrite !bind_assoc. apply bind_ext. intros [] w6 _. rewrite bind_ret_l.
  destruct (first_seen d); [|by erewrite drive_done by reflexivity].
  unfold persist_finding. rewrite drive_step by done. cbn [phase_body at_phase h_phase]. unfold h_tenant. cbn.
  rewrite !bind_assoc. apply bind_ext. intros b w7 _. rewrite bind_ret_l, drive_step by done.
  cbn. rewrite !bind_assoc. apply bind_ext. intros id w8 _. rewrite !bind_ret_l, drive_step by done.
  cbn. rewrite !bind_assoc. apply bind_ext. intros [] w9 _. rewrite bind_ret_l. by erewrite drive_done by reflexivity.
Qed.
End Phases.

(** * Findings on file *)
Definition finding_on_file (tenant_id finding_id : string) (d : db) : Prop :=
  ∃ r, r ∈ db_diagnostic_findings d ∧ fi_tenant_id r = tenant_id ∧ fi_finding_id r = finding_id.
Lemma on_file_seen t fid d : finding_on_file t fid d ↔ seen t fid d = true.
Proof.
  unfold seen. rewrite existsb_exists. split.
  - intros (r & Hr & Ht & Hf). exists r. split; [by apply list_elem_of_In|]. by rewrite Ht, Hf, !str_eqb_refl.
  - intros (r & Hr%list_elem_of_In & [Ht%str_eqb_eq Hf%str_eqb_eq]%andb_true_iff). by exists r.
Qed.
#[export] Instance on_file_preserved `{Env} t fid : Preserved (finding_on_file t fid).
Proof.
  constructor; try solve [elsewhere]; [|apply holds_assign; [done|done|elsewhere]].
  intros. apply holds_insert. intros d (x & Hx & ?) _. exists x. split; [apply elem_of_app; by left|done].
Qed.
(** After the INSERT the finding is on file, whoever put it there. *)
Lemma inserted_on_file `{Env} t f sha accepted_at w b w' :
  acquire t (λ c, insert_finding c (finding_row_of t f sha accepted_at)) w = (Ok b, w') →
  finding_on_file t (f_finding_id f) (w_db w').
Proof.
  intros [_ E]%acquire_ok. unfold insert_finding in E. edestruct (insert_row_cases
    (Conn TenantRole (Some t) (w_guc w)) "diagnostic_findings" db_diagnostic_findings
    upd_diagnostic_findings finding_checks) as [(Er & _)|[(Er & _ & _ & u & Hu & Htol & Hx)|(e & Er)]];
    rewrite Er in E; [| |done]; injection E as _ <-.
  - eexists. simpl. split; [apply elem_of_app; right; by left|done].
  - apply elem_of_cons in Hu as [->|Hu]; [|by apply not_elem_of_nil in Hu].
    simpl in Hx. apply existsb_exists in Hx as (r & Hr%list_elem_of_In & Hk). exists r. split; [done|].
    unfold finding_pk in Hk. apply andb_true_iff in Hk as [Ht%str_eqb_eq Hf%str_eqb_eq]. done.
Qed.

(** * Interleavings *)
Section Interleave.
Context `{Env} `{Pydantic} `{JwtLib} `{Sha256} `{Difflib} `{Prompts} `{PayloadSigner}.
Context `{PolicyGeneratorClient} `{CollectorAIClient} (pv : PolicyValidator) (factor : Q).

(** One step of the process with suspended handlers: a handler moves on to its next
    suspension, a request reaches its first one, or anything else happens. *)
Inductive istep : world * list handler → world * list handler → Prop :=
| i_handler w b h a : istep (w, b ++ h :: a) ((phase_step h w).2, b ++ (phase_step h w).1 :: a)
| i_arrive w hs h : h_phase h = PCheck → istep (w, hs) (w, hs ++ [h])
| i_other w w' hs : step pv factor w w' → istep (w, hs) (w', hs).
Definition isteps : world * list handler → world * list handler → Prop := rtc istep.

Definition on_file (h : handler) : db → Prop := finding_on_file (h_tenant h) (f_finding_id (h_finding h)).
(** A handler past the INSERT has its finding on file. *)
Definition handler_ok (d : db) (h : handler) : Prop :=
  match h_phase h with PAudit | PEnqueue => on_file h d | _ => True end.

Lemma phase_holds (I : db → Prop) `{!Preserved I} h : holds I (phase_body h).
Proof.
  unfold phase_body, pg_check, enqueue. destruct (h_phase h); holds_calls. apply holds_write. apply _.
Qed.
Lemma phase_step_world h w : (phase_step h w).2 = (phase_body h w).2.
Proof. unfold phase_step. by destruct (phase_body h w) as [[] ?]. Qed.
Lemma phase_step_keeps (I : db → Prop) `{!Preserved I} h w : I (w_db w) → I (w_db (phase_step h w).2).
Proof. rewrite phase_step_world. apply (phase_holds I). Qed.

Lemma handler_ok_step h w : handler_ok (w_db w) h → handler_ok (w_db (phase_step h w).2) (phase_step h w).1.
Proof.
  intros Hh. pose proof (phase_step_keeps (on_file h) h w) as Hk. unfold phase_step in *.
  destruct (phase_body h w) as [[ph|e] w'] eqn:E; [|done]. cbn [fst snd] in *. unfold handler_ok in *.
  change (h_phase (at_phase ph h)) with ph. change (on_file (at_phase ph h)) with (on_file h).
  unfold phase_body in E. destruct (h_phase h) as [ | | | |r].
  - apply bind_inv_ok in E as (d & w1 & _ & E). apply bind_inv_ok in E as ([] & w2 & _ & [= <- _]).
    by destruct (first_seen d).
  - apply bind_inv_ok in E as (b & w1 & Ei & [= <- <-]). by eapply inserted_on_file.
  - apply bind_inv_ok in E as (id & w1 & _ & [= <- <-]). by apply Hk.
  - by apply bind_inv_ok in E as ([] & w1 & _ & [= <- _]).
  - by injection E as <- _.
Qed.
Lemma phase_step_tasks h w : handler_ok (w_db w) h → tasks_ok w → tasks_ok (phase_step h w).2.
Proof.
  intros Hh Hw. rewrite phase_step_world.
  assert (h_phase h ≠ PEnqueue → tasks_ok (phase_body h w).2) as Hidle.
  { intros Hne. apply keeps_tasks; [|intros tk; apply (phase_holds (λ d, task_ok d tk))|done].
    unfold phase_body, pg_check. destruct (h_phase h); try done; idle_calls. }
  destruct (h_phase h) as [ | | | |r] eqn:Ep; try (by apply Hidle).
  unfold handler_ok in Hh. rewrite Ep in Hh. destruct Hh as (r & Hr & Ht & Hf).
  unfold phase_body, enqueue, spawn, new_id, now. rewrite Ep. run_prog. unfold tasks_ok in *. simpl.
  apply Forall_snoc; [done|]. exists r. split_and!; try done. simpl. by rewrite Hf.
Qed.

Context `{!TablesApart} `{!IdleClients}.

Lemma istep_tables (I : db → Prop) `{!Preserved I} s s' : istep s s' → I (w_db s.1) → I (w_db s'.1).
Proof.
  intros Hs Hi. destruct Hs as [w b h a|w hs h _|w w' hs Hs]; simpl in *; [by apply phase_step_keeps|done|].
  by eapply (step_tables pv factor I w w').
Qed.
Lemma isteps_tables (I : db → Prop) `{!Preserved I} s s' : isteps s s' → I (w_db s.1) → I (w_db s'.1).
Proof. induction 1 as [|s s1 s' Hs _ IH]; [done|]. intros Hi. by eapply IH, istep_tables. Qed.

Definition scheduling_ok (s : world * list handler) : Prop :=
  tasks_ok s.1 ∧ Forall (handler_ok (w_db s.1)) s.2.
Lemma handlers_kept s s' hs : istep s s' → Forall (handler_ok (w_db s.1)) hs → Forall (handler_ok (w_db s'.1)) hs.
Proof.
  intros Hs Hh. eapply Forall_impl; [exact Hh|]. intros h. unfold handler_ok.
  destruct (h_phase h); try done; by apply (istep_tables (on_file h) s s').
Qed.
Lemma istep_scheduling s s' : istep s s' → scheduling_ok s → scheduling_ok s'.
Proof.
  intros Hs [Ht Hh]. pose proof (λ hs, handlers_kept _ _ hs Hs) as Hk.
  destruct Hs as [w b h a|w hs h Hp|w w' hs Hs]; simpl in *.
  - rewrite Forall_app, Forall_cons in Hh. destruct Hh as (Hb & Hh & Ha). split; [by apply phase_step_tasks|].
    simpl. rewrite Forall_app, Forall_cons. split_and!; [by apply Hk|by apply handler_ok_step|by apply Hk].
  - split; [done|]. apply Forall_snoc; [done|]. unfold handler_ok. by rewrite Hp.
  - split; [by eapply (step_tasks pv factor w w')|by apply Hk].
Qed.
Lemma isteps_scheduling s s' : isteps s s' → scheduling_ok s → scheduling_ok s'.
Proof. induction 1 as [|s s1 s' Hs _ IH]; [done|]. intros Hi. by eapply IH, istep_scheduling. Qed.

(** A handler that has not got past its check, or has answered that the finding was
    seen before, or has failed. *)
Definition replaying (h : handler) (h' : handler) : Prop :=
  ∃ ph, h' = at_phase ph h ∧
    (ph = PCheck ∨ ph = PDone (Ok (h_receipt h true)) ∨ ∃ e, ph = PDone (Raise e)).
Lemma replaying_step h h' w : nonempty (h_tenant h) = true → on_file h (w_db w) → replaying h h' →
  replaying h (phase_step h' w).1 ∧ w_tasks (phase_step h' w).2 = w_tasks w.
Proof.
  intros Hne Hf%on_file_seen (ph & -> & Hph). rewrite phase_step_world. unfold phase_step.
  destruct Hph as [->|[->|(e & ->)]]; [|split; [|done]; eexists; split; [done|]; auto|split; [|done]; eexists; split; [done|]; eauto].
  unfold phase_body. cbn [at_phase h_phase]. unfold mbind, prog_bind.
  change (h_tenant (at_phase PCheck h)) with (h_tenant h).
  change (h_finding (at_phase PCheck h)) with (h_finding h). change (h_sha (at_phase PCheck h)) with (h_sha h).
  destruct (pg_check _ _ _ w) as [[d|e] w1] eqn:E.
  - apply pg_check_ok in E as (-> & _ & _ & Hs). destruct (first_seen d).
    { rewrite (Hs eq_refl Hne) in Hf. done. }
    split; [|done]. eexists. split; [done|]. by right; left.
  - assert (idle (pg_check (h_tenant h) (f_finding_id (h_finding h)) (h_sha h))) as Hi by (unfold pg_check; idle_calls).
    specialize (Hi w). rewrite E in Hi. split; [|done]. eexists. split; [done|]. eauto.
Qed.
End Interleave.

(** The invariants survive interleaving inside a request: with any number of posts
    suspended at their transactions, and anything else happening in between, every
    reachable state still satisfies the constraints, keys and references of every
    table, audit events carry their field sets, scheduled runs stem from findings on
    file, and a handler past its INSERT has its finding on file. *)
Theorem interleaved_consistent `{Env} `{Pydantic} `{JwtLib} `{Sha256} `{Difflib} `{Prompts} `{PayloadSigner}
    `{PolicyGeneratorClient} `{CollectorAIClient} `{!TablesApart} `{!IdleClients}
    (pv : PolicyValidator) (factor : Q) (w0 w : world) (hs : list handler) :
  fresh_db (w_db w0) → w_tasks w0 = [] → isteps pv factor (w0, []) (w, hs) →
  integrity (w_db w) ∧ audit_fields (w_db w) ∧ ownership (w_db w) ∧ tasks_ok w ∧
  Forall (handler_ok (w_db w)) hs.
Proof.
  intros (Hi & Ha & Ho)%fresh_ok Ht Hs. split_and!; try by apply (isteps_tables pv factor _ _ _ Hs).
  all: destruct (isteps_scheduling pv factor _ _ Hs) as [Hts Hhs]; try done.
  all: split; [unfold tasks_ok; simpl; rewrite Ht|]; constructor.
Qed.

(** C9. Exactly once, as far as interleaving allows: a post whose check comes after its
    finding is on file never schedules a run, whatever else happens before, between
    and after its transactions; it answers that it is a replay, or fails. *)
Theorem late_check_replays `{Env} `{Pydantic} `{JwtLib} `{Sha256} `{Difflib} `{Prompts} `{PayloadSigner}
    `{PolicyGeneratorClient} `{CollectorAIClient} `{!TablesApart} `{!IdleClients}
    (pv : PolicyValidator) (factor : Q) (w w' : world) (hs hs' : list handler) (i : nat) (h : handler) :
  hs !! i = Some h → h_phase h = PCheck → nonempty (h_tenant h) = true →
  seen (h_tenant h) (f_finding_id (h_finding h)) (w_db w) = true →
  isteps pv factor (w, hs) (w', hs') →
  ∃ h', hs' !! i = Some h' ∧ replaying h h' ∧ w_tasks (phase_step h' w').2 = w_tasks w'.
Proof.
  intros Hi Hp Hne Hs%on_file_seen Hsteps.
  assert (∃ h', hs !! i = Some h' ∧ replaying h h') as Hr.
  { exists h. split; [done|]. exists PCheck. split; [destruct h; simpl in *; by subst|by left]. }
  enough (on_file h (w_db w') ∧ ∃ h', hs' !! i = Some h' ∧ replaying h h') as [Hf (h' & Hi' & Hr')].
  { exists h'. split_and!; [done..|]. by eapply replaying_step. }
  clear Hi Hp. remember (w, hs) as s eqn:Es. remember (w', hs') as s' eqn:Es'. revert w hs w' hs' Es Es' Hs Hr.
  induction Hsteps as [|s s1 s' Hstep _ IH]; intros w hs w' hs' -> Es' Hs Hr; [by injection Es' as <- <-|].
  pose proof (istep_tables pv factor (on_file h) _ _ Hstep Hs) as Hs1.
  destruct s1 as [w1 hs1]. apply (IH w1 hs1 w' hs'); [done..|]. clear IH. destruct Hr as (h0 & Hi0 & Hr0).
  inversion Hstep as [? b x a|? ? x Hx|? ? ? Hx]; subst; [|exists h0; split; [by apply lookup_app_l_Some|done]|by exists h0].
  destruct (decide (i = length b)) as [->|Hneq].
  - rewrite list_lookup_middle in Hi0 by done. injection Hi0 as ->. eexists. split; [by apply list_lookup_middle|].
    by eapply replaying_step.
  - exists h0. split; [|done]. rewrite <- Hi0. destruct (decide (i < length b)%nat).
    + by rewrite !lookup_app_l by done.
    + rewrite !lookup_app_r by lia. by destruct (i - length b)%nat eqn:?; [lia|].
Qed.

(** * A schedule *)
(** The handler at position [i] moves on. *)
Definition move `{Env} `{Pydantic} `{Sha256} (s : world * list handler) (i : nat) : world * list handler :=
  match s.2 !! i with
  | Some h => ((phase_step h s.1).2, <[i := (phase_step h s.1).1]> s.2)
  | None => s
  end.
Lemma moves_isteps `{Env} `{Pydantic} `{JwtLib} `{Sha256} `{Difflib} `{Prompts} `{PayloadSigner}
    `{PolicyGeneratorClient} `{CollectorAIClient} (pv : PolicyValidator) (factor : Q) order s :
  isteps pv factor s (foldl move s order).
Proof.
  revert s. induction order as [|i order IH]; intros [w hs]; simpl; [apply rtc_refl|].
  destruct (hs !! i) as [h|] eqn:E; unfold move at 2; simpl; rewrite E; [|apply IH].
  eapply rtc_l; [|apply IH]. rewrite <- (take_drop_middle hs i h E) at 1.
  rewrite (insert_take_drop hs i) by (by eapply lookup_lt_Some). apply i_handler.
Qed.

Module InterleaveSamples.
(** A post of the sample finding that has reached its check, under a correlation id. *)
Definition arrived (cid : string) : handler :=
  match (intake (H := Samples.env) (H0 := GraphSamples.pydantic) (H1 := IngestSamples.sha) IngestSamples.acme
    (IngestSamples.rq IngestSamples.body [("x-correlation-id", cid)]) Samples.start).1 with
  | Ok h => h
  | Raise e => Handler IngestSamples.acme SlmSamples.f1 "" cid 0 None None (PDone (Raise e))
  end.
Definition two : list handler := [arrived "c-1"; arrived "c-2"].
#[local] Notation isteps := (isteps (H := Samples.env) (H0 := GraphSamples.pydantic) (H2 := IngestSamples.sha)
  GraphSamples.pv 1).
#[local] Notation move := (move (H := Samples.env) (H0 := GraphSamples.pydantic) (H1 := IngestSamples.sha)).
Lemma arrive : isteps (Samples.start, []) (Samples.start, two).
Proof.
  apply (rtc_l _ _ (Samples.start, [] ++ [arrived "c-1"])); [apply i_arrive; vm_compute; reflexivity|].
  apply (rtc_l _ _ (Samples.start, [arrived "c-1"] ++ [arrived "c-2"])); [apply i_arrive; vm_compute; reflexivity|].
  apply rtc_refl.
Qed.
(** Both check, then both go on. *)
Definition raced : world * list handler := foldl move (Samples.start, two) [0; 1; 0; 0; 0; 1; 1; 1]%nat.
(** The first is through before the second checks. *)
Definition first_through : world * list handler := foldl move (Samples.start, two) [0; 0; 0; 0]%nat.
Definition both_through : world * list handler := foldl move first_through [1]%nat.
Lemma race : isteps (Samples.start, []) raced.
Proof. etransitivity; [apply arrive|apply moves_isteps]. Qed.
Lemma second_late : isteps first_through both_through.
Proof. apply moves_isteps. Qed.
End InterleaveSamples.

(** Two posts of one finding that both check before either inserts are both answered
    as first posts, and both schedule a run, although one row is stored. *)
Example concurrent_posts_run_twice :
  isteps (H := Samples.env) (H0 := GraphSamples.pydantic) (H2 := IngestSamples.sha) GraphSamples.pv 1
    (Samples.start, []) InterleaveSamples.raced ∧
  length (db_diagnostic_findings (w_db InterleaveSamples.raced.1)) = 1%nat ∧
  length (w_tasks InterleaveSamples.raced.1) = 2%nat ∧
  (λ h, match h_phase h with PDone (Ok r) => jget "idempotent_replay" (rs_body r) | _ => None end)
    <$> InterleaveSamples.raced.2 = [Some (JBool false); Some (JBool false)].
Proof.
  split; [apply InterleaveSamples.race|]. split; [vm_compute; reflexivity|].
  split; vm_compute; reflexivity.
Qed.

Lemma interleaved_consistent_witness :
  length (w_tasks InterleaveSamples.raced.1) = 2%nat ∧ integrity (w_db InterleaveSamples.raced.1).
Proof.
  split; [vm_compute; reflexivity|].
  exact (proj1 (interleaved_consistent (H := Samples.env) (H0 := GraphSamples.pydantic) (H2 := IngestSamples.sha)
    GraphSamples.pv 1 Samples.start InterleaveSamples.raced.1 InterleaveSamples.raced.2
    (ex_intro _ _ (ex_intro _ _ eq_refl)) eq_refl InterleaveSamples.race)).
Defined.
Lemma late_check_replays_witness :
  ∃ h', InterleaveSamples.both_through.2 !! 1%nat = Some h' ∧ replaying (InterleaveSamples.arrived "c-2") h'.
Proof.
  destruct (late_check_replays (H := Samples.env) (H0 := GraphSamples.pydantic) (H2 := IngestSamples.sha)
    GraphSamples.pv 1 InterleaveSamples.first_through.1 InterleaveSamples.both_through.1
    InterleaveSamples.first_through.2 InterleaveSamples.both_through.2 1 (InterleaveSamples.arrived "c-2"))
    as (h' & Hi & Hr & _).
  - vm_compute. reflexivity.
  - vm_compute. reflexivity.
  - vm_compute. reflexivity.
  - vm_compute. reflexivity.
  - exact InterleaveSamples.second_late.
  - exists h'. split; [exact Hi|exact Hr].
Defined.
