(* ===== verification/Concurrency.v ===== *)
(** The process at the grain of its transactions.  Every operation that makes more than
    one transaction is a thread, cut at each of them; any number of threads take turns,
    beside requests of one transaction, notifications, assignments and restarts.  A
    thread playing alone is the operation ([implements]), and what the transactions
    preserve holds in every state the interleavings reach. *)
From S2P Require Import Prelude PyStr PyDict Json JsonText PyTime Errors TokenBucket Models World Threads Samples Database Isolation Integrity PyVal AuditLog TenantConfig Auth HotStore Http RateLimit Validator Vehicles Graph Deployer Repository Feedback Runner Ingest Erasure BreakGlass Query App System Interleave.
Local Open Scope Z_scope.

(** * The operations as threads *)
Section Operations.
Context `{Env} `{Pydantic} `{Sha256} `{Difflib} `{Prompts} `{PayloadSigner}.
Context `{PolicyGeneratorClient} `{CollectorAIClient} (pv : PolicyValidator) (factor : Q).

(** [_persist_finding]. *)
Definition persist_finding_thread (p : Principal) (f : DiagnosticFinding) (payload_sha correlation_id : string)
    (accepted_at : Z) : thread unit :=
  atomic (acquire (pr_tenant_id p) (λ c,
    insert_finding c (finding_row_of (pr_tenant_id p) f payload_sha accepted_at)));;
  atomic (write (accepted_event p f correlation_id));;
  mret tt.
(** [post_finding], for an authenticated caller. *)
Definition accept_finding_thread (p : Principal) (rq : request) : thread response :=
  body ← atomic (lift (rq_body rq));
  f ← atomic (check_body p body);
  correlation_id ← atomic (match header "x-correlation-id" rq with
                           | Some h => if nonempty h then mret h else new_id
                           | None => new_id
                           end);
  accepted_at ← atomic now;
  d ← atomic (pg_check (pr_tenant_id p) (f_finding_id f) (sha256 (canonical body)));
  atomic (inc "diagnostic_findings_received_total" [pr_tenant_id p]);;
  if first_seen d then
    persist_finding_thread p f (sha256 (canonical body)) correlation_id accepted_at;;
    atomic (enqueue p f correlation_id (header "x-telemetry-simulator-directive" rq)
      (header "x-time-acceleration-factor" rq));;
    mret (receipt p f correlation_id accepted_at false)
  else mret (receipt p f correlation_id accepted_at true).

(** [ErasureDispatcher.submit]. *)
Definition submit_thread (request_id tenant_id requested_by : string) (requested_at target : Z)
    (p : ErasureRequest) : thread unit :=
  atomic (acquire tenant_id (λ c,
    insert_erasure c
      (ErasureRow request_id tenant_id (subject_kind p) (subject_identifier p) requested_by
        requested_at target "requested"
        (JObj [("registry", JStr "pending"); ("telemetry", JStr "pending"); ("audit", JStr "pending")])
        (Models.er_mode p) None)));;
  atomic (write (event tenant_id "erasure" request_id requested_by));;
  atomic (spawn (TErase tenant_id request_id p)).
(** [submit_erasure_request], for an authenticated caller. *)
Definition accept_erasure_thread (p : Principal) (rq : request) : thread response :=
  payload ← atomic (match rq_body rq with
            | Ok body => match validate_erasure body with
                         | Ok x => mret x
                         | Raise es => raise (EHTTP 422 (JStr (pyd_str es)))
                         end
            | Raise _ => raise (EHTTP 422 (JStr "json_invalid"))
            end);
  request_id ← atomic new_id;
  requested_at ← atomic now;
  target ← atomic (datetime_add requested_at (DEFAULT_BOUND_DAYS * 86400000000));
  submit_thread request_id (pr_tenant_id p) (pr_subject p) requested_at target payload;;
  mret (JSONResponse 202 (JObj [("request_id", JStr request_id);
                                ("target_completion_at", JStr (isoformat target))])).

(** [ErasureDispatcher._dispatch]. *)
Definition store_status_thread (m : M unit) (done : string) : thread string :=
  tcatch (atomic m;; mret done) (λ _, mret "failed").
Definition dispatch_erasure_thread (tenant_id request_id : string) (p : ErasureRequest) : thread unit :=
  registry ← store_status_thread (erase_registry tenant_id p)
    (if str_eqb (Models.er_mode p) "erased" then "erased" else "redacted");
  telemetry ← store_status_thread (erase_telemetry tenant_id p) "erased";
  audit ← store_status_thread (redact_audit tenant_id p) "redacted";
  let per_store := JObj [("registry", JStr registry); ("telemetry", JStr telemetry);
                         ("audit", JStr audit)] in
  let status := if forallb (λ v, str_eqb v "erased" || str_eqb v "redacted")
                     [registry; telemetry; audit]
                then "completed" else "partial" in
  atomic (acquire tenant_id (λ c,
    t ← now;
    modify (upd_db (upd_erasure_requests (update_where c
      (λ r, str_eqb (er_request_id r) request_id) (set_completion status per_store t)))))).

(** [GraphRunner._run] and [run_async]. *)
Definition persist_deployed_thread (s : session) (runtime_info : json) (start : Z)
    (sim_directive : option string) : thread unit :=
  let policy := or_else (s_generated_policy s) (JObj []) in
  let meta := AuditMeta (s_prompt_template_version s)
    (jget_or "slm_repo" (JStr "unknown") runtime_info)
    (jget_or "slm_revision_sha" (JStr "0000000000000000000000000000000000000000") runtime_info)
    (jget_or "slm_runtime" (JStr "stub") runtime_info)
    (jget_or "slm_runtime_version" (JStr "unknown") runtime_info)
    (jget_or "slm_quantization" (JStr "none") runtime_info)
    (default 0 (s_last_decoding_seed s)) (sign_payload policy) key_id in
  atomic (policy_insert (s_tenant_id s) policy meta);;
  atomic (inc "policy_validated_total" [s_tenant_id s]);;
  pid ← atomic (policy_field (s_generated_policy s) "policy_id");
  ver ← atomic (policy_field (s_generated_policy s) "version");
  atomic (write (with_policy (policy_ref s pid ver) (session_event s "validated")));;
  let deployment := or_else (s_deployment_record s) (JObj []) in
  twhen (truthy deployment) (
    atomic (deployment_insert (s_tenant_id s) deployment);;
    atomic (inc "policy_deployed_total" [s_tenant_id s]);;
    atomic (write (with_factor factor
      (with_deployment (JObj [("deployment_id", jget_or "deployment_id" JNull deployment)])
        (with_policy (policy_ref s pid ver) (session_event s "deployed")))));;
    t ← atomic now;
    atomic (observe "time_to_deploy_seconds" [s_tenant_id s] ((t - start) # 1000000));;
    atomic (simulate (s_tenant_id s) policy sim_directive);;
    mret tt).
Definition run_graph_tail_thread (sim_directive : option string) (start : Z) (g : GraphRun) : thread unit :=
  let s := run_session g in
  let info := or_else (s_last_runtime_info s) (JObj []) in
  sha ← atomic (dict_get "slm_revision_sha" info);
  atomic (set_gauge "slm_weight_sha_active" [py_str (default (JStr "unknown") sha)] 1);;
  atomic (set_gauge "slm_runtime_image_digest_active"
    [py_str (jget_or "slm_runtime_version" (JStr "unknown") info);
     py_str (jget_or "slm_runtime" (JStr "unknown") info)] 1);;
  atomic (audit_generated factor s info);;
  match run_final g with
  | DeadLetter =>
      invalid ← atomic (flatten_invalid (s_validation_errors s));
      atomic (write (dead_letter_event s invalid));;
      mret tt
  | Completed => persist_deployed_thread s info start sim_directive
  end.
Definition run_async_thread (s : session) (sim_directive : option string) : thread unit :=
  tcatch
    (start ← atomic now;
     g ← atomic (run pv s);
     run_graph_tail_thread sim_directive start g)
    (λ e, atomic (write (runner_error_event s e));; mret tt).

(** [FeedbackWorker._process] and [tick]. *)
Definition process_thread (d : deployment_row) : thread unit :=
  policy ← atomic (policy_get (dp_tenant_id d) (dp_policy_id d) (Some (dp_version d)));
  match policy with
  | None => atomic (mark_expired (dp_deployment_id d))
  | Some policy =>
      observations ← atomic (collect_telemetry (dp_tenant_id d) (dp_vehicle_scope d) d);
      threshold ← atomic (py_float (jget_or "confidence_threshold" (JFloat (1 # 2)) policy));
      let outcome := evaluate (te_value <$> observations) threshold in
      outcome_id ← atomic new_id;
      finding ← atomic (subscript "originating_finding" policy);
      evaluated ← atomic now;
      atomic (outcome_insert (dp_tenant_id d)
        (OutcomeRecord outcome_id finding (dp_policy_id d) (dp_version d) (ho_state outcome)
          evaluated (ho_count outcome) (ho_quality outcome) (ho_evidence outcome)));;
      atomic (mark_expired (dp_deployment_id d));;
      atomic (inc "policy_outcome_total" [dp_tenant_id d; ho_state outcome]);;
      atomic (observe_delay d);;
      atomic (write (outcome_event factor d finding outcome_id));;
      mret tt
  end.
Definition tick_thread : thread nat :=
  t ← atomic now;
  due ← atomic (list_due t);
  tfor_each due process_thread;;
  mret (length due).

(** The work a scheduled task stands for. *)
Definition task_thread (tk : task) : thread unit :=
  match tk with
  | TGraph s dir _ => run_async_thread s dir
  | TErase t rid p => dispatch_erasure_thread t rid p
  end.

(** ** Uninterrupted, a thread is its operation *)
Lemma accept_finding_thread_ok p rq : implements (accept_finding_thread p rq) (accept_finding p rq).
Proof. unfold accept_finding_thread, accept_finding, persist_finding_thread, persist_finding. implement. Qed.
Lemma accept_erasure_thread_ok p rq : implements (accept_erasure_thread p rq) (accept_erasure p rq).
Proof. unfold accept_erasure_thread, accept_erasure, submit_thread, submit. implement. Qed.
Lemma dispatch_erasure_thread_ok t rid p :
  implements (dispatch_erasure_thread t rid p) (dispatch_erasure t rid p).
Proof. unfold dispatch_erasure_thread, dispatch_erasure, store_status_thread, store_status. implement. Qed.
Lemma run_async_thread_ok s dir : implements (run_async_thread s dir) (run_async pv factor s dir).
Proof.
  unfold run_async_thread, run_async, run_graph, run_graph_tail_thread, run_graph_tail, persist_deployed_thread,
    persist_deployed. implement.
Qed.
Lemma tick_thread_ok : implements tick_thread (tick factor).
Proof. unfold tick_thread, tick, process_thread, process. implement. Qed.
End Operations.

(** * Reasoning about one thread among many *)
Section Reasoning.
Context `{Env}.

(** What a step may do to the tables: it keeps everything the statements preserve. *)
Definition kept (w w' : world) : Prop := ∀ I : db → Prop, Preserved I → I (w_db w) → I (w_db w').
#[global] Instance kept_preorder : PreOrder kept.
Proof. split; [by intros w I|]. intros w1 w2 w3 H1 H2 I HI Hw. by apply H2, H1. Qed.
(** An assertion no step of another thread can break. *)
Definition steady (P : world → Prop) : Prop := ∀ w w', kept w w' → P w → P w'.
Lemma steady_true : steady (λ _, True).
Proof. done. Qed.
Lemma steady_tables I `{!Preserved I} : steady (λ w, I (w_db w)).
Proof. intros w w' Hk. by apply Hk. Qed.

(** From a state where [P] holds, whatever happens between its steps, the thread keeps
    the tables and the scheduled tasks in order and ends with [R]. *)
Fixpoint triple {A} (P : world → Prop) (t : thread A) (R : A → world → Prop) : Prop :=
  match t with
  | TDone (Ok a) => ∀ w, P w → R a w
  | TDone (Raise _) => True
  | TStep k => ∀ w, tasks_ok w → P w →
      match k w with
      | (t', w') => kept w w' ∧ tasks_ok w' ∧ ∃ Q, steady Q ∧ Q w' ∧ triple Q t' R
      end
  end.

Lemma triple_weaken {A} (P P' : world → Prop) (t : thread A) R :
  (∀ w, P w → P' w) → triple P' t R → triple P t R.
Proof. intros HP. destruct t as [[a|e]|k]; simpl; intros Ht; [by eauto|done|]. intros w Hw Hp. by apply Ht; [|apply HP]. Qed.
Lemma triple_post {A} (P : world → Prop) (t : thread A) (R R' : A → world → Prop) :
  (∀ a w, R a w → R' a w) → triple P t R → triple P t R'.
Proof.
  intros HR. revert P. induction t as [[a|e]|k IH] using thread_tree_ind; intros P; simpl; [by eauto|done|].
  intros Ht w Hw Hp. specialize (Ht w Hw Hp). specialize (IH w). destruct (k w) as [t' w'].
  destruct Ht as (? & ? & Q & ? & ? & Ht). split_and!; [done..|]. exists Q. split_and!; [done..|]. by apply IH.
Qed.
Lemma triple_ret {A} (P : world → Prop) (a : A) : triple P (mret a) (λ _, P).
Proof. by intros w. Qed.
Lemma triple_bind {A B} (P : world → Prop) (t : thread A) R (k : A → thread B) R' :
  triple P t R → (∀ a, triple (R a) (k a) R') → triple P (t ≫= k) R'.
Proof.
  intros Ht Hk. revert P Ht. induction t as [[a|e]|f IH] using thread_tree_ind; intros P Ht; [|done|].
  - by eapply triple_weaken, Hk.
  - intros w Hw Hp. specialize (Ht w Hw Hp). specialize (IH w). cbn. destruct (f w) as [t' w'].
    destruct Ht as (? & ? & Q & ? & ? & Ht). split_and!; [done..|]. exists Q. split_and!; [done..|]. by apply IH.
Qed.
Lemma triple_catch {A} (P : world → Prop) (t : thread A) h R :
  triple P t R → (∀ e, triple (λ _, True) (h e) R) → triple P (tcatch t h) R.
Proof.
  intros Ht Hh. revert P Ht. induction t as [[a|e]|f IH] using thread_tree_ind; intros P Ht; [done| |].
  - by eapply triple_weaken, Hh.
  - intros w Hw Hp. specialize (Ht w Hw Hp). specialize (IH w). cbn. destruct (f w) as [t' w'].
    destruct Ht as (? & ? & Q & ? & ? & Ht). split_and!; [done..|]. exists Q. split_and!; [done..|]. by apply IH.
Qed.
Lemma triple_for_each {A} (P : world → Prop) (l : list A) f :
  (∀ x, triple P (f x) (λ _, P)) → triple P (tfor_each l f) (λ _, P).
Proof. intros Hf. induction l as [|x l IH]; [apply triple_ret|]. by eapply triple_bind; [apply Hf|]. Qed.
Lemma triple_when (P : world → Prop) b t : triple P t (λ _, P) → triple P (twhen b t) (λ _, P).
Proof. intros Ht. destruct b; [done|apply triple_ret]. Qed.
Lemma triple_atomic {A} (P : world → Prop) (m : M A) (R : A → world → Prop) :
  (∀ a, steady (R a)) →
  (∀ w, tasks_ok w → P w → kept w (m w).2 ∧ tasks_ok (m w).2 ∧ ∀ a w', m w = (Ok a, w') → R a w') →
  triple P (atomic m) R.
Proof.
  intros HR Hm w Hw Hp. specialize (Hm w Hw Hp). simpl. destruct (m w) as [[a|e] w'] eqn:E; simpl in *.
  - destruct Hm as (? & ? & Hr). split_and!; [done..|]. exists (R a). split_and!; [done|by apply Hr|done].
  - destruct Hm as (? & ? & _). split_and!; [done..|]. by exists (λ _, True).
Qed.

(** A step that schedules nothing and whose statements are the program's. *)
Definition quiet {A} (m : M A) : Prop := idle m ∧ ∀ I : db → Prop, Preserved I → holds I m.
Lemma quiet_keeps {A} (m : M A) w : quiet m → tasks_ok w → kept w (m w).2 ∧ tasks_ok (m w).2.
Proof.
  intros [Hi Hh] Hw. split; [by intros I HI Hw'; apply (Hh I HI)|].
  apply keeps_tasks; [done|intros t; apply (Hh (λ d, task_ok d t)); apply _|done].
Qed.
Lemma triple_quiet {A} (P : world → Prop) (m : M A) : steady P → quiet m → triple P (atomic m) (λ _, P).
Proof.
  intros HP Hq. apply triple_atomic; [done|]. intros w Hw Hp. destruct (quiet_keeps m w Hq Hw) as [Hk Ht].
  split_and!; [done..|]. intros a w' E. rewrite E in Hk. by apply (HP w).
Qed.
End Reasoning.

(** * The threads of the process *)
Ltac quiet_calls :=
  split; [unfold idle; idle_calls | intros I HI; holds_calls];
  try solve [apply holds_write; apply _ | by intros ?].

Section Quiet.
Context `{Env} `{Pydantic} `{Sha256}.
Lemma quiet_write a : quiet (write a).
Proof. split; [apply idle_write|]. intros I HI. by apply holds_write. Qed.
Lemma quiet_check_body p body : quiet (check_body p body).
Proof.
  split; [apply pure_stable, check_body_pure|]. intros I HI. apply holds_outside, pure_stable, check_body_pure.
Qed.
Lemma quiet_pg_check t fid sha : quiet (pg_check t fid sha).
Proof. unfold pg_check. quiet_calls. Qed.
Lemma quiet_insert_finding t f sha at_ : quiet (acquire t (λ c, insert_finding c (finding_row_of t f sha at_))).
Proof. quiet_calls. Qed.
Lemma quiet_insert_erasure t r : quiet (acquire t (λ c, insert_erasure c r)).
Proof. quiet_calls. Qed.
Lemma quiet_erase_registry t p : quiet (erase_registry t p).
Proof. split; [unfold erase_registry, update_scopes; idle_calls|]. intros I HI. unfold erase_registry, set_erasure. holds_calls. Qed.
Lemma quiet_erase_telemetry t p : quiet (erase_telemetry t p).
Proof. split; [unfold erase_telemetry; idle_calls|]. intros I HI. apply pre_forget. Qed.
Lemma quiet_redact_audit t p : quiet (redact_audit t p).
Proof. split; [unfold redact_audit, redact_events; idle_calls|]. intros I HI. unfold redact_audit, set_erasure. holds_calls. Qed.
Lemma quiet_complete t id st per : st ∈ ["completed"; "partial"] →
  quiet (acquire t (λ c, t ← now;
    modify (upd_db (upd_erasure_requests (update_where c (λ r, str_eqb (er_request_id r) id) (set_completion st per t)))))).
Proof.
  intros Hst. split; [idle_calls|]. intros I HI. apply holds_acquire. intros c.
  apply holds_bind; [holds_calls|]. intros x. by apply pre_complete.
Qed.
Lemma quiet_policy_insert t policy m : quiet (policy_insert t policy m).
Proof. split; [unfold policy_insert; idle_calls|]. intros I HI. by apply holds_policy_insert. Qed.
Lemma quiet_deployment_insert t rec : quiet (deployment_insert t rec).
Proof. split; [unfold deployment_insert; idle_calls|]. intros I HI. by apply holds_deployment_insert. Qed.
Lemma quiet_simulate t policy dir : quiet (simulate t policy dir).
Proof. split; [unfold simulate; idle_calls|]. intros I HI. by apply holds_simulate. Qed.
Lemma quiet_audit_generated factor s info : quiet (audit_generated factor s info).
Proof. unfold audit_generated. quiet_calls. Qed.
Lemma quiet_flatten errors : quiet (flatten_invalid errors).
Proof. unfold flatten_invalid. quiet_calls. Qed.
Lemma quiet_policy_get t pid v : quiet (policy_get t pid v).
Proof. unfold policy_get. quiet_calls. Qed.
Lemma quiet_collect t scope d : quiet (collect_telemetry t scope d).
Proof. unfold collect_telemetry, text_array. quiet_calls. Qed.
Lemma quiet_outcome_insert t r : quiet (outcome_insert t r).
Proof. unfold outcome_insert. quiet_calls. Qed.
Lemma quiet_mark_expired id : quiet (mark_expired id).
Proof. split; [idle_calls|]. intros I HI. apply pre_expire. Qed.
Lemma quiet_list_due t : quiet (list_due t).
Proof. unfold list_due. quiet_calls. Qed.
Lemma quiet_observe_delay d : quiet (observe_delay d).
Proof. unfold observe_delay. quiet_calls. Qed.
End Quiet.
#[export] Hint Resolve quiet_write quiet_check_body quiet_pg_check quiet_insert_finding quiet_insert_erasure
  quiet_erase_registry quiet_erase_telemetry quiet_redact_audit quiet_policy_insert quiet_deployment_insert
  quiet_simulate quiet_audit_generated quiet_flatten quiet_policy_get quiet_collect quiet_outcome_insert
  quiet_mark_expired quiet_list_due quiet_observe_delay steady_true : threads.

(** A thread of quiet steps keeps what is steady. *)
Ltac quiet_thread :=
  repeat match goal with
  | |- ∀ _, triple _ _ _ => intros ?
  | |- triple _ (mbind _ _) _ => eapply triple_bind
  | |- triple _ (tcatch _ _) _ => eapply triple_catch
  | |- triple _ (tfor_each _ _) _ => apply triple_for_each
  | |- triple _ (twhen _ _) _ => apply triple_when
  | |- triple _ (match ?x with _ => _ end) _ => destruct x
  | |- triple _ (mret _) _ => apply triple_ret
  | |- triple _ (atomic _) _ =>
      apply triple_quiet; [solve [auto with threads] | first [solve [auto with threads] | solve [quiet_calls]]]
  end.

Section ThreadFacts.
Context `{Env} `{Pydantic} `{Sha256} `{Difflib} `{Prompts} `{PayloadSigner}.
Context `{PolicyGeneratorClient} `{CollectorAIClient} `{!TablesApart} `{!IdleClients}.
Context (pv : PolicyValidator) (factor : Q).
Notation top := (λ _ : world, True).

Lemma quiet_run s : quiet (run pv s).
Proof. split; [by apply idle_run|]. intros I HI. apply holds_outside, run_tables. Qed.
#[local] Hint Resolve quiet_run : threads.

Lemma run_async_triple s dir : triple top (run_async_thread pv factor s dir) (λ _, top).
Proof. unfold run_async_thread, run_graph_tail_thread, persist_deployed_thread. quiet_thread. Qed.
Lemma tick_triple : triple top (tick_thread factor) (λ _, top).
Proof. unfold tick_thread, process_thread. quiet_thread. Qed.
Lemma dispatch_erasure_triple t rid p : triple top (dispatch_erasure_thread t rid p) (λ _, top).
Proof.
  unfold dispatch_erasure_thread, store_status_thread. repeat (eapply triple_bind; [quiet_thread|intros ?]).
  apply triple_quiet; [done|]. apply quiet_complete. case_match; set_solver.
Qed.

(** A run is scheduled for a finding that is on file. *)
Lemma enqueue_triple p f cid dir acc :
  triple (λ w, finding_on_file (pr_tenant_id p) (f_finding_id f) (w_db w)) (atomic (enqueue p f cid dir acc)) (λ _, top).
Proof.
  apply triple_atomic; [done|]. intros w Hw (r & Hr & Ht & Hf). unfold enqueue, spawn, new_id, now. run_prog.
  split_and!; [by intros I| |done]. unfold tasks_ok in *. simpl. apply Forall_snoc; [done|].
  exists r. split_and!; try done. simpl. by rewrite Hf.
Qed.
Lemma accept_finding_triple p rq : triple top (accept_finding_thread p rq) (λ _, top).
Proof.
  unfold accept_finding_thread, persist_finding_thread.
  eapply triple_bind; [quiet_thread|]. intros body. eapply triple_bind; [quiet_thread|]. intros f.
  eapply triple_bind; [quiet_thread|]. intros cid. eapply triple_bind; [quiet_thread|]. intros t.
  eapply triple_bind; [quiet_thread|]. intros d. eapply triple_bind; [quiet_thread|]. intros [].
  destruct (first_seen d); [|apply triple_ret].
  set (filed := λ w, finding_on_file (pr_tenant_id p) (f_finding_id f) (w_db w)).
  assert (steady filed) as Hst by (apply steady_tables; apply _).
  apply (triple_bind _ _ (λ _, filed)); [|intros []; eapply triple_bind; [apply enqueue_triple|intros []; apply triple_ret]].
  apply (triple_bind _ _ (λ _, filed)); [|intros b; eapply triple_bind; [|intros id; apply triple_ret]].
  - apply triple_atomic; [done|]. intros w Hw _.
    destruct (quiet_keeps _ w (quiet_insert_finding (pr_tenant_id p) f (sha256 (canonical body)) t) Hw).
    split_and!; [done..|]. intros b w' E. by eapply inserted_on_file.
  - apply triple_quiet; auto with threads.
Qed.

(** An erasure is scheduled for a request that is on file. *)
Lemma submitted_on_file rid t by_ at_ target p w b w' :
  acquire t (λ c, insert_erasure c (ErasureRow rid t (subject_kind p) (subject_identifier p) by_ at_ target "requested"
    (JObj [("registry", JStr "pending"); ("telemetry", JStr "pending"); ("audit", JStr "pending")])
    (Models.er_mode p) None)) w = (Ok b, w') → task_ok (w_db w') (TErase t rid p).
Proof.
  intros [_ Ei]%acquire_ok. unfold insert_erasure in Ei. edestruct (insert_row_cases
    (Conn TenantRole (Some t) (w_guc w)) "erasure_requests" db_erasure_requests
    upd_erasure_requests erasure_checks) as [(Er & _)|[(Er & _ & _ & u & Hu & Htol & _)|(e & Er)]];
    rewrite Er in Ei; [|exfalso|done].
  - injection Ei as _ <-. eexists. simpl. split; [apply elem_of_app; right; by left|done].
  - apply elem_of_cons in Hu as [->|Hu]; [done|by apply not_elem_of_nil in Hu].
Qed.
Lemma accept_erasure_triple p rq : triple top (accept_erasure_thread p rq) (λ _, top).
Proof.
  unfold accept_erasure_thread, submit_thread.
  eapply triple_bind; [quiet_thread|]. intros q. eapply triple_bind; [quiet_thread|]. intros rid.
  eapply triple_bind; [quiet_thread|]. intros t. eapply triple_bind; [quiet_thread|]. intros target.
  apply (triple_bind _ _ (λ _, top)); [|intros []; apply triple_ret].
  assert (steady (λ w, task_ok (w_db w) (TErase (pr_tenant_id p) rid q))) as Hst
    by exact (steady_tables (λ d, task_ok d (TErase (pr_tenant_id p) rid q))).
  apply (triple_bind _ _ (λ _ w, task_ok (w_db w) (TErase (pr_tenant_id p) rid q)));
    [|intros b; eapply triple_bind; [by apply triple_quiet; auto with threads|intros id]].
  - apply triple_atomic; [done|]. intros w Hw _.
    match goal with |- kept w (?m w).2 ∧ _ => destruct (quiet_keeps m w) as [Hk Ht]; [auto with threads|done|] end.
    split_and!; [done..|]. intros b w' E. by eapply submitted_on_file.
  - apply triple_atomic; [done|]. intros w Hw Hok. unfold spawn. run_prog. split_and!; [by intros I| |done].
    unfold tasks_ok in *. simpl. by apply Forall_snoc.
Qed.
Lemma task_triple tk : triple top (task_thread pv factor tk) (λ _, top).
Proof. destruct tk; [apply run_async_triple|apply dispatch_erasure_triple]. Qed.
End ThreadFacts.

(** * Interleavings *)
Section Pool.
Context `{Env} `{Pydantic} `{JwtLib} `{Sha256} `{Difflib} `{Prompts} `{PayloadSigner}.
Context `{PolicyGeneratorClient} `{CollectorAIClient} (pv : PolicyValidator) (factor : Q).

(** The world and the threads that have not ended. *)
Definition config : Type := world * list (thread unit).
Definition void {A} (t : thread A) : thread unit := t ;; mret tt.
(** A thread takes one step, a handler or the worker starts, a scheduled task starts,
    or the process does something else in one piece. *)
Inductive cstep : config → config → Prop :=
| c_thread w before k after : cstep (w, before ++ TStep k :: after) ((k w).2, before ++ (k w).1 :: after)
| c_finding w ts p rq : cstep (w, ts) (w, ts ++ [void (accept_finding_thread p rq)])
| c_erasure w ts p rq : cstep (w, ts) (w, ts ++ [void (accept_erasure_thread p rq)])
| c_tick w ts : cstep (w, ts) (w, ts ++ [void (tick_thread factor)])
| c_task w ts before tk after : w_tasks w = before ++ tk :: after →
    cstep (w, ts) (upd_tasks (λ _, before ++ after) w, ts ++ [task_thread pv factor tk])
| c_other w w' ts : step pv factor w w' → cstep (w, ts) (w', ts).
Definition csteps : config → config → Prop := rtc cstep.

Definition safe (w : world) (t : thread unit) : Prop := ∃ P, steady P ∧ P w ∧ triple P t (λ _ _, True).
Definition pool_ok (c : config) : Prop := tasks_ok c.1 ∧ Forall (safe c.1) c.2.

Context `{!TablesApart} `{!IdleClients}.

Lemma safe_kept w w' t : kept w w' → safe w t → safe w' t.
Proof. intros Hk (P & HP & Hw & Ht). exists P. split_and!; [done|by eapply HP|done]. Qed.
Lemma safe_pool w w' ts : kept w w' → Forall (safe w) ts → Forall (safe w') ts.
Proof. intros Hk Hs. eapply Forall_impl; [exact Hs|]. intros t. by apply safe_kept. Qed.
Lemma safe_void {A} w (t : thread A) : triple (λ _, True) t (λ _ _, True) → safe w (void t).
Proof. intros Ht. exists (λ _, True). split_and!; [done..|]. by eapply triple_bind; [exact Ht|]. Qed.

Lemma cstep_ok c c' : cstep c c' → pool_ok c → pool_ok c' ∧ kept c.1 c'.1.
Proof.
  intros Hs [Ht Hp]. destruct Hs as [w b k a|w ts p rq|w ts p rq|w ts|w ts b tk a Htk|w w' ts Hs]; cbn [fst snd] in *.
  - rewrite Forall_app, Forall_cons in Hp. destruct Hp as (Hb & (P & HP & Hw & Hk) & Ha).
    specialize (Hk w Ht Hw). destruct (k w) as [t' w']. destruct Hk as (Hkept & Ht' & Q & HQ & Hw' & Hq).
    split; [split; [done|]|done]. cbn [fst snd]. rewrite Forall_app, Forall_cons.
    split_and!; [by eapply safe_pool|by exists Q|by eapply safe_pool].
  - split; [split; [done|]|by intros I]. apply Forall_snoc; [done|]. apply safe_void, accept_finding_triple.
  - split; [split; [done|]|by intros I]. apply Forall_snoc; [done|]. apply safe_void, accept_erasure_triple.
  - split; [split; [done|]|by intros I]. apply Forall_snoc; [done|]. apply safe_void, tick_triple.
  - split; [split|by intros I]; cbn [fst snd].
    + unfold tasks_ok in *. simpl. rewrite Htk, !Forall_app, Forall_cons in *. naive_solver.
    + apply Forall_snoc; [apply (safe_pool w); [by intros I|done]|]. exists (λ _, True). split_and!; [done..|]. apply task_triple.
  - assert (kept w w') as Hk by (intros I HI; by apply (step_tables pv factor I w w')).
    split; [split; [by eapply (step_tasks pv factor w w')|by eapply safe_pool]|done].
Qed.
Lemma csteps_ok c c' : csteps c c' → pool_ok c → pool_ok c' ∧ kept c.1 c'.1.
Proof.
  induction 1 as [|c c1 c' Hs _ IH]; intros Hc; [done|]. destruct (cstep_ok _ _ Hs Hc) as [Hc1 Hk].
  destruct (IH Hc1) as [Hc' Hk']. split; [done|]. by transitivity (c1.1).
Qed.
Lemma fresh_pool w : w_tasks w = [] → pool_ok (w, []).
Proof. intros Ht. split; [|constructor]. unfold tasks_ok. simpl. rewrite Ht. constructor. Qed.
End Pool.

(** C3. Concurrency does not break the record: from a fresh database, with any number of
    handlers, graph runs, erasures and feedback rounds in flight at once, each suspended
    at any of its transactions, every state the process can reach satisfies the
    constraints, keys and references of the tables of findings, policies, deployments,
    outcomes, audit events, telemetry, erasure requests and vehicles, every audit event
    carries its field set, the ownership history is a chain, and every scheduled task stems
    from a row on file.  (No operation writes the tables of tenants and of their
    configuration.) *)
Theorem concurrent_consistent `{Env} `{Pydantic} `{JwtLib} `{Sha256} `{Difflib} `{Prompts} `{PayloadSigner}
    `{PolicyGeneratorClient} `{CollectorAIClient} `{!TablesApart} `{!IdleClients}
    (pv : PolicyValidator) (factor : Q) (w0 w : world) (ts : list (thread unit)) :
  fresh_db (w_db w0) → w_tasks w0 = [] → csteps pv factor (w0, []) (w, ts) →
  integrity (w_db w) ∧ audit_fields (w_db w) ∧ ownership (w_db w) ∧ tasks_ok w.
Proof.
  intros (Hi & Ha & Ho)%fresh_ok Ht%fresh_pool Hs. destruct (csteps_ok pv factor _ _ Hs Ht) as [[Hts _] Hk].
  split_and!; [by apply (Hk integrity); [apply _|]|by apply (Hk audit_fields); [apply _|]
    |by apply (Hk ownership); [apply _|]|done].
Qed.

(** C4. The record is append-only under concurrency too: between any two states of an
    interleaved history every finding and every outcome on file stays as it is, a
    deployment only ever expires, a policy version keeps everything but vehicles erased
    from its scope, and an audit event keeps everything but a redaction mark. *)
Theorem concurrent_append_only `{Env} `{Pydantic} `{JwtLib} `{Sha256} `{Difflib} `{Prompts} `{PayloadSigner}
    `{PolicyGeneratorClient} `{CollectorAIClient} `{!TablesApart} `{!IdleClients}
    (pv : PolicyValidator) (factor : Q) (w0 w w' : world) (ts ts' : list (thread unit)) :
  w_tasks w0 = [] → csteps pv factor (w0, []) (w, ts) → csteps pv factor (w, ts) (w', ts') →
  db_diagnostic_findings (w_db w) ⊆ db_diagnostic_findings (w_db w') ∧
  db_policy_outcomes (w_db w) ⊆ db_policy_outcomes (w_db w') ∧
  (∀ r, r ∈ db_deployment_targets (w_db w) → kept_deployment r (w_db w')) ∧
  (∀ r, r ∈ db_collection_policies (w_db w) → kept_policy r (w_db w')) ∧
  (∀ r, r ∈ db_audit_events (w_db w) → kept_event r (w_db w')).
Proof.
  intros Ht%fresh_pool Hs Hs'. destruct (csteps_ok pv factor _ _ Hs Ht) as [Hp _].
  destruct (csteps_ok pv factor _ _ Hs' Hp) as [_ Hk]. simpl in Hk. split_and!; intros r Hr.
  - by apply (Hk (kept_finding r)); [apply _|].
  - by apply (Hk (kept_outcome r)); [apply _|].
  - apply (Hk (kept_deployment r)); [apply _|by left].
  - apply (Hk (kept_policy r)); [apply _|]. exists (po_vehicle_scope r). split; [by destruct r|done].
  - apply (Hk (kept_event r)); [apply _|by left].
Qed.

(** * Schedules *)
Section Schedules.
Context `{Env} `{Pydantic} `{JwtLib} `{Sha256} `{Difflib} `{Prompts} `{PayloadSigner}.
Context `{PolicyGeneratorClient} `{CollectorAIClient} (pv : PolicyValidator) (factor : Q).

(** What happens next: the thread at a position moves, a handler or the worker starts,
    or the scheduled task at a position starts. *)
Inductive move : Type :=
| MvThread (i : nat) | MvFinding (p : Principal) (rq : request) | MvErasure (p : Principal) (rq : request)
| MvTick | MvTask (i : nat).
Definition advance (c : config) (m : move) : config :=
  match c, m with
  | (w, ts), MvThread i =>
      match ts !! i with
      | Some (TStep k) => match k w with (t, w') => (w', <[i := t]> ts) end
      | _ => (w, ts)
      end
  | (w, ts), MvFinding p rq => (w, ts ++ [void (accept_finding_thread p rq)])
  | (w, ts), MvErasure p rq => (w, ts ++ [void (accept_erasure_thread p rq)])
  | (w, ts), MvTick => (w, ts ++ [void (tick_thread factor)])
  | (w, ts), MvTask i =>
      match w_tasks w !! i with
      | Some tk => (upd_tasks (λ _, take i (w_tasks w) ++ drop (S i) (w_tasks w)) w,
                    ts ++ [task_thread pv factor tk])
      | None => (w, ts)
      end
  end.
Lemma advance_csteps c m : csteps pv factor c (advance c m).
Proof.
  destruct c as [w ts], m as [i| | | |i]; simpl; try (apply rtc_once; by constructor).
  - destruct (ts !! i) as [[r|k]|] eqn:E; [apply rtc_refl| |apply rtc_refl].
    destruct (k w) as [t w'] eqn:Ek. apply rtc_once. rewrite <- (take_drop_middle ts i _ E) at 1.
    rewrite (insert_take_drop ts i) by (by eapply lookup_lt_Some).
    pose proof (c_thread pv factor w (take i ts) k (drop (S i) ts)) as Hs. by rewrite Ek in Hs.
  - destruct (w_tasks w !! i) as [tk|] eqn:E; [|apply rtc_refl]. apply rtc_once, c_task.
    by rewrite (take_drop_middle _ i tk E).
Qed.
Lemma schedule_csteps c ms : csteps pv factor c (foldl advance c ms).
Proof.
  revert c. induction ms as [|m ms IH]; intros c; [apply rtc_refl|]. simpl. etransitivity; [apply advance_csteps|apply IH].
Qed.
End Schedules.

Module ConcurrencySamples.
#[local] Notation play := (foldl (advance (H := Samples.env) (H0 := GraphSamples.pydantic) (H2 := IngestSamples.sha)
  GraphSamples.pv 1)).
#[local] Notation reaches := (csteps (H := Samples.env) (H0 := GraphSamples.pydantic) (H2 := IngestSamples.sha)
  GraphSamples.pv 1).
Definition steps_of (i n : nat) : list move := replicate n (MvThread i).
(** A finding on a vehicle is posted and its policy is generated; *)
Definition generated : config :=
  play (Samples.start, []) (MvFinding IngestSamples.acme IngestSamples.rq1 :: steps_of 0 12 ++ MvTask 0 :: steps_of 1 2).
(** the erasure of that vehicle is requested and carried out; *)
Definition erased : config :=
  play generated (MvErasure IngestSamples.acme ErasureSamples.rq :: steps_of 2 12 ++ MvTask 0 :: steps_of 3 6).
(** and the run goes on. *)
Definition resumed : config := play erased (steps_of 1 30).
Lemma to_generated : reaches (Samples.start, []) (generated.1, generated.2).
Proof. rewrite <- surjective_pairing. apply schedule_csteps. Qed.
Lemma to_resumed : reaches (generated.1, generated.2) (resumed.1, resumed.2).
Proof.
  rewrite <- !surjective_pairing. unfold resumed, erased. rewrite <- foldl_app. apply schedule_csteps.
Qed.
Lemma all_the_way : reaches (Samples.start, []) (resumed.1, resumed.2).
Proof. etransitivity; [apply to_generated|apply to_resumed]. Qed.
Lemma race_history : reaches (Samples.start, []) resumed.
Proof. rewrite (surjective_pairing resumed). apply all_the_way. Qed.
End ConcurrencySamples.
Import ConcurrencySamples.

Lemma concurrent_consistent_witness :
  length (db_collection_policies (w_db resumed.1)) = 1%nat ∧ integrity (w_db resumed.1).
Proof.
  split; [vm_compute; reflexivity|].
  exact (proj1 (concurrent_consistent (H := Samples.env) (H0 := GraphSamples.pydantic) (H2 := IngestSamples.sha)
    GraphSamples.pv 1 Samples.start resumed.1 resumed.2
    (ex_intro _ _ (ex_intro _ _ eq_refl)) eq_refl all_the_way)).
Defined.
Lemma concurrent_append_only_witness :
  length (db_diagnostic_findings (w_db generated.1)) = 1%nat ∧
  db_diagnostic_findings (w_db generated.1) ⊆ db_diagnostic_findings (w_db resumed.1).
Proof.
  split; [vm_compute; reflexivity|].
  exact (proj1 (concurrent_append_only (H := Samples.env) (H0 := GraphSamples.pydantic) (H2 := IngestSamples.sha)
    GraphSamples.pv 1 Samples.start generated.1 resumed.1 generated.2 resumed.2 eq_refl to_generated to_resumed)).
Defined.

(** An erasure does not reach a run in flight: a vehicle's erasure that is requested
    and reported completed while a run on that vehicle has its policy generated and not
    yet stored leaves the run to store the policy, the deployment and fresh telemetry
    with the erased vehicle, and the request stays completed with every store erased or
    redacted. *)
Example erasure_misses_run :
  csteps (H := Samples.env) (H0 := GraphSamples.pydantic) (H2 := IngestSamples.sha) GraphSamples.pv 1
    (Samples.start, []) resumed ∧
  (λ r, (er_subject_identifier r, er_status r)) <$> db_erasure_requests (w_db erased.1) = [("VIN-1", "completed")] ∧
  db_collection_policies (w_db erased.1) = [] ∧ db_telemetry_observations (w_db erased.1) = [] ∧
  db_erasure_requests (w_db resumed.1) = db_erasure_requests (w_db erased.1) ∧
  po_vehicle_scope <$> db_collection_policies (w_db resumed.1) = [JArr [JStr "VIN-1"]] ∧
  dp_vehicle_scope <$> db_deployment_targets (w_db resumed.1) = [JArr [JStr "VIN-1"]] ∧
  te_vehicle_id <$> db_telemetry_observations (w_db resumed.1) = replicate 20 "VIN-1".
Proof.
  split; [exact race_history|]. do 6 (split; [vm_compute; reflexivity|]). vm_compute. reflexivity.
Qed.
