(* ===== verification/ConcurrentIsolation.v ===== *)
(** Tenant isolation at the grain of transactions: every step of a thread stays within the
    tenant it works for, whatever other tenants' threads do between its steps. *)
From S2P Require Import Prelude PyStr PyDict Json JsonText PyTime Errors TokenBucket Models World Threads Samples Database Isolation Integrity PyVal AuditLog TenantConfig Auth HotStore Http RateLimit Validator Vehicles Graph Deployer Repository Feedback Runner Ingest Erasure BreakGlass Query App System Interleave Concurrency.
Local Open Scope Z_scope.

(** Each step of the thread, from any state, leaves the rows of the other tenants alone. *)
Fixpoint confined_thread {A} (t : string) (th : thread A) : Prop :=
  match th with
  | TDone _ => True
  | TStep k => ∀ w, match k w with (th', w') =>
      foreign t (w_db w') = foreign t (w_db w) ∧ confined_thread t th' end
  end.

Section Rules.
Context (t : string).
Lemma ct_bind {A B} (th : thread A) (k : A → thread B) :
  confined_thread t th → (∀ a, confined_thread t (k a)) → confined_thread t (th ≫= k).
Proof.
  intros Ht Hk. induction th as [[a|e]|f IH] using thread_tree_ind; [apply Hk|done|].
  intros w. specialize (Ht w). specialize (IH w). cbn. destruct (f w) as [th' w']. destruct Ht. split; [done|]. by apply IH.
Qed.
Lemma ct_catch {A} (th : thread A) h :
  confined_thread t th → (∀ e, confined_thread t (h e)) → confined_thread t (tcatch th h).
Proof.
  intros Ht Hh. induction th as [[a|e]|f IH] using thread_tree_ind; [done|apply Hh|].
  intros w. specialize (Ht w). specialize (IH w). cbn. destruct (f w) as [th' w']. destruct Ht. split; [done|]. by apply IH.
Qed.
Lemma ct_for_each {A} (l : list A) f : (∀ x, x ∈ l → confined_thread t (f x)) → confined_thread t (tfor_each l f).
Proof.
  induction l as [|x l IH]; intros Hf; [done|]. apply ct_bind; [apply Hf; by left|]. intros []. apply IH. intros y Hy. apply Hf. by right.
Qed.
Lemma ct_when b th : confined_thread t th → confined_thread t (twhen b th).
Proof. by destruct b. Qed.
Lemma ct_atomic {A} (m : M A) : confined t m → confined_thread t (atomic m).
Proof. intros Hm w. cbn. specialize (Hm w). by destruct (m w). Qed.
(** What a step returned is known to the steps after it. *)
Lemma ct_atomic_bind {A B} (m : M A) (k : A → thread B) :
  confined t m → (∀ a w w', m w = (Ok a, w') → confined_thread t (k a)) → confined_thread t (atomic m ≫= k).
Proof. intros Hm Hk w. cbn. specialize (Hm w). destruct (m w) as [[a|e] w'] eqn:E; split; [done|by eapply Hk|done|done]. Qed.
End Rules.

(** Walk a thread along its structure. *)
Ltac ct_step :=
  match goal with
  | |- ∀ _, confined_thread _ _ => intros ?
  | |- confined_thread _ (mbind _ _) => apply ct_bind
  | |- confined_thread _ (tcatch _ _) => apply ct_catch
  | |- confined_thread _ (twhen _ _) => apply ct_when
  | |- confined_thread _ (match ?x with _ => _ end) => destruct x
  | |- confined_thread _ (mret _) => exact I
  | |- confined_thread _ (atomic _) => apply ct_atomic
  | |- confined _ (check_body _ _) => apply confined_outside, pure_stable, check_body_pure
  end.
Ltac ct_walk := repeat first [ct_step | progress confined_calls].

Section Threads.
Context `{Env} `{Pydantic} `{Sha256} `{Difflib} `{Prompts} `{PayloadSigner}.
Context `{PolicyGeneratorClient} `{CollectorAIClient} `{!TablesApart} (pv : PolicyValidator) (factor : Q).

Lemma accept_finding_thread_confined p rq : confined_thread (pr_tenant_id p) (accept_finding_thread p rq).
Proof.
  unfold accept_finding_thread, persist_finding_thread. ct_walk; unfold pg_check, enqueue, spawn; ct_walk.
Qed.
Lemma accept_erasure_thread_confined p rq : confined_thread (pr_tenant_id p) (accept_erasure_thread p rq).
Proof. unfold accept_erasure_thread, submit_thread. ct_walk; unfold spawn; ct_walk. Qed.
Lemma dispatch_erasure_thread_confined t rid p : confined_thread t (dispatch_erasure_thread t rid p).
Proof.
  unfold dispatch_erasure_thread, store_status_thread. repeat first [ct_step | apply confined_completion | confined_step].
Qed.
Lemma run_async_thread_confined s dir : confined_thread (s_tenant_id s) (run_async_thread pv factor s dir).
Proof.
  unfold run_async_thread. apply ct_catch; [|intros e; ct_walk].
  apply ct_bind; [ct_walk|]. intros start. apply ct_atomic_bind; [apply confined_outside, run_tables|].
  intros g w w' E. destruct (attempt_loop_ok pv _ (initial_plan s) 0 w g w' eq_refl E) as (_ & (Ht & _) & _ & _).
  simpl in Ht. rewrite <- Ht. unfold run_graph_tail_thread, persist_deployed_thread. ct_walk.
  all: match goal with
  | |- confined _ (audit_generated _ _ _) => apply confined_audit_generated
  | |- confined _ (policy_insert _ _ _) => apply confined_policy_insert
  | |- confined _ (deployment_insert _ _) => apply confined_deployment_insert
  | |- confined _ (simulate _ _ _) => apply confined_simulate
  | |- confined _ (flatten_invalid _) => unfold flatten_invalid; ct_walk
  end.
Qed.
Lemma tick_thread_confined : confined_thread PUBLIC (tick_thread factor).
Proof.
  unfold tick_thread. apply ct_bind; [ct_walk|]. intros t. apply ct_atomic_bind; [unfold list_due; solve_confined|].
  intros due w w' E. apply ct_bind; [|intros; exact I]. apply ct_for_each. intros d Hd.
  destruct (list_due_public _ _ _ _ _ E Hd) as [Ht _]. unfold process_thread. rewrite Ht.
  repeat first [ct_step | apply confined_mark_expired | progress confined_calls
    | progress unfold policy_get, collect_telemetry, outcome_insert, text_array, observe_delay].
Qed.
(** The tenant a scheduled task works for. *)
Definition task_tenant (tk : task) : string :=
  match tk with TGraph s _ _ => s_tenant_id s | TErase t _ _ => t end.
Lemma task_thread_confined tk : confined_thread (task_tenant tk) (task_thread pv factor tk).
Proof. destruct tk; [apply run_async_thread_confined|apply dispatch_erasure_thread_confined]. Qed.
Lemma void_confined {A} t (th : thread A) : confined_thread t th → confined_thread t (void th).
Proof. intros Ht. by apply ct_bind. Qed.
End Threads.

(** The rows a tenant owns (the ownership history, which names two tenants per row, left
    out). *)
Definition rows_of (t : string) (d : db) : db := upd_tenant_vehicles_history (λ _, []) (own t d).
Lemma filter_own {A} (p q : A → bool) l : (∀ x, p x = true → q x = true) → List.filter p (List.filter q l) = List.filter p l.
Proof.
  intros Hpq. induction l as [|x l IH]; [done|]. simpl. destruct (q x) eqn:Eq; simpl; [by rewrite IH|].
  destruct (p x) eqn:Ep; [|done]. by rewrite Hpq in Eq.
Qed.
Lemma own_foreign u t d : u ≠ t → rows_of u d = rows_of u (foreign t d).
Proof.
  intros Hne. unfold rows_of, own, foreign, upd_tenant_vehicles_history. cbn.
  assert (∀ x, str_eqb x u = true → negb (str_eqb x t) = true) as Hx.
  { intros x ->%str_eqb_eq. by apply negb_true_iff, str_eqb_neq. }
  f_equal; symmetry; apply filter_own; intros r; apply Hx.
Qed.

(** * Every tenant at once *)
Section Labelled.
Context `{Env} `{Pydantic} `{Sha256} `{Difflib} `{Prompts} `{PayloadSigner}.
Context `{PolicyGeneratorClient} `{CollectorAIClient} (pv : PolicyValidator) (factor : Q).

(** Threads with the tenant each works for, and the steps with the tenant that makes them:
    a thread moves, a caller of the tenant posts a finding or asks for an erasure, a task
    of the tenant starts, or the worker starts a round under its own tenant. *)
Definition lconfig : Type := world * list (string * thread unit).
Inductive lstep : string → lconfig → lconfig → Prop :=
| l_thread w before t k after :
    lstep t (w, before ++ (t, TStep k) :: after) ((k w).2, before ++ (t, (k w).1) :: after)
| l_finding w ts p rq :
    lstep (pr_tenant_id p) (w, ts) (w, ts ++ [(pr_tenant_id p, void (accept_finding_thread p rq))])
| l_erasure w ts p rq :
    lstep (pr_tenant_id p) (w, ts) (w, ts ++ [(pr_tenant_id p, void (accept_erasure_thread p rq))])
| l_tick w ts : lstep PUBLIC (w, ts) (w, ts ++ [(PUBLIC, void (tick_thread factor))])
| l_task w ts before tk after : w_tasks w = before ++ tk :: after →
    lstep (task_tenant tk) (w, ts)
      (upd_tasks (λ _, before ++ after) w, ts ++ [(task_tenant tk, task_thread pv factor tk)]).
Definition lsteps : lconfig → lconfig → Prop := rtc (λ c c', ∃ t, lstep t c c').
(** Any steps but those of one tenant. *)
Definition lsteps_without (u : string) : lconfig → lconfig → Prop := rtc (λ c c', ∃ t, t ≠ u ∧ lstep t c c').

(** The interleavings are those of [csteps], with the labels forgotten. *)
Lemma lstep_cstep `{JwtLib} t c c' : lstep t c c' → cstep pv factor (c.1, c.2.*2) (c'.1, c'.2.*2).
Proof.
  destruct 1 as [w b t k a|w ts p rq|w ts p rq|w ts|w ts b tk a Htk]; cbn [fst snd]; rewrite !fmap_app.
  - exact (c_thread pv factor w b.*2 k a.*2).
  - exact (c_finding pv factor w ts.*2 p rq).
  - exact (c_erasure pv factor w ts.*2 p rq).
  - exact (c_tick pv factor w ts.*2).
  - exact (c_task pv factor w ts.*2 b tk a Htk).
Qed.

Context `{!TablesApart}.
Definition pool_confined (ts : list (string * thread unit)) : Prop := Forall (λ x, confined_thread x.1 x.2) ts.
Lemma lstep_confined t c c' : lstep t c c' → pool_confined c.2 →
  pool_confined c'.2 ∧ foreign t (w_db c'.1) = foreign t (w_db c.1).
Proof.
  intros Hs Hp. unfold pool_confined in *.
  destruct Hs as [w b t k a|w ts p rq|w ts p rq|w ts|w ts b tk a Htk]; cbn [fst snd] in *.
  - rewrite Forall_app, Forall_cons in *. destruct Hp as (Hb & Hk & Ha). specialize (Hk w). cbn [fst snd] in *.
    destruct (k w) as [th' w']. destruct Hk. by split_and!.
  - split; [|done]. apply Forall_snoc; [done|]. apply void_confined, accept_finding_thread_confined.
  - split; [|done]. apply Forall_snoc; [done|]. apply void_confined, accept_erasure_thread_confined.
  - split; [|done]. apply Forall_snoc; [done|]. apply void_confined, tick_thread_confined.
  - split; [|done]. apply Forall_snoc; [done|]. apply task_thread_confined.
Qed.
Lemma lsteps_confined c c' : lsteps c c' → pool_confined c.2 → pool_confined c'.2.
Proof. induction 1 as [|c c1 c' (t & Hs) _ IH]; [done|]. intros Hc. apply IH. by eapply lstep_confined. Qed.
End Labelled.

(** C2. Tenants stay apart under concurrency: in any interleaving of the handlers, graph
    runs, erasures and feedback rounds of all tenants, each suspended at any of its
    transactions, a step made for one tenant leaves the rows of every other tenant as they
    are, so the rows of a tenant do not change, in any table but the ownership history
    (whose rows name two tenants, and which none of these operations writes), for as long
    as none of its own work moves. *)
Theorem concurrent_isolation `{Env} `{Pydantic} `{Sha256} `{Difflib} `{Prompts} `{PayloadSigner}
    `{PolicyGeneratorClient} `{CollectorAIClient} `{!TablesApart} (pv : PolicyValidator) (factor : Q)
    (w0 : world) (c c' : lconfig) :
  lsteps pv factor (w0, []) c →
  (∀ t, lstep pv factor t c c' → foreign t (w_db c'.1) = foreign t (w_db c.1)) ∧
  (∀ u, lsteps_without pv factor u c c' → rows_of u (w_db c'.1) = rows_of u (w_db c.1)).
Proof.
  intros Hs0. assert (pool_confined c.2) as Hp by (apply (lsteps_confined pv factor _ _ Hs0), Forall_nil_2).
  clear Hs0. split; [intros t Hs; by eapply lstep_confined|].
  intros u. induction 1 as [|c c1 c' (t & Hne & Hs) _ IH]; [done|].
  destruct (lstep_confined _ _ _ _ _ Hs Hp) as [Hp1 Hf]. rewrite IH by done.
  rewrite (own_foreign u t) by done. by rewrite Hf, <- own_foreign.
Qed.

Module IsolationSamples.
(** The first thread moves [n] times. *)
Fixpoint lmoves (n : nat) (w : world) (t : string) (th : thread unit) : world * thread unit :=
  match n, th with
  | S n', TStep k => match k w with (th', w') => lmoves n' w' t th' end
  | _, _ => (w, th)
  end.
Notation without := (lsteps_without (H := Samples.env) (H0 := GraphSamples.pydantic) (H1 := IngestSamples.sha)
  GraphSamples.pv 1).
Lemma lmoves_without u t n w th : t ≠ u →
  without u (w, [(t, th)]) ((lmoves n w t th).1, [(t, (lmoves n w t th).2)]).
Proof.
  intros Hne. revert w th. induction n as [|n IH]; intros w th; [by destruct th; apply rtc_refl|].
  destruct th as [r|k]; [apply rtc_refl|]. cbn [lmoves]. destruct (k w) as [th' w'] eqn:Ek.
  eapply rtc_l; [|apply IH]. exists t. split; [done|].
  pose proof (l_thread (H := Samples.env) (H0 := GraphSamples.pydantic) (H1 := IngestSamples.sha)
    GraphSamples.pv 1 w [] t k []) as Hs. by rewrite Ek in Hs.
Qed.
(** While a finding of [acme] is on file, a caller of [globex] posts one of the same name. *)
Definition globex : Principal :=
  {| pr_tenant_id := "globex"; pr_subject := "client-9"; pr_scopes := ["findings:write"]; pr_token_id := "" |}.
Definition post : thread unit :=
  void (accept_finding_thread (H := Samples.env) (H0 := GraphSamples.pydantic) (H1 := IngestSamples.sha) globex
    (IngestSamples.rq IngestSamples.body [("x-correlation-id", "c-2")])).
Definition idle_pool : lconfig := (SystemSamples.posted, []).
Definition served : lconfig :=
  ((lmoves 12 SystemSamples.posted "globex" post).1, [("globex", (lmoves 12 SystemSamples.posted "globex" post).2)]).
Lemma globex_posts : without "acme" idle_pool served.
Proof.
  eapply rtc_l; [|apply (lmoves_without "acme" "globex" 12 SystemSamples.posted post); discriminate].
  exists "globex". split; [discriminate|]. exact (l_finding GraphSamples.pv 1 SystemSamples.posted [] globex _).
Qed.
End IsolationSamples.

Lemma concurrent_isolation_witness :
  fi_tenant_id <$> db_diagnostic_findings (w_db IsolationSamples.served.1) = ["acme"; "globex"] ∧
  rows_of "acme" (w_db IsolationSamples.served.1) = rows_of "acme" (w_db IsolationSamples.idle_pool.1).
Proof.
  split; [vm_compute; reflexivity|].
  exact (proj2 (concurrent_isolation (H := Samples.env) (H0 := GraphSamples.pydantic) (H1 := IngestSamples.sha)
    GraphSamples.pv 1 SystemSamples.posted IsolationSamples.idle_pool IsolationSamples.served
    (rtc_refl _ _)) "acme" IsolationSamples.globex_posts).
Defined.
