(* ===== verification/Verdicts.v ===== *)
(** What a suspended run still achieves: among any other threads, a graph run that ends
    has a verdict on the audit trail, or ended with what writing the verdict raised. *)
From S2P Require Import Prelude PyStr PyDict Json JsonText PyTime Errors TokenBucket Models World Threads Samples Database Isolation Integrity PyVal AuditLog TenantConfig Auth HotStore Http RateLimit Validator Vehicles Graph Deployer Repository Feedback Runner Ingest Erasure BreakGlass Query App System Interleave Concurrency.
Local Open Scope Z_scope.

(** * The verdict of a run *)
(** An event of the session's tenant and correlation id that closes it is on file, up to
    the redaction mark. *)
Definition verdict_event (s : session) (a : audit_row) : Prop :=
  au_tenant_id a = s_tenant_id s ∧ au_correlation_id a = s_correlation_id s ∧
  (au_kind a = "deployed" ∨ au_kind a = "rejected").
Definition verdict (s : session) (w : world) : Prop := ∃ a, verdict_event s a ∧ kept_event a (w_db w).

Section Verdict.
Context `{Env} `{Pydantic} `{Difflib} `{Prompts} `{PayloadSigner}.
Context `{PolicyGeneratorClient} `{CollectorAIClient} `{!TablesApart} `{!IdleClients}.
Context (pv : PolicyValidator) (factor : Q).
Notation top := (λ _ : world, True).

Lemma steady_verdict s : steady (verdict s).
Proof. intros w w' Hk (a & Ha & Hr). exists a. split; [done|]. by apply (Hk (kept_event a)); [apply _|]. Qed.
#[local] Hint Resolve steady_verdict quiet_run : threads.
Lemma verdict_on_file s w : verdict s w → ∃ a, a ∈ db_audit_events (w_db w) ∧ verdict_event s a.
Proof. intros (a & Ha & [Hin|(j & Hin & _)]); [by exists a|]. exists (set_originating j a). by split; [|destruct a]. Qed.

Lemma triple_pure {A} (φ : Prop) (th : thread A) R : (φ → triple top th R) → triple (λ _, φ) th R.
Proof. intros Ht. destruct th as [[a|e]|k]; simpl; [|done|]; intros; by apply Ht. Qed.
(** Writing a closing event of the session. *)
Lemma write_verdict (P : world → Prop) s a : a_tenant_id a = s_tenant_id s → a_correlation_id a = s_correlation_id s →
  a_kind a = "deployed" ∨ a_kind a = "rejected" → triple P (atomic (write a)) (λ _, verdict s).
Proof.
  intros Ht Hc Hk. apply triple_atomic; [intros _; apply steady_verdict|]. intros w Hw _.
  destruct (quiet_keeps _ w (quiet_write a) Hw) as [Hkept Htasks]. split_and!; [done..|]. intros eid w' E.
  apply write_leaves in E as (r & Hin & _ & Hrt & Hrk & Hrc & _). exists r. unfold verdict_event.
  rewrite Hrt, Hrk, Hrc. split; [done|by left].
Qed.

(** What the graph hands on: the session is the same run, and a completed one has its
    deployment. *)
Definition handed_on (s : session) (g : GraphRun) : Prop :=
  s_tenant_id (run_session g) = s_tenant_id s ∧ s_correlation_id (run_session g) = s_correlation_id s ∧
  (run_final g = Completed → truthy (or_else (s_deployment_record (run_session g)) (JObj [])) = true).
Lemma run_handed_on s w g w' : run pv s w = (Ok g, w') → handed_on s g.
Proof.
  intros E. destruct (attempt_loop_ok pv _ (initial_plan s) 0 w g w' eq_refl E) as (_ & Hs & _ & Hdone).
  destruct Hs as (Ht & _ & Hc & _). split_and!; [done..|]. intros Hf.
  destruct (Hdone Hf) as (p & spec & rec & _ & _ & _ & -> & Hacc). by destruct rec as [ | | | | | |[]].
Qed.
Lemma run_triple s : triple top (atomic (run pv s)) (λ g _, handed_on s g).
Proof.
  apply triple_atomic; [by intros g w w'|]. intros w Hw _. destruct (quiet_keeps _ w (quiet_run pv s) Hw) as [? ?].
  split_and!; [done..|]. intros g w' E. by eapply run_handed_on.
Qed.

Lemma persist_verdict s s0 info start dir : s_tenant_id s = s_tenant_id s0 → s_correlation_id s = s_correlation_id s0 →
  truthy (or_else (s_deployment_record s) (JObj [])) = true →
  triple top (persist_deployed_thread factor s info start dir) (λ _, verdict s0).
Proof.
  intros Ht Hc Hd. unfold persist_deployed_thread. rewrite Hd.
  do 5 (eapply triple_bind; [quiet_thread|intros ?]). cbn [twhen].
  do 2 (eapply triple_bind; [quiet_thread|intros ?]).
  apply (triple_bind _ _ (λ _, verdict s0)); [apply write_verdict; [done|done|by left]|intros ?]. quiet_thread.
Qed.
Lemma tail_verdict s dir start g : handed_on s g →
  triple top (run_graph_tail_thread factor dir start g) (λ _, verdict s).
Proof.
  intros (Ht & Hc & Hd). unfold run_graph_tail_thread.
  do 4 (eapply triple_bind; [quiet_thread|intros ?]).
  destruct (run_final g); [by apply persist_verdict; auto|].
  eapply triple_bind; [quiet_thread|intros inv].
  apply (triple_bind _ _ (λ _, verdict s)); [apply write_verdict; [done|done|by right]|intros ?; apply triple_ret].
Qed.
Lemma run_async_verdict s dir : triple top (run_async_thread pv factor s dir) (λ _, verdict s).
Proof.
  unfold run_async_thread. apply triple_catch.
  - eapply triple_bind; [quiet_thread|intros start]. eapply triple_bind; [apply run_triple|intros g].
    apply (triple_pure (handed_on s g)). apply tail_verdict.
  - intros e. apply (triple_bind _ _ (λ _, verdict s)); [apply write_verdict; [done|done|by right]|intros ?; apply triple_ret].
Qed.
End Verdict.

(** * One thread followed through the pool *)
Section Tracking.
Context `{Env} `{Pydantic} `{JwtLib} `{Sha256} `{Difflib} `{Prompts} `{PayloadSigner}.
Context `{PolicyGeneratorClient} `{CollectorAIClient} `{!TablesApart} `{!IdleClients}.
Context (pv : PolicyValidator) (factor : Q).

(** The thread at position [i] will end with [R]. *)
Definition tracked (i : nat) (R : unit → world → Prop) (c : config) : Prop :=
  ∃ th P, c.2 !! i = Some th ∧ steady P ∧ P c.1 ∧ triple P th R.
Lemma tracked_kept i R w w' ts ts' : tracked i R (w, ts) → kept w w' → (∀ th, ts !! i = Some th → ts' !! i = Some th) →
  tracked i R (w', ts').
Proof. intros (th & P & Hi & HP & Hw & Ht) Hk Hl. exists th, P. split_and!; [by apply Hl|done|by eapply HP|done]. Qed.
Lemma cstep_tracked i R c c' : cstep pv factor c c' → pool_ok c → tracked i R c → tracked i R c'.
Proof.
  intros Hs Hp Ht. destruct (cstep_ok pv factor _ _ Hs Hp) as [_ Hk]. destruct Hp as [Htasks _].
  assert (∀ (ts : list (thread unit)) x th, ts !! i = Some th → (ts ++ [x]) !! i = Some th) as Happ
    by (intros; by apply lookup_app_l_Some).
  destruct Hs as [w b k a|w ts p rq|w ts p rq|w ts|w ts b tk a Htk|w w' ts Hs]; cbn [fst snd] in *;
    try (by eapply tracked_kept; [exact Ht|exact Hk|auto]).
  destruct Ht as (th & P & Hi & HP & Hw & Htr). cbn [fst snd] in *.
  destruct (Nat.eq_dec i (length b)) as [->|Hne].
  - rewrite list_lookup_middle in Hi by done. injection Hi as <-. specialize (Htr w Htasks Hw).
    destruct (k w) as [th' w']. destruct Htr as (_ & _ & Q & HQ & Hq & Htr'). exists th', Q. cbn [fst snd].
    rewrite list_lookup_middle by done. done.
  - exists th, P. cbn [fst snd]. split_and!; [|done|by eapply HP|done].
    destruct (Nat.lt_ge_cases i (length b)) as [Hlt|Hge].
    + rewrite lookup_app_l in Hi |- * by lia. done.
    + rewrite lookup_app_r in Hi |- * by lia. rewrite lookup_cons_ne_0 in Hi |- * by lia. done.
Qed.
Lemma csteps_tracked i R c c' : csteps pv factor c c' → pool_ok c → tracked i R c → tracked i R c'.
Proof.
  induction 1 as [|c c1 c' Hs _ IH]; intros Hp Ht; [done|]. apply IH; [by eapply (cstep_ok pv factor)|by eapply cstep_tracked].
Qed.
Lemma tracked_end i R w ts : tracked i R (w, ts) → ts !! i = Some (TDone (Ok tt)) → R tt w.
Proof. intros (th & P & Hi & _ & Hw & Ht) Hd. cbn [fst snd] in *. rewrite Hd in Hi. injection Hi as <-. by apply Ht. Qed.
End Tracking.

(** * What a thread may raise *)
(** Every exception the thread ends with relates, by [Q], to the world its last step ran
    in ([w0] for a thread that has no step left). *)
Fixpoint raises_by {A} (Q : world → exn → Prop) (w0 : world) (t : thread A) : Prop :=
  match t with
  | TDone (Ok _) => True
  | TDone (Raise e) => Q w0 e
  | TStep k => ∀ w, match k w with (t', _) => raises_by Q w t' end
  end.
Section Raising.
Context (Q : world → exn → Prop).
Lemma raises_atomic {A} (m : M A) w0 : (∀ w e, (m w).1 = Raise e → Q w e) → raises_by Q w0 (atomic m).
Proof. intros Hm w. specialize (Hm w). destruct (m w) as [[a|e] w']; simpl in *; [done|by apply Hm]. Qed.
Lemma raises_bind {A B} (t : thread A) (k : A → thread B) w0 :
  raises_by Q w0 t → (∀ a w, raises_by Q w (k a)) → raises_by Q w0 (t ≫= k).
Proof.
  intros Ht Hk. revert w0 Ht. induction t as [[a|e]|f IH] using thread_tree_ind; intros w0 Ht; [apply Hk|exact Ht|].
  intros w. specialize (Ht w). specialize (IH w). destruct (f w) as [t' w']. by apply IH.
Qed.
(** Whatever the body raises goes to the handler. *)
Lemma raises_catch {A} (t : thread A) h w0 : (∀ e w, raises_by Q w (h e)) → raises_by Q w0 (tcatch t h).
Proof.
  intros Hh. revert w0. induction t as [[a|e]|f IH] using thread_tree_ind; intros w0; [done|apply Hh|].
  intros w. specialize (IH w). destruct (f w) as [t' w']. apply IH.
Qed.
End Raising.

Section Ending.
Context `{Env} `{Pydantic} `{JwtLib} `{Sha256} `{Difflib} `{Prompts} `{PayloadSigner}.
Context `{PolicyGeneratorClient} `{CollectorAIClient} (pv : PolicyValidator) (factor : Q).

(** The [rejected] event of the failed run could not be written. *)
Definition rejection_failed (s : session) (w : world) (e : exn) : Prop :=
  ∃ e0, (write (runner_error_event s e0) w).1 = Raise e.
Lemma run_async_raises s dir w0 : raises_by (rejection_failed s) w0 (run_async_thread pv factor s dir).
Proof.
  apply raises_catch. intros e w. apply raises_bind; [|done].
  apply raises_atomic. intros w1 e' He. by exists e.
Qed.

(** The thread at position [i] raises only by [Q], its last step having run in a state
    between [c0] and [c]. *)
Definition raising (i : nat) (Q : world → exn → Prop) (c0 c : config) : Prop :=
  ∃ th c1, c.2 !! i = Some th ∧ csteps pv factor c0 c1 ∧ csteps pv factor c1 c ∧ raises_by Q c1.1 th.
Lemma raising_kept i Q c0 c c' : raising i Q c0 c → cstep pv factor c c' →
  (∀ th, c.2 !! i = Some th → c'.2 !! i = Some th) → raising i Q c0 c'.
Proof.
  intros (th & c1 & Hi & Hc01 & Hc1 & Ht) Hs Hl. exists th, c1. split_and!; [by apply Hl|done| |done].
  by eapply rtc_r.
Qed.
Lemma cstep_raising i Q c0 c c' : cstep pv factor c c' → raising i Q c0 c → raising i Q c0 c'.
Proof.
  intros Hs Hr. pose proof (raising_kept _ _ _ _ _ Hr Hs) as Hk.
  assert (∀ (ts : list (thread unit)) x th, ts !! i = Some th → (ts ++ [x]) !! i = Some th) as Happ
    by (intros; by apply lookup_app_l_Some).
  destruct Hs as [w b k a|w ts p rq|w ts p rq|w ts|w ts b tk a Htk|w w' ts Hs]; cbn [fst snd] in *;
    try (by apply Hk; auto).
  destruct (Nat.eq_dec i (length b)) as [->|Hne].
  - destruct Hr as (th & c1 & Hi & Hc01 & Hc1 & Ht). cbn [fst snd] in Hi.
    rewrite list_lookup_middle in Hi by done. injection Hi as <-.
    exists (k w).1, (w, b ++ TStep k :: a). cbn [fst snd]. rewrite list_lookup_middle by done.
    split_and!; [done|by etransitivity|by apply rtc_once, c_thread|]. specialize (Ht w). by destruct (k w).
  - apply Hk. intros th Hi. destruct (Nat.lt_ge_cases i (length b)) as [Hlt|Hge].
    + rewrite lookup_app_l in Hi |- * by lia. done.
    + rewrite lookup_app_r in Hi |- * by lia. rewrite lookup_cons_ne_0 in Hi |- * by lia. done.
Qed.
Lemma csteps_raising i Q c0 c c' : csteps pv factor c c' → raising i Q c0 c → raising i Q c0 c'.
Proof. induction 1 as [|c c1 c' Hs _ IH]; intros Hr; [done|]. by eapply IH, cstep_raising. Qed.
End Ending.

(** C15. No run is lost among others: in any interleaving from a process without scheduled
    work, once a graph run that was started has ended, wherever it was suspended and
    whatever other handlers, runs, erasures, rounds and restarts did in between, then
    either it ended normally, and the audit trail holds a [deployed] or a [rejected] event
    of its tenant under its correlation id; or it ended with an exception, and that is the
    one which the write of its [rejected] event, in a state the history went through, raised:
    nothing else a run does lets an exception out.  The trail keeps one event of a kind per
    correlation id, so for a run under a correlation id that was used before, the event may
    be that of the earlier run. *)
Theorem concurrent_run_on_record `{Env} `{Pydantic} `{JwtLib} `{Sha256} `{Difflib} `{Prompts} `{PayloadSigner}
    `{PolicyGeneratorClient} `{CollectorAIClient} `{!TablesApart} `{!IdleClients}
    (pv : PolicyValidator) (factor : Q) (w0 w w' : world) (ts ts' : list (thread unit)) (i : nat) (s : session)
    (dir : option string) (r : result exn unit) :
  w_tasks w0 = [] → csteps pv factor (w0, []) (w, ts) → ts !! i = Some (run_async_thread pv factor s dir) →
  csteps pv factor (w, ts) (w', ts') → ts' !! i = Some (TDone r) →
  match r with
  | Ok _ => ∃ a, a ∈ db_audit_events (w_db w') ∧ verdict_event s a
  | Raise e => ∃ c, csteps pv factor (w, ts) c ∧ csteps pv factor c (w', ts') ∧ rejection_failed s c.1 e
  end.
Proof.
  intros Ht%fresh_pool Hs Hi Hs' Hd. destruct r as [[]|e].
  - destruct (csteps_ok pv factor _ _ Hs Ht) as [Hp _].
    apply verdict_on_file, (tracked_end i (λ _, verdict s) w' ts'); [|done].
    apply (csteps_tracked pv factor i _ _ _ Hs' Hp). exists (run_async_thread pv factor s dir), (λ _, True).
    split_and!; [done..|]. apply run_async_verdict.
  - destruct (csteps_raising pv factor i (rejection_failed s) (w, ts) _ _ Hs') as (th & c & Hth & Hc & Hc' & Hr).
    + exists (run_async_thread pv factor s dir), (w, ts). split_and!; [done|apply rtc_refl..|apply run_async_raises].
    + cbn [fst snd] in Hth. rewrite Hd in Hth. injection Hth as <-. by exists c.
Qed.

Module VerdictSamples.
#[local] Notation play := (foldl (advance (H := Samples.env) (H0 := GraphSamples.pydantic) (H2 := IngestSamples.sha)
  GraphSamples.pv 1)).
#[local] Notation reaches := (csteps (H := Samples.env) (H0 := GraphSamples.pydantic) (H2 := IngestSamples.sha)
  GraphSamples.pv 1).
(** A finding is posted, its run starts, is suspended while an erasure is carried out, and
    ends. *)
Definition filed : config :=
  play (Samples.start, []) (MvFinding IngestSamples.acme IngestSamples.rq1 :: ConcurrencySamples.steps_of 0 12).
Definition run_session0 : session :=
  match w_tasks filed.1 with TGraph s _ _ :: _ => s | _ => GraphSamples.sess end.
Definition started : config :=
  advance (H := Samples.env) (H0 := GraphSamples.pydantic) (H2 := IngestSamples.sha) GraphSamples.pv 1 filed (MvTask 0).
Definition ended : config :=
  play started (ConcurrencySamples.steps_of 1 2 ++ MvErasure IngestSamples.acme ErasureSamples.rq ::
    ConcurrencySamples.steps_of 2 12 ++ MvTask 0 :: ConcurrencySamples.steps_of 3 6 ++ ConcurrencySamples.steps_of 1 30).
Lemma to_started : reaches (Samples.start, []) (started.1, started.2).
Proof.
  rewrite <- surjective_pairing. transitivity filed; [apply schedule_csteps|apply advance_csteps].
Qed.
Lemma to_ended : reaches (started.1, started.2) (ended.1, ended.2).
Proof. rewrite <- !surjective_pairing. apply schedule_csteps. Qed.
Lemma task_starts `{Env} `{Pydantic} `{JwtLib} `{Sha256} `{Difflib} `{Prompts} `{PayloadSigner}
    `{PolicyGeneratorClient} `{CollectorAIClient} (pv : PolicyValidator) (factor : Q) (c : config) tk :
  w_tasks c.1 !! 0%nat = Some tk → (advance pv factor c (MvTask 0)).2 !! length c.2 = Some (task_thread pv factor tk).
Proof. destruct c as [w ts]. cbn [fst snd advance]. intros ->. cbn [snd]. by rewrite list_lookup_middle. Qed.
Lemma run_started :
  started.2 !! 1%nat = Some (run_async_thread (H := Samples.env) (H0 := GraphSamples.pydantic) GraphSamples.pv 1 run_session0 None).
Proof.
  assert (length filed.2 = 1%nat) as Hl by (vm_compute; reflexivity).
  assert (w_tasks filed.1 !! 0%nat = Some (TGraph run_session0 None None)) as Ht by (vm_compute; reflexivity).
  pose proof (task_starts (H := Samples.env) (H0 := GraphSamples.pydantic) (H2 := IngestSamples.sha) GraphSamples.pv 1
    filed _ Ht) as Hs. cbn [task_thread] in Hs. rewrite Hl in Hs. exact Hs.
Qed.
Lemma run_ended : ended.2 !! 1%nat = Some (TDone (Ok tt)).
Proof. vm_compute. reflexivity. Qed.
End VerdictSamples.
Import VerdictSamples.

Lemma concurrent_run_on_record_witness :
  ∃ a, a ∈ db_audit_events (w_db ended.1) ∧ verdict_event run_session0 a.
Proof.
  exact (concurrent_run_on_record (H := Samples.env) (H0 := GraphSamples.pydantic) (H2 := IngestSamples.sha)
    GraphSamples.pv 1 Samples.start started.1 ended.1 started.2 ended.2 1 run_session0 None (Ok tt) eq_refl to_started
    run_started to_ended run_ended).
Defined.
