(* ===== verification/Emission.v ===== *)
(** What the process reports: every sample it ever emits fits a declared metric,
    and which declared metrics it never touches. *)
From S2P Require Import Prelude PyStr PyDict Json JsonText PyTime Errors TokenBucket Models World Metrics Samples Database Isolation Integrity PyVal AuditLog TenantConfig Auth HotStore Http RateLimit Validator Vehicles Graph Deployer Repository Feedback Runner Ingest Erasure BreakGlass Query App System.
Local Open Scope Z_scope.

(** The metrics the code increments, sets or observes. *)
Definition EMITTED : list string :=
  ["diagnostic_findings_received_total"; "policy_generated_total"; "policy_validated_total";
   "policy_deployed_total"; "policy_outcome_total"; "policy_retry_total"; "time_to_deploy_seconds";
   "query_request_latency_seconds"; "policy_outcome_write_delay_seconds"; "http_request_total";
   "slm_weight_sha_active"; "slm_runtime_image_digest_active"; "ratelimit_decision_total";
   "ratelimit_throttled_total"; "ratelimit_redis_unavailable_total"].
Definition sound_sample (m : metric) : bool := accepted m && existsb (str_eqb (sample_name m)) EMITTED.

Definition sound_samples (w : world) : Prop := Forall (λ m, sound_sample m = true) (w_metrics w).
Definition emits {A} (m : M A) : Prop := keeps sound_samples m.

Lemma emits_silent {A} (m : M A) : stable w_metrics m → emits m.
Proof. intros Hm w Hw. unfold sound_samples. by rewrite (Hm w). Qed.
Lemma emits_sample m : sound_sample m = true → emits (modify (upd_metrics (λ l, l ++ [m]))).
Proof. intros Hm w Hw. unfold sound_samples in *. simpl. by apply Forall_snoc. Qed.
Lemma emits_transaction {A} (m : M A) : emits m → emits (in_transaction m).
Proof. intros Hm w Hw. specialize (Hm w Hw). unfold in_transaction. by destruct (m w) as [[] ?]. Qed.
Lemma emits_acquire {A} t (body : conn → M A) : (∀ c, emits (body c)) → emits (acquire t body).
Proof.
  intros Hb. unfold acquire. repeat (apply keeps_bind; [by intros w|]; intros []);
    try (by intros w); by apply emits_transaction.
Qed.
Lemma emits_acquire_service {A} (body : conn → M A) :
  (∀ c, emits (body c)) → emits (acquire_service_principal body).
Proof.
  intros Hb. unfold acquire_service_principal.
  repeat (apply keeps_bind; [by intros w|]; intros []); try (by intros w); apply Hb.
Qed.
Lemma emits_insert {R} `{Tenanted R} c name table (upd : (list R → list R) → db → db) checks uniques fks row :
  emits (insert_row c name table upd checks uniques fks row).
Proof.
  apply emits_silent. intros w. by destruct (insert_row_cases c name table upd checks uniques fks row w)
    as [(-> & _)|[(-> & _)|(e & ->)]].
Qed.
Lemma emits_write `{Env} a : emits (write a).
Proof. by apply emits_silent, write_outside. Qed.
Lemma emits_attempt {A} (m : M A) : emits m → emits (attempt m).
Proof. intros Hm w Hw. specialize (Hm w Hw). unfold attempt. by destruct (m w). Qed.

Ltac emits_calls :=
  repeat match goal with
  | |- emits (let '(_, _) := ?x in _) => destruct x
  | |- ∀ _, emits _ => intros ?
  | |- keeps sound_samples ?m => change (emits m)
  | |- emits (acquire _ _) => apply emits_acquire; intros ?
  | |- emits (acquire_service_principal _) => apply emits_acquire_service; intros ?
  | |- emits (in_transaction _) => apply emits_transaction
  | |- emits (insert_row _ _ _ _ _ _ _ _) => apply emits_insert
  | |- emits (write _) => apply emits_write
  | |- emits (attempt _) => apply emits_attempt
  | |- emits (inc _ _) => apply emits_sample; reflexivity
  | |- emits (set_gauge _ _ _) => apply emits_sample; reflexivity
  | |- emits (observe _ _ _) => apply emits_sample; reflexivity
  | |- emits (mbind _ _) => apply keeps_bind; [|intros ?]
  | |- emits (catch _ _) => apply keeps_catch; [|intros ?]
  | |- emits (for_each _ _) => apply keeps_for_each; intros ?
  | |- emits (mapM _ _) => apply keeps_mapM; intros ?
  | |- emits (match ?x with _ => _ end) => destruct x
  | |- emits _ => solve [apply emits_silent; intros ?; reflexivity]
  | |- emits ?m => progress (unfold subscript, dict_get, py_int, py_float, py_list, text_arg,
       parse_iso, datetime_add, generator, uniform, random, now, new_id, when,
       policy_field, make_row, insert_observation, insert_finding, insert_policy, insert_deployment,
       insert_outcome, insert_audit, insert_telemetry, insert_erasure, mark_expired, set_erasure)
  end.

Section Operations.
Context `{Env}.
Lemma emits_tick factor : emits (tick factor).
Proof.
  unfold tick, list_due, process, collect_telemetry, policy_get, observe_delay, text_array,
    outcome_insert. emits_calls.
Qed.
Lemma emits_dispatch_erasure t rid p : emits (dispatch_erasure t rid p).
Proof.
  unfold dispatch_erasure, store_status, erase_registry, erase_telemetry, redact_audit, update_scopes,
    redact_events. emits_calls.
Qed.
Lemma emits_assign v t sub rc : emits (assign v t sub rc).
Proof. unfold assign, history_trigger, audit_trigger. emits_calls. Qed.
Lemma emits_handler r p : emits (handler r p).
Proof.
  destruct r; simpl; unfold get_policy, list_policy_versions, active_policy_for_group,
    outcome_for_finding, audit_for_correlation, erasure_request_status, get_own_tenant_config,
    ensure_safe, found_or_404, rows_or_404, policy_get, policy_list_versions, policy_find_active,
    outcome_get_by_finding, list_for_correlation, get_erasure, get_for_tenant, cache_get, cache_put,
    now_mono; emits_calls.
Qed.
End Operations.

(** Clients that report nothing in this process. *)
Class SilentClients `{PolicyGeneratorClient} `{CollectorAIClient} := {
  generator_silent : ∀ r, stable w_metrics (generate_policy r);
  collector_silent : ∀ c, stable w_metrics (collector_deploy c) }.

Section Runs.
Context `{Env} `{Pydantic} `{Difflib} `{Prompts} `{PayloadSigner}.
Context `{PolicyGeneratorClient} `{CollectorAIClient} `{!SilentClients} (pv : PolicyValidator) (factor : Q).

Lemma emits_run s : emits (run pv s).
Proof.
  unfold run. generalize (initial_plan s), 0%nat. generalize (attempts_left s) as fuel.
  induction fuel as [|fuel IH]; intros s0 n; simpl; [apply keeps_raise|].
  apply keeps_bind.
  { apply emits_silent. unfold generate, render_prompt, retry_block, subst.
    repeat first [apply stable_bind; [|intros ?] | apply generator_silent | effects_step]. }
  intros s1. apply keeps_bind; [apply emits_silent; unfold validate_node; solve_effects|]. intros [ok s2].
  apply keeps_bind; [unfold route_after_validation; emits_calls|]. intros [d s3].
  destruct d; try apply IH; try apply keeps_ret.
  apply emits_silent. unfold deploy_and_finish. apply stable_bind; [|intros [? ?]; apply stable_ret].
  unfold deploy, py_list, new_id, now.
  repeat first [apply stable_bind; [|intros ?] | apply collector_silent | effects_step].
Qed.
Lemma emits_run_async s dir : emits (run_async pv factor s dir).
Proof.
  unfold run_async, run_graph. apply keeps_catch; [|intros e; emits_calls].
  apply keeps_bind; [emits_calls|]. intros t0. apply keeps_bind; [apply emits_run|]. intros g.
  unfold run_graph_tail, audit_generated, persist_deployed, flatten_invalid, policy_insert,
    deployment_insert, simulate. emits_calls.
Qed.
End Runs.

Section Requests.
Context `{Env} `{Pydantic} `{JwtLib} `{Sha256}.

Lemma emits_accept_finding p rq : emits (accept_finding p rq).
Proof.
  unfold accept_finding, persist_finding, enqueue, pg_check, spawn.
  repeat match goal with
  | |- emits (check_body _ _) => apply emits_silent, pure_stable, check_body_pure
  | _ => progress emits_calls
  end.
Qed.
Lemma emits_accept_erasure p rq : emits (accept_erasure p rq).
Proof. unfold accept_erasure, submit, spawn. emits_calls. Qed.
Lemma emits_break_glass rq : emits (break_glass_query rq).
Proof.
  unfold break_glass_query, audited_read. apply keeps_bind; [|intros op; emits_calls].
  apply emits_silent, (operator_outside w_metrics); [by intros []|done].
Qed.
Lemma emits_dispatch rq next : emits next → emits (dispatch rq next).
Proof.
  intros Hn. unfold dispatch. destruct (is_exempt _); [done|]. destruct (negb _); [apply keeps_ret|].
  apply keeps_bind; [by apply emits_attempt, emits_silent, verify_outside|]. intros [p|e]; [|apply keeps_ret].
  apply keeps_bind; [by apply emits_silent, get_for_tenant_outside|]. intros config.
  destruct (limits config _) as [r0 b0]. apply keeps_bind; [emits_calls|]. intros t0.
  apply keeps_bind; [by apply emits_attempt, emits_silent, consult_outside|]. intros [rep|e]; simpl.
  - destruct (_ =? _); repeat (apply keeps_bind; [emits_calls|intros ?]); first [exact Hn | emits_calls].
  - emits_calls.
Qed.
Lemma emits_route st limit rq : emits (route st limit rq).
Proof.
  assert (emits (authenticated_principal (rq_credentials rq))) as Ha
    by (apply emits_silent, authenticated_outside; [by intros []|done]).
  unfold route. destruct (endpoint_of _ _ _) as [[ | | |r| | | ]|]; simpl; try (by intros w).
  - apply keeps_bind; [exact Ha|]. intros p. apply emits_accept_finding.
  - apply keeps_bind; [exact Ha|]. intros p. apply emits_accept_erasure.
  - apply emits_break_glass.
  - apply keeps_bind; [exact Ha|]. intros p. apply emits_handler.
  - unfold ready. apply keeps_bind; [emits_calls|]. intros db_ok. apply keeps_bind; [|intros; apply keeps_ret].
    apply emits_attempt, emits_silent. intros w. unfold hs_ping, command. run_prog.
    destruct (w_redis_client w); simpl; [|done]. by destruct (redis_fault (w_redis_n w)).
Qed.
Lemma emits_app st limit rq : emits (app st limit rq).
Proof.
  assert (emits (metrics_dispatch rq (handled (route st limit rq)))) as Hm.
  { unfold metrics_dispatch, handled. apply keeps_bind; [emits_calls|]. intros t0.
    apply keeps_bind; [apply keeps_catch; [apply emits_route|]; intros []; by intros w|]. intros resp.
    emits_calls. }
  unfold app, respond. apply keeps_catch; [|by intros e w]. unfold ratelimit_dispatch.
  destruct (ratelimit_disabled st); [done|]. destruct (has_ratelimit_deps st); [|done]. by apply emits_dispatch.
Qed.
End Requests.

Lemma steps_sound `{Env} `{Pydantic} `{JwtLib} `{Sha256} `{Difflib} `{Prompts} `{PayloadSigner}
    `{PolicyGeneratorClient} `{CollectorAIClient} `{!SilentClients}
    (pv : PolicyValidator) (factor : Q) (w0 w : world) :
  steps pv factor w0 w → sound_samples w0 → sound_samples w.
Proof.
  induction 1 as [|w0 w1 w Hs _ IH]; [done|]. intros Hw0. apply IH.
  destruct Hs as [st limit rq w0|s dir acc b a w0 E|t rid p b a w0 E|w0|pl w0|v t sub rc w0|w0 w1 E Et Em].
  - by apply emits_app.
  - by apply emits_run_async.
  - by apply emits_dispatch_erasure.
  - by apply emits_tick.
  - unfold on_notify. by case_match.
  - by apply emits_assign.
  - unfold sound_samples. destruct Em as [-> | ->]; [done|constructor].
Qed.

(** The declared metrics nothing reports. *)
Definition DEAD_METRICS : list string :=
  ["dead_letter_queue_depth"; "authentication_failure_total"; "slm_generation_latency_seconds";
   "slm_constraint_violation_total"; "break_glass_invocation_total"; "deployment_rejected_total";
   "cross_tenant_access_attempt_total"; "tenant_config_cache_consumer_lag_seconds"].

(** C35. Every sample the process reports fits its declaration: in every reachable
    state each recorded sample names a declared metric of the kind the call needs,
    with one value per declared label, so the client library never refuses one;
    and none of the eight declared metrics in [DEAD_METRICS] is ever reported. *)
Theorem samples_declared `{Env} `{Pydantic} `{JwtLib} `{Sha256} `{Difflib} `{Prompts} `{PayloadSigner}
    `{PolicyGeneratorClient} `{CollectorAIClient} `{!SilentClients}
    (pv : PolicyValidator) (factor : Q) (w0 w : world) :
  w_metrics w0 = [] → steps pv factor w0 w →
  ∀ m, m ∈ w_metrics w → accepted m = true ∧ sample_name m ∉ DEAD_METRICS.
Proof.
  intros Hm0 Hs. assert (sound_samples w) as Hw.
  { eapply (steps_sound pv factor); [exact Hs|]. unfold sound_samples. rewrite Hm0. constructor. }
  intros m Hm. unfold sound_samples in Hw. rewrite Forall_forall in Hw. specialize (Hw m Hm).
  apply andb_true_iff in Hw as [Ha He]. split; [done|].
  apply existsb_exists in He as (n & Hn & E). apply str_eqb_eq in E as ->.
  intros Hd. apply list_elem_of_In in Hn.
  assert (bool_decide (n ∈ DEAD_METRICS) = false) as Hf; [|by apply bool_decide_eq_false in Hf].
  revert Hn. clear. unfold EMITTED. rewrite !elem_of_cons. 
  intros Hn. repeat destruct Hn as [->|Hn]; try (vm_compute; reflexivity). by apply not_elem_of_nil in Hn.
Qed.

#[global] Instance clients_silent : @SilentClients GraphSamples.generator GraphSamples.collector.
Proof. by split. Qed.
Lemma samples_declared_witness :
  MInc "policy_deployed_total" ["acme"] ∈ w_metrics SystemSamples.assigned ∧
  accepted (MInc "policy_deployed_total" ["acme"]) = true.
Proof.
  assert (MInc "policy_deployed_total" ["acme"] ∈ w_metrics SystemSamples.assigned) as Hm.
  { apply list_elem_of_In. vm_compute. tauto. }
  split; [exact Hm|].
  exact (proj1 (samples_declared (H := Samples.env) (H0 := GraphSamples.pydantic)
    (H2 := IngestSamples.sha) GraphSamples.pv 1 Samples.start SystemSamples.assigned
    eq_refl SystemSamples.history _ Hm)).
Defined.
