(* ===== verification/Service.v ===== *)
(** The service as start-up assembles it: the policy client the environment selects,
    the collector simulator and the local signer discharge what the system needs of
    its clients, and the state invariants hold of the running process. *)
From S2P Require Import Prelude PyStr PyDict Json JsonText PyTime Errors Models World Metrics Samples Kafka Database PyVal AuditLog TenantConfig Auth Listener HotStore Http RateLimit Validator Vehicles Integrity Graph Signing Deployer Repository Feedback Runner Ingest Slm Erasure BreakGlass Query App Lifespan System Emission.
Local Open Scope Z_scope.

(** What the invariants are about. *)
Definition ledger (w : world) : db * list task * list metric := (w_db w, w_tasks w, w_metrics w).
Lemma stable_ledger {A} (m : M A) : stable ledger m → stable w_db m ∧ stable w_tasks m ∧ stable w_metrics m.
Proof. intros Hm. split_and!; intros w; specialize (Hm w); unfold ledger in Hm; congruence. Qed.

(** A call to an inference server changes nothing in this process. *)
Class RemoteServer `{SlmServer} := {
  post_remote : ∀ url body w, (slm_post url body w).2 = w;
  get_remote : ∀ url w, (slm_get url w).2 = w }.

Section Clients.
Context `{Env} `{Environ} `{SlmServer} `{!RemoteServer} `{Sha256}.

Lemma post_ledger url body : stable ledger (slm_post url body).
Proof. intros w. by rewrite post_remote. Qed.
Lemma completion_ledger info c : stable ledger (read_completion info c).
Proof.
  unfold read_completion, completion_message, first_item, loads_message, py_dict, subscript, dict_get.
  solve_effects.
Qed.
Lemma client_ledger root c r : stable ledger (client_of root c r).
Proof.
  destruct c as [url|url| |]; simpl.
  - unfold vllm_generate. apply stable_bind; [unfold ci_guard, py_float, py_int; solve_effects|]. intros [].
    apply stable_bind; [apply post_ledger|]. intros ?. apply completion_ledger.
  - unfold llamacpp_generate. apply stable_bind; [apply post_ledger|]. intros ?. apply completion_ledger.
  - unfold stub_generate. solve_effects.
  - apply stable_ret.
Qed.
Lemma simulator_ledger rate status accel c : stable ledger (simulator_deploy rate status accel c).
Proof. unfold simulator_deploy, random, new_id, now, py_int. solve_effects. Qed.

#[export] Instance service_tables root c rate status accel :
  @TablesApart (client_of root c) (simulator_deploy rate status accel).
Proof. split; intros x; [apply (stable_ledger _ (client_ledger root c x))|apply (stable_ledger _ (simulator_ledger rate status accel x))]. Qed.
#[export] Instance service_idle root c rate status accel :
  @IdleClients (client_of root c) (simulator_deploy rate status accel).
Proof. split; intros x; [apply (stable_ledger _ (client_ledger root c x))|apply (stable_ledger _ (simulator_ledger rate status accel x))]. Qed.
#[export] Instance service_silent root c rate status accel :
  @SilentClients (client_of root c) (simulator_deploy rate status accel).
Proof. split; intros x; [apply (stable_ledger _ (client_ledger root c x))|apply (stable_ledger _ (simulator_ledger rate status accel x))]. Qed.
End Clients.

(** The steps of the process that start-up has assembled; [accel] is the simulator's own
    reading of the acceleration factor. *)
Definition service_steps `{Env} `{Pydantic} `{JwtLib} `{Sha256} `{Difflib} `{Environ} `{SlmServer} `{Ed25519}
    (root : corpus) (pv : PolicyValidator) (accel : Q) (r : running) : world → world → Prop :=
  @steps _ _ _ _ _ prompts_v1 (local_signer (ru_signer r)) (client_of root (ru_client r))
    (simulator_deploy (ru_fail_rate r) "rejected" accel) pv (ru_factor r).

Section ServiceSteps.
Context `{Env} `{Pydantic} `{JwtLib} `{Sha256} `{Difflib} `{Environ} `{SlmServer} `{!RemoteServer} `{Ed25519}.
Context (root : corpus) (pv : PolicyValidator) (accel : Q) (r : running).
#[local] Notation client := (client_of root (ru_client r)).
#[local] Notation collector := (simulator_deploy (ru_fail_rate r) "rejected" accel).

Lemma service_tables_kept (I : db → Prop) `{!Preserved I} w w' :
  service_steps root pv accel r w w' → I (w_db w) → I (w_db w').
Proof.
  exact (steps_tables (H4 := prompts_v1) (H5 := local_signer (ru_signer r)) (H6 := client) (H7 := collector)
    pv (ru_factor r) I w w').
Qed.
Lemma service_tasks_kept w w' : service_steps root pv accel r w w' → tasks_ok w → tasks_ok w'.
Proof.
  exact (steps_tasks (H4 := prompts_v1) (H5 := local_signer (ru_signer r)) (H6 := client) (H7 := collector)
    pv (ru_factor r) w w').
Qed.
Lemma service_samples_kept w w' : service_steps root pv accel r w w' → sound_samples w → sound_samples w'.
Proof.
  exact (steps_sound (H4 := prompts_v1) (H5 := local_signer (ru_signer r)) (H6 := client) (H7 := collector)
    pv (ru_factor r) w w').
Qed.
End ServiceSteps.

Section Startup.
Context `{Env} `{Environ} `{Ed25519}.
Definition keeps_ledger {A} (m : prog exn process A) : Prop := stable (λ p, ledger (pc_world p)) m.
Lemma keeps_on_world {A} (m : M A) : stable ledger m → keeps_ledger (on_world m).
Proof. intros Hm p. unfold on_world. specialize (Hm (pc_world p)). by destruct (m (pc_world p)). Qed.
Lemma startup_ledger o factor n : keeps_ledger (startup o factor n).
Proof.
  unfold startup, keeps_ledger, when, fault, set_state, set_feedback, on_kafka, on_listener, on_key_file.
  repeat first [apply keeps_on_world; by intros w | apply stable_bind; [|intros ?] | effects_step
    | intros p; repeat case_match; done].
Qed.
End Startup.

(** C5. The service that start-up assembles keeps its promises: from a fresh database,
    whichever policy client the environment selects, after a start-up that goes
    through and any interleaving of requests, runs, erasures, feedback rounds,
    notifications, assignments and restarts, the tables the program writes satisfy their
    constraints, keys and references (as in [Integrity.integrity]), every audit event carries its field set, the ownership
    history is a chain, every scheduled task stems from a row on file, and every
    reported sample fits its declaration. *)
Theorem started_service_consistent `{Env} `{Pydantic} `{JwtLib} `{Sha256} `{Difflib} `{Environ} `{SlmServer}
    `{!RemoteServer} `{Ed25519} (root : corpus) (pv : PolicyValidator) (accel : Q)
    (o : outside) (factor : Q) (n : nat) (p p' : process) :
  cold p → fresh_db (w_db (pc_world p)) → w_tasks (pc_world p) = [] → w_metrics (pc_world p) = [] →
  startup o factor n p = (Ok tt, p') →
  ∃ r, pc_state p' = Some r ∧ select_policy_client = Ok (ru_client r) ∧
    ∀ w, service_steps root pv accel r (pc_world p') w →
      integrity (w_db w) ∧ audit_fields (w_db w) ∧ ownership (w_db w) ∧ tasks_ok w ∧
      Forall (λ m, accepted m = true) (w_metrics w).
Proof.
  intros Hc Hd Ht Hm E. pose proof (startup_ledger o factor n p) as El. rewrite E in El. simpl in El.
  destruct (startup_serving _ _ _ _ _ Hc E) as (_ & _ & _ & _ & _ & r & Er & Hsel & _).
  exists r. split_and!; [done..|]. intros w Hs. injection El as Edb Etasks Emet.
  rewrite <- Edb in Hd. rewrite <- Etasks in Ht. rewrite <- Emet in Hm.
  apply fresh_ok in Hd as (Hi & Ha & Ho). split_and!; [by eapply service_tables_kept; try apply _..| |].
  - eapply service_tasks_kept; [exact Hs|]. unfold tasks_ok. rewrite Ht. constructor.
  - eapply Forall_impl; [eapply service_samples_kept; [exact Hs|]; unfold sound_samples; rewrite Hm; constructor|].
    intros m [? _]%andb_true_iff. done.
Qed.

Module ServiceSamples.
#[global] Instance offline : @RemoteServer SlmSamples.no_server.
Proof. by split. Qed.
End ServiceSamples.

Lemma started_service_consistent_witness :
  ∃ r w, pc_state LifespanSamples.p1 = Some r ∧
    service_steps (H := Samples.env) (H0 := GraphSamples.pydantic) (H2 := IngestSamples.sha)
      (H4 := LifespanSamples.unset) (H5 := SlmSamples.no_server) (H6 := LifespanSamples.toy)
      (λ _, None) GraphSamples.pv 1 r (pc_world LifespanSamples.p1) w ∧
    length (db_diagnostic_findings (w_db w)) = 1%nat ∧ integrity (w_db w).
Proof.
  destruct (started_service_consistent (H := Samples.env) (H0 := GraphSamples.pydantic) (H2 := IngestSamples.sha)
    (H4 := LifespanSamples.unset) (H5 := SlmSamples.no_server) (H7 := LifespanSamples.toy)
    (λ _, None) GraphSamples.pv 1 LifespanSamples.fine 60 7 LifespanSamples.p0 LifespanSamples.p1)
    as (r & Er & _ & Hw).
  - repeat split.
  - eexists _, _. reflexivity.
  - reflexivity.
  - reflexivity.
  - vm_compute. reflexivity.
  - eexists r, _. split; [exact Er|]. split.
    { eapply rtc_l; [|apply rtc_refl]. apply (step_request _ _ SystemSamples.st 50 IngestSamples.rq1). }
    split; [vm_compute; reflexivity|]. apply Hw. eapply rtc_l; [|apply rtc_refl].
    apply (step_request _ _ SystemSamples.st 50 IngestSamples.rq1).
Defined.
