(* ===== verification/Migrations.v ===== *)
(** [registry/migrations/runner.py]: discovery of the up/down scripts, the
    forward runner and the rollback of one migration.

    The database server is a parameter: [execute] is the effect of a script on
    the schema, a type of its own; the [schema_migrations] table is modelled as
    the runner uses it. *)
From Stdlib Require Import Sorted.
From S2P Require Import Prelude PyStr PyDict Json Errors.

(** * File names *)
Definition name_class (c : ascii) : bool := is_lower c || is_digit c || ascii_eqb c "_".
(** [^(\d{3,})_([a-z0-9_]+)<suffix>$]; neither class contains the character that
    ends it, so the greedy groups are the only match. *)
Definition file_match (suffix fname : string) : option (string * string) :=
  let '(version, rest) := span is_digit (drop_final_newline fname) in
  if (String.length version <? 3)%nat then None
  else match rest with
       | String "_" rest' =>
           let '(name, tail) := span name_class rest' in
           if nonempty name && str_eqb tail suffix then Some (version, name) else None
       | _ => None
       end.
Definition UP_PATTERN : string → option (string * string) := file_match ".up.sql".
Definition DOWN_PATTERN : string → option (string * string) := file_match ".down.sql".

Record Migration := { version : string; name : string; up_path : string; down_path : option string }.

(** [pairs]: the files of a key, as its [up] and [down] entries. *)
Record files := Files { f_up : option string; f_down : option string }.
Definition no_files : files := Files None None.
Definition pair_key (g : string * string) : string := g.1 +:+ "_" +:+ g.2.
(** The loop body over the directory entries. *)
Definition add_entry (pairs : list (string * files)) (entry : string * bool) : list (string * files) :=
  let '(fname, is_file) := entry in
  if negb is_file then pairs
  else match UP_PATTERN fname with
  | Some g =>
      let fs := default no_files (dget (pair_key g) pairs) in
      dset (pair_key g) (Files (Some fname) (f_down fs)) pairs
  | None =>
      match DOWN_PATTERN fname with
      | Some g =>
          let fs := default no_files (dget (pair_key g) pairs) in
          dset (pair_key g) (Files (f_up fs) (Some fname)) pairs
      | None => pairs
      end
  end.
(** [key.split("_", 1)]. *)
Definition split_key (key : string) : string * string :=
  let '(v, rest) := span (λ c, negb (ascii_eqb c "_")) key in (v, drop_str 1 rest).
Definition migration_of (pairs : list (string * files)) (key : string) : option Migration :=
  fs ← dget key pairs;
  up ← f_up fs;
  let '(v, n) := split_key key in
  Some {| version := v; name := n; up_path := up; down_path := f_down fs |}.

(** Directory entries in the order of their names. *)
Definition entry_leb (a b : string * bool) : bool := str_leb a.1 b.1.
Fixpoint insert_entry (x : string * bool) (l : list (string * bool)) : list (string * bool) :=
  match l with
  | [] => [x]
  | y :: l' => if entry_leb x y then x :: l else y :: insert_entry x l'
  end.
(** [discover_migrations]. *)
Definition discover_migrations (directory : list (string * bool)) : list Migration :=
  let pairs := foldl add_entry [] (foldr insert_entry [] directory) in
  omap (migration_of pairs) (sort_strs (dkeys pairs)).

(** * The runner *)
Section Runner.
Context {S : Type}.

Record server := Server { sv_schema : S; sv_migrations : option (list (string * string)) }.
Notation R := (prog exn server).

Context (execute : string → S → result exn S) (read_text : string → result exn string).

Definition execute_sql (sql : string) : R unit := λ s,
  match execute sql (sv_schema s) with
  | Ok x => (Ok tt, Server x (sv_migrations s))
  | Raise e => (Raise e, s)
  end.
(** [async with conn.transaction()]. *)
Definition transaction {A} (m : R A) : R A := λ s,
  match m s with
  | (Ok a, s') => (Ok a, s')
  | (Raise e, _) => (Raise e, s)
  end.
Definition no_table : exn := EPg (SqlError "relation schema_migrations does not exist").

(** [ensure_migrations_table] and [applied_versions]. *)
Definition ensure_migrations_table : R unit :=
  modify (λ s, Server (sv_schema s) (Some (default [] (sv_migrations s)))).
Definition applied_versions : R (list string) :=
  rows ← gets sv_migrations;
  match rows with Some l => mret l.*1 | None => raise no_table end.
Definition record_migration (m : Migration) : R unit :=
  rows ← gets sv_migrations;
  match rows with
  | None => raise no_table
  | Some l =>
      if bool_decide (version m ∈ l.*1) then raise (EPg (UniqueViolation "schema_migrations_pkey"))
      else modify (λ s, Server (sv_schema s) (Some (l ++ [(version m, name m)])))
  end.

(** The loop of [apply_pending]. *)
Fixpoint apply_loop (existing : list string) (ms : list Migration) (applied : list string)
    : R (list string) :=
  match ms with
  | [] => mret applied
  | m :: ms' =>
      if bool_decide (version m ∈ existing) then apply_loop existing ms' applied
      else
        sql ← lift (read_text (up_path m));
        transaction (execute_sql sql;; record_migration m);;
        apply_loop existing ms' (applied ++ [version m])
  end.
(** [apply_pending]: an empty or absent list falls back to the directory. *)
Definition apply_pending (migrations : option (list Migration)) (directory : list (string * bool))
    : R (list string) :=
  let ms := match migrations with
            | Some (m :: l) => m :: l
            | _ => discover_migrations directory
            end in
  ensure_migrations_table;;
  existing ← applied_versions;
  apply_loop existing ms [].

(** [rollback_one]; in the dict by version the last migration wins. *)
Definition rollback_one (directory : list (string * bool)) (v : string) : R unit :=
  match List.find (λ m, str_eqb (version m) v) (rev (discover_migrations directory)) with
  | None => raise (EValueError ("unknown migration version: " +:+ v))
  | Some target =>
      match down_path target with
      | None => raise (EValueError ("migration " +:+ v +:+ " has no down.sql; refusing to rollback"))
      | Some down =>
          sql ← lift (read_text down);
          ensure_migrations_table;;
          existing ← applied_versions;
          if bool_decide (v ∈ existing) then
            transaction (execute_sql sql;;
              modify (λ s, Server (sv_schema s)
                (List.filter (λ r, negb (str_eqb r.1 v)) <$> sv_migrations s)))
          else mret tt
      end
  end.
End Runner.
Arguments server : clear implicits.

(** * What the runner promises *)
Section Facts.
Context {S : Type} (read_text : string → result exn string).
Implicit Types (execute : string → S → result exn S) (s : server S).

(** The reference: run the scripts in order, without a record. *)
Fixpoint upgrade execute (ms : list Migration) (x : S) : result exn S :=
  match ms with
  | [] => Ok x
  | m :: ms' => sql ← read_text (up_path m); y ← execute sql x; upgrade execute ms' y
  end.
Definition rows (s : server S) : list (string * string) := default [] (sv_migrations s).
Definition recorded (ms : list Migration) : list (string * string) :=
  (λ m, (version m, name m)) <$> ms.
Definition pending (existing : list string) (ms : list Migration) : list Migration :=
  List.filter (λ m, negb (bool_decide (version m ∈ existing))) ms.
Definition plan (migrations : option (list Migration)) (directory : list (string * bool)) : list Migration :=
  match migrations with Some (m :: l) => m :: l | _ => discover_migrations directory end.

Lemma recorded_versions ms : (recorded ms).*1 = version <$> ms.
Proof. unfold recorded. by rewrite <- list_fmap_compose. Qed.

(** One iteration: the script and its record together, or neither. *)
Lemma apply_loop_cons execute existing m ms acc l s : sv_migrations s = Some l →
  apply_loop execute read_text existing (m :: ms) acc s =
  if bool_decide (version m ∈ existing) then apply_loop execute read_text existing ms acc s else
  match upgrade execute [m] (sv_schema s) with
  | Raise e => (Raise e, s)
  | Ok x => if bool_decide (version m ∈ l.*1)
            then (Raise (EPg (UniqueViolation "schema_migrations_pkey")), s)
            else apply_loop execute read_text existing ms (acc ++ [version m])
                   (Server x (Some (l ++ [(version m, name m)])))
  end.
Proof.
  intros Hl. simpl. destruct (bool_decide (version m ∈ existing)); [done|].
  unfold transaction, execute_sql, record_migration. run_prog.
  destruct (read_text (up_path m)) as [sql|e]; simpl; [|done].
  destruct (execute sql (sv_schema s)) as [x|e]; simpl; [|done]. rewrite Hl.
  by destruct (bool_decide (version m ∈ l.*1)).
Qed.

(** The outcome of the loop: a prefix of the pending migrations is applied and
    recorded, in order; a failure leaves the first of the rest unapplied. *)
Definition progress_made execute (existing : list string) (ms : list Migration) (acc : list string)
    (l : list (string * string)) (s s' : server S) (r : result exn (list string)) : Prop :=
  ∃ finished rest, pending existing ms = finished ++ rest ∧
    upgrade execute finished (sv_schema s) = Ok (sv_schema s') ∧
    sv_migrations s' = Some (l ++ recorded finished) ∧
    match r with
    | Ok vs => rest = [] ∧ vs = acc ++ (version <$> finished)
    | Raise e => ∃ m rest', rest = m :: rest' ∧
        (upgrade execute [m] (sv_schema s') = Raise e ∨
         e = EPg (UniqueViolation "schema_migrations_pkey") ∧
         version m ∈ l.*1 ++ (version <$> finished))
    end.

Lemma apply_loop_progress execute existing ms acc l s r s' :
  sv_migrations s = Some l → apply_loop execute read_text existing ms acc s = (r, s') →
  progress_made execute existing ms acc l s s' r.
Proof.
  revert acc l s. induction ms as [|m ms IH]; intros acc l s Hl E.
  { injection E as <- <-. exists [], []. rewrite !app_nil_r. by rewrite Hl. }
  rewrite (apply_loop_cons _ _ _ _ _ l) in E by done. unfold progress_made, pending. simpl List.filter.
  destruct (bool_decide (version m ∈ existing)) eqn:Ee; simpl negb; cbv iota; [by apply (IH acc l s)|].
  assert (∀ e, s' = s → r = Raise e →
    (upgrade execute [m] (sv_schema s) = Raise e ∨
     e = EPg (UniqueViolation "schema_migrations_pkey") ∧ version m ∈ l.*1) →
    progress_made execute existing (m :: ms) acc l s s' r) as Hstop.
  { intros e -> -> Hf. exists [], (m :: pending existing ms). unfold pending at 1. simpl List.filter.
    rewrite Ee, app_nil_r, app_nil_r. split_and!; try done. eauto. }
  destruct (upgrade execute [m] (sv_schema s)) as [x|e] eqn:Eu.
  2: { injection E as <- <-. unfold progress_made, pending in Hstop. simpl List.filter in Hstop.
       rewrite Ee in Hstop. eapply Hstop; eauto. }
  destruct (bool_decide_reflect (version m ∈ l.*1)) as [Hin|Hin].
  { injection E as <- <-. unfold progress_made, pending in Hstop. simpl List.filter in Hstop.
    rewrite Ee in Hstop. eapply Hstop; eauto. }
  apply IH with (l := l ++ [(version m, name m)]) in E as (fin & rest & Hp & Hu & Hm & Hr); [|done].
  exists (m :: fin), rest. unfold pending in *. rewrite Hp. split_and!; [done|..].
  - simpl in Eu |- *. destruct (read_text (up_path m)) as [sql|]; simpl in *; [|done].
    destruct (execute sql (sv_schema s)); simpl in *; by simplify_eq.
  - by rewrite Hm, <- app_assoc.
  - destruct r as [vs|e].
    + destruct Hr as [-> ->]. by rewrite <- app_assoc.
    + destruct Hr as (m' & rest' & -> & Hr). exists m', rest'. split; [done|].
      destruct Hr as [Hr|[-> Hr]]; [by left|]. right. split; [done|].
      rewrite fmap_app, <- app_assoc in Hr. exact Hr.
Qed.

Lemma apply_pending_loop execute given dir s :
  apply_pending execute read_text given dir s =
  apply_loop execute read_text (rows s).*1 (plan given dir) [] (Server (sv_schema s) (Some (rows s))).
Proof. done. Qed.

Lemma upgrade_app execute a b x :
  upgrade execute (a ++ b) x = (y ← upgrade execute a x; upgrade execute b y).
Proof.
  revert x. induction a as [|m a IH]; intros x; simpl; [done|].
  destruct (read_text (up_path m)) as [sql|]; simpl; [|done].
  destruct (execute sql x) as [y|]; simpl; [apply IH|done].
Qed.

Lemma pending_app a b ms : pending (a ++ b) ms = pending b (pending a ms).
Proof.
  unfold pending. rewrite <- filter_andb. apply List.filter_ext. intros m.
  rewrite <- negb_orb. f_equal. apply eq_bool_prop_intro.
  rewrite orb_True, !bool_decide_spec. apply elem_of_app.
Qed.
Lemma pending_all ex ms : (∀ m, m ∈ ms → version m ∉ ex) → pending ex ms = ms.
Proof.
  induction ms as [|m ms IH]; intros Hm; [done|]. unfold pending in *. simpl.
  rewrite bool_decide_eq_false_2 by (apply Hm; by left). simpl. f_equal. apply IH.
  intros; apply Hm; by right.
Qed.
Lemma pending_done fin rest : NoDup (version <$> fin ++ rest) →
  pending (version <$> fin) (fin ++ rest) = rest.
Proof.
  rewrite fmap_app, NoDup_app. intros (Hf & Hd & Hr). unfold pending. rewrite List.filter_app, filter_none.
  - apply pending_all. intros m Hm Hv. apply (Hd (version m)); [done|]. by apply list_elem_of_fmap_2.
  - intros m Hm. apply negb_false_iff, bool_decide_eq_true_2. by apply list_elem_of_fmap_2.
Qed.

(** With fresh versions and scripts that succeed, the loop applies all that is
    pending. *)
Lemma apply_loop_complete execute existing ms acc l s x :
  sv_migrations s = Some l → NoDup (version <$> pending existing ms) →
  (∀ m, m ∈ pending existing ms → version m ∉ l.*1) →
  upgrade execute (pending existing ms) (sv_schema s) = Ok x →
  apply_loop execute read_text existing ms acc s =
    (Ok (acc ++ (version <$> pending existing ms)), Server x (Some (l ++ recorded (pending existing ms)))).
Proof.
  revert acc l s. induction ms as [|m ms IH]; intros acc l s Hl Hn Hnew Hu.
  { simpl in *. rewrite !app_nil_r. destruct s; simpl in *. by simplify_eq. }
  rewrite (apply_loop_cons _ _ _ _ _ l) by done. unfold pending in *. simpl List.filter in *.
  destruct (bool_decide (version m ∈ existing)); [by apply IH|]. simpl negb in *. cbv iota in *.
  rewrite fmap_cons, NoDup_cons in Hn. destruct Hn as [Hm Hn].
  match type of Hu with upgrade _ (m :: ?l') _ = _ => change (m :: l') with ([m] ++ l') in Hu end.
  rewrite upgrade_app in Hu. destruct (upgrade execute [m] (sv_schema s)) as [y|]; [|done].
  rewrite bool_decide_eq_false_2 by (apply Hnew; by left).
  rewrite (IH _ (l ++ [(version m, name m)])); [|done|done| |exact Hu].
  - rewrite fmap_cons. unfold recorded. by rewrite fmap_cons, <- !app_assoc.
  - intros m' Hm'. rewrite fmap_app, elem_of_app. intros [Hin|Hin].
    + by apply (Hnew m'); [right|].
    + apply list_elem_of_singleton in Hin. simpl in Hin. apply Hm. rewrite <- Hin.
      by apply list_elem_of_fmap_2.
Qed.
Lemma pending_new existing ms m : m ∈ pending existing ms → version m ∉ existing.
Proof.
  intros [_ Hm]%list_elem_of_In%filter_In. by apply negb_true_iff, bool_decide_eq_false in Hm.
Qed.
Lemma pending_NoDup existing ms : NoDup (version <$> ms) → NoDup (version <$> pending existing ms).
Proof.
  unfold pending. induction ms as [|m ms IH]; [done|]. rewrite fmap_cons, NoDup_cons. intros [Hm Hms].
  simpl. destruct (negb _); [|by apply IH]. rewrite fmap_cons, NoDup_cons. split; [|by apply IH].
  intros (m' & Hv & [Hin _]%list_elem_of_In%filter_In)%list_elem_of_fmap. apply Hm.
  rewrite Hv. by apply list_elem_of_fmap_2, list_elem_of_In.
Qed.

Lemma server_eta s l : sv_migrations s = Some l → s = Server (sv_schema s) (Some l).
Proof. by destruct s; simpl; intros ->. Qed.
End Facts.

(** C24. A migration run applies a prefix: the pending migrations, in the order of
    the plan, are applied and recorded one by one up to the first that fails, each
    with its record or not at all; a run that returns has applied all of them and
    reports their versions; a run that raises left the rest, the failing one
    first, unapplied and unrecorded. *)
Theorem apply_pending_prefix {S} (read_text : string → result exn string)
    (execute : string → S → result exn S) (given : option (list Migration))
    (dir : list (string * bool)) (s s' : server S) (r : result exn (list string)) :
  apply_pending execute read_text given dir s = (r, s') →
  ∃ finished rest, pending (rows s).*1 (plan given dir) = finished ++ rest ∧
    upgrade read_text execute finished (sv_schema s) = Ok (sv_schema s') ∧
    sv_migrations s' = Some (rows s ++ recorded finished) ∧
    match r with
    | Ok vs => rest = [] ∧ vs = version <$> finished
    | Raise e => ∃ m rest', rest = m :: rest' ∧
        (upgrade read_text execute [m] (sv_schema s') = Raise e ∨
         e = EPg (UniqueViolation "schema_migrations_pkey") ∧
         version m ∈ (rows s).*1 ++ (version <$> finished))
    end.
Proof.
  rewrite apply_pending_loop. intros E.
  by apply (apply_loop_progress read_text execute _ _ _ (rows s)) in E.
Qed.

(** An interrupted upgrade resumes where it stopped: when a run failed and a
    later one, on a server that executes at least what the first did, completes,
    the database is what one uninterrupted run would have left, and no script ran
    twice. *)
Theorem apply_pending_resumes {S} (read_text : string → result exn string)
    (faulty execute : string → S → result exn S) (given : option (list Migration))
    (dir : list (string * bool)) (s s1 s2 : server S) (e : exn) (vs : list string) :
  (∀ sql x y, faulty sql x = Ok y → execute sql x = Ok y) →
  NoDup (version <$> plan given dir) →
  apply_pending faulty read_text given dir s = (Raise e, s1) →
  apply_pending execute read_text given dir s1 = (Ok vs, s2) →
  ∃ vs1, apply_pending execute read_text given dir s = (Ok (vs1 ++ vs), s2) ∧
    (rows s1).*1 = (rows s).*1 ++ vs1.
Proof.
  intros Hagree Hnd E1 E2. rewrite !apply_pending_loop in *.
  apply (apply_loop_progress read_text faulty _ _ _ (rows s)) in E1 as (f1 & r1 & Hp1 & Hu1 & Hm1 & _);
    [|done].
  apply (apply_loop_progress read_text execute _ _ _ (rows s1)) in E2 as (f2 & r2 & Hp2 & Hu2 & Hm2 & -> & ->);
    [|done].
  assert (rows s1 = rows s ++ recorded f1) as Hrows by (unfold rows at 1; by rewrite Hm1).
  assert (NoDup (version <$> f1 ++ r1)) as Hn1 by (rewrite <- Hp1; by apply pending_NoDup).
  assert (f2 = r1) as ->.
  { rewrite app_nil_r in Hp2. rewrite <- Hp2, Hrows, fmap_app, recorded_versions, pending_app, Hp1.
    by apply pending_done. }
  exists (version <$> f1). split.
  2: by rewrite Hrows, fmap_app, recorded_versions.
  assert (∀ ms x y, upgrade read_text faulty ms x = Ok y → upgrade read_text execute ms x = Ok y) as Hup.
  { induction ms as [|m ms IH]; intros x y; simpl; [done|].
    destruct (read_text (up_path m)) as [sql|]; simpl; [|done].
    destruct (faulty sql x) as [z|] eqn:Ef; simpl; [|done]. rewrite (Hagree _ _ _ Ef). apply IH. }
  rewrite (apply_loop_complete read_text execute _ _ _ (rows s) _ (sv_schema s2));
    [|done|by rewrite Hp1|intros m; apply pending_new|].
  - rewrite Hp1, fmap_app. simpl. f_equal. rewrite (server_eta s2 _ Hm2), Hrows. f_equal.
    unfold recorded. by rewrite fmap_app, app_assoc.
  - rewrite Hp1, upgrade_app. simpl in Hu1 |- *. by rewrite (Hup _ _ _ Hu1).
Qed.

(** Rolling back one migration just applied. *)
Lemma rollback_last {S} (read_text : string → result exn string) (execute : string → S → result exn S)
    dir m down sql x y l :
  NoDup (version <$> discover_migrations dir) → m ∈ discover_migrations dir →
  down_path m = Some down → read_text down = Ok sql → execute sql y = Ok x → version m ∉ l.*1 →
  rollback_one execute read_text dir (version m) (Server y (Some (l ++ [(version m, name m)]))) =
    (Ok tt, Server x (Some l)).
Proof.
  intros Hnd Hin Hd Hr Hx Hl. unfold rollback_one.
  assert (List.find (λ m', str_eqb (version m') (version m)) (rev (discover_migrations dir)) = Some m) as ->.
  { assert (∃ m', List.find (λ m', str_eqb (version m') (version m)) (rev (discover_migrations dir)) = Some m')
      as [m' Hf].
    { destruct (List.find _ _) eqn:Ef; [by eauto|]. exfalso.
      assert (In m (rev (discover_migrations dir))) as Hr' by (by apply in_rev; rewrite rev_involutive; apply list_elem_of_In).
      pose proof (find_none _ _ Ef m Hr') as Hn. simpl in Hn. by rewrite str_eqb_refl in Hn. }
    rewrite Hf. apply find_some in Hf as [Hm' Hv%str_eqb_eq]. f_equal.
    apply in_rev, list_elem_of_In in Hm'. revert Hnd Hin Hm' Hv. clear.
    induction (discover_migrations dir) as [|a ms IH]; [by intros _ ?%not_elem_of_nil|].
    rewrite fmap_cons, NoDup_cons, !elem_of_cons. intros [Ha Hms] Hm Hm' Hv.
    destruct Hm as [->|Hm], Hm' as [->|Hm']; [done| | |by apply IH];
      exfalso; apply Ha; [rewrite <- Hv|rewrite Hv]; by apply list_elem_of_fmap_2. }
  rewrite Hd, Hr. run_prog. rewrite bool_decide_eq_true_2.
  2: { rewrite fmap_app, elem_of_app. right. by left. }
  unfold transaction, execute_sql. run_prog. rewrite Hx. simpl. do 3 f_equal.
  rewrite List.filter_app. simpl. rewrite str_eqb_refl. simpl. rewrite app_nil_r.
  clear -Hl. induction l as [|[v n] l IH]; [done|]. rewrite fmap_cons, not_elem_of_cons in Hl. simpl in *.
  destruct Hl as [Hv Hl]. rewrite (IH Hl). rewrite (proj2 (str_eqb_neq v (version m))); [done|congruence].
Qed.

(** Down scripts undo the upgrade: when every migration has a down script that
    inverts its up script, rolling back what a run applied, last first, restores
    the schema and the record the run started from. *)
Theorem rollback_restores {S} (read_text : string → result exn string) (execute : string → S → result exn S)
    (dir : list (string * bool)) (s s' : server S) (vs : list string) :
  NoDup (version <$> discover_migrations dir) →
  (∀ m, m ∈ discover_migrations dir → ∃ down up_sql down_sql,
     down_path m = Some down ∧ read_text (up_path m) = Ok up_sql ∧ read_text down = Ok down_sql ∧
     ∀ x y, execute up_sql x = Ok y → execute down_sql y = Ok x) →
  apply_pending execute read_text None dir s = (Ok vs, s') →
  for_each (rev vs) (rollback_one execute read_text dir) s' =
    (Ok tt, Server (sv_schema s) (Some (rows s))).
Proof.
  intros Hnd Hinv E. rewrite apply_pending_loop in E.
  apply (apply_loop_progress read_text execute _ _ _ (rows s)) in E as (fin & rest & Hp & Hu & Hm & -> & ->);
    [|done]. rewrite app_nil_r in Hp. simpl in Hp, Hu.
  assert (NoDup (version <$> fin)) as Hn by (rewrite <- Hp; by apply pending_NoDup).
  assert (∀ m, m ∈ fin → m ∈ discover_migrations dir ∧ version m ∉ (rows s).*1) as Hin.
  { intros m Hfin. rewrite <- Hp in Hfin. split; [|by eapply pending_new].
    apply list_elem_of_In, filter_In in Hfin as [Hd _]. by apply list_elem_of_In. }
  rewrite (server_eta s' _ Hm). clear Hm Hp. revert Hn Hin Hu. generalize (sv_schema s') as y. simpl.
  induction fin as [|m fin IH] using rev_ind; intros y Hn Hin Hu.
  { injection Hu as ->. by rewrite app_nil_r. }
  rewrite upgrade_app in Hu. destruct (upgrade read_text execute fin (sv_schema s)) as [z|]; [|done].
  destruct (Hin m) as [Hdir Hnew]; [apply elem_of_app; right; by left|].
  destruct (Hinv m Hdir) as (down & us & ds & Hd & Hus & Hds & Hback). simpl in Hu. rewrite Hus in Hu.
  simpl in Hu. destruct (execute us z) as [y'|] eqn:Ex; [|done]. simpl in Hu. injection Hu as <-.
  rewrite fmap_app, NoDup_app in Hn. destruct Hn as (Hn1 & Hn2 & _).
  rewrite fmap_app, rev_app_distr. simpl. unfold recorded. rewrite fmap_app, app_assoc.
  erewrite bind_ok; [|eapply (rollback_last read_text execute dir m down ds z); eauto].
  - apply IH; [done| |done]. intros m' Hm'. apply Hin. apply elem_of_app. by left.
  - rewrite fmap_app, elem_of_app. fold (recorded fin). rewrite recorded_versions.
    intros [?|Hv]; [done|]. apply (Hn2 _ Hv). by left.
Qed.

(** * Discovery *)
Lemma file_match_digits suffix f g : file_match suffix f = Some g → sall is_digit g.1 = true.
Proof.
  unfold file_match. destruct (span is_digit _) as [v rest] eqn:E. apply span_spec in E as [_ Hv].
  destruct (_ <? 3)%nat; [done|]. destruct rest as [|c rest]; [done|].
  intros Hg. repeat (case_match; try done); by simplify_eq.
Qed.
Lemma split_pair_key g : sall is_digit g.1 = true → split_key (pair_key g) = g.
Proof.
  destruct g as [v n]. unfold split_key, pair_key. simpl. induction v as [|c v IH]; intros Hv.
  - done.
  - simpl in Hv. apply andb_true_iff in Hv as [Hc Hv]. specialize (IH Hv). sapp. simpl.
    assert (ascii_eqb c "_" = false) as ->.
    { apply ascii_eqb_neq. by intros ->. }
    simpl. destruct (span _ (v +:+ _)) as [a b]. simpl in *. by simplify_eq.
Qed.

Lemma patterns_disjoint f g : UP_PATTERN f = Some g → DOWN_PATTERN f = None.
Proof.
  unfold UP_PATTERN, DOWN_PATTERN, file_match. destruct (span is_digit _) as [v rest].
  destruct (_ <? 3)%nat; [done|]. destruct rest as [|c rest]; [done|].
  intros Hg. repeat (case_match; try done).
  all: repeat match goal with H : _ && _ = true |- _ => apply andb_true_iff in H as [? ?] end;
    repeat match goal with H : str_eqb _ _ = true |- _ => apply str_eqb_eq in H end; congruence.
Qed.

(** [pairs] holds exactly what the entries read so far say. *)
Definition pairs_ok (seen : list (string * bool)) (pairs : list (string * files)) : Prop :=
  NoDup (dkeys pairs) ∧
  (∀ k fs f, dget k pairs = Some fs → f_up fs = Some f →
     (f, true) ∈ seen ∧ ∃ g, UP_PATTERN f = Some g ∧ k = pair_key g) ∧
  (∀ k fs f, dget k pairs = Some fs → f_down fs = Some f →
     (f, true) ∈ seen ∧ ∃ g, DOWN_PATTERN f = Some g ∧ k = pair_key g) ∧
  (∀ f g, (f, true) ∈ seen → UP_PATTERN f = Some g →
     ∃ fs u, dget (pair_key g) pairs = Some fs ∧ f_up fs = Some u) ∧
  (∀ f g, (f, true) ∈ seen → DOWN_PATTERN f = Some g →
     ∃ fs d, dget (pair_key g) pairs = Some fs ∧ f_down fs = Some d).

(** Assigning one slot of a key. *)
Lemma dget_assign {V} k k' (v : V) d : dget k' (dset k v d) = if str_eqb k k' then Some v else dget k' d.
Proof.
  destruct (str_eqb k k') eqn:E.
  - apply str_eqb_eq in E as ->. apply dget_dset_eq.
  - apply str_eqb_neq in E. by apply dget_dset_ne.
Qed.

(** A kept key keeps its slots; [pick] is the slot a clause of [pairs_ok] reads. *)
Lemma dget_assign_kept k (fs' : files) pairs k' (pick : files → option string) fs u :
  dget k' pairs = Some fs → pick fs = Some u →
  (k = k' → ∃ u', pick fs' = Some u') →
  ∃ fs u, dget k' (dset k fs' pairs) = Some fs ∧ pick fs = Some u.
Proof.
  intros Hg Hp Hk. rewrite dget_assign. destruct (str_eqb k k') eqn:E; [|by eauto].
  apply str_eqb_eq in E. destruct (Hk E) as [u' Hu']. eauto.
Qed.

Lemma add_entry_ok seen pairs e : pairs_ok seen pairs → pairs_ok (seen ++ [e]) (add_entry pairs e).
Proof.
  intros (Hn & Hu & Hd & Hcu & Hcd). destruct e as [f b].
  assert (∀ x, (x, true) ∈ seen → (x, true) ∈ seen ++ [(f, b)]) as Hmono
    by (intros x Hx; apply elem_of_app; by left).
  assert ((f, true) ∈ seen ++ [(f, true)]) as Hself by (apply elem_of_app; right; by left).
  assert (∀ (P : string → string * string → Prop), (b = true → ∀ g, P f g) →
    (∀ x g, (x, true) ∈ seen → P x g) → ∀ x g, (x, true) ∈ seen ++ [(f, b)] → P x g) as Hsplit.
  { intros P Hf Hs x g [Hx|Hx%list_elem_of_singleton]%elem_of_app; [by apply Hs|].
    injection Hx as -> <-. by apply Hf. }
  unfold add_entry. destruct b; simpl.
  2: { split_and!; [done|naive_solver|naive_solver| |];
       (refine (Hsplit _ _ _); [done|naive_solver]). }
  destruct (UP_PATTERN f) as [g|] eqn:Eu; [|destruct (DOWN_PATTERN f) as [g|] eqn:Ed].
  - pose proof (patterns_disjoint f g Eu) as Ed. split_and!; [by apply NoDup_dset| | | |].
    + intros k fs x. rewrite dget_assign. destruct (str_eqb _ k) eqn:Ek; [|naive_solver].
      apply str_eqb_eq in Ek as <-. intros [= <-] [= <-]. eauto.
    + intros k fs x. rewrite dget_assign. destruct (str_eqb _ k) eqn:Ek; [|naive_solver].
      apply str_eqb_eq in Ek as <-. intros [= <-]. simpl.
      destruct (dget (pair_key g) pairs) eqn:Eg; simpl; [naive_solver|done].
    + refine (Hsplit _ _ _).
      * intros _ g' Hg. simplify_eq. rewrite dget_dset_eq. eauto.
      * intros x g' Hx Hg. destruct (Hcu x g' Hx Hg) as (fs & u & ? & ?).
        eapply dget_assign_kept; simpl; eauto.
    + refine (Hsplit _ _ _); [congruence|].
      intros x g' Hx Hg. destruct (Hcd x g' Hx Hg) as (fs & u & Hfs & ?).
      eapply dget_assign_kept; [done..|]. intros ->. rewrite Hfs. simpl. eauto.
  - split_and!; [by apply NoDup_dset| | | |].
    + intros k fs x. rewrite dget_assign. destruct (str_eqb _ k) eqn:Ek; [|naive_solver].
      apply str_eqb_eq in Ek as <-. intros [= <-]. simpl.
      destruct (dget (pair_key g) pairs) eqn:Eg; simpl; [naive_solver|done].
    + intros k fs x. rewrite dget_assign. destruct (str_eqb _ k) eqn:Ek; [|naive_solver].
      apply str_eqb_eq in Ek as <-. intros [= <-] [= <-]. eauto.
    + refine (Hsplit _ _ _); [congruence|].
      intros x g' Hx Hg. destruct (Hcu x g' Hx Hg) as (fs & u & Hfs & ?).
      eapply dget_assign_kept; [done..|]. intros ->. rewrite Hfs. simpl. eauto.
    + refine (Hsplit _ _ _).
      * intros _ g' Hg. simplify_eq. rewrite dget_dset_eq. eauto.
      * intros x g' Hx Hg. destruct (Hcd x g' Hx Hg) as (fs & u & ? & ?).
        eapply dget_assign_kept; simpl; eauto.
  - split_and!; [done|naive_solver|naive_solver| |];
      (refine (Hsplit _ _ _); [congruence|naive_solver]).
Qed.
Lemma add_entries_ok l seen pairs : pairs_ok seen pairs → pairs_ok (seen ++ l) (foldl add_entry pairs l).
Proof.
  revert seen pairs. induction l as [|e l IH]; intros seen pairs Hp; simpl; [by rewrite app_nil_r|].
  replace (seen ++ e :: l) with ((seen ++ [e]) ++ l) by (by rewrite <- app_assoc).
  by apply IH, add_entry_ok.
Qed.

Lemma insert_entry_perm x l : insert_entry x l ≡ₚ x :: l.
Proof.
  induction l as [|y l IH]; simpl; [done|]. destruct (entry_leb x y); [done|].
  rewrite IH. apply Permutation_swap.
Qed.
Lemma sort_entries_perm l : foldr insert_entry [] l ≡ₚ l.
Proof. induction l as [|x l IH]; simpl; [done|]. by rewrite insert_entry_perm, IH. Qed.
Lemma read_directory dir : pairs_ok dir (foldl add_entry [] (foldr insert_entry [] dir)).
Proof.
  assert (∀ e, e ∈ foldr insert_entry [] dir ↔ e ∈ dir) as He by (intros e; by rewrite sort_entries_perm).
  destruct (add_entries_ok (foldr insert_entry [] dir) [] []) as (H1 & H2 & H3 & H4 & H5).
  { split_and!; [constructor|..]; try done; by intros ? ? ?%not_elem_of_nil. }
  simpl in *. split_and!; [done|..].
  - intros k fs f Hk Hf. destruct (H2 k fs f Hk Hf) as [?%He ?]. done.
  - intros k fs f Hk Hf. destruct (H3 k fs f Hk Hf) as [?%He ?]. done.
  - intros f g Hf%He. by apply H4.
  - intros f g Hf%He. by apply H5.
Qed.

Definition key_of (m : Migration) : string := pair_key (version m, name m).
Definition key_leb (a b : Migration) : Prop := str_leb (key_of a) (key_of b) = true.

(** The keys of the migrations are those read, in their order. *)
Lemma migration_key seen pairs k m : pairs_ok seen pairs → migration_of pairs k = Some m → key_of m = k.
Proof.
  intros (_ & Hu & _) Hm. unfold migration_of in Hm. destruct (dget k pairs) as [fs|] eqn:Ek; [|done].
  simpl in Hm. destruct (f_up fs) as [u|] eqn:Eu; [|done]. simpl in Hm.
  destruct (Hu k fs u Ek Eu) as (_ & g & Hg & ->).
  rewrite split_pair_key in Hm by (by eapply file_match_digits). destruct g as [v n].
  by simplify_eq.
Qed.
Lemma omap_keys_sorted pairs seen ks : pairs_ok seen pairs →
  StronglySorted (λ a b, str_leb a b = true) ks → StronglySorted key_leb (omap (migration_of pairs) ks).
Proof.
  intros Hp. induction 1 as [|k ks Hs IH Hk]; simpl; [constructor|].
  destruct (migration_of pairs k) as [m|] eqn:Em; [|done]. constructor; [done|].
  apply List.Forall_forall. intros m' Hm'. apply list_elem_of_In, list_elem_of_omap in Hm' as (k' & Hk' & Em').
  unfold key_leb. rewrite (migration_key _ _ _ _ Hp Em), (migration_key _ _ _ _ Hp Em').
  rewrite List.Forall_forall in Hk. by apply Hk, list_elem_of_In.
Qed.
Lemma omap_keys_NoDup pairs seen ks : pairs_ok seen pairs →
  NoDup ks → NoDup (key_of <$> omap (migration_of pairs) ks).
Proof.
  intros Hp. induction 1 as [|k ks Hk Hn IH]; simpl; [constructor|].
  destruct (migration_of pairs k) as [m|] eqn:Em; [|done]. rewrite fmap_cons. constructor; [|done].
  intros (m' & Hm' & (k' & Hk' & Em')%list_elem_of_omap)%list_elem_of_fmap. apply Hk.
  rewrite (migration_key _ _ _ _ Hp Em), (migration_key _ _ _ _ Hp Em') in Hm'. by subst.
Qed.

(** Discovery reads the directory faithfully: the migrations come in the order
    of their file names without repetition, each from an up script of the directory
    that carries its version and name, with a down script of the same version and
    name exactly when the directory has one; every up script is discovered. *)
Theorem discover_faithful (dir : list (string * bool)) :
  StronglySorted key_leb (discover_migrations dir) ∧
  NoDup (key_of <$> discover_migrations dir) ∧
  (∀ m, m ∈ discover_migrations dir →
    (up_path m, true) ∈ dir ∧ UP_PATTERN (up_path m) = Some (version m, name m) ∧
    match down_path m with
    | Some d => (d, true) ∈ dir ∧ DOWN_PATTERN d = Some (version m, name m)
    | None => ∀ d, (d, true) ∈ dir → DOWN_PATTERN d ≠ Some (version m, name m)
    end) ∧
  (∀ f g, (f, true) ∈ dir → UP_PATTERN f = Some g →
    ∃ m, m ∈ discover_migrations dir ∧ (version m, name m) = g).
Proof.
  pose proof (read_directory dir) as Hp. unfold discover_migrations.
  set (pairs := foldl add_entry [] _) in *. pose proof Hp as (Hn & Hu & Hd & Hcu & Hcd).
  split_and!.
  - apply (omap_keys_sorted pairs dir); [done|apply sort_strs_sorted].
  - apply (omap_keys_NoDup pairs dir); [done|]. by rewrite sort_strs_perm.
  - intros m (k & Hk & Em)%list_elem_of_omap. pose proof (migration_key dir _ _ _ Hp Em) as Hkey.
    unfold migration_of in Em.
    destruct (dget k pairs) as [fs|] eqn:Ek; [|done]. simpl in Em.
    destruct (f_up fs) as [u|] eqn:Eu; [|done]. simpl in Em.
    destruct (Hu k fs u Ek Eu) as (Hin & g & Hg & ->).
    assert (∀ suffix f g', file_match suffix f = Some g' → pair_key g = pair_key g' → g' = g) as Hinj.
    { intros suf f g' Hf He. rewrite <- (split_pair_key g'), <- He by (by eapply file_match_digits).
      by apply split_pair_key; eapply file_match_digits. }
    rewrite split_pair_key in Em by (by eapply file_match_digits). destruct g as [v n].
    injection Em as <-. simpl. split_and!; [done..|].
    destruct (f_down fs) as [d|] eqn:Ed.
    + destruct (Hd _ fs d Ek Ed) as (? & g' & Hg' & He). split; [done|].
      rewrite Hg'. f_equal. by eapply Hinj.
    + intros d Hdir Hpat. destruct (Hcd d _ Hdir Hpat) as (fs' & d' & Hfs' & Hd'). congruence.
  - intros f g Hf Hg. destruct (Hcu f g Hf Hg) as (fs & u & Hfs & Hup).
    exists {| version := g.1; name := g.2; up_path := u; down_path := f_down fs |}.
    split; [|by destruct g]. apply list_elem_of_omap. exists (pair_key g). split.
    + apply elem_of_sort_strs, list_elem_of_fmap_2 with (f := fst) (x := (pair_key g, fs)), dget_elem_of. done.
    + unfold migration_of. rewrite Hfs. simpl. rewrite Hup. simpl.
      by rewrite split_pair_key by (by eapply file_match_digits); destruct g.
Qed.

(** * A directory and a server *)
Module MigrationSamples.
Definition directory : list (string * bool) :=
  [("013_audit_kind_widening.up.sql", true); ("012_rls_restrictive.down.sql", true);
   ("011_row_level_security.sql", true); ("012_rls_restrictive.up.sql", true);
   ("013_audit_kind_widening.down.sql", true); ("archive", false)].
(** A schema is the stack of the changes made; a script's text names its change. *)
Definition run_script (sql : string) (x : list string) : result exn (list string) :=
  match UP_PATTERN sql, DOWN_PATTERN sql, x with
  | Some g, _, _ => Ok (pair_key g :: x)
  | None, Some g, k :: x' => if str_eqb k (pair_key g) then Ok x' else Raise (EPg (SqlError "order"))
  | _, _, _ => Raise (EPg (SqlError "syntax"))
  end.
Definition run_faulty (sql : string) (x : list string) : result exn (list string) :=
  if str_eqb sql "013_audit_kind_widening.up.sql" then Raise (EPg (SqlError "timeout")) else run_script sql x.
Definition text (path : string) : result exn string := Ok path.
Definition fresh : server (list string) := Server [] None.
Definition half : server (list string) := (apply_pending run_faulty text None directory fresh).2.
Definition full : server (list string) := (apply_pending run_script text None directory fresh).2.
End MigrationSamples.
Import MigrationSamples.

Lemma apply_pending_prefix_witness :
  ∃ finished rest, pending (rows fresh).*1 (plan None directory) = finished ++ rest ∧
    upgrade text run_faulty finished [] = Ok (sv_schema half) ∧
    sv_migrations half = Some (rows fresh ++ recorded finished) ∧
    ∃ m rest', rest = m :: rest' ∧
      (upgrade text run_faulty [m] (sv_schema half) = Raise (EPg (SqlError "timeout")) ∨
       EPg (SqlError "timeout") = EPg (UniqueViolation "schema_migrations_pkey") ∧
       version m ∈ (rows fresh).*1 ++ (version <$> finished)).
Proof.
  apply (apply_pending_prefix text run_faulty None directory fresh half (Raise (EPg (SqlError "timeout")))).
  vm_compute. reflexivity.
Defined.
Lemma apply_pending_resumes_witness :
  ∃ vs1, apply_pending run_script text None directory fresh = (Ok (vs1 ++ ["013"]), full) ∧
    (rows half).*1 = (rows fresh).*1 ++ vs1.
Proof.
  apply (apply_pending_resumes text run_faulty run_script None directory fresh half full
           (EPg (SqlError "timeout")) ["013"]).
  - intros sql x y. unfold run_faulty. by destruct (str_eqb sql _).
  - by apply (bool_decide_unpack _); vm_compute.
  - vm_compute. reflexivity.
  - vm_compute. reflexivity.
Defined.
Lemma rollback_restores_witness :
  for_each (rev ["012"; "013"]) (rollback_one run_script text directory) full =
    (Ok tt, Server (sv_schema fresh) (Some (rows fresh))).
Proof.
  apply (rollback_restores text run_script directory fresh full ["012"; "013"]).
  - by apply (bool_decide_unpack _); vm_compute.
  - intros m Hm. assert (m = {| version := "012"; name := "rls_restrictive";
        up_path := "012_rls_restrictive.up.sql"; down_path := Some "012_rls_restrictive.down.sql" |} ∨
      m = {| version := "013"; name := "audit_kind_widening";
        up_path := "013_audit_kind_widening.up.sql"; down_path := Some "013_audit_kind_widening.down.sql" |})
      as Hcases.
    { apply list_elem_of_In in Hm. vm_compute in Hm. destruct Hm as [<-|[<-|[]]]; [by left|by right]. }
    destruct Hcases as [-> | ->]; eexists _, _, _; (split_and!; [reflexivity..|]);
      intros x y Hy; unfold run_script in *; vm_compute in Hy; injection Hy as <-; reflexivity.
  - vm_compute. reflexivity.
Defined.
